(* ===== verification/_CoqProject ===== *)
-Q . S2P
Prelude.v
Rc4.v
PyText.v
PyPath.v
Urls.v
PyBytes.v
Base64.v
Pages.v
Human.v
Password.v
Firewall.v
Table.v
Session.v
Cloud.v
Quota.v
JobModel.v
InstanceModel.v
Web.v
Forms.v
LifeControl.v
Myun.v
MyStorage.v
MyNetwork.v
MyDomain.v
MyCreate.v
NetworkAdmin.v
MyRoutes.v
Account.v
Message.v
Forum.v
ForumVotes.v
ForumTexts.v
AppStore.v
AppSafety.v
SiteContent.v
SiteOk.v
OpsAdmin.v
Lists.v
Api.v
MailStore.v
MailTo.v
MailQueue.v
Register.v
QQLogin.v
Setup.v
UserDelete.v
UserAdmin.v
AdminPages.v
UserPages.v
AccountSafety.v
Site.v
AccountKeys.v
Reach.v
LycStream.v
LycLoop.v
ClcServer.v
OsmWire.v
OsmAgent.v
OsmApp.v
GuestConf.v
GuestWeb.v
WinAgent.v
WinWeb.v
