(* ===== verification/Prelude.v ===== *)
(** * LuoYunCloud: a verification library for the Python parts of the cloud

    LuoYunCloud runs virtual machines (instances, made from appliances) for users with
    quotas. Its Python programs are
    - the web application (src/lyweb: tornado handlers over an SQLAlchemy database), which
      owns all data and leaves jobs for a controller;
    - the cloud controller's message layer and message handlers (src/lyweb/lib/lyc,
      src/lyweb/tool/clc), and the daemons that send mail (src/lyweb/lib/yweb/mail.py,
      quemail.py, src/lyweb/tool/lymaster.py);
    - the program that sets the database up (src/lyweb/manage.py);
    - the port forwarding tool (src/lyweb/tool/firewall.py), which drives iptables;
    - the programs inside a virtual machine: the agent (src/osmanager/bin/pyosm), the
      configuration of the machine (pyosc), its web server (pyweb), and the agent and web
      server of machines with Windows (src/win-osmanager/LuoYun/bin).
    The controller and node daemons in C (src/platform) are another program; they appear as
    what the modelled code sends and receives.

    ** How the parts interact

    A web request runs on one database session. [Session] models it: a world holds the
    database as the session sees it, the committed database, and the effects (answers, mail,
    jobs, firewall calls). [commit] copies the first into the second, the end of a request
    drops what was not committed, an exception ends the handler. A handler is a value of
    [Web Cloud A]; [request m s] is the committed database and the effects that serving [m]
    on the database [s] leaves. Handlers of several parts share the tables of [Cloud]: the
    store of appliances looks at instances, quotas at instances and storages, creating an
    instance binds an address, deleting one releases addresses, ports, names and storages.
    A page that wants mail sent leaves a message for the controller, whose handler ([MailTo])
    puts mails into a store on disk, which a thread ([MailStore]) empties over SMTP.

    [Site.serves] is the relation of all requests that may write, of every part, and
    [Reach.reachable] the databases the site can get to: from the empty one by setting up,
    by requests in any order, and by what the platform writes. [Site.permissions_safe] and
    [Reach.reachable_ok] are about all parts together.

    ** Files

    Common:
    - [Prelude]: notations, tactics, hint databases ([ly], [ly_simpl]; [web] is in Session).
    - [PyText], [PyBytes], [Base64], [PyPath]: Python 2's text, struct, base64, paths and
      addresses as the code uses them.
    - [Table]: tables with primary keys and sequences, record update [r <| f := v |>],
      queries ordered by id, the interface [HasTable] of a database with a table of a type.
    - [Session]: the request monad, relations a program keeps ([keeps], [frozen], [tracks],
      [inv_rel]), and its step lemmas (rewrite database [web], tactic [web_run]).

    The agent (src/osmanager/bin/pyosm):
    - [Rc4] lyauth.py; [OsmWire] lyutil.py, lydef.py; [OsmAgent] lyconf.py, lyconn.py,
      lyproc.py; [OsmApp] lyapp.py, lyosm.py. [GuestConf] pyosc/osconfig.py; [GuestWeb]
      pyweb/lyweb.py, luoyuninfo.py. For Windows: [WinAgent] lyconf.py, lyconn.py, lyosm.py,
      lyip.py (its other modules are those of the agent); [WinWeb] pyweb/lyweb.py.

    The controller's message layer (src/lyweb/lib/lyc): [LycStream] handler.py,
    [LycLoop] ioloop.py; [ClcServer] puts them together with the handlers of
    tool/clc/handler/base.py, clcapp.py and netutil.py: the whole server. The port forwarding tool: [Firewall] tool/firewall.py.

    The web application (src/lyweb/app unless said otherwise):
    - [Cloud]: the rows of every models.py that is used, and the database.
    - [Password] auth/utils.py; [Web] lycustom.py (current user, permissions, arguments),
      tool/domain.py; [Forms] lib/yweb/forms.py over WTForms; [Pages]
      lib/yweb/utils/pagination.py; [Human] lib/yweb/utils/filesize.py; [Urls] the addresses
      that lycustom.py builds.
    - [Setup]: manage.py with the defaults of settings.py, tool/add_default_network.py.
    - [Quota] account/models.py and resource/models.py; [JobModel] job/models.py;
      [InstanceModel] instance/models.py.
    - [LifeControl] instance/views.py: run, stop, query, attributes, deletion, viewing.
    - [Myun], [MyStorage], [MyNetwork], [MyDomain], [MyCreate], [MyRoutes] myun: a user's own
      instances.
    - [NetworkAdmin] network/admin_views.py; [Account], [Register], [AccountSafety],
      [AccountKeys] account, registration and auth; [QQLogin] login by QQ with
      lib/yweb/auth.py; [UserAdmin] admin/user_views.py,
      admin/group_views.py, resource/admin_views.py; [UserDelete] the deletion of a user.
    - [Message] message; [Forum], [ForumVotes], [ForumTexts] forum; [AppStore], [AppSafety]
      appliance, admin/appliance_views.py, myun/appliance; [SiteContent], [SiteOk]
      site/admin_views.py, system/views.py, domain/admin_views.py,
      registration/admin_views.py; [OpsAdmin] node, job/views.py, admin/views.py,
      admin/instance_views.py, account/admin_views.py.
    - [Lists]: every list with pages (conditions, ORDER BY, slices, totals), of all parts;
      [Api] api/views.py, the JSON interface.
    - [MailTo] tool/clc/handler (mail to users, registration of nodes) with SiteJob;
      [MailStore] lib/yweb/mail.py; [MailQueue] lib/yweb/quemail.py and tool/lymaster.py.
    - [AdminPages], [UserPages]: the pages that only show, of the administration and of
      visitors and users (admin/*_views.py, site/admin_views.py, system/views.py,
      home/views.py and the start pages of the parts).
    - [Site]: every request that may write, of all of these parts; [Reach]: the states the
      site can reach, and the invariants of all parts in them.

    A definition has the name of the method or class it translates; where several handlers
    have one name ([Delete.get]) the part is added ([Delete_appliance]). The suffixes _get and
    _post tell the HTTP method.

    ** Groups of theorems

    - Safety across users: who may create jobs and see instances (LifeControl), pages under
      /myun leave the instances of others alone (MyRoutes), passwords change by their owners
      only (AccountSafety), messages, forum texts and appliances (Message, ForumTexts,
      AppSafety), permissions (Site), what lists and pages show and to whom (Lists,
      UserPages, AdminPages), login by QQ (QQLogin).
    - Quotas: remains are sums (Quota); running, editing and creating instances, storages,
      ports, addresses and names stay within them (LifeControl, Myun, MyCreate, MyStorage,
      MyNetwork, MyDomain).
    - Invariants of tables: users (AccountSafety), default keys (AccountKeys), names of domains
      (MyDomain), targets of ports (MyNetwork), counted votes (ForumVotes), keys of
      configurations, entries and articles (SiteOk); all of them in every reachable state,
      whatever part serves the requests (Reach).
    - Setting up: it ends with everything the settings name, only adds, and is idempotent
      (Setup).
    - Links keep what they should and survive any characters (Urls); sizes (Human).
    - Functional behaviour of single operations: login, deletion of instances and users, creation, attributes,
      configured gateways and networks, grants of resources, node requests, pages of lists,
      mail to a list of users, the JSON login.
    - Mail: what was accepted came to the server, waits on disk, or is one of those for which
      sendmail failed before the server had them; a pass delivers every listed mail, one failed connection ends all delivery (MailStore); the queue of lymaster
      is first in, first out (MailQueue).
    - Protocols: the cipher is its own inverse (Rc4), packets survive any cutting into chunks
      (OsmWire), the handshake accepts a controller that knows the key and no other
      (OsmAgent), the agent reports its state or will (OsmApp), the message stream refines a
      queue (LycStream), due timeouts run and deadlines are found (LycLoop), forwarding rules
      agree with the chain (Firewall). The controller's server in any state it can reach,
      and what one silent connection does to it (ClcServer).
    - Virtual machines: what the configuration changes on a machine and what it leaves
      (GuestConf), the files the web servers read (GuestWeb, WinWeb), and that the agent for
      Windows does what the other one does without discovery (WinAgent).

    The theorems hold of the code as it is, with its defects: where a handler misses a check,
    the statement says what it does instead, and an [Example] runs it.

    ** Conventions and bounds

    Integers are unbounded where Python's are; packet fields, column sizes and indices have
    their bounds written out. Text is a list of 8-bit characters: one byte per character.
    Times are whole seconds (milliseconds in LycLoop). Every argument of a request is given
    once; fields that take several values are arguments of the handlers. A query without an
    order is listed by id, but for the lists with pages, where ties come in any order. Loops over lists are structural; loops that wait on a socket, a
    clock or a file take fuel, and theorems say which fuel suffices ([OsmAgent], [OsmApp],
    [LycLoop.schedule_next_ends], [OpsAdmin.job_status_answers]: any number above the step at
    which the awaited event is there). The column [last_active] that [get_current_user] writes
    and counters of visits on pages that only read are not modelled.

    Code that is not in the repository is an interface or an argument: SHA-512, MD5, pickle,
    random keys and salts (classes [Sha512], [SessionCodec], arguments of requests), the
    JSON codec of messages and configurations ([LycStream.Codec], [SiteText]), IPy on IPv4
    addresses ([IPy]), dates ([Dates]), iptables and nginx ([Firewall.iptables_ok],
    [nginx_env]), Markdown, the answers of QQ and [parse_qs], the template of mails
    ([mail_template]), the order of rows by a column that is not kept ([Lists.Ranks]) and,
    for each request anew, of rows that are equal in it ([Lists.Ties]), what the database keeps of a
    number in a text column ([stored] in Setup). Members of mail messages have the types the
    pages send; writing into the mail store succeeds in [MailTo] (its failures are
    [MailStore]'s).

    ** Not modelled

    The platform in C; SQLAlchemy, tornado, WTForms, Mako, Markdown (libraries in the tree);
    SMTP itself; TLS; signals, processes and log files; the Windows service and its tray icon;
    templates, and with them what of the rows given to a template is shown; images, logos and
    avatars; the form of the nginx settings (system/views.py, [NginxEdit.get]), and the
    process-wide copy of them; handlers and scripts that nothing runs or that cannot run:
    tool/clc/handler/web.py (commented out where it is used), tool/upload-appliance.py (imports
    the missing ytool.ini), update0.4-to-0.5.py (imports IPPool from app.system.models, where
    it no longer is), the writing pages for INI files ([AdminPages.ini_pages_fail]).*)
From Stdlib Require Export ZArith Lia.
From stdpp Require Export base list gmap strings sorting numbers list_numbers.

#[global] Open Scope Z_scope.
#[global] Set Default Proof Using "Type".

(** ** Notation scope of the development *)

Declare Scope ly_scope.
Delimit Scope ly_scope with ly.
Notation "x 'or_else' y" := (match x with Some v => v | None => y end)
  (at level 60, right associativity, only parsing) : ly_scope.
#[global] Open Scope ly_scope.

(** ** Hint databases *)

Create HintDb ly discriminated.
Create Rewrite HintDb ly_simpl.

(** ** Tactics *)

(** Boolean comparisons in hypotheses and goal become propositions. *)
Ltac bool_prop :=
  repeat match goal with
  | H : andb _ _ = true |- _ => apply andb_prop in H; destruct H
  | H : orb _ _ = false |- _ => apply orb_false_iff in H; destruct H
  | H : negb _ = true |- _ => apply negb_true_iff in H
  | H : negb _ = false |- _ => apply negb_false_iff in H
  | H : (_ <? _) = true |- _ => apply Z.ltb_lt in H
  | H : (_ <? _) = false |- _ => apply Z.ltb_ge in H
  | H : (_ <=? _) = true |- _ => apply Z.leb_le in H
  | H : (_ <=? _) = false |- _ => apply Z.leb_gt in H
  | H : (_ =? _) = true |- _ => apply Z.eqb_eq in H
  | H : (_ =? _) = false |- _ => apply Z.eqb_neq in H
  | H : bool_decide _ = true |- _ => apply bool_decide_eq_true in H
  | H : bool_decide _ = false |- _ => apply bool_decide_eq_false in H
  end.

(** Case analysis on the innermost scrutinee of the goal. *)
Ltac break_match :=
  match goal with
  | |- context [match ?x with _ => _ end] =>
      lazymatch x with
      | context [match _ with _ => _ end] => fail
      | _ => destruct x eqn:?
      end
  end.

Ltac break_match_in H :=
  match type of H with
  | context [match ?x with _ => _ end] =>
      lazymatch x with
      | context [match _ with _ => _ end] => fail
      | _ => destruct x eqn:?
      end
  end.

(** [k in l] by cases on the list. *)
Lemma bool_decide_elem_nil (k : Z) : bool_decide (k ∈ []) = false.
Proof. apply bool_decide_false, not_elem_of_nil. Qed.
Lemma bool_decide_elem_cons (k i : Z) l :
  bool_decide (k ∈ i :: l) = (k =? i) || bool_decide (k ∈ l).
Proof.
  rewrite (bool_decide_ext _ (k = i ∨ k ∈ l)) by apply elem_of_cons.
  rewrite bool_decide_or. f_equal. by destruct (Z.eqb_spec k i); case_bool_decide.
Qed.
#[export] Hint Rewrite bool_decide_elem_nil bool_decide_elem_cons Z.eqb_refl : ly_simpl.

(** ** Python integer operators on [Z] ([/] and [%] round towards minus
    infinity, as [Z.div] and [Z.modulo] do for a positive divisor). *)

Lemma mod_small_range a n : 0 < n → 0 ≤ a mod n < n.
Proof. intros. by apply Z.mod_pos_bound. Qed.

(** ** Filtering *)

Lemma filter_nil_iff {A} (P : A → Prop) `{∀ x, Decision (P x)} (l : list A) :
  filter P l = [] ↔ Forall (λ x, ¬ P x) l.
Proof.
  split.
  - intros E. apply Forall_forall. intros x Hx Hp.
    by apply (filter_nil_not_elem_of P l x).
  - induction 1 as [|x l Hx _ IH]; [done|]. by rewrite filter_cons_False.
Qed.

(** ** Sums over lists *)

Definition sum_list_Z {A} (f : A → Z) (l : list A) : Z :=
  foldr (λ x acc, f x + acc) 0 l.

Section sums.
Context {A : Type} (f : A → Z).

Lemma sum_list_Z_nil : sum_list_Z f [] = 0.
Proof. done. Qed.
Lemma sum_list_Z_cons x l : sum_list_Z f (x :: l) = f x + sum_list_Z f l.
Proof. done. Qed.
Lemma sum_list_Z_app l k :
  sum_list_Z f (l ++ k) = sum_list_Z f l + sum_list_Z f k.
Proof. induction l as [|x l IH]; simpl; [done|]. rewrite IH. lia. Qed.
Lemma sum_list_Z_perm l k : l ≡ₚ k → sum_list_Z f l = sum_list_Z f k.
Proof. induction 1; simpl; try lia. Qed.
Lemma sum_list_Z_nonneg l :
  (∀ x, x ∈ l → 0 ≤ f x) → 0 ≤ sum_list_Z f l.
Proof.
  induction l as [|x l IH]; intros H; simpl; [lia|].
  pose proof (H x ltac:(set_solver)).
  assert (0 ≤ sum_list_Z f l) by (apply IH; set_solver). lia.
Qed.
(** An accumulating loop [for x in l: acc += f x] is the sum. *)
Lemma foldl_sum_list_Z l acc :
  foldl (λ a x, a + f x) acc l = acc + sum_list_Z f l.
Proof. revert acc; induction l as [|x l IH]; intros acc; simpl; [lia|].
  rewrite IH. lia. Qed.
End sums.

#[export] Instance sum_list_Z_Proper {A} (f : A → Z) :
  Proper ((≡ₚ) ==> (=)) (sum_list_Z f).
Proof. intros l k H. by apply sum_list_Z_perm. Qed.

#[export] Hint Rewrite @sum_list_Z_nil @sum_list_Z_cons @sum_list_Z_app : ly_simpl.

(** ** Bytes: integers in [0, 256) *)

Definition is_byte (z : Z) : Prop := 0 ≤ z < 256.
#[export] Instance is_byte_dec z : Decision (is_byte z).
Proof. unfold is_byte. apply _. Defined.

Lemma lxor_byte a b : is_byte a → is_byte b → is_byte (Z.lxor a b).
Proof.
  unfold is_byte. intros Ha Hb.
  split; [apply Z.lxor_nonneg; lia|].
  destruct (decide (Z.lxor a b = 0)) as [->|Hne]; [lia|].
  assert (0 ≤ Z.lxor a b) by (apply Z.lxor_nonneg; lia).
  apply (Z.log2_lt_pow2 _ 8); [lia|].
  pose proof (Z.log2_lxor a b ltac:(lia) ltac:(lia)).
  assert (∀ z, 0 ≤ z < 256 → Z.log2 z < 8) as Hl.
  { intros z Hz. destruct (decide (z = 0)) as [->|]; [done|].
    apply Z.log2_lt_pow2; lia. }
  pose proof (Hl a Ha). pose proof (Hl b Hb). lia.
Qed.
#[export] Hint Resolve lxor_byte : ly.
