(* ===== verification/Rc4.v ===== *)
(** The stream cipher of the osmanager agent
    (src/osmanager/bin/pyosm/lyauth.py): key schedule, byte generator and
    [encode], with the permutation invariant of the S-box and the fact that
    decoding is encoding again. *)
From S2P Require Import Prelude.

Definition SIZE : nat := 256.

(** Python's [l[i]] on an index that is never negative here; [None] is
    IndexError. *)
Definition at_ (l : list Z) (i : Z) : option Z := l !! Z.to_nat i.

(** [tmp=SBox[i]; SBox[i]=SBox[j]; SBox[j]=tmp] *)
Definition swap (s : list Z) (i j : Z) : option (list Z) :=
  tmp ← at_ s i;
  sj ← at_ s j;
  Some (<[Z.to_nat j := tmp]> (<[Z.to_nat i := sj]> s)).

(** The first two loops of [generateKey]: the identity S-box and the key
    repeated cyclically. [i % keylen] raises ZeroDivisionError on an empty
    key. *)
Definition init_sbox : list Z := seqZ 0 256.

Definition key_box (mykey : list Z) : option (list Z) :=
  match mykey with
  | [] => None
  | _ => mapM (λ i, at_ mykey (i mod Z.of_nat (length mykey))) (seqZ 0 256)
  end.

(** The third loop, one iteration: [j=(j+SBox[i]+KBox[i]) % SIZE] and the
    swap. *)
Definition ksa_step (kbox : list Z) (st : option (Z * list Z)) (i : Z) :
    option (Z * list Z) :=
  '(j, s) ← st;
  si ← at_ s i;
  ki ← at_ kbox i;
  let j' := (j + si + ki) mod 256 in
  s' ← swap s i j';
  Some (j', s').

Definition generateKey (mykey : list Z) : option (list Z) :=
  kbox ← key_box mykey;
  '(_, s) ← foldl (ksa_step kbox) (Some (0, init_sbox)) (seqZ 0 256);
  Some s.

(** The globals [i], [j] and [SBox]. *)
Record cipher := Cipher { c_i : Z; c_j : Z; c_box : list Z }.

Definition getByte (c : cipher) : option (Z * cipher) :=
  let i := (c_i c + 1) mod 256 in
  si ← at_ (c_box c) i;
  let j := (c_j c + si) mod 256 in
  s ← swap (c_box c) i j;
  si' ← at_ s i;
  sj' ← at_ s j;
  g ← at_ s ((si' + sj') mod 256);
  Some (g, Cipher i j s).

Fixpoint encode_loop (c : cipher) (data : list Z) : option (list Z) :=
  match data with
  | [] => Some []
  | d :: data' =>
      '(g, c') ← getByte c;
      out ← encode_loop c' data';
      Some (Z.lxor d g :: out)
  end.

Definition encode (mykey data : list Z) : option (list Z) :=
  s ← generateKey mykey;
  encode_loop (Cipher 0 0 s) data.

(** ** The S-box is a permutation of 0..255 throughout *)

Definition sbox_ok (s : list Z) : Prop := s ≡ₚ seqZ 0 256.

Lemma sbox_ok_init : sbox_ok init_sbox.
Proof. unfold sbox_ok, init_sbox. reflexivity. Qed.

Lemma sbox_ok_length s : sbox_ok s → length s = 256%nat.
Proof. intros H. rewrite (Permutation_length H). apply length_seqZ. Qed.

Lemma sbox_ok_byte s x : sbox_ok s → x ∈ s → is_byte x.
Proof. unfold sbox_ok, is_byte. intros H. rewrite H, elem_of_seqZ. lia. Qed.

Lemma at_sbox s i : sbox_ok s → is_byte i → ∃ x, at_ s i = Some x ∧ is_byte x.
Proof.
  intros Hs Hi. unfold at_.
  destruct (lookup_lt_is_Some_2 s (Z.to_nat i)) as [x Hx].
  { rewrite sbox_ok_length by done. unfold is_byte in Hi. lia. }
  exists x. split; [done|]. eapply sbox_ok_byte; [done|].
  by eapply list_elem_of_lookup_2.
Qed.

Lemma list_swap_perm (s : list Z) (a b : nat) x y :
  s !! a = Some x → s !! b = Some y → <[b:=x]> (<[a:=y]> s) ≡ₚ s.
Proof.
  intros Ha Hb.
  destruct (decide (a = b)) as [<-|Hne].
  { simplify_eq. rewrite list_insert_insert_eq, list_insert_id; done. }
  rewrite Permutation_inj. split; [by rewrite !length_insert|].
  exists (λ i, if decide (i = a) then b else if decide (i = b) then a else i).
  split.
  - intros i j. repeat case_decide; congruence.
  - intros i. pose proof (lookup_lt_Some _ _ _ Ha).
    pose proof (lookup_lt_Some _ _ _ Hb).
    destruct (decide (i = b)) as [->|].
    { rewrite list_lookup_insert_eq by (rewrite length_insert; lia).
      repeat case_decide; congruence. }
    rewrite list_lookup_insert_ne by done.
    destruct (decide (i = a)) as [->|].
    { rewrite list_lookup_insert_eq by lia. congruence. }
    by rewrite list_lookup_insert_ne by done.
Qed.

Lemma swap_sbox s i j :
  sbox_ok s → is_byte i → is_byte j → ∃ s', swap s i j = Some s' ∧ sbox_ok s'.
Proof.
  intros Hs Hi Hj. unfold swap.
  destruct (at_sbox s i Hs Hi) as (x & Hx & _).
  destruct (at_sbox s j Hs Hj) as (y & Hy & _).
  rewrite Hx; simpl. rewrite Hy; simpl. eexists; split; [done|].
  unfold sbox_ok in *. etrans; [by apply list_swap_perm|done].
Qed.

Lemma mod256_byte z : is_byte (z mod 256).
Proof. by apply mod_small_range. Qed.
#[export] Hint Resolve mod256_byte : ly.

Lemma key_box_total mykey :
  mykey ≠ [] → ∃ kbox, key_box mykey = Some kbox ∧ length kbox = 256%nat.
Proof.
  intros Hk. unfold key_box. destruct mykey as [|k ks]; [done|].
  match goal with |- ∃ _, ?e = _ ∧ _ => destruct e as [kbox|] eqn:E end.
  - exists kbox. split; [done|]. apply length_mapM in E.
    by rewrite <- E, length_seqZ.
  - exfalso. apply mapM_None in E. apply Exists_exists in E as (i & _ & Hn).
    unfold at_ in Hn. apply lookup_ge_None in Hn.
    pose proof (mod_small_range i (Z.of_nat (length (k :: ks)))
      ltac:(simpl; lia)). lia.
Qed.

Lemma ksa_fold kbox l j s :
  length kbox = 256%nat → Forall is_byte l → sbox_ok s →
  ∃ j' s', foldl (ksa_step kbox) (Some (j, s)) l = Some (j', s') ∧ sbox_ok s'.
Proof.
  intros Hlen. revert j s.
  induction l as [|i l IH]; intros j s Hl Hs; simpl; [by eauto|].
  apply Forall_cons_1 in Hl as [Hi Hl].
  destruct (at_sbox s i Hs Hi) as (si & Hsi & _). rewrite Hsi; simpl.
  destruct (lookup_lt_is_Some_2 kbox (Z.to_nat i)) as [ki Hki].
  { rewrite Hlen. unfold is_byte in Hi. lia. }
  assert (at_ kbox i = Some ki) as -> by done. simpl.
  destruct (swap_sbox s i ((j + si + ki) mod 256) Hs Hi (mod256_byte _))
    as (s' & Hs' & Hok).
  rewrite Hs'; simpl. by apply IH.
Qed.

Lemma generateKey_ok mykey :
  mykey ≠ [] → ∃ s, generateKey mykey = Some s ∧ sbox_ok s.
Proof.
  intros Hk. unfold generateKey.
  destruct (key_box_total mykey Hk) as (kbox & -> & Hlen).
  cbn [mbind option_bind].
  destruct (ksa_fold kbox (seqZ 0 256) 0 init_sbox) as (j & s & HE & Hs);
    [exact Hlen| |exact sbox_ok_init|].
  { apply Forall_forall. intros x Hx%elem_of_seqZ. unfold is_byte. lia. }
  rewrite HE. cbn [mbind option_bind]. exists s. split; [reflexivity|exact Hs].
Qed.

Lemma getByte_ok c :
  sbox_ok (c_box c) →
  ∃ g c', getByte c = Some (g, c') ∧ is_byte g ∧ sbox_ok (c_box c').
Proof.
  intros Hs. unfold getByte.
  destruct (at_sbox (c_box c) ((c_i c + 1) mod 256) Hs (mod256_byte _))
    as (si & -> & _). simpl.
  edestruct (swap_sbox (c_box c)) as (s & Hsw & Hok);
    [done|apply (mod256_byte (c_i c + 1))
    |apply (mod256_byte (c_j c + si))|].
  rewrite Hsw. simpl.
  edestruct (at_sbox s) as (a & Ha & _); [done|apply (mod256_byte (c_i c + 1))|].
  rewrite Ha. simpl.
  edestruct (at_sbox s) as (b & Hb & _); [done|apply (mod256_byte (c_j c + si))|].
  rewrite Hb. simpl.
  edestruct (at_sbox s) as (g & Hg & Hgb); [done|apply (mod256_byte (a + b))|].
  rewrite Hg. simpl. eauto 6.
Qed.

Lemma encode_loop_ok data : ∀ c,
  sbox_ok (c_box c) →
  ∃ out, encode_loop c data = Some out ∧ length out = length data ∧
         (Forall is_byte data → Forall is_byte out) ∧
         encode_loop c out = Some data.
Proof.
  induction data as [|d data IH]; intros c Hc; simpl; [by eauto|].
  destruct (getByte_ok c Hc) as (g & c' & HE & Hg & Hc').
  destruct (IH c' Hc') as (out & Ho & Hlen & Hb & Hinv).
  rewrite HE. simpl. rewrite Ho. simpl. eexists; split; [done|]. simpl.
  rewrite HE. simpl. rewrite Hinv. simpl. split_and!.
  - by rewrite Hlen.
  - intros [Hd Hr]%Forall_cons_1. constructor; auto with ly.
  - by rewrite Z.lxor_assoc, Z.lxor_nilpotent, Z.lxor_0_r.
Qed.

Lemma encode_ok mykey data :
  mykey ≠ [] →
  ∃ out, encode mykey data = Some out ∧ length out = length data ∧
         (Forall is_byte data → Forall is_byte out) ∧
         encode mykey out = Some data.
Proof.
  intros Hk. unfold encode.
  destruct (generateKey_ok mykey Hk) as (s & -> & Hs).
  cbn [mbind option_bind].
  by apply (encode_loop_ok data (Cipher 0 0 s)).
Qed.

(** ** Properties *)

(** For a non-empty key the key schedule ends without IndexError and
    the S-box it leaves is a permutation of the 256 byte values. *)
Theorem generateKey_permutation mykey :
  mykey ≠ [] → ∃ s, generateKey mykey = Some s ∧ s ≡ₚ seqZ 0 256.
Proof. apply generateKey_ok. Qed.

Lemma generateKey_permutation_witness :
  ∃ s, generateKey [48; 49] = Some s ∧ s ≡ₚ seqZ 0 256.
Proof. apply (generateKey_permutation [48; 49]). discriminate. Defined.

(** C40: the cipher is its own inverse: with a non-empty key [encode] returns
    as many bytes as it was given, bytes stay bytes, and encoding the result
    with the same key gives the data back. *)
Theorem encode_decode mykey data :
  mykey ≠ [] →
  ∃ out, encode mykey data = Some out ∧ length out = length data ∧
         (Forall is_byte data → Forall is_byte out) ∧
         encode mykey out = Some data.
Proof.
  intros Hk. destruct (generateKey_ok mykey Hk) as (s & HE & Hs). unfold encode. rewrite HE.
  cbn [mbind option_bind]. by apply (encode_loop_ok data (Cipher 0 0 s)).
Qed.

Lemma encode_decode_witness :
  ∃ out, encode [75; 101; 121] [80; 108; 97] = Some out ∧ length out = 3%nat ∧
         (Forall is_byte [80; 108; 97] → Forall is_byte out) ∧
         encode [75; 101; 121] out = Some [80; 108; 97].
Proof. apply (encode_decode [75; 101; 121] [80; 108; 97]). discriminate. Defined.

(** The published RC4 test vector: key [Key], text [Plaintext]. *)
Example encode_rc4_vector :
  encode [75; 101; 121] [80; 108; 97; 105; 110; 116; 101; 120; 116] =
  Some [0xBB; 0xF3; 0x16; 0xE8; 0xD9; 0x40; 0xAF; 0x0A; 0xD3].
Proof. vm_compute. reflexivity. Qed.
