(* ===== verification/PyText.v ===== *)
(** Text and byte helpers: the parts of Python 2's [str], [int] and [struct]
    that the modelled code calls, on ASCII strings and on lists of byte
    values. Nothing here models a file of the repository; the other files use
    these definitions where the source calls the standard library. *)
From Stdlib Require Import Ascii String Decimal DecimalString DecimalPos DecimalZ.
From S2P Require Import Prelude.
#[local] Open Scope Z_scope.

(** ** Whitespace and case *)

(** The characters [str.strip()] removes: tab to carriage return, space. *)
Definition is_space (c : ascii) : bool :=
  let n := nat_of_ascii c in
  ((9 <=? n) && (n <=? 13) || (n =? 32))%nat.

Fixpoint lstrip (s : string) : string :=
  match s with
  | String c s' => if is_space c then lstrip s' else s
  | EmptyString => EmptyString
  end.

Definition str_rev (s : string) : string :=
  string_of_list_ascii (rev (list_ascii_of_string s)).

Definition strip (s : string) : string := str_rev (lstrip (str_rev (lstrip s))).

Definition lower_char (c : ascii) : ascii :=
  let n := nat_of_ascii c in
  if ((65 <=? n) && (n <=? 90))%nat then ascii_of_nat (n + 32) else c.

Fixpoint lower (s : string) : string :=
  match s with
  | String c s' => String (lower_char c) (lower s')
  | EmptyString => EmptyString
  end.

(** ** [str.split(sep)] for a one-character separator, [str.split(sep, 1)],
    and membership of a character *)

Fixpoint split_on (sep : ascii) (s : string) : list string :=
  match s with
  | EmptyString => [EmptyString]
  | String c s' =>
      if Ascii.eqb c sep then EmptyString :: split_on sep s'
      else match split_on sep s' with
           | w :: ws => String c w :: ws
           | [] => [String c EmptyString]
           end
  end.

Fixpoint split1 (sep : ascii) (s : string) : option (string * string) :=
  match s with
  | EmptyString => None
  | String c s' =>
      if Ascii.eqb c sep then Some (EmptyString, s')
      else '(a, b) ← split1 sep s'; Some (String c a, b)
  end.

Fixpoint has_char (c : ascii) (s : string) : bool :=
  match s with
  | EmptyString => false
  | String d s' => Ascii.eqb d c || has_char c s'
  end.

Lemma split_on_nonempty sep s : split_on sep s ≠ [].
Proof. destruct s; simpl; [done|]. repeat case_match; done. Qed.

Lemma split1_app sep k v :
  has_char sep k = false →
  split1 sep (k +:+ String sep v) = Some (k, v).
Proof.
  induction k as [|c k IH]; simpl.
  - by rewrite Ascii.eqb_refl.
  - intros [Hc Hk]%orb_false_iff. rewrite Hc, IH by done. done.
Qed.

Lemma string_app_nil_r s : (s +:+ "")%string = s.
Proof. induction s as [|c s IH]; [done|]. change (String c (s +:+ "") = String c s). by rewrite IH. Qed.
Lemma string_app_assoc (a b c : string) : (a +:+ b +:+ c)%string = ((a +:+ b) +:+ c)%string.
Proof. induction a as [|x a IH]; [done|]. change (String x (a +:+ b +:+ c) = String x ((a +:+ b) +:+ c)). by rewrite IH. Qed.

Lemma split_on_plain sep s : has_char sep s = false → split_on sep s = [s].
Proof.
  induction s as [|c s IH]; [done|]. simpl. intros [Hc Hs]%orb_false_iff.
  rewrite Hc, IH by done. done.
Qed.

(** A separator after a word ends it. *)
Lemma split_on_app sep a b :
  has_char sep a = false → split_on sep (a +:+ String sep b) = a :: split_on sep b.
Proof.
  induction a as [|c a IH]; simpl.
  - intros _. change (EmptyString +:+ String sep b) with (String sep b). simpl.
    by rewrite Ascii.eqb_refl.
  - intros [Hc Ha]%orb_false_iff.
    change (String c a +:+ String sep b) with (String c (a +:+ String sep b)). simpl.
    by rewrite Hc, IH.
Qed.

(** ** [str(n)] and [int(s)] *)

Definition str_of_Z (z : Z) : string := NilZero.string_of_int (Z.to_int z).

(** [int(s)] for a string: surrounding whitespace, an optional sign, decimal
    digits; [None] is ValueError. *)
Definition py_int (s : string) : option Z :=
  let t := strip s in
  let n := match t with
           | String "+" t' => Decimal.Pos <$> NilZero.uint_of_string t'
           | _ => NilZero.int_of_string t
           end in
  Z.of_int <$> n.

Lemma uint_string_nospace u :
  ∀ c, c ∈ list_ascii_of_string (NilEmpty.string_of_uint u) →
  is_space c = false ∧ c ≠ "+"%char.
Proof.
  induction u; simpl; [set_solver|..]; intros c [->|]%elem_of_cons; auto.
Qed.

Lemma lstrip_id s :
  (∀ c, c ∈ list_ascii_of_string s → is_space c = false) → lstrip s = s.
Proof.
  destruct s as [|c s]; simpl; [done|]. intros H.
  by rewrite (H c) by set_solver.
Qed.

Lemma str_rev_list s :
  list_ascii_of_string (str_rev s) = rev (list_ascii_of_string s).
Proof. apply list_ascii_of_string_of_list_ascii. Qed.

Lemma str_rev_rev s : str_rev (str_rev s) = s.
Proof.
  unfold str_rev at 1. rewrite str_rev_list, rev_involutive.
  apply string_of_list_ascii_of_string.
Qed.

Lemma strip_id s :
  (∀ c, c ∈ list_ascii_of_string s → is_space c = false) → strip s = s.
Proof.
  intros H. unfold strip. rewrite (lstrip_id s) by done.
  rewrite lstrip_id, str_rev_rev; [done|].
  intros c. rewrite str_rev_list, list_elem_of_In, <- in_rev, <- list_elem_of_In.
  apply H.
Qed.

Lemma nilzero_nilempty u :
  u ≠ Decimal.Nil → NilZero.string_of_uint u = NilEmpty.string_of_uint u.
Proof. by destruct u. Qed.

Lemma Z_to_int_not_nil z :
  Z.to_int z ≠ Decimal.Pos Decimal.Nil ∧ Z.to_int z ≠ Decimal.Neg Decimal.Nil.
Proof.
  destruct z as [|p|p]; simpl; split; intros H; try discriminate;
    injection H; apply Unsigned.to_uint_nonnil.
Qed.

Lemma str_of_Z_chars z c :
  c ∈ list_ascii_of_string (str_of_Z z) → is_space c = false ∧ c ≠ "+"%char.
Proof.
  unfold str_of_Z. destruct (Z_to_int_not_nil z) as [H1 H2].
  destruct (Z.to_int z) as [u|u]; simpl.
  - rewrite nilzero_nilempty by congruence. apply uint_string_nospace.
  - rewrite nilzero_nilempty by congruence.
    intros [->|H]%elem_of_cons; [done|]. by apply (uint_string_nospace u).
Qed.

Lemma py_int_str_of_Z z : py_int (str_of_Z z) = Some z.
Proof.
  unfold py_int. rewrite strip_id by (intros c H; apply str_of_Z_chars in H; tauto).
  destruct (Z_to_int_not_nil z) as [H1 H2].
  assert (NilZero.int_of_string (str_of_Z z) = Some (Z.to_int z)) as HE.
  { unfold str_of_Z. by apply NilZero.isi. }
  pose proof (str_of_Z_chars z) as Hc.
  destruct (str_of_Z z) as [|c s]; [by rewrite HE; simpl; rewrite of_to|].
  assert (c ≠ "+"%char) as Hne by (apply (Hc c), list_elem_of_In; by left).
  rewrite HE.
  destruct c as [[] [] [] [] [] [] [] []]; simpl; try by rewrite of_to.
  done.
Qed.

(** ** Words *)

(** [s.split()]: the word a text begins with and the words after it. *)
Definition word_first (x : string * list string) : list string :=
  if String.eqb x.1 "" then x.2 else x.1 :: x.2.
Fixpoint split_words (s : string) : string * list string :=
  match s with
  | EmptyString => (EmptyString, [])
  | String c s => if is_space c then (EmptyString, word_first (split_words s))
                  else (String c (split_words s).1, (split_words s).2)
  end.
Definition words (s : string) : list string := word_first (split_words s).

Definition word_ok (w : string) : Prop :=
  w ≠ ""%string ∧ ∀ c, c ∈ list_ascii_of_string w → is_space c = false.

Lemma split_words_app w s :
  (∀ c, c ∈ list_ascii_of_string w → is_space c = false) →
  split_words (w +:+ s) = ((w +:+ (split_words s).1)%string, (split_words s).2).
Proof.
  induction w as [|c w IH]; intros Hw; [change ("" +:+ ?x)%string with x; by destruct (split_words s)|].
  change (String c w +:+ s)%string with (String c (w +:+ s)). simpl.
  rewrite (Hw c) by (simpl; by left). rewrite IH; [done|].
  intros x Hx. apply Hw. simpl. by right.
Qed.

Lemma words_cons w s : word_ok w → words (w +:+ String " " s) = w :: words s.
Proof.
  intros [Hne Hw]. unfold words. rewrite split_words_app by done.
  change (split_words (String " " s)) with (EmptyString, word_first (split_words s)).
  cbn [fst snd]. unfold word_first at 1. cbn [fst snd].
  by rewrite string_app_nil_r, (proj2 (String.eqb_neq _ _)).
Qed.

Lemma words_one w : word_ok w → words w = [w].
Proof.
  intros [Hne Hw]. unfold words.
  assert (split_words w = (w, [])) as ->; [|by destruct w].
  clear Hne. induction w as [|c w IH]; [done|]. simpl.
  rewrite (Hw c) by (simpl; by left). rewrite IH; [done|].
  intros x Hx. apply Hw. simpl. by right.
Qed.

Lemma words_concat l : Forall word_ok l → words (String.concat " " l) = l.
Proof.
  induction 1 as [|w l Hw Hl IH]; [done|]. destruct l as [|w' l]; [by apply words_one|].
  change (String.concat " " (w :: w' :: l)) with (w +:+ String " " (String.concat " " (w' :: l)))%string.
  by rewrite words_cons, IH.
Qed.
