(* ===== verification/PyPath.v ===== *)
(** Paths and addresses: the parts of Python 2's [urllib], [urlparse], [posixpath] and
    [string.Template] that the modelled code calls, on ASCII strings. Nothing here models a
    file of the repository. *)
From Stdlib Require Import Ascii String.
From S2P Require Import Prelude PyText.
#[local] Open Scope Z_scope.

(** ** Joining and splitting *)

Definition slash : ascii := "/"%char.

(** [sep.join(l)] for a separator of one character. *)
Fixpoint join_on (sep : ascii) (l : list string) : string :=
  match l with
  | [] => EmptyString
  | [w] => w
  | w :: l => (w +:+ String sep (join_on sep l))%string
  end.

Lemma has_char_app c (a b : string) : has_char c (a +:+ b) = has_char c a || has_char c b.
Proof.
  induction a as [|d a IH]; [done|]. change (String d a +:+ b)%string with (String d (a +:+ b)).
  simpl. by rewrite IH, orb_assoc.
Qed.

Lemma split_join sep l :
  l ≠ [] → Forall (λ w, has_char sep w = false) l → split_on sep (join_on sep l) = l.
Proof.
  intros Hl H. induction H as [|w l Hw H IH]; [done|]. destruct l as [|v l].
  - by apply split_on_plain.
  - change (join_on sep (w :: v :: l)) with (w +:+ String sep (join_on sep (v :: l)))%string.
    by rewrite split_on_app, IH.
Qed.

(** The words of a split have no separator. *)
Lemma split_on_words sep s : Forall (λ w, has_char sep w = false) (split_on sep s).
Proof.
  induction s as [|c s IH]; simpl; [by constructor|].
  destruct (Ascii.eqb c sep) eqn:E; [by constructor|].
  destruct (split_on sep s) as [|w l] eqn:Es; [by destruct (split_on_nonempty sep s)|].
  inversion IH; subst. constructor; [simpl; by rewrite E|done].
Qed.

(** ** [urllib.unquote] *)

Definition hex_digit (c : ascii) : option nat :=
  let n := nat_of_ascii c in
  if ((48 <=? n) && (n <=? 57))%nat then Some (n - 48)%nat
  else if ((65 <=? n) && (n <=? 70))%nat then Some (n - 55)%nat
  else if ((97 <=? n) && (n <=? 102))%nat then Some (n - 87)%nat
  else None.

Definition percent : ascii := "%"%char.

(** [%xy] is the character of that number; other text, also a percent sign without two
    hexadecimal digits, stays. *)
Fixpoint unquote (s : string) : string :=
  match s with
  | EmptyString => EmptyString
  | String c t =>
      if Ascii.eqb c percent then
        match t with
        | String a (String b t') =>
            match hex_digit a, hex_digit b with
            | Some x, Some y => String (ascii_of_nat (16 * x + y)) (unquote t')
            | _, _ => String c (unquote t)
            end
        | _ => String c (unquote t)
        end
      else String c (unquote t)
  end.

Lemma unquote_app a b : has_char percent a = false → unquote (a +:+ b) = (a +:+ unquote b)%string.
Proof.
  induction a as [|c a IH]; [done|]. change (String c a +:+ b)%string with (String c (a +:+ b)).
  simpl. intros [-> Ha]%orb_false_iff. by rewrite IH.
Qed.

(** ** [posixpath] *)

Definition dot : string := ".".
Definition dotdot : string := "..".

(** The loop of [normpath]; [acc] is [new_comps], last component first. *)
Fixpoint normal_comps (abs : bool) (acc comps : list string) : list string :=
  match comps with
  | [] => rev acc
  | c :: comps =>
      if bool_decide (c = ""%string) || bool_decide (c = dot) then normal_comps abs acc comps
      else if negb (bool_decide (c = dotdot)) || (negb abs && bool_decide (acc = [])) ||
              bool_decide (head acc = Some dotdot)
      then normal_comps abs (c :: acc) comps
      else normal_comps abs (tail acc) comps
  end.

(** One or two leading slashes stay, more are one. *)
Definition leading_slashes (p : string) : nat :=
  match p with
  | String a (String b (String c _)) =>
      if Ascii.eqb a slash then if Ascii.eqb b slash then if Ascii.eqb c slash then 1 else 2 else 1 else 0
  | String a (String b EmptyString) =>
      if Ascii.eqb a slash then if Ascii.eqb b slash then 2 else 1 else 0
  | String a EmptyString => if Ascii.eqb a slash then 1 else 0
  | EmptyString => 0
  end%nat.

Fixpoint slashes (n : nat) : string :=
  match n with O => EmptyString | S n => String slash (slashes n) end.

Definition normpath (p : string) : string :=
  if bool_decide (p = ""%string) then dot else
  let n := leading_slashes p in
  let q := (slashes n +:+ join_on slash (normal_comps (negb (n =? 0)%nat) [] (split_on slash p)))%string in
  if bool_decide (q = ""%string) then dot else q.

Fixpoint ends_with (c : ascii) (s : string) : bool :=
  match s with
  | EmptyString => false
  | String d EmptyString => Ascii.eqb d c
  | String _ s => ends_with c s
  end.

(** [os.path.join(a, b)] *)
Definition path_join (a b : string) : string :=
  match b with
  | String c _ => if Ascii.eqb c slash then b
                  else if bool_decide (a = ""%string) || ends_with slash a then (a +:+ b)%string
                  else (a +:+ String slash b)%string
  | EmptyString => if bool_decide (a = ""%string) || ends_with slash a then a
                   else (a +:+ String slash EmptyString)%string
  end.

(** A component that names an entry of the directory before it. *)
Definition plain (w : string) : Prop :=
  w ≠ ""%string ∧ w ≠ dot ∧ w ≠ dotdot ∧ has_char slash w = false.
#[export] Instance plain_dec w : Decision (plain w).
Proof. unfold plain. apply _. Defined.

(** The components of an absolute path that is normal are plain: no [..] is left. *)
Lemma normal_comps_plain acc comps :
  Forall plain acc → Forall (λ w, has_char slash w = false) comps →
  Forall plain (normal_comps true acc comps).
Proof.
  intros Ha Hc. revert acc Ha. induction Hc as [|c comps Hc _ IH]; intros acc Ha; cbn [normal_comps].
  - by apply Forall_rev.
  - destruct (bool_decide (c = ""%string) || bool_decide (c = dot)) eqn:E1; [by apply IH|]. bool_prop.
    destruct (_ || _) eqn:E2; [|by apply IH, Forall_tail].
    apply IH. constructor; [|done]. unfold plain. split_and!; [done..| |done].
    apply orb_true_iff in E2 as [E2|E2]; [bool_prop|].
    + apply orb_true_iff in E2 as [E2|E2]; [|done]. by bool_prop.
    + bool_prop. destruct acc as [|d acc]; [done|]. injection E2 as ->.
      apply Forall_cons_1 in Ha as [(_ & _ & Hd & _) _]. done.
Qed.

(** Components that are plain pass the loop as they are. *)
Lemma normal_comps_id abs comps : ∀ acc,
  Forall plain comps → normal_comps abs acc comps = rev acc ++ comps.
Proof.
  induction comps as [|c comps IH]; intros acc H; cbn [normal_comps]; [by rewrite app_nil_r|].
  apply Forall_cons_1 in H as [(H1 & H2 & H3 & _) H].
  rewrite !bool_decide_false by done. cbn [orb negb]. rewrite IH by done. simpl. by rewrite <- app_assoc.
Qed.

(** ** [urlparse.urlparse], [urlparse.parse_qs] *)

Definition scheme_char (c : ascii) : bool :=
  let n := nat_of_ascii c in
  ((48 <=? n) && (n <=? 57) || (65 <=? n) && (n <=? 90) || (97 <=? n) && (n <=? 122) ||
   (n =? 43) || (n =? 45) || (n =? 46))%nat.
Definition digit_char (c : ascii) : bool := let n := nat_of_ascii c in ((48 <=? n) && (n <=? 57))%nat.

Definition all_chars (P : ascii → bool) (s : string) : bool := forallb P (list_ascii_of_string s).

(** The scheme and what follows it; [host:80] is no scheme. *)
Definition split_scheme (url : string) : string * string :=
  match split1 ":" url with
  | Some (a, rest) =>
      if bool_decide (a = ""%string) then (EmptyString, url)
      else if bool_decide (a = "http"%string) then (a, rest)
      else if all_chars scheme_char a && (bool_decide (rest = ""%string) || negb (all_chars digit_char rest))
      then (lower a, rest) else (EmptyString, url)
  | None => (EmptyString, url)
  end.

(** What precedes the first of the characters [/?#]. *)
Fixpoint split_netloc (s : string) : string * string :=
  match s with
  | EmptyString => (EmptyString, EmptyString)
  | String c t =>
      if Ascii.eqb c "/" || Ascii.eqb c "?" || Ascii.eqb c "#" then (EmptyString, s)
      else (String c (split_netloc t).1, (split_netloc t).2)
  end.

Definition before (sep : ascii) (s : string) : string := from_option fst s (split1 sep s).
Definition after (sep : ascii) (s : string) : string := from_option snd EmptyString (split1 sep s).

(** The parameters of the last segment, after a semicolon. *)
Fixpoint cut_params (s : string) : string :=
  match s with
  | EmptyString => EmptyString
  | String c t =>
      if Ascii.eqb c ";" && negb (has_char slash t) then EmptyString else String c (cut_params t)
  end.

Definition uses_params (scheme : string) : bool :=
  bool_decide (scheme ∈ [""; "ftp"; "hdl"; "prospero"; "http"; "imap"; "https"; "shttp"; "rtsp";
    "rtspu"; "sip"; "sips"; "mms"; "sftp"; "tel"]%string).

(** The path and the query of an address; [None] is the ValueError of a bracket without its
    partner. *)
Definition urlparse (url : string) : option (string * string) :=
  let '(scheme, url) := split_scheme url in
  let '(netloc, url) := match url with
    | String a (String b rest) =>
        if Ascii.eqb a slash && Ascii.eqb b slash then split_netloc rest else (EmptyString, url)
    | _ => (EmptyString, url) end in
  if negb (Bool.eqb (has_char "[" netloc) (has_char "]" netloc)) then None else
  let url := before "#" url in
  let query := after "?" url in
  let path := before "?" url in
  Some (if uses_params scheme then cut_params path else path, query).

Fixpoint plus_space (s : string) : string :=
  match s with
  | EmptyString => EmptyString
  | String c s => String (if Ascii.eqb c "+" then " "%char else c) (plus_space s)
  end.

Definition unquote_plus (s : string) : string := unquote (plus_space s).

(** The pairs of a query, in order; a pair without a value is left out. *)
Definition parse_qs (qs : string) : list (string * string) :=
  omap (λ p, match split1 "=" p with
             | Some (k, v) => if bool_decide (v = ""%string) then None
                              else Some (unquote_plus k, unquote_plus v)
             | None => None
             end)
    (split_on "&" qs ≫= split_on ";").

(** [d.get(k)[0]] *)
Fixpoint first_value (k : string) (l : list (string * string)) : option string :=
  match l with
  | [] => None
  | (k', v) :: l => if bool_decide (k' = k) then Some v else first_value k l
  end.

(** ** [string.Template] *)

Definition dollar : ascii := "$"%char.
Definition id_start (c : ascii) : bool :=
  let n := nat_of_ascii c in
  ((65 <=? n) && (n <=? 90) || (97 <=? n) && (n <=? 122) || (n =? 95))%nat.
Definition id_char (c : ascii) : bool := id_start c || digit_char c.

(** The identifier a text begins with, and the rest. *)
Fixpoint take_id (s : string) : string * string :=
  match s with
  | String c t => if id_char c then (String c (take_id t).1, (take_id t).2) else (EmptyString, s)
  | EmptyString => (EmptyString, EmptyString)
  end.

Definition starts_id (s : string) : bool :=
  match s with String c _ => id_start c | EmptyString => false end.

(** [Template(s).safe_substitute(d)]: an unknown name and a lone dollar stay. The fuel is
    used up by one for each step over at least one character. *)
Fixpoint substitute (n : nat) (d : list (string * string)) (s : string) : string :=
  match n with
  | O => s
  | S n =>
      match s with
      | EmptyString => EmptyString
      | String c t =>
          if negb (Ascii.eqb c dollar) then String c (substitute n d t) else
          match t with
          | String c' t' =>
              if Ascii.eqb c' dollar then String dollar (substitute n d t')
              else if id_start c' then
                let '(name, rest) := take_id t in
                (first_value name d or_else String dollar name) +:+ substitute n d rest
              else if Ascii.eqb c' "{" && starts_id t' then
                let '(name, rest) := take_id t' in
                match rest with
                | String c'' rest' =>
                    if Ascii.eqb c'' "}" then
                      (first_value name d or_else ("${" +:+ name +:+ "}")) +:+ substitute n d rest'
                    else String dollar (substitute n d t)
                | EmptyString => String dollar (substitute n d t)
                end
              else String dollar (substitute n d t)
          | EmptyString => String dollar EmptyString
          end
      end
  end%string.

Definition safe_substitute (d : list (string * string)) (s : string) : string :=
  substitute (String.length s) d s.

Lemma take_id_length s : (String.length (take_id s).2 ≤ String.length s)%nat.
Proof.
  induction s as [|c s IH]; [done|]. cbn [take_id]. destruct (id_char c); cbn [String.length snd]; lia.
Qed.

(** The fuel is enough: more of it gives the same text. *)
Lemma substitute_enough d n : ∀ s, (String.length s ≤ n)%nat → substitute n d s = safe_substitute d s.
Proof.
  unfold safe_substitute. enough (∀ m s, (String.length s ≤ n)%nat → (String.length s ≤ m)%nat →
    substitute n d s = substitute m d s) by eauto.
  induction n as [|n IH]; intros m s Hn Hm; (destruct s as [|c t]; [by destruct m|]); cbn [String.length] in *; [lia|].
  destruct m as [|m]; [lia|]. cbn [substitute].
  destruct (negb _); [by rewrite (IH m t) by lia|].
  destruct t as [|c' t']; [done|]. cbn [String.length] in *.
  destruct (Ascii.eqb c' dollar); [by rewrite (IH m t') by lia|].
  pose proof (take_id_length (String c' t')) as H1. pose proof (take_id_length t') as H2. cbn [String.length] in H1.
  assert (substitute n d (String c' t') = substitute m d (String c' t')) as Ht by (apply IH; cbn [String.length]; lia).
  destruct (id_start c') eqn:Es.
  - assert (String.length (take_id (String c' t')).2 ≤ String.length t')%nat.
    { cbn [take_id]. unfold id_char. rewrite Es. cbn [orb snd]. done. }
    destruct (take_id (String c' t')) as [name rest]; cbn [snd] in *. by rewrite (IH m rest) by lia.
  - destruct (_ && _); [|by rewrite Ht].
    destruct (take_id t') as [name [|c'' rest']]; [by rewrite Ht|]. cbn [String.length snd] in *.
    destruct (Ascii.eqb c'' "}"); [by rewrite (IH m rest') by lia|by rewrite Ht].
Qed.
