(* ===== verification/Urls.v ===== *)
(** The addresses a handler builds: [RequestHandler.urlupdate] of src/lyweb/lycustom.py, with
    which the lists make their links, and the address of the login page with what to come back
    to. [urllib.quote_plus] and [urlencode] are those of Python 2, on strings of characters up
    to 255. *)
From Stdlib Require Import Ascii String.
From S2P Require Import Prelude PyText PyPath.
#[local] Open Scope Z_scope.

(** ** [urllib.urlencode] *)

Definition hex_char (n : nat) : ascii := ascii_of_nat (if (n <? 10)%nat then 48 + n else 55 + n).

Definition always_safe (c : ascii) : bool :=
  let n := nat_of_ascii c in
  ((48 <=? n) && (n <=? 57) || (65 <=? n) && (n <=? 90) || (97 <=? n) && (n <=? 122) ||
   (n =? 95) || (n =? 46) || (n =? 45))%nat.

Definition quote_char (c : ascii) : string :=
  if Ascii.eqb c " " then "+"
  else if always_safe c then String c ""
  else let n := nat_of_ascii c in
       String percent (String (hex_char (n / 16)) (String (hex_char (n mod 16)) "")).

Fixpoint quote_plus (s : string) : string :=
  match s with
  | EmptyString => EmptyString
  | String c s => (quote_char c +:+ quote_plus s)%string
  end.

Definition encode_pair (p : string * string) : string :=
  (quote_plus p.1 +:+ String "=" (quote_plus p.2))%string.

Definition urlencode (l : list (string * string)) : string := join_on "&" (encode_pair <$> l).

(** ** [RequestHandler.urlupdate] *)

(** The value that asks for a parameter to be left out. *)
Definition dropthis : string := "dropthis".

(** [del params[k]] *)
Definition del_param (k : string) (params : list (string * string)) : list (string * string) :=
  filter (λ p, p.1 ≠ k) params.

(** The loop over the old parameters; a parameter that is there a second time is looked for
    after it was deleted: [None] is the KeyError. *)
Fixpoint update_old (droped update_keys : list string) (params old : list (string * string)) :
    option (list (string * string) * list (string * string)) :=
  match old with
  | [] => Some ([], params)
  | (k, v) :: old =>
      if bool_decide (k ∈ droped) then update_old droped update_keys params old
      else if bool_decide (k ∈ update_keys) then
        v ← first_value k params;
        '(new, params) ← update_old droped update_keys (del_param k params) old;
        Some ((k, v) :: new, params)
      else
        '(new, params) ← update_old droped update_keys params old;
        Some ((k, v) :: new, params)
  end.

Definition droped (params : list (string * string)) : list string :=
  (filter (λ p, p.2 = dropthis) params).*1.
Definition kept (params : list (string * string)) : list (string * string) :=
  filter (λ p, p.2 ≠ dropthis) params.

(** [params] in the order of its keys. More than one question mark is a ValueError. *)
Definition urlupdate (uri : string) (params : list (string * string)) : option string :=
  let left := kept params in
  '(path, (new, rest)) ←
    (if has_char "?" uri then
       match split_on "?" uri with
       | [path; oldparams] =>
           r ← update_old (droped params) left.*1 left (parse_qs oldparams); Some (path, r)
       | _ => None
       end
     else Some (uri, ([], left)));
  Some (path +:+ String "?" (urlencode (new ++ rest)))%string.

(** ** The way to the login *)

(** [has_permission] for a visitor; [login_url] is no absolute address. *)
Definition login_address (login_url uri : string) : string :=
  if has_char "?" login_url then login_url
  else (login_url +:+ String "?" (urlencode [("next", uri)]))%string.

(** ** What is encoded comes back *)

Lemma quote_char_back c t :
  unquote (plus_space (quote_char c +:+ t)) = String c (unquote (plus_space t)).
Proof. destruct c as [[] [] [] [] [] [] [] []]; reflexivity. Qed.

Lemma quote_plus_back s : unquote_plus (quote_plus s) = s.
Proof.
  unfold unquote_plus. induction s as [|c s IH]; [done|]. cbn [quote_plus]. by rewrite quote_char_back, IH.
Qed.

(** The characters that separate pairs, names and values do not occur. *)
Definition delimiter (c : ascii) : Prop := c ∈ ["&"; ";"; "="; "?"; "#"]%char.

Lemma quote_char_clean c : Forall (λ d, has_char d (quote_char c) = false) ["&"; ";"; "="; "?"; "#"]%char.
Proof. destruct c as [[] [] [] [] [] [] [] []]; repeat constructor. Qed.

Lemma quote_plus_clean d s : delimiter d → has_char d (quote_plus s) = false.
Proof.
  intros Hd. induction s as [|c s IH]; [done|]. cbn [quote_plus]. rewrite has_char_app, IH, orb_false_r.
  pose proof (quote_char_clean c) as H. rewrite Forall_forall in H. by apply H.
Qed.

Lemma quote_plus_nil s : quote_plus s = ""%string → s = ""%string.
Proof. intros H. rewrite <- (quote_plus_back s). by rewrite H. Qed.

Lemma encode_pair_clean d p : delimiter d → d ≠ "="%char → has_char d (encode_pair p) = false.
Proof.
  intros Hd He. unfold encode_pair. rewrite has_char_app, quote_plus_clean by done.
  cbn [has_char orb]. rewrite quote_plus_clean by done.
  by destruct (Ascii.eqb_spec "=" d) as [<-|].
Qed.

Lemma split_pairs l :
  (split_on "&" (urlencode l) ≫= split_on ";") = if decide (l = []) then [""%string] else encode_pair <$> l.
Proof.
  case_decide as Hl; [by subst|]. unfold urlencode. rewrite split_join.
  - clear Hl. induction l as [|p l IH]; [done|]. cbn [fmap list_fmap mbind list_bind] in *.
    rewrite (split_on_plain ";") by (apply encode_pair_clean; [unfold delimiter; set_solver|done]).
    cbn [Datatypes.app]. by f_equal.
  - by destruct l.
  - apply Forall_fmap, Forall_true. intros p. apply encode_pair_clean; [unfold delimiter; set_solver|done].
Qed.

(** Names and values come back from a query, whatever characters they have; a pair with an
    empty value is left out. *)
Theorem urlencode_back l :
  parse_qs (urlencode l) = filter (λ p, p.2 ≠ ""%string) l.
Proof.
  unfold parse_qs. rewrite split_pairs. case_decide as Hl; [by subst|]. clear Hl.
  induction l as [|[k v] l IH]; [done|]. cbn [fmap list_fmap omap list_omap]. rewrite filter_cons. cbn [snd].
  unfold encode_pair at 1. rewrite split1_app by (apply quote_plus_clean; unfold delimiter; set_solver).
  cbn [fst snd]. destruct (decide (v ≠ ""%string)) as [Hv|Hv].
  - rewrite bool_decide_false by (intros H; by apply Hv, quote_plus_nil).
    by rewrite !quote_plus_back, IH.
  - rewrite bool_decide_true; [done|]. destruct (decide (v = ""%string)) as [->|]; done.
Qed.

(** ** The links of a list *)

Definition values (k : string) (l : list (string * string)) : list string :=
  (filter (λ p, p.1 = k) l).*2.

Lemma values_nil k l : k ∉ l.*1 → values k l = [].
Proof.
  intros H. unfold values. induction l as [|[k' v] l IH]; [done|]. rewrite filter_cons. cbn [fst] in *.
  rewrite decide_False by (intros ->; apply H; left). apply IH. intros Hk. apply H. by right.
Qed.

Lemma values_cons k k' v l : values k ((k', v) :: l) = if decide (k' = k) then v :: values k l else values k l.
Proof. unfold values. rewrite filter_cons. cbn [fst]. by case_decide. Qed.

Lemma values_app k l1 l2 : values k (l1 ++ l2) = values k l1 ++ values k l2.
Proof. unfold values. by rewrite filter_app, fmap_app. Qed.

Lemma values_one k l v : NoDup l.*1 → first_value k l = Some v → values k l = [v].
Proof.
  induction l as [|[k' v'] l IH]; [done|]. cbn [fmap list_fmap fst first_value].
  intros [Hk Hl]%NoDup_cons. unfold values. rewrite filter_cons. cbn [fst].
  case_bool_decide as Hd.
  - intros [= ->]. rewrite decide_True by done. cbn. f_equal. subst. by apply values_nil.
  - intros Hv. rewrite decide_False by done. by apply IH.
Qed.

Lemma first_value_in k l : k ∈ l.*1 → is_Some (first_value k l).
Proof.
  induction l as [|[k' v'] l IH]; cbn [fmap list_fmap fst first_value]; [by intros ?%elem_of_nil|].
  intros [->|H]%elem_of_cons; [rewrite bool_decide_true by done; eauto|]. case_bool_decide; eauto.
Qed.

Lemma del_values k k' l : values k (del_param k' l) = if decide (k = k') then [] else values k l.
Proof.
  unfold values, del_param. induction l as [|[x v] l IH]; [by case_decide|].
  rewrite !filter_cons. cbn [fst]. destruct (decide (x ≠ k')) as [Hx|Hx].
  - rewrite filter_cons. cbn [fst]. destruct (decide (x = k)) as [->|]; [|exact IH].
    rewrite decide_False in IH |- * by done. cbn. by f_equal.
  - rewrite IH. case_decide; [done|]. rewrite decide_False; [done|]. intros ->.
    apply Hx. intros ->. done.
Qed.

Lemma del_keys k l : (del_param k l).*1 = filter (λ x, x ≠ k) l.*1.
Proof.
  unfold del_param. induction l as [|[x v] l IH]; [done|]. cbn [fmap list_fmap fst]. rewrite !filter_cons.
  cbn [fst]. case_decide; [cbn; by rewrite IH|done].
Qed.

Lemma first_del k k' l : k ≠ k' → first_value k (del_param k' l) = first_value k l.
Proof.
  intros H. unfold del_param. induction l as [|[x v] l IH]; [done|]. rewrite filter_cons.
  cbn [fst first_value]. case_decide as Hx; cbn [first_value]; [by rewrite IH|].
  rewrite IH. rewrite bool_decide_false; [done|]. intros ->. by destruct H.
Qed.

(** What the loop makes of the old parameters, when no parameter to change is there twice. *)
Section old.
#[local] Set Default Proof Using "Type".
Context (D K : list string).
Hypothesis HKD : ∀ k, k ∈ K → k ∉ D.

Definition update_values_of (params old : list (string * string)) (k : string) : list string :=
  if decide (k ∈ D ∨ k ∈ K) then values k params else values k old.

(** The parameters of [K] that are still to come are still given. *)
Definition to_come (params old : list (string * string)) : Prop :=
  NoDup params.*1 ∧ (∀ k, k ∈ params.*1 → k ∈ K) ∧ NoDup (filter (λ k, k ∈ K) old.*1) ∧
  ∀ k, k ∈ K → k ∈ old.*1 → k ∈ params.*1.

Lemma to_come_skip params k v old : k ∉ K → to_come params ((k, v) :: old) → to_come params old.
Proof.
  intros Hk (H1 & H2 & H3 & H4). cbn [fmap list_fmap fst] in *. rewrite filter_cons, decide_False in H3 by done.
  split_and!; [done..|]. intros k' HK' Ho. apply H4; [done|by right].
Qed.

Lemma to_come_next params k v old :
  k ∈ K → to_come params ((k, v) :: old) → to_come (del_param k params) old.
Proof.
  intros Hk (H1 & H2 & H3 & H4). cbn [fmap list_fmap fst] in *. rewrite filter_cons, decide_True in H3 by done.
  apply NoDup_cons in H3 as [Hn H3]. unfold to_come. rewrite del_keys. split_and!.
  - by apply NoDup_filter.
  - intros k' [_ Hk']%list_elem_of_filter. by apply H2.
  - done.
  - intros k' HK' Ho. apply list_elem_of_filter. split; [|apply H4; [done|by right]].
    intros ->. apply Hn. by apply list_elem_of_filter.
Qed.

Lemma update_old_spec old : ∀ params, to_come params old →
  ∃ new rest, update_old D K params old = Some (new, rest) ∧
    ∀ k, values k (new ++ rest) = update_values_of params old k.
Proof using HKD.
  unfold update_values_of. induction old as [|[k0 v0] old IH]; intros params Hc; cbn [update_old].
  { exists [], params. split; [done|]. intros k. cbn [Datatypes.app]. case_decide as Hd; [done|].
    apply values_nil. destruct Hc as (_ & H & _). intros ?%H. tauto. }
  destruct (decide (k0 ∈ D)) as [H0|H0]; [|destruct (decide (k0 ∈ K)) as [H1|H1]].
  - rewrite bool_decide_true by done. destruct (IH params) as (new & rest & HE & HV).
    { apply (to_come_skip _ k0 v0); [|done]. intros ?%HKD. done. }
    exists new, rest. split; [done|]. intros k. rewrite HV, values_cons. case_decide as Hd; [done|].
    rewrite decide_False; [done|]. intros ->. tauto.
  - rewrite bool_decide_false, bool_decide_true by done. destruct Hc as (Hn & Hc).
    destruct (first_value_in k0 params) as [v Hv]; [destruct Hc as (_ & _ & H); apply H; [done|by left]|].
    rewrite Hv. cbn [mbind option_bind].
    destruct (IH (del_param k0 params)) as (new & rest & -> & HV); [by eapply to_come_next|].
    cbn [mbind option_bind]. eexists _, _. split; [done|]. intros k. cbn [Datatypes.app].
    rewrite !values_cons, HV, del_values. destruct (decide (k0 = k)) as [<-|Hne].
    + rewrite !(decide_True (P := k0 ∈ D ∨ k0 ∈ K)), decide_True by auto. symmetry. by apply values_one.
    + by rewrite (decide_False (P := k = k0)).
  - rewrite !bool_decide_false by done. destruct (IH params) as (new & rest & -> & HV); [by eapply to_come_skip|].
    cbn [mbind option_bind]. eexists _, _. split; [done|]. intros k. cbn [Datatypes.app].
    rewrite !values_cons, HV. destruct (decide (k0 = k)) as [<-|Hne]; [|done]. by rewrite !decide_False by tauto.
Qed.
End old.

Lemma unquote_nil s : unquote s = ""%string → s = ""%string.
Proof. destruct s as [|c s]; [done|]. cbn [unquote]. repeat case_match; done. Qed.

Lemma parse_qs_nonempty q : Forall (λ p, p.2 ≠ ""%string) (parse_qs q).
Proof.
  unfold parse_qs. apply Forall_forall. intros [k v] (p & _ & H)%list_elem_of_omap.
  destruct (split1 "=" p) as [[a b]|]; [|done]. case_bool_decide as Hb; [done|]. simplify_eq. cbn [snd].
  unfold unquote_plus. intros H%unquote_nil. apply Hb. by destruct b.
Qed.

Lemma values_elem k v l : (k, v) ∈ l ↔ v ∈ values k l.
Proof.
  unfold values. rewrite list_elem_of_fmap. split.
  - intros H. exists (k, v). split; [done|]. by apply list_elem_of_filter.
  - intros ([k' v'] & -> & [Hk H]%list_elem_of_filter). cbn in *. by subst.
Qed.

Lemma keys_elem (k : string) (l : list (string * string)) : k ∈ l.*1 → ∃ v, (k, v) ∈ l.
Proof. intros ([k' v] & -> & H)%list_elem_of_fmap. by exists v. Qed.

Lemma NoDup_keys_filter (P : string * string → Prop) `{∀ p, Decision (P p)} (l : list (string * string)) :
  NoDup l.*1 → NoDup (filter P l).*1.
Proof.
  induction l as [|p l IH]; [done|]. cbn [fmap list_fmap]. intros [Hn Hl]%NoDup_cons.
  rewrite filter_cons. case_decide; [|by apply IH]. cbn [fmap list_fmap]. apply NoDup_cons. split; [|by apply IH].
  intros (q & Hq & [_ Hin]%list_elem_of_filter)%list_elem_of_fmap. apply Hn. rewrite Hq.
  apply list_elem_of_fmap. eauto.
Qed.

Lemma first_value_elem k v (l : list (string * string)) :
  NoDup l.*1 → (k, v) ∈ l → first_value k l = Some v.
Proof.
  induction l as [|[k' v'] l IH]; [by intros _ ?%elem_of_nil|]. cbn [fmap list_fmap fst first_value].
  intros [Hn Hl]%NoDup_cons [[= -> ->]|H]%elem_of_cons; [by rewrite bool_decide_true|].
  rewrite bool_decide_false; [by apply IH|]. intros ->. apply Hn. apply list_elem_of_fmap. by exists (k, v).
Qed.

Lemma split1_None sep s : split1 sep s = None → has_char sep s = false.
Proof.
  induction s as [|c s IH]; [done|]. cbn [split1 has_char]. destruct (Ascii.eqb c sep); [done|].
  destruct (split1 sep s) as [[a b]|]; [done|]. intros _. by apply IH.
Qed.

Lemma split_question s a b : split1 "?" s = Some (a, b) → has_char "?" b = false →
  split_on "?" s = [a; b].
Proof.
  revert a. induction s as [|c s IH]; intros a; [done|]. cbn [split1 split_on].
  destruct (Ascii.eqb c "?"); [intros [= <- <-] Hb; by rewrite split_on_plain|].
  destruct (split1 "?" s) as [[x y]|] eqn:E; [|done]. cbn [mbind option_bind].
  intros [= <- ->] Hb. by rewrite (IH x).
Qed.

Lemma filter_all {A} (P : A → Prop) `{∀ x, Decision (P x)} l : Forall P l → filter P l = l.
Proof. induction 1 as [|x l Hx _ IH]; [done|]. by rewrite filter_cons, decide_True, IH. Qed.

Lemma first_value_Some k v l : first_value k l = Some v → (k, v) ∈ l.
Proof.
  induction l as [|[k' v'] l IH]; [done|]. cbn [first_value]. case_bool_decide as Hk.
  - intros [= ->]. subst. by left.
  - intros H. right. by apply IH.
Qed.

Lemma split1_Some sep s p : split1 sep s = Some p → has_char sep s = true.
Proof.
  revert p. induction s as [|c s IH]; intros p; [done|]. cbn [split1 has_char].
  destruct (Ascii.eqb c sep); [done|]. destruct (split1 sep s) as [q|]; [|done]. intros _. by apply (IH q).
Qed.

(** The parameters given, by what becomes of them. *)
Section params.
#[local] Set Default Proof Using "All".
Context (params : list (string * string)) (Hp : NoDup params.*1).

Lemma kept_elem k v : (k, v) ∈ kept params ↔ first_value k params = Some v ∧ v ≠ dropthis.
Proof.
  unfold kept. rewrite list_elem_of_filter. cbn [snd]. split.
  - intros [Hd Hv]. split; [by apply first_value_elem|done].
  - intros [Hv%first_value_Some Hd]. done.
Qed.

Lemma droped_elem k : k ∈ droped params ↔ first_value k params = Some dropthis.
Proof.
  unfold droped. split.
  - intros [v Hv]%keys_elem. apply list_elem_of_filter in Hv as [Hd Hv]. cbn in Hd. subst.
    by apply first_value_elem.
  - intros Hv%first_value_Some. apply list_elem_of_fmap. exists (k, dropthis).
    split; [done|]. by apply list_elem_of_filter.
Qed.

Lemma kept_key k : k ∈ (kept params).*1 ↔ ∃ v, first_value k params = Some v ∧ v ≠ dropthis.
Proof.
  split.
  - intros [v Hv%kept_elem]%keys_elem. by exists v.
  - intros [v Hv%kept_elem]. apply list_elem_of_fmap. by exists (k, v).
Qed.

(** The values of a parameter in the new address. *)
Definition new_values (old : list (string * string)) (k : string) : list string :=
  match first_value k params with
  | Some v => if decide (v = dropthis) then [] else [v]
  | None => values k old
  end.

Lemma kept_values k v : first_value k params = Some v →
  values k (kept params) = if decide (v = dropthis) then [] else [v].
Proof.
  intros Hv. case_decide as Hd.
  - destruct (values k (kept params)) as [|x l] eqn:E; [done|]. exfalso.
    assert ((k, x) ∈ kept params) as [Hx ?]%kept_elem by (apply values_elem; rewrite E; left). congruence.
  - apply values_one; [by apply NoDup_keys_filter|]. apply first_value_elem; [by apply NoDup_keys_filter|].
    by apply kept_elem.
Qed.

(** The loop of [urlupdate] ends, with these values. *)
Lemma update_values old : NoDup (filter (λ k, k ∈ params.*1) old.*1) →
  ∃ new rest, update_old (droped params) (kept params).*1 (kept params) old = Some (new, rest) ∧
    ∀ k, values k (new ++ rest) = new_values old k.
Proof.
  intros Hold.
  destruct (update_old_spec (droped params) (kept params).*1) with (old := old) (params := kept params)
    as (new & rest & HE & HV).
  - intros k (v & Hv & Hd)%kept_key Hk%droped_elem. congruence.
  - split_and!; [by apply NoDup_keys_filter|done| |done].
    eapply sublist_NoDup; [exact Hold|]. clear Hold. induction old.*1 as [|k l IH]; [done|].
    rewrite !filter_cons. destruct (decide (k ∈ (kept params).*1)) as [HP|].
    + apply kept_key in HP as (v & Hv%first_value_Some & _). rewrite decide_True; [by constructor|].
      apply list_elem_of_fmap. by exists (k, v).
    + case_decide; [by constructor|done].
  - exists new, rest. split; [done|]. intros k. rewrite HV. unfold new_values, update_values_of.
    assert (k ∈ droped params ∨ k ∈ (kept params).*1 ↔ is_Some (first_value k params)) as Hk.
    { rewrite kept_key, droped_elem. split; [intros [->|(v & -> & _)]; eauto|]. intros [v ->].
      destruct (decide (v = dropthis)) as [->|]; eauto. }
    destruct (first_value k params) as [v|] eqn:Ev.
    + rewrite (kept_values k v Ev). rewrite decide_True; [done|]. apply Hk. eauto.
    + rewrite decide_False; [done|]. intros [? ?]%Hk. done.
Qed.
End params.

(** C20: the link a list makes of the address it was asked with: the same path, the
    parameters that are given with their new values, those that are to be dropped not at all,
    and every other one as it was - whatever characters names and values have - when the
    address has one question mark at most and no parameter to change twice. *)
Theorem urlupdate_spec uri params :
  has_char "?" (after "?" uri) = false → NoDup params.*1 →
  Forall (λ p, p.2 ≠ ""%string) params →
  NoDup (filter (λ k, k ∈ params.*1) (parse_qs (after "?" uri)).*1) →
  ∃ q, urlupdate uri params = Some (before "?" uri +:+ String "?" q)%string ∧
    ∀ k, values k (parse_qs q) =
      match first_value k params with
      | Some v => if decide (v = dropthis) then [] else [v]
      | None => values k (parse_qs (after "?" uri))
      end.
Proof.
  intros Hq Hp Hne Hold. destruct (update_values params Hp _ Hold) as (new & rest & HE & HV).
  exists (urlencode (new ++ rest)). split.
  - unfold urlupdate, before, after in *.
    destruct (split1 "?" uri) as [[a b]|] eqn:Es; cbn [from_option fst snd] in *.
    + rewrite (split1_Some _ _ _ Es), (split_question _ _ _ Es Hq). cbn [mbind option_bind]. by rewrite HE.
    + rewrite (split1_None _ _ Es). by injection HE as <- <-.
  - intros k. rewrite urlencode_back, filter_all; [apply HV|]. apply Forall_forall.
    intros [k' v] Hv%values_elem. cbn [snd]. rewrite HV in Hv. unfold new_values in Hv.
    rewrite Forall_forall in Hne. destruct (first_value k' params) as [x|] eqn:Ex.
    + case_decide; [by apply elem_of_nil in Hv|]. apply list_elem_of_singleton in Hv as ->.
      apply first_value_Some in Ex. by apply (Hne (k', x)).
    + apply values_elem in Hv. pose proof (parse_qs_nonempty (after "?" uri)) as Ho.
      rewrite Forall_forall in Ho. by apply (Ho (k', v)).
Qed.

(** Who logs in finds the page that was asked for in the address of the login page. *)
Lemma login_next login_url uri :
  has_char "?" login_url = false → uri ≠ ""%string →
  parse_qs (after "?" (login_address login_url uri)) = [("next", uri)]%string.
Proof.
  intros Hl Hu. unfold login_address, after. rewrite Hl, split1_app by done. cbn [from_option snd].
  rewrite urlencode_back, filter_cons. cbn [snd]. by rewrite decide_True.
Qed.

(** ** Concrete runs *)

Example link : urlupdate "/admin/user?by=id&p=3&gid=&search=a%26b" [("p", "1"); ("gid", "2"); ("by", "dropthis")]%string
  = Some "/admin/user?p=1&search=a%26b&gid=2"%string.
Proof. by vm_compute. Qed.

(** A parameter that is twice in the address is a KeyError, two question marks a ValueError. *)
Example no_link : urlupdate "/l?p=1&p=2" [("p", "3")]%string = None ∧ urlupdate "/l?p=1?" [("p", "3")]%string = None.
Proof. by vm_compute. Qed.

Lemma urlupdate_spec_witness :
  ∃ q, urlupdate "/l?p=1&s=x%3Dy" [("p", "2"); ("s", "dropthis")]%string = Some ("/l" +:+ String "?" q)%string ∧
    values "p" (parse_qs q) = ["2"%string] ∧ values "s" (parse_qs q) = [].
Proof.
  destruct (urlupdate_spec "/l?p=1&s=x%3Dy" [("p", "2"); ("s", "dropthis")]%string) as (q & H & Hv).
  - by vm_compute.
  - apply (bool_decide_unpack _). by vm_compute.
  - apply (bool_decide_unpack _). by vm_compute.
  - apply (bool_decide_unpack _). by vm_compute.
  - exists q. split; [exact H|]. split; [exact (Hv "p"%string)|exact (Hv "s"%string)].
Defined.
