(* ===== verification/PyBytes.v ===== *)
(** Byte strings and the part of Python 2's [struct] module the agents use:
    ["=LL"] packets (two unsigned little-endian 32-bit words), the signed
    ["i"] word, and fixed-width ["%ds"] fields. [None] is [struct.error]. *)
From Stdlib Require Import Ascii String.
From S2P Require Import Prelude.
#[local] Open Scope Z_scope.

Definition bytes := list Z.

Definition u32 (z : Z) : bytes := Z_to_little_endian 4 8 z.
Definition u32_val (b : bytes) : Z := little_endian_to_Z 8 b.

(** [struct.pack('=L', z)] *)
Definition pack_L (z : Z) : option bytes :=
  if (0 <=? z) && (z <? 2 ^ 32) then Some (u32 z) else None.

(** [struct.pack('i', z)] *)
Definition pack_i (z : Z) : option bytes :=
  if (- 2 ^ 31 <=? z) && (z <? 2 ^ 31) then Some (u32 (z mod 2 ^ 32)) else None.

(** [struct.unpack('i', b)] on four bytes *)
Definition i32_val (b : bytes) : Z :=
  let v := u32_val b in if v <? 2 ^ 31 then v else v - 2 ^ 32.

(** [struct.pack('%ds' % n, b)]: truncated or padded with zero bytes. *)
Definition pack_s (n : nat) (b : bytes) : bytes :=
  take n b ++ replicate (n - length b) 0.

Definition slice (a b : nat) (l : bytes) : bytes := take (b - a) (drop a l).

(** ** Laws *)

Lemma u32_length z : length (u32 z) = 4%nat.
Proof. pose proof (length_Z_to_little_endian 4 8 z ltac:(lia)). unfold u32. lia. Qed.

Lemma u32_val_u32 z : 0 ≤ z < 2 ^ 32 → u32_val (u32 z) = z.
Proof.
  intros H. unfold u32_val, u32.
  rewrite little_endian_to_Z_to_little_endian by lia. by apply Z.mod_small.
Qed.

Lemma u32_bytes z : Forall is_byte (u32 z).
Proof.
  apply Forall_forall. intros b Hb. unfold u32 in Hb.
  pose proof (Z_to_little_endian_bound 4 8 z ltac:(lia) ltac:(lia)) as HB.
  rewrite Forall_forall in HB. apply HB in Hb. unfold is_byte. lia.
Qed.

Lemma pack_L_Some z : 0 ≤ z < 2 ^ 32 → pack_L z = Some (u32 z).
Proof. intros H. unfold pack_L. by rewrite (proj2 (andb_true_iff _ _))
  by (rewrite Z.leb_le, Z.ltb_lt; lia). Qed.

Lemma i32_val_pack z b : pack_i z = Some b → i32_val b = z ∧ length b = 4%nat.
Proof.
  unfold pack_i. case_match; [|done]. intros [= <-]. bool_prop.
  split; [|apply u32_length]. unfold i32_val.
  rewrite u32_val_u32 by (apply mod_small_range; lia).
  destruct (decide (0 ≤ z)).
  - rewrite Z.mod_small by lia. case_match; bool_prop; lia.
  - assert (z mod 2 ^ 32 = z + 2 ^ 32) as ->.
    { symmetry. apply Z.mod_unique with (-1); lia. }
    case_match; bool_prop; lia.
Qed.

Lemma pack_s_length n b : length (pack_s n b) = n.
Proof. unfold pack_s. rewrite length_app, length_take, length_replicate. lia. Qed.

Lemma pack_s_id n b : length b = n → pack_s n b = b.
Proof.
  intros <-. unfold pack_s.
  by rewrite firstn_all, Nat.sub_diag, app_nil_r.
Qed.

Lemma take_app_exact {A} (l k : list A) n : length l = n → take n (l ++ k) = l.
Proof. intros <-. by rewrite take_app_length. Qed.
Lemma drop_app_exact {A} (l k : list A) n : length l = n → drop n (l ++ k) = k.
Proof. intros <-. by rewrite drop_app_length. Qed.

#[export] Hint Rewrite u32_length pack_s_length : ly_simpl.

(** ** Text as bytes, one byte per character *)

Definition text (s : string) : bytes :=
  (λ c, Z.of_nat (nat_of_ascii c)) <$> list_ascii_of_string s.
Definition of_text (b : bytes) : string :=
  string_of_list_ascii ((λ z, ascii_of_nat (Z.to_nat z)) <$> b).

Lemma of_text_text s : of_text (text s) = s.
Proof.
  unfold of_text, text. rewrite <- list_fmap_compose.
  rewrite <- (string_of_list_ascii_of_string s) at 2. f_equal.
  rewrite <- (list_fmap_id (list_ascii_of_string s)) at 2.
  apply list_fmap_ext. intros i c _. simpl.
  by rewrite Nat2Z.id, ascii_nat_embedding.
Qed.

Lemma text_bytes s : Forall is_byte (text s).
Proof.
  unfold text. apply Forall_fmap, Forall_forall. intros c _. unfold is_byte, compose.
  pose proof (nat_ascii_bounded c). lia.
Qed.
