(* ===== verification/Base64.v ===== *)
(** Python's [base64.encodestring] and [decodestring] on byte values, as
    [Instance.set_libvirt_conf] and [Instance.libvirt_conf] use them: the
    encoder breaks its output into lines of 76 characters, the caller removes
    the line breaks, the decoder skips them. *)
From Stdlib Require Import Ascii String.
From S2P Require Import Prelude PyBytes.
#[local] Open Scope Z_scope.

(** ** Six-bit digits

    The 64 characters, and the padding [=] as 64 and the newline as 65. *)

Definition PAD := 64.
Definition NL := 65.

Fixpoint b64 (l : bytes) : list Z :=
  match l with
  | a :: b :: c :: l' =>
      a / 4 :: (a mod 4) * 16 + b / 16 :: (b mod 16) * 4 + c / 64 :: c mod 64 :: b64 l'
  | [a; b] => [a / 4; (a mod 4) * 16 + b / 16; (b mod 16) * 4; PAD]
  | [a] => [a / 4; (a mod 4) * 16; PAD; PAD]
  | [] => []
  end.

(** [encodestring]: lines of 57 bytes, each followed by a newline. The number
    of bytes bounds the number of lines. *)
Fixpoint encode_lines (fuel : nat) (l : bytes) : list Z :=
  match fuel, l with
  | S fuel, _ :: _ => b64 (take 57 l) ++ [NL] ++ encode_lines fuel (drop 57 l)
  | _, _ => []
  end.
Definition encodestring (l : bytes) : list Z := encode_lines (length l) l.

(** [conf.replace('\n', '')] *)
Definition drop_newlines (l : list Z) : list Z := filter (λ d, d ≠ NL) l.

(** [decodestring], on groups of four digits once the line breaks are
    skipped; [None] is binascii.Error. *)
Fixpoint unb64 (l : list Z) : option bytes :=
  match l with
  | [] => Some []
  | p :: q :: r :: t :: l' =>
      if (p <? 64) && (q <? 64) then
        let a := p * 4 + q / 16 in
        if r =? PAD then if t =? PAD then Some [a] else None else
        let b := (q mod 16) * 16 + r / 4 in
        if t =? PAD then Some [a; b] else
        rest ← unb64 l'; Some (a :: b :: (r mod 4) * 64 + t :: rest)
      else None
  | _ => None
  end.
Definition decodestring (l : list Z) : option bytes := unb64 (drop_newlines l).

(** ** The round trip *)

(** The pieces a byte is cut into. *)
Lemma byte_div4 a : 0 ≤ a < 256 → 0 ≤ a / 4 < 64.
Proof. split; [apply Z.div_pos|apply Z.div_lt_upper_bound]; lia. Qed.
Lemma byte_div16 a : 0 ≤ a < 256 → 0 ≤ a / 16 < 16.
Proof. split; [apply Z.div_pos|apply Z.div_lt_upper_bound]; lia. Qed.
Lemma byte_div64 a : 0 ≤ a < 256 → 0 ≤ a / 64 < 4.
Proof. split; [apply Z.div_pos|apply Z.div_lt_upper_bound]; lia. Qed.

Ltac byte_pieces :=
  repeat match goal with
  | H : 0 ≤ ?a < 256 |- _ =>
      pose proof (byte_div4 a H); pose proof (byte_div16 a H);
      pose proof (byte_div64 a H);
      pose proof (mod_small_range a 4 ltac:(lia));
      pose proof (mod_small_range a 16 ltac:(lia));
      pose proof (mod_small_range a 64 ltac:(lia)); revert H
  end; intros.

Lemma b64_digits l : Forall is_byte l → Forall (λ d, 0 ≤ d ≤ PAD) (b64 l).
Proof.
  unfold is_byte.
  assert (∀ n l, (length l ≤ n)%nat → Forall (λ z, 0 ≤ z < 256) l →
            Forall (λ d, 0 ≤ d ≤ PAD) (b64 l)) as H.
  { clear l. induction n as [|n IH]; intros [|a [|b [|c l]]] Hn H; try (simpl in Hn; lia);
      try by constructor.
    - apply Forall_cons_1 in H as [Ha _]. simpl; unfold PAD. byte_pieces.
      repeat (apply Forall_cons_2; [lia|]); by apply Forall_nil_2.
    - apply Forall_cons_1 in H as [Ha [Hb _]%Forall_cons_1]. simpl; unfold PAD. byte_pieces.
      repeat (apply Forall_cons_2; [lia|]); by apply Forall_nil_2.
    - apply Forall_cons_1 in H as [Ha [Hb [Hc Hl]%Forall_cons_1]%Forall_cons_1]. simpl. byte_pieces.
      do 4 (apply Forall_cons_2; [unfold PAD; lia|]). apply IH; [simpl in Hn; lia|done]. }
  by apply (H (length l)).
Qed.

Lemma b64_no_newline l : Forall is_byte l → Forall (λ d, d ≠ NL) (b64 l).
Proof.
  intros H. apply (Forall_impl _ _ _ (b64_digits l H)). unfold PAD, NL. lia.
Qed.

Lemma b64_app3 k l : (length k mod 3 = 0)%nat → b64 (k ++ l) = b64 k ++ b64 l.
Proof.
  assert (∀ n k, (length k ≤ n)%nat → (length k mod 3 = 0)%nat → b64 (k ++ l) = b64 k ++ b64 l) as H.
  { clear k. induction n as [|n IH]; intros [|a [|b [|c k]]] Hn Hm; try done; try (simpl in Hn; lia).
    simpl. rewrite IH; [done|simpl in Hn; lia|].
    revert Hm. simpl length. replace (S (S (S (length k)))) with (length k + 1 * 3)%nat by lia.
    by rewrite Nat.Div0.mod_add. }
  by apply (H (length k)).
Qed.

Lemma drop_newlines_id l : Forall (λ d, d ≠ NL) l → drop_newlines l = l.
Proof.
  induction 1; unfold drop_newlines in *; simpl; [done|].
  rewrite filter_cons, decide_True by done. by f_equal.
Qed.

Lemma drop_newlines_app k l : drop_newlines (k ++ l) = drop_newlines k ++ drop_newlines l.
Proof. apply filter_app. Qed.

(** Without its line breaks the encoding is one run of digits. *)
Lemma drop_newlines_encodestring l :
  Forall is_byte l → drop_newlines (encodestring l) = b64 l.
Proof.
  unfold encodestring. intros Hl.
  assert (∀ n l, (length l ≤ n)%nat → Forall is_byte l →
            drop_newlines (encode_lines n l) = b64 l) as H; [|by apply H].
  clear l Hl. induction n as [|n IH]; intros l Hn Hl.
  { by destruct l; simpl in *; [|lia]. }
  destruct l as [|x l]; [done|]. set (k := x :: l) in *.
  assert (encode_lines (S n) k = b64 (take 57 k) ++ [NL] ++ encode_lines n (drop 57 k)) as -> by done.
  rewrite !drop_newlines_app. rewrite (drop_newlines_id (b64 _)) by
    (apply b64_no_newline; by apply Forall_take).
  rewrite IH; [|rewrite length_drop; subst k; simpl in *; lia|by apply Forall_drop].
  change (drop_newlines [NL]) with (@nil Z). rewrite app_nil_l.
  destruct (decide (57 ≤ length k)%nat).
  - rewrite <- b64_app3; [by rewrite take_drop|]. by rewrite length_take, Nat.min_l.
  - rewrite take_ge, drop_ge by lia. apply app_nil_r.
Qed.

Lemma glue_div x y n : 0 ≤ y < n → (x * n + y) / n = x.
Proof. intros. rewrite Z.div_add_l, Z.div_small by lia. lia. Qed.
Lemma glue_mod x y n : 0 ≤ y < n → (x * n + y) mod n = y.
Proof. intros. rewrite Z.add_comm, Z.mod_add, Z.mod_small; lia. Qed.
Lemma div_mod_glue a n : 0 < n → a / n * n + a mod n = a.
Proof. intros. pose proof (Z.div_mod a n). lia. Qed.

Lemma unb64_b64 l : Forall is_byte l → unb64 (b64 l) = Some l.
Proof.
  unfold is_byte.
  assert (∀ n l, (length l ≤ n)%nat → Forall (λ z, 0 ≤ z < 256) l → unb64 (b64 l) = Some l) as H;
    [|by apply (H (length l))].
  clear l. induction n as [|n IH]; intros [|a [|b [|c l]]] Hn H; try (simpl in Hn; lia); try done.
  - apply Forall_cons_1 in H as [Ha _]. simpl. byte_pieces.
    rewrite !(proj2 (Z.ltb_lt _ _)) by lia. simpl.
    rewrite Z.div_mul, div_mod_glue by lia. done.
  - apply Forall_cons_1 in H as [Ha [Hb _]%Forall_cons_1]. simpl. byte_pieces.
    rewrite !(proj2 (Z.ltb_lt _ _)) by lia. simpl.
    rewrite (proj2 (Z.eqb_neq _ PAD)) by (unfold PAD; lia).
    rewrite glue_div, glue_mod, Z.div_mul, !div_mod_glue by lia. done.
  - apply Forall_cons_1 in H as [Ha [Hb [Hc Hl]%Forall_cons_1]%Forall_cons_1]. simpl. byte_pieces.
    rewrite !(proj2 (Z.ltb_lt _ _)) by lia. simpl.
    rewrite !(proj2 (Z.eqb_neq _ PAD)) by (unfold PAD; lia).
    rewrite IH by (simpl in *; lia || done). cbn [mbind option_bind].
    rewrite !glue_div, !glue_mod, !div_mod_glue by lia. done.
Qed.

Lemma decodestring_encodestring l :
  Forall is_byte l → decodestring (drop_newlines (encodestring l)) = Some l.
Proof.
  intros Hl. unfold decodestring. rewrite drop_newlines_encodestring by done.
  rewrite (drop_newlines_id (b64 l)) by by apply b64_no_newline.
  by apply unb64_b64.
Qed.

(** ** The characters *)

Definition alphabet : string :=
  "ABCDEFGHIJKLMNOPQRSTUVWXYZabcdefghijklmnopqrstuvwxyz0123456789+/=".

Definition digit_char (d : Z) : ascii :=
  match String.get (Z.to_nat d) alphabet with Some c => c | None => "010"%char end.

(** The index of a character; characters outside the alphabet are skipped by
    the decoder, like line breaks. *)
Definition char_digit (c : ascii) : Z :=
  match list_find (λ x, x = c) (list_ascii_of_string alphabet) with
  | Some (n, _) => Z.of_nat n
  | None => NL
  end.

Definition digits_text (l : list Z) : string := string_of_list_ascii (digit_char <$> l).
Definition text_digits (s : string) : list Z := char_digit <$> list_ascii_of_string s.

Lemma text_digits_text l :
  Forall (λ d, 0 ≤ d ≤ PAD) l → text_digits (digits_text l) = l.
Proof.
  unfold text_digits, digits_text. rewrite list_ascii_of_string_of_list_ascii.
  assert (Forall (λ d, char_digit (digit_char d) = d) (seqZ 0 65)) as Hs.
  { apply (bool_decide_unpack _). vm_compute. done. }
  rewrite Forall_forall in Hs. unfold PAD.
  induction 1; simpl; [done|]. f_equal; [|done].
  apply Hs. apply elem_of_seqZ. lia.
Qed.

(** Line breaks pass through the text as well. *)
Lemma text_digits_lines l :
  Forall (λ d, 0 ≤ d ≤ NL) l → text_digits (digits_text l) = l.
Proof.
  unfold text_digits, digits_text. rewrite list_ascii_of_string_of_list_ascii.
  assert (Forall (λ d, char_digit (digit_char d) = d) (seqZ 0 66)) as Hs.
  { apply (bool_decide_unpack _). vm_compute. done. }
  rewrite Forall_forall in Hs. unfold NL.
  induction 1; simpl; [done|]. f_equal; [|done].
  apply Hs. apply elem_of_seqZ. lia.
Qed.

Lemma encode_lines_digits fuel : ∀ l,
  Forall is_byte l → Forall (λ d, 0 ≤ d ≤ NL) (encode_lines fuel l).
Proof.
  induction fuel as [|fuel IH]; intros [|b l] Hl; try constructor; cbn [encode_lines].
  apply Forall_app. split.
  - eapply Forall_impl; [apply b64_digits; by apply Forall_take|]. unfold PAD, NL. simpl. lia.
  - apply Forall_app. split; [repeat constructor; unfold NL; lia|]. apply IH. by apply Forall_drop.
Qed.

(** The text of [encodestring], line breaks and all, decodes to the bytes. *)
Lemma decode_text l :
  Forall is_byte l → decodestring (text_digits (digits_text (encodestring l))) = Some l.
Proof.
  intros Hl. rewrite text_digits_lines by by apply encode_lines_digits.
  rewrite <- (decodestring_encodestring l) by done. unfold decodestring.
  rewrite (drop_newlines_id (drop_newlines _)); [done|].
  apply Forall_forall. intros d [Hd _]%list_elem_of_filter. done.
Qed.
