(* ===== verification/Pages.v ===== *)
(** The page numbers under a list (src/lyweb/lib/yweb/utils/pagination.py). *)
From Stdlib Require Import Ascii String.
From S2P Require Import Prelude PyText.
#[local] Open Scope Z_scope.

(** [page_sum]; a size of 0 raises. *)
Definition page_sum (total sepa : Z) : Z :=
  total / sepa + (if total mod sepa =? 0 then 0 else 1).

(** [notexist_p], the mark of a gap. *)
Definition gap (total sepa : Z) : Z := page_sum total sepa + 1.

(** The list of pages, five or six around the current one; the empty list for the empty
    text, [None] for [ZeroDivisionError]. *)
Definition pagination (total sepa cur : Z) : option (list Z) :=
  let list_size := 5 in
  if total <=? sepa then Some [] else
  if sepa =? 0 then None else
  let last_p := page_sum total sepa in
  let start := cur / (list_size + 1) * list_size + 1 in
  let stop := Z.min (start + list_size) last_p in
  let plist := seqZ start (stop + 1 - start) in
  let plist := if stop <? last_p then plist ++ [gap total sepa; last_p] else plist in
  Some (if list_size <? cur then 1 :: gap total sepa :: plist else plist).

(** The parameters of a page's address: [parse_qsl] of the query, where [p] is set; and
    where [sepa] is set and the list starts again. *)
Definition set_param (set : string → option Z) (key : string) (v : Z)
    (params : list (string * string)) : list (string * string) :=
  let params' := (λ kv : string * string,
    (kv.1, match set kv.1 with Some n => str_of_Z n | None => kv.2 end)) <$> params in
  if existsb (λ kv, String.eqb kv.1 key) params then params' else params' ++ [(key, str_of_Z v)].

Definition page_url (cur : Z) (params : list (string * string)) : list (string * string) :=
  set_param (λ k, if String.eqb k "p" then Some cur else None) "p" cur params.
Definition psize_url (size : Z) (params : list (string * string)) : list (string * string) :=
  set_param (λ k, if String.eqb k "p" then Some 1 else
                  if String.eqb k "sepa" then Some size else None) "sepa" size params.

(** ** The pages *)

(** The rows before page [p], and on it. *)
Lemma page_sum_ceil total sepa :
  0 < sepa → (page_sum total sepa - 1) * sepa < total ≤ page_sum total sepa * sepa.
Proof.
  intros Hs. unfold page_sum. pose proof (Z_div_mod_eq_full total sepa).
  pose proof (Z.mod_pos_bound total sepa Hs). destruct (Z.eqb_spec (total mod sepa) 0); nia.
Qed.

Lemma elem_of_pages total sepa cur l p :
  0 < sepa < total → 1 ≤ cur ≤ page_sum total sepa → pagination total sepa cur = Some l →
  p ∈ l ↔
    cur / 6 * 5 + 1 ≤ p ≤ Z.min (cur / 6 * 5 + 6) (page_sum total sepa) ∨
    p = gap total sepa ∧ (5 < cur ∨ cur / 6 * 5 + 6 < page_sum total sepa) ∨
    p = page_sum total sepa ∨ p = 1.
Proof.
  intros Hs Hc. unfold pagination. rewrite (proj2 (Z.leb_gt _ _)) by lia.
  rewrite (proj2 (Z.eqb_neq sepa 0)) by lia. intros [= <-].
  change (5 + 1) with 6. replace (cur / 6 * 5 + 1 + 5) with (cur / 6 * 5 + 6) by lia.
  pose proof (Z_div_mod_eq_full cur 6). pose proof (Z.mod_pos_bound cur 6 eq_refl).
  destruct (Z.ltb_spec 5 cur), (Z.ltb_spec (Z.min (cur / 6 * 5 + 6) (page_sum total sepa)) (page_sum total sepa));
    rewrite ?elem_of_cons, ?elem_of_app, ?elem_of_cons, ?elem_of_nil, elem_of_seqZ; lia.
Qed.

(** The links under a list are to pages that exist, the first and the last among
    them, and every row is on one page: with page sizes above 0 the number of pages is the
    number of rows over the size, rounded up. *)
Theorem pagination_pages total sepa cur :
  0 < sepa < total → 1 ≤ cur ≤ page_sum total sepa →
  (page_sum total sepa - 1) * sepa < total ≤ page_sum total sepa * sepa ∧
  ∃ l, pagination total sepa cur = Some l ∧ 1 ∈ l ∧ page_sum total sepa ∈ l ∧
    (∀ p, p ∈ l → 1 ≤ p ≤ page_sum total sepa ∨ p = gap total sepa) ∧
    (cur ∈ l ↔ cur = page_sum total sepa ∨ cur ≤ cur / 6 * 5 + 6).
Proof.
  intros Hs Hc. split; [apply page_sum_ceil; lia|].
  destruct (pagination total sepa cur) as [l|] eqn:E.
  - pose proof (λ p, elem_of_pages total sepa cur l p Hs Hc E) as Hl. exists l.
    pose proof (Z_div_mod_eq_full cur 6). pose proof (Z.mod_pos_bound cur 6 eq_refl).
    split_and!; [done|rewrite Hl; lia|rewrite Hl; lia| |].
    + intros p Hp%Hl. unfold gap in *. lia.
    + rewrite Hl. unfold gap. lia.
  - unfold pagination in E. destruct (total <=? sepa); [done|].
    destruct (Z.eqb_spec sepa 0); [lia|done].
Qed.

(** Page 17 of 20 is not among the links shown on it. *)
Example page_17 : pagination 200 10 17 = Some [1; 21; 11; 12; 13; 14; 15; 16; 21; 20].
Proof. reflexivity. Qed.

Example page_3 : pagination 200 10 3 = Some [1; 2; 3; 4; 5; 6; 21; 20].
Proof. reflexivity. Qed.

Lemma pagination_pages_witness :
  (page_sum 200 10 - 1) * 10 < 200 ≤ page_sum 200 10 * 10 ∧
  ∃ l, pagination 200 10 17 = Some l ∧ 1 ∈ l ∧ page_sum 200 10 ∈ l ∧
    (∀ p, p ∈ l → 1 ≤ p ≤ page_sum 200 10 ∨ p = gap 200 10) ∧
    (17 ∈ l ↔ 17 = page_sum 200 10 ∨ 17 ≤ 17 / 6 * 5 + 6).
Proof. apply (pagination_pages 200 10 17); [lia|vm_compute; split; discriminate]. Defined.
