(* ===== verification/Human.v ===== *)
(** Sizes as the pages show them (src/lyweb/lib/yweb/utils/filesize.py).

    The amount is a float of two decimals. For numbers of bytes up to 2^53 and units that are
    powers of two - all systems but [si], which nothing uses - the division is exact, so the
    amount is the number of hundredths that rounding to even gives, and its text has at most
    twelve digits: [str] prints all of them. *)
From Stdlib Require Import Ascii String.
From S2P Require Import Prelude PyText.
#[local] Open Scope Z_scope.

(** A suffix is a text, or one for the amount 1 and one for others. *)
Inductive suffix := One (s : string) | Two (singular multiple : string).

Definition system := list (Z * suffix).

Definition units (l : list suffix) : system :=
  imap (λ i s, (2 ^ (50 - 10 * Z.of_nat i), s)) l.

Definition traditional : system :=
  units (One <$> ["P"; "T"; "G"; "M"; "K"; "B"]%string).
Definition alternative : system :=
  units ((One <$> [" PB"; " TB"; " GB"; " MB"; " KB"]%string) ++ [Two " byte" " bytes"]).
Definition verbose : system :=
  units [Two " petabyte" " petabytes"; Two " terabyte" " terabytes"; Two " gigabyte" " gigabytes";
         Two " megabyte" " megabytes"; Two " kilobyte" " kilobytes"; Two " byte" " bytes"].
Definition iec : system := units (One <$> ["Pi"; "Ti"; "Gi"; "Mi"; "Ki"; ""]%string).

(** The loop: the first unit that is not larger, or the last one. *)
Fixpoint unit_of (bytes : Z) (sys : system) : option (Z * suffix) :=
  match sys with
  | [] => None
  | [u] => Some u
  | (factor, s) :: sys => if factor <=? bytes then Some (factor, s) else unit_of bytes sys
  end.

(** The hundredths [%.2f] prints of [bytes / factor]: ties go to the even number. *)
Definition hundredths (bytes factor : Z) : Z :=
  let q := 100 * bytes / factor in
  let r := (100 * bytes) mod factor in
  if 2 * r <? factor then q
  else if factor <? 2 * r then q + 1
  else if Z.even q then q else q + 1.

(** [str] of the float: at least one decimal, no zero at the end of two. *)
Definition str_hundredths (h : Z) : string :=
  let a := Z.abs h in
  let decimals := if a mod 10 =? 0 then str_of_Z (a mod 100 / 10)
                  else (str_of_Z (a mod 100 / 10) +:+ str_of_Z (a mod 10))%string in
  ((if (h <? 0)%Z then "-" else "") +:+ str_of_Z (a / 100)%Z +:+ "." +:+ decimals)%string.

(** The system is one of those above, never empty. *)
Definition size (bytes : Z) (sys : system) : string :=
  match unit_of bytes sys with
  | None => EmptyString
  | Some (factor, s) =>
      let h := hundredths bytes factor in
      str_hundredths h +:+ match s with
        | One s => s
        | Two singular multiple => if (h =? 100)%Z then singular else multiple
        end
  end%string.

(** ** What the text tells *)

Lemma hundredths_close bytes factor :
  0 < factor → 2 * Z.abs (hundredths bytes factor * factor - 100 * bytes) ≤ factor.
Proof.
  intros Hf. unfold hundredths. pose proof (Z.div_mod (100 * bytes) factor ltac:(lia)) as E.
  pose proof (Z.mod_pos_bound (100 * bytes) factor Hf) as B.
  set (q := 100 * bytes / factor) in *. set (r := (100 * bytes) mod factor) in *. clearbody q r.
  destruct (Z.ltb_spec (2 * r) factor); [nia|]. destruct (Z.ltb_spec factor (2 * r)); [nia|].
  destruct (Z.even q); nia.
Qed.

Definition descending (sys : system) : Prop :=
  StronglySorted (λ u v, v.1 < u.1) sys ∧ Forall (λ u, 0 < u.1) sys ∧ fst <$> last sys = Some 1.

Lemma unit_largest bytes sys u : 1 ≤ bytes → descending sys → unit_of bytes sys = Some u →
  u ∈ sys ∧ u.1 ≤ bytes ∧ Forall (λ v, v.1 ≤ bytes → v.1 ≤ u.1) sys.
Proof.
  intros Hb (Hs & Hp & Hl). revert u. induction sys as [|[f s] sys IH]; intros u; [done|].
  apply StronglySorted_inv in Hs as [Hs Hf]. apply Forall_cons_1 in Hp as [Hf0 Hp].
  destruct sys as [|v sys].
  - intros [= <-]. cbn in *. injection Hl as ->. split_and!; [by left|done|].
    constructor; [done|constructor].
  - change (unit_of bytes ((f, s) :: v :: sys)) with
      (if f <=? bytes then Some (f, s) else unit_of bytes (v :: sys)).
    destruct (Z.leb_spec f bytes) as [Hle|Hlt].
    + intros [= <-]. split_and!; [by left|done|]. constructor; [done|].
      eapply Forall_impl; [exact Hf|]. cbn. intros; lia.
    + intros E. destruct (IH Hs Hp Hl u E) as (H1 & H2 & H3). split_and!; [by right|done|].
      constructor; [cbn; lia|done].
Qed.

Lemma units_descending l : length l = 6%nat → descending (units l).
Proof.
  intros H. do 6 (destruct l as [|? l]; [done|]). destruct l; [|done]. clear H.
  split_and!; [repeat constructor| |done]; repeat constructor.
Qed.

(** A size from one byte on is shown in the largest unit that does not exceed it, and the
    amount shown is right to half a hundredth of this unit. *)
Theorem size_right bytes l u : 1 ≤ bytes → length l = 6%nat → unit_of bytes (units l) = Some u →
  u ∈ units l ∧ u.1 ≤ bytes ∧ (∀ v, v ∈ units l → v.1 ≤ bytes → v.1 ≤ u.1) ∧
  2 * Z.abs (hundredths bytes u.1 * u.1 - 100 * bytes) ≤ u.1.
Proof.
  intros Hb Hl Hu. destruct (unit_largest bytes _ u Hb (units_descending l Hl) Hu) as (H1 & H2 & H3).
  rewrite Forall_forall in H3. split_and!; [done|done|auto|]. apply hundredths_close.
  destruct (units_descending l Hl) as (_ & Hp & _). rewrite Forall_forall in Hp. by apply Hp.
Qed.

(** The examples of the comment give other texts: it shows whole numbers. *)
Example size_examples :
  map (λ n, size n traditional) [10; 1000; 2000; 10000; 1000000; 0; 1048575]
    = ["10.0B"; "1000.0B"; "1.95K"; "9.77K"; "976.56K"; "0.0B"; "1024.0K"]%string ∧
  size 1 alternative = "1.0 byte"%string ∧ size (3 * 2 ^ 30) verbose = "3.0 gigabytes"%string.
Proof. split_and!; by vm_compute. Qed.
