(* ===== verification/Password.v ===== *)
(** Login passwords (src/lyweb/app/auth/utils.py): stored as a salt, a dollar
    sign and the hexadecimal SHA-512 of salt and password. *)
From Stdlib Require Import Ascii String.
From S2P Require Import Prelude PyText.
#[local] Open Scope Z_scope.

Definition dollar : ascii := "$".

(** [sha512(text).hexdigest()]; hexadecimal digits hold no dollar sign. *)
Class Sha512 := {
  sha512_hex : string → string;
  sha512_hex_plain s : has_char dollar (sha512_hex s) = false;
}.

Section password.
Context `{Sha512}.

Definition _encrypt_password (salt raw_password : string) : string :=
  sha512_hex (salt +:+ raw_password).

(** The salt is drawn at random: twelve hexadecimal digits. *)
Definition enc_login_passwd (salt plaintext : string) : string :=
  salt +:+ String dollar (_encrypt_password salt plaintext).

Definition check_login_passwd (raw_password enc_password : string) : bool :=
  match split_on dollar enc_password with
  | [salt; hsh] => String.eqb hsh (_encrypt_password salt raw_password)
  | _ => false
  end.

(** What the column [password] of a user must look like. *)
Definition password_ok (enc : string) : Prop :=
  ∃ salt hsh, enc = salt +:+ String dollar hsh ∧
    has_char dollar salt = false ∧ has_char dollar hsh = false.

Lemma check_split raw salt hsh :
  has_char dollar salt = false → has_char dollar hsh = false →
  check_login_passwd raw (salt +:+ String dollar hsh) =
    String.eqb hsh (_encrypt_password salt raw).
Proof.
  intros Hs Hh. unfold check_login_passwd.
  by rewrite split_on_app, split_on_plain.
Qed.

Lemma enc_password_ok salt pw :
  has_char dollar salt = false → password_ok (enc_login_passwd salt pw).
Proof.
  intros Hs. exists salt, (_encrypt_password salt pw).
  split_and!; [done|done|apply sha512_hex_plain].
Qed.

(** The password that was set is accepted, and another one only if its digest is
    the same. *)
Lemma check_enc raw salt pw :
  has_char dollar salt = false →
  check_login_passwd raw (enc_login_passwd salt pw) = true ↔
  sha512_hex (salt +:+ pw) = sha512_hex (salt +:+ raw).
Proof.
  intros Hs. unfold enc_login_passwd.
  rewrite check_split by (done || apply sha512_hex_plain). apply String.eqb_eq.
Qed.
End password.
