(* ===== verification/Firewall.v ===== *)
(** Port forwarding with iptables (src/lyweb/tool/firewall.py): the rules of the
    PREROUTING chain as the program reads them back, adding one, deleting one
    by its destination, and the command line. The iptables program is an
    argument; what the code relies on of it is the record [iptables_ok]. *)
From Stdlib Require Import Ascii String Decimal DecimalFacts DecimalPos DecimalN.
From S2P Require Import Prelude PyText.
#[local] Open Scope Z_scope.

(** ** Words and options *)

(** The values of the options; [None] for an option not given. *)
Record rule := mkRule {
  A : option string; d : option string; p : option string; m : option string;
  j : option string; dport : option Z; destination : option string }.

Definition no_opts : rule := mkRule None None None None None None None.

Inductive opt := OptA | OptD | OptP | OptM | OptJ | OptDport | OptDest | OptHelp.

Definition short_opt (c : ascii) : option opt :=
  if (c =? "A")%char then Some OptA else if (c =? "d")%char then Some OptD
  else if (c =? "p")%char then Some OptP else if (c =? "m")%char then Some OptM
  else if (c =? "j")%char then Some OptJ else if (c =? "h")%char then Some OptHelp else None.

(** A long option may be abbreviated to a prefix no other option has. *)
Definition long_opts : list (string * opt) :=
  [("--dport", OptDport); ("--to-destination", OptDest); ("--help", OptHelp)]%string.
Definition long_opt (s : string) : option opt :=
  match filter (λ x, String.prefix s x.1 = true) long_opts with
  | [(_, o)] => Some o
  | _ => None
  end.

(** The [int] of an option: hexadecimal, binary and octal prefixes. *)
Definition digit_of (c : ascii) : Z :=
  let n := Z.of_nat (nat_of_ascii (lower_char c)) in
  if (48 <=? n) && (n <=? 57) then n - 48 else if (97 <=? n) && (n <=? 122) then n - 87 else 99.
Fixpoint int_radix (radix acc : Z) (s : string) : option Z :=
  match s with
  | EmptyString => Some acc
  | String c s => if digit_of c <? radix then int_radix radix (acc * radix + digit_of c) s else None
  end.
Definition parse_int (s : string) : option Z :=
  match lower s with
  | String "0" (String "x" (String _ _ as t)) => int_radix 16 0 t
  | String "0" (String "b" (String _ _ as t)) => int_radix 2 0 t
  | String "0" (String "b" EmptyString) => Some 0
  | String "0" (String "o" (String _ _ as t)) => int_radix 8 0 t
  | String "0" t => int_radix 8 0 t
  | _ => py_int s
  end%char.

(** Storing a value; [None] for a value of the wrong type. *)
Definition store (o : opt) (v : string) (r : rule) : option rule :=
  match o with
  | OptA => Some (mkRule (Some v) (d r) (p r) (m r) (j r) (dport r) (destination r))
  | OptD => Some (mkRule (A r) (Some v) (p r) (m r) (j r) (dport r) (destination r))
  | OptP => Some (mkRule (A r) (d r) (Some v) (m r) (j r) (dport r) (destination r))
  | OptM => Some (mkRule (A r) (d r) (p r) (Some v) (j r) (dport r) (destination r))
  | OptJ => Some (mkRule (A r) (d r) (p r) (m r) (Some v) (dport r) (destination r))
  | OptDport => n ← parse_int v;
                Some (mkRule (A r) (d r) (p r) (m r) (j r) (Some n) (destination r))
  | OptDest => Some (mkRule (A r) (d r) (p r) (m r) (j r) (dport r) (Some v))
  | OptHelp => Some r
  end.

(** [parser.parse_args(tokens)] with an [error] that does nothing: an unknown
    option or a bad value ends the parse with the values so far. [None] is an
    exception: a value missing at the end, or the exit of [-h]. *)
Fixpoint parse_args (r : rule) (l : list string) : option rule :=
  match l with
  | [] => Some r
  | tok :: l =>
      let take (o : option opt) (inline : option string) :=
        match o with
        | None => Some r
        | Some OptHelp => None
        | Some o =>
            match inline with
            | Some v => match store o v r with Some r => parse_args r l | None => Some r end
            | None =>
                match l with
                | [] => None
                | v :: l => match store o v r with Some r => parse_args r l | None => Some r end
                end
            end
        end in
      match tok with
      | String "-" (String "-" EmptyString) => Some r
      | String "-" (String "-" _) =>
          match split1 "=" tok with
          | Some (o, v) => take (long_opt o) (Some v)
          | None => take (long_opt tok) None
          end
      | String "-" (String c rest) =>
          match short_opt c, rest with
          | Some OptHelp, _ => None
          | o, EmptyString => take o None
          | o, _ => take o (Some rest)
          end
      | _ => parse_args r l
      end
  end%char.

(** ** Rules of the chain *)

(** [get_rules] on the lines iptables prints: the lines that carry a chain. *)
Definition line_rule (line : string) : option rule := parse_args no_opts (words line).

Fixpoint rules_of_lines (lines : list string) : option (list rule) :=
  match lines with
  | [] => Some []
  | line :: lines =>
      args ← line_rule line;
      rules ← rules_of_lines lines;
      Some (match A args with
            | Some c => if String.eqb c "" then rules else args :: rules
            | None => rules
            end)
  end.

Definition colon (ip port : string) : string := (ip +:+ ":" +:+ port)%string.

Definition points_to (dst : string) (r : rule) : bool :=
  match destination r with Some x => String.eqb x dst | None => false end.

(** [exists(ip, port)] *)
Definition rule_exists (rules : list rule) (ip port : string) : bool :=
  existsb (points_to (colon ip port)) rules.

Definition list_cmd : list string := ["iptables"; "-t"; "nat"; "-S"; "PREROUTING"]%string.
Definition delete_cmd (n : Z) : list string :=
  ["iptables"; "-t"; "nat"; "-D"; "PREROUTING"; str_of_Z n]%string.
Definition insert_cmd (external_ip external_port inner_ip inner_port : string) : list string :=
  ["iptables"; "-t"; "nat"; "-I"; "PREROUTING"; "-d"; external_ip; "-p"; "tcp"; "-m"; "tcp";
   "--dport"; external_port; "-j"; "DNAT"; "--to-destination"; colon inner_ip inner_port]%string.

Section prerouting.
(** The packet filter and the program that works on it: exit code and output. *)
Context {K : Type} (iptables : list string → K → (Z * list string) * K).

(** [None] is an exception. *)
Definition get_rules (k : K) : option (list rule * K) :=
  let '((ret, out), k) := iptables list_cmd k in
  if ret =? 0 then rules ← rules_of_lines out; Some (rules, k) else Some ([], k).

(** [Prerouting.delete(index)] *)
Definition delete (rules : list rule) (index : Z) (k : K) : option (list rule * K) :=
  let '((ret, _), k) := iptables (delete_cmd index) k in
  if ret =? 0 then get_rules k else Some (rules, k).

(** The first rule with the destination is deleted by its place in the chain.
    The text is what is logged: [delete] returns nothing, so a deletion is
    always reported as failed. *)
Definition delete_by_destination (rules : list rule) (ip port : string) (k : K) :
    option (list rule * K * string) :=
  match list_find (λ r, points_to (colon ip port) r = true) rules with
  | Some (index, _) =>
      '(rules, k) ← delete rules (Z.of_nat index + 1) k;
      Some (rules, k, "delete prerouting failed."%string)
  | None => Some (rules, k, "can not delete: no prerouting."%string)
  end.

(** [Prerouting.add] *)
Definition add (rules : list rule) (external_ip external_port inner_ip inner_port : string) (k : K) :
    option (list rule * K) :=
  if rule_exists rules inner_ip inner_port then Some (rules, k) else
  let '((ret, _), k) := iptables (insert_cmd external_ip external_port inner_ip inner_port) k in
  if ret =? 0 then get_rules k else Some (rules, k).

(** [Prerouting.list]: address, port and the two parts of the destination of
    each rule; [None] is an exception, of a rule without a destination or with
    one that has not two parts. *)
Definition list_rules (rules : list rule) :
    option (list (nat * option string * option Z * string * string)) :=
  mapM (λ ir : nat * rule,
    dst ← destination ir.2;
    match split_on ":" dst with
    | [dst_ip; dst_port] => Some (S ir.1, d ir.2, dport ir.2, dst_ip, dst_port)
    | _ => None
    end) (imap pair rules).

(** ** The command line *)

Inductive main_out := Usage | Done | Listing (l : list (nat * option string * option Z * string * string)).

Definition pair_of (s : string) : option (string * string) :=
  match split_on ":" s with [a; b] => Some (a, b) | _ => None end.

Definition main (argv : list string) (k : K) : option (main_out * K) :=
  match argv with
  | action :: args =>
      if bool_decide (action ∈ ["add"; "delete"; "list"]%string) then
        '(rules, k) ← get_rules k;
        if String.eqb action "add" then
          match args with
          | [ext; inner] =>
              '(eip, eport) ← pair_of ext;
              '(ip, port) ← pair_of inner;
              '(_, k) ← add rules eip eport ip port k;
              Some (Done, k)
          | _ => Some (Usage, k)
          end
        else if String.eqb action "delete" then
          match args with
          | [inner] =>
              '(ip, port) ← pair_of inner;
              '(_, k, _) ← delete_by_destination rules ip port k;
              Some (Done, k)
          | _ => Some (Usage, k)
          end
        else l ← list_rules rules; Some (Listing l, k)
      else Some (Usage, k)
  | [] => Some (Usage, k)
  end.
End prerouting.

(** ** What the program relies on

    [chain k] are the rules of the chain as [iptables -S] prints them. *)

Definition dnat_tokens (ext port dst : string) : list string :=
  ["-A"; "PREROUTING"; "-d"; ext; "-p"; "tcp"; "-m"; "tcp"; "--dport"; port;
   "-j"; "DNAT"; "--to-destination"; dst]%string.
Definition dnat_line (ext port dst : string) : string := String.concat " " (dnat_tokens ext port dst).

(** A line of the chain the program can read. *)
Definition reads (line : string) (r : rule) : Prop :=
  line_rule line = Some r ∧ A r = Some "PREROUTING"%string.

(** Arguments iptables keeps as they are: a port in decimal, a destination in
    one word. *)
Definition clean (n : Z) (eport ip port : string) : Prop :=
  0 ≤ n ∧ eport = str_of_Z n ∧ word_ok (colon ip port).

Record iptables_ok {K} (iptables : list string → K → (Z * list string) * K)
    (chain : K → list string) : Prop := {
  ipt_list k : iptables list_cmd k = ((0, "-P PREROUTING ACCEPT"%string :: chain k), k);
  ipt_insert n ext eport ip port k :
    clean n eport ip port →
    ∃ ret out k', iptables (insert_cmd ext eport ip port) k = ((ret, out), k') ∧
      (ret = 0 ∧ (∃ ext', word_ok ext' ∧ chain k' = dnat_line ext' eport (colon ip port) :: chain k) ∨
       ret ≠ 0 ∧ chain k' = chain k);
  ipt_delete (i : nat) k :
    ∃ ret out k', iptables (delete_cmd (Z.of_nat i + 1)) k = ((ret, out), k') ∧
      (ret = 0 ∧ (i < length (chain k))%nat ∧ chain k' = list_delete i (chain k) ∨
       ret ≠ 0 ∧ chain k' = chain k) }.

(** ** Lemmas *)

(** The text of a positive number does not begin with a zero. *)
Lemma str_of_pos_head q : ∃ c t, str_of_Z (Zpos q) = String c t ∧ c ≠ "0"%char.
Proof.
  unfold str_of_Z. simpl. rewrite nilzero_nilempty by apply DecimalPos.Unsigned.to_uint_nonnil.
  pose proof (DecimalPos.Unsigned.to_uint_nonnil q) as Hnil.
  assert (Pos.to_uint q = Decimal.unorm (Pos.to_uint q)) as Hn.
  { rewrite <- DecimalN.Unsigned.to_of. unfold N.of_uint. by rewrite DecimalPos.Unsigned.of_to. }
  destruct (Pos.to_uint q) as [|u|u|u|u|u|u|u|u|u|u] eqn:E; [done| |eexists _, _; split; done..].
  exfalso. unfold Decimal.unorm in Hn. cbn [Decimal.nzhead] in Hn.
  destruct (Decimal.nzhead u) as [|v|v|v|v|v|v|v|v|v|v] eqn:Ev; try discriminate.
  - injection Hn as ->. pose proof (DecimalPos.Unsigned.of_to q) as Hq. by rewrite E in Hq.
  - by apply DecimalFacts.nzhead_nonzero in Ev.
Qed.

Lemma lower_zero c : lower_char c = "0"%char → c = "0"%char.
Proof. by destruct c as [[] [] [] [] [] [] [] []]. Qed.

Lemma parse_int_nonzero c t : c ≠ "0"%char → parse_int (String c t) = py_int (String c t).
Proof.
  intros Hc. unfold parse_int. cbn [lower].
  assert (lower_char c ≠ "0"%char) as Hl by (intros H; by apply Hc, lower_zero).
  destruct (lower_char c) as [[] [] [] [] [] [] [] []]; done.
Qed.

Lemma parse_int_port n : 0 ≤ n → parse_int (str_of_Z n) = Some n ∧ word_ok (str_of_Z n).
Proof.
  intros Hn. destruct n as [|q|]; [by split; [|split; [|set_solver]]| |lia].
  destruct (str_of_pos_head q) as (c & t & E & Hc). split.
  - rewrite E, parse_int_nonzero, <- E by done. apply py_int_str_of_Z.
  - split; [by rewrite E|]. intros x Hx. by apply str_of_Z_chars in Hx as [? _].
Qed.

Lemma word_ok_const s :
  bool_decide (s ≠ ""%string ∧ Forall (λ c, is_space c = false) (list_ascii_of_string s)) = true →
  word_ok s.
Proof. intros [H1 H2]%bool_decide_eq_true. split; [done|]. by rewrite <- Forall_forall. Qed.

(** A forwarding rule is read back from the line iptables prints for it. *)
Lemma dnat_reads ext n dst :
  word_ok ext → word_ok dst → 0 ≤ n →
  reads (dnat_line ext (str_of_Z n) dst)
    (mkRule (Some "PREROUTING") (Some ext) (Some "tcp") (Some "tcp") (Some "DNAT") (Some n)
       (Some dst))%string.
Proof.
  intros He Hd Hn. destruct (parse_int_port n Hn) as [Hp Hw]. split; [|done].
  unfold line_rule, dnat_line. rewrite words_concat.
  - cbn -[parse_int str_of_Z long_opt].
    change (long_opt "--dport") with (Some OptDport).
    change (long_opt "--to-destination") with (Some OptDest).
    cbn -[parse_int str_of_Z]. by rewrite Hp.
  - unfold dnat_tokens.
    repeat (apply Forall_cons_2; [first [assumption|apply word_ok_const; vm_compute; reflexivity]|]).
    apply Forall_nil_2.
Qed.

Lemma rules_of_lines_reads lines rules :
  Forall2 reads lines rules → rules_of_lines lines = Some rules.
Proof.
  induction 1 as [|line r lines rules [Hr HA] _ IH]; [done|].
  cbn [rules_of_lines]. rewrite Hr. cbn [mbind option_bind]. rewrite IH. cbn [mbind option_bind].
  by rewrite HA.
Qed.

Lemma reads_det line r r' : reads line r → reads line r' → r = r'.
Proof. intros [H _] [H' _]. congruence. Qed.

Lemma Forall2_delete {X Y} (P : X → Y → Prop) l k i :
  Forall2 P l k → Forall2 P (list_delete i l) (list_delete i k).
Proof.
  intros H. revert i. induction H as [|x y l k Hxy Hl IH]; intros [|i];
    [apply Forall2_nil_2|apply Forall2_nil_2|done|].
  change (Forall2 P (x :: list_delete i l) (y :: list_delete i k)). apply Forall2_cons_2; [done|apply IH].
Qed.

(** The destinations the rules lead to, in the order of the chain. *)
Definition destinations (rules : list rule) : list string := omap destination rules.

Lemma rule_exists_elem rules ip port :
  rule_exists rules ip port = true ↔ colon ip port ∈ destinations rules.
Proof.
  unfold rule_exists, destinations. rewrite list_elem_of_omap, existsb_exists.
  split.
  - intros (r & Hr & Hp). exists r. split; [by apply list_elem_of_In|].
    unfold points_to in Hp. destruct (destination r); [|done]. by apply String.eqb_eq in Hp as ->.
  - intros (r & Hr & Hp). exists r. split; [by apply list_elem_of_In|].
    unfold points_to. rewrite Hp. apply String.eqb_refl.
Qed.

(** Deleting the only rule with a destination leaves none. *)
Lemma destinations_delete rules i r dst :
  rules !! i = Some r → destination r = Some dst → NoDup (destinations rules) →
  (dst ∉ destinations (list_delete i rules)) ∧ NoDup (destinations (list_delete i rules)).
Proof.
  revert i. induction rules as [|r' rules IH]; intros [|i] Hi Hd Hn; simplify_eq/=.
  - unfold destinations in Hn. simpl in Hn. rewrite Hd in Hn. by apply NoDup_cons in Hn.
  - unfold destinations in *. simpl in *. destruct (destination r') as [x|]; [|by apply IH].
    apply NoDup_cons in Hn as [Hx Hn]. destruct (IH i Hi Hd Hn) as [H1 H2].
    assert (dst ∈ omap destination rules) as Hin
      by (apply list_elem_of_omap; exists r; split; [by eapply list_elem_of_lookup_2|done]).
    rewrite not_elem_of_cons, NoDup_cons. split_and!; [by intros ->|done| |done].
    intros (y & Hy & Hyd)%list_elem_of_omap. apply Hx. apply list_elem_of_omap. exists y.
    split; [|done]. clear -Hy. revert i Hy.
    induction rules as [|z rules IH]; intros [|i]; simpl; set_solver.
Qed.

Section contract.
Context {K : Type} (iptables : list string → K → (Z * list string) * K) (chain : K → list string).
Context (Hipt : iptables_ok iptables chain).
#[local] Set Default Proof Using "All".

(** The rules the program holds are those of the chain. *)
Definition synced (rules : list rule) (k : K) : Prop := Forall2 reads (chain k) rules.

Lemma get_rules_synced rules k : synced rules k → get_rules iptables k = Some (rules, k).
Proof.
  intros H. unfold get_rules. rewrite (ipt_list _ _ Hipt). simpl.
  change (line_rule "-P PREROUTING ACCEPT") with (Some no_opts). cbn [mbind option_bind].
  by rewrite (rules_of_lines_reads _ _ H).
Qed.

Lemma delete_run rules (i : nat) k :
  synced rules k →
  ∃ rules' k', delete iptables rules (Z.of_nat i + 1) k = Some (rules', k') ∧ synced rules' k' ∧
    (rules' = rules ∨ rules' = list_delete i rules).
Proof.
  intros H. unfold delete.
  destruct (ipt_delete _ _ Hipt i k) as (ret & out & k' & -> & [(-> & Hi & Hc)|(Hr & Hc)]).
  - simpl. assert (synced (list_delete i rules) k') as Hs
      by (unfold synced; rewrite Hc; by apply Forall2_delete).
    rewrite (get_rules_synced _ _ Hs). eauto 10.
  - rewrite (proj2 (Z.eqb_neq _ _) Hr). exists rules, k'. split_and!; [done| |by left].
    unfold synced. by rewrite Hc.
Qed.
End contract.

(** ** Properties *)

Section properties.
Context {K : Type} (iptables : list string → K → (Z * list string) * K) (chain : K → list string).
#[local] Set Default Proof Using "Type".

(** Adding a forwarding: the call returns and the program still knows the
    chain. A destination that is there already changes nothing; otherwise the
    new rule is at the head of the chain, or iptables refused and the rules
    stay. Destinations that were distinct stay distinct. *)
Theorem add_spec rules k n ext eport ip port :
  iptables_ok iptables chain → synced chain rules k → clean n eport ip port →
  ∃ rules' k', add iptables rules ext eport ip port k = Some (rules', k') ∧
    synced chain rules' k' ∧
    (rule_exists rules ip port = true → rules' = rules ∧ k' = k) ∧
    (rule_exists rules ip port = false → rules' = rules ∨
       ∃ r, rules' = r :: rules ∧ destination r = Some (colon ip port) ∧ dport r = Some n) ∧
    (NoDup (destinations rules) → NoDup (destinations rules')).
Proof.
  intros Hipt Hs Hc. unfold add. destruct (rule_exists rules ip port) eqn:Ee; [by exists rules, k|].
  destruct (ipt_insert _ _ Hipt n ext eport ip port k Hc)
    as (ret & out & k' & -> & [(-> & ext' & He & Hk')|(Hr & Hk')]).
  - destruct Hc as (Hn & -> & Hw). pose proof (dnat_reads ext' n _ He Hw Hn) as Hr.
    set (r := mkRule _ _ _ _ _ _ _) in Hr.
    assert (synced chain (r :: rules) k') as Hs' by (unfold synced; rewrite Hk'; by constructor).
    exists (r :: rules), k'. cbn [fst snd]. rewrite Z.eqb_refl.
    split_and!; [by apply (get_rules_synced iptables chain)|done|done|eauto|].
    intros Hnd. change (NoDup (colon ip port :: destinations rules)). apply NoDup_cons.
    split; [|done]. rewrite <- rule_exists_elem. congruence.
  - rewrite (proj2 (Z.eqb_neq _ _) Hr). exists rules, k'.
    split_and!; [done|unfold synced; by rewrite Hk'|done|by left|done].
Qed.

(** Deleting by destination: the call returns and the program still knows
    the chain. Without a rule to the destination nothing changes; otherwise the
    first such rule is gone, or iptables refused; with distinct destinations
    no rule to it is left, so a deletion that succeeds after an [add] gives
    back the rules from before. The log says that the deletion failed. *)
Theorem delete_by_destination_spec rules k ip port :
  iptables_ok iptables chain → synced chain rules k →
  ∃ rules' k' msg, delete_by_destination iptables rules ip port k = Some (rules', k', msg) ∧
    synced chain rules' k' ∧
    (rule_exists rules ip port = false → rules' = rules ∧ k' = k) ∧
    (rule_exists rules ip port = true → msg = "delete prerouting failed."%string ∧
       (rules' = rules ∨ ∃ i r, rules !! i = Some r ∧ destination r = Some (colon ip port) ∧
          (∀ l y, rules !! l = Some y → (l < i)%nat → destination y ≠ Some (colon ip port)) ∧
          rules' = list_delete i rules)) ∧
    (NoDup (destinations rules) → rules' = rules ∨ rule_exists rules' ip port = false) ∧
    ∀ r rest, rules = r :: rest → destination r = Some (colon ip port) →
      rules' = rules ∨ rules' = rest.
Proof.
  intros Hipt Hs. unfold delete_by_destination.
  assert (∀ y, points_to (colon ip port) y = true ↔ destination y = Some (colon ip port)) as Hpt.
  { intros y. unfold points_to. destruct (destination y) as [x|]; [|done].
    rewrite String.eqb_eq. split; [by intros ->|by intros [= ->]]. }
  destruct (list_find _ rules) as [[i r]|] eqn:Ef.
  - apply list_find_Some in Ef as (Hi & Hr & Hb). apply Hpt in Hr.
    destruct (delete_run iptables chain Hipt rules i k Hs) as (rules' & k' & -> & Hs' & Hd).
    cbn [mbind option_bind]. eexists _, _, _. split; [done|].
    assert (rule_exists rules ip port = true) as Hex.
    { apply rule_exists_elem, list_elem_of_omap. exists r.
      split; [by eapply list_elem_of_lookup_2|done]. }
    split_and!; [done|congruence| | |].
    + intros _. split; [done|]. destruct Hd as [->| ->]; [by left|right].
      exists i, r. split_and!; [done|done| |done]. intros l y Hl Hlt Hy. by eapply Hb, Hpt.
    + intros Hnd. destruct Hd as [->| ->]; [by left|right].
      destruct (destinations_delete rules i r _ Hi Hr Hnd) as [H _].
      apply not_true_is_false. by rewrite rule_exists_elem.
    + intros r0 rest -> H0. destruct Hd as [->| ->]; [by left|right].
      destruct i as [|i]; [done|]. exfalso. eapply (Hb 0%nat r0); [done|lia|by apply Hpt].
  - apply list_find_None in Ef. rewrite Forall_forall in Ef.
    assert (rule_exists rules ip port = false) as Hex.
    { apply not_true_is_false. rewrite rule_exists_elem. intros (r & Hr & Hd)%list_elem_of_omap.
      by apply (Ef r Hr), Hpt. }
    eexists _, _, _. split; [done|]. rewrite Hex.
    split_and!; [done|done|done|intros _; by left|intros r0 rest _ _; by left].
Qed.
End properties.

(** ** A packet filter that keeps its chain as text *)

Definition demo_iptables (cmd : list string) (k : list string) : (Z * list string) * list string :=
  match cmd with
  | [_; _; _; "-S"%string; _] => ((0, "-P PREROUTING ACCEPT"%string :: k), k)
  | [_; _; _; "-D"%string; _; n] =>
      match py_int n with
      | Some n => if (1 <=? n) && (n <=? Z.of_nat (length k))
                  then ((0, []), list_delete (Z.to_nat (n - 1)) k) else ((1, []), k)
      | None => ((1, []), k)
      end
  | [_; _; _; "-I"%string; _; _; ext; _; _; _; _; _; port; _; _; _; dst] =>
      ((0, []), dnat_line "1.2.3.4/32"%string port dst :: k)
  | _ => ((2, []), k)
  end.

Lemma demo_iptables_ok : iptables_ok demo_iptables id.
Proof.
  split.
  - done.
  - intros n ext eport ip port k _. eexists _, _, _. split; [done|]. left. split; [done|].
    exists "1.2.3.4/32"%string. split; [|done]. apply word_ok_const. vm_compute. reflexivity.
  - intros i k. cbn -[str_of_Z py_int Z.of_nat]. rewrite py_int_str_of_Z.
    destruct (Z.leb_spec 1 (Z.of_nat i + 1)); [|lia]. simpl.
    destruct (Z.leb_spec (Z.of_nat i + 1) (Z.of_nat (length k))); simpl.
    + eexists _, _, _. split; [done|]. left. split_and!; [done|unfold id; lia|].
      f_equal. lia.
    + eexists _, _, _. split; [done|]. by right.
Qed.

Definition demo_chain : list string :=
  ["-A PREROUTING -i eth0 -j ACCEPT"; "-A PREROUTING -d 1.2.3.4/32 -p tcp -m tcp --dport 2201 -j DNAT --to-destination 10.0.0.2:22"]%string.
Definition demo_rules : list rule :=
  [mkRule (Some "PREROUTING") None None None None None None;
   mkRule (Some "PREROUTING") (Some "1.2.3.4/32") (Some "tcp") (Some "tcp") (Some "DNAT")
     (Some 2201) (Some "10.0.0.2:22")]%string.

Lemma add_spec_witness :
  ∃ rules' k', add demo_iptables demo_rules "1.2.3.4" "2202" "10.0.0.2" "80" demo_chain
    = Some (rules', k') ∧
    synced id rules' k' ∧
    (rule_exists demo_rules "10.0.0.2" "80" = true → rules' = demo_rules ∧ k' = demo_chain) ∧
    (rule_exists demo_rules "10.0.0.2" "80" = false → rules' = demo_rules ∨
       ∃ r, rules' = r :: demo_rules ∧ destination r = Some (colon "10.0.0.2" "80") ∧
            dport r = Some 2202) ∧
    (NoDup (destinations demo_rules) → NoDup (destinations rules')).
Proof.
  apply (add_spec demo_iptables id demo_rules demo_chain 2202 "1.2.3.4" "2202" "10.0.0.2" "80").
  - apply demo_iptables_ok.
  - repeat constructor.
  - split_and!; [lia|reflexivity|]. apply word_ok_const. vm_compute. reflexivity.
Defined.

Lemma delete_by_destination_spec_witness :
  let ip := "10.0.0.2"%string in
  let port := "22"%string in
  ∃ rules' k' msg, delete_by_destination demo_iptables demo_rules ip port demo_chain
    = Some (rules', k', msg) ∧
    synced id rules' k' ∧
    (rule_exists demo_rules ip port = false → rules' = demo_rules ∧ k' = demo_chain) ∧
    (rule_exists demo_rules ip port = true → msg = "delete prerouting failed."%string ∧
       (rules' = demo_rules ∨ ∃ i r, demo_rules !! i = Some r ∧
          destination r = Some (colon ip port) ∧
          (∀ l y, demo_rules !! l = Some y → (l < i)%nat → destination y ≠ Some (colon ip port)) ∧
          rules' = list_delete i demo_rules)) ∧
    (NoDup (destinations demo_rules) → rules' = demo_rules ∨ rule_exists rules' ip port = false) ∧
    ∀ r rest, demo_rules = r :: rest → destination r = Some (colon ip port) →
      rules' = demo_rules ∨ rules' = rest.
Proof.
  apply (delete_by_destination_spec demo_iptables id demo_rules demo_chain "10.0.0.2" "22").
  - apply demo_iptables_ok.
  - repeat constructor.
Defined.
