(* ===== verification/Table.v ===== *)
(** Database tables and record update. A table is a finite map from primary
    keys to rows with the sequence that gives new keys; [listing] is the
    result of a query ordered by id. The files that model handlers describe
    their part of the database as a record of tables, one per row type. *)
From S2P Require Import Prelude.

(** ** Record update: [r <| field := v |>] *)

(** A record type with its constructor applied to its own projections. *)
Class Eta (R : Type) := eta_of : R → R.

Class Upd {R T : Type} (p : R → T) := upd : (T → T) → R → R.
#[global] Arguments upd {R T} p {_} f r /.

Ltac derive_upd :=
  lazymatch goal with
  | |- @Upd ?R ?T ?p =>
      let i := constr:(_ : Eta R) in
      let e := eval hnf in i in
      match eval pattern p in e with
      | ?g _ =>
          let s := eval cbv beta in (λ f : T → T, g (λ r, f (p r))) in
          exact s
      end
  end.
#[export] Hint Extern 1 (Upd _) => derive_upd : typeclass_instances.

Notation "r <| p := v |>" := (upd p (λ _, v) r)
  (at level 1, left associativity, p at level 9) : ly_scope.
Notation "r <| p ::= f |>" := (upd p f r)
  (at level 1, left associativity, p at level 9) : ly_scope.

(** ** Tables *)

Record table (A : Type) := mkTable { rows : gmap Z A; seq : Z }.
#[global] Arguments mkTable {A} _ _.
#[global] Arguments rows {A} _.
#[global] Arguments seq {A} _.

Definition empty_table {A} : table A := mkTable ∅ 0.

(** The rows inserted in order, with keys from 1 on. *)
Definition table_of {A} (l : list A) : table A :=
  mkTable (list_to_map (zip (seqZ 1 (Z.of_nat (length l))) l)) (Z.of_nat (length l)).

Section table.
Context {A : Type}.
Implicit Types (t : table A) (x : A).

Definition id_le (p q : Z * A) : Prop := p.1 ≤ q.1.
#[export] Instance id_le_dec p q : Decision (id_le p q).
Proof. unfold id_le. apply _. Defined.

Definition listing t : list (Z * A) := merge_sort id_le (map_to_list (rows t)).

Definition tinsert x t : Z * table A :=
  (seq t + 1, mkTable (<[seq t + 1 := x]> (rows t)) (seq t + 1)).
Definition tput (i : Z) x t : table A := mkTable (<[i := x]> (rows t)) (seq t).
Definition tdelete (i : Z) t : table A := mkTable (delete i (rows t)) (seq t).

Lemma listing_perm t : listing t ≡ₚ map_to_list (rows t).
Proof. apply merge_sort_Permutation. Qed.

Lemma elem_of_listing t i x : (i, x) ∈ listing t ↔ rows t !! i = Some x.
Proof. rewrite listing_perm. apply elem_of_map_to_list. Qed.

Lemma listing_NoDup t : NoDup (listing t).*1.
Proof. rewrite listing_perm. apply NoDup_fst_map_to_list. Qed.

#[export] Instance id_le_trans : Transitive id_le.
Proof. intros p q r. unfold id_le. lia. Qed.
#[export] Instance id_le_total : Total id_le.
Proof. intros p q. unfold id_le. lia. Qed.

Lemma listing_sorted t : StronglySorted id_le (listing t).
Proof. apply (StronglySorted_merge_sort id_le). Qed.

(** Keys above the sequence are free: the invariant [INSERT] relies on. *)
Definition seq_ok t : Prop := ∀ i, seq t < i → rows t !! i = None.

Lemma table_of_seq_ok (l : list A) : seq_ok (table_of l).
Proof.
  intros i Hi. simpl in *. apply not_elem_of_list_to_map.
  rewrite list_elem_of_fmap. intros ([j x] & -> & Hj%elem_of_zip_l). simpl in *.
  apply elem_of_seqZ in Hj. lia.
Qed.

Lemma table_of_one x i y : rows (table_of [x]) !! i = Some y ↔ i = 1 ∧ y = x.
Proof. change (rows (table_of [x])) with ({[1 := x]} : gmap Z A). rewrite lookup_singleton_Some. naive_solver. Qed.

Lemma tinsert_seq_ok x t : seq_ok t → seq_ok (tinsert x t).2.
Proof.
  intros H i Hi. simpl in *. rewrite lookup_insert_ne by lia. apply H. lia.
Qed.

(** The new row is listed last. *)
Lemma listing_insert x t :
  seq_ok t → listing (tinsert x t).2 = listing t ++ [(seq t + 1, x)].
Proof.
  intros Hok. assert (∀ p, p ∈ listing t → p.1 ≤ seq t) as Hle.
  { intros [i y] Hp%elem_of_listing. simpl. destruct (decide (i ≤ seq t)); [done|].
    rewrite Hok in Hp; [done|lia]. }
  assert (StronglySorted id_le (listing t ++ [(seq t + 1, x)])) as Hs.
  { pose proof (listing_sorted t) as H. revert H Hle. generalize (listing t).
    induction 1 as [|p l H IH HF]; intros Hle; simpl; [by repeat constructor|].
    constructor; [apply IH; set_solver|]. apply Forall_app; split; [done|].
    repeat constructor. unfold id_le. simpl. specialize (Hle p ltac:(set_solver)). lia. }
  assert (listing (tinsert x t).2 ≡ₚ listing t ++ [(seq t + 1, x)]) as Hp.
  { rewrite !listing_perm. simpl. rewrite map_to_list_insert by (apply Hok; lia).
    by rewrite <- Permutation_cons_append. }
  apply (StronglySorted_unique_strong id_le); [|apply listing_sorted|done|done].
  unfold id_le. intros [i y] [j z] Hi Hj H1 H2. simpl in *. assert (i = j) as -> by lia.
  rewrite <- Hp in Hj. apply elem_of_listing in Hi, Hj. rewrite Hi in Hj. by simplify_eq.
Qed.

(** ** Sums over a table *)

Definition total (f : Z → A → Z) t : Z :=
  sum_list_Z (λ p, f p.1 p.2) (listing t).

Lemma total_map f t : total f t = sum_list_Z (λ p, f p.1 p.2) (map_to_list (rows t)).
Proof. unfold total. by rewrite listing_perm. Qed.

Lemma total_put f t i x :
  total f (tput i x t) = total f (tdelete i t) + f i x.
Proof.
  rewrite !total_map. simpl. rewrite <- (insert_delete_eq (rows t) i x).
  rewrite map_to_list_insert by apply lookup_delete_eq. simpl. lia.
Qed.

Lemma total_delete f t i x :
  rows t !! i = Some x → total f t = total f (tdelete i t) + f i x.
Proof.
  intros H. rewrite !total_map. simpl. rewrite <- (insert_id (rows t) i x) at 1 by done.
  rewrite <- insert_delete_eq, map_to_list_insert by apply lookup_delete_eq. simpl. lia.
Qed.

(** Replacing a row changes a sum by the difference of the two rows. *)
Lemma total_update f t i x y :
  rows t !! i = Some x → total f (tput i y t) = total f t - f i x + f i y.
Proof. intros H. rewrite total_put, (total_delete _ _ _ _ H). lia. Qed.

Lemma total_insert f t x :
  seq_ok t → total f (tinsert x t).2 = total f t + f (seq t + 1) x.
Proof.
  intros H. rewrite !total_map. simpl.
  rewrite map_to_list_insert by (apply H; lia). simpl. lia.
Qed.

Lemma total_ext f g t :
  (∀ i x, rows t !! i = Some x → f i x = g i x) → total f t = total g t.
Proof.
  intros H. unfold total.
  assert (∀ i x, (i, x) ∈ listing t → f i x = g i x) as H'
    by (intros i x Hin; apply H; by apply elem_of_listing).
  induction (listing t) as [|[i x] l IH]; simpl; [done|].
  rewrite (H' i x), IH; set_solver.
Qed.

Lemma total_nonneg f t :
  (∀ i x, rows t !! i = Some x → 0 ≤ f i x) → 0 ≤ total f t.
Proof.
  intros H. apply sum_list_Z_nonneg. intros [i x] Hin. apply H.
  by apply elem_of_listing.
Qed.

Lemma total_le f g t :
  (∀ i x, rows t !! i = Some x → f i x ≤ g i x) → total f t ≤ total g t.
Proof.
  intros H.
  assert (0 ≤ total (λ i x, g i x - f i x) t) as Hn.
  { apply total_nonneg. intros i x Hi. specialize (H i x Hi). lia. }
  revert Hn. unfold total. induction (listing t) as [|[i x] l IH]; simpl; [lia|].
  clear H. assert (∀ l : list (Z * A),
    sum_list_Z (λ p, g p.1 p.2 - f p.1 p.2) l =
    sum_list_Z (λ p, g p.1 p.2) l - sum_list_Z (λ p, f p.1 p.2) l) as ->
    by (clear; induction l; simpl; lia). lia.
Qed.

Lemma total_add (f g : Z → A → Z) t :
  total (λ i x, f i x + g i x) t = total f t + total g t.
Proof. unfold total. induction (listing t) as [|p l IH]; simpl; lia. Qed.

Lemma total_fmap {B} (h : A → B) (g : Z → A → Z) (G : Z → B → Z) t :
  (∀ i x, g i x = G i (h x)) →
  total g t = sum_list_Z (λ p, G p.1 p.2) (map_to_list (h <$> rows t)).
Proof.
  intros HG. rewrite total_map, map_to_list_fmap.
  induction (map_to_list (rows t)) as [|[i x] l IH]; simpl; [done|]. by rewrite IH, HG.
Qed.

Lemma total_zero t : total (λ _ _, 0) t = 0.
Proof. unfold total. induction (listing t); simpl; lia. Qed.

Lemma total_single t i x (c : Z) :
  rows t !! i = Some x → total (λ k _, if k =? i then c else 0) t = c.
Proof.
  intros H. rewrite (total_delete _ t i x H), Z.eqb_refl.
  rewrite (total_ext _ (λ _ _, 0)), total_zero; [lia|].
  intros j y Hj. simpl in Hj. apply lookup_delete_Some in Hj as [Hj _].
  by rewrite (proj2 (Z.eqb_neq j i)).
Qed.
(** A conditional accumulation [if P: acc += f] over the rows is a sum. *)
Lemma sum_filter (P : Z * A → bool) (f : Z * A → Z) (l : list (Z * A)) :
  sum_list_Z f (filter (λ p, P p = true) l) = sum_list_Z (λ p, if P p then f p else 0) l.
Proof.
  induction l as [|p l IH]; simpl; [done|].
  rewrite filter_cons. destruct (P p) eqn:E; [rewrite decide_True by done|rewrite decide_False by done];
    simpl; lia.
Qed.
End table.

#[export] Hint Resolve tinsert_seq_ok : ly.

Lemma tdelete_seq_ok {A} i (t : table A) : seq_ok t → seq_ok (tdelete i t).
Proof. intros H j Hj. simpl. apply lookup_delete_None. right. by apply H. Qed.

(** Deleting a row takes it out of the listing. *)
Lemma listing_delete {A} i (t : table A) :
  listing (tdelete i t) = filter (λ p, p.1 ≠ i) (listing t).
Proof.
  apply (StronglySorted_unique_strong id_le); [|apply listing_sorted| |].
  - unfold id_le. intros [j y] [k z] Hi Hj H1 H2. simpl in *. assert (j = k) as -> by lia.
    apply list_elem_of_filter in Hj as [_ Hj%elem_of_listing].
    apply elem_of_listing in Hi. simpl in Hi. apply lookup_delete_Some in Hi as [_ Hi]. rewrite Hi in Hj. by simplify_eq.
  - pose proof (listing_sorted t) as H. induction H as [|p l H IH HF]; [constructor|].
    rewrite filter_cons. case_decide; [|done]. constructor; [done|].
    apply Forall_forall. intros q [_ Hq]%list_elem_of_filter.
    by apply (proj1 (Forall_forall _ _) HF).
  - apply NoDup_Permutation.
    + eapply NoDup_fmap_1. apply listing_NoDup.
    + apply NoDup_filter. eapply NoDup_fmap_1. apply listing_NoDup.
    + intros [j y]. rewrite list_elem_of_filter, !elem_of_listing. simpl.
      rewrite lookup_delete_Some. naive_solver.
Qed.

(** Another row under a key in use takes the place of the old one. *)
Lemma listing_put {A} i (x y : A) (t : table A) :
  rows t !! i = Some y →
  listing (tput i x t) = (λ p, if decide (p.1 = i) then (i, x) else p) <$> listing t.
Proof.
  intros Hy. set (f := λ p : Z * A, if decide (p.1 = i) then (i, x) else p).
  assert (∀ p, (f p).1 = p.1) as Hf by (intros p; unfold f; case_decide; simpl; congruence).
  apply (StronglySorted_unique_strong id_le); [|apply listing_sorted| |].
  - unfold id_le. intros [j z] [j' z'] Hp Hq H1 H2. simpl in *. assert (j = j') as -> by lia.
    apply elem_of_listing in Hp. simpl in Hp. apply list_elem_of_fmap in Hq as ([k w] & E & Hq).
    apply elem_of_listing in Hq. unfold f in E. simpl in E.
    apply lookup_insert_Some in Hp as [[<- <-]|[Hne Hp]]; case_decide; simplify_eq; try done.
  - pose proof (listing_sorted t) as H. clearbody f. induction H as [|p l H IH HF]; [constructor|].
    cbn. constructor; [done|]. apply Forall_fmap. eapply Forall_impl; [exact HF|].
    intros q. unfold compose, id_le. by rewrite !Hf.
  - apply NoDup_Permutation.
    + eapply NoDup_fmap_1. apply listing_NoDup.
    + apply (NoDup_fmap_1 fst). rewrite <- list_fmap_compose.
      rewrite (list_fmap_ext _ fst); [apply listing_NoDup|]. intros ? p _. apply Hf.
    + intros [j z]. rewrite elem_of_listing, list_elem_of_fmap. simpl. rewrite lookup_insert_Some. split.
      * intros [[<- <-]|[Hne Hz]].
        -- exists (i, y). split; [unfold f; simpl; by rewrite decide_True|by apply elem_of_listing].
        -- exists (j, z). split; [unfold f; simpl; by rewrite decide_False|by apply elem_of_listing].
      * intros ([k w] & E & Hk%elem_of_listing). unfold f in E. simpl in E.
        case_decide; simplify_eq; auto.
Qed.

Lemma tput_seq_ok {A} i (x : A) t : is_Some (rows t !! i) → seq_ok t → seq_ok (tput i x t).
Proof.
  intros [y Hy] H j Hj. simpl in *. destruct (decide (i = j)) as [->|].
  - rewrite H in Hy; done.
  - rewrite lookup_insert_ne by done. by apply H.
Qed.
#[export] Hint Resolve tput_seq_ok : ly.

Lemma tput_id {A} i (x : A) t : rows t !! i = Some x → tput i x t = t.
Proof. intros H. unfold tput. rewrite insert_id by done. by destruct t. Qed.

(** ** Rows added under keys that are not there yet *)

Section fresh.
Context {A K : Type} `{EqDecision K} (key : A → K).
Implicit Types (t : table A) (x : A).
#[local] Set Default Proof Using "All".

Definition has_key t (k : K) : Prop := ∃ i x, rows t !! i = Some x ∧ key x = k.
Definition keys_distinct t : Prop :=
  ∀ i j x y, rows t !! i = Some x → rows t !! j = Some y → key x = key y → i = j.

Definition key_exists t (k : K) : bool :=
  existsb (λ p, bool_decide (key p.2 = k)) (listing t).

(** [for x in l: if there is no row with the key of x: add x] *)
Definition add_fresh (l : list A) t : table A :=
  foldl (λ t x, if key_exists t (key x) then t else (tinsert x t).2) t l.

Lemma key_exists_spec t k : key_exists t k = true ↔ has_key t k.
Proof.
  unfold key_exists, has_key. rewrite existsb_exists. split.
  - intros ([i x] & Hin%list_elem_of_In%elem_of_listing & Hk%bool_decide_eq_true). eauto.
  - intros (i & x & Hx & <-). exists (i, x). split; [by apply list_elem_of_In, elem_of_listing|].
    by apply bool_decide_eq_true.
Qed.

Lemma rows_tinsert x t i y :
  rows (tinsert x t).2 !! i = Some y ↔
  seq t + 1 = i ∧ x = y ∨ seq t + 1 ≠ i ∧ rows t !! i = Some y.
Proof. apply lookup_insert_Some. Qed.

(** What one row adds. *)
Lemma tinsert_fresh x t :
  seq_ok t → ¬ has_key t (key x) → keys_distinct t →
  keys_distinct (tinsert x t).2 ∧
  (∀ i y, rows t !! i = Some y → rows (tinsert x t).2 !! i = Some y) ∧
  (∀ k, has_key (tinsert x t).2 k ↔ has_key t k ∨ k = key x).
Proof.
  intros Hs Hx Hd.
  assert (rows t !! (seq t + 1) = None) as Hn by (apply Hs; lia).
  assert (∀ i y, rows t !! i = Some y → rows (tinsert x t).2 !! i = Some y) as Hold.
  { intros i y Hi. simpl. rewrite lookup_insert_ne; [done|congruence]. }
  split_and!; [|done|].
  - intros i j y z [[<- <-]|[_ Hi]]%rows_tinsert [[<- <-]|[_ Hj]]%rows_tinsert E.
    + done.
    + destruct Hx. by exists j, z.
    + destruct Hx. by exists i, y.
    + by apply (Hd i j y z).
  - intros k. split.
    + intros (i & y & [[<- <-]|[_ Hi]]%rows_tinsert & <-); [by right|left; by exists i, y].
    + intros [(i & y & Hi & <-)| ->]; [exists i, y; auto|].
      exists (seq t + 1), x. split; [|done]. simpl. by rewrite lookup_insert_eq.
Qed.

Lemma add_fresh_spec l : ∀ t, seq_ok t → keys_distinct t →
  let t' := add_fresh l t in
  seq_ok t' ∧ keys_distinct t' ∧
  (∀ i y, rows t !! i = Some y → rows t' !! i = Some y) ∧
  (∀ k, has_key t' k ↔ has_key t k ∨ k ∈ key <$> l) ∧
  (∀ i y, rows t' !! i = Some y → rows t !! i = Some y ∨ (y ∈ l ∧ seq t < i)).
Proof.
  induction l as [|x l IH]; intros t Hs Hd; simpl.
  { split_and!; [done..| |by left]. intros k. rewrite elem_of_nil. tauto. }
  destruct (key_exists t (key x)) eqn:E.
  - apply key_exists_spec in E. destruct (IH t Hs Hd) as (S1 & D1 & O1 & K1 & N1).
    split_and!; [done..| |].
    + intros k. rewrite K1, elem_of_cons. split; [tauto|]. intros [?|[->|?]]; auto.
    + intros i y Hi. destruct (N1 i y Hi) as [?|[? ?]]; [by left|right]. split; [by right|done].
  - assert (¬ has_key t (key x)) as Hx by (rewrite <- key_exists_spec; congruence).
    destruct (tinsert_fresh x t Hs Hx Hd) as (D0 & O0 & K0).
    destruct (IH (tinsert x t).2 (tinsert_seq_ok x t Hs) D0) as (S1 & D1 & O1 & K1 & N1).
    split_and!; [done|done|auto| |].
    + intros k. rewrite K1, K0, elem_of_cons. tauto.
    + intros i y Hi. destruct (N1 i y Hi) as [Hi'|[? Hi']].
      * apply rows_tinsert in Hi' as [[<- <-]|[_ ?]]; [right|by left].
        split; [by left|lia].
      * right. split; [by right|]. simpl in Hi'. lia.
Qed.

Lemma keys_delete t i : keys_distinct t → keys_distinct (tdelete i t).
Proof.
  intros Hd j k x y Hj Hk. simpl in Hj, Hk. apply lookup_delete_Some in Hj as [_ Hj].
  apply lookup_delete_Some in Hk as [_ Hk]. by apply Hd.
Qed.

(** A row may get a key no other row has. *)
Lemma keys_put t i x :
  (∀ j y, rows t !! j = Some y → key y = key x → j = i) →
  keys_distinct t → keys_distinct (tput i x t).
Proof.
  intros Hi Hd j k y z Hj Hk E. simpl in Hj, Hk. apply lookup_insert_Some in Hj as [[<- <-]|[Hj Hy]];
    apply lookup_insert_Some in Hk as [[<- <-]|[Hk Hz]].
  - done.
  - symmetry. by eapply Hi.
  - by eapply Hi.
  - by apply (Hd j k y z).
Qed.
End fresh.

(** ** A database with a table for each row type *)

Class HasTable (S A : Type) := {
  tbl : S → table A;
  set_tbl : table A → S → S;
  tbl_set : ∀ t s, tbl (set_tbl t s) = t;
  set_same : ∀ s, set_tbl (tbl s) s = s;
  set_twice : ∀ t t' s, set_tbl t (set_tbl t' s) = set_tbl t s }.

(** The row type is never guessed. *)
#[export] Hint Mode HasTable ! ! : typeclass_instances.

(** Two tables of one database that do not overlap. *)
Class Indep (S A B : Type) `{HasTable S A, HasTable S B} :=
  tbl_set_other : ∀ (t : table A) (s : S),
    @tbl S B _ (@set_tbl S A _ t s) = @tbl S B _ s.

Section db.
Context {S A : Type} `{HasTable S A}.

Definition row (s : S) (i : Z) : option A := rows (tbl s) !! i.
Definition select (P : Z → A → bool) (s : S) : list (Z * A) :=
  filter (λ p, P p.1 p.2 = true) (listing (tbl s)).

Lemma elem_of_select P s i x :
  (i, x) ∈ select P s ↔ row s i = Some x ∧ P i x = true.
Proof.
  unfold select, row. rewrite list_elem_of_filter, elem_of_listing. simpl. tauto.
Qed.

Lemma select_NoDup P s : NoDup (select P s : list (Z * A)).*1.
Proof.
  unfold select. apply (sublist_NoDup _ (listing (tbl s : table A)).*1); [apply listing_NoDup|].
  apply fmap_sublist, sublist_filter.
Qed.

Lemma sum_select P (f : Z → A → Z) s :
  sum_list_Z (λ p, f p.1 p.2) (select P s) =
  total (λ i x, if P i x then f i x else 0) (tbl s).
Proof. apply (sum_filter (λ p, P p.1 p.2) (λ p, f p.1 p.2)). Qed.

Lemma row_put s i (x : A) j :
  row (set_tbl (tput i x (tbl s)) s) j = if decide (i = j) then Some x else row s j.
Proof.
  unfold row. rewrite tbl_set. simpl. case_decide as E.
  - rewrite E. apply lookup_insert_eq.
  - by apply lookup_insert_ne.
Qed.
Lemma row_same s j : row (set_tbl (tbl s : table A) s) j = row s j.
Proof. unfold row. by rewrite tbl_set. Qed.
Lemma row_put_eq s i (x : A) : row (set_tbl (tput i x (tbl s)) s) i = Some x.
Proof. rewrite row_put. by rewrite decide_True. Qed.
Lemma row_put_ne s i (x : A) j :
  i ≠ j → row (set_tbl (tput i x (tbl s)) s) j = (row s j : option A).
Proof. intros. rewrite row_put. by rewrite decide_False. Qed.
Lemma row_set_put s i (x : A) t j :
  row (set_tbl (tput i x t) s) j = if decide (i = j) then Some x else rows t !! j.
Proof.
  unfold row. rewrite tbl_set. simpl. case_decide as E.
  - rewrite E. apply lookup_insert_eq.
  - by apply lookup_insert_ne.
Qed.
Lemma row_set_delete s i (t : table A) j :
  row (set_tbl (tdelete i t) s) j = if decide (i = j) then None else rows t !! j.
Proof.
  unfold row. rewrite tbl_set. simpl. case_decide as E.
  - rewrite E. apply lookup_delete_eq.
  - by apply lookup_delete_ne.
Qed.
Lemma row_insert s (x : A) : row (set_tbl (tinsert x (tbl s)).2 s) (seq (tbl s : table A) + 1) = Some x.
Proof. unfold row. rewrite tbl_set. apply lookup_insert_eq. Qed.
Lemma row_insert_inv s (x : A) k (y : A) :
  row (set_tbl (tinsert x (tbl s)).2 s) k = Some y →
  k = seq (tbl s : table A) + 1 ∧ y = x ∨ k ≠ seq (tbl s : table A) + 1 ∧ row s k = Some y.
Proof.
  unfold row. rewrite tbl_set. simpl. intros [[<- <-]|[Hk Hy]]%lookup_insert_Some; auto.
Qed.
Lemma row_delete s i j :
  row (set_tbl (tdelete i (tbl s : table A)) s) j = if decide (i = j) then None else (row s j : option A).
Proof.
  unfold row. rewrite tbl_set. simpl. case_decide as E.
  - rewrite E. apply lookup_delete_eq.
  - by apply lookup_delete_ne.
Qed.
Lemma row_seq s k (x : A) :
  seq_ok (tbl s : table A) → row s k = Some x → k ≤ seq (tbl s : table A).
Proof.
  intros Hs Hx. destruct (decide (k ≤ seq (tbl s : table A))) as [|Hk]; [done|].
  unfold row in Hx. rewrite Hs in Hx by lia. done.
Qed.
Lemma row_insert_old s (x : A) k (y : A) :
  seq_ok (tbl s : table A) → row s k = Some y → row (set_tbl (tinsert x (tbl s)).2 s) k = Some y.
Proof.
  intros Hs Hy. pose proof (row_seq s k y Hs Hy) as Hk. unfold row in *. rewrite tbl_set. simpl.
  rewrite lookup_insert_ne; [done|lia].
Qed.
End db.

Lemma select_insert {S A} `{HasTable S A} P (s : S) (x : A) :
  seq_ok (tbl s : table A) →
  select P (set_tbl (tinsert x (tbl s)).2 s) =
    select P s ++ (if P (seq (tbl s : table A) + 1) x
                   then [(seq (tbl s : table A) + 1, x)] else []).
Proof.
  intros Hs. unfold select. rewrite tbl_set, listing_insert by done. rewrite filter_app. f_equal.
  simpl. case_match; by rewrite ?filter_cons_True, ?filter_cons_False by (simpl; congruence).
Qed.

Lemma select_delete {S A} `{HasTable S A} P (s : S) i :
  select (A := A) P (set_tbl (tdelete i (tbl s : table A)) s) =
    filter (λ p, p.1 ≠ i) (select P s).
Proof.
  unfold select. rewrite tbl_set, listing_delete.
  generalize (listing (tbl s : table A)). intros l. induction l as [|p l IH]; [done|].
  rewrite !filter_cons. repeat case_decide; rewrite ?filter_cons; repeat case_decide;
    congruence.
Qed.

Lemma row_other {S A B} `{HasTable S A, HasTable S B, !Indep S A B} (t : table A) (s : S) i :
  row (A := B) (set_tbl (A := A) t s) i = row (A := B) s i.
Proof. unfold row. by rewrite tbl_set_other. Qed.

Lemma select_other {S A B} `{HasTable S A, HasTable S B, !Indep S A B} (t : table A) (s : S) P :
  select (A := B) P (set_tbl t s) = select P s.
Proof. unfold select. by rewrite tbl_set_other. Qed.

(** The first row of a query. *)
Lemma head_select {S A} `{HasTable S A} P (s : S) i (x : A) :
  head (select P s) = Some (i, x) → row s i = Some x ∧ P i x = true.
Proof.
  intros Hh. apply elem_of_select. destruct (select P s); [done|].
  injection Hh as ->. by left.
Qed.
Lemma head_select_none {S A} `{HasTable S A} P (s : S) i (x : A) :
  head (select P s) = None → row s i = Some x → P i x = false.
Proof.
  intros Hh Hx. apply not_true_is_false. intros HP.
  assert ((i, x) ∈ select P s) as Hin by by apply elem_of_select.
  destruct (select P s); [by apply elem_of_nil in Hin|done].
Qed.

(** ... and stays the first when the row there may change but not leave the query. *)
Lemma head_select_put {S A} `{HasTable S A} P (s : S) i (x y : A) :
  head (select P s) = Some (i, y) → P i x = true →
  head (select P (set_tbl (tput i x (tbl s)) s)) = Some (i, x).
Proof.
  intros Hh HP. pose proof (head_select P s i y Hh) as [Hi _]. unfold row in Hi.
  pose proof (listing_NoDup (tbl s : table A)) as Hd.
  unfold select in *. rewrite tbl_set, (listing_put i x y) by done.
  induction (listing (tbl s)) as [|[k z] l IH]; [done|]. cbn [fmap list_fmap fst] in *.
  apply NoDup_cons in Hd as [Hk Hd]. rewrite filter_cons in Hh. case_decide as Hz; cbn [fst snd] in *.
  - injection Hh as -> ->. rewrite filter_cons_True; [|by rewrite decide_True].
    by rewrite decide_True.
  - assert (k ≠ i) as Hne.
    { intros ->. apply Hk. apply list_elem_of_fmap. exists (i, y). split; [done|].
      destruct (filter _ l) as [|q l'] eqn:E; [done|]. injection Hh as ->.
      assert ((i, y) ∈ filter (λ p : Z * A, P p.1 p.2 = true) l) as Hin by (rewrite E; by left).
      by apply list_elem_of_filter in Hin as [_ ?]. }
    rewrite filter_cons_False by (rewrite decide_False by done; done). by apply IH.
Qed.
