(* ===== verification/Session.v ===== *)
(** Request handlers as programs over a database session. One request runs on
    a session (lib/yweb/orm.py: [global_dbsession]): what it changes is visible
    to its own queries (autoflush), [commit] makes it permanent, and
    [RequestHandler.on_finish] removes the session, which rolls back whatever
    was not committed. An exception ends the handler the same way. *)
From Stdlib Require Import Ascii String.
From S2P Require Import Prelude Table.
#[local] Open Scope Z_scope.

(** ** What a request does besides the database *)

Inductive effect :=
  | Write (msg : string)                  (** [self.write], [self.finish(text)] *)
  | WriteCode (code : Z) (msg : string)   (** a JSON answer with its code *)
  | Redirect (url : string) (id : Z)
  | Render (template : string)
  | SetStatus (code : Z)
  | NotifyJob (job : Z)                   (** [_job_notify] reached the controller *)
  | SendMsg (uri : string) (to_user : Z)  (** [sendmsg] to the controller *)
  | Nginx (cmd : string) (id : Z)         (** virtual host written or removed *)
  | IptAdd (external_ip : string) (external_port : Z) (inner_ip : string) (inner_port : Z)
  | IptDel (inner_ip : string) (inner_port : Z)  (** calls of tool/firewall.py *)
  | Mail (addr : string) (to_user : Z) (key : string)
      (** [sendmsg] of an e-mail that carries a key, to an address or a user *)
  | StoreMail (name : string) (subject : option string) (to from text : string)
      (** [FileSysMail.send]: an HTML mail put into the mail store *)
  | SetCookie (name value : string)
  | ClearCookies
  | FileOp (op : string) (id : Z).

#[export] Instance effect_eq_dec : EqDecision effect.
Proof. solve_decision. Defined.

Inductive out (A : Type) := Val (a : A) | Raise (exn : string).
#[global] Arguments Val {A} a.
#[global] Arguments Raise {A} exn.

Section session.
Context {S : Type}.

Record world := mkWorld { work : S; comm : S; outs : list effect }.

Definition Web (A : Type) : Type := world → out A * world.

#[export] Instance Web_ret : MRet Web := λ A a w, (Val a, w).
#[export] Instance Web_bind : MBind Web := λ A B f m w,
  match m w with
  | (Val a, w') => f a w'
  | (Raise e, w') => (Raise e, w')
  end.

Definition raise {A} (e : string) : Web A := λ w, (Raise e, w).
Definition ask {A} (f : S → A) : Web A := λ w, (Val (f (work w)), w).
Definition change (f : S → S) : Web unit := λ w,
  (Val tt, mkWorld (f (work w)) (comm w) (outs w)).
Definition commit : Web unit := λ w, (Val tt, mkWorld (work w) (work w) (outs w)).
Definition emit (e : effect) : Web unit := λ w,
  (Val tt, mkWorld (work w) (comm w) (outs w ++ [e])).

(** [try: m except Exception: h] *)
Definition try_except {A} (m : Web A) (h : Web A) : Web A := λ w,
  match m w with
  | (Raise _, w') => h w'
  | r => r
  end.

(** ** Rows *)

(** [db.query(A).get(id)] *)
Definition get_row {A} `{HasTable S A} (i : Z) : Web (option A) := ask (λ s, row s i).

(** Reading an attribute of a loaded object. *)
Definition fetch {A} `{HasTable S A} (i : Z) : Web A := λ w,
  match row (work w) i with
  | Some x => (Val x, w)
  | None => (Raise "ObjectDeletedError", w)
  end.

(** Following a reference that may be NULL or dangling: [None.attr] raises. *)
Definition fetch_opt {A} `{HasTable S A} (i : option Z) : Web A :=
  match i with
  | Some i => fetch i
  | None => raise "AttributeError: NoneType"
  end.

Definition put_row {A} `{HasTable S A} (i : Z) (x : A) : Web unit :=
  change (λ s, set_tbl (tput i x (tbl s)) s).

Definition modify {A} `{HasTable S A} (i : Z) (f : A → A) : Web unit :=
  x ← fetch i; put_row i (f x).

Definition add_row {A} `{HasTable S A} (x : A) : Web Z := λ w,
  let '(i, t) := tinsert x (tbl (work w)) in
  (Val i, mkWorld (set_tbl t (work w)) (comm w) (outs w)).

Definition delete_row (A : Type) `{HasTable S A} (i : Z) : Web unit :=
  change (λ s, set_tbl (tdelete (A := A) i (tbl s)) s).

(** [for x in l: f(x)] *)
Definition for_each {A} (l : list A) (f : A → Web unit) : Web unit :=
  foldr (λ x k, f x ;; k) (mret tt) l.

(** ** One request *)

Definition start (s : S) : world := mkWorld s s [].

(** The committed database and the effects a request leaves behind. *)
Definition request {A} (m : Web A) (s : S) : S * list effect :=
  let '(_, w) := m (start s) in (comm w, outs w).

Lemma request_fst {A} (m : Web A) s : (request m s).1 = comm (m (start s)).2.
Proof. unfold request. by destruct (m (start s)). Qed.

(** ** Relations kept by a program *)

(** Every run of [m] stays within the preorder [R], whatever it returns or
    raises. *)
Definition keeps (R : world → world → Prop) {A} (m : Web A) : Prop :=
  ∀ w, R w (m w).2.

Section keeps.
Context (R : world → world → Prop) `{!PreOrder R}.
#[local] Set Default Proof Using "All".

Lemma keeps_ret {A} (a : A) : keeps R (mret a).
Proof. intros w. reflexivity. Qed.
Lemma keeps_raise {A} e : keeps R (raise (A := A) e).
Proof. intros w. simpl. reflexivity. Qed.
Lemma keeps_ask {A} (f : S → A) : keeps R (ask f).
Proof. intros w. simpl. reflexivity. Qed.
Lemma keeps_get {A} `{HasTable S A} i : keeps R (get_row (A := A) i).
Proof. intros w. simpl. reflexivity. Qed.
Lemma keeps_fetch {A} `{HasTable S A} i : keeps R (fetch (A := A) i).
Proof. intros w. unfold fetch. case_match; simpl; reflexivity. Qed.
Lemma keeps_fetch_opt {A} `{HasTable S A} i : keeps R (fetch_opt (A := A) i).
Proof. destruct i; [apply keeps_fetch|apply keeps_raise]. Qed.
Lemma keeps_bind {A B} (m : Web A) (f : A → Web B) :
  keeps R m → (∀ a, keeps R (f a)) → keeps R (m ≫= f).
Proof.
  intros Hm Hf w. specialize (Hm w). unfold mbind, Web_bind.
  destruct (m w) as [[a|e] w'] eqn:E; simpl in *; [|done].
  etrans; [apply Hm|apply Hf].
Qed.
Lemma keeps_try {A} (m h : Web A) : keeps R m → keeps R h → keeps R (try_except m h).
Proof.
  intros Hm Hh w. specialize (Hm w). unfold try_except.
  destruct (m w) as [[a|e] w'] eqn:E; simpl in *; [done|].
  etrans; [apply Hm|apply Hh].
Qed.
Lemma keeps_for {A} (l : list A) f :
  (∀ x, keeps R (f x)) → keeps R (for_each l f).
Proof.
  intros Hf. induction l as [|x l IH]; simpl; [apply keeps_ret|].
  apply keeps_bind; [apply Hf|done].
Qed.
Lemma keeps_mapM {A B} (f : A → Web B) (l : list A) :
  (∀ x, keeps R (f x)) → keeps R (mapM f l).
Proof.
  intros Hf. induction l as [|x l IH]; simpl; [apply keeps_ret|].
  apply keeps_bind; [apply Hf|intros y]. apply keeps_bind; [done|intros k]. apply keeps_ret.
Qed.
Lemma keeps_change f :
  (∀ s c o, R (mkWorld s c o) (mkWorld (f s) c o)) → keeps R (change f).
Proof. intros Hr [s c o]. apply Hr. Qed.
Lemma keeps_modify {A} `{HasTable S A} i (f : A → A) :
  (∀ s c o x, row s i = Some x →
     R (mkWorld s c o) (mkWorld (set_tbl (tput i (f x) (tbl s)) s) c o)) →
  keeps R (modify i f).
Proof.
  intros Hr [s c o]. unfold modify, fetch, mbind, Web_bind. simpl.
  destruct (row s i) eqn:E; simpl; [by apply Hr|reflexivity].
Qed.
Lemma keeps_add {A} `{HasTable S A} (x : A) :
  (∀ s c o, R (mkWorld s c o) (mkWorld (set_tbl (tinsert x (tbl s)).2 s) c o)) →
  keeps R (add_row x).
Proof. intros Hr [s c o]. apply Hr. Qed.
Lemma keeps_commit :
  (∀ s c o, R (mkWorld s c o) (mkWorld s s o)) → keeps R commit.
Proof. intros Hr [s c o]. apply Hr. Qed.
Lemma keeps_emit e :
  (∀ s c o, R (mkWorld s c o) (mkWorld s c (o ++ [e]))) → keeps R (emit e).
Proof. intros Hr [s c o]. apply Hr. Qed.
End keeps.

(** The relation for a part of the database that must not change in the
    session, so that what a commit writes is what was there before. *)
Definition frozen {X} (f : S → X) (w w' : world) : Prop :=
  f (work w') = f (work w) ∧ (f (comm w') = f (comm w) ∨ f (comm w') = f (work w)).

#[export] Instance frozen_preorder {X} (f : S → X) : PreOrder (frozen f).
Proof.
  split; [by intros w; split; [|left]|].
  intros w1 w2 w3 [H1 H2] [H3 H4]. split; [congruence|].
  destruct H4 as [->| ->]; [|by right; congruence].
  destruct H2 as [->| ->]; auto.
Qed.

(** A preorder on databases that a program respects, in the session and in what
    it commits. *)
Definition tracks (K : S → S → Prop) (w w' : world) : Prop :=
  K (work w) (work w') ∧ (K (comm w) (comm w') ∨ K (work w) (comm w')).

#[export] Instance tracks_preorder (K : S → S → Prop) `{!PreOrder K} : PreOrder (tracks K).
Proof.
  split; [by intros w; split; [|left]|].
  intros w1 w2 w3 [H1 H2] [H3 H4]. split; [by etrans|].
  destruct H4 as [H4|H4]; [|by right; etrans].
  destruct H2; [left|right]; by etrans.
Qed.

Lemma frozen_tracks {A X} (f : S → X) (K : S → S → Prop) (m : Web A) :
  (∀ s s', f s = f s' → K s s') → keeps (frozen f) m → keeps (tracks K) m.
Proof.
  intros Hf H w. destruct (H w) as [H1 H2]. split; [by apply Hf|].
  destruct H2; [left|right]; by apply Hf.
Qed.

Lemma request_tracks {A} (K : S → S → Prop) (m : Web A) s :
  keeps (tracks K) m → K s (request m s).1.
Proof.
  intros H. specialize (H (start s)). unfold request.
  destruct (m (start s)) as [r w]. simpl in *. by destruct H as [_ [H|H]].
Qed.

Lemma keeps_run {A} (R : world → world → Prop) (m : Web A) w r w' :
  keeps R m → m w = (r, w') → R w w'.
Proof. intros H E. specialize (H w). by rewrite E in H. Qed.

Lemma frozen_run {A X} (f : S → X) (m : Web A) w r w' :
  keeps (frozen f) m → m w = (r, w') → f (work w') = f (work w).
Proof. intros H E. by destruct (keeps_run _ _ _ _ _ H E). Qed.

(** A request that keeps [frozen f] leaves [f] of the committed database. *)
Lemma request_frozen {A X} (f : S → X) (m : Web A) s :
  keeps (frozen f) m → f (request m s).1 = f s.
Proof.
  intros H. specialize (H (start s)). unfold request.
  destruct (m (start s)) as [r w]. simpl in *. destruct H as [_ H].
  by destruct H.
Qed.

(** An invariant of the database that holds in the session and in the
    committed state. *)
Definition inv_rel (I : S → Prop) (w w' : world) : Prop :=
  I (work w) → I (comm w) → I (work w') ∧ I (comm w').

#[export] Instance inv_rel_preorder (I : S → Prop) : PreOrder (inv_rel I).
Proof.
  split; [by intros w ??|]. intros w1 w2 w3 H1 H2 Hw Hc.
  destruct (H1 Hw Hc). by apply H2.
Qed.

(** An invariant of a part of the database that a program freezes. *)
Lemma frozen_inv {A X} (f : S → X) (I : S → Prop) (m : Web A) :
  (∀ s s', f s = f s' → I s → I s') → keeps (frozen f) m → keeps (inv_rel I) m.
Proof.
  intros Hf H w Hw Hc. destruct (H w) as [H1 H2]. split; [by apply (Hf (work w))|].
  destruct H2 as [H2|H2]; [by apply (Hf (comm w))|by apply (Hf (work w))].
Qed.

(** What is asked of the session is known in the rest. *)
Lemma inv_ask {A B} (I : S → Prop) (f : S → A) (k : A → Web B) :
  (∀ w, I (work w) → I (comm w) →
     I (work (k (f (work w)) w).2) ∧ I (comm (k (f (work w)) w).2)) →
  keeps (inv_rel I) (ask f ≫= k).
Proof. intros H w Hw Hc. by apply H. Qed.

Lemma request_inv {A} (I : S → Prop) (m : Web A) s :
  keeps (inv_rel I) m → I s → I (request m s).1.
Proof.
  intros H Hs. specialize (H (start s) Hs Hs). unfold request.
  destruct (m (start s)) as [r w]. apply H.
Qed.

(** ** Running a program step by step *)

Lemma run_bind {A B} (m : Web A) (f : A → Web B) w a w' :
  m w = (Val a, w') → (m ≫= f) w = f a w'.
Proof. unfold mbind, Web_bind. by intros ->. Qed.

Lemma run_exn {A B} (m : Web A) (f : A → Web B) w x w' :
  m w = (Raise x, w') → (m ≫= f) w = (Raise x, w').
Proof. unfold mbind, Web_bind. by intros ->. Qed.

Lemma run_assoc {A B C} (m : Web A) (f : A → Web B) (g : B → Web C) w :
  ((m ≫= f) ≫= g) w = (m ≫= λ x, f x ≫= g) w.
Proof. unfold mbind, Web_bind. by destruct (m w) as [[a|e] w']. Qed.
Lemma run_ret {A B} (a : A) (f : A → Web B) w : (mret a ≫= f) w = f a w.
Proof. done. Qed.
Lemma run_raise {A B} e (f : A → Web B) w : (raise e ≫= f) w = (Raise e, w).
Proof. done. Qed.
Lemma run_ask {A B} (h : S → A) (f : A → Web B) w : (ask h ≫= f) w = f (h (work w)) w.
Proof. done. Qed.
Lemma run_get {A B} `{HasTable S A} i (f : option A → Web B) w :
  (get_row i ≫= f) w = f (row (work w) i) w.
Proof. done. Qed.
Lemma run_emit {B} e (f : unit → Web B) w :
  (emit e ≫= f) w = f tt (mkWorld (work w) (comm w) (outs w ++ [e])).
Proof. done. Qed.
Lemma run_commit {B} (f : unit → Web B) w :
  (commit ≫= f) w = f tt (mkWorld (work w) (work w) (outs w)).
Proof. done. Qed.
Lemma run_put {A B} `{HasTable S A} i (x : A) (f : unit → Web B) w :
  (put_row i x ≫= f) w =
  f tt (mkWorld (set_tbl (tput i x (tbl (work w))) (work w)) (comm w) (outs w)).
Proof. done. Qed.
Lemma run_delete {A B} `{HasTable S A} i (f : unit → Web B) w :
  (delete_row A i ≫= f) w =
  f tt (mkWorld (set_tbl (tdelete i (tbl (work w) : table A)) (work w)) (comm w) (outs w)).
Proof. done. Qed.
Lemma run_add {A B} `{HasTable S A} (x : A) (f : Z → Web B) w :
  (add_row x ≫= f) w =
  f (seq (tbl (work w) : table A) + 1)
    (mkWorld (set_tbl (tinsert x (tbl (work w))).2 (work w)) (comm w) (outs w)).
Proof. done. Qed.
Lemma run_fetch {A B} `{HasTable S A} i (f : A → Web B) w :
  (fetch i ≫= f) w = match row (work w) i with
                     | Some x => f x w
                     | None => (Raise "ObjectDeletedError", w)
                     end.
Proof. unfold mbind, Web_bind, fetch. by destruct (row (work w) i). Qed.
Lemma run_modify {A B} `{HasTable S A} i (g : A → A) (f : unit → Web B) w :
  (modify i g ≫= f) w = match row (work w) i with
    | Some x => f tt (mkWorld (set_tbl (tput i (g x) (tbl (work w))) (work w)) (comm w) (outs w))
    | None => (Raise "ObjectDeletedError", w)
    end.
Proof. unfold modify. rewrite run_assoc, run_fetch. by destruct (row (work w) i). Qed.
Lemma run_try {A B} (m h : Web A) (f : A → Web B) w :
  (try_except m h ≫= f) w = match m w with
                            | (Val a, w') => f a w'
                            | (Raise _, w') => (h ≫= f) w'
                            end.
Proof. unfold mbind, Web_bind, try_except. by destruct (m w) as [[a|e] w']. Qed.
Lemma ret_val {A} (a : A) w : mret (M := Web) a w = (Val a, w).
Proof. done. Qed.
Lemma raise_val {A} e w : raise (A := A) e w = (Raise e, w).
Proof. done. Qed.
Lemma emit_val e w : emit e w = (Val tt, mkWorld (work w) (comm w) (outs w ++ [e])).
Proof. done. Qed.
Lemma commit_val w : commit w = (Val tt, mkWorld (work w) (work w) (outs w)).
Proof. done. Qed.
Lemma modify_val {A} `{HasTable S A} i (g : A → A) w :
  modify i g w = match row (work w) i with
    | Some x => (Val tt, mkWorld (set_tbl (tput i (g x) (tbl (work w))) (work w)) (comm w) (outs w))
    | None => (Raise "ObjectDeletedError", w)
    end.
Proof. unfold modify. rewrite run_fetch. by destruct (row (work w) i). Qed.

(** What each step of a loop establishes, and no step undoes, holds after it. *)
Lemma for_each_stable {A} (G : S → Prop) (l : list A) f w u w' :
  (∀ x w u w', x ∈ l → f x w = (Val u, w') → G (work w) → G (work w')) →
  for_each l f w = (Val u, w') → G (work w) → G (work w').
Proof.
  revert w. induction l as [|x l IH]; intros w Hs H HG; simpl in H; [rewrite ret_val in H; by simplify_eq|].
  unfold mbind, Web_bind in H. destruct (f x w) as [[v|e] w1] eqn:E; [|done].
  apply (IH w1); [|done|].
  - intros y w2 v2 w3 Hy. apply Hs. by right.
  - eapply (Hs x); [by left|done|done].
Qed.
Lemma for_each_all {A} (G : A → S → Prop) (l : list A) f w u w' :
  (∀ x w u w', x ∈ l → f x w = (Val u, w') → G x (work w')) →
  (∀ x y w u w', x ∈ l → f x w = (Val u, w') → G y (work w) → G y (work w')) →
  for_each l f w = (Val u, w') → ∀ x, x ∈ l → G x (work w').
Proof.
  revert w. induction l as [|y l IH]; intros w He Hs H x Hx; [by inversion Hx|].
  simpl in H. unfold mbind, Web_bind in H.
  destruct (f y w) as [[v|e] w1] eqn:E; [|done].
  apply elem_of_cons in Hx as [->|Hx].
  - eapply (for_each_stable (G y) l f w1); [|done|].
    + intros z w2 v2 w3 Hz E2 HG. eapply (Hs z); [by right|done|done].
    + eapply (He y); [by left|done].
  - eapply (IH w1); [|..|done|done].
    + intros z w2 v2 w3 Hz. apply He. by right.
    + intros z z' w2 v2 w3 Hz. apply Hs. by right.
Qed.

(** A loop that changes each row of a list. *)
Lemma for_modify {A} `{HasTable S A} (f : A → A) (l : list (Z * A)) : ∀ w : world,
  NoDup l.*1 → (∀ p, p ∈ l → is_Some (row (A := A) (work w) p.1)) →
  ∃ t, for_each l (λ p, modify p.1 f) w =
         (Val tt, mkWorld (set_tbl t (work w)) (comm w) (outs w)) ∧
    seq t = seq (tbl (work w) : table A) ∧
    ∀ k, rows t !! k = (λ x, if bool_decide (k ∈ l.*1) then f x else x) <$> row (work w) k.
Proof.
  induction l as [|[k0 x0] l IH]; intros w Hd Hl.
  { exists (tbl (work w)). split_and!; [cbn; rewrite set_same; by destruct w|done|].
    intros k. unfold row. by destruct (rows _ !! k). }
  apply NoDup_cons in Hd as [Hk0 Hd]. cbn [fmap list_fmap fst] in Hk0, Hd.
  destruct (Hl (k0, x0)) as [x Hx]; [by left|]. cbn [fst] in Hx.
  set (w1 := mkWorld (set_tbl (tput k0 (f x) (tbl (work w))) (work w)) (comm w) (outs w)).
  destruct (IH w1) as (t & Et & Hs & Ht); [done| |].
  { intros q Hq. unfold w1. cbn [work]. rewrite row_put. case_decide; [by eexists|].
    apply Hl. by right. }
  exists t. split_and!.
  - etrans; [cbn [for_each foldr]; rewrite run_modify; cbn [fst]; rewrite Hx; exact Et|].
    unfold w1. cbn [work comm outs]. by rewrite set_twice.
  - rewrite Hs. unfold w1. cbn [work]. by rewrite tbl_set.
  - intros k. rewrite Ht. unfold w1. cbn [work]. rewrite row_put.
    destruct (decide (k0 = k)) as [<-|Hk].
    + rewrite Hx. cbn [fmap option_fmap option_map list_fmap fst].
      rewrite (bool_decide_true (k0 ∈ k0 :: _)) by by left. by rewrite bool_decide_false.
    + by rewrite (bool_decide_ext (k ∈ ((k0, x0) :: l).*1) (k ∈ l.*1)) by set_solver.
Qed.

(** ... over the result of a query. *)
Lemma for_modify_select {A} `{HasTable S A} (f : A → A) P (w : world) :
  ∃ t, for_each (select P (work w)) (λ p, modify p.1 f) w =
         (Val tt, mkWorld (set_tbl t (work w)) (comm w) (outs w)) ∧
    seq t = seq (tbl (work w) : table A) ∧
    ∀ k, rows t !! k = (λ x, if P k x then f x else x) <$> row (work w) k.
Proof.
  destruct (for_modify f (select P (work w)) w) as (t & E & Hs & Ht).
  - apply select_NoDup.
  - intros [k x] [Hx _]%elem_of_select. by eexists.
  - exists t. split_and!; [done|done|]. intros k. rewrite Ht.
    destruct (row (work w) k) as [x|] eqn:Hx; [|done]. cbn [fmap option_fmap option_map].
    do 2 f_equal. destruct (P k x) eqn:HP.
    + rewrite bool_decide_true; [done|]. apply list_elem_of_fmap. exists (k, x).
      split; [done|]. by apply elem_of_select.
    + rewrite bool_decide_false; [done|]. intros ([k' y] & -> & [Hy Hy']%elem_of_select)%list_elem_of_fmap.
      cbn [fst] in *. congruence.
Qed.

Lemma bind_Val {A B} (m : Web A) (f : A → Web B) w b w' :
  (m ≫= f) w = (Val b, w') → ∃ a w1, m w = (Val a, w1) ∧ f a w1 = (Val b, w').
Proof.
  unfold mbind, Web_bind. destruct (m w) as [[a|e] w1]; [|done]. eauto.
Qed.
End session.

Create Rewrite HintDb web.
#[export] Hint Rewrite @run_assoc @run_ret @run_raise @run_ask @run_get @run_emit @run_commit
  @run_put @run_delete @run_add @run_fetch @run_modify @run_try : web.
#[export] Hint Rewrite @modify_val @ret_val @raise_val @emit_val @commit_val : web.
#[export] Hint Rewrite @row_put_eq @row_insert : web.
#[export] Hint Rewrite @row_other @select_other using apply _ : web.

#[global] Arguments world : clear implicits.
#[global] Arguments Web : clear implicits.

(** Decompose a [keeps] goal along the program text; the primitive writes that
    remain are the proof's own. *)
Ltac keeps_step :=
  lazymatch goal with
  | |- keeps _ (mret _) => apply keeps_ret; apply _
  | |- keeps _ (raise _) => apply keeps_raise; apply _
  | |- keeps _ (ask _) => apply keeps_ask; apply _
  | |- keeps _ (get_row _) => apply keeps_get; apply _
  | |- keeps _ (fetch _) => apply keeps_fetch; apply _
  | |- keeps _ (fetch_opt _) => apply keeps_fetch_opt; apply _
  | |- keeps _ (_ ≫= _) => apply keeps_bind; [apply _| |intros ?]
  | |- keeps _ (try_except _ _) => apply keeps_try; [apply _| |]
  | |- keeps _ (for_each _ _) => apply keeps_for; [apply _|intros ?]
  | |- keeps _ (mapM _ _) => apply keeps_mapM; [apply _|intros ?]
  | |- keeps _ (match ?x with _ => _ end) => destruct x
  | |- keeps _ ((match ?x with _ => _ end) _) => destruct x
  | |- keeps _ (let _ := _ in _) => cbv zeta
  end.
Ltac keeps_auto := repeat first [keeps_step | solve [eauto with ly]].

(** Run the program in [H] (or in the goal) along its primitive steps. *)
Ltac web_run := repeat (progress (autorewrite with web; cbn [work comm outs])).
Ltac web_run_in H := repeat (progress (autorewrite with web in H; cbn [work comm outs] in H)).
(** ... and case on the row a step loads. *)
Ltac web_load H :=
  web_run_in H;
  match type of H with
  | context [match row ?s ?i with _ => _ end] => destruct (row s i) eqn:?
  end; web_run_in H.
