(* ===== verification/Cloud.v ===== *)
(** The data model of the cloud part of the web application: users, groups,
    quotas, instances, appliances, jobs, storage, network, domains, messages, forum
    (src/lyweb/app/*/models.py), as rows and tables. A record keeps the columns
    the modelled code reads or writes; times are seconds; a [config] column of
    JSON text is the object it decodes to, [None] for NULL or the empty text.
    A many-to-many table is a list of ids in the row of its owner. *)
From Stdlib Require Import Ascii String.
From S2P Require Import Prelude Table Session.
#[local] Open Scope Z_scope.

(** ** JSON values *)

Inductive json :=
  | JNull | JBool (b : bool) | JNum (n : Z) | JStr (s : string)
  | JList (l : list json) | JObj (l : list (string * json)).

Definition config := gmap string json.

(** [d[k] = v] on a decoded object. *)
Fixpoint jset (k : string) (v : json) (l : list (string * json)) : list (string * json) :=
  match l with
  | [] => [(k, v)]
  | (k', v') :: l' => if decide (k = k') then (k, v) :: l' else (k', v') :: jset k v l'
  end.

Fixpoint jget (k : string) (l : list (string * json)) : option json :=
  match l with
  | [] => None
  | (k', v') :: l' => if decide (k = k') then Some v' else jget k l'
  end.

(** The truth of a value. *)
Definition json_true (v : json) : bool :=
  match v with
  | JNull => false
  | JBool b => b
  | JNum n => negb (n =? 0)
  | JStr t => negb (String.eqb t "")
  | JList l => match l with [] => false | _ => true end
  | JObj l => match l with [] => false | _ => true end
  end.

(** ** Rows *)

(** auth/models.py *)
Record Permission := mkPermission { p_name : string; p_codename : string }.
Record Group := mkGroup {
  g_name : string; g_description : string; g_islocked : bool; g_permissions : list Z }.
Record User := mkUser {
  u_username : string; u_email : option string; u_email_valid : bool;
  u_is_locked : bool; u_notice : Z; u_last_active : Z; u_groups : list Z;
  u_password : string; u_nickname : option string; u_first_name : option string;
  u_last_name : option string; u_language_id : option Z; u_last_login : option Z }.
(** [ak_data] is the e-mail address or the OpenID the key stands for. *)
Record AuthKey := mkAuthKey { ak_key : string; ak_data : string; ak_expire : Z }.
(** [oi_nickname] is the member of [get_user_info] in the configuration. *)
Record OpenID := mkOpenID {
  oi_user_id : option Z; oi_openid : string; oi_type : Z; oi_nickname : option string }.

(** lib/yweb/contrib/session/models.py *)
Record SessionRow := mkSession { sk_key : string; sk_data : string; sk_expire : Z }.

(** site/models.py *)
Record SiteConfig := mkSiteConfig { sc_key : string; sc_value : string }.
Record SiteLocaleConfig := mkSiteLocaleConfig {
  lc_language_id : Z; lc_key : string; lc_value : string }.
Record SiteNav := mkSiteNav {
  sn_type : Z; sn_position : Z; sn_language_id : option Z; sn_name : string; sn_url : string;
  sn_target : string; sn_summary : string; sn_isnewopen : bool }.
Record SiteEntry := mkSiteEntry { se_slug : string }.
Record SiteArticle := mkSiteArticle {
  sa_language_id : Z; sa_entry_id : Z; sa_name : string; sa_summary : string;
  sa_body : string; sa_is_visible : bool }.
Record SiteJob := mkSiteJob {
  sj_user_id : option Z; sj_status : Z; sj_desc : string; sj_text : string }.

(** language/models.py *)
Record Language := mkLanguage { l_name : string; l_codename : string }.

(** system/models.py, the configuration kept in the database *)
Record LuoYunConfig := mkLuoYunConfig { ly_key : string; ly_value : string }.

(** registration/models.py *)
Record RegistrationApply := mkRegistrationApply { ra_email : string; ra_key : string }.

(** account/models.py *)
Record UserProfile := mkUserProfile {
  pf_user_id : Z; pf_cpu : Z; pf_memory : Z; pf_storage : Z; pf_instance : Z;
  pf_bandwidth : Z; pf_rx : Z; pf_tx : Z; pf_port : Z; pf_vlan : Z; pf_domain : Z;
  pf_config : option config; pf_updated : Z }.
Record PublicKey := mkPublicKey {
  k_user_id : Z; k_name : string; k_data : string; k_isdefault : bool }.
Record UserResetpass := mkUserResetpass { rp_user_id : Z; rp_key : string }.

(** resource/models.py *)
Record Resource := mkResource {
  r_user_id : Z; r_type : Z; r_size : Z; r_effect_date : option Z;
  r_expired_date : option Z }.

(** instance/models.py *)
Record Instance := mkInstance {
  i_name : string; i_cpus : Z; i_memory : Z; i_user_id : Z; i_appliance_id : Z;
  i_node_id : option Z; i_ip : option string; i_status : Z;
  i_config : option config; i_secret_config : option config;
  i_isprivate : bool; i_ischanged : bool; i_updated : Z;
  i_summary : string; i_description : string }.

(** appliance/models.py *)
Record Appliance := mkAppliance {
  a_name : string; a_user_id : Z; a_catalog_id : option Z; a_summary : string;
  a_description : string; a_islocked : bool; a_isuseable : bool; a_isprivate : bool;
  a_os : Z; a_filesize : string; a_checksum : string }.
Record ApplianceCatalog := mkApplianceCatalog {
  ac_name : string; ac_summary : string; ac_description : string; ac_position : Z }.
Record ApplianceScreenshot := mkApplianceScreenshot {
  as_appliance_id : option Z; as_filename : string; as_checksum : string }.

(** job/models.py *)
Record Job := mkJob {
  j_user_id : Z; j_status : Z; j_target_type : Z; j_target_id : Z; j_action : Z;
  j_created : Z }.

(** node/models.py *)
Record Node := mkNode {
  n_ip : string; n_isenable : bool; n_status : Z; n_vmemory : option Z; n_vcpus : option Z }.

(** storage/models.py *)
Record StoragePool := mkStoragePool {
  sp_name : string; sp_description : string; sp_total : Z; sp_used : Z }.
Record Storage := mkStorage { s_size : Z; s_pool_id : Z; s_instance_id : option Z }.

(** network/models.py *)
Record NetworkPool := mkNetworkPool {
  np_name : string; np_description : string; np_start : string; np_end : string;
  np_netmask : string; np_gateway : string; np_nameservers : string;
  np_exclude_ips : string }.
Record IPPool := mkIPPool {
  ip_ip : string; ip_network_id : Z; ip_instance_id : option Z; ip_updated : Z }.
Record Gateway := mkGateway {
  gw_name : string; gw_description : string; gw_ip : string; gw_netmask : string;
  gw_start : Z; gw_end : Z; gw_exclude_ports : string }.
Record PortMapping := mkPortMapping {
  pm_gateway_port : Z; pm_gateway_id : Z; pm_ip_port : option Z; pm_ip_id : option Z }.

(** domain/models.py *)
Record UserDomain := mkUserDomain {
  d_domain : string; d_user_id : Z; d_instance_id : option Z }.

(** system/models.py *)
Record LyTrace := mkLyTrace {
  t_who_id : Z; t_target_type : Z; t_target_id : Z; t_do : string; t_isok : bool }.

(** message/models.py *)
Record Message := mkMessage {
  m_reply_id : option Z; m_sender_id : Z; m_receiver_id : option Z; m_text_id : Z;
  m_isinbox : bool; m_isread : bool; m_readtime : option Z }.
Record MessageText := mkMessageText { mt_subject : string; mt_body : string }.

(** forum/models.py *)
Record ForumForbiddenUser := mkForumForbiddenUser { fu_user_id : Z }.
Record ForumCatalog := mkForumCatalog {
  fc_name : string; fc_summary : string; fc_description : string;
  fc_parent_id : option Z; fc_is_private : bool; fc_is_visible : bool;
  fc_managers : list Z; fc_allowed : list Z }.
Record ForumTopic := mkForumTopic {
  ft_catalog_id : Z; ft_name : string; ft_summary : string; ft_body : string;
  ft_user_id : Z; ft_is_locked : bool; ft_is_visible : bool; ft_like : Z; ft_unlike : Z;
  ft_visit : Z; ft_status : Z; ft_tags : list Z; ft_markup_language : Z }.
Record ForumTopicTag := mkForumTopicTag { tg_name : string; tg_hit : Z }.
Record ForumPost := mkForumPost {
  fp_topic_id : Z; fp_parent_id : option Z; fp_body : string; fp_user_id : Z;
  fp_is_locked : bool; fp_is_visible : bool; fp_like : Z; fp_unlike : Z; fp_updated : Z }.
Record ForumTopicVote := mkForumTopicVote {
  tv_topic_id : Z; tv_user_id : Z; tv_value : Z }.
Record ForumPostVote := mkForumPostVote { pv_post_id : Z; pv_user_id : Z; pv_value : Z }.

#[export] Instance eta_Group : Eta Group :=
  λ r, mkGroup (g_name r) (g_description r) (g_islocked r) (g_permissions r).
#[export] Instance eta_User : Eta User :=
  λ r, mkUser (u_username r) (u_email r) (u_email_valid r) (u_is_locked r)
         (u_notice r) (u_last_active r) (u_groups r) (u_password r) (u_nickname r)
         (u_first_name r) (u_last_name r) (u_language_id r) (u_last_login r).
#[export] Instance eta_OpenID : Eta OpenID :=
  λ r, mkOpenID (oi_user_id r) (oi_openid r) (oi_type r) (oi_nickname r).
#[export] Instance eta_SiteConfig : Eta SiteConfig :=
  λ r, mkSiteConfig (sc_key r) (sc_value r).
#[export] Instance eta_SiteLocaleConfig : Eta SiteLocaleConfig :=
  λ r, mkSiteLocaleConfig (lc_language_id r) (lc_key r) (lc_value r).
#[export] Instance eta_SiteNav : Eta SiteNav :=
  λ r, mkSiteNav (sn_type r) (sn_position r) (sn_language_id r) (sn_name r) (sn_url r)
         (sn_target r) (sn_summary r) (sn_isnewopen r).
#[export] Instance eta_SiteArticle : Eta SiteArticle :=
  λ r, mkSiteArticle (sa_language_id r) (sa_entry_id r) (sa_name r) (sa_summary r)
         (sa_body r) (sa_is_visible r).
#[export] Instance eta_SiteJob : Eta SiteJob :=
  λ r, mkSiteJob (sj_user_id r) (sj_status r) (sj_desc r) (sj_text r).
#[export] Instance eta_LuoYunConfig : Eta LuoYunConfig :=
  λ r, mkLuoYunConfig (ly_key r) (ly_value r).
#[export] Instance eta_RegistrationApply : Eta RegistrationApply :=
  λ r, mkRegistrationApply (ra_email r) (ra_key r).
#[export] Instance eta_UserProfile : Eta UserProfile :=
  λ r, mkUserProfile (pf_user_id r) (pf_cpu r) (pf_memory r) (pf_storage r)
         (pf_instance r) (pf_bandwidth r) (pf_rx r) (pf_tx r) (pf_port r)
         (pf_vlan r) (pf_domain r) (pf_config r) (pf_updated r).
#[export] Instance eta_PublicKey : Eta PublicKey :=
  λ r, mkPublicKey (k_user_id r) (k_name r) (k_data r) (k_isdefault r).
#[export] Instance eta_Resource : Eta Resource :=
  λ r, mkResource (r_user_id r) (r_type r) (r_size r) (r_effect_date r) (r_expired_date r).
#[export] Instance eta_Instance : Eta Instance :=
  λ r, mkInstance (i_name r) (i_cpus r) (i_memory r) (i_user_id r) (i_appliance_id r)
         (i_node_id r) (i_ip r) (i_status r) (i_config r) (i_secret_config r)
         (i_isprivate r) (i_ischanged r) (i_updated r) (i_summary r) (i_description r).
#[export] Instance eta_Appliance : Eta Appliance :=
  λ r, mkAppliance (a_name r) (a_user_id r) (a_catalog_id r) (a_summary r)
         (a_description r) (a_islocked r) (a_isuseable r) (a_isprivate r) (a_os r)
         (a_filesize r) (a_checksum r).
#[export] Instance eta_Job : Eta Job :=
  λ r, mkJob (j_user_id r) (j_status r) (j_target_type r) (j_target_id r) (j_action r)
         (j_created r).
#[export] Instance eta_Node : Eta Node :=
  λ r, mkNode (n_ip r) (n_isenable r) (n_status r) (n_vmemory r) (n_vcpus r).
#[export] Instance eta_ApplianceCatalog : Eta ApplianceCatalog :=
  λ r, mkApplianceCatalog (ac_name r) (ac_summary r) (ac_description r) (ac_position r).
#[export] Instance eta_Message : Eta Message :=
  λ r, mkMessage (m_reply_id r) (m_sender_id r) (m_receiver_id r) (m_text_id r)
         (m_isinbox r) (m_isread r) (m_readtime r).
#[export] Instance eta_ForumCatalog : Eta ForumCatalog :=
  λ r, mkForumCatalog (fc_name r) (fc_summary r) (fc_description r) (fc_parent_id r)
         (fc_is_private r) (fc_is_visible r) (fc_managers r) (fc_allowed r).
#[export] Instance eta_ForumTopic : Eta ForumTopic :=
  λ r, mkForumTopic (ft_catalog_id r) (ft_name r) (ft_summary r) (ft_body r) (ft_user_id r)
         (ft_is_locked r) (ft_is_visible r) (ft_like r) (ft_unlike r) (ft_visit r)
         (ft_status r) (ft_tags r) (ft_markup_language r).
#[export] Instance eta_ForumTopicTag : Eta ForumTopicTag :=
  λ r, mkForumTopicTag (tg_name r) (tg_hit r).
#[export] Instance eta_ForumPost : Eta ForumPost :=
  λ r, mkForumPost (fp_topic_id r) (fp_parent_id r) (fp_body r) (fp_user_id r)
         (fp_is_locked r) (fp_is_visible r) (fp_like r) (fp_unlike r) (fp_updated r).
#[export] Instance eta_ForumTopicVote : Eta ForumTopicVote :=
  λ r, mkForumTopicVote (tv_topic_id r) (tv_user_id r) (tv_value r).
#[export] Instance eta_ForumPostVote : Eta ForumPostVote :=
  λ r, mkForumPostVote (pv_post_id r) (pv_user_id r) (pv_value r).
#[export] Instance eta_StoragePool : Eta StoragePool :=
  λ r, mkStoragePool (sp_name r) (sp_description r) (sp_total r) (sp_used r).
#[export] Instance eta_Storage : Eta Storage :=
  λ r, mkStorage (s_size r) (s_pool_id r) (s_instance_id r).
#[export] Instance eta_NetworkPool : Eta NetworkPool :=
  λ r, mkNetworkPool (np_name r) (np_description r) (np_start r) (np_end r)
         (np_netmask r) (np_gateway r) (np_nameservers r) (np_exclude_ips r).
#[export] Instance eta_IPPool : Eta IPPool :=
  λ r, mkIPPool (ip_ip r) (ip_network_id r) (ip_instance_id r) (ip_updated r).
#[export] Instance eta_Gateway : Eta Gateway :=
  λ r, mkGateway (gw_name r) (gw_description r) (gw_ip r) (gw_netmask r)
         (gw_start r) (gw_end r) (gw_exclude_ports r).
#[export] Instance eta_PortMapping : Eta PortMapping :=
  λ r, mkPortMapping (pm_gateway_port r) (pm_gateway_id r) (pm_ip_port r) (pm_ip_id r).
#[export] Instance eta_UserDomain : Eta UserDomain :=
  λ r, mkUserDomain (d_domain r) (d_user_id r) (d_instance_id r).

(** ** The database *)

Record Cloud := mkCloud {
  c_permissions : table Permission; c_groups : table Group; c_users : table User;
  c_profiles : table UserProfile; c_keys : table PublicKey; c_resources : table Resource;
  c_instances : table Instance; c_appliances : table Appliance; c_jobs : table Job;
  c_nodes : table Node; c_storagepools : table StoragePool; c_storages : table Storage;
  c_networkpools : table NetworkPool; c_ips : table IPPool; c_gateways : table Gateway;
  c_ports : table PortMapping; c_domains : table UserDomain; c_traces : table LyTrace;
  c_authkeys : table AuthKey; c_openids : table OpenID; c_sessions : table SessionRow;
  c_resets : table UserResetpass; c_applies : table RegistrationApply;
  c_siteconfig : table SiteConfig;
  c_catalogs : table ApplianceCatalog; c_screenshots : table ApplianceScreenshot;
  c_messages : table Message; c_texts : table MessageText;
  c_forbidden : table ForumForbiddenUser; c_forums : table ForumCatalog;
  c_topics : table ForumTopic; c_tags : table ForumTopicTag; c_posts : table ForumPost;
  c_topicvotes : table ForumTopicVote; c_postvotes : table ForumPostVote;
  c_localeconfig : table SiteLocaleConfig; c_navs : table SiteNav;
  c_entries : table SiteEntry; c_articles : table SiteArticle;
  c_languages : table Language; c_lyconfig : table LuoYunConfig;
  c_sitejobs : table SiteJob;
  c_runtime_domain : option (gmap string string) }.

#[export] Instance eta_Cloud : Eta Cloud :=
  λ r, mkCloud (c_permissions r) (c_groups r) (c_users r) (c_profiles r) (c_keys r)
    (c_resources r) (c_instances r) (c_appliances r) (c_jobs r) (c_nodes r)
    (c_storagepools r) (c_storages r) (c_networkpools r) (c_ips r) (c_gateways r)
    (c_ports r) (c_domains r) (c_traces r) (c_authkeys r) (c_openids r) (c_sessions r)
    (c_resets r) (c_applies r) (c_siteconfig r) (c_catalogs r) (c_screenshots r)
    (c_messages r) (c_texts r) (c_forbidden r) (c_forums r) (c_topics r) (c_tags r)
    (c_posts r) (c_topicvotes r) (c_postvotes r) (c_localeconfig r) (c_navs r)
    (c_entries r) (c_articles r) (c_languages r) (c_lyconfig r) (c_sitejobs r)
    (c_runtime_domain r).

Ltac table_of_field p :=
  unshelve refine {| tbl := p; set_tbl t s := (upd p (λ _, t) s) |};
  [reflexivity|by intros []|reflexivity].

#[export] Instance has_Permission : HasTable Cloud Permission.
Proof. table_of_field c_permissions. Defined.
#[export] Instance has_Group : HasTable Cloud Group.
Proof. table_of_field c_groups. Defined.
#[export] Instance has_User : HasTable Cloud User.
Proof. table_of_field c_users. Defined.
#[export] Instance has_UserProfile : HasTable Cloud UserProfile.
Proof. table_of_field c_profiles. Defined.
#[export] Instance has_PublicKey : HasTable Cloud PublicKey.
Proof. table_of_field c_keys. Defined.
#[export] Instance has_Resource : HasTable Cloud Resource.
Proof. table_of_field c_resources. Defined.
#[export] Instance has_Instance : HasTable Cloud Instance.
Proof. table_of_field c_instances. Defined.
#[export] Instance has_Appliance : HasTable Cloud Appliance.
Proof. table_of_field c_appliances. Defined.
#[export] Instance has_Job : HasTable Cloud Job.
Proof. table_of_field c_jobs. Defined.
#[export] Instance has_Node : HasTable Cloud Node.
Proof. table_of_field c_nodes. Defined.
#[export] Instance has_StoragePool : HasTable Cloud StoragePool.
Proof. table_of_field c_storagepools. Defined.
#[export] Instance has_Storage : HasTable Cloud Storage.
Proof. table_of_field c_storages. Defined.
#[export] Instance has_NetworkPool : HasTable Cloud NetworkPool.
Proof. table_of_field c_networkpools. Defined.
#[export] Instance has_IPPool : HasTable Cloud IPPool.
Proof. table_of_field c_ips. Defined.
#[export] Instance has_Gateway : HasTable Cloud Gateway.
Proof. table_of_field c_gateways. Defined.
#[export] Instance has_PortMapping : HasTable Cloud PortMapping.
Proof. table_of_field c_ports. Defined.
#[export] Instance has_UserDomain : HasTable Cloud UserDomain.
Proof. table_of_field c_domains. Defined.
#[export] Instance has_LyTrace : HasTable Cloud LyTrace.
Proof. table_of_field c_traces. Defined.
#[export] Instance has_AuthKey : HasTable Cloud AuthKey.
Proof. table_of_field c_authkeys. Defined.
#[export] Instance has_OpenID : HasTable Cloud OpenID.
Proof. table_of_field c_openids. Defined.
#[export] Instance has_SessionRow : HasTable Cloud SessionRow.
Proof. table_of_field c_sessions. Defined.
#[export] Instance has_UserResetpass : HasTable Cloud UserResetpass.
Proof. table_of_field c_resets. Defined.
#[export] Instance has_RegistrationApply : HasTable Cloud RegistrationApply.
Proof. table_of_field c_applies. Defined.
#[export] Instance has_SiteConfig : HasTable Cloud SiteConfig.
Proof. table_of_field c_siteconfig. Defined.
#[export] Instance has_ApplianceCatalog : HasTable Cloud ApplianceCatalog.
Proof. table_of_field c_catalogs. Defined.
#[export] Instance has_ApplianceScreenshot : HasTable Cloud ApplianceScreenshot.
Proof. table_of_field c_screenshots. Defined.
#[export] Instance has_Message : HasTable Cloud Message.
Proof. table_of_field c_messages. Defined.
#[export] Instance has_MessageText : HasTable Cloud MessageText.
Proof. table_of_field c_texts. Defined.
#[export] Instance has_ForumForbiddenUser : HasTable Cloud ForumForbiddenUser.
Proof. table_of_field c_forbidden. Defined.
#[export] Instance has_ForumCatalog : HasTable Cloud ForumCatalog.
Proof. table_of_field c_forums. Defined.
#[export] Instance has_ForumTopic : HasTable Cloud ForumTopic.
Proof. table_of_field c_topics. Defined.
#[export] Instance has_ForumTopicTag : HasTable Cloud ForumTopicTag.
Proof. table_of_field c_tags. Defined.
#[export] Instance has_ForumPost : HasTable Cloud ForumPost.
Proof. table_of_field c_posts. Defined.
#[export] Instance has_ForumTopicVote : HasTable Cloud ForumTopicVote.
Proof. table_of_field c_topicvotes. Defined.
#[export] Instance has_ForumPostVote : HasTable Cloud ForumPostVote.
Proof. table_of_field c_postvotes. Defined.
#[export] Instance has_SiteLocaleConfig : HasTable Cloud SiteLocaleConfig.
Proof. table_of_field c_localeconfig. Defined.
#[export] Instance has_SiteNav : HasTable Cloud SiteNav.
Proof. table_of_field c_navs. Defined.
#[export] Instance has_SiteEntry : HasTable Cloud SiteEntry.
Proof. table_of_field c_entries. Defined.
#[export] Instance has_SiteArticle : HasTable Cloud SiteArticle.
Proof. table_of_field c_articles. Defined.
#[export] Instance has_Language : HasTable Cloud Language.
Proof. table_of_field c_languages. Defined.
#[export] Instance has_LuoYunConfig : HasTable Cloud LuoYunConfig.
Proof. table_of_field c_lyconfig. Defined.
#[export] Instance has_SiteJob : HasTable Cloud SiteJob.
Proof. table_of_field c_sitejobs. Defined.

#[export] Hint Extern 1 (Indep Cloud _ _) => (intros ? ?; reflexivity) : typeclass_instances.

Definition empty_cloud : Cloud :=
  mkCloud empty_table empty_table empty_table empty_table empty_table empty_table
    empty_table empty_table empty_table empty_table empty_table empty_table
    empty_table empty_table empty_table empty_table empty_table empty_table
    empty_table empty_table empty_table empty_table empty_table empty_table
    empty_table empty_table empty_table empty_table empty_table empty_table
    empty_table empty_table empty_table empty_table empty_table empty_table
    empty_table empty_table empty_table empty_table empty_table empty_table None.
