(* ===== verification/Quota.v ===== *)
(** Quotas (src/lyweb/app/account/models.py UserProfile,
    src/lyweb/app/resource/models.py): what a user may use, what the user's
    instances use, what remains. *)
From Stdlib Require Import Ascii String.
From S2P Require Import Prelude Table Session Cloud.
#[local] Open Scope Z_scope.

(** ** Relationships (order_by id) *)

Definition profile_of (s : Cloud) (u : Z) : option (Z * UserProfile) :=
  head (select (λ _ p, pf_user_id p =? u) s).
Definition resources_of (s : Cloud) (u : Z) : list (Z * Resource) :=
  select (λ _ r, r_user_id r =? u) s.
Definition instances_of (s : Cloud) (u : Z) : list (Z * Instance) :=
  select (λ _ I, i_user_id I =? u) s.
Definition storages_of (s : Cloud) (i : Z) : list (Z * Storage) :=
  select (λ _ S, bool_decide (s_instance_id S = Some i)) s.
Definition ips_of (s : Cloud) (i : Z) : list (Z * IPPool) :=
  select (λ _ P, bool_decide (ip_instance_id P = Some i)) s.
Definition domains_of (s : Cloud) (i : Z) : list (Z * UserDomain) :=
  select (λ _ D, bool_decide (d_instance_id D = Some i)) s.

(** ** Instance states (instance/models.py) *)

Definition INSTANCE_DELETED_STATUS := 100.

Definition is_running (I : Instance) : bool := bool_decide (i_status I ∈ [3; 4; 5]).
Definition is_starting (I : Instance) : bool := (2 <? i_status I) && (i_status I <=? 5).
Definition need_query (I : Instance) : bool := bool_decide (i_status I ∈ [245; 255]).

(** ** Resources *)

Definition T_CPU := 1.
Definition T_MEMORY := 2.
Definition T_STORAGE := 3.
Definition T_INSTANCE := 4.

(** [R.effect_date < now < R.expired_date] where it has a value ... *)
Definition in_effect (now : Z) (R : Resource) : bool :=
  match r_effect_date R, r_expired_date R with
  | Some a, Some b => (a <? now) && (now <? b)
  | _, _ => false
  end.

(** ... which it has not, but a TypeError, when it comes to compare with NULL: the second
    date is only looked at when the first has passed. *)
Definition dated (now : Z) (R : Resource) : bool :=
  match r_effect_date R, r_expired_date R with
  | None, _ => false
  | Some a, None => negb (a <? now)
  | Some _, Some _ => true
  end.

(** The comparisons of a loop over the resources of a user give values; [sel] tells the
    types whose dates the loop looks at. *)
Definition comparable (now : Z) (sel : Z → bool) (u : Z) (s : Cloud) : bool :=
  forallb (λ R, negb (sel (r_type (snd R))) || dated now R.2) (resources_of s u).

(** A number computed from the resources of a user. *)
Definition quota {A} (now : Z) (sel : Z → bool) (u : Z) (f : Cloud → A) : Web Cloud A :=
  ok ← ask (comparable now sel u);
  if ok : bool then ask f else raise "TypeError: can't compare datetime.datetime to NoneType".

Lemma run_quota {A B} now sel u (f : Cloud → A) (k : A → Web Cloud B) w :
  (quota now sel u f ≫= k) w =
  if comparable now sel u (work w) then k (f (work w)) w
  else (Raise "TypeError: can't compare datetime.datetime to NoneType", w).
Proof. unfold quota. rewrite run_assoc, run_ask. by destruct (comparable _ _ _ _). Qed.
#[export] Hint Rewrite @run_quota : web.

Lemma keeps_quota {A} (R : world Cloud → world Cloud → Prop) `{!PreOrder R} now sel u
    (f : Cloud → A) : keeps R (quota now sel u f).
Proof. unfold quota. keeps_auto. Qed.
#[export] Hint Extern 1 (keeps _ (quota _ _ _ _)) => apply keeps_quota; apply _ : ly.

(** ** UserProfile: totals, use and remains *)

Record amounts := mkAmounts { cpu : Z; memory : Z; instance : Z; storage : Z }.
#[export] Instance eta_amounts : Eta amounts :=
  λ r, mkAmounts (cpu r) (memory r) (instance r) (storage r).

Definition get_resource_total (now : Z) (s : Cloud) (p : UserProfile) : amounts :=
  foldl (λ d R,
    if in_effect now (snd R) then
      if r_type R.2 =? T_CPU then d <| cpu ::= Z.add (r_size R.2) |>
      else if r_type R.2 =? T_MEMORY then d <| memory ::= Z.add (r_size R.2) |>
      else if r_type R.2 =? T_STORAGE then d <| storage ::= Z.add (r_size R.2) |>
      else if r_type R.2 =? T_INSTANCE then d <| instance ::= Z.add (r_size R.2) |>
      else d
    else d)
    (mkAmounts (pf_cpu p) (pf_memory p) (pf_instance p) (pf_storage p))
    (resources_of s (pf_user_id p)).

Definition get_resource_used (s : Cloud) (u : Z) : amounts :=
  foldl (λ d I,
    let d := if is_running (snd I)
             then d <| cpu ::= Z.add (i_cpus I.2) |> <| memory ::= Z.add (i_memory I.2) |>
             else d in
    let d := d <| instance ::= Z.add 1 |> in
    foldl (λ d S, d <| storage ::= Z.add (s_size (snd S)) |>) d (storages_of s I.1))
    (mkAmounts 0 0 0 0) (instances_of s u).

(** What the expired and future resources leave out of a total. *)
Definition granted (now : Z) (ty : Z) (s : Cloud) (u : Z) (base : Z) : Z :=
  foldl (λ tot R, if (r_type (snd R) =? ty) && in_effect now R.2
                  then tot + r_size R.2 else tot) base (resources_of s u).

Definition remain (tot used : Z) : Z := if tot >? used then tot - used else 0.

Definition cpu_remain (now : Z) (s : Cloud) (p : UserProfile) : Z :=
  remain (granted now T_CPU s (pf_user_id p) (pf_cpu p))
    (foldl (λ used I, if is_running (snd I) then used + i_cpus I.2 else used) 0
       (instances_of s (pf_user_id p))).

Definition memory_remain (now : Z) (s : Cloud) (p : UserProfile) : Z :=
  remain (granted now T_MEMORY s (pf_user_id p) (pf_memory p))
    (foldl (λ used I, if is_running (snd I) then used + i_memory I.2 else used) 0
       (instances_of s (pf_user_id p))).

Definition storage_remain (now : Z) (s : Cloud) (p : UserProfile) : Z :=
  remain (granted now T_STORAGE s (pf_user_id p) (pf_storage p))
    (foldl (λ used I, foldl (λ used S, used + s_size (snd S)) used
                        (storages_of s (fst I))) 0
       (instances_of s (pf_user_id p))).

Definition instance_remain (now : Z) (s : Cloud) (p : UserProfile) : Z :=
  remain (granted now T_INSTANCE s (pf_user_id p) (pf_instance p))
    (Z.of_nat (length (instances_of s (pf_user_id p)))).

(** ** The specification: sums over the tables *)

(** The resources of kind [ty] a user holds at time [now]. *)
Definition grant_total (now ty : Z) (s : Cloud) (u : Z) : Z :=
  total (λ _ R, if (r_user_id R =? u) && (r_type R =? ty) && in_effect now R
                then r_size R else 0) (c_resources s).

Definition running_total (f : Instance → Z) (s : Cloud) (u : Z) : Z :=
  total (λ _ I, if (i_user_id I =? u) && is_running I then f I else 0) (c_instances s).

(** The storage attached to the instances of a user. *)
Definition storage_total (s : Cloud) (u : Z) : Z :=
  total (λ i I, if i_user_id I =? u then sum_list_Z (λ S, s_size (snd S)) (storages_of s i)
                else 0) (c_instances s).

Definition instance_count (s : Cloud) (u : Z) : Z :=
  total (λ _ I, if i_user_id I =? u then 1 else 0) (c_instances s).

(** ** Loops are sums *)

Lemma foldl_if_sum {A} (P : A → bool) (f : A → Z) (l : list A) a :
  foldl (λ acc x, if P x then acc + f x else acc) a l =
  a + sum_list_Z (λ x, if P x then f x else 0) l.
Proof.
  revert a. induction l as [|x l IH]; intros a; simpl; [lia|].
  rewrite IH. destruct (P x); lia.
Qed.

Lemma select_if_sum {A} `{HasTable Cloud A} (P Q : A → bool) (f : A → Z) (s : Cloud) :
  sum_list_Z (λ p, if Q (snd p) then f (snd p) else 0) (select (λ _ x, P x) s) =
  total (λ _ x, if P x && Q x then f x else 0) (tbl s).
Proof.
  rewrite (sum_select (λ _ x, P x) (λ _ x, if Q x then f x else 0)).
  apply total_ext. intros i x _. by destruct (P x), (Q x).
Qed.

Lemma granted_sum now ty s u base :
  granted now ty s u base = base + grant_total now ty s u.
Proof.
  unfold granted, resources_of.
  rewrite (foldl_if_sum (λ R, (r_type (snd R) =? ty) && in_effect now R.2)
             (λ R, r_size (snd R))).
  rewrite (select_if_sum (λ r, r_user_id r =? u)
             (λ r, (r_type r =? ty) && in_effect now r) r_size).
  unfold grant_total. simpl. f_equal. apply total_ext. intros i x _.
  by rewrite andb_assoc.
Qed.

Lemma running_sum f s u a :
  foldl (λ used I, if is_running (snd I) then used + f (snd I) else used) a
    (instances_of s u) = a + running_total f s u.
Proof.
  unfold instances_of.
  rewrite (foldl_if_sum (λ I, is_running (snd I)) (λ I, f (snd I))).
  by rewrite (select_if_sum (λ I, i_user_id I =? u) is_running f).
Qed.

Lemma storage_sum s l a :
  foldl (λ used I, foldl (λ used S, used + s_size (snd S)) used (storages_of s (fst I)))
    a (l : list (Z * Instance)) =
  a + sum_list_Z (λ I, sum_list_Z (λ S, s_size (snd S)) (storages_of s I.1)) l.
Proof.
  revert a. induction l as [|I l IH]; intros a; simpl; [lia|].
  rewrite IH, (foldl_sum_list_Z (λ S, s_size (snd S))). lia.
Qed.

Lemma storage_sum_total s u :
  sum_list_Z (λ I, sum_list_Z (λ S, s_size (snd S)) (storages_of s I.1)) (instances_of s u)
  = storage_total s u.
Proof.
  unfold instances_of. rewrite (sum_select (λ _ I, i_user_id I =? u)
    (λ i _, sum_list_Z (λ S, s_size (snd S)) (storages_of s i))). done.
Qed.

Lemma length_sum {A} (l : list A) : Z.of_nat (length l) = sum_list_Z (λ _, 1) l.
Proof. induction l; simpl; lia. Qed.

Lemma count_sum s u : Z.of_nat (length (instances_of s u)) = instance_count s u.
Proof.
  rewrite length_sum. unfold instances_of.
  by rewrite (sum_select (λ _ I, i_user_id I =? u) (λ _ _, 1)).
Qed.

Lemma remain_max t u : remain t u = Z.max 0 (t - u).
Proof. unfold remain. destruct (t >? u) eqn:E; rewrite Z.gtb_ltb in E; bool_prop; lia. Qed.

Lemma profile_of_owner s u pid p : profile_of s u = Some (pid, p) → pf_user_id p = u.
Proof.
  unfold profile_of. intros [_ H]%head_Some_elem_of%elem_of_select. by apply Z.eqb_eq.
Qed.

Lemma storage_remain_eq now s p :
  storage_remain now s p =
  Z.max 0 (pf_storage p + grant_total now T_STORAGE s (pf_user_id p)
           - storage_total s (pf_user_id p)).
Proof.
  unfold storage_remain. rewrite remain_max, granted_sum, storage_sum, storage_sum_total. lia.
Qed.

Lemma instance_remain_eq now s p :
  instance_remain now s p =
  Z.max 0 (pf_instance p + grant_total now T_INSTANCE s (pf_user_id p)
           - instance_count s (pf_user_id p)).
Proof. unfold instance_remain. by rewrite remain_max, granted_sum, count_sum. Qed.

Lemma cpu_remain_eq now s p :
  cpu_remain now s p =
  Z.max 0 (pf_cpu p + grant_total now T_CPU s (pf_user_id p)
           - running_total i_cpus s (pf_user_id p)).
Proof. unfold cpu_remain. rewrite remain_max, granted_sum, running_sum. lia. Qed.

Lemma memory_remain_eq now s p :
  memory_remain now s p =
  Z.max 0 (pf_memory p + grant_total now T_MEMORY s (pf_user_id p)
           - running_total i_memory s (pf_user_id p)).
Proof. unfold memory_remain. rewrite remain_max, granted_sum, running_sum. lia. Qed.

Lemma storages_of_total s i :
  sum_list_Z (λ S, s_size (snd S)) (storages_of s i) =
  total (λ _ S, if bool_decide (s_instance_id S = Some i) then s_size S else 0) (c_storages s).
Proof.
  unfold storages_of. by rewrite (sum_select (λ _ S, bool_decide (s_instance_id S = Some i))
    (λ _ S, s_size S)).
Qed.

(** What a change of one instance's storage does to the accounts. *)
Lemma storage_total_shift s s' i I d v :
  c_instances s' = c_instances s → row s i = Some I →
  (∀ k, sum_list_Z (λ S, s_size (snd S)) (storages_of s' k) =
        sum_list_Z (λ S, s_size (snd S)) (storages_of s k) + (if k =? i then d else 0)) →
  storage_total s' v = storage_total s v + (if i_user_id I =? v then d else 0).
Proof.
  intros E HI Hk. unfold storage_total. rewrite E.
  rewrite <- (total_single (c_instances s) i I (if i_user_id I =? v then d else 0) HI).
  rewrite <- total_add. apply total_ext. intros k J HJ. rewrite Hk.
  destruct (Z.eqb_spec k i) as [->|]; [|by destruct (_ =? v); lia].
  assert (J = I) as -> by (unfold row in HI; simpl in HI; congruence).
  destruct (_ =? v); lia.
Qed.

(** The record a request sees for a user's profile, as sums. *)
Lemma get_resource_total_sums now s p :
  get_resource_total now s p =
  mkAmounts (pf_cpu p + grant_total now T_CPU s (pf_user_id p))
    (pf_memory p + grant_total now T_MEMORY s (pf_user_id p))
    (pf_instance p + grant_total now T_INSTANCE s (pf_user_id p))
    (pf_storage p + grant_total now T_STORAGE s (pf_user_id p)).
Proof.
  rewrite <- !granted_sum. unfold get_resource_total, granted.
  generalize (pf_cpu p) (pf_memory p) (pf_instance p) (pf_storage p).
  induction (resources_of s (pf_user_id p)) as [|[i R] l IH]; intros a b c d; [done|].
  cbn [foldl]. rewrite <- IH. f_equal. unfold T_CPU, T_MEMORY, T_STORAGE, T_INSTANCE. cbn.
  destruct (in_effect now R); [|by rewrite !andb_false_r].
  rewrite !andb_true_r.
  destruct (decide (r_type R = 1)) as [->|]; [cbn; f_equal; lia|].
  destruct (decide (r_type R = 2)) as [->|]; [cbn; f_equal; lia|].
  destruct (decide (r_type R = 3)) as [->|]; [cbn; f_equal; lia|].
  destruct (decide (r_type R = 4)) as [->|]; [cbn; f_equal; lia|].
  rewrite !(proj2 (Z.eqb_neq _ _)) by done. done.
Qed.

Lemma used_storages d (l : list (Z * Storage)) :
  foldl (λ d S, d <| storage ::= Z.add (s_size (snd S)) |>) d l =
  d <| storage ::= Z.add (sum_list_Z (λ S, s_size (snd S)) l) |>.
Proof.
  revert d. induction l as [|S l IH]; intros [a b c e]; simpl in *; [done|].
  rewrite IH. simpl. f_equal. lia.
Qed.

Lemma get_resource_used_sums s u :
  get_resource_used s u =
  mkAmounts (running_total i_cpus s u) (running_total i_memory s u)
    (instance_count s u) (storage_total s u).
Proof.
  rewrite <- count_sum, <- storage_sum_total.
  rewrite <- (Z.add_0_l (running_total i_cpus s u)), <- (running_sum i_cpus).
  rewrite <- (Z.add_0_l (running_total i_memory s u)), <- (running_sum i_memory).
  unfold get_resource_used.
  assert (∀ l a b c d,
    foldl (λ d I,
      let d := if is_running (snd I)
               then d <| cpu ::= Z.add (i_cpus I.2) |> <| memory ::= Z.add (i_memory I.2) |>
               else d in
      let d := d <| instance ::= Z.add 1 |> in
      foldl (λ d S, d <| storage ::= Z.add (s_size (snd S)) |>) d (storages_of s I.1))
      (mkAmounts a b c d) (l : list (Z * Instance)) =
    mkAmounts
      (foldl (λ used I, if is_running (snd I) then used + i_cpus I.2 else used) a l)
      (foldl (λ used I, if is_running (snd I) then used + i_memory I.2 else used) b l)
      (c + Z.of_nat (length l))
      (d + sum_list_Z (λ I, sum_list_Z (λ S, s_size (snd S)) (storages_of s I.1)) l)) as Hl.
  { induction l as [|[i I] l IH]; intros a b c d; [cbn; f_equal; lia|].
    cbn [foldl]. cbv zeta. rewrite used_storages.
    destruct (is_running I) eqn:E; cbn -[sum_list_Z]; rewrite E; cbn -[sum_list_Z];
      rewrite IH, sum_list_Z_cons; cbn -[sum_list_Z];
      rewrite ?(Z.add_comm (i_cpus I)), ?(Z.add_comm (i_memory I)); f_equal; lia. }
  rewrite Hl. f_equal; lia.
Qed.

(** ** Properties *)

(** The loops of [UserProfile] compute the quota accounts: each remain is
    the granted amount (the profile's own plus the resources in effect) less
    what the user's instances use, and zero rather than negative; running
    instances alone count for CPU and memory, all rows of the user for the
    instance count. *)
Theorem remains_are_sums now s p :
  let u := pf_user_id p in
  cpu_remain now s p =
    Z.max 0 (pf_cpu p + grant_total now T_CPU s u - running_total i_cpus s u) ∧
  memory_remain now s p =
    Z.max 0 (pf_memory p + grant_total now T_MEMORY s u - running_total i_memory s u) ∧
  storage_remain now s p =
    Z.max 0 (pf_storage p + grant_total now T_STORAGE s u - storage_total s u) ∧
  instance_remain now s p =
    Z.max 0 (pf_instance p + grant_total now T_INSTANCE s u - instance_count s u).
Proof.
  unfold cpu_remain, memory_remain, storage_remain, instance_remain.
  rewrite !remain_max, !granted_sum, !running_sum, storage_sum, storage_sum_total, count_sum.
  split_and!; lia.
Qed.

(** The two ways the code asks for a user's remaining CPU, memory, storage
    and instances agree: the [*_remain] properties are the difference of
    [get_resource_total] and [get_resource_used], cut off at zero. *)
Theorem totals_agree_with_remains now s p :
  let t := get_resource_total now s p in
  let d := get_resource_used s (pf_user_id p) in
  cpu_remain now s p = Z.max 0 (cpu t - cpu d) ∧
  memory_remain now s p = Z.max 0 (memory t - memory d) ∧
  storage_remain now s p = Z.max 0 (storage t - storage d) ∧
  instance_remain now s p = Z.max 0 (instance t - instance d).
Proof.
  cbv zeta. rewrite get_resource_total_sums, get_resource_used_sums.
  unfold cpu_remain, memory_remain, storage_remain, instance_remain.
  rewrite !remain_max, !granted_sum, !running_sum, storage_sum, storage_sum_total, count_sum.
  cbn. split_and!; lia.
Qed.
