(* ===== verification/JobModel.v ===== *)
(** Jobs, the requests the web application leaves for the controller
    (src/lyweb/app/job/models.py): their states, and what each property of
    [Job] answers for a state. *)
From Stdlib Require Import Ascii String.
From S2P Require Import Prelude Table Session Cloud.
#[local] Open Scope Z_scope.

(** ** Settings *)

Definition JOB_S_INITIATED := 100.
Definition JOB_S_FAILED := 311.
Definition JOB_TARGET_NODE := 3.
Definition JOB_TARGET_INSTANCE := 4.
Definition ENABLE_NODE := 102.
Definition DISABLE_NODE := 103.
Definition RUN_INSTANCE := 201.
Definition STOP_INSTANCE := 202.
Definition REBOOT_INSTANCE := 205.
Definition DESTROY_INSTANCE := 206.
Definition QUERY_INSTANCE := 207.

(** ** Tables of names *)

Definition JOB_STATUS_STR : list (Z * string) := [
  (0, "unknown");
  (100, "action initialized");
  (200, "running");
  (201, "searching for node server");
  (202, "sending request to node server");
  (210, "waiting for resource available on node server");
  (211, "downloading appliance image");
  (212, "checking appliance image");
  (213, "creating instance disk file");
  (214, "mounting instance disk file");
  (215, "configuring instance");
  (216, "unmounting instance disk file");
  (221, "starting instance virtual machine");
  (250, "stopping instance virtual machine");
  (259, "virtual machine stopped");
  (299, "Last Running Status");
  (300, "finished");
  (301, "finished successfully");
  (302, "instance running already");
  (303, "instance not running");
  (304, "instance not exist");
  (311, "failed");
  (321, "node server not available");
  (322, "node server busy");
  (323, "original node server is not enable");
  (331, "appliance download error");
  (332, "appliance error");
  (399, "Last Finish Status");
  (400, "waiting");
  (411, "starting OS manager");
  (412, "syncing with OS manager");
  (421, "checking instance status");
  (499, "Last Waiting Status");
  (500, "pending");
  (600, "timeout");
  (700, "cancel");
  (701, "Internal Error");
  (702, "work started already");
  (703, "node/instance busy");
  (711, "request cancelled");
  (799, "Last Cancel Status") ]%string.

Definition JOB_ACTION_STR : list (Z * string) := [
  (102, "enable node");
  (103, "disable node");
  (104, "update node configure");
  (201, "run");
  (202, "stop");
  (205, "reboot");
  (206, "destroy");
  (207, "query") ]%string.

Definition JOB_TARGET_NAME : list (Z * string) := [
  (3, "NODE");
  (4, "INSTANCE") ]%string.

(** [d.get(k, default)] on a table of names. *)
Definition name_of (d : list (Z * string)) (k : Z) (def : string) : string :=
  match list_find (λ p, p.1 = k) d with
  | Some (_, (_, v)) => v
  | None => def
  end.

(** ** Job *)

Definition new_job (user target_type target_id action created : Z) : Job :=
  mkJob user JOB_S_INITIATED target_type target_id action created.

Definition target_name (j : Job) : string :=
  name_of JOB_TARGET_NAME (j_target_type j) "Unknown".
Definition action_string (j : Job) : string :=
  name_of JOB_ACTION_STR (j_action j) "Unknown".
Definition status_string (j : Job) : string :=
  name_of JOB_STATUS_STR (j_status j) "Unknown".

(** The target of the link [target_url] builds. *)
Inductive url_to := ToNode (id : Z) | ToInstance (id : Z) | NoUrl.

Definition target_url (s : Cloud) (j : Job) : url_to :=
  if (j_target_type j =? 3) && bool_decide (is_Some (row (A := Node) s (j_target_id j)))
  then ToNode (j_target_id j)
  else if (j_target_type j =? 4) &&
          bool_decide (is_Some (row (A := Instance) s (j_target_id j)))
  then ToInstance (j_target_id j)
  else NoUrl.

Definition completed (j : Job) : bool :=
  (300 <=? j_status j) && (j_status j <? 400) || (600 <=? j_status j).
Definition canstop (j : Job) : bool := 300 <=? j_status j.
Definition waiting (j : Job) : bool := (400 <=? j_status j) && (j_status j <? 500).

(** Colour and class of the icon for a state. *)
Definition status_icon (j : Job) : string * string :=
  let st := j_status j in
  if st =? 0 then ("#FFCC33", "icon-exclamation-sign")%string
  else if (100 <=? st) && (st <? 300) || (400 <=? st) && (st <=? 499)
  then ("#99CCFF", "icon-spinner icon-spin")%string
  else if (300 <=? st) && (st <? 302) then ("#66CC00", "icon-ok-sign")%string
  else if (302 <=? st) && (st <? 311) || (500 <=? st) && (st <? 799)
  then ("red", "icon-warning-sign")%string
  else if bool_decide (st ∈ [311; 701]) then ("red", "icon-remove-sign")%string
  else ("red", "icon-exclamation-sign")%string.

(** ** Properties *)

(** The classification of a state is consistent: a job that has ended is
    neither waiting nor shown as in progress, only ended or waiting or pending
    jobs may be stopped, and the state that means an internal error (701) is
    shown with the icon of a warning, since the case of 701 comes after a range
    that contains it. *)
Theorem job_states_consistent j :
  (completed j = true → waiting j = false ∧ canstop j = true ∧
     snd (status_icon j) ≠ "icon-spinner icon-spin"%string) ∧
  (waiting j = true → canstop j = true ∧
     snd (status_icon j) = "icon-spinner icon-spin"%string) ∧
  (canstop j = true → completed j = true ∨ waiting j = true ∨ 500 ≤ j_status j < 600) ∧
  (j_status j = 701 → snd (status_icon j) = "icon-warning-sign"%string).
Proof.
  unfold completed, waiting, canstop, status_icon. generalize (j_status j). intros st.
  split_and!.
  - intros [H|H]%orb_true_iff; bool_prop.
    + rewrite (proj2 (Z.leb_gt 400 st)) by lia. split_and!; [done|by apply Z.leb_le|].
      rewrite (proj2 (Z.eqb_neq st 0)), (proj2 (Z.ltb_ge st 300)) by lia.
      rewrite andb_false_r. simpl. repeat case_match; done.
    + rewrite (proj2 (Z.ltb_ge st 500)) by lia. rewrite andb_false_r.
      split_and!; [done|apply Z.leb_le; lia|].
      rewrite (proj2 (Z.eqb_neq st 0)), (proj2 (Z.ltb_ge st 300)) by lia.
      rewrite (proj2 (Z.leb_gt st 499)), !andb_false_r by lia. simpl.
      repeat case_match; done.
  - intros H. bool_prop. split; [apply Z.leb_le; lia|].
    rewrite (proj2 (Z.eqb_neq st 0)), (proj2 (Z.leb_le 400 st)),
      (proj2 (Z.leb_le st 499)) by lia. simpl. by rewrite orb_true_r.
  - intros H. bool_prop. destruct (decide (400 ≤ st < 500)).
    + right; left. apply andb_true_iff. rewrite Z.leb_le, Z.ltb_lt. lia.
    + destruct (decide (500 ≤ st < 600)); [by right; right|]. left.
      apply orb_true_iff. rewrite andb_true_iff, !Z.leb_le, Z.ltb_lt. lia.
  - by intros ->.
Qed.
