(* ===== verification/InstanceModel.v ===== *)
(** The instance object (src/lyweb/app/instance/models.py Instance): its JSON
    configuration, addresses, links, MAC address, and the two methods that
    rewrite its configuration from the other tables. *)
From Stdlib Require Import Ascii String.
From S2P Require Import Prelude PyText PyBytes Base64 Table Session Cloud Quota.
#[local] Open Scope Z_scope.

(** ** Configuration

    [get], [set] and [delete] of an instance and of a profile are the same
    code over the [config] column, and [secret_get], [secret_set] over
    [secret_config]. The decoded copy kept in [_config_dict] is always the
    decoding of the column. *)

Definition conf_dict (c : option config) : config := default ∅ c.

Definition conf_get (c : option config) (name : string) : option json :=
  conf_dict c !! name.
Definition conf_set (c : option config) (item : string) (v : json) : option config :=
  Some (<[item := v]> (conf_dict c)).
(** A missing item leaves the column and the time of change alone. *)
Definition conf_delete (c : option config) (item : string) : option (option config) :=
  match conf_dict c !! item with
  | Some _ => Some (Some (delete item (conf_dict c)))
  | None => None
  end.

Definition i_get (name : string) (def : json) (I : Instance) : json :=
  default def (conf_get (i_config I) name).
Definition i_set (now : Z) (item : string) (v : json) (I : Instance) : Instance :=
  I <| i_config := conf_set (i_config I) item v |> <| i_updated := now |>.
Definition i_delete (now : Z) (item : string) (I : Instance) : Instance :=
  match conf_delete (i_config I) item with
  | Some c => I <| i_config := c |> <| i_updated := now |>
  | None => I
  end.

Definition secret_get (name : string) (def : json) (I : Instance) : json :=
  default def (conf_get (i_secret_config I) name).
Definition secret_set (now : Z) (item : string) (v : json) (I : Instance) : Instance :=
  I <| i_secret_config := conf_set (i_secret_config I) item v |> <| i_updated := now |>.

Definition pf_get (name : string) (def : json) (p : UserProfile) : json :=
  default def (conf_get (pf_config p) name).
Definition pf_set (now : Z) (item : string) (v : json) (p : UserProfile) : UserProfile :=
  p <| pf_config := conf_set (pf_config p) item v |> <| pf_updated := now |>.
Definition pf_delete (now : Z) (item : string) (p : UserProfile) : UserProfile :=
  match conf_delete (pf_config p) item with
  | Some c => p <| pf_config := c |> <| pf_updated := now |>
  | None => p
  end.

(** The shadow password kept in a profile; [hash] is what [enc_shadow_passwd]
    made of the new password. *)
Definition pf_set_root_password (now : Z) (hash : string) (p : UserProfile) : UserProfile :=
  pf_set now "secret" (JObj [("root_shadow_passwd"%string, JStr hash)]) p.
Definition pf_get_root_password (p : UserProfile) : json :=
  match pf_get "secret" (JObj []) p with
  | JObj l => default JNull (jget "root_shadow_passwd" l)
  | _ => JNull
  end.

(** Python truth of a decoded value. *)
Definition truthy (v : json) : bool :=
  match v with
  | JNull => false
  | JBool b => b
  | JNum n => negb (n =? 0)
  | JStr s => negb (String.eqb s "")
  | JList l => negb (bool_decide (length l = 0%nat))
  | JObj l => negb (bool_decide (length l = 0%nat))
  end.

(** [Instance(name, user, appliance)]; [cookie] is the random session key. *)
Definition init_config (cookie : string) : config :=
  {[ "cookie"%string := JStr cookie;
     "webssh"%string := JObj [("status"%string, JStr "enable"); ("port"%string, JNum 8001)] ]}.

Definition new_instance (name : string) (user appliance now : Z) (cookie : string) : Instance :=
  mkInstance name 0 0 user appliance None None 1 (Some (init_config cookie)) None
    true false now "" "".

Definition use_global_passwd (I : Instance) : json :=
  i_get "use_global_passwd" (JBool true) I.

Definition i_set_root_password (now : Z) (hash : string) (I : Instance) : Instance :=
  i_set now "passwd_hash" (JStr hash) I.

(** The libvirt configuration is kept in base64 without line breaks; reading
    it back raises on text that is no base64. *)
Definition set_libvirt_conf (now : Z) (conf : bytes) (I : Instance) : Instance :=
  secret_set now "libvirt_conf"
    (JStr (digits_text (drop_newlines (encodestring conf)))) I.
Definition libvirt_conf (I : Instance) : option bytes :=
  match secret_get "libvirt_conf" JNull I with
  | JStr s => decodestring (text_digits s)
  | v => if truthy v then None else Some []
  end.

(** ** Names and addresses *)

(** [default_domain], from the site's run-time setting [domain] decoded to an
    object; a missing part prints as [None]. *)
Definition default_domain (s : Cloud) (i : Z) : string :=
  match c_runtime_domain s with
  | None => ""
  | Some d =>
      if decide (d = ∅) then "" else
      let part k := match d !! k with Some v => v | None => "None" end%string in
      part "prefix" +:+ str_of_Z i +:+ part "suffix" +:+ "." +:+ part "topdomain"
  end%string.

Definition i_domain (s : Cloud) (i : Z) : string :=
  match domains_of s i with
  | (_, D) :: _ => d_domain D
  | [] => default_domain s i
  end.

Definition has_work_ip (I : Instance) : option string :=
  match i_ip I with
  | Some ip => if is_running I && negb (String.eqb ip "") && negb (String.eqb ip "0.0.0.0")
               then Some ip else None
  | None => None
  end.

Definition access_ip (s : Cloud) (i : Z) (I : Instance) : option string :=
  match has_work_ip I with
  | Some ip => Some ip
  | None => match ips_of s i with (_, P) :: _ => Some (ip_ip P) | [] => None end
  end.

Definition work_ip (I : Instance) : string := default ""%string (has_work_ip I).

Definition pct_s (o : option string) : string := default "None"%string o.

(** [home_url(user, useip)]; the cookie is given to the owner alone. *)
Definition home_url (s : Cloud) (user : option Z) (useip : bool) (i : Z) (I : Instance) :
    string :=
  let host := if useip then pct_s (i_ip I)
              else if String.eqb (i_domain s i) "" then pct_s (i_ip I) else i_domain s i in
  let plain := ("http://" +:+ host +:+ ":8080/index.html")%string in
  match user, i_config I with
  | Some u, Some c =>
      if u =? i_user_id I then
        match c !! "cookie"%string with
        | Some (JStr k) => if String.eqb k "" then plain else (plain +:+ "?cookie=" +:+ k)%string
        | _ => plain
        end
      else plain
  | _, _ => plain
  end.

(** [vdi_ip]: the address of the node a running instance is on. *)
Definition vdi_ip (s : Cloud) (I : Instance) : string :=
  match i_node_id I ≫= row (A := Node) s with
  | Some N => if is_running I then n_ip N else "None"
  | None => "None"
  end%string.

Definition hex_digit (d : Z) : string :=
  String (ascii_of_nat (Z.to_nat (if d <? 10 then 48 + d else 87 + d))) EmptyString.

(** Hexadecimal digits, at least [n] of them: ['%02x'] is [hex 2]. The number
    of digits of [z] bounds the recursion. *)
Fixpoint hex_fuel (fuel : nat) (n : nat) (z : Z) : string :=
  match fuel with
  | O => EmptyString
  | S fuel =>
      if (z =? 0) && (n =? 0)%nat then EmptyString
      else hex_fuel fuel (pred n) (z / 16) +:+ hex_digit (z mod 16)
  end.

Definition hex (n : nat) (z : Z) : string := hex_fuel (n + S (Z.to_nat (Z.log2 z))) n z.

Definition mac (i : Z) : string :=
  ("92:1B:40:26:" +:+ hex 2 (i / 256) +:+ ":" +:+ hex 2 (i mod 256))%string.

(** ** Rewriting the configuration *)

(** [update_network]: [None] is the TypeError of a [domain] item that is no
    object, or the AttributeError of an address without its pool. *)
Definition network_entry (m : string) (net : NetworkPool) (P : IPPool) : json :=
  JObj [("ip", JStr (ip_ip P)); ("mac", JStr m); ("type", JStr "default");
        ("netmask", JStr (np_netmask net)); ("gateway", JStr (np_gateway net));
        ("nameservers", JStr (np_nameservers net))]%string.

Definition network_loop (s : Cloud) (i : Z)
    (acc : option (list json * string * list (string * json))) (P : Z * IPPool) :
    option (list json * string * list (string * json)) :=
  '(network, nameservers, domain) ← acc;
  net ← row (A := NetworkPool) s (ip_network_id P.2);
  let nameservers := if String.eqb (np_nameservers net) "" then nameservers
                     else np_nameservers net in
  Some (network ++ [network_entry (mac i) net P.2], nameservers,
        jset "name" (JStr (i_domain s i)) (jset "ip" (JStr (ip_ip P.2)) domain)).

Definition update_network (now : Z) (s : Cloud) (i : Z) (I : Instance) : option Instance :=
  domain ← match i_get "domain" (JObj []) I with JObj l => Some l | _ => None end;
  '(network, nameservers, domain) ←
    foldl (network_loop s i) (Some ([], ""%string, jset "ip" (JStr "") domain)) (ips_of s i);
  let network := if decide (length (ips_of s i) = 0%nat)
    then network ++ [JObj [("mac"%string, JStr (mac i)); ("type"%string, JStr "default")]]
    else network in
  let I := i_set now "domain" (JObj domain)
             (i_set now "nameservers" (JStr nameservers)
               (i_set now "network" (JList network) I)) in
  let I := if is_running I then I <| i_ischanged := true |> else I in
  Some (I <| i_updated := now |>).

Definition storage_entry (S : Z * Storage) : json :=
  JObj [("type"%string, JStr "disk"); ("size"%string, JNum (s_size S.2))].

Definition update_storage (now : Z) (s : Cloud) (i : Z) (I : Instance) : Instance :=
  match storages_of s i with
  | [] => i_delete now "storage" I
  | l => i_set now "storage" (JList (storage_entry <$> l)) I
  end.

Definition i_storage (s : Cloud) (i : Z) : Z :=
  foldl (λ n S, n + s_size (snd S)) 0 (storages_of s i).

(** ** What may be done with an instance *)

Definition i_action (I : Instance) : string :=
  if is_running I then "stop" else if need_query I then "query" else "run".

Definition action_human (I : Instance) : string :=
  if negb (is_running I) then "Run Instance"
  else if need_query I then "Query Instance" else "Stop Instance".

(** ** Lemmas *)

Lemma conf_get_set_eq c k v : conf_get (conf_set c k v) k = Some v.
Proof. apply lookup_insert_eq. Qed.
Lemma conf_get_set_ne c k k' v : k ≠ k' → conf_get (conf_set c k v) k' = conf_get c k'.
Proof. intros. by apply lookup_insert_ne. Qed.

Definition hex2_table : list string := hex 2 <$> seqZ 0 256.

Lemma hex2_distinct : NoDup hex2_table.
Proof. apply (bool_decide_unpack _). vm_compute. done. Qed.

Lemma hex2_shape : Forall (λ s, ∃ a b, s = String a (String b EmptyString)) hex2_table.
Proof.
  assert (Forall (λ s, String.length s = 2%nat) hex2_table) as H.
  { apply (bool_decide_unpack _). vm_compute. done. }
  apply (Forall_impl _ _ _ H). intros [|a [|b [|c s]]]; simpl; try done. eauto.
Qed.

Lemma hex2_lookup z : 0 ≤ z < 256 → hex2_table !! Z.to_nat z = Some (hex 2 z).
Proof.
  intros Hz. unfold hex2_table. rewrite list_lookup_fmap, lookup_seqZ_lt by lia.
  simpl. repeat f_equal. lia.
Qed.

Lemma hex2_ab z : 0 ≤ z < 256 → ∃ a b, hex 2 z = String a (String b EmptyString).
Proof.
  intros Hz. pose proof hex2_shape as H. rewrite Forall_lookup in H.
  by apply (H (Z.to_nat z)), hex2_lookup.
Qed.

Lemma hex2_inj a b : 0 ≤ a < 256 → 0 ≤ b < 256 → hex 2 a = hex 2 b → a = b.
Proof.
  intros Ha Hb E. pose proof (hex2_lookup a Ha) as La. rewrite E in La.
  pose proof (NoDup_lookup _ _ _ _ hex2_distinct La (hex2_lookup b Hb)). lia.
Qed.

(** The loop of [update_network] over the addresses of an instance. *)
Lemma network_loop_spec s i ips ents acc_l acc_n acc_d :
  Forall2 (λ (P : Z * IPPool) (e : json),
             ∃ net, row s (ip_network_id P.2) = Some net ∧ e = network_entry (mac i) net P.2)
    ips ents →
  ∃ ns dom, foldl (network_loop s i) (Some (acc_l, acc_n, acc_d)) ips =
              Some (acc_l ++ ents, ns, dom).
Proof.
  intros H. revert acc_l acc_n acc_d.
  induction H as [|P e ips ents (net & Hnet & ->) _ IH]; intros l n d; simpl.
  { rewrite app_nil_r. eauto. }
  rewrite Hnet. cbn [mbind option_bind].
  destruct (IH (l ++ [network_entry (mac i) net P.2])
    (if String.eqb (np_nameservers net) "" then n else np_nameservers net)
    (jset "name" (JStr (i_domain s i)) (jset "ip" (JStr (ip_ip P.2)) d)))
    as (ns & dom & HE).
  exists ns, dom. rewrite HE, <- app_assoc. done.
Qed.

(** ** Properties *)

(** MAC addresses: two instances with ids below 65536 never share one, and
    each has the seventeen characters of a MAC address; the bound is exact,
    id 65536 prints one character too many. *)
Theorem mac_distinct i j :
  0 ≤ i < 65536 → 0 ≤ j < 65536 →
  (mac i = mac j → i = j) ∧ String.length (mac i) = 17%nat ∧
  String.length (mac 65536) = 18%nat.
Proof.
  intros Hi Hj.
  assert (∀ z, 0 ≤ z < 65536 → 0 ≤ z / 256 < 256) as Hd.
  { intros z Hz. split; [apply Z.div_pos; lia|apply Z.div_lt_upper_bound; lia]. }
  assert (∀ z, 0 ≤ z mod 256 < 256) as Hm by (intros z; by apply mod_small_range).
  pose proof (hex2_inj _ _ (Hd i Hi) (Hd j Hj)) as I1.
  pose proof (hex2_inj _ _ (Hm i) (Hm j)) as I2.
  unfold mac.
  destruct (hex2_ab _ (Hd i Hi)) as (a & b & E1), (hex2_ab _ (Hm i)) as (c & d & E2).
  destruct (hex2_ab _ (Hd j Hj)) as (a' & b' & E3), (hex2_ab _ (Hm j)) as (c' & d' & E4).
  rewrite E1, E2, E3, E4 in *. split_and!; [|done|done].
  intros E. simpl in E. simplify_eq.
  rewrite (Z.div_mod i 256), (Z.div_mod j 256) by lia.
  rewrite I1, I2 by done. done.
Qed.

Lemma mac_distinct_witness :
  (mac 300 = mac 44 → 300 = 44) ∧ String.length (mac 300) = 17%nat ∧
  String.length (mac 65536) = 18%nat.
Proof. apply (mac_distinct 300 44); lia. Defined.

(** The libvirt configuration survives its storage: what
    [set_libvirt_conf] encodes into [secret_config] is what [libvirt_conf]
    reads, byte for byte and for every length, and the public configuration is
    not touched. *)
Theorem libvirt_conf_set now conf I :
  Forall is_byte conf →
  libvirt_conf (set_libvirt_conf now conf I) = Some conf ∧
  i_config (set_libvirt_conf now conf I) = i_config I.
Proof.
  intros Hc. split; [|done]. unfold libvirt_conf, set_libvirt_conf, secret_get, secret_set.
  simpl. rewrite conf_get_set_eq. simpl.
  rewrite text_digits_text by (rewrite drop_newlines_encodestring by done; by apply b64_digits).
  by apply decodestring_encodestring.
Qed.

Lemma libvirt_conf_set_witness :
  libvirt_conf (set_libvirt_conf 5 (replicate 60 77 ++ [0; 255])
    (new_instance "web" 1 1 50 "c0ffee")) = Some (replicate 60 77 ++ [0; 255]) ∧
  i_config (set_libvirt_conf 5 (replicate 60 77 ++ [0; 255])
    (new_instance "web" 1 1 50 "c0ffee")) = Some (init_config "c0ffee").
Proof.
  apply (libvirt_conf_set 5 (replicate 60 77 ++ [0; 255])
    (new_instance "web" 1 1 50 "c0ffee")).
  by apply (bool_decide_unpack _).
Defined.

(** [update_network] writes one entry per bound address, in order of id,
    with the instance's MAC and the settings of the address's pool, a bare
    entry when there is none; it marks a running instance as changed and leaves
    every other item of the configuration, the status and the owner alone. *)
Theorem update_network_spec now s i I ents l :
  i_get "domain" (JObj []) I = JObj l →
  Forall2 (λ (P : Z * IPPool) (e : json),
             ∃ net, row s (ip_network_id P.2) = Some net ∧ e = network_entry (mac i) net P.2)
    (ips_of s i) ents →
  ∃ I', update_network now s i I = Some I' ∧
    conf_get (i_config I') "network" = Some (JList
      (if decide (ips_of s i = []) then [JObj [("mac", JStr (mac i)); ("type", JStr "default")]]
       else ents))%string ∧
    (∀ k, k ∉ ["network"; "nameservers"; "domain"]%string →
       conf_get (i_config I') k = conf_get (i_config I) k) ∧
    i_ischanged I' = i_ischanged I || is_running I ∧
    i_status I' = i_status I ∧ i_user_id I' = i_user_id I ∧ i_ip I' = i_ip I.
Proof.
  intros Hd HF. unfold update_network. rewrite Hd. cbn [mbind option_bind].
  destruct (network_loop_spec s i _ _ [] "" (jset "ip" (JStr "") l) HF) as (ns & dom & ->).
  cbn [mbind option_bind].
  set (net := if decide _ then _ else _).
  assert (net = if decide (ips_of s i = [])
    then [JObj [("mac", JStr (mac i)); ("type", JStr "default")]%string] else ents) as Hnet.
  { unfold net. destruct (decide (ips_of s i = [])) as [E|E];
      [by rewrite E in HF |- *; inversion HF|].
    rewrite decide_False; [done|]. by intros ?%length_zero_iff_nil. }
  rewrite <- Hnet. cbv zeta. clearbody net.
  eexists. split; [done|].
  change (is_running (i_set _ _ _ _)) with (is_running I).
  assert (∀ k, k ∉ ["network"; "nameservers"; "domain"]%string →
    k ≠ "network" ∧ k ≠ "nameservers" ∧ k ≠ "domain")%string as Hk by set_solver.
  destruct (is_running I); simpl; rewrite ?orb_true_r, ?orb_false_r;
    (split_and!; [|intros k (H1 & H2 & H3)%Hk; by rewrite !conf_get_set_ne by done|done..]);
    by rewrite !conf_get_set_ne, conf_get_set_eq by done.
Qed.

Definition demo_net : NetworkPool :=
  mkNetworkPool "lan" "" "10.0.0.1" "10.0.0.9" "255.255.255.0" "10.0.0.254" "8.8.8.8" "".
Definition demo_instance : Instance := new_instance "web" 1 1 50 "c0ffee".
Definition demo_cloud : Cloud :=
  empty_cloud <| c_networkpools := table_of [demo_net] |>
    <| c_instances := table_of [demo_instance] |>
    <| c_ips := table_of [mkIPPool "10.0.0.1" 1 None 0; mkIPPool "10.0.0.2" 1 (Some 1) 0] |>.

Lemma update_network_spec_witness :
  ∃ I', update_network 60 demo_cloud 1 demo_instance = Some I' ∧
    conf_get (i_config I') "network" = Some (JList
      [network_entry (mac 1) demo_net (mkIPPool "10.0.0.2" 1 (Some 1) 0)]) ∧
    (∀ k, k ∉ ["network"; "nameservers"; "domain"]%string →
       conf_get (i_config I') k = conf_get (i_config demo_instance) k) ∧
    i_ischanged I' = false ∧ i_status I' = 1 ∧ i_user_id I' = 1 ∧ i_ip I' = None.
Proof.
  apply (update_network_spec 60 demo_cloud 1 demo_instance
    [network_entry (mac 1) demo_net (mkIPPool "10.0.0.2" 1 (Some 1) 0)] []).
  - reflexivity.
  - vm_compute. repeat constructor. eexists; split; reflexivity.
Defined.
