(* ===== verification/Web.v ===== *)
(** The request handler base class (src/lyweb/lycustom.py): who the current
    user is, permissions, arguments, messages to the controller; the trace
    written by system/utils.py; name binding in nginx (tool/domain.py). *)
From Stdlib Require Import Ascii String.
From S2P Require Import Prelude PyText PyBytes Base64 Table Session Cloud Quota InstanceModel.
#[local] Open Scope Z_scope.

(** ** A request *)

(** [cur] is the current user; [notify_ok] whether the controller accepts the
    connection of [_job_notify]; [clc_up] whether [clcstream] is connected. *)
Record req := mkReq {
  now : Z; cur : option Z; args : gmap string string;
  notify_ok : bool; clc_up : bool }.

(** [get_argument_int(key, default)]: the default may be [None]. *)
Definition get_argument_int (e : req) (key : string) (def : option Z) : option Z :=
  match args e !! key with
  | None => def
  | Some v => match py_int v with Some n => Some n | None => def end
  end.

Definition get_argument (e : req) (key def : string) : string :=
  match args e !! key with Some v => strip v | None => def end.

(** [get_int(value, default=0)] *)
Definition get_int (v : string) : Z := default 0 (py_int v).

(** ** The current user *)

(** What the session store takes from outside the program: the secret of the
    site, the hexadecimal MD5 digest, and [pickle] for the dictionary
    [{'user_id': u}]; [unpickle_user] is the [user_id] of what is read, 0 when
    nothing can be read or there is none. *)
Class SessionCodec := {
  session_secret : bytes;
  md5_hex : bytes → bytes;
  pickle_user : Z → bytes;
  unpickle_user : bytes → Z;
  md5_hex_length b : length (md5_hex b) = 32%nat;
  md5_hex_bytes b : Forall is_byte (md5_hex b);
  pickle_user_bytes u : Forall is_byte (pickle_user u);
  unpickle_pickle u : unpickle_user (pickle_user u) = u;
}.

Inductive unpacked := NotBase64 | Tampered | Unpacked (u : Z).

Definition unpack_session `{SessionCodec} (data : string) : unpacked :=
  match decodestring (text_digits data) with
  | None => NotBase64
  | Some encoded =>
      let pickled := take (length encoded - 32) encoded in
      let tamper_check := drop (length encoded - 32) encoded in
      if decide (md5_hex (pickled ++ session_secret) = tamper_check)
      then Unpacked (unpickle_user pickled) else Tampered
  end.

Inductive user_result := NoUser | UserId (u : Z) | UserRaise.

(** [get_current_user]: several rows with the key are logged, and the code goes
    on to use a variable that was not assigned; text that is no base64 raises. *)
Definition get_current_user `{SessionCodec} (now : Z) (s : Cloud) (cookie : string) :
    user_result :=
  match select (λ _ r, String.eqb (sk_key r) cookie) s with
  | [] => NoUser
  | [(_, r)] =>
      if sk_expire r <? now then NoUser else
      match unpack_session (sk_data r) with
      | NotBase64 => UserRaise
      | Tampered => NoUser
      | Unpacked u =>
          match row (A := User) s u with
          | Some U => if u_is_locked U then NoUser else UserId u
          | None => NoUser
          end
      end
  | _ => UserRaise
  end.

(** ** Permissions *)

Definition group_has (s : Cloud) (perm : string) (g : Z) : bool :=
  match row (A := Group) s g with
  | Some G => existsb (λ p, match row (A := Permission) s p with
                            | Some P => String.eqb (p_codename P) perm ||
                                        String.eqb (p_codename P) "admin"
                            | None => false
                            end) (g_permissions G)
  | None => false
  end.

Definition user_has (s : Cloud) (perm : string) (u : Z) : bool :=
  match row (A := User) s u with
  | Some U => existsb (group_has s perm) (u_groups U)
  | None => false
  end.

Definition has_permission (e : req) (s : Cloud) (perm : string) : bool :=
  match cur e with Some u => user_has s perm u | None => false end.

(** The decorator [@has_permission(codename)]; [get] tells a GET or HEAD. *)
Definition need_permission {A} (e : req) (get : bool) (perm : string) (m : Web Cloud A)
    (none : A) : Web Cloud A :=
  match cur e with
  | None => if get then emit (Redirect "login" 0) ;; mret none else raise "HTTPError(403)"
  | Some u =>
      ok ← ask (λ s, user_has s perm u);
      if (ok : bool) then m else emit (Redirect "no_permission" 0) ;; mret none
  end.

(** [@authenticated], with the user it guarantees. *)
Definition authenticated {A} (e : req) (get : bool) (m : Z → Web Cloud A) (none : A) :
    Web Cloud A :=
  match cur e with
  | None => if get then emit (Redirect "login" 0) ;; mret none else raise "HTTPError(403)"
  | Some u => m u
  end.

(** ** Messages and traces *)

Definition sendmsg (e : req) (uri : string) (to_user : Z) : Web Cloud unit :=
  if clc_up e then emit (SendMsg uri to_user) else mret tt.

(** [add_trace]: the row is committed at once, and everything pending with it. *)
Definition add_trace (e : req) (ttype tid : Z) (what : string) : Web Cloud unit :=
  match cur e with
  | None => raise "AttributeError: NoneType"
  | Some u => _ ← add_row (mkLyTrace u ttype tid what true); commit
  end.

Definition LY_TARGET_INSTANCE := 4.
Definition LY_TARGET_IP := 6.

(** ** Loaded objects *)

Definition profile_of_user (u : Z) : Web Cloud UserProfile :=
  p ← ask (λ s, profile_of s u);
  match p with
  | Some (_, p) => mret p
  | None => raise "AttributeError: NoneType"
  end.

(** [I.update_network()] on the instance with id [i]. *)
Definition do_update_network (e : req) (i : Z) : Web Cloud unit :=
  I ← fetch i;
  o ← ask (λ s, update_network (now e) s i I);
  match o with
  | Some I' => put_row i I'
  | None => raise "TypeError"
  end.

(** ** Virtual hosts (tool/domain.py) *)

(** The state of the nginx set-up: its program can be run, its directories
    exist or can be made, the template is not empty and renders; the file is
    written and nginx reloads; the file can be removed. *)
Record nginx_env := mkNginx {
  ng_exec : bool; ng_dirs : bool; ng_template : bool; ng_renders : bool;
  ng_reload : bool; ng_unlink : bool }.

Definition _get_nginx_conf (ng : nginx_env) : bool :=
  ng_exec ng && ng_dirs ng && ng_template ng.

(** The names bound to an instance, the default name first. *)
Definition binding_names (s : Cloud) (i : Z) : list string :=
  default_domain s i :: ((λ D, d_domain (snd D)) <$> domains_of s i).

Definition instance_domain_binding (ng : nginx_env) (i : Z) : Web Cloud bool :=
  if negb (_get_nginx_conf ng) then mret false else
  I ← fetch i;
  ip ← ask (λ s, access_ip s i I);
  match ip with
  | None => mret false
  | Some ip =>
      if String.eqb ip "" then mret false
      else if negb (ng_renders ng) then mret false
      else if ng_reload ng then emit (Nginx "bind" i) ;; mret true
      else emit (Nginx "unlink" i) ;; mret false
  end.

Definition instance_domain_unbinding (ng : nginx_env) (i : Z) : Web Cloud bool :=
  if negb (_get_nginx_conf ng) then mret false
  else if ng_unlink ng then emit (Nginx "unlink" i) ;; mret true
  else mret false.

(** ** Lemmas *)

Lemma user_has_admin s perm u : user_has s "admin" u = true → user_has s perm u = true.
Proof.
  unfold user_has. destruct (row s u) as [U|]; [|done].
  rewrite !existsb_exists. intros (g & Hg & H). exists g. split; [done|].
  revert H. unfold group_has. destruct (row s g) as [G|]; [|done].
  rewrite !existsb_exists. intros (p & Hp & H). exists p. split; [done|].
  destruct (row s p) as [P|]; [|done].
  apply orb_true_iff in H. apply orb_true_iff. tauto.
Qed.

(** A locked user is nobody, whatever the session store says. *)
Lemma get_current_user_locked `{SessionCodec} now s cookie u :
  get_current_user now s cookie = UserId u →
  ∃ U i r, row s u = Some U ∧ u_is_locked U = false ∧ row s i = Some r ∧
           sk_key r = cookie ∧ now ≤ sk_expire r ∧ unpack_session (sk_data r) = Unpacked u.
Proof.
  unfold get_current_user. intros Hu.
  destruct (select _ s) as [|[i r] [|r' l]] eqn:E; [done| |done].
  assert ((i, r) ∈ select (λ _ r, String.eqb (sk_key r) cookie) s) as Hr
    by (rewrite E; set_solver).
  apply elem_of_select in Hr as [Hin Hk%String.eqb_eq].
  destruct (sk_expire r <? now) eqn:Ex; [done|]. bool_prop.
  destruct (unpack_session (sk_data r)) as [| |v] eqn:Eu; [done|done|].
  destruct (row s v) as [U|] eqn:Ev; [|done].
  destruct (u_is_locked U) eqn:El; [done|]. simplify_eq. eauto 12.
Qed.

(** What the shared steps leave alone. *)
Section frames.
Context {X : Type} (f : Cloud → X).

Lemma frozen_change g : (∀ s, f (g s) = f s) → keeps (frozen f) (change g).
Proof.
  intros H. apply keeps_change; [apply _|]. intros s c o. split; simpl; [apply H|by left].
Qed.
Lemma frozen_commit : keeps (frozen f) commit.
Proof. intros [s c o]. split; simpl; [done|by right]. Qed.
Lemma frozen_emit e : keeps (frozen f) (emit e).
Proof. intros [s c o]. split; simpl; [done|by left]. Qed.
Lemma frozen_put {A} `{HasTable Cloud A} i (x : A) :
  (∀ t s, f (set_tbl (A := A) t s) = f s) → keeps (frozen f) (put_row i x).
Proof. intros Hf. apply frozen_change. intros s. apply Hf. Qed.
Lemma frozen_modify {A} `{HasTable Cloud A} i (g : A → A) :
  (∀ t s, f (set_tbl (A := A) t s) = f s) → keeps (frozen f) (modify i g).
Proof.
  intros Hf. apply keeps_modify; [apply _|]. intros s c o x _. split; simpl; [apply Hf|by left].
Qed.
Lemma frozen_add {A} `{HasTable Cloud A} (x : A) :
  (∀ t s, f (set_tbl (A := A) t s) = f s) → keeps (frozen f) (add_row x).
Proof.
  intros Hf. apply keeps_add; [apply _|]. intros s c o. split; simpl; [apply Hf|by left].
Qed.
Lemma frozen_delete A `{HasTable Cloud A} i :
  (∀ t s, f (set_tbl (A := A) t s) = f s) → keeps (frozen f) (delete_row A i).
Proof. intros Hf. apply frozen_change. intros s. apply Hf. Qed.
End frames.

Ltac frozen_step :=
  lazymatch goal with
  | |- keeps (frozen _) commit => apply frozen_commit
  | |- keeps (frozen _) (emit _) => apply frozen_emit
  | |- keeps (frozen _) (put_row _ _) => apply frozen_put; reflexivity
  | |- keeps (frozen _) (modify _ _) => apply frozen_modify; reflexivity
  | |- keeps (frozen _) (add_row _) => apply frozen_add; reflexivity
  | |- keeps (frozen _) (delete_row _ _) => apply frozen_delete; reflexivity
  end.
Ltac frozen_auto := repeat first [frozen_step | keeps_step | solve [eauto 2 with ly]].
