(* ===== verification/Forms.v ===== *)
(** Form fields as the handlers see them (lib/yweb/forms.py over WTForms):
    the data of a field for a request, lookups by the text of a field, the
    pattern of a domain name. Every argument is given once; its text is
    stripped; a field that is absent has the default of its type. *)
From Stdlib Require Import Ascii String.
From S2P Require Import Prelude PyText Table Session Cloud Quota InstanceModel Web.
#[local] Open Scope Z_scope.

(** ** Field data *)

Definition text_field (e : req) (name : string) : string := get_argument e name "".

(** An absent choice is coerced to the text ["None"]. *)
Definition select_field (e : req) (name : string) : string := get_argument e name "None".

Definition bool_field (e : req) (name : string) : bool :=
  bool_decide (is_Some (args e !! name)).

(** Text that is no number leaves [None] and an error. *)
Definition int_field (e : req) (name : string) (def : option Z) : option Z :=
  match args e !! name with
  | None => def
  | Some v => py_int v
  end.

(** [NumberRange]; a missing number is out of every range. *)
Definition at_least (min : Z) (d : option Z) : bool :=
  match d with Some n => min <=? n | None => false end.
Definition in_range (min max : Z) (d : option Z) : bool :=
  match d with Some n => (min <=? n) && (n <=? max) | None => false end.

(** [d > n] of Python 2, where [None] is below every number. *)
Definition exceeds (d : option Z) (n : Z) : bool :=
  match d with Some k => n <? k | None => false end.

Definition length_ok (min max : Z) (s : string) : bool :=
  let n := Z.of_nat (String.length s) in (min <=? n) && (n <=? max).

(** [db.query(A).get(text)]: the database refuses text that is no number. *)
Definition get_text {A} `{HasTable Cloud A} (t : string) : Web Cloud (option (Z * A)) :=
  match py_int t with
  | None => raise "DataError"
  | Some i => ask (λ s, x ← row s i; Some (i, x))
  end.

(** The choices [str(x.id)] of a select field. *)
Definition id_choices {A} (l : list (Z * A)) : list string := (λ x, str_of_Z x.1) <$> l.

Definition all_rows (A : Type) `{HasTable Cloud A} (s : Cloud) : list (Z * A) :=
  select (λ _ _, true) s.

(** ** Domain names: [^(([A-Za-z0-9])+[\.]?)+$] *)

Definition alnum (c : ascii) : bool :=
  let n := nat_of_ascii c in
  ((65 <=? n) && (n <=? 90) || (97 <=? n) && (n <=? 122) || (48 <=? n) && (n <=? 57))%nat.

(** [dot] tells that a dot may come next. *)
Fixpoint domain_rest (dot : bool) (s : string) : bool :=
  match s with
  | EmptyString => true
  | String c s => if alnum c then domain_rest true s
                  else (c =? ".")%char && dot && domain_rest false s
  end.

Definition domain_re (s : string) : bool :=
  match s with
  | EmptyString => false
  | String c s => alnum c && domain_rest true s
  end.

(** The language of the pattern: one or more groups of letters and digits, each
    with a dot after it or not. *)
Inductive word : string → Prop :=
  | word_one c : alnum c = true → word (String c EmptyString)
  | word_cons c s : alnum c = true → word s → word (String c s).
Inductive dot_opt : string → Prop :=
  | dot_none : dot_opt EmptyString
  | dot_one : dot_opt ".".
Inductive domain_lang : string → Prop :=
  | domain_one w d : word w → dot_opt d → domain_lang (w +:+ d)
  | domain_more w d s : word w → dot_opt d → domain_lang s → domain_lang (w +:+ d +:+ s).

(** ** Lemmas *)

Lemma word_re w s : word w → domain_rest true s = true →
  domain_re (w +:+ s) = true ∧ ∀ b, domain_rest b (w +:+ s) = true.
Proof.
  induction 1 as [c Hc|c w Hc _ IH]; intros Hs; simpl; rewrite Hc; [done|].
  destruct (IH Hs) as [_ H]. by rewrite H.
Qed.

Lemma re_rest s b : domain_re s = true → domain_rest b s = true.
Proof. destruct s as [|c s]; [done|]. simpl. by intros [-> ->]%andb_prop. Qed.

Lemma domain_lang_re s : domain_lang s → domain_re s = true.
Proof.
  assert (∀ w d s, word w → dot_opt d → (s = ""%string ∨ domain_re s = true) →
          domain_re (w +:+ d +:+ s) = true) as H.
  { intros w d t Hw Hd Ht. apply word_re; [done|].
    destruct Hd; simpl; destruct Ht as [->|Ht]; auto using re_rest. }
  induction 1 as [w d Hw Hd|w d t Hw Hd _ IH]; [|by auto].
  rewrite <- (string_app_nil_r d). by auto.
Qed.

Lemma domain_lang_cons c s : alnum c = true → domain_lang s → domain_lang (String c s).
Proof.
  intros Hc H. inversion H as [w d Hw Hd|w d t Hw Hd Ht]; subst.
  - change (String c (w +:+ d)) with ((String c w) +:+ d)%string.
    constructor; [by constructor|done].
  - change (String c (w +:+ d +:+ t)) with ((String c w) +:+ d +:+ t)%string.
    constructor; [by constructor|done|done].
Qed.

Lemma domain_re_lang s : domain_re s = true → domain_lang s.
Proof.
  assert (∀ n s, (String.length s <= n)%nat → domain_re s = true → domain_lang s) as H;
    [|by eauto].
  clear s. induction n as [|n IH]; intros [|c s] Hn Hr; try done; simpl in Hn; [lia|].
  simpl in Hr. apply andb_prop in Hr as [Hc Hr].
  destruct s as [|c' s]; [by apply (domain_one (String c "") ""); repeat constructor|].
  simpl in Hr, Hn. destruct (alnum c') eqn:Hc'.
  - apply domain_lang_cons; [done|]. apply IH; [simpl; lia|]. simpl. by rewrite Hc'.
  - destruct (Ascii.eqb_spec c' "."%char) as [->|]; [|done]. simpl in Hr.
    destruct s as [|c'' s]; [by apply (domain_one (String c "") "."); repeat constructor|].
    apply (domain_more (String c "") "."); [by constructor|by constructor|].
    apply IH; [simpl in *; lia|]. simpl in Hr |- *. destruct (alnum c''); [done|].
    by rewrite andb_false_r in Hr.
Qed.

Lemma get_text_val {A} `{HasTable Cloud A} t w r w' :
  get_text (A := A) t w = (Val r, w') →
  w' = w ∧ ∃ i, py_int t = Some i ∧ r = (λ x, (i, x)) <$> row (work w) i.
Proof.
  unfold get_text. destruct (py_int t) as [i|] eqn:Ht; [|done]. intros [= <- <-].
  split; [done|]. exists i. split; [done|]. by destruct (row (work w) i).
Qed.

Lemma id_choices_elem {A} (l : list (Z * A)) i : str_of_Z i ∈ id_choices l → ∃ x, (i, x) ∈ l.
Proof.
  unfold id_choices. intros ([j x] & E & Hx)%list_elem_of_fmap. simpl in E. exists x.
  assert (Some i = Some j) as [= ->] by (rewrite <- !py_int_str_of_Z; by rewrite E). done.
Qed.

(** What a chosen id's text denotes. *)
Lemma choice_id {A} (l : list (Z * A)) t i :
  py_int t = Some i → t ∈ id_choices l → ∃ x, (i, x) ∈ l.
Proof.
  intros Ht Hc. pose proof Hc as Hc'. unfold id_choices in Hc'.
  apply list_elem_of_fmap in Hc' as ([j x] & E & Hx). simpl in E. subst t.
  rewrite py_int_str_of_Z in Ht. simplify_eq. eauto.
Qed.

(** ** Properties *)

(** The scanner that decides domain names accepts exactly the language of
    the pattern [^(([A-Za-z0-9])+[\.]?)+$]. *)
Theorem domain_re_correct s : domain_re s = true ↔ domain_lang s.
Proof. split; [apply domain_re_lang|apply domain_lang_re]. Qed.
