(* ===== verification/LifeControl.v ===== *)
(** Life control of instances (src/lyweb/app/instance/views.py): run, stop and
    query jobs under the quota, attributes, deletion, viewing and status. *)
From Stdlib Require Import Ascii String.
From S2P Require Import Prelude PyText PyBytes Table Session Cloud Quota JobModel InstanceModel Web.
#[local] Open Scope Z_scope.

(** The environment of these handlers: the request, nginx, the rendered
    libvirt configuration of an instance, whether its copy under [/tmp] can be
    written. *)
Record lenv := mkLenv {
  rq : req; ng : nginx_env; render_conf : Z → Instance → bytes; tmp_ok : bool }.

(** ** Shared steps *)

(** The last job of an instance: [order_by(desc(Job.id)).first()]. *)
Definition get_instance_lastjob (s : Cloud) (i : Z) : option (Z * Job) :=
  last (select (λ _ j, (j_target_type j =? JOB_TARGET_INSTANCE) && (j_target_id j =? i)) s).

(** Looking up an instance for its owner or an administrator: the message on
    failure. *)
Definition get_instance (e : req) (s : Cloud) (i : Z) : string + Z :=
  match row (A := Instance) s i with
  | None => inl "Can not find instance"%string
  | Some ins =>
      if i_status ins =? INSTANCE_DELETED_STATUS then inl "Instance was deleted"%string
      else if bool_decide (cur e = Some (i_user_id ins)) then inr i
      else if has_permission e s "admin" then inr i
      else inl "No permission for instance"%string
  end.

Definition get_instance_byid (e : req) (s : Cloud) : string + Z :=
  match get_argument_int e "id" None with
  | None => inl "Give me instance id please"%string
  | Some i => if i =? 0 then inl "Give me instance id please"%string else get_instance e s i
  end.

Definition unbinding_domain (e : lenv) (i : Z) : Web Cloud unit :=
  _ ← instance_domain_unbinding (ng e) i;
  do_update_network (rq e) i;; commit.

Definition binding_domain (e : lenv) (i : Z) : Web Cloud unit :=
  _ ← instance_domain_binding (ng e) i;
  do_update_network (rq e) i;; commit.

(** Why a job may not be created now. *)
Definition job_blocked (now action : Z) (lastjob : option (Z * Job)) : option string :=
  match lastjob with
  | None => None
  | Some (_, j) =>
      let timeout := j_created j + 60 in
      if negb (completed j) && negb ((action =? STOP_INSTANCE) && canstop j) &&
         (now <? timeout)
      then Some "Previous task is not finished !"%string
      else if (j_status j =? JOB_S_FAILED) && (now <? timeout)
      then Some "Previous task was failed, wait a moment please."%string
      else None
  end.

(** [instance_control_notice]: the user object of the instance's owner must
    exist. *)
Definition instance_control_notice (e : req) (owner : Z) : Web Cloud unit :=
  _ ← fetch (A := User) owner; sendmsg e "mailto.address" owner.

(** [_job_notify] *)
Definition job_notify (e : req) (job : Z) : Web Cloud unit :=
  if notify_ok e then emit (NotifyJob job) else raise "socket.error".

(** [run_job]: [None] is success, otherwise the reason. *)
Definition run_job (e : req) (u i action : Z) : Web Cloud (option string) :=
  lastjob ← ask (λ s, get_instance_lastjob s i);
  match job_blocked (now e) action lastjob with
  | Some msg => mret (Some msg)
  | None =>
      job ← add_row (new_job u JOB_TARGET_INSTANCE i action (now e));
      commit;;
      failed ← try_except (job_notify e job;; mret false)
                 (modify job (λ j : Job, j <| j_status := JOB_S_FAILED |>);; commit;; mret true);
      if (failed : bool) then mret (Some "Connect to control server failed"%string) else
      I ← fetch (A := Instance) i;
      (if u =? i_user_id I then mret tt else instance_control_notice e (i_user_id I));;
      mret None
  end.

(** ** LifeControl *)

(** The answer for one instance: its code and text. *)
Definition answer : Type := Z * string.

Definition answer_of (ret : option string) : answer :=
  match ret with
  | Some msg => (1, msg)
  | None => (0, "Task starts successfully."%string)
  end.

(** CPU and memory held by the user's instances whose last job has not ended. *)
Definition job_pending (s : Cloud) (i : Z) : bool :=
  match get_instance_lastjob s i with
  | Some (_, j) => negb (completed j)
  | None => false
  end.

Definition waits (s : Cloud) (u : Z) : Z * Z :=
  foldl (λ w xi, if job_pending s (fst xi)
                 then (w.1 + i_cpus xi.2, w.2 + i_memory xi.2) else w)
    (0, 0) (instances_of s u).

Definition set_root_passwd (e : req) (i : Z) : Web Cloud unit :=
  I ← fetch i;
  if truthy (i_get "use_global_passwd" (JBool true) I) then
    p ← profile_of_user (i_user_id I);
    match pf_get "secret" (JObj []) p with
    | JObj l => modify i (i_set (now e) "passwd_hash"
                            (default (JStr "") (jget "root_shadow_passwd" l)))
    | _ => raise "AttributeError: get"
    end
  else mret tt.

Definition do_update_storage (e : req) (i : Z) : Web Cloud unit :=
  s ← ask id; modify i (update_storage (now e) s i).

(** What [run] does before it asks for a job. *)
Definition prepare_run (e : lenv) (i : Z) : Web Cloud unit :=
  set_root_passwd (rq e) i;;
  do_update_storage (rq e) i;;
  I' ← fetch (A := Instance) i;
  modify i (set_libvirt_conf (now (rq e)) (render_conf e i I'));;
  (if tmp_ok e then emit (FileOp "write /tmp/id.conf" i) else raise "IOError").

Definition run (e : lenv) (u i : Z) : Web Cloud answer :=
  I ← fetch (A := Instance) i;
  '(cpu_wait, mem_wait) ← ask (λ s, waits s (i_user_id I));
  profile ← profile_of_user (i_user_id I);
  resource_total ← quota (now (rq e)) (λ _, true) (pf_user_id profile)
    (λ s, get_resource_total (now (rq e)) s profile);
  resource_used ← ask (λ s, get_resource_used s (pf_user_id profile));
  let cpu_remain := cpu resource_total - cpu resource_used - cpu_wait in
  let memory_remain := memory resource_total - memory resource_used - mem_wait in
  if negb ((i_cpus I <=? cpu_remain) && (i_memory I <=? memory_remain))
  then mret (1, "Resource limit"%string)
  else if is_running I then mret (1, "Instance is running now."%string) else
  prepare_run e i;;
  commit;;
  ret ← run_job (rq e) u i RUN_INSTANCE;
  binding_domain e i;;
  mret (answer_of ret).

(** The domains are unbound whatever [run_job] answered, and the [None] of
    [unbinding_domain] is appended to the text. *)
Definition stop (e : lenv) (u i : Z) : Web Cloud answer :=
  I ← fetch (A := Instance) i;
  if negb (is_running I) then mret (1, "Instance is stopped now."%string) else
  ret ← run_job (rq e) u i STOP_INSTANCE;
  unbinding_domain e i;;
  let '(code, data) := answer_of ret in
  mret (code, data +:+ " None")%string.

Definition query (e : lenv) (u i : Z) : Web Cloud answer :=
  I ← fetch (A := Instance) i;
  if negb (need_query I) then mret (1, "Instance does not need query."%string) else
  ret ← run_job (rq e) u i QUERY_INSTANCE;
  mret (answer_of ret).

(** [getattr(self, action)]: there is no method [reboot]. *)
Definition callback (e : lenv) (action : string) (u i : Z) : Web Cloud answer :=
  if String.eqb action "run" then run e u i
  else if String.eqb action "stop" then stop e u i
  else if String.eqb action "query" then query e u i
  else raise "AttributeError: reboot".

(** One id of the list; text that is no number fails in the database. *)
Definition control_one (e : lenv) (action : string) (u : Z) (x : string) : Web Cloud answer :=
  match py_int x with
  | None => raise "DataError"
  | Some i =>
      r ← ask (λ s, get_instance (rq e) s i);
      match r with
      | inr i => callback e action u i
      | inl msg => mret (1, msg)
      end
  end.

Definition id_list (s : string) : list string :=
  filter (λ x, x ≠ ""%string) (strip <$> split_on "," s).

Definition LifeControl_post (e : lenv) : Web Cloud unit :=
  authenticated (rq e) false (λ u,
    let action := strip (lower (get_argument (rq e) "action" "")) in
    if String.eqb action "" then emit (WriteCode 1 "Give me the action please.")
    else if bool_decide (action ∉ ["run"; "stop"; "query"; "reboot"]%string)
    then emit (WriteCode 1 "Just support run/stop/reboot/query action")
    else match id_list (get_argument (rq e) "id" "") with
         | [] => emit (WriteCode 1 "Instance id list is empty.")
         | ids =>
             data ← mapM (control_one e action u) ids;
             let status := if existsb (λ a : answer, negb (a.1 =? 0)) data then 1 else 0 in
             emit (WriteCode status "data")
         end) tt.

(** ** AttrSet *)

(** Whatever [attr] names, [isprivate] is set; the message for any other value
    uses a variable that does not exist. *)
Definition set_isprivate (value : string) (i : Z) : Web Cloud unit :=
  if String.eqb value "true" then modify i (λ I : Instance, I <| i_isprivate := true |>)
  else if String.eqb value "false" then modify i (λ I : Instance, I <| i_isprivate := false |>)
  else raise "NameError: value".

(** The id and whether it failed. *)
Definition attr_one (e : req) (u : Z) (value : string) (i : Z) : Web Cloud (Z * bool) :=
  o ← get_row (A := Instance) i;
  match o with
  | None => mret (i, true)
  | Some ins =>
      isadmin ← ask (λ s, has_permission e s "admin");
      if (u =? i_user_id ins) || isadmin then set_isprivate value i;; mret (i, false)
      else mret (i, true)
  end.

Definition AttrSet_post (e : req) : Web Cloud unit :=
  authenticated e false (λ u,
    let ids := get_int <$> split_on "," (get_argument e "id" "") in
    let attr := get_argument e "attr" "" in
    let value := strip (lower (get_argument e "value" "")) in
    if String.eqb attr "" then emit (WriteCode 1 "No attr find.")
    else if String.eqb value "" then emit (WriteCode 1 "No value find.") else
    rs ← mapM (attr_one e u value) ids;
    commit;;
    emit (WriteCode (if existsb (λ r : Z * bool, r.2) rs then 1 else 0) "attr_set")) tt.

(** ** InstanceDelete *)

Definition free_port (p : Z) : Web Cloud unit :=
  modify p (λ P : PortMapping, P <| pm_ip_id := None |> <| pm_ip_port := None |>).

Definition ports_of_ip (s : Cloud) (ip : Z) : list (Z * PortMapping) :=
  select (λ _ P, bool_decide (pm_ip_id P = Some ip)) s.

Definition free_ip (e : req) (ip : Z) : Web Cloud unit :=
  ports ← ask (λ s, ports_of_ip s ip);
  for_each ports (λ p, free_port p.1);;
  modify ip (λ P : IPPool, P <| ip_instance_id := None |> <| ip_updated := now e |>).

(** The addresses, domains and storage of a deleted instance. *)
Definition release_holdings (e : req) (i : Z) : Web Cloud unit :=
  ips ← ask (λ s, ips_of s i);
  for_each ips (λ x, free_ip e x.1);;
  ds ← ask (λ s, domains_of s i);
  for_each ds (λ x, delete_row UserDomain x.1);;
  ss ← ask (λ s, storages_of s i);
  for_each ss (λ x, delete_row Storage x.1);;
  commit.

Definition mark_deleted (i : Z) (I : Instance) : Instance :=
  I <| i_status := INSTANCE_DELETED_STATUS |>
    <| i_name := ("_deleted_" +:+ str_of_Z i +:+ "_")%string |>.

Definition InstanceDelete_post (e : lenv) : Web Cloud unit :=
  authenticated (rq e) false (λ u,
    r ← ask (λ s, get_instance_byid (rq e) s);
    match r with
    | inl msg => emit (WriteCode 1 msg)
    | inr i =>
        I ← fetch (A := Instance) i;
        if is_running I then emit (WriteCode 1 "Instance is running, can not delete it.") else
        unbinding_domain e i;;
        modify i (mark_deleted i);;
        commit;;
        release_holdings (rq e) i;;
        ret ← run_job (rq e) u i DESTROY_INSTANCE;
        add_trace (rq e) LY_TARGET_INSTANCE i "delete instance";;
        let '(code, msg) := answer_of ret in
        emit (WriteCode code msg)
    end) tt.

(** ** View and SingleInstanceStatus *)

Definition View_get (e : req) : Web Cloud unit :=
  match get_argument_int e "id" None with
  | None => emit (Write "Give me instance id please.")
  | Some i =>
      if i =? 0 then emit (Write "Give me instance id please.") else
      o ← get_row (A := Instance) i;
      match o with
      | None => emit (SetStatus 404);; emit (Render "instance/404.html")
      | Some ins =>
          isadmin ← ask (λ s, has_permission e s "admin");
          if i_isprivate ins && negb (bool_decide (cur e = Some (i_user_id ins)) ||
                                    bool_decide (is_Some (cur e)) && isadmin)
          then emit (Write "Instance is private !")
          else if i_status ins =? INSTANCE_DELETED_STATUS then emit (Write "Instance is deleted !")
          else emit (Render "instance/view.html")
      end
  end.

(** The fields of the JSON answer that carry the instance's data. *)
Record status_json := mkStatus {
  st_is : Z; st_js : Z; st_lastjob : option Z; st_completed : bool;
  st_vdi_ip : string; st_ip : string; st_domain : string; st_link : string;
  st_action : string }.

Definition get_json_data (e : req) (s : Cloud) (i : Z) (I : Instance) : status_json :=
  let lj := get_instance_lastjob s i in
  mkStatus (i_status I)
    (match lj with Some (_, j) => j_status j | None => 0 end)
    (fst <$> lj)
    (match lj with Some (_, j) => completed j | None => false end)
    (vdi_ip s I) (work_ip I) (i_domain s i)
    (if is_running I && negb (String.eqb (work_ip I) "")
     then home_url s (cur e) true i I else work_ip I)
    (i_action I).

(** What one check answers: the data, a new check after some seconds, or
    nothing for an instance that is gone (the request then stays open). *)
Inductive check_result := Answer (st : status_json) | Again (seconds : Z) | Abandon.

Definition INSTANCE_S_UP_INTER_1 := 3.
Definition INSTANCE_S_UP_INTER_2 := 6.

Definition check_status (e : req) (s : Cloud) (closed : bool) (i old_is old_js : Z) :
    check_result :=
  if closed then Abandon else
  match row (A := Instance) s i with
  | None => Abandon
  | Some ins =>
      let lastjob := get_instance_lastjob s i in
      if negb (old_is =? i_status ins) ||
         match lastjob with Some (_, j) => negb (old_js =? j_status j) | None => false end
      then Answer (get_json_data e s i ins)
      else match lastjob with
           | Some (_, j) => if completed j then Again INSTANCE_S_UP_INTER_2
                            else Again INSTANCE_S_UP_INTER_1
           | None => Again INSTANCE_S_UP_INTER_2
           end
  end.

Definition SingleInstanceStatus_post (e : req) (s : Cloud) (closed : bool) :
    option check_result :=
  match get_argument_int e "id" None with
  | Some i => if i =? 0 then None else
      Some (check_status e s closed i (default 0 (get_argument_int e "is" (Some 0)))
              (default 0 (get_argument_int e "js" (Some 0))))
  | None => None
  end.

(** ** What a job request leaves alone *)

(** The columns of an instance the accounts depend on. *)
Definition core_of (I : Instance) : Z * Z * Z * Z :=
  (i_user_id I, i_cpus I, i_memory I, i_status I).
Definition core (s : Cloud) : gmap Z (Z * Z * Z * Z) := core_of <$> rows (c_instances s).

Lemma core_put s i I I' :
  row s i = Some I → core_of I' = core_of I →
  core (set_tbl (tput i I' (tbl s)) s) = core s.
Proof.
  intros H E. unfold core. simpl. rewrite fmap_insert, E. apply insert_id.
  rewrite lookup_fmap. unfold row in H. simpl in H. by rewrite H.
Qed.

Lemma frozen_core_modify i g :
  (∀ I, core_of (g I) = core_of I) → keeps (frozen core) (modify i g).
Proof.
  intros Hg. apply keeps_modify; [apply _|]. intros s c o I HI.
  split; [by eapply core_put|by left].
Qed.

Lemma update_network_core now s i I I' :
  update_network now s i I = Some I' → core_of I' = core_of I.
Proof.
  unfold update_network. destruct (match i_get _ _ _ with JObj _ => _ | _ => _ end); [|done].
  cbn [mbind option_bind]. destruct (foldl _ _ _) as [[[n ns] d]|]; [|done].
  cbn [mbind option_bind]. intros [= <-]. simpl. by destruct (is_running _).
Qed.

Lemma frozen_core_update_network e i : keeps (frozen core) (do_update_network e i).
Proof.
  intros w. unfold do_update_network, fetch, ask, mbind, Web_bind. simpl.
  destruct (row (work w) i) as [I|] eqn:E; [|done]. simpl.
  destruct (update_network _ _ _ _) as [I'|] eqn:EU; [|done].
  split; [|by left]. simpl. eapply core_put; [done|]. by eapply update_network_core.
Qed.

Lemma frozen_update_network {X} (f : Cloud → X) e i :
  (∀ (t : table Instance) s, f (set_tbl t s) = f s) →
  keeps (frozen f) (do_update_network e i).
Proof. intros Hf. unfold do_update_network. frozen_auto. by apply frozen_put. Qed.

Lemma update_storage_core now s i I : core_of (update_storage now s i I) = core_of I.
Proof.
  unfold update_storage, i_delete. destruct (storages_of s i); [|done].
  by destruct (conf_delete _ _).
Qed.
#[export] Hint Resolve frozen_core_modify frozen_core_update_network : ly.
#[export] Hint Extern 4 (core_of _ = core_of _) => (apply update_storage_core || reflexivity) : ly.

(** Everything a run reads besides the instances: the tables of jobs, resources
    and profiles. *)
Definition accounts (s : Cloud) : table Job * table Resource * table UserProfile :=
  (c_jobs s, c_resources s, c_profiles s).

Lemma frozen_binding {X} (f : Cloud → X) e i :
  keeps (frozen f) (do_update_network (rq e) i) → keeps (frozen f) (binding_domain e i).
Proof.
  intros H. unfold binding_domain, instance_domain_binding. frozen_auto; by apply H.
Qed.

Lemma frozen_set_root_passwd {X} (f : Cloud → X) e i :
  (∀ v, keeps (frozen f) (modify i (i_set (now e) "passwd_hash" v))) →
  keeps (frozen f) (set_root_passwd e i).
Proof.
  intros H. unfold set_root_passwd, profile_of_user. frozen_auto; by apply H.
Qed.

Lemma prepare_run_core e i : keeps (frozen core) (prepare_run e i).
Proof.
  unfold prepare_run, do_update_storage.
  frozen_auto; first [apply frozen_set_root_passwd; intros ? | idtac];
    apply frozen_core_modify; intros ?; by auto with ly.
Qed.

Lemma prepare_run_accounts e i : keeps (frozen accounts) (prepare_run e i).
Proof.
  unfold prepare_run, do_update_storage.
  frozen_auto; apply frozen_set_root_passwd; intros ?; by apply frozen_modify.
Qed.

(** ** The accounts of a run *)

(** CPU or memory (the column [f]) a user's instances hold: running, or about
    to change under a job that has not ended. *)
Definition pending_total (f : Instance → Z) (s : Cloud) (u : Z) : Z :=
  total (λ k I, if (i_user_id I =? u) && job_pending s k then f I else 0) (c_instances s).
Definition reserved (f : Instance → Z) (s : Cloud) (u : Z) : Z :=
  total (λ k I, if (i_user_id I =? u) && (is_running I || job_pending s k) then f I else 0)
    (c_instances s).

Lemma waits_sums s u : waits s u = (pending_total i_cpus s u, pending_total i_memory s u).
Proof.
  assert (∀ f, pending_total f s u =
    sum_list_Z (λ p, if job_pending s p.1 then f p.2 else 0) (instances_of s u)) as Hf.
  { intros f. unfold instances_of, pending_total.
    rewrite (sum_select (λ _ I, i_user_id I =? u) (λ k I, if job_pending s k then f I else 0)).
    apply total_ext. intros k I _. by destruct (_ =? _), (job_pending s k). }
  rewrite !Hf. unfold waits.
  assert (∀ l a b, foldl (λ w xi, if job_pending s (fst xi)
        then (w.1 + i_cpus xi.2, w.2 + i_memory xi.2) else w) (a, b) (l : list (Z * Instance)) =
      (a + sum_list_Z (λ p, if job_pending s p.1 then i_cpus p.2 else 0) l,
       b + sum_list_Z (λ p, if job_pending s p.1 then i_memory p.2 else 0) l)) as Hl.
  { induction l as [|x l IH]; intros a b; simpl; [f_equal; lia|].
    destruct (job_pending s x.1); rewrite IH; f_equal; lia. }
  rewrite Hl. f_equal; lia.
Qed.

Lemma reserved_le f s u :
  (∀ k I, row s k = Some I → 0 ≤ f I) →
  reserved f s u ≤ running_total f s u + pending_total f s u.
Proof.
  intros Hf. unfold reserved, running_total, pending_total. rewrite <- total_add.
  apply total_le. intros k I HI. specialize (Hf k I HI).
  destruct (_ =? _), (is_running I), (job_pending s k); simpl; lia.
Qed.

(** *** Jobs *)

Definition targets (i : Z) (j : Job) : bool :=
  (j_target_type j =? JOB_TARGET_INSTANCE) && (j_target_id j =? i).

Lemma lastjob_insert s s' j k :
  c_jobs s' = (tinsert j (c_jobs s)).2 → seq_ok (c_jobs s) →
  get_instance_lastjob s' k =
    if targets k j then Some (seq (c_jobs s) + 1, j) else get_instance_lastjob s k.
Proof.
  intros E Hok. unfold get_instance_lastjob, select. simpl tbl. rewrite E.
  rewrite listing_insert by done. rewrite filter_app. fold (targets k).
  change (λ p : Z * Job, (j_target_type p.2 =? JOB_TARGET_INSTANCE) && (j_target_id p.2 =? k)
    = true) with (λ p : Z * Job, targets k p.2 = true).
  rewrite filter_cons, filter_nil. case_decide as E'; simpl in E'.
  - rewrite E'. by rewrite last_snoc.
  - apply not_true_is_false in E'. by rewrite E', app_nil_r.
Qed.

Lemma run_job_success e u i action w w' :
  run_job e u i action w = (Val None, w') →
  c_jobs (work w') =
    (tinsert (new_job u JOB_TARGET_INSTANCE i action (now e)) (c_jobs (work w))).2 ∧
  core (work w') = core (work w) ∧ c_resources (work w') = c_resources (work w) ∧
  c_profiles (work w') = c_profiles (work w) ∧
  job_blocked (now e) action (get_instance_lastjob (work w) i) = None ∧
  ∃ jid, NotifyJob jid ∈ outs w' ∧ row (comm w') jid =
    Some (new_job u JOB_TARGET_INSTANCE i action (now e)).
Proof.
  intros H. unfold run_job in H. rewrite run_ask in H.
  destruct (job_blocked _ _ _) eqn:Eb; [done|].
  web_run_in H. unfold job_notify in H.
  destruct (notify_ok e); web_run_in H; [|done].
  web_load H; [|done].
  set (s1 := set_tbl (tinsert _ _).2 _) in *.
  assert (work w' = s1 ∧ comm w' = s1 ∧
          NotifyJob (seq (tbl (A := Job) (work w)) + 1) ∈ outs w') as (-> & -> & Ho).
  { destruct (u =? _); web_run_in H; [by simplify_eq; set_solver|].
    unfold instance_control_notice, sendmsg in H. web_load H; [|done].
    destruct (clc_up e); web_run_in H; simplify_eq; set_solver. }
  split_and!; try done. eexists. split; [exact Ho|]. apply row_insert.
Qed.

(** A sum over the instances depends on their core columns only. *)
Definition on_core (f : Instance → Z) : Prop :=
  ∃ F, ∀ I, f I = F (core_of I).

Lemma is_running_core : ∃ F, ∀ I, is_running I = F (core_of I).
Proof. by exists (λ c, bool_decide (c.2 ∈ [3; 4; 5])). Qed.

Lemma total_core f (pend : Z → bool) s s' u :
  on_core f → core s' = core s →
  total (λ k I, if (i_user_id I =? u) && (is_running I || pend k) then f I else 0)
    (c_instances s') =
  total (λ k I, if (i_user_id I =? u) && (is_running I || pend k) then f I else 0)
    (c_instances s).
Proof.
  intros [F HF] E. destruct is_running_core as [Rn HR].
  set (G k (c : Z * Z * Z * Z) :=
    if (c.1.1.1 =? u) && (Rn c || pend k) then F c else 0).
  assert (∀ k I, (if (i_user_id I =? u) && (is_running I || pend k) then f I else 0) =
                 G k (core_of I)) as HG by (intros k I; unfold G; by rewrite HF, HR).
  rewrite !(total_fmap core_of _ G) by apply HG.
  unfold core in E. by rewrite E.
Qed.

(** The job of a run makes its own instance pending and no other. *)
Lemma job_pending_insert s s' u i a now k :
  c_jobs s' = (tinsert (new_job u JOB_TARGET_INSTANCE i a now) (c_jobs s)).2 →
  seq_ok (c_jobs s) → job_pending s' k = (k =? i) || job_pending s k.
Proof.
  intros E Hok. unfold job_pending. rewrite (lastjob_insert _ _ _ k E Hok).
  unfold targets. simpl. rewrite Z.eqb_sym. by destruct (k =? i).
Qed.

Lemma reserved_after f s s' u o i a now I :
  on_core f → core s' = core s → seq_ok (c_jobs s) →
  c_jobs s' = (tinsert (new_job u JOB_TARGET_INSTANCE i a now) (c_jobs s)).2 →
  row s i = Some I → (∀ k J, row s k = Some J → 0 ≤ f J) →
  reserved f s' o ≤ reserved f s o + f I.
Proof.
  intros Hf Hc Hok Hj HI Hn. unfold reserved. rewrite (total_core f _ s s') by done.
  rewrite <- (total_single (c_instances s) i I (f I) HI), <- total_add.
  apply total_le. intros k J HJ. rewrite (job_pending_insert _ _ _ _ _ _ k Hj Hok).
  pose proof (Hn k J HJ). pose proof (Hn i I HI).
  destruct (decide (k = i)) as [->|Hne].
  - assert (J = I) as -> by (unfold row in HI; simpl in HI; congruence).
    rewrite Z.eqb_refl. destruct (_ =? o), (is_running I), (job_pending s i); simpl; lia.
  - rewrite (proj2 (Z.eqb_neq k i)) by done. simpl. lia.
Qed.

Lemma get_resource_total_resources now s s' p :
  c_resources s' = c_resources s → get_resource_total now s' p = get_resource_total now s p.
Proof. intros E. unfold get_resource_total, resources_of, select. simpl tbl. by rewrite E. Qed.

Lemma lastjob_jobs s s' k :
  c_jobs s' = c_jobs s → get_instance_lastjob s' k = get_instance_lastjob s k.
Proof. intros E. unfold get_instance_lastjob, select. simpl tbl. by rewrite E. Qed.

(** The run handler up to the point where it asks for a job. *)
Lemma run_success e u i w msg w' :
  run e u i w = (Val (0, msg), w') →
  ∃ I pid p,
    row (work w) i = Some I ∧ profile_of (work w) (i_user_id I) = Some (pid, p) ∧
    let t := get_resource_total (now (rq e)) (work w) p in
    let d := get_resource_used (work w) (pf_user_id p) in
    let wt := waits (work w) (i_user_id I) in
    i_cpus I ≤ cpu t - cpu d - wt.1 ∧ i_memory I ≤ memory t - memory d - wt.2 ∧
    is_running I = false ∧
    c_jobs (comm w') =
      (tinsert (new_job u JOB_TARGET_INSTANCE i RUN_INSTANCE (now (rq e)))
         (c_jobs (work w))).2 ∧
    core (comm w') = core (work w) ∧ c_resources (comm w') = c_resources (work w) ∧
    comm w' = work w' ∧
    job_blocked (now (rq e)) RUN_INSTANCE (get_instance_lastjob (work w) i) = None.
Proof.
  unfold run, profile_of_user. intros H. web_load H; [|done].
  destruct (waits _ _) as [cw mw] eqn:Ew. web_run_in H.
  destruct (profile_of (work w) (i_user_id i0)) as [[pid p]|] eqn:Ep; web_run_in H; [|done].
  destruct (comparable _ _ _ _); [web_run_in H|done].
  destruct (negb _) eqn:Ec; [done|]. destruct (is_running i0) eqn:Er; [done|].
  bool_prop.
  apply bind_Val in H as (? & w1 & Hp & H). web_run_in H.
  pose proof (keeps_run _ _ _ _ _ (prepare_run_core e i) Hp) as [C1 _].
  pose proof (keeps_run _ _ _ _ _ (prepare_run_accounts e i) Hp) as [A1 _].
  apply bind_Val in H as (ret & w2 & Hr & H).
  apply bind_Val in H as (? & w3 & Hb & H). web_run_in H.
  destruct ret as [m|]; [done|]. simplify_eq/=.
  apply run_job_success in Hr as (J2 & C2 & R2 & _ & B2 & _). simpl in *.
  pose proof (keeps_run _ _ _ _ _ (frozen_binding core e i
    (frozen_core_update_network _ i)) Hb) as [C3 _].
  pose proof (keeps_run _ _ _ _ _ (frozen_binding accounts e i
    (frozen_update_network accounts _ i ltac:(done))) Hb) as [A3 _].
  assert (comm w' = work w') as ->.
  { unfold binding_domain in Hb. apply bind_Val in Hb as (? & w4 & _ & Hb).
    apply bind_Val in Hb as (? & w5 & _ & Hb). web_run_in Hb. by simplify_eq/=. }
  unfold accounts in *. simplify_eq.
  assert (c_jobs (work w1) = c_jobs (work w)) as E1 by congruence.
  rewrite (lastjob_jobs _ _ i E1) in B2.
  exists i0, pid, p. rewrite Ew. split_and!; try done; congruence.
Qed.

(** ** Setting attributes *)

Definition permitted (s : Cloud) (u : Z) (I : Instance) : bool :=
  (u =? i_user_id I) || user_has s "admin" u.

Definition denied (s : Cloud) (u k : Z) : bool :=
  match row (A := Instance) s k with Some x => negb (permitted s u x) | None => true end.

Lemma user_has_tbl {A} `{HasTable Cloud A} (t : table A) s perm u
    `{!Indep Cloud A User, !Indep Cloud A Group, !Indep Cloud A Permission} :
  user_has (set_tbl t s) perm u = user_has s perm u.
Proof.
  unfold user_has. rewrite row_other. destruct (row s u); [|done].
  induction (u_groups u0) as [|g l IH]; simpl; [done|]. rewrite IH. f_equal.
  unfold group_has. rewrite row_other. destruct (row s g); [|done].
  induction (g_permissions g0) as [|x l' IH']; simpl; [done|]. by rewrite IH', row_other.
Qed.

Definition priv_value (value : string) : option bool :=
  if String.eqb value "true" then Some true
  else if String.eqb value "false" then Some false else None.

(** The rows after the loop, and what it answers for each id. *)
Definition attr_row (s : Cloud) (u : Z) (b : bool) (ids : list Z) (k : Z) : option Instance :=
  (λ I : Instance, if bool_decide (k ∈ ids) && permitted s u I then I <| i_isprivate := b |> else I)
    <$> row s k.

Lemma set_isprivate_val value b i w I :
  priv_value value = Some b → row (work w) i = Some I →
  set_isprivate value i w =
    (Val tt, mkWorld (set_tbl (tput i (I <| i_isprivate := b |>) (tbl (work w))) (work w))
       (comm w) (outs w)).
Proof.
  unfold priv_value, set_isprivate. intros Hv HI.
  destruct (String.eqb value "true"); [|destruct (String.eqb value "false")]; simplify_eq;
    rewrite modify_val, HI; done.
Qed.

Lemma attr_loop e u value b ids : ∀ w,
  cur e = Some u → priv_value value = Some b →
  ∃ rs t, mapM (attr_one e u value) ids w =
      (Val rs, mkWorld (set_tbl (A := Instance) t (work w)) (comm w) (outs w)) ∧
    (∀ k, row (set_tbl t (work w)) k = attr_row (work w) u b ids k) ∧
    rs = (λ k, (k, denied (work w) u k)) <$> ids.
Proof.
  induction ids as [|i ids IH]; intros w Hu Hv.
  - exists [], (tbl (work w)). split_and!; [|..|done].
    + unfold mapM. rewrite ret_val. destruct w as [[] c o]. done.
    + intros k. rewrite row_same. unfold attr_row. autorewrite with ly_simpl.
      simpl. by rewrite option_fmap_id.
  - assert (∃ t1, attr_one e u value i w =
        (Val (i, denied (work w) u i),
         mkWorld (set_tbl (A := Instance) t1 (work w)) (comm w) (outs w)) ∧
        (∀ k, row (set_tbl t1 (work w)) k = attr_row (work w) u b [i] k)) as (t1 & E1 & R1).
    { unfold attr_one. web_run. unfold has_permission. rewrite Hu.
      assert (w = mkWorld (set_tbl (tbl (A := Instance) (work w)) (work w)) (comm w) (outs w))
        as Hw by (by destruct w as [[] c o]).
      destruct (row (work w) i) as [I|] eqn:HI.
      2: { exists (tbl (work w)). web_run. rewrite <- Hw. split; [unfold denied; by rewrite HI|]. intros k.
           rewrite row_same. unfold attr_row.
           destruct (decide (k = i)) as [->|Hk]; [by rewrite HI|].
           autorewrite with ly_simpl. rewrite (proj2 (Z.eqb_neq k i)) by done. simpl. by rewrite option_fmap_id. }
      web_run. destruct ((u =? i_user_id I) || _) eqn:Ep.
      - exists (tput i (I <| i_isprivate := b |>) (tbl (work w))).
        rewrite (run_bind _ _ _ _ _ (set_isprivate_val value b i w I Hv HI)). web_run.
        split; [unfold denied, permitted; by rewrite HI, Ep|]. intros k. unfold attr_row. rewrite row_put. case_decide as Hk.
        + subst k. rewrite HI. simpl. autorewrite with ly_simpl. simpl.
          unfold permitted. by rewrite Ep.
        + autorewrite with ly_simpl. rewrite (proj2 (Z.eqb_neq k i)) by done. simpl. by rewrite option_fmap_id.
      - exists (tbl (work w)). web_run. rewrite <- Hw.
        split; [unfold denied, permitted; by rewrite HI, Ep|]. intros k.
        rewrite row_same. unfold attr_row.
        destruct (decide (k = i)) as [->|Hk].
        + rewrite HI. simpl. unfold permitted. by rewrite Ep, andb_false_r.
        + autorewrite with ly_simpl. rewrite (proj2 (Z.eqb_neq k i)) by done. simpl. by rewrite option_fmap_id. }
    set (w1 := mkWorld (set_tbl t1 (work w)) (comm w) (outs w)) in *.
    destruct (IH w1 Hu Hv) as (rs & t & E & R & Hrs).
    exists ((i, denied (work w) u i) :: rs), t.
    assert (∀ I, permitted (work w1) u I = permitted (work w) u I) as Hperm
      by (intros I; unfold permitted; change (work w1) with (set_tbl t1 (work w));
          by rewrite user_has_tbl).
    split_and!.
    + simpl. rewrite (run_bind _ _ _ _ _ E1), (run_bind _ _ _ _ _ E), ret_val.
      by destruct w as [[] c o].
    + intros k. transitivity (row (A := Instance) (set_tbl t (work w1)) k); [by destruct w as [[] c o]|].
      rewrite R. unfold attr_row. change (work w1) with (set_tbl t1 (work w)) at 2.
      rewrite R1. unfold attr_row.
      destruct (row (work w) k) as [I|]; [|done]. simpl. f_equal. rewrite !Hperm.
      autorewrite with ly_simpl.
      destruct (permitted (work w) u I) eqn:Ep; unfold permitted in Ep |- *;
        destruct (k =? i), (bool_decide (k ∈ ids)); simpl; rewrite ?Ep; simpl; by rewrite ?Ep.
    + rewrite Hrs. simpl. f_equal. apply list_fmap_ext. intros n k _. f_equal.
      unfold denied. change (row (work w1) k) with (row (A := Instance) (set_tbl t1 (work w)) k).
      rewrite R1. unfold attr_row. destruct (row (work w) k) as [I|]; [|done]. simpl.
      rewrite Hperm. by destruct (bool_decide _ && _).
Qed.

(** ** Whom a job may be for *)

Definition auth (s : Cloud) : table User * table Group * table Permission :=
  (c_users s, c_groups s, c_permissions s).

(** The new jobs of a session that started from [s0] are for instances that
    [u] owns, or any when [u] is an administrator. *)
Definition jobs_allowed (s0 : Cloud) (u : Z) (s : Cloud) : Prop :=
  auth s = auth s0 ∧ core s = core s0 ∧
  ∀ jid j, row s jid = Some j → row (A := Job) s0 jid = None →
    ∃ I, row s0 (j_target_id j) = Some I ∧ permitted s0 u I = true.

Lemma jobs_allowed_other {A} `{HasTable Cloud A} s0 u s (t : table A) :
  auth (set_tbl t s) = auth s → core (set_tbl t s) = core s →
  c_jobs (set_tbl t s) = c_jobs s →
  jobs_allowed s0 u s → jobs_allowed s0 u (set_tbl t s).
Proof.
  intros E1 E2 E3 (H1 & H2 & H3). split_and!; [congruence..|].
  intros jid j. unfold row at 1. simpl tbl. rewrite E3. apply H3.
Qed.

Section allowed.
Context (s0 : Cloud) (u : Z).
Abbreviation R := (inv_rel (jobs_allowed s0 u)).

Lemma allowed_commit : keeps R commit.
Proof. intros [s c o]. by intros H _. Qed.
Lemma allowed_emit e : keeps R (emit e).
Proof. intros [s c o]. by intros H1 H2. Qed.

Lemma allowed_core_modify i g :
  (∀ I, core_of (g I) = core_of I) → keeps R (modify (A := Instance) i g).
Proof.
  intros Hg. apply keeps_modify; [apply _|]. intros s c o I HI Hs Hc. split; [|done].
  apply jobs_allowed_other; try done. by apply core_put with I.
Qed.

Lemma allowed_update_network e i : keeps R (do_update_network e i).
Proof.
  intros w Hw Hc. unfold do_update_network. web_run.
  destruct (row (work w) i) as [I|] eqn:E; [|done]. web_run.
  destruct (update_network _ _ _ _) as [I'|] eqn:EU; [|done]. split; [|done].
  apply (jobs_allowed_other s0 u (work w)); try done.
  apply core_put with I; [done|]. by eapply update_network_core.
Qed.

Lemma allowed_job_status jid st :
  keeps R (modify jid (λ j : Job, j <| j_status := st |>)).
Proof.
  apply keeps_modify; [apply _|]. intros s c o j Hj (H1 & H2 & H3) Hc. split; [|done]. cbn [work].
  split_and!; [done..|]. intros k j'. rewrite row_put. case_decide as E.
  - intros [= <-] Hn. subst k. by apply (H3 jid j).
  - apply H3.
Qed.

Lemma allowed_add_job i a now I :
  row s0 i = Some I → permitted s0 u I = true →
  keeps R (add_row (new_job u JOB_TARGET_INSTANCE i a now)).
Proof.
  intros HI Hp. apply keeps_add; [apply _|]. intros s c o (H1 & H2 & H3) Hc. split; [|done].
  split_and!; [done..|]. intros k j'. cbn [work]. intros [[-> ->]|[Hk Hj]]%row_insert_inv Hn; [eauto|].
  by apply (H3 k j').
Qed.

Lemma allowed_trace T : keeps R (add_row (T : LyTrace)).
Proof.
  apply keeps_add; [apply _|]. intros s c o Hs Hc. split; [|done].
  by apply jobs_allowed_other.
Qed.

Lemma allowed_ask {A B} (f : Cloud → A) (k : A → Web Cloud B) :
  (∀ s, jobs_allowed s0 u s → keeps R (k (f s))) → keeps R (ask f ≫= k).
Proof. intros H w Hw Hc. web_run. by apply H. Qed.

#[local] Hint Resolve allowed_commit allowed_emit allowed_core_modify allowed_update_network
  allowed_job_status allowed_trace : ly.
#[local] Hint Extern 4 (core_of _ = core_of _) => (apply update_storage_core || reflexivity) : ly.

Ltac allowed_auto := repeat first [solve [eauto with ly] | keeps_step].

Lemma allowed_run_job e i a I :
  row s0 i = Some I → permitted s0 u I = true → keeps R (run_job e u i a).
Proof.
  intros HI Hp. unfold run_job, job_notify, instance_control_notice, sendmsg.
  allowed_auto. by eapply allowed_add_job.
Qed.

Lemma allowed_callback e action i I :
  row s0 i = Some I → permitted s0 u I = true → keeps R (callback e action u i).
Proof.
  intros HI Hp. pose proof (λ e a, allowed_run_job e i a I HI Hp).
  unfold callback, run, stop, query, prepare_run, set_root_passwd, do_update_storage,
    profile_of_user, binding_domain, unbinding_domain, instance_domain_binding,
    instance_domain_unbinding. allowed_auto.
Qed.

(** An instance that [get_instance] lets through is the user's, or the user is
    an administrator. *)
Lemma user_has_auth s s' perm : auth s = auth s' → user_has s perm u = user_has s' perm u.
Proof.
  unfold auth. intros [= Hus Hgr Hpe]. unfold user_has, row. simpl tbl. rewrite Hus.
  destruct (rows (c_users s') !! u); [|done].
  induction (u_groups u0) as [|g l IH]; simpl; [done|]. rewrite IH. f_equal.
  unfold group_has, row. simpl tbl. by rewrite Hgr, Hpe.
Qed.

Lemma get_instance_permitted e s i k :
  cur e = Some u → jobs_allowed s0 u s → get_instance e s i = inr k →
  k = i ∧ ∃ I, row s0 i = Some I ∧ permitted s0 u I = true.
Proof.
  intros Hu (Ha & Hc & _). pose proof (user_has_auth s s0 "admin" Ha) as Hadm.
  unfold get_instance.
  destruct (row s i) as [I|] eqn:HI; [|done]. intros H.
  assert (core s !! i = Some (core_of I)) as Hi.
  { unfold core. rewrite lookup_fmap. unfold row in HI. simpl in HI. by rewrite HI. }
  rewrite Hc in Hi. unfold core in Hi. rewrite lookup_fmap in Hi.
  destruct (rows (c_instances s0) !! i) as [I0|] eqn:HI0; [|done].
  simpl in Hi. injection Hi as E1 _ _ _.
  destruct (i_status I =? _); [done|].
  destruct (bool_decide _) eqn:Eo; [|destruct (has_permission e s "admin") eqn:Eh; [|done]];
    simplify_eq; (split; [done|]; exists I0; split; [done|]);
    unfold permitted; rewrite E1; apply orb_true_iff.
  - left. apply Z.eqb_eq. bool_prop. congruence.
  - right. unfold has_permission in Eh. rewrite Hu in Eh. by rewrite <- Hadm.
Qed.

Lemma allowed_LifeControl e : cur (rq e) = Some u → keeps R (LifeControl_post e).
Proof.
  intros Hu. unfold LifeControl_post, authenticated. rewrite Hu.
  assert (∀ a l, keeps R (mapM (control_one e a u) l)) as Hm.
  { intros a l. induction l as [|x l IH]; simpl; allowed_auto.
    unfold control_one. destruct (py_int x) as [i|]; [|allowed_auto].
    apply allowed_ask. intros s Hs.
    destruct (get_instance _ s i) as [m|k] eqn:Eg; allowed_auto.
    destruct (get_instance_permitted (rq e) s i k Hu Hs Eg) as (-> & I & HI & Hp).
    by eapply allowed_callback. }
  allowed_auto; apply Hm.
Qed.
End allowed.

(** ** Deleting an instance *)

Lemma frozen_run_job {X} (f : Cloud → X) e u i a :
  (∀ (t : table Job) s, f (set_tbl t s) = f s) → keeps (frozen f) (run_job e u i a).
Proof.
  intros Hf. unfold run_job, job_notify, instance_control_notice, sendmsg.
  frozen_auto; first [by apply frozen_add | by apply frozen_modify].
Qed.

Lemma frozen_add_trace {X} (f : Cloud → X) e ty i msg :
  (∀ (t : table LyTrace) s, f (set_tbl t s) = f s) → keeps (frozen f) (add_trace e ty i msg).
Proof. intros Hf. unfold add_trace. frozen_auto. by apply frozen_add. Qed.

Lemma frozen_unbinding {X} (f : Cloud → X) e i :
  keeps (frozen f) (do_update_network (rq e) i) → keeps (frozen f) (unbinding_domain e i).
Proof. intros H. unfold unbinding_domain, instance_domain_unbinding. frozen_auto; by apply H. Qed.

(** The tables a deletion releases rows of. *)
Definition holdings (s : Cloud) :
    table IPPool * table PortMapping * table UserDomain * table Storage :=
  (c_ips s, c_ports s, c_domains s, c_storages s).

Definition ip_free (i k : Z) (s : Cloud) : Prop :=
  ∀ P, row s k = Some P → ip_instance_id P ≠ Some i.
Definition port_free (ip : Z) (s : Cloud) : Prop :=
  ∀ p P, row s p = Some P → pm_ip_id P ≠ Some ip.

Lemma ips_of_nil s i : (∀ k, ip_free i k s) → ips_of s i = [].
Proof.
  intros H. unfold ips_of. destruct (select _ s) as [|[k P] l] eqn:E; [done|].
  assert ((k, P) ∈ select (λ _ P, bool_decide (ip_instance_id P = Some i)) s) as Hin
    by (rewrite E; by left).
  apply elem_of_select in Hin as [Hr Hb]. bool_prop. by destruct (H k P Hr).
Qed.

Lemma free_port_effect p w w' u :
  free_port p w = (Val u, w') →
  ∃ P, row (work w) p = Some P ∧
    work w' = set_tbl (tput p (P <| pm_ip_id := None |> <| pm_ip_port := None |>)
                         (tbl (work w))) (work w).
Proof.
  unfold free_port. rewrite modify_val.
  destruct (row (work w) p) as [P|]; [|done]. intros [= _ <-]. eauto.
Qed.

Lemma port_free_step ip p w u w' :
  free_port p w = (Val u, w') → port_free ip (work w) → port_free ip (work w').
Proof.
  intros (P & HP & ->)%free_port_effect H q Q. rewrite row_put. case_decide.
  - by intros [= <-].
  - apply H.
Qed.

(** [free_ip] unbinds the address and frees the ports mapped to it, and binds
    nothing. *)
Lemma free_ip_effect e ip w u w' :
  free_ip e ip w = (Val u, w') →
  (∀ i, ip_free i ip (work w')) ∧ port_free ip (work w') ∧
  (∀ i k, ip_free i k (work w) → ip_free i k (work w')) ∧
  (∀ k, port_free k (work w) → port_free k (work w')).
Proof.
  unfold free_ip. rewrite run_ask. intros (v & w1 & Hl & Hm)%bind_Val.
  rewrite modify_val in Hm. destruct (row (work w1) ip) as [P|] eqn:HP; [|done].
  assert (work w' = set_tbl (tput ip (P <| ip_instance_id := None |>
    <| ip_updated := now e |>) (tbl (work w1))) (work w1)) as -> by by simplify_eq.
  clear Hm.
  assert (∀ k, port_free k (work w) → port_free k (work w1)) as Hst.
  { intros k. eapply (for_each_stable (port_free k)); [|exact Hl].
    intros x w2 v2 w3 _. apply port_free_step. }
  assert (c_ips (work w1) = c_ips (work w)) as Eips.
  { eapply frozen_run; [|exact Hl]. unfold free_port. frozen_auto. }
  assert (port_free ip (work w1)) as Hp.
  { intros q Q HQ Hq.
    assert (∀ x, x ∈ ports_of_ip (work w) ip → ∀ Q, row (work w1) x.1 = Some Q →
      pm_ip_id Q ≠ Some ip) as Hall.
    { eapply (for_each_all (λ x s, ∀ Q, row s x.1 = Some Q → pm_ip_id Q ≠ Some ip)); [..|exact Hl].
      - intros x w2 v2 w3 _ (P' & _ & ->)%free_port_effect Q'. rewrite row_put_eq.
        by intros [= <-].
      - intros x y w2 v2 w3 _ (P' & _ & ->)%free_port_effect H Q'. rewrite row_put.
        case_decide; [by intros [= <-]|apply H]. }
    assert (∀ w2 v2, for_each (ports_of_ip (work w) ip) (λ p, free_port p.1) w2 = (Val v2, w1) →
      (∀ Q, row (work w2) q = Some Q → pm_ip_id Q ≠ Some ip) → False) as Hno.
    { intros w2 v2 Hl2 H2. revert Hq. eapply (for_each_stable
        (λ s, ∀ Q, row s q = Some Q → pm_ip_id Q ≠ Some ip)); [|exact Hl2|done|done].
      intros x w3 v3 w4 _ (P' & _ & ->)%free_port_effect H Q'. rewrite row_put.
      case_decide; [by intros [= <-]|apply H]. }
    apply (Hno _ _ Hl). intros Q0 HQ0 E0.
    assert ((q, Q0) ∈ ports_of_ip (work w) ip) as Hin
      by (apply elem_of_select; split; [done|by apply bool_decide_eq_true]).
    by apply (Hall _ Hin Q). }
  unfold ip_free, port_free. split_and!.
  - intros i P'. rewrite row_put_eq. by intros [= <-].
  - intros q Q. rewrite row_other. apply Hp.
  - intros i k Hk P'. rewrite row_put. case_decide; [by intros [= <-]|].
    unfold row. simpl tbl. rewrite Eips. apply Hk.
  - intros k Hk q Q. rewrite row_other. by apply Hst.
Qed.
Lemma delete_loop_empty A `{HasTable Cloud A} (P : Z → A → bool) (l : list (Z * A))
    (w : world Cloud) u (w' : world Cloud) :
  l = select P (work w) →
  for_each l (λ x, delete_row A x.1) w = (Val u, w') → select P (work w') = [].
Proof.
  intros -> Hl. destruct (select P (work w')) as [|[k x] r] eqn:E; [done|exfalso].
  assert ((k, x) ∈ select P (work w')) as [Hk HP]%elem_of_select by (rewrite E; by left).
  assert (row (A := A) (work w) k = Some x) as Hk0.
  { revert Hk. eapply (for_each_stable (λ s, row s k = Some x → row (work w) k = Some x));
      [|exact Hl|done].
    intros y w2 v2 w3 _ [= _ <-] IH. cbn [work]. rewrite row_delete. case_decide; [done|apply IH]. }
  assert (row (A := A) (work w') k = None) as Hn; [|by rewrite Hn in Hk].
  change k with ((k, x).1).
  eapply (for_each_all (λ y s, row (A := A) s y.1 = None)); [..|exact Hl|].
  - intros y w2 v2 w3 _ [= _ <-]. cbn [work]. rewrite row_delete. by rewrite decide_True.
  - intros y z w2 v2 w3 _ [= _ <-] Hz. cbn [work]. rewrite row_delete. by case_decide.
  - by apply elem_of_select.
Qed.

Lemma release_core e i : keeps (frozen core) (release_holdings e i).
Proof. unfold release_holdings, free_ip, free_port. frozen_auto. Qed.

Lemma release_holdings_effect e i w u w' :
  release_holdings e i w = (Val u, w') →
  ips_of (work w') i = [] ∧ domains_of (work w') i = [] ∧ storages_of (work w') i = [] ∧
  (∀ ip IP, row (work w) ip = Some IP → ip_instance_id IP = Some i → port_free ip (work w')).
Proof.
  unfold release_holdings. intros H. rewrite run_ask in H.
  apply bind_Val in H as (u1 & w1 & H1 & H). rewrite run_ask in H.
  apply bind_Val in H as (u2 & w2 & H2 & H). rewrite run_ask in H.
  apply bind_Val in H as (u3 & w3 & H3 & H). rewrite commit_val in H.
  assert (work w' = work w3) as -> by by simplify_eq. clear H.
  pose proof (delete_loop_empty UserDomain _ _ _ _ _ eq_refl H2) as Hd.
  pose proof (delete_loop_empty Storage _ _ _ _ _ eq_refl H3) as Hs.
  assert (∀ f : Cloud → table UserDomain, (∀ (t : table Storage) s, f (set_tbl t s) = f s) →
    f (work w3) = f (work w2)) as F3.
  { intros f Hf. eapply frozen_run; [|exact H3]. frozen_auto. by apply frozen_delete. }
  assert ((c_ips (work w3), c_ports (work w3)) = (c_ips (work w1), c_ports (work w1))) as F2.
  { transitivity (c_ips (work w2), c_ports (work w2)).
    - apply (frozen_run (λ s, (c_ips s, c_ports s)) _ _ _ _) in H3; [done|]. frozen_auto.
    - apply (frozen_run (λ s, (c_ips s, c_ports s)) _ _ _ _) in H2; [done|]. frozen_auto. }
  injection F2 as Fi Fp.
  assert (∀ k, ip_free i k (work w1)) as Hfree.
  { intros k. assert ((∃ P, row (work w) k = Some P ∧ ip_instance_id P = Some i) ∨
      ip_free i k (work w)) as [(P & HP & Hi)|Hno].
    { unfold ip_free. destruct (row (work w) k) as [P|]; [|by right].
      destruct (decide (ip_instance_id P = Some i)); [by left; eauto|].
      right. by intros P' [= <-]. }
    - change k with ((k, P).1).
      eapply (for_each_all (λ x s, ip_free i x.1 s)); [..|exact H1|].
      + intros x w4 v4 w5 _ Hx. destruct (free_ip_effect _ _ _ _ _ Hx) as (?&?&?&?); eauto.
      + intros x y w4 v4 w5 _ Hx. destruct (free_ip_effect _ _ _ _ _ Hx) as (?&?&?&?); eauto.
      + apply elem_of_select. split; [done|by apply bool_decide_eq_true].
    - eapply (for_each_stable (ip_free i k)); [|exact H1|].
      + intros x w4 v4 w5 _ Hx. destruct (free_ip_effect _ _ _ _ _ Hx) as (?&?&?&?); eauto.
      + done. }
  split_and!.
  - apply ips_of_nil. intros k. unfold ip_free, row. simpl tbl. rewrite Fi. apply Hfree.
  - unfold domains_of, select in *. simpl tbl in *. by rewrite (F3 c_domains).
  - done.
  - intros ip IP HI Hi p Q. unfold row. simpl tbl. rewrite Fp.
    assert (port_free ip (work w1)) as Hpf; [|by apply Hpf].
    change ip with ((ip, IP).1).
    eapply (for_each_all (λ x s, port_free x.1 s)); [..|exact H1|].
    + intros x w4 v4 w5 _ Hx. destruct (free_ip_effect _ _ _ _ _ Hx) as (?&?&?&?); eauto.
    + intros x y w4 v4 w5 _ Hx. destruct (free_ip_effect _ _ _ _ _ Hx) as (?&?&?&?); eauto.
    + apply elem_of_select. split; [done|by apply bool_decide_eq_true].
Qed.

(** The stages of a deletion that runs to its end: what precedes the release
    keeps the core columns and the addresses, what follows it keeps the core
    columns and everything the release wrote. *)
Lemma InstanceDelete_stages e u s i I w' :
  cur (rq e) = Some u → get_instance_byid (rq e) s = inr i →
  row s i = Some I → is_running I = false →
  InstanceDelete_post e (start s) = (Val tt, w') →
  ∃ s1 I1 s2 o w3,
    core s1 = core s ∧ c_ips s1 = c_ips s ∧ row s1 i = Some I1 ∧
    s2 = set_tbl (tput i (mark_deleted i I1) (tbl s1)) s1 ∧
    release_holdings (rq e) i (mkWorld s2 s2 o) = (Val tt, w3) ∧
    holdings (comm w') = holdings (work w3) ∧ core (comm w') = core s2.
Proof.
  intros Hu Hg HI Hr H. unfold InstanceDelete_post, authenticated in H.
  rewrite Hu in H. unfold start in H. web_run_in H. rewrite Hg in H. web_run_in H.
  rewrite HI, Hr in H.
  apply bind_Val in H as (? & w1 & Hub & H). web_run_in H.
  destruct (row (work w1) i) as [I1|] eqn:HI1; [|done]. web_run_in H.
  apply bind_Val in H as ([] & w3 & Hrel & H).
  apply bind_Val in H as (ret & w4 & Hjob & H).
  apply bind_Val in H as (? & w5 & Htr & H).
  assert (comm w' = work w5) as ->.
  { assert (comm w5 = work w5) as <-.
    { unfold add_trace in Htr. rewrite Hu in Htr. web_run_in Htr. by simplify_eq/=. }
    destruct (answer_of ret). web_run_in H. by simplify_eq/=. }
  eexists (work w1), I1, _, (outs w1), w3. split_and!.
  - eapply (frozen_run core) in Hub; [done|]. apply frozen_unbinding, frozen_core_update_network.
  - eapply (frozen_run c_ips) in Hub; [done|]. by apply frozen_unbinding, frozen_update_network.
  - done.
  - reflexivity.
  - exact Hrel.
  - transitivity (holdings (work w4)).
    + eapply frozen_run; [|exact Htr]. by apply frozen_add_trace.
    + eapply frozen_run; [|exact Hjob]. by apply frozen_run_job.
  - transitivity (core (work w4)).
    { eapply frozen_run; [|exact Htr]. by apply frozen_add_trace. }
    transitivity (core (work w3)).
    { eapply frozen_run; [|exact Hjob]. by apply frozen_run_job. }
    by apply (frozen_run core _ _ _ _ (release_core _ _)) in Hrel.
Qed.

Definition owners (s : Cloud) : gmap Z Z := i_user_id <$> rows (c_instances s).

Lemma owners_core s : owners s = (λ c, c.1.1.1) <$> core s.
Proof. unfold owners, core. by rewrite <- map_fmap_compose. Qed.

Lemma owners_mark s i I :
  row s i = Some I → owners (set_tbl (tput i (mark_deleted i I) (tbl s)) s) = owners s.
Proof.
  intros H. unfold owners. simpl. rewrite fmap_insert. apply insert_id.
  rewrite lookup_fmap. unfold row in H. simpl in H. by rewrite H.
Qed.

Lemma instance_count_owners s s' u :
  owners s = owners s' → instance_count s u = instance_count s' u.
Proof.
  intros E. unfold instance_count.
  rewrite !(total_fmap i_user_id _ (λ _ o, if o =? u then 1 else 0)) by done.
  unfold owners in E. by rewrite E.
Qed.

(** ** Properties *)

(** C1: running an instance respects the quota: when [run] answers success, the one
    change of the jobs is a new RUN job of the instance for the user of the request, not
    yet started, which is now the last job of the instance; the instance was not running;
    and with the job the CPU and memory of the owner's
    instances that run or have an unfinished job, the new one included, are
    within what the owner's profile and the resources in effect grant. *)
Theorem run_within_quota e u i w msg w' :
  run e u i w = (Val (0, msg), w') →
  seq_ok (c_jobs (work w)) →
  (∀ k J, row (A := Instance) (work w) k = Some J → 0 ≤ i_cpus J ∧ 0 ≤ i_memory J) →
  ∃ I pid p,
    row (work w) i = Some I ∧ profile_of (work w) (i_user_id I) = Some (pid, p) ∧
    reserved i_cpus (comm w') (i_user_id I) ≤
      cpu (get_resource_total (now (rq e)) (comm w') p) ∧
    reserved i_memory (comm w') (i_user_id I) ≤
      memory (get_resource_total (now (rq e)) (comm w') p) ∧
    is_running I = false ∧ job_pending (comm w') i = true ∧
    let J := mkJob u JOB_S_INITIATED JOB_TARGET_INSTANCE i RUN_INSTANCE (now (rq e)) in
    c_jobs (comm w') = (tinsert J (c_jobs (work w))).2 ∧
    get_instance_lastjob (comm w') i = Some (seq (c_jobs (work w)) + 1, J).
Proof.
  intros H Hok Hn.
  apply run_success in H
    as (I & pid & p & HI & Hp & Hc & Hm & Hr & Hj & Hcore & Hres & _ & _).
  exists I, pid, p. rewrite (get_resource_total_resources _ _ _ p Hres).
  rewrite waits_sums in Hc, Hm. simpl in Hc, Hm.
  assert (pf_user_id p = i_user_id I) as Hpu by (by eapply profile_of_owner).
  rewrite get_resource_used_sums, Hpu in Hc, Hm. simpl in Hc, Hm.
  assert (on_core i_cpus) as C1 by by exists (λ c, c.1.1.2).
  assert (on_core i_memory) as C2 by by exists (λ c, c.1.2).
  pose proof (reserved_after i_cpus _ _ u (i_user_id I) i _ _ I C1 Hcore Hok Hj HI
    (λ k J HJ, proj1 (Hn k J HJ))).
  pose proof (reserved_after i_memory _ _ u (i_user_id I) i _ _ I C2 Hcore Hok Hj HI
    (λ k J HJ, proj2 (Hn k J HJ))).
  pose proof (reserved_le i_cpus (work w) (i_user_id I) (λ k J HJ, proj1 (Hn k J HJ))).
  pose proof (reserved_le i_memory (work w) (i_user_id I) (λ k J HJ, proj2 (Hn k J HJ))).
  rewrite (job_pending_insert _ _ _ _ _ _ i Hj Hok), Z.eqb_refl.
  cbv zeta. split_and!; [done..|lia|lia|done|done|exact Hj|].
  rewrite (lastjob_insert _ _ _ i Hj Hok). unfold targets. cbn. by rewrite Z.eqb_refl.
Qed.

(** Setting an attribute is exact: for a request with value [true] or
    [false] the committed database differs from the old one only in the
    [isprivate] of the listed instances the user owns (or any listed instance,
    for an administrator), and the answer is success when every listed id was
    such an instance. The name given as [attr] makes no difference. *)
Theorem AttrSet_exact e u b s :
  cur e = Some u → get_argument e "attr" "" ≠ ""%string →
  priv_value (strip (lower (get_argument e "value" ""))) = Some b →
  let ids := get_int <$> split_on "," (get_argument e "id" "") in
  ∃ t, request (AttrSet_post e) s =
    (set_tbl (A := Instance) t s,
     [WriteCode (if existsb (denied s u) ids then 1 else 0) "attr_set"]) ∧
    ∀ k, row (set_tbl t s) k = attr_row s u b ids k.
Proof.
  intros Hu Ha Hv ids.
  destruct (attr_loop e u _ b ids (start s) Hu Hv) as (rs & t & E & R & Hrs).
  exists t. split; [|done]. unfold request, AttrSet_post, authenticated. rewrite Hu.
  rewrite (proj2 (String.eqb_neq _ _) Ha).
  destruct (String.eqb (strip _) "") eqn:Ee.
  { apply String.eqb_eq in Ee. by rewrite Ee in Hv. }
  fold ids. rewrite (run_bind _ _ _ _ _ E). web_run. f_equal. f_equal. f_equal.
  rewrite Hrs. clear. induction ids as [|k l IH]; simpl; [done|].
  destruct (denied s u k); [done|]. apply IH.
Qed.

(** C2: life control is for owners and administrators: every job a request
    leaves in the database is for an instance that the current user owns,
    unless the user is an administrator, and no instance changes owner, size
    or state, whatever the request says and whatever fails. *)
Theorem LifeControl_authorized e u s :
  cur (rq e) = Some u →
  let s' := (request (LifeControl_post e) s).1 in
  core s' = core s ∧
  ∀ jid j, row s' jid = Some j → row (A := Job) s jid = None →
    ∃ I, row s (j_target_id j) = Some I ∧ (i_user_id I = u ∨ user_has s "admin" u = true).
Proof.
  intros Hu s'.
  destruct (request_inv (jobs_allowed s u) (LifeControl_post e) s) as (_ & Hc & Hj).
  - by apply allowed_LifeControl.
  - split_and!; [done..|]. intros jid j H1 H2. congruence.
  - split; [done|]. intros jid j H1 H2. destruct (Hj jid j H1 H2) as (I & HI & Hp).
    exists I. split; [done|]. apply orb_true_iff in Hp as [Hp%Z.eqb_eq|Hp]; auto.
Qed.

(** C11: deletion leaves nothing behind but the row: when the handler has run to
    its end for a stopped instance the user may delete, the committed database
    has no address, domain or storage of the instance and no port mapping to
    one of its former addresses, the row is marked deleted, and the owner's
    instance count is what it was, since the count includes deleted rows. *)
Theorem InstanceDelete_releases e u s i I w' :
  cur (rq e) = Some u → get_instance_byid (rq e) s = inr i →
  row s i = Some I → is_running I = false →
  InstanceDelete_post e (start s) = (Val tt, w') →
  let s' := comm w' in
  ips_of s' i = [] ∧ domains_of s' i = [] ∧ storages_of s' i = [] ∧
  (∀ ip IP, row s ip = Some IP → ip_instance_id IP = Some i → port_free ip s') ∧
  i_status <$> row s' i = Some INSTANCE_DELETED_STATUS ∧
  instance_count s' (i_user_id I) = instance_count s (i_user_id I).
Proof.
  intros Hu Hg HI Hr H s'. subst s'.
  destruct (InstanceDelete_stages e u s i I w' Hu Hg HI Hr H)
    as (s1 & I1 & s2 & o & w3 & Hc1 & Ei1 & HI1 & -> & Hrel & Hh & Hc).
  destruct (release_holdings_effect _ _ _ _ _ Hrel) as (R1 & R2 & R3 & R4).
  injection Hh as Ei Ep Ed Es. split_and!.
  - unfold ips_of, select in *. simpl tbl in *. by rewrite Ei.
  - unfold domains_of, select in *. simpl tbl in *. by rewrite Ed.
  - unfold storages_of, select in *. simpl tbl in *. by rewrite Es.
  - intros ip IP HIP Hip p P. unfold row. simpl tbl. rewrite Ep.
    apply (R4 ip IP); [|done]. unfold row in *. simpl tbl in *.
    transitivity (rows (c_ips s1) !! ip); [done|]. by rewrite Ei1.
  - assert (core (comm w') !! i = Some (core_of (mark_deleted i I1))) as Hk.
    { rewrite Hc. unfold core. simpl. by rewrite lookup_fmap, lookup_insert_eq. }
    unfold core in Hk. rewrite lookup_fmap in Hk. unfold row. simpl tbl.
    destruct (rows (c_instances (comm w')) !! i) as [I5|]; [|done].
    simpl in *. by injection Hk as _ _ _ ->.
  - apply instance_count_owners. rewrite owners_core, Hc, <- owners_core.
    rewrite owners_mark by done. by rewrite !owners_core, Hc1.
Qed.

(** A private instance is shown to its owner and to administrators only:
    [View] renders the page exactly when the instance exists, is not deleted
    and is public or the visitor may see it. *)
Theorem View_privacy e s :
  Render "instance/view.html" ∈ (request (View_get e) s).2 ↔
  ∃ i I, get_argument_int e "id" None = Some i ∧ i ≠ 0 ∧ row s i = Some I ∧
    i_status I ≠ INSTANCE_DELETED_STATUS ∧
    (i_isprivate I = false ∨
     ∃ u, cur e = Some u ∧ (u = i_user_id I ∨ user_has s "admin" u = true)).
Proof.
  unfold View_get, request. destruct (get_argument_int e "id" None) as [i|].
  2: { split; [|naive_solver]. simpl. set_solver. }
  destruct (Z.eqb_spec i 0) as [->|Hi].
  { split; [|naive_solver]. simpl. set_solver. }
  web_run. simpl. destruct (row s i) as [I|] eqn:HI.
  2: { split; [|naive_solver]. web_run. simpl. set_solver. }
  web_run. simpl.
  assert ((i_isprivate I && negb (bool_decide (cur e = Some (i_user_id I)) ||
    bool_decide (is_Some (cur e)) && has_permission e s "admin")) = false ↔
    (i_isprivate I = false ∨
     ∃ u, cur e = Some u ∧ (u = i_user_id I ∨ user_has s "admin" u = true))) as Hiff.
  { unfold has_permission. destruct (i_isprivate I); [|simpl; tauto]. simpl.
    rewrite negb_false_iff, orb_true_iff, andb_true_iff, !bool_decide_eq_true.
    destruct (cur e) as [u|]; [|split; naive_solver].
    split; [|naive_solver].
    intros [[= ->]|[_ ?]]; right; eexists; split; eauto. }
  destruct (i_isprivate I && _) eqn:Ep.
  { split; [simpl; set_solver|]. intros (i' & I' & [= <-] & _ & [= <-]%(eq_trans (eq_sym HI)) & _ & HH).
    by apply Hiff in HH. }
  destruct (Z.eqb_spec (i_status I) INSTANCE_DELETED_STATUS) as [E|E].
  { split; [simpl; set_solver|]. naive_solver. }
  split; [|simpl; set_solver]. intros _. exists i, I. split_and!; [done..|]. by apply Hiff.
Qed.

(** ** Concrete runs *)

Definition life_profile : UserProfile :=
  mkUserProfile 1 2 512 10 3 1 0 0 6 1 6 None 0.
Definition life_instance : Instance :=
  (new_instance "web" 1 1 50 "c0ffee") <| i_cpus := 1 |> <| i_memory := 256 |>
    <| i_status := 2 |>.
Definition life_cloud : Cloud :=
  demo_cloud
    <| c_permissions := table_of [mkPermission "admin" "admin"] |>
    <| c_groups := table_of [mkGroup "admin" "" true [1]] |>
    <| c_users := table_of [mkUser "ann" None false false 0 0 [] "" None None None None None;
                            mkUser "root" None false false 0 0 [1] "" None None None None None] |>
    <| c_profiles := table_of [life_profile] |>
    <| c_instances := table_of [life_instance] |>
    <| c_ports := table_of [mkPortMapping 2201 1 (Some 22) (Some 2)] |>
    <| c_domains := table_of [mkUserDomain "web.example.org" 1 (Some 1)] |>
    <| c_storages := table_of [mkStorage 4 1 (Some 1)] |>.

Definition life_env (user : Z) (l : list (string * string)) : lenv :=
  mkLenv (mkReq 100 (Some user) (list_to_map l) true true)
    (mkNginx true true true true true true) (λ _ _, [60; 100; 62]) true.

Definition run_demo := run (life_env 1 []) 1 1 (start life_cloud).

Lemma run_within_quota_witness :
  ∃ I pid p,
    row (work (start life_cloud)) 1 = Some I ∧
    profile_of (work (start life_cloud)) (i_user_id I) = Some (pid, p) ∧
    reserved i_cpus (comm run_demo.2) (i_user_id I) ≤
      cpu (get_resource_total (now (rq (life_env 1 []))) (comm run_demo.2) p) ∧
    reserved i_memory (comm run_demo.2) (i_user_id I) ≤
      memory (get_resource_total (now (rq (life_env 1 []))) (comm run_demo.2) p) ∧
    is_running I = false ∧ job_pending (comm run_demo.2) 1 = true ∧
    let J := mkJob 1 JOB_S_INITIATED JOB_TARGET_INSTANCE 1 RUN_INSTANCE (now (rq (life_env 1 []))) in
    c_jobs (comm run_demo.2) = (tinsert J (c_jobs (work (start life_cloud)))).2 ∧
    get_instance_lastjob (comm run_demo.2) 1 = Some (seq (c_jobs (work (start life_cloud))) + 1, J).
Proof.
  apply (run_within_quota (life_env 1 []) 1 1 (start life_cloud)
    "Task starts successfully." run_demo.2).
  - vm_compute. reflexivity.
  - intros k Hk. reflexivity.
  - assert (map_Forall (λ _ (J : Instance), 0 ≤ i_cpus J ∧ 0 ≤ i_memory J)
              (rows (c_instances life_cloud))) as H
      by (apply (bool_decide_unpack _); vm_compute; exact Logic.I).
    intros k J HJ. exact (H k J HJ).
Defined.

Lemma LifeControl_authorized_witness :
  let e := life_env 2 [("action", "run"); ("id", "1, 7")]%string in
  let s' := (request (LifeControl_post e) life_cloud).1 in
  core s' = core life_cloud ∧
  ∀ jid j, row s' jid = Some j → row (A := Job) life_cloud jid = None →
    ∃ I, row life_cloud (j_target_id j) = Some I ∧
         (i_user_id I = 2 ∨ user_has life_cloud "admin" 2 = true).
Proof. apply (LifeControl_authorized (life_env 2 _) 2 life_cloud). reflexivity. Defined.

Definition attr_req : req :=
  rq (life_env 1 [("attr", "x"); ("value", "False"); ("id", "1,9")]%string).

Example attr_req_ids : get_int <$> split_on "," (get_argument attr_req "id" "") = [1; 9].
Proof. vm_compute. reflexivity. Qed.

Lemma AttrSet_exact_witness :
  let ids := get_int <$> split_on "," (get_argument attr_req "id" "") in
  ∃ t, request (AttrSet_post attr_req) life_cloud =
    (set_tbl (A := Instance) t life_cloud,
     [WriteCode (if existsb (denied life_cloud 1) ids then 1 else 0) "attr_set"]) ∧
    ∀ k, row (set_tbl t life_cloud) k = attr_row life_cloud 1 false ids k.
Proof.
  apply (AttrSet_exact attr_req 1 false life_cloud); vm_compute; [reflexivity|discriminate|reflexivity].
Defined.

Definition delete_demo : world Cloud :=
  (InstanceDelete_post (life_env 1 [("id", "1")]%string) (start life_cloud)).2.

Lemma InstanceDelete_releases_witness :
  let s' := comm delete_demo in
  ips_of s' 1 = [] ∧ domains_of s' 1 = [] ∧ storages_of s' 1 = [] ∧
  (∀ ip IP, row life_cloud ip = Some IP → ip_instance_id IP = Some 1 → port_free ip s') ∧
  i_status <$> row s' 1 = Some INSTANCE_DELETED_STATUS ∧
  instance_count s' 1 = instance_count life_cloud 1.
Proof.
  apply (InstanceDelete_releases (life_env 1 [("id", "1")]%string) 1 life_cloud 1
    life_instance delete_demo); vm_compute; reflexivity.
Defined.
