(* ===== verification/Myun.v ===== *)
(** A user's own instances (src/lyweb/app/myun/instance): finding the instance
    of a request, and the forms that edit its resources, texts, passwords and
    keys. *)
From Stdlib Require Import Ascii String.
From S2P Require Import Prelude PyText Table Session Cloud Quota InstanceModel Web Forms LifeControl.
#[local] Open Scope Z_scope.

(** ** The instance of the request *)

(** A message for the user; nothing to go on with. *)
Definition no {A} (msg : string) : Web Cloud (option A) := emit (Write msg);; mret None.

Definition set_myinstance (e : req) (u : Z) : Web Cloud (option Z) :=
  let ID := default 0 (get_argument_int e "id" (Some 0)) in
  if ID =? 0 then no "Give the instance id please." else
  o ← get_row (A := Instance) ID;
  match o with
  | None => no "No such instance"
  | Some ins =>
      if i_status ins =? INSTANCE_DELETED_STATUS then no "Instance was deleted"
      else if negb (u =? i_user_id ins) then no "Not your instance"
      else mret (Some ID)
  end.

(** A handler of a logged-in user on one of the user's instances. *)
Definition with_myinstance (e : req) (get : bool) (k : Z → Z → Web Cloud unit) : Web Cloud unit :=
  authenticated e get (λ u,
    o ← set_myinstance e u;
    match o with Some i => k u i | None => mret tt end) tt.

Definition view_url (i : Z) : effect := Redirect "myun:instance:view" i.

Definition View_page (e : req) : Web Cloud unit :=
  with_myinstance e true (λ _ _, emit (Render "myun/instance/view.html")).

(** ** Resources *)

(** [ResourceForm]: the CPU and memory that pass validation; [available] counts
    what a running instance holds already. *)
Definition available (remain : Z) (I : Instance) (own : Z) : Z :=
  if is_running I then remain + own else remain.

Definition resource_form (e : req) (u i : Z) : Web Cloud (option (Z * Z)) :=
  p ← ask (λ s, profile_of s u);
  I ← fetch (A := Instance) i;
  let cpus := int_field e "cpus" (Some 1) in
  let mem := int_field e "memory" (Some 256) in
  match p with
  | None => mret None
  | Some (_, p) =>
      cpu ← quota (now e) (Z.eqb T_CPU) (pf_user_id p)
        (λ s, available (cpu_remain (now e) s p) I (i_cpus I));
      memo ← quota (now e) (Z.eqb T_MEMORY) (pf_user_id p)
        (λ s, available (memory_remain (now e) s p) I (i_memory I));
      mret (match cpus, mem with
            | Some c, Some m =>
                if (1 <=? c) && negb (cpu <? c) && (64 <=? m) && negb (memo <? m)
                then Some (c, m) else None
            | _, _ => None
            end)
  end.

Definition set_resource (c m : Z) (I : Instance) : Instance :=
  let I := I <| i_cpus := c |> <| i_memory := m |> in
  if is_running I then I <| i_ischanged := true |> else I.

Definition ResourceEdit_post (e : req) : Web Cloud unit :=
  with_myinstance e false (λ u i,
    f ← resource_form e u i;
    match f with
    | Some (c, m) => modify i (set_resource c m);; commit;; emit (view_url i)
    | None => emit (Render "myun/instance/resource_edit.html")
    end).

(** ** Name, summary and description *)

Definition BaseinfoEdit_post (e : req) : Web Cloud unit :=
  with_myinstance e false (λ u i,
    if length_ok 2 120 (text_field e "name") then
      modify i (λ I : Instance, I <| i_name := text_field e "name" |>
        <| i_summary := text_field e "summary" |>
        <| i_description := text_field e "description" |> <| i_updated := now e |>);;
      commit;; emit (view_url i)
    else emit (Render "myun/instance/general_edit.html")).

(** ** Passwords and keys

    [enc_shadow_passwd] salts at random: [shadow] is its result for the request. *)

Definition GlobalPasswordEdit_post (e : req) (shadow : string → string) : Web Cloud unit :=
  authenticated e false (λ u,
    let pw := text_field e "password" in
    if negb (String.eqb (strip pw) "") && String.eqb pw (text_field e "confirm") then
      p ← ask (λ s, profile_of s u);
      match p with
      | None => raise "AttributeError: NoneType"
      | Some (pid, _) =>
          modify pid (pf_set_root_password (now e) (shadow pw));; commit;;
          emit (Redirect "myun:instance" 0)
      end
    else emit (Render "myun/instance/global_password_edit.html")) tt.

Definition InstancePasswordEdit_post (e : req) (shadow : string → string) : Web Cloud unit :=
  with_myinstance e false (λ u i,
    let usedefault := bool_field e "usedefault" in
    let pw := text_field e "password" in
    if usedefault || String.eqb pw (text_field e "confirm") then
      (if usedefault then
         I ← fetch (A := Instance) i;
         p ← profile_of_user (i_user_id I);
         match pf_get "secret" (JObj []) p with
         | JObj l => modify i (i_set (now e) "passwd_hash"
                                 (default (JStr "") (jget "root_shadow_passwd" l)))
         | _ => raise "AttributeError: get"
         end
       else modify i (i_set_root_password (now e) (shadow pw)));;
      modify i (i_set (now e) "use_global_passwd" (JBool usedefault));;
      commit;; emit (view_url i)
    else emit (Render "myun/instance/password_edit.html")).

Definition keys_of (s : Cloud) (u : Z) : list (Z * PublicKey) :=
  select (λ _ K, k_user_id K =? u) s.

(** [InstancePublicKeyForm]: the key must be among the choices. *)
Definition key_form (e : req) (u : Z) : Web Cloud (option PublicKey) :=
  let key := select_field e "key" in
  choices ← ask (λ s, id_choices (keys_of s u));
  k ← get_text (A := PublicKey) key;
  mret (match k with
        | Some (_, K) => if bool_decide (key ∈ choices) then Some K else None
        | None => None
        end).

Definition InstancePublicKeyEdit_post (e : req) : Web Cloud unit :=
  with_myinstance e false (λ u i,
    k ← key_form e u;
    match k with
    | Some K => modify i (i_set (now e) "public_key" (JStr (k_data K)));; commit;; emit (view_url i)
    | None => emit (Render "myun/instance/public_key_edit.html")
    end).

(** ** What the shared steps do *)

(** A run that changes nothing in the database. *)
Definition quiet {A} (w : world Cloud) (r : out A * world Cloud) : Prop :=
  work r.2 = work w ∧ comm r.2 = comm w.

(** The user's own instance, not deleted. *)
Definition owned (s : Cloud) (u i : Z) : Prop :=
  ∃ I, row s i = Some I ∧ i_user_id I = u ∧ i_status I ≠ INSTANCE_DELETED_STATUS.

Lemma authenticated_run {A} e get (m : Z → Web Cloud A) none w :
  (cur e = None ∧ quiet w (authenticated e get m none w)) ∨
  ∃ u, cur e = Some u ∧ authenticated e get m none w = m u w.
Proof.
  unfold authenticated. destruct (cur e) as [u|]; [right; eauto|left]. by destruct get.
Qed.

Lemma set_myinstance_run e u w :
  quiet w (set_myinstance e u w) ∧
  ∀ i w', set_myinstance e u w = (Val (Some i), w') → w' = w ∧ owned (work w) u i.
Proof.
  unfold set_myinstance, no. destruct (_ =? 0); [by split|]. web_run.
  destruct (row (work w) _) as [ins|] eqn:E; [|by split].
  destruct (Z.eqb_spec (i_status ins) INSTANCE_DELETED_STATUS); [by split|].
  destruct (Z.eqb_spec u (i_user_id ins)); simpl; [|by split].
  split; [done|]. intros i w' [= <- <-]. split; [done|]. by exists ins.
Qed.

Lemma with_myinstance_run e get k w :
  quiet w (with_myinstance e get k w) ∨
  ∃ u i, cur e = Some u ∧ owned (work w) u i ∧ with_myinstance e get k w = k u i w.
Proof.
  unfold with_myinstance.
  match goal with |- context [authenticated e get ?m tt] =>
    destruct (authenticated_run e get m tt w) as [[_ H]|(u & Hu & ->)] end; [by left|].
  destruct (set_myinstance_run e u w) as [Hq H]. unfold mbind, Web_bind.
  destruct (set_myinstance e u w) as [[[i|]|x] w1]; [|by left..].
  right. destruct (H i w1) as [-> Ho]; [done|]. eauto.
Qed.

(** A request whose run is quiet changes nothing. *)
Lemma request_quiet {A} (m : Web Cloud A) s : quiet (start s) (m (start s)) → (request m s).1 = s.
Proof. unfold request. intros [_ H]. by destruct (m (start s)). Qed.

(** ** Resources stay within the quota *)

Lemma resource_form_run e u i w I :
  row (work w) i = Some I →
  ∃ r, resource_form e u i w = (r, w) ∧ ∀ c m, r = Val (Some (c, m)) →
    ∃ pid p, profile_of (work w) u = Some (pid, p) ∧
      1 ≤ c ≤ available (cpu_remain (now e) (work w) p) I (i_cpus I) ∧
      64 ≤ m ≤ available (memory_remain (now e) (work w) p) I (i_memory I).
Proof.
  intros HI. unfold resource_form. web_run. rewrite HI.
  destruct (profile_of (work w) u) as [[pid p]|] eqn:Ep; web_run;
    [|eexists; split; [done|done]].
  do 2 (destruct (comparable _ _ _ _); web_run; [|eexists; split; [done|done]]).
  eexists. split; [done|]. intros c m [= H].
  destruct (int_field e "cpus" (Some 1)) as [c'|]; [|done].
  destruct (int_field e "memory" (Some 256)) as [m'|]; [|done].
  destruct (_ && _) eqn:Ec in H; [|done]. injection H as -> ->. bool_prop.
  exists pid, p. split_and!; [done|lia..].
Qed.

Lemma ResourceEdit_step e s :
  (request (ResourceEdit_post e) s).1 = s ∨
  ∃ u i I c m pid p, row s i = Some I ∧ i_user_id I = u ∧ profile_of s u = Some (pid, p) ∧
    1 ≤ c ≤ available (cpu_remain (now e) s p) I (i_cpus I) ∧
    64 ≤ m ≤ available (memory_remain (now e) s p) I (i_memory I) ∧
    (request (ResourceEdit_post e) s).1 = set_tbl (tput i (set_resource c m I) (tbl s)) s.
Proof.
  unfold ResourceEdit_post.
  match goal with |- context [with_myinstance e false ?k] =>
    destruct (with_myinstance_run e false k (start s)) as [H|(u & i & Hu & (I & HI & HuI & _) & H)] end.
  { left. by apply request_quiet. }
  rewrite request_fst, H. clear H.
  destruct (resource_form_run e u i (start s) I HI) as (r & Hf & Hr).
  destruct r as [r|x]; [|rewrite (run_exn _ _ _ _ _ Hf); by left].
  rewrite (run_bind _ _ _ _ _ Hf). destruct r as [[c m]|]; [|by left]. right.
  destruct (Hr c m eq_refl) as (pid & p & Hp & Hc & Hm). simpl in HI.
  web_run. change (work (start s)) with s. rewrite HI. web_run.
  by exists u, i, I, c, m, pid, p.
Qed.

(** One column of a running instance, changed within what is available. *)
Lemma running_total_edit f s i I I' v g :
  row s i = Some I → i_user_id I' = i_user_id I → is_running I' = is_running I →
  f I' ≤ available (Z.max 0 (g - running_total f s (i_user_id I))) I (f I) →
  running_total f (set_tbl (tput i I' (tbl s)) s) v ≤
    Z.max (running_total f s v) (if i_user_id I =? v then g else running_total f s v).
Proof.
  intros HI Hu Hr Hf. unfold running_total at 1.
  change (c_instances (set_tbl ?t s)) with t. rewrite (total_update _ _ _ I) by done.
  change (total _ (tbl s)) with (running_total f s v). cbv beta. rewrite Hu, Hr. unfold available in Hf.
  destruct (Z.eqb_spec (i_user_id I) v) as [Ev|]; [|simpl; lia]. rewrite Ev in Hf.
  destruct (is_running I); simpl; lia.
Qed.

(** ** Properties *)

(** Changing the size of an instance keeps its owner's running total within
    the quota: whatever the request says, the CPU and the memory of a user's
    running instances are afterwards no more than before, or no more than the
    user is granted. *)
Theorem ResourceEdit_quota e s v pid pf :
  profile_of s v = Some (pid, pf) →
  let s' := (request (ResourceEdit_post e) s).1 in
  running_total i_cpus s' v ≤
    Z.max (running_total i_cpus s v) (pf_cpu pf + grant_total (now e) T_CPU s v) ∧
  running_total i_memory s' v ≤
    Z.max (running_total i_memory s v) (pf_memory pf + grant_total (now e) T_MEMORY s v).
Proof.
  intros Hpf s'.
  destruct (ResourceEdit_step e s) as [E|(u & i & I & c & m & pid' & p & HI & Hu & Hp & Hc & Hm & E)];
    unfold s'; rewrite E; [lia|]. clear s' E.
  rewrite cpu_remain_eq in Hc. rewrite memory_remain_eq in Hm.
  rewrite (profile_of_owner s u pid' p Hp), <- Hu in Hc, Hm.
  assert (is_running (set_resource c m I) = is_running I ∧ i_user_id (set_resource c m I) = i_user_id I
    ∧ i_cpus (set_resource c m I) = c ∧ i_memory (set_resource c m I) = m) as (H1 & H2 & H3 & H4).
  { unfold set_resource. change (is_running (I <| i_cpus := c |> <| i_memory := m |>))
      with (is_running I). by destruct (is_running I) eqn:Er. }
  pose proof (running_total_edit i_cpus s i I _ v
    (pf_cpu p + grant_total (now e) T_CPU s (i_user_id I)) HI H2 H1) as Ec.
  pose proof (running_total_edit i_memory s i I _ v
    (pf_memory p + grant_total (now e) T_MEMORY s (i_user_id I)) HI H2 H1) as Em.
  rewrite H3 in Ec. rewrite H4 in Em. specialize (Ec (proj2 Hc)). specialize (Em (proj2 Hm)).
  destruct (Z.eqb_spec (i_user_id I) v) as [Ev|]; [|lia].
  rewrite Hu in Ev. subst v. rewrite Hpf in Hp. simplify_eq. lia.
Qed.

Lemma ResourceEdit_quota_witness :
  let e := rq (life_env 1 [("id", "1"); ("cpus", "2"); ("memory", "512")]%string) in
  let s' := (request (ResourceEdit_post e) life_cloud).1 in
  running_total i_cpus s' 1 ≤
    Z.max (running_total i_cpus life_cloud 1)
      (pf_cpu life_profile + grant_total (now e) T_CPU life_cloud 1) ∧
  running_total i_memory s' 1 ≤
    Z.max (running_total i_memory life_cloud 1)
      (pf_memory life_profile + grant_total (now e) T_MEMORY life_cloud 1).
Proof.
  apply (ResourceEdit_quota (rq (life_env 1 _)) life_cloud 1 1 life_profile).
  vm_compute. reflexivity.
Defined.
