(* ===== verification/MyStorage.v ===== *)
(** Storage of a user's instances (src/lyweb/app/myun/instance: StorageForm and
    the storage handlers; src/lyweb/app/storage/models.py): what a user may
    take, and the account a pool keeps of what is taken. *)
From Stdlib Require Import Ascii String.
From S2P Require Import Prelude PyText Table Session Cloud Quota InstanceModel Web Forms LifeControl Myun.
#[local] Open Scope Z_scope.

(** ** Pools *)

Definition pool_remain (P : StoragePool) : Z := sp_total P - sp_used P.

Definition storages_in (s : Cloud) (p : Z) : list (Z * Storage) :=
  select (λ _ S, s_pool_id S =? p) s.

Definition pool_sum (s : Cloud) (p : Z) : Z :=
  foldl (λ used S, used + s_size (snd S)) 0 (storages_in s p).

Definition update_used (p : Z) : Web Cloud unit :=
  used ← ask (λ s, pool_sum s p);
  modify p (λ P : StoragePool, P <| sp_used := used |>).

(** [Storage(size, pool, instance)] *)
Definition new_storage (size p : Z) (P : StoragePool) (i : Z) : Storage :=
  mkStorage (if pool_remain P >? size then size else pool_remain P) p (Some i).

(** ** The form *)

Definition storage_form (e : req) (u : Z) : Web Cloud (option (Z * StoragePool * Z)) :=
  let pool := select_field e "pool" in
  let size := int_field e "size" None in
  choices ← ask (λ s, id_choices (all_rows StoragePool s));
  P ← get_text (A := StoragePool) pool;
  profile ← profile_of_user u;
  remain ← quota (now e) (Z.eqb T_STORAGE) (pf_user_id profile)
    (λ s, storage_remain (now e) s profile);
  mret (match P, size with
        | Some (p, P), Some n =>
            if bool_decide (pool ∈ choices) && negb (pool_remain P <? n) &&
               (1 <=? n) && negb (remain <? n)
            then Some (p, P, n) else None
        | _, _ => None
        end).

(** ** Handlers *)

Definition max_storage : nat := 1.

Definition StorageAdd_prepare (e : req) (get : bool) (k : Z → Z → Web Cloud unit) : Web Cloud unit :=
  with_myinstance e get (λ u i,
    n ← ask (λ s, length (storages_of s i));
    if (max_storage <=? n)%nat then emit (Write "Can not add storages any more.") else k u i).

Definition StorageAdd_get (e : req) : Web Cloud unit :=
  StorageAdd_prepare e true (λ _ _, emit (Render "myun/instance/storage_add.html")).

Definition StorageAdd_post (e : req) : Web Cloud unit :=
  StorageAdd_prepare e false (λ u i,
    f ← storage_form e u;
    match f with
    | Some (p, P, n) =>
        _ ← add_row (new_storage n p P i);
        commit;;
        update_used p;;
        emit (view_url i)
    | None => emit (Render "myun/instance/storage_add.html")
    end).

(** [StorageActionHandler.initialize] looks at the current user before the
    handler asks for a login. *)
Definition StorageAction (e : req) : Web Cloud (option (Z * Z)) :=
  let ID := default 0 (get_argument_int e "id" (Some 0)) in
  if ID =? 0 then no "Give me the storage id please." else
  o ← get_row (A := Storage) ID;
  match o with
  | None => no "Can not find storage"
  | Some st =>
      ins ← fetch_opt (A := Instance) (s_instance_id st);
      match cur e with
      | None => raise "AttributeError: NoneType"
      | Some u => if negb (i_user_id ins =? u) then no "Not your instance's storage."
                  else mret (Some (ID, u))
      end
  end.

Definition StorageEdit_post (e : req) : Web Cloud unit :=
  o ← StorageAction e;
  match o with
  | None => authenticated e false (λ _, mret tt) tt
  | Some (sid, u) =>
      st ← fetch (A := Storage) sid;
      f ← storage_form e u;
      match f with
      | Some (p, P, n) =>
          if s_size st >? n then emit (Render "myun/instance/storage_add.html") else
          modify sid (λ S : Storage, S <| s_size := n |> <| s_pool_id := p |>);;
          commit;;
          update_used p;;
          emit (view_url (default 0 (s_instance_id st)))
      | None => emit (Render "myun/instance/storage_add.html")
      end
  end.

Definition StorageDelete_get (e : req) : Web Cloud unit :=
  o ← StorageAction e;
  authenticated e true (λ _,
    match o with
    | None => mret tt
    | Some (sid, _) =>
        st ← fetch (A := Storage) sid;
        delete_row Storage sid;;
        commit;;
        update_used (s_pool_id st);;
        emit (view_url (default 0 (s_instance_id st)))
    end) tt.

(** ** What the handlers do *)

Lemma storage_form_run e u w :
  ∃ r, storage_form e u w = (r, w) ∧ ∀ p P n, r = Val (Some (p, P, n)) →
    row (work w) p = Some P ∧ 1 ≤ n ≤ pool_remain P ∧
    ∃ pid pf, profile_of (work w) u = Some (pid, pf) ∧ n ≤ storage_remain (now e) (work w) pf.
Proof.
  unfold storage_form, get_text, profile_of_user. web_run.
  destruct (py_int _) as [k|]; web_run; [|eexists; split; [done|naive_solver]].
  destruct (profile_of (work w) u) as [[pid pf]|] eqn:Ep; web_run;
    [|eexists; split; [done|naive_solver]].
  destruct (comparable _ _ _ _); web_run; [|eexists; split; [done|naive_solver]].
  eexists. split; [done|]. intros p P n [= H].
  destruct (row (work w) k) as [P'|] eqn:EP; [|done]. simpl in H.
  destruct (int_field e "size" None) as [n'|]; [|done].
  destruct (_ && _) eqn:Ec; [|done]. injection H as -> -> ->. bool_prop.
  split_and!; [done|lia|lia|]. exists pid, pf. split; [done|lia].
Qed.

Lemma update_used_comm p w : comm (update_used p w).2 = comm w.
Proof. unfold update_used. web_run. by destruct (row (work w) p). Qed.

(** What a storage request may do to the database: nothing, or one storage
    added, changed or deleted under the checks of the form. *)
Inductive storage_step (e : req) (s : Cloud) : Cloud → Prop :=
  | step_none : storage_step e s s
  | step_add u i p P n pid pf :
      cur e = Some u → owned s u i → storages_of s i = [] →
      row s p = Some P → 1 ≤ n ≤ pool_remain P →
      profile_of s u = Some (pid, pf) → n ≤ storage_remain (now e) s pf →
      storage_step e s (set_tbl (tinsert (mkStorage n p (Some i)) (tbl s)).2 s)
  | step_edit u sid st i I p P n pid pf :
      cur e = Some u → row s sid = Some st → s_instance_id st = Some i →
      row s i = Some I → i_user_id I = u →
      row s p = Some P → s_size st ≤ n → 1 ≤ n ≤ pool_remain P →
      profile_of s u = Some (pid, pf) → n ≤ storage_remain (now e) s pf →
      storage_step e s (set_tbl (tput sid (mkStorage n p (Some i)) (tbl s)) s)
  | step_delete u sid st i I :
      cur e = Some u → row s sid = Some st → s_instance_id st = Some i →
      row s i = Some I → i_user_id I = u →
      storage_step e s (set_tbl (tdelete (A := Storage) sid (tbl s)) s).

Lemma request_comm {A} (m : Web Cloud A) s s' :
  comm (m (start s)).2 = s' → (request m s).1 = s'.
Proof. unfold request. by destruct (m (start s)). Qed.

(** What a run commits stays when the rest of it commits nothing. *)
Lemma after_update {A} p (k : Web Cloud A) w :
  (∀ w, comm (k w).2 = comm w) → comm ((update_used p;; k) w).2 = comm w.
Proof.
  intros Hk. unfold mbind, Web_bind. pose proof (update_used_comm p w) as H.
  destruct (update_used p w) as [[[]|x] w1]; simpl in *; [by rewrite Hk|done].
Qed.

Lemma storages_of_length s i : (max_storage <=? length (storages_of s i))%nat = false → storages_of s i = [].
Proof. unfold max_storage. by destruct (storages_of s i). Qed.

Lemma StorageAdd_step e s : storage_step e s (request (StorageAdd_post e) s).1.
Proof.
  unfold StorageAdd_post, StorageAdd_prepare.
  match goal with |- context [with_myinstance e false ?k] =>
    destruct (with_myinstance_run e false k (start s)) as [H|(u & i & Hu & Ho & H)] end.
  { rewrite request_quiet by done. constructor. }
  unfold request. rewrite H. clear H. simpl in Ho. web_run.
  destruct (_ <=? _)%nat eqn:En; [by constructor|]. apply storages_of_length in En.
  simpl in En. destruct (storage_form_run e u (start s)) as (r & Hf & Hr).
  destruct r as [[[[p P] n]|]|x].
  - destruct (Hr p P n eq_refl) as (HP & Hn & pid & pf & Hpf & Hs). simpl in HP, Hpf, Hs.
    erewrite run_bind by exact Hf. simpl. web_run. unfold new_storage.
    set (w := mkWorld _ _ _). match goal with |- context [(?m ≫= ?k) w] =>
      pose proof (after_update p (emit (view_url i)) w (λ _, eq_refl)) as Hc;
      change ((m ≫= k) w) with ((update_used p;; emit (view_url i)) w) end.
    destruct ((update_used p;; _) w) as [r' w']. simpl in *. rewrite Hc. simpl.
    replace (if pool_remain P >? n then n else pool_remain P) with n
      by (rewrite Z.gtb_ltb; destruct (Z.ltb_spec n (pool_remain P)); lia).
    by eapply step_add.
  - erewrite run_bind by exact Hf. constructor.
  - rewrite (run_exn _ _ _ _ _ Hf). constructor.
Qed.

Lemma StorageAction_run e w :
  ∃ r, StorageAction e w = (r, mkWorld (work w) (comm w) (outs (StorageAction e w).2)) ∧
    ∀ sid u, r = Val (Some (sid, u)) →
      outs (StorageAction e w).2 = outs w ∧ cur e = Some u ∧
      ∃ st i I, row (work w) sid = Some st ∧ s_instance_id st = Some i ∧
                row (work w) i = Some I ∧ i_user_id I = u.
Proof.
  unfold StorageAction, no. destruct (_ =? 0); [eexists; split; [done|naive_solver]|].
  web_run. destruct (row (work w) _) as [st|] eqn:Est;
    [|eexists; split; [done|naive_solver]].
  destruct (s_instance_id st) as [i|] eqn:Ei; simpl.
  - web_run. destruct (row (work w) i) as [ins|] eqn:EI;
      [|destruct w; eexists; split; [done|naive_solver]].
    destruct (cur e) as [u|]; [|destruct w; eexists; split; [done|naive_solver]].
    destruct (Z.eqb_spec (i_user_id ins) u); simpl; [|eexists; split; [done|naive_solver]].
    destruct w. eexists. split; [done|]. intros sid u' [= <- <-]. simpl in *.
    split_and!; [done..|]. eauto 10.
  - web_run. destruct w. eexists; split; [done|naive_solver].
Qed.

Lemma StorageEdit_step e s : storage_step e s (request (StorageEdit_post e) s).1.
Proof.
  unfold StorageEdit_post, request.
  destruct (StorageAction_run e (start s)) as (r & Ha & Hr).
  destruct r as [[[sid u]|]|x].
  - destruct (Hr sid u eq_refl) as (Ho & Hu & st & i & I & Hst & Hi & HI & HuI).
    erewrite run_bind by exact Ha. rewrite Ho. simpl in Hst, HI |- *. web_run.
    rewrite Hst. destruct (storage_form_run e u (start s)) as (r & Hf & Hrf).
    change (mkWorld s s (outs _)) with (start s).
    destruct r as [[[[p P] n]|]|x].
    + destruct (Hrf p P n eq_refl) as (HP & Hn & pid & pf & Hpf & Hs). simpl in HP, Hpf, Hs.
      erewrite run_bind by exact Hf. cbn beta iota. destruct (s_size st >? n) eqn:Eg; [by constructor|].
      rewrite Z.gtb_ltb in Eg. bool_prop. web_run. simpl. rewrite Hst. web_run. simpl.
      set (w := mkWorld _ _ _). set (k := emit _).
      pose proof (after_update p k w (λ _, eq_refl)) as Hc.
      destruct ((update_used p;; k) w) as [r' w'].
      simpl in *. rewrite Hc. simpl. rewrite Hi.
      by eapply (step_edit e s u sid st i I p P n pid pf).
    + erewrite run_bind by exact Hf. constructor.
    + rewrite (run_exn _ _ _ _ _ Hf). constructor.
  - erewrite run_bind by exact Ha. unfold authenticated. destruct (cur e); constructor.
  - rewrite (run_exn _ _ _ _ _ Ha). constructor.
Qed.

Lemma StorageDelete_step e s : storage_step e s (request (StorageDelete_get e) s).1.
Proof.
  unfold StorageDelete_get, request.
  destruct (StorageAction_run e (start s)) as (r & Ha & Hr).
  destruct r as [[[sid u]|]|x].
  - destruct (Hr sid u eq_refl) as (Ho & Hu & st & i & I & Hst & Hi & HI & HuI).
    erewrite run_bind by exact Ha. rewrite Ho. unfold authenticated. rewrite Hu.
    simpl in Hst, HI |- *. web_run. rewrite Hst. web_run. simpl.
    set (w := mkWorld _ _ _). set (k := emit _).
    pose proof (after_update (s_pool_id st) k w (λ _, eq_refl)) as Hc.
    destruct ((update_used (s_pool_id st);; k) w) as [r' w'].
    simpl in *. rewrite Hc. simpl. by eapply step_delete.
  - erewrite run_bind by exact Ha. unfold authenticated. destruct (cur e); constructor.
  - rewrite (run_exn _ _ _ _ _ Ha). constructor.
Qed.

(** ** Requests and histories *)

Inductive storage_page := AddStorage | EditStorage | DeleteStorage.

Definition storage_handler (p : storage_page) : req → Web Cloud unit :=
  match p with
  | AddStorage => StorageAdd_post
  | EditStorage => StorageEdit_post
  | DeleteStorage => StorageDelete_get
  end.

Definition storage_history (l : list (storage_page * req)) (s : Cloud) : Cloud :=
  foldl (λ s r, (request (storage_handler r.1 r.2) s).1) s l.

Lemma storage_handler_step p e s : storage_step e s (request (storage_handler p e) s).1.
Proof.
  destruct p; [apply StorageAdd_step|apply StorageEdit_step|apply StorageDelete_step].
Qed.

Lemma storage_step_pools e s s' : storage_step e s s' → c_storagepools s' = c_storagepools s.
Proof. by destruct 1. Qed.

(** A step changes the storage of at most one instance, for the user of the
    request. *)
Lemma storage_step_total e s s' v :
  seq_ok (c_storages s) → (∀ k S, row (A := Storage) s k = Some S → 0 ≤ s_size S) →
  storage_step e s s' →
  storage_total s' v ≤ storage_total s v ∨
  ∃ pid pf n, profile_of s v = Some (pid, pf) ∧ 1 ≤ n ≤ storage_remain (now e) s pf ∧
    storage_total s' v ≤ storage_total s v + n.
Proof.
  intros Hok Hpos. destruct 1 as [|u i p P n pid pf Hu (I & HI & HuI & _) _ _ Hn Hpf Hr
    |u sid st i I p P n pid pf Hu Hst Hi HI HuI _ Hg Hn Hpf Hr
    |u sid st i I Hu Hst Hi HI HuI]; [by left|..].
  - assert (storage_total (set_tbl (tinsert (mkStorage n p (Some i)) (tbl s)).2 s) v =
      storage_total s v + (if i_user_id I =? v then n else 0)) as ->.
    { apply (storage_total_shift s _ i); [done..|]. intros k. rewrite !storages_of_total.
      change (c_storages (set_tbl ?t s)) with t. rewrite total_insert by done. simpl. f_equal.
      destruct (Z.eqb_spec k i) as [->|]; case_bool_decide; congruence. }
    destruct (Z.eqb_spec (i_user_id I) v); [|left; lia]. right. simplify_eq.
    exists pid, pf, n. split_and!; [done|lia..].
  - assert (storage_total (set_tbl (tput sid (mkStorage n p (Some i)) (tbl s)) s) v =
      storage_total s v + (if i_user_id I =? v then n - s_size st else 0)) as ->.
    { apply (storage_total_shift s _ i); [done..|]. intros k. rewrite !storages_of_total.
      change (c_storages (set_tbl ?t s)) with t. rewrite (total_update _ _ _ st) by done. rewrite Hi. simpl.
      destruct (Z.eqb_spec k i) as [->|]; repeat case_bool_decide; simplify_eq; lia. }
    destruct (Z.eqb_spec (i_user_id I) v); [|left; lia]. right. simplify_eq.
    pose proof (Hpos sid st Hst). exists pid, pf, n. split_and!; [done|lia..].
  - left. assert (storage_total (set_tbl (tdelete (A := Storage) sid (tbl s)) s) v =
      storage_total s v + (if i_user_id I =? v then - s_size st else 0)) as ->.
    { apply (storage_total_shift s _ i); [done..|]. intros k. rewrite !storages_of_total.
      change (c_storages (set_tbl ?t s)) with t.
      change (tbl s) with (c_storages s). rewrite (total_delete _ (c_storages s) sid st) by done. rewrite Hi.
      destruct (Z.eqb_spec k i) as [->|]; repeat case_bool_decide; simplify_eq; lia. }
    pose proof (Hpos sid st Hst). destruct (_ =? v); lia.
Qed.

(** ** Properties *)

(** C15: the storage quota of a user holds: whatever storage request is served,
    what a user's instances have afterwards is no more than before, or within
    what the user's profile and the resources in effect grant. *)
Theorem storage_within_quota p e s v pid pf :
  seq_ok (c_storages s) → (∀ k S, row (A := Storage) s k = Some S → 0 ≤ s_size S) →
  profile_of s v = Some (pid, pf) →
  storage_total (request (storage_handler p e) s).1 v ≤
    Z.max (storage_total s v) (pf_storage pf + grant_total (now e) T_STORAGE s v).
Proof.
  intros Hok Hpos Hpf.
  destruct (storage_step_total e s _ v Hok Hpos (storage_handler_step p e s))
    as [H|(pid' & pf' & n & Hpf' & Hn & H)]; [lia|].
  rewrite Hpf in Hpf'. simplify_eq. rewrite storage_remain_eq in Hn.
  rewrite (profile_of_owner s v pid' pf' Hpf) in Hn. lia.
Qed.

Definition pool_profile (u : Z) : UserProfile := life_profile <| pf_user_id := u |> <| pf_storage := 100 |>.
Definition pool_cloud : Cloud :=
  life_cloud <| c_storagepools := table_of [mkStoragePool "disk" "" 10 0] |>
    <| c_instances := table_of [life_instance; life_instance] |>
    <| c_profiles := table_of [pool_profile 1] |> <| c_storages := empty_table |>.

Definition pool_req (i size : string) : req :=
  mkReq 100 (Some 1) (list_to_map [("id", i); ("pool", "1"); ("size", size)]%string) true true.

(** A pool's account of used space never changes: [update_used] runs after
    the commit and is rolled back when the request ends, so no sequence of
    storage requests changes a pool row in the database. The check against
    what remains of a pool is made against that account: two requests take
    twenty gigabytes from a pool of ten. *)
Theorem pool_account_stale l s :
  c_storagepools (storage_history l s) = c_storagepools s ∧
  let s' := storage_history [(AddStorage, pool_req "1" "10"); (AddStorage, pool_req "2" "10")]
              pool_cloud in
  pool_sum s' 1 = 20 ∧ sp_total <$> row s' 1 = Some 10.
Proof.
  split; [|by vm_compute]. unfold storage_history. revert s.
  induction l as [|r l IH]; intros s; [done|]. simpl. rewrite IH.
  eapply storage_step_pools, storage_handler_step.
Qed.

Lemma storage_within_quota_witness :
  storage_total (request (storage_handler AddStorage (pool_req "1" "10")) pool_cloud).1 1 ≤
    Z.max (storage_total pool_cloud 1)
      (pf_storage (pool_profile 1) + grant_total 100 T_STORAGE pool_cloud 1).
Proof.
  apply (storage_within_quota AddStorage (pool_req "1" "10") pool_cloud 1 1 (pool_profile 1)).
  - intros k Hk. reflexivity.
  - intros k st H. discriminate H.
  - vm_compute. reflexivity.
Defined.
