(* ===== verification/MyNetwork.v ===== *)
(** Addresses and port mappings of a user's instances (src/lyweb/app/myun/
    instance: NetworkForm, PortMappingForm and their handlers;
    src/lyweb/app/network/models.py). *)
From Stdlib Require Import Ascii String.
From S2P Require Import Prelude PyText Table Session Cloud Quota InstanceModel Web Forms LifeControl Myun.
#[local] Open Scope Z_scope.

(** ** Free addresses and ports *)

(** A reference or number that is NULL or zero is false. *)
Definition unset (o : option Z) : bool := match o with None => true | Some k => k =? 0 end.

Definition ips_in (s : Cloud) (net : Z) : list (Z * IPPool) :=
  select (λ _ P, ip_network_id P =? net) s.

Definition get_free_ip (s : Cloud) (net : Z) : option (Z * IPPool) :=
  find (λ P, unset (ip_instance_id P.2)) (ips_in s net).

Definition ports_in (s : Cloud) (gw : Z) : list (Z * PortMapping) :=
  select (λ _ P, pm_gateway_id P =? gw) s.

Definition get_free_port (s : Cloud) (gw : Z) : option (Z * PortMapping) :=
  find (λ P, unset (pm_ip_port P.2) && unset (pm_ip_id P.2)) (ports_in s gw).

(** ** Addresses *)

Definition network_form (e : req) : Web Cloud (option (Z * IPPool)) :=
  let pool := select_field e "pool" in
  choices ← ask (λ s, id_choices (all_rows NetworkPool s));
  P ← get_text (A := NetworkPool) pool;
  match P with
  | None => mret None
  | Some (p, _) =>
      free ← ask (λ s, get_free_ip s p);
      mret (if bool_decide (pool ∈ choices) then free else None)
  end.

Definition max_network : nat := 1.

Definition NetworkAdd_prepare (e : req) (get : bool) (k : Z → Z → Web Cloud unit) : Web Cloud unit :=
  with_myinstance e get (λ u i,
    n ← ask (λ s, length (ips_of s i));
    if (max_network <=? n)%nat then emit (Write "Can not add network any more.") else k u i).

Definition NetworkAdd_get (e : req) : Web Cloud unit :=
  NetworkAdd_prepare e true (λ _ _, emit (Render "myun/instance/network_add.html")).

Definition bind_ip (i ip : Z) : Web Cloud unit :=
  modify ip (λ P : IPPool, P <| ip_instance_id := Some i |>).

Definition NetworkAdd_post (e : req) : Web Cloud unit :=
  NetworkAdd_prepare e false (λ u i,
    f ← network_form e;
    match f with
    | Some (ip, IP) =>
        if unset (ip_instance_id IP) then
          bind_ip i ip;; commit;;
          do_update_network e i;; commit;;
          add_trace e LY_TARGET_IP ip "get ip manually";;
          emit (view_url i)
        else emit (Render "myun/instance/network_add.html")
    | None => emit (Render "myun/instance/network_add.html")
    end).

(** [NetworkActionHandler.initialize] *)
Definition NetworkAction (e : req) : Web Cloud (option (Z * IPPool)) :=
  let ID := default 0 (get_argument_int e "id" (Some 0)) in
  if ID =? 0 then no "Give me the network id please." else
  o ← get_row (A := IPPool) ID;
  match o with
  | None => no "Can not find network"
  | Some IP =>
      if unset (ip_instance_id IP) then mret (Some (ID, IP)) else
      ins ← fetch_opt (A := Instance) (ip_instance_id IP);
      match cur e with
      | None => raise "AttributeError: NoneType"
      | Some u => if negb (i_user_id ins =? u) then no "Not your instance's network."
                  else mret (Some (ID, IP))
      end
  end.

Definition NetworkDelete_get (e : req) : Web Cloud unit :=
  o ← NetworkAction e;
  authenticated e true (λ _,
    match o with
    | None => mret tt
    | Some (ip, IP) =>
        ins ← ask (λ s, i ← ip_instance_id IP; I ← row (A := Instance) s i; Some i);
        match ins with
        | None => emit (Write "No binding instance.")
        | Some i =>
            modify ip (λ P : IPPool, P <| ip_instance_id := None |>);; commit;;
            add_trace e LY_TARGET_IP ip "free ip manually";;
            do_update_network e i;; commit;;
            emit (view_url i)
        end
    end) tt.

(** ** Port mappings *)

(** How many ports the addresses of a user's instances have. *)
Definition used_ports (s : Cloud) (u : Z) : nat :=
  foldl (λ n I, foldl (λ n IP, n + length (ports_of_ip s IP.1)) n (ips_of s I.1))%nat 0%nat
    (instances_of s u).

(** [PortMappingForm] *)
Definition port_form (e : req) (i : Z) : Web Cloud (option (Z * Z)) :=
  let ip := select_field e "ip" in
  let port := int_field e "port" (Some 22) in
  choices ← ask (λ s, id_choices (ips_of s i));
  IP ← get_text (A := IPPool) ip;
  match IP, port with
  | Some (k, IP), Some n =>
      old ← ask (λ s, select (λ _ P, bool_decide (pm_ip_id P = Some k) &&
                                     bool_decide (pm_ip_port P = Some n)) s);
      mret (if bool_decide (ip ∈ choices) && bool_decide (ip_instance_id IP = Some i) &&
               in_range 20 65535 port && bool_decide (old = [])
            then Some (k, n) else None)
  | _, _ => mret None
  end.

(** [Gateway.first()]: the rows of a query without an order come by id. *)
Definition first_gateway (s : Cloud) : option (Z * Gateway) := head (all_rows Gateway s).

Definition PortMappingAdd_prepare (e : req) (get : bool) (k : Z → Z → Web Cloud unit) :
    Web Cloud unit :=
  authenticated e get (λ u,
    g ← ask first_gateway;
    match g with
    | None => emit (Render "myun/instance/portmapping_add.html")
    | Some _ =>
        o ← set_myinstance e u;
        match o with
        | None => mret tt
        | Some i =>
            used ← ask (λ s, used_ports s u);
            p ← profile_of_user u;
            if pf_port p >? Z.of_nat used then k u i
            else emit (Write "You have not port number now.")
        end
    end) tt.

Definition PortMappingAdd_get (e : req) : Web Cloud unit :=
  PortMappingAdd_prepare e true (λ _ _, emit (Render "myun/instance/portmapping_add.html")).

(** [binding_iptables], [unbinding_iptables]: [ipt] tells that the iptables
    program can be started. *)
Definition binding_iptables (ipt : bool) (p : Z) : Web Cloud unit :=
  if ipt then
    P ← fetch (A := PortMapping) p;
    G ← fetch (A := Gateway) (pm_gateway_id P);
    IP ← fetch_opt (A := IPPool) (pm_ip_id P);
    emit (IptAdd (gw_ip G) (pm_gateway_port P) (ip_ip IP) (default 0 (pm_ip_port P)))
  else raise "OSError".

Definition unbinding_iptables (ipt : bool) (p : Z) : Web Cloud unit :=
  if ipt then
    P ← fetch (A := PortMapping) p;
    IP ← fetch_opt (A := IPPool) (pm_ip_id P);
    emit (IptDel (ip_ip IP) (default 0 (pm_ip_port P)))
  else raise "OSError".

Definition bind_port (ip n p : Z) : Web Cloud unit :=
  modify p (λ P : PortMapping, P <| pm_ip_id := Some ip |> <| pm_ip_port := Some n |>).

Definition PortMappingAdd_post (e : req) (ipt : bool) : Web Cloud unit :=
  PortMappingAdd_prepare e false (λ u i,
    f ← port_form e i;
    match f with
    | None => emit (Render "myun/instance/portmapping_add.html")
    | Some (ip, n) =>
        g ← ask first_gateway;
        match g with
        | None => raise "AttributeError: NoneType"
        | Some (g, _) =>
            FP ← ask (λ s, get_free_port s g);
            match FP with
            | None => emit (Render "myun/instance/portmapping_add.html")
            | Some (p, _) =>
                bind_port ip n p;; commit;;
                binding_iptables ipt p;;
                emit (view_url i)
            end
        end
    end).

Definition PortMappingDelete_get (e : req) (ipt : bool) : Web Cloud unit :=
  with_myinstance e true (λ _ i,
    let ID := default 0 (get_argument_int e "portmapping" (Some 0)) in
    if ID =? 0 then emit (Write "Give me portmapping id please.") else
    o ← get_row (A := PortMapping) ID;
    match o with
    | None => emit (Write "Can not find portmapping")
    | Some pm =>
        if unset (pm_ip_id pm) || unset (pm_ip_port pm)
        then emit (Write "Portmapping not binding.") else
        mine ← ask (λ s, existsb (λ x, bool_decide (pm_ip_id pm = Some x.1)) (ips_of s i));
        if negb (mine : bool) then emit (Write "Portmapping is not for your instance.") else
        unbinding_iptables ipt ID;;
        free_port ID;; commit;;
        emit (view_url i)
    end).

(** ** What the handlers do *)

(** Once the session is committed, [f] of the database stays when the rest of
    the run keeps it. *)
Lemma frozen_after {A X} (f : Cloud → X) (m : Web Cloud A) w :
  keeps (frozen f) m → f (comm w) = f (work w) → f (comm (m w).2) = f (work w).
Proof. intros H E. destruct (H w) as [_ [->| ->]]; done. Qed.

(** A port request changes nothing, binds a free port of the first gateway to
    an address of the user's instance, or unbinds such a port. *)
Inductive port_step (e : req) (s : Cloud) : Cloud → Prop :=
  | port_none : port_step e s s
  | port_add u i ip IP n g G p P pid pf :
      cur e = Some u → owned s u i →
      row s ip = Some IP → ip_instance_id IP = Some i → 20 ≤ n ≤ 65535 →
      (∀ q Q, row s q = Some Q → pm_ip_id Q = Some ip → pm_ip_port Q ≠ Some n) →
      first_gateway s = Some (g, G) → row s p = Some P → pm_gateway_id P = g →
      unset (pm_ip_id P) = true → unset (pm_ip_port P) = true →
      profile_of s u = Some (pid, pf) → Z.of_nat (used_ports s u) < pf_port pf →
      port_step e s (set_tbl (tput p (P <| pm_ip_id := Some ip |> <| pm_ip_port := Some n |>) (tbl s)) s)
  | port_delete u i ip IP p P :
      cur e = Some u → owned s u i →
      row s ip = Some IP → ip_instance_id IP = Some i →
      row s p = Some P → pm_ip_id P = Some ip →
      port_step e s (set_tbl (tput p (P <| pm_ip_id := None |> <| pm_ip_port := None |>) (tbl s)) s).

Lemma elem_of_ips s i ip IP : (ip, IP) ∈ ips_of s i ↔ row s ip = Some IP ∧ ip_instance_id IP = Some i.
Proof. unfold ips_of. by rewrite elem_of_select, bool_decide_eq_true. Qed.

Lemma port_form_run e i w :
  ∃ r, port_form e i w = (r, w) ∧ ∀ ip n, r = Val (Some (ip, n)) →
    20 ≤ n ≤ 65535 ∧ (∃ IP, row (work w) ip = Some IP ∧ ip_instance_id IP = Some i) ∧
    ∀ q Q, row (work w) q = Some Q → pm_ip_id Q = Some ip → pm_ip_port Q ≠ Some n.
Proof.
  unfold port_form, get_text. web_run.
  destruct (py_int _) as [k|]; web_run; [|eexists; split; [done|naive_solver]].
  destruct (row (work w) k) as [IP|] eqn:EI; [|eexists; split; [done|naive_solver]].
  simpl. destruct (int_field _ _ _) as [n|]; [|eexists; split; [done|naive_solver]].
  web_run. eexists. split; [done|]. intros ip n' [= H].
  destruct (_ && _) eqn:Ec in H; [|done]. injection H as <- <-. simpl in Ec. bool_prop.
  split_and!; [lia..|eauto|]. intros q Q HQ Hi Hp.
  assert ((q, Q) ∈ []) as []%not_elem_of_nil.
  rewrite <- H0. apply elem_of_select. split; [done|].
  by rewrite andb_true_iff, !bool_decide_eq_true.
Qed.

Lemma quiet_binding ipt p w : comm (binding_iptables ipt p w).2 = comm w.
Proof.
  unfold binding_iptables. destruct ipt; [|done]. web_run.
  destruct (row (work w) p) as [P|]; [|done]. web_run.
  destruct (row (work w) _) as [G|]; [|done]. unfold fetch_opt.
  destruct (pm_ip_id P) as [k|]; web_run; [|done]. by destruct (row (work w) k).
Qed.

Lemma get_free_port_spec s g p P :
  get_free_port s g = Some (p, P) →
  row s p = Some P ∧ pm_gateway_id P = g ∧ unset (pm_ip_id P) = true ∧ unset (pm_ip_port P) = true.
Proof.
  unfold get_free_port. intros [Hin H]%find_some. simpl in H. bool_prop.
  apply list_elem_of_In in Hin. apply elem_of_select in Hin as [HP Hg]. bool_prop. done.
Qed.

Lemma PortMappingAdd_prepare_run e k w :
  quiet w (PortMappingAdd_prepare e false k w) ∨
  ∃ u i pid pf, cur e = Some u ∧ owned (work w) u i ∧ profile_of (work w) u = Some (pid, pf) ∧
    Z.of_nat (used_ports (work w) u) < pf_port pf ∧ PortMappingAdd_prepare e false k w = k u i w.
Proof.
  unfold PortMappingAdd_prepare.
  match goal with |- context [authenticated e false ?m tt] =>
    destruct (authenticated_run e false m tt w) as [[_ H]|(u & Hu & ->)] end; [by left|].
  web_run. destruct (first_gateway (work w)); [|by left].
  destruct (set_myinstance_run e u w) as [Hq H].
  destruct (set_myinstance e u w) as [[[i|]|x] w1] eqn:Es;
    [|left; by rewrite (run_bind _ _ _ _ _ Es)|left; by rewrite (run_exn _ _ _ _ _ Es)].
  destruct (H i w1) as [-> Ho]; [done|]. rewrite (run_bind _ _ _ _ _ Es).
  unfold profile_of_user. web_run.
  destruct (profile_of (work w) u) as [[pid pf]|] eqn:Ep; web_run; [|by left].
  rewrite Z.gtb_ltb. destruct (Z.ltb_spec (Z.of_nat (used_ports (work w) u)) (pf_port pf));
    [|by left].
  right. exists u, i, pid, pf. done.
Qed.

Lemma PortMappingAdd_step e ipt s : port_step e s (request (PortMappingAdd_post e ipt) s).1.
Proof.
  unfold PortMappingAdd_post.
  match goal with |- context [PortMappingAdd_prepare e false ?k] =>
    destruct (PortMappingAdd_prepare_run e k (start s))
      as [H|(u & i & pid & pf & Hu & Ho & Hpf & Hused & H)] end.
  { rewrite request_quiet by done. constructor. }
  unfold request. rewrite H. clear H. simpl in Ho, Hpf, Hused.
  destruct (port_form_run e i (start s)) as (r & Hf & Hr).
  destruct r as [[[ip n]|]|x].
  - destruct (Hr ip n eq_refl) as (Hn & (IP & HIP & Hi) & Hold). simpl in *.
    erewrite run_bind by exact Hf. cbn beta iota. web_run. simpl.
    destruct (first_gateway s) as [[g G]|] eqn:Eg; [|constructor]. web_run. simpl.
    destruct (get_free_port s g) as [[p P]|] eqn:EP; [|constructor].
    destruct (get_free_port_spec s g p P EP) as (HP & Hg & Hu1 & Hu2).
    unfold bind_port. web_run. simpl. rewrite HP. web_run. simpl.
    set (w := mkWorld _ _ _).
    assert (comm ((binding_iptables ipt p;; emit (view_url i)) w).2 = comm w) as Hc.
    { unfold mbind, Web_bind. pose proof (quiet_binding ipt p w) as Hq.
      by destruct (binding_iptables ipt p w) as [[[]|x] w1]. }
    destruct ((binding_iptables ipt p;; _) w) as [r' w']. simpl in *. rewrite Hc. simpl.
    by eapply port_add.
  - erewrite run_bind by exact Hf. constructor.
  - rewrite (run_exn _ _ _ _ _ Hf). constructor.
Qed.

Lemma PortMappingDelete_step e ipt s : port_step e s (request (PortMappingDelete_get e ipt) s).1.
Proof.
  unfold PortMappingDelete_get.
  match goal with |- context [with_myinstance e true ?k] =>
    destruct (with_myinstance_run e true k (start s)) as [H|(u & i & Hu & Ho & H)] end.
  { rewrite request_quiet by done. constructor. }
  unfold request. rewrite H. clear H. simpl in Ho.
  destruct (_ =? 0); [constructor|]. web_run. simpl.
  set (p := default 0 _). destruct (row s p) as [P|] eqn:EP; [|constructor].
  destruct (unset _ || unset _); [constructor|]. web_run. simpl.
  destruct (existsb _ _) eqn:Ex; [|constructor]. simpl.
  apply existsb_exists in Ex as ([ip IP] & Hin%list_elem_of_In & Hip). simpl in Hip.
  bool_prop. apply elem_of_ips in Hin as [HIP Hi].
  unfold unbinding_iptables, fetch_opt, free_port. destruct ipt; [|constructor].
  web_run. simpl. rewrite EP. web_run. rewrite Hip. web_run. simpl. rewrite HIP.
  web_run. simpl. rewrite EP. web_run. simpl. by eapply port_delete.
Qed.

(** *** Counting ports *)

Definition port_count (s : Cloud) (ip : Z) : Z := Z.of_nat (length (ports_of_ip s ip)).

Lemma port_count_total s ip :
  port_count s ip = total (λ _ P, if bool_decide (pm_ip_id P = Some ip) then 1 else 0) (c_ports s).
Proof.
  unfold port_count, ports_of_ip. rewrite length_sum.
  by rewrite (sum_select (λ _ P, bool_decide (pm_ip_id P = Some ip)) (λ _ _, 1)).
Qed.

Lemma fold_length {A B} (f : A → list B) l n :
  Z.of_nat (foldl (λ n x, n + length (f x))%nat n l) =
  Z.of_nat n + sum_list_Z (λ x, Z.of_nat (length (f x))) l.
Proof. revert n. induction l as [|x l IH]; intros n; simpl; [lia|]. rewrite IH. lia. Qed.

(** The count as a sum over the tables. *)
Definition ports_of_instance (s : Cloud) (i : Z) : Z :=
  total (λ k IP, if bool_decide (ip_instance_id IP = Some i) then port_count s k else 0) (c_ips s).

Lemma used_ports_total s u :
  Z.of_nat (used_ports s u) =
  total (λ i I, if i_user_id I =? u then ports_of_instance s i else 0) (c_instances s).
Proof.
  assert (∀ i, sum_list_Z (λ IP, Z.of_nat (length (ports_of_ip s IP.1))) (ips_of s i) =
               ports_of_instance s i) as Hi.
  { intros i. unfold ips_of, ports_of_instance.
    by rewrite (sum_select (λ _ P, bool_decide (ip_instance_id P = Some i))
                  (λ k _, Z.of_nat (length (ports_of_ip s k)))). }
  transitivity (sum_list_Z (λ I, ports_of_instance s I.1) (instances_of s u)).
  2: { unfold instances_of.
       by rewrite (sum_select (λ _ I, i_user_id I =? u) (λ i _, ports_of_instance s i)). }
  unfold used_ports. generalize (instances_of s u). intros l.
  enough (∀ n, Z.of_nat (foldl (λ n I, foldl (λ n IP, n + length (ports_of_ip s IP.1)) n
    (ips_of s I.1))%nat n l) = Z.of_nat n + sum_list_Z (λ I, ports_of_instance s I.1) l) as ->
    by (simpl; lia).
  induction l as [|I l IH]; intros n; [simpl; lia|].
  cbn [foldl]. rewrite IH, fold_length, Hi. simpl. lia.
Qed.

(** One more port at an address counts once, for the owner of its instance. *)
Lemma used_ports_shift s s' i I ip IP v :
  c_instances s' = c_instances s → c_ips s' = c_ips s →
  row s i = Some I → row s ip = Some IP → ip_instance_id IP = Some i →
  (∀ k, port_count s' k ≤ port_count s k + if k =? ip then 1 else 0) →
  Z.of_nat (used_ports s' v) ≤ Z.of_nat (used_ports s v) + (if i_user_id I =? v then 1 else 0).
Proof.
  intros E1 E2 HI HIP Hi Hk. rewrite !used_ports_total, E1.
  assert (∀ k, ports_of_instance s' k ≤ ports_of_instance s k + if k =? i then 1 else 0) as Hp.
  { intros k. unfold ports_of_instance. rewrite E2.
    rewrite <- (total_single (c_ips s) ip IP (if k =? i then 1 else 0) HIP), <- total_add.
    apply total_le. intros j J HJ. specialize (Hk j).
    destruct (Z.eqb_spec j ip) as [Ej|]; [|case_bool_decide; lia].
    assert (J = IP) as -> by (unfold row in HIP; simpl in HIP; congruence). rewrite Hi.
    destruct (Z.eqb_spec k i) as [->|]; [rewrite bool_decide_true by done; lia|].
    rewrite bool_decide_false by congruence. lia. }
  rewrite <- (total_single (c_instances s) i I (if i_user_id I =? v then 1 else 0) HI).
  rewrite <- total_add. apply total_le. intros k J HJ. specialize (Hp k).
  destruct (Z.eqb_spec k i) as [Ek|]; [|destruct (_ =? v); lia].
  assert (J = I) as -> by (unfold row in HI; simpl in HI; congruence).
  destruct (_ =? v); lia.
Qed.

Lemma port_count_put s p P P' k :
  row s p = Some P →
  port_count (set_tbl (tput p P' (tbl s)) s) k =
  port_count s k - (if bool_decide (pm_ip_id P = Some k) then 1 else 0)
                 + (if bool_decide (pm_ip_id P' = Some k) then 1 else 0).
Proof.
  intros HP. rewrite !port_count_total. change (c_ports (set_tbl ?t s)) with t.
  by rewrite (total_update _ _ _ P) by done.
Qed.

(** ** Requests and histories *)

Inductive port_page := AddPort | DeletePort.

Definition port_handler (p : port_page) (e : req) (ipt : bool) : Web Cloud unit :=
  match p with
  | AddPort => PortMappingAdd_post e ipt
  | DeletePort => PortMappingDelete_get e ipt
  end.

Lemma port_handler_step p e ipt s : port_step e s (request (port_handler p e ipt) s).1.
Proof. destruct p; [apply PortMappingAdd_step|apply PortMappingDelete_step]. Qed.

Lemma port_step_used e s s' v :
  port_step e s s' →
  Z.of_nat (used_ports s' v) ≤ Z.of_nat (used_ports s v) ∨
  ∃ pid pf, profile_of s v = Some (pid, pf) ∧ Z.of_nat (used_ports s v) < pf_port pf ∧
    Z.of_nat (used_ports s' v) ≤ Z.of_nat (used_ports s v) + 1.
Proof.
  destruct 1 as [|u i ip IP n g G p P pid pf Hu (I & HI & HuI & _) HIP Hi _ _ _ HP _ Hun _ Hpf Hlt
    |u i ip IP p P Hu (I & HI & HuI & _) HIP Hi HP Hb]; [by left|..].
  - set (s1 := set_tbl _ s).
    assert (∀ k, port_count s1 k ≤ port_count s k + if k =? ip then 1 else 0) as Hk.
    { intros k. unfold s1. rewrite (port_count_put s p P) by done. simpl.
      destruct (Z.eqb_spec k ip); repeat case_bool_decide; simplify_eq; lia. }
    pose proof (used_ports_shift s s1 i I ip IP v eq_refl eq_refl HI HIP Hi Hk) as H.
    destruct (Z.eqb_spec (i_user_id I) v); [|left; lia]. right. simplify_eq.
    exists pid, pf. done.
  - left. rewrite !used_ports_total. apply total_le. intros k J HJ.
    assert (∀ k, ports_of_instance (set_tbl (tput p (P <| pm_ip_id := None |>
      <| pm_ip_port := None |>) (tbl s)) s) k ≤ ports_of_instance s k) as Hp.
    { intros j. apply total_le. intros m M HM. rewrite (port_count_put s p P) by done. simpl.
      repeat case_bool_decide; simplify_eq; lia. }
    specialize (Hp k). destruct (_ =? v); lia.
Qed.

(** No two ports of the gateways lead to the same port of the same address. *)
Definition targets_unique (s : Cloud) : Prop :=
  ∀ q q' Q Q' ip n, row s q = Some Q → row s q' = Some Q' →
    pm_ip_id Q = Some ip → pm_ip_id Q' = Some ip →
    pm_ip_port Q = Some n → pm_ip_port Q' = Some n → q = q'.

Lemma port_step_unique e s s' : port_step e s s' → targets_unique s → targets_unique s'.
Proof.
  destruct 1 as [|u i ip IP n g G p P pid pf _ _ _ _ _ Hnew _ HP _ _ _ _ _
    |u i ip IP p P _ _ _ _ HP _]; [done|..];
    intros Hinv q q' Q Q' k m; rewrite !row_put;
    repeat case_decide; subst; intros ? ? ? ? ? ?; simplify_eq/=; try done;
    try (by eapply Hinv); exfalso; by eapply Hnew.
Qed.

(** *** Addresses *)

(** An address request keeps every port mapping and the core of every instance,
    and changes at most one address: a free one is bound to the user's instance
    that has none, or one of the user's is released. *)
Inductive ip_change (e : req) (s : Cloud) : table IPPool → Prop :=
  | ip_none : ip_change e s (c_ips s)
  | ip_bind u i ip IP :
      cur e = Some u → owned s u i → ips_of s i = [] →
      row s ip = Some IP → unset (ip_instance_id IP) = true →
      ip_change e s (tput ip (IP <| ip_instance_id := Some i |>) (c_ips s))
  | ip_release u i I ip IP :
      cur e = Some u → row s i = Some I → i_user_id I = u →
      row s ip = Some IP → ip_instance_id IP = Some i →
      ip_change e s (tput ip (IP <| ip_instance_id := None |>) (c_ips s)).

Definition ip_step (e : req) (s s' : Cloud) : Prop :=
  c_ports s' = c_ports s ∧ core s' = core s ∧ ip_change e s (c_ips s').

Lemma network_form_run e w :
  ∃ r, network_form e w = (r, w) ∧ ∀ ip IP, r = Val (Some (ip, IP)) →
    row (work w) ip = Some IP ∧ unset (ip_instance_id IP) = true.
Proof.
  unfold network_form, get_text. web_run.
  destruct (py_int _) as [k|]; web_run; [|eexists; split; [done|naive_solver]].
  destruct (row (work w) k) as [P|]; simpl; [|eexists; split; [done|naive_solver]].
  web_run. eexists. split; [done|]. intros ip IP [= H]. case_bool_decide; [|done].
  unfold get_free_ip in H. apply find_some in H as [Hin Hu].
  apply list_elem_of_In, elem_of_select in Hin as [HIP _]. done.
Qed.

Lemma ip_step_quiet e s : ip_step e s s.
Proof. split_and!; [done..|constructor]. Qed.

(** What follows the commit of an address keeps it. *)
Lemma ip_step_after {A} e s t (m : Web Cloud A) o :
  ip_change e s t → (∀ X (f : Cloud → X), (∀ (t : table Instance) s, f (set_tbl t s) = f s) →
    (∀ (t : table LyTrace) s, f (set_tbl t s) = f s) → keeps (frozen f) m) →
  keeps (frozen core) m →
  ip_step e s (comm (m (mkWorld (set_tbl t s) (set_tbl t s) o)).2).
Proof.
  intros Ht Hm Hc. split_and!.
  - by rewrite (frozen_after c_ports) by first [done|by apply Hm].
  - by rewrite (frozen_after core) by done.
  - by rewrite (frozen_after c_ips) by first [done|by apply Hm].
Qed.

Lemma NetworkAdd_step e s : ip_step e s (request (NetworkAdd_post e) s).1.
Proof.
  unfold NetworkAdd_post, NetworkAdd_prepare.
  match goal with |- context [with_myinstance e false ?k] =>
    destruct (with_myinstance_run e false k (start s)) as [H|(u & i & Hu & Ho & H)] end.
  { rewrite request_quiet by done. apply ip_step_quiet. }
  rewrite request_fst, H. clear H. simpl in Ho. web_run. simpl.
  destruct (ips_of s i) eqn:En; simpl; [|apply ip_step_quiet].
  destruct (network_form_run e (start s)) as (r & Hf & Hr).
  destruct r as [[[ip IP]|]|x].
  - destruct (Hr ip IP eq_refl) as (HIP & Hun). simpl in HIP.
    erewrite run_bind by exact Hf. cbn beta iota. rewrite Hun. unfold bind_ip.
    web_run. change (work (start s)) with s. rewrite HIP. web_run.
    apply ip_step_after; [by eapply ip_bind| |].
      + intros X f Hf1 Hf2. frozen_auto; first [by apply frozen_update_network|by apply frozen_add_trace].
      + frozen_auto; first [apply frozen_core_update_network|by apply frozen_add_trace].
  - erewrite run_bind by exact Hf. apply ip_step_quiet.
  - rewrite (run_exn _ _ _ _ _ Hf). apply ip_step_quiet.
Qed.

Lemma NetworkAction_run e w :
  ∃ r o, NetworkAction e w = (r, mkWorld (work w) (comm w) o) ∧
    ∀ ip IP, r = Val (Some (ip, IP)) → o = outs w ∧ row (work w) ip = Some IP ∧
      (unset (ip_instance_id IP) = true ∨
       ∃ u i I, cur e = Some u ∧ ip_instance_id IP = Some i ∧ row (work w) i = Some I ∧
                i_user_id I = u).
Proof.
  unfold NetworkAction, no. destruct w as [d c o].
  destruct (_ =? 0); [do 2 eexists; split; [done|naive_solver]|]. web_run.
  destruct (row d _) as [IP|] eqn:EI; [|do 2 eexists; split; [done|naive_solver]].
  destruct (unset (ip_instance_id IP)) eqn:Eu.
  { do 2 eexists. split; [done|]. intros ip IP' [= <- <-]. simpl. auto. }
  destruct (ip_instance_id IP) as [i|] eqn:Ei; [|done]. simpl. web_run.
  destruct (row d i) as [ins|] eqn:EJ; [|do 2 eexists; split; [done|naive_solver]].
  destruct (cur e) as [u|]; [|do 2 eexists; split; [done|naive_solver]].
  destruct (Z.eqb_spec (i_user_id ins) u); simpl; [|do 2 eexists; split; [done|naive_solver]].
  do 2 eexists. split; [done|]. intros ip IP' [= <- <-]. split_and!; [done..|].
  right. by exists u, i, ins.
Qed.

(** Ids start at 1: no instance has id 0. *)
Lemma NetworkDelete_step e s :
  row (A := Instance) s 0 = None → ip_step e s (request (NetworkDelete_get e) s).1.
Proof.
  intros H0. unfold NetworkDelete_get. rewrite request_fst.
  destruct (NetworkAction_run e (start s)) as (r & o & Ha & Hr).
  destruct r as [[[ip IP]|]|x].
  - destruct (Hr ip IP eq_refl) as (-> & HIP & Hc). simpl in HIP, Hc.
    erewrite run_bind by exact Ha. unfold authenticated.
    destruct (cur e) as [u|] eqn:Hu; [|apply ip_step_quiet]. web_run.
    change (work (start s)) with s.
    destruct (ip_instance_id IP) as [i|] eqn:Ei; [|apply ip_step_quiet]. cbn [mbind option_bind].
    destruct (row s i) as [ins|] eqn:EI; [|apply ip_step_quiet]. cbn [mbind option_bind].
    destruct Hc as [Hc|(u' & i' & I & [= <-] & [= <-] & HI & HuI)].
    { simpl in Hc. bool_prop. subst i. by rewrite H0 in EI. }
    web_run. change (work (start s)) with s. rewrite HIP. web_run.
    apply ip_step_after; [by apply (ip_release e s u i I ip IP)| |].
      + intros X f Hf1 Hf2. frozen_auto; first [by apply frozen_update_network|by apply frozen_add_trace].
      + frozen_auto; first [apply frozen_core_update_network|by apply frozen_add_trace].
  - erewrite run_bind by exact Ha. unfold authenticated. destruct (cur e); apply ip_step_quiet.
  - rewrite (run_exn _ _ _ _ _ Ha). apply ip_step_quiet.
Qed.

Inductive net_page := AddNet | DeleteNet.

Definition net_handler (p : net_page) : req → Web Cloud unit :=
  match p with AddNet => NetworkAdd_post | DeleteNet => NetworkDelete_get end.

Lemma ips_of_length s i :
  Z.of_nat (length (ips_of s i)) =
  total (λ _ P, if bool_decide (ip_instance_id P = Some i) then 1 else 0) (c_ips s).
Proof.
  unfold ips_of. rewrite length_sum.
  by rewrite (sum_select (λ _ P, bool_decide (ip_instance_id P = Some i)) (λ _ _, 1)).
Qed.

Lemma ip_change_count e s s' i :
  ip_change e s (c_ips s') →
  (length (ips_of s' i) ≤ Nat.max 1 (length (ips_of s i)))%nat.
Proof.
  intros H. apply Nat2Z.inj_le. rewrite Nat2Z.inj_max, !ips_of_length.
  inversion H as [E|u j ip IP _ _ Hj HIP Hun E|u j I ip IP _ _ _ HIP Hj E];
    rewrite <- ?E; [lia|..]; rewrite (total_update _ _ _ IP) by done; simpl.
  - destruct (decide (j = i)) as [->|].
    + rewrite <- (ips_of_length s i), Hj. simpl. rewrite (bool_decide_true (Some i = Some i)) by done.
      case_bool_decide; lia.
    + rewrite (bool_decide_false (Some j = Some i)) by congruence. case_bool_decide; lia.
  - case_bool_decide; lia.
Qed.

(** ** Properties *)

(** Port mappings stay within the profile and never collide: whatever port
    request is served, the ports a user's instances have afterwards are no more
    than before or no more than the profile allows, and when no two mappings
    led to the same port of an address, none do afterwards. *)
Theorem port_mappings_safe p e ipt s v pid pf :
  profile_of s v = Some (pid, pf) → targets_unique s →
  let s' := (request (port_handler p e ipt) s).1 in
  Z.of_nat (used_ports s' v) ≤ Z.max (Z.of_nat (used_ports s v)) (pf_port pf) ∧
  targets_unique s'.
Proof.
  intros Hpf Hinv s'. pose proof (port_handler_step p e ipt s) as Hs. fold s' in Hs.
  split; [|by eapply port_step_unique].
  destruct (port_step_used e s s' v Hs) as [H|(pid' & pf' & Hpf' & Hlt & H)]; [lia|].
  rewrite Hpf in Hpf'. simplify_eq. lia.
Qed.

(** C18: address requests of a user: port mappings and the owners, sizes and
    states of instances stay; every address keeps its binding, or was free and
    goes to the user's instance that had none, or was bound to an instance of
    the user and becomes free; no instance gets a second address (ids start at 1,
    so there is no instance 0, for which an address without one could pass). A released
    address keeps its port mappings, which then lead to whoever gets it. *)
Theorem addresses_safe p e s :
  row (A := Instance) s 0 = None →
  let s' := (request (net_handler p e) s).1 in
  c_ports s' = c_ports s ∧ core s' = core s ∧
  (∀ ip IP, row s ip = Some IP → ∃ o, row s' ip = Some (IP <| ip_instance_id := o |>) ∧
     (o = ip_instance_id IP ∨
      (∃ u i, cur e = Some u ∧ unset (ip_instance_id IP) = true ∧ o = Some i ∧ owned s u i ∧
              ips_of s i = []) ∨
      ∃ u i I, cur e = Some u ∧ ip_instance_id IP = Some i ∧ row s i = Some I ∧
               i_user_id I = u ∧ o = None)) ∧
  ∀ i, (length (ips_of s' i) ≤ Nat.max 1 (length (ips_of s i)))%nat.
Proof.
  intros H0 s'.
  assert (ip_step e s s') as (Hp & Hc & Hi)
    by (destruct p; [apply NetworkAdd_step|by apply NetworkDelete_step]).
  split_and!; [done..| |intros i; by eapply ip_change_count].
  assert (∀ IP : IPPool, IP <| ip_instance_id := ip_instance_id IP |> = IP) as Hid by by intros [].
  intros ip IP HIP. change (row s' ip) with (rows (c_ips s') !! ip).
  change (rows (c_ips s) !! ip = Some IP) in HIP.
  inversion Hi as [E|u i k K Hu Ho Hn HK Hun E|u i I k K Hu HI HuI HK Hb E]; rewrite <- ?E.
  - exists (ip_instance_id IP). rewrite Hid. auto.
  - destruct (decide (k = ip)) as [->|Hk].
    + change (rows (c_ips s) !! ip = Some K) in HK. simplify_eq. exists (Some i).
      split; [apply lookup_insert_eq|]. right; left. eauto 10.
    + exists (ip_instance_id IP). rewrite Hid. simpl. rewrite lookup_insert_ne by done. auto.
  - destruct (decide (k = ip)) as [->|Hk].
    + change (rows (c_ips s) !! ip = Some K) in HK. simplify_eq. exists None.
      split; [apply lookup_insert_eq|]. right; right. eauto 10.
    + exists (ip_instance_id IP). rewrite Hid. simpl. rewrite lookup_insert_ne by done. auto.
Qed.

Lemma addresses_safe_witness :
  let e := rq (life_env 1 [("id", "2")]%string) in
  let s' := (request (net_handler DeleteNet e) life_cloud).1 in
  c_ports s' = c_ports life_cloud ∧ core s' = core life_cloud ∧
  (∀ ip IP, row life_cloud ip = Some IP → ∃ o, row s' ip = Some (IP <| ip_instance_id := o |>) ∧
     (o = ip_instance_id IP ∨
      (∃ u i, cur e = Some u ∧ unset (ip_instance_id IP) = true ∧ o = Some i ∧
              owned life_cloud u i ∧ ips_of life_cloud i = []) ∨
      ∃ u i I, cur e = Some u ∧ ip_instance_id IP = Some i ∧ row life_cloud i = Some I ∧
               i_user_id I = u ∧ o = None)) ∧
  ∀ i, (length (ips_of s' i) ≤ Nat.max 1 (length (ips_of life_cloud i)))%nat.
Proof. apply (addresses_safe DeleteNet (rq (life_env 1 _)) life_cloud). reflexivity. Defined.

(** The released address of the witness keeps its mapping. *)
Example released_keeps_mapping :
  let s' := (request (net_handler DeleteNet (rq (life_env 1 [("id", "2")]%string))) life_cloud).1 in
  ip_instance_id <$> row s' 2 = Some None ∧
  pm_ip_id <$> row s' 1 = Some (Some 2).
Proof. by vm_compute. Qed.

Definition gateway_cloud : Cloud :=
  life_cloud <| c_gateways := table_of [mkGateway "gw" "" "1.2.3.4" "" 2201 2203 ""] |>
    <| c_ports := table_of [mkPortMapping 2201 1 (Some 22) (Some 2); mkPortMapping 2202 1 None None] |>.
Definition port_req : req := rq (life_env 1 [("id", "1"); ("ip", "2"); ("port", "80")]%string).

Example port_bound :
  request (port_handler AddPort port_req true) gateway_cloud =
  (gateway_cloud <| c_ports := table_of [mkPortMapping 2201 1 (Some 22) (Some 2);
                                         mkPortMapping 2202 1 (Some 80) (Some 2)] |>,
   [IptAdd "1.2.3.4" 2202 "10.0.0.2" 80; view_url 1]).
Proof. by vm_compute. Qed.

Lemma port_mappings_safe_witness :
  let s' := (request (port_handler AddPort port_req true) gateway_cloud).1 in
  Z.of_nat (used_ports s' 1) ≤ Z.max (Z.of_nat (used_ports gateway_cloud 1)) (pf_port life_profile) ∧
  targets_unique s'.
Proof.
  apply (port_mappings_safe AddPort port_req true gateway_cloud 1 1 life_profile).
  - vm_compute. reflexivity.
  - assert (map_Forall (λ q Q, map_Forall (λ q' Q', pm_ip_id Q = pm_ip_id Q' →
      pm_ip_port Q = pm_ip_port Q' → q = q') (rows (c_ports gateway_cloud)))
      (rows (c_ports gateway_cloud))) as H by (apply (bool_decide_unpack _); vm_compute; exact Logic.I).
    intros q q' Q Q' ip n H1 H2 H3 H4 H5 H6. apply (H q Q H1 q' Q' H2); congruence.
Defined.
