(* ===== verification/MyDomain.v ===== *)
(** Domain names of a user's instances (src/lyweb/app/myun/instance: the domain
    handlers; src/lyweb/app/domain/models.py). *)
From Stdlib Require Import Ascii String.
From S2P Require Import Prelude PyText Table Session Cloud Quota InstanceModel Web Forms LifeControl Myun MyNetwork.
#[local] Open Scope Z_scope.

(** ** Handlers *)

Definition domains_of_user (s : Cloud) (u : Z) : list (Z * UserDomain) :=
  select (λ _ D, d_user_id D =? u) s.

Definition domains_named (s : Cloud) (name : string) : list (Z * UserDomain) :=
  select (λ _ D, String.eqb (d_domain D) name) s.

Definition DomainAdd_prepare (e : req) (get : bool) (k : Z → Z → Web Cloud unit) : Web Cloud unit :=
  with_myinstance e get (λ u i,
    used ← ask (λ s, length (domains_of_user s u));
    I ← fetch (A := Instance) i;
    p ← profile_of_user (i_user_id I);
    if pf_domain p >? Z.of_nat used then k u i
    else emit (Write "You have not domain binding now.")).

(** The form: a name in the language of the pattern, or none. *)
Definition domain_form (e : req) : option string :=
  let name := text_field e "domain" in
  if domain_re name then Some name else None.

(** The item [domain] of the instance's configuration. *)
Definition set_domain_item (e : req) (i : Z) (name : string) : Web Cloud unit :=
  I ← fetch (A := Instance) i;
  ip ← ask (λ s, access_ip s i I);
  match i_get "domain" (JObj []) I with
  | JObj l =>
      let ip := match ip with Some ip => JStr ip | None => JNull end in
      modify i (i_set (now e) "domain" (JObj (jset "domain" (JStr name) (jset "ip" ip l))))
  | _ => raise "TypeError"
  end.

Definition DomainAdd_post (e : req) : Web Cloud unit :=
  DomainAdd_prepare e false (λ u i,
    match domain_form e with
    | None => emit (Render "myun/instance/domain_edit.html")
    | Some name =>
        D ← ask (λ s, domains_named s name);
        match D with
        | _ :: _ => emit (Render "myun/instance/domain_edit.html")
        | [] =>
            _ ← add_row (mkUserDomain name u (Some i));
            commit;;
            set_domain_item e i name;; commit;;
            emit (view_url i)
        end
    end).

(** [DomainActionHandler.initialize] *)
Definition DomainAction (e : req) : Web Cloud (option (Z * UserDomain)) :=
  let ID := default 0 (get_argument_int e "id" (Some 0)) in
  if ID =? 0 then no "Give me the domain id please." else
  o ← get_row (A := UserDomain) ID;
  match o with
  | None => no "Can not find domain"
  | Some D =>
      ins ← fetch_opt (A := Instance) (d_instance_id D);
      match cur e with
      | None => raise "AttributeError: NoneType"
      | Some u => if negb (i_user_id ins =? u) then no "Not your domain."
                  else mret (Some (ID, D))
      end
  end.

Definition DomainDelete_get (e : req) : Web Cloud unit :=
  o ← DomainAction e;
  authenticated e true (λ _,
    match o with
    | None => mret tt
    | Some (d, D) =>
        delete_row UserDomain d;; commit;;
        emit (view_url (default 0 (d_instance_id D)))
    end) tt.

Definition DomainEdit_post (e : req) : Web Cloud unit :=
  o ← DomainAction e;
  authenticated e false (λ _,
    match o with
    | None => mret tt
    | Some (d, D) =>
        match domain_form e with
        | None => emit (Render "myun/instance/domain_edit.html")
        | Some name =>
            isexist ← ask (λ s, existsb (λ x, negb (x.1 =? d)) (domains_named s name));
            if (isexist : bool) then emit (Render "myun/instance/domain_edit.html") else
            modify d (λ D : UserDomain, D <| d_domain := name |>);; commit;;
            set_domain_item e (default 0 (d_instance_id D)) name;; commit;;
            emit (view_url (default 0 (d_instance_id D)))
        end
    end) tt.

(** ** What the handlers do *)

Inductive domain_change (e : req) (s : Cloud) : table UserDomain → Prop :=
  | dom_none : domain_change e s (c_domains s)
  | dom_add u i name pid pf :
      cur e = Some u → owned s u i → domain_re name = true →
      domains_named s name = [] → profile_of s u = Some (pid, pf) →
      Z.of_nat (length (domains_of_user s u)) < pf_domain pf →
      domain_change e s (tinsert (mkUserDomain name u (Some i)) (c_domains s)).2
  | dom_edit u i I d D name :
      cur e = Some u → row s d = Some D → d_instance_id D = Some i →
      row s i = Some I → i_user_id I = u → domain_re name = true →
      (∀ k K, row s k = Some K → d_domain K = name → k = d) →
      domain_change e s (tput d (D <| d_domain := name |>) (c_domains s))
  | dom_delete u i I d D :
      cur e = Some u → row s d = Some D → d_instance_id D = Some i →
      row s i = Some I → i_user_id I = u →
      domain_change e s (tdelete d (c_domains s)).

Lemma elem_of_domains_named s name k D :
  (k, D) ∈ domains_named s name ↔ row s k = Some D ∧ d_domain D = name.
Proof. unfold domains_named. by rewrite elem_of_select, String.eqb_eq. Qed.

Lemma frozen_domain_item {X} (f : Cloud → X) e i name :
  (∀ (t : table Instance) s, f (set_tbl t s) = f s) → keeps (frozen f) (set_domain_item e i name).
Proof. intros Hf. unfold set_domain_item. frozen_auto; by apply frozen_modify. Qed.

(** What follows the commit of a domain keeps it. *)
Lemma domain_after {A} e s t (m : Web Cloud A) o :
  domain_change e s t → keeps (frozen c_domains) m →
  domain_change e s (c_domains (comm (m (mkWorld (set_tbl t s) (set_tbl t s) o)).2)).
Proof. intros Ht Hm. by rewrite (frozen_after c_domains). Qed.

Lemma DomainAdd_change e s : domain_change e s (c_domains (request (DomainAdd_post e) s).1).
Proof.
  unfold DomainAdd_post, DomainAdd_prepare.
  match goal with |- context [with_myinstance e false ?k] =>
    destruct (with_myinstance_run e false k (start s)) as [H|(u & i & Hu & Ho & H)] end.
  { rewrite request_quiet by done. constructor. }
  rewrite request_fst, H. clear H. pose proof Ho as (I & HI & HuI & _). simpl in Ho, HI.
  unfold profile_of_user. web_run. change (work (start s)) with s. rewrite HI. web_run.
  change (work (start s)) with s. rewrite HuI.
  destruct (profile_of s u) as [[pid pf]|] eqn:Ep; web_run; [|constructor].
  rewrite Z.gtb_ltb. destruct (Z.ltb_spec (Z.of_nat (length (domains_of_user s u))) (pf_domain pf));
    [|constructor].
  unfold domain_form. destruct (domain_re _) eqn:Er; [|constructor]. web_run.
  change (work (start s)) with s. destruct (domains_named s _) eqn:En; [|constructor]. web_run.
  apply domain_after; [by eapply dom_add|]. frozen_auto; by apply frozen_domain_item.
Qed.

Lemma DomainAction_run e w :
  ∃ r o, DomainAction e w = (r, mkWorld (work w) (comm w) o) ∧
    ∀ d D, r = Val (Some (d, D)) → o = outs w ∧ row (work w) d = Some D ∧
      ∃ u i I, cur e = Some u ∧ d_instance_id D = Some i ∧ row (work w) i = Some I ∧ i_user_id I = u.
Proof.
  unfold DomainAction, no. destruct w as [d c o].
  destruct (_ =? 0); [do 2 eexists; split; [done|naive_solver]|]. web_run.
  destruct (row d _) as [D|] eqn:ED; [|do 2 eexists; split; [done|naive_solver]].
  destruct (d_instance_id D) as [i|] eqn:Ei; simpl; web_run;
    [|do 2 eexists; split; [done|naive_solver]].
  destruct (row d i) as [ins|] eqn:EJ; [|do 2 eexists; split; [done|naive_solver]].
  destruct (cur e) as [u|]; [|do 2 eexists; split; [done|naive_solver]].
  destruct (Z.eqb_spec (i_user_id ins) u); simpl; [|do 2 eexists; split; [done|naive_solver]].
  do 2 eexists. split; [done|]. intros k K [= <- <-]. split_and!; [done..|].
  by exists u, i, ins.
Qed.

Lemma DomainDelete_change e s : domain_change e s (c_domains (request (DomainDelete_get e) s).1).
Proof.
  unfold DomainDelete_get. rewrite request_fst.
  destruct (DomainAction_run e (start s)) as (r & o & Ha & Hr). destruct r as [[[d D]|]|x].
  - destruct (Hr d D eq_refl) as (-> & HD & u & i & I & Hu & Hi & HI & HuI).
    erewrite run_bind by exact Ha. unfold authenticated. rewrite Hu. web_run.
    by apply (dom_delete e s u i I d D).
  - erewrite run_bind by exact Ha. unfold authenticated. destruct (cur e); constructor.
  - rewrite (run_exn _ _ _ _ _ Ha). constructor.
Qed.

Lemma DomainEdit_change e s : domain_change e s (c_domains (request (DomainEdit_post e) s).1).
Proof.
  unfold DomainEdit_post. rewrite request_fst.
  destruct (DomainAction_run e (start s)) as (r & o & Ha & Hr). destruct r as [[[d D]|]|x].
  - destruct (Hr d D eq_refl) as (-> & HD & u & i & I & Hu & Hi & HI & HuI). simpl in HD, HI.
    erewrite run_bind by exact Ha. unfold authenticated. rewrite Hu.
    unfold domain_form. destruct (domain_re _) eqn:Er; [|constructor]. web_run.
    change (work (start s)) with s. destruct (existsb _ _) eqn:Ex; [constructor|]. web_run.
    change (work (start s)) with s. rewrite HD. web_run.
    apply domain_after; [|frozen_auto; by apply frozen_domain_item].
    apply (dom_edit e s u i I); try done. intros k K HK Hn.
    destruct (Z.eqb_spec k d) as [|Hne]; [done|]. exfalso.
    assert (existsb (λ x, negb (x.1 =? d)) (domains_named s (text_field e "domain")) = true);
      [|congruence].
    apply existsb_exists. exists (k, K).
    split; [by apply list_elem_of_In, elem_of_domains_named|]. simpl.
    by rewrite (proj2 (Z.eqb_neq k d)).
  - erewrite run_bind by exact Ha. unfold authenticated. destruct (cur e); constructor.
  - rewrite (run_exn _ _ _ _ _ Ha). constructor.
Qed.

(** ** Requests *)

Inductive domain_page := AddDomain | EditDomain | DeleteDomain.

Definition domain_handler (p : domain_page) : req → Web Cloud unit :=
  match p with
  | AddDomain => DomainAdd_post
  | EditDomain => DomainEdit_post
  | DeleteDomain => DomainDelete_get
  end.

Lemma domain_handler_change p e s :
  domain_change e s (c_domains (request (domain_handler p e) s).1).
Proof.
  destruct p; [apply DomainAdd_change|apply DomainEdit_change|apply DomainDelete_change].
Qed.

(** Well-formed names, no name twice. *)
Definition names_ok (t : table UserDomain) : Prop :=
  (∀ k D, rows t !! k = Some D → domain_re (d_domain D) = true) ∧
  ∀ k k' D D', rows t !! k = Some D → rows t !! k' = Some D' → d_domain D = d_domain D' → k = k'.

Lemma domain_change_names e s t : domain_change e s t → names_ok (c_domains s) → names_ok t.
Proof.
  destruct 1 as [|u i name pid pf _ _ Hre Hno _ _|u i I d D name _ HD _ _ _ Hre Hno
    |u i I d D _ HD _ _ _]; [done|..]; intros [H1 H2].
  - assert (∀ k K, rows (c_domains s) !! k = Some K → d_domain K ≠ name) as Hn.
    { intros k K HK HE. assert ((k, K) ∈ []) as []%not_elem_of_nil.
      rewrite <- Hno. by apply elem_of_domains_named. }
    split; simpl.
    + intros k K [[<- <-]|[_ HK]]%lookup_insert_Some; [done|by eapply H1].
    + intros k k' K K' [[<- <-]|[_ HK]]%lookup_insert_Some [[<- <-]|[_ HK']]%lookup_insert_Some HE;
        simpl in HE; [done|by destruct (Hn _ _ HK')|by destruct (Hn _ _ HK)|by eapply H2].
  - change (row s d = Some D) with (rows (c_domains s) !! d = Some D) in HD. split; simpl.
    + intros k K [[<- <-]|[_ HK]]%lookup_insert_Some; [done|by eapply H1].
    + intros k k' K K' [[<- <-]|[Hk HK]]%lookup_insert_Some [[<- <-]|[Hk' HK']]%lookup_insert_Some HE;
        simpl in HE; [done| | |by eapply H2].
      * symmetry. by eapply Hno.
      * by eapply Hno.
  - split; simpl.
    + intros k K [_ HK]%lookup_delete_Some. by eapply H1.
    + intros k k' K K' [_ HK]%lookup_delete_Some [_ HK']%lookup_delete_Some. by eapply H2.
Qed.

Definition domain_count (t : table UserDomain) (u : Z) : Z :=
  total (λ _ D, if d_user_id D =? u then 1 else 0) t.

Lemma domains_of_user_length s u :
  Z.of_nat (length (domains_of_user s u)) = domain_count (c_domains s) u.
Proof.
  unfold domains_of_user. rewrite length_sum.
  by rewrite (sum_select (λ _ D, d_user_id D =? u) (λ _ _, 1)).
Qed.

Lemma domain_change_count e s t v :
  seq_ok (c_domains s) → domain_change e s t →
  domain_count t v ≤ domain_count (c_domains s) v ∨
  ∃ pid pf, profile_of s v = Some (pid, pf) ∧ domain_count (c_domains s) v < pf_domain pf ∧
    domain_count t v ≤ domain_count (c_domains s) v + 1.
Proof.
  intros Hok. destruct 1 as [|u i name pid pf _ _ _ _ Hpf Hlt|u i I d D name _ HD _ _ _ _ _
    |u i I d D _ HD _ _ _]; [by left|..].
  - rewrite domains_of_user_length in Hlt. unfold domain_count.
    rewrite total_insert by done. simpl. destruct (Z.eqb_spec u v) as [->|]; [|left; lia].
    right. exists pid, pf. split_and!; [done..|lia].
  - left. unfold domain_count. rewrite (total_update _ _ _ D) by done. simpl. lia.
  - left. unfold domain_count. rewrite (total_delete _ (c_domains s) d D) by done.
    destruct (_ =? _); lia.
Qed.

(** ** Properties *)

(** C19: domain requests keep names apart and within bounds: every domain stays
    a well-formed name, no two rows share one, a user has no more than before
    or than the profile allows, and the domains of other users' instances are
    not touched. *)
Theorem domains_safe p e s v pid pf :
  seq_ok (c_domains s) → names_ok (c_domains s) → profile_of s v = Some (pid, pf) →
  let t := c_domains (request (domain_handler p e) s).1 in
  names_ok t ∧
  domain_count t v ≤ Z.max (domain_count (c_domains s) v) (pf_domain pf) ∧
  ∀ d D i I, row s d = Some D → d_instance_id D = Some i → row s i = Some I →
    cur e ≠ Some (i_user_id I) → rows t !! d = Some D.
Proof.
  intros Hok Hn Hpf t. pose proof (domain_handler_change p e s) as Hc. fold t in Hc.
  split_and!; [by eapply domain_change_names| |].
  - destruct (domain_change_count e s t v Hok Hc) as [H|(pid' & pf' & Hpf' & Hlt & H)]; [lia|].
    rewrite Hpf in Hpf'. simplify_eq. lia.
  - intros d D i I HD Hi HI Hne. change (row s d) with (rows (c_domains s) !! d) in HD.
    destruct Hc as [|u j name pid' pf' _ _ _ _ _ _|u j J k K name Hu HK Hj HJ HuJ _ _
      |u j J k K Hu HK Hj HJ HuJ]; [done|..].
    + simpl. rewrite lookup_insert_ne; [done|]. intros <-. rewrite Hok in HD; [done|lia].
    + simpl. rewrite lookup_insert_ne; [done|]. intros ->.
      change (row s d) with (rows (c_domains s) !! d) in HK. congruence.
    + simpl. rewrite lookup_delete_ne; [done|]. intros ->.
      change (row s d) with (rows (c_domains s) !! d) in HK. congruence.
Qed.

Definition domain_req : req := rq (life_env 1 [("id", "1"); ("domain", "a.example.org")]%string).

Example domain_added :
  d_domain <$> row (request (domain_handler AddDomain domain_req) life_cloud).1 2
  = Some "a.example.org"%string.
Proof. by vm_compute. Qed.

Lemma domains_safe_witness :
  let t := c_domains (request (domain_handler AddDomain domain_req) life_cloud).1 in
  names_ok t ∧
  domain_count t 1 ≤ Z.max (domain_count (c_domains life_cloud) 1) (pf_domain life_profile) ∧
  ∀ d D i I, row life_cloud d = Some D → d_instance_id D = Some i → row life_cloud i = Some I →
    cur domain_req ≠ Some (i_user_id I) → rows t !! d = Some D.
Proof.
  apply (domains_safe AddDomain domain_req life_cloud 1 1 life_profile).
  - intros k Hk. assert (k ≠ 1) by (intros ->; vm_compute in Hk; discriminate Hk).
    change (rows (c_domains life_cloud)) with
      (<[1 := mkUserDomain "web.example.org" 1 (Some 1)]> (∅ : gmap Z UserDomain)).
    rewrite lookup_insert_ne by done. reflexivity.
  - assert (map_Forall (λ k D, domain_re (d_domain D) = true ∧
      map_Forall (λ k' D', d_domain D = d_domain D' → k = k') (rows (c_domains life_cloud)))
      (rows (c_domains life_cloud))) as H
      by (apply (bool_decide_unpack _); vm_compute; exact Logic.I).
    split; [intros k D HD; by apply (H k D HD)|].
    intros k k' D D' HD HD' E. by apply (H k D HD) with D'.
  - vm_compute. reflexivity.
Defined.
