(* ===== verification/MyCreate.v ===== *)
(** Creating an instance (src/lyweb/app/myun/instance: InstanceCreate and its
    forms): quota, appliance, first address, password and key. *)
From Stdlib Require Import Ascii String.
From S2P Require Import Prelude PyText Table Session Cloud Quota InstanceModel Web Forms LifeControl Myun MyNetwork.
#[local] Open Scope Z_scope.

(** ** What comes before the form *)

(** The appliance named by the request: a message when it may not be used,
    otherwise the appliance, or none when the request names no existing one. *)
Definition named_appliance (e : req) (u : Z) : Web Cloud (string + option Z) :=
  match get_argument_int e "appliance_id" None with
  | None => mret (inr None)
  | Some a =>
      if a =? 0 then mret (inr None) else
      o ← get_row (A := Appliance) a;
      mret (match o with
            | None => inr None
            | Some A =>
                if a_isprivate A && negb (u =? a_user_id A) then inl "Appliance is private."%string
                else if negb (a_isuseable A) then inl "Appliance is locked."%string
                else inr (Some a)
            end)
  end.

(** The comparisons with [and]: the later amounts are only computed when the earlier suffice. *)
Definition enough_left (e : req) (p : UserProfile) : Web Cloud bool :=
  c ← quota (now e) (Z.eqb T_CPU) (pf_user_id p) (λ s, cpu_remain (now e) s p);
  if negb (1 <=? c) then mret false else
  m ← quota (now e) (Z.eqb T_MEMORY) (pf_user_id p) (λ s, memory_remain (now e) s p);
  if negb (64 <=? m) then mret false else
  i ← quota (now e) (Z.eqb T_INSTANCE) (pf_user_id p) (λ s, instance_remain (now e) s p);
  mret (1 <=? i).

Definition InstanceCreate_prepare (e : req) (get : bool) (k : Z → option Z → Web Cloud unit) :
    Web Cloud unit :=
  need_permission e get "instance.create" (
    match cur e with
    | None => mret tt
    | Some u =>
        A ← named_appliance e u;
        match A with
        | inl msg => emit (Write msg)
        | inr A =>
            p ← ask (λ s, profile_of s u);
            match p with
            | None => emit (Write "System Error: have not find user profile.")
            | Some (_, p) =>
                enough ← enough_left e p;
                if (enough : bool) then k u A
                else emit (Redirect "no_resource" 0)
            end
        end
    end) tt.

(** ** The form *)

(** The appliances offered when the request names none. *)
Definition public_appliances (s : Cloud) : list (Z * Appliance) :=
  select (λ _ A, negb (a_isprivate A) && a_isuseable A) s.

Definition name_used (s : Cloud) (u : Z) (name : string) : bool :=
  negb (bool_decide (select (λ _ I, String.eqb (i_name I) name && (i_user_id I =? u)) s = [])).

Record create_data := mkCreate { cd_name : string; cd_cpus : Z; cd_memory : Z; cd_private : bool }.

(** [InstanceCreateBaseForm] *)
Definition create_base (e : req) (u : Z) : Web Cloud (option create_data) :=
  let name := text_field e "name" in
  used ← ask (λ s, name_used s u name);
  p ← profile_of_user u;
  cpu ← quota (now e) (Z.eqb T_CPU) (pf_user_id p) (λ s, cpu_remain (now e) s p);
  mem ← quota (now e) (Z.eqb T_MEMORY) (pf_user_id p) (λ s, memory_remain (now e) s p);
  mret (match int_field e "cpus" (Some 1), int_field e "memory" (Some 256) with
        | Some c, Some m =>
            if length_ok 2 30 name && negb used && (1 <=? c) && negb (cpu <? c) &&
               (64 <=? m) && negb (mem <? m)
            then Some (mkCreate name c m (bool_field e "isprivate")) else None
        | _, _ => None
        end).

(** [InstanceCreateForm] adds the choice of an appliance. *)
Definition create_form (e : req) (u : Z) (A : option Z) : Web Cloud (option create_data) :=
  d ← create_base e u;
  match A with
  | Some _ => mret d
  | None =>
      choices ← ask (λ s, id_choices (public_appliances s));
      mret (if bool_decide (select_field e "appliance" ∈ choices) then d else None)
  end.

(** ** After the instance is stored *)

(** The first free address over the pools in turn. *)
Fixpoint first_free (s : Cloud) (pools : list (Z * NetworkPool)) : option (Z * IPPool) :=
  match pools with
  | [] => None
  | N :: pools => match get_free_ip s N.1 with
                  | Some x => Some x
                  | None => first_free s pools
                  end
  end.

Definition set_ip (e : req) (i : Z) : Web Cloud unit :=
  free ← ask (λ s, first_free s (all_rows NetworkPool s));
  match free with
  | None => mret tt
  | Some (ip, IP) =>
      if negb (unset (ip_instance_id IP)) then mret tt else
      bind_ip i ip;; commit;;
      do_update_network e i;; commit;;
      add_trace e LY_TARGET_IP ip "get ip";; commit
  end.

Definition set_secret (e : req) (u i : Z) : Web Cloud unit :=
  p ← profile_of_user u;
  let passwd := pf_get_root_password p in
  (if truthy passwd then
     modify i (i_set (now e) "passwd_hash" passwd);;
     modify i (i_set (now e) "use_global_passwd" (JBool true));; commit
   else mret tt);;
  K ← ask (λ s, head (keys_of s u));
  match K with
  | Some (_, K) =>
      if String.eqb (k_data K) "" then mret tt
      else modify i (i_set (now e) "public_key" (JStr (k_data K)));; commit
  | None => mret tt
  end.

(** [cookie] is the random session key of [init_config]. *)
Definition created_instance (e : req) (cookie : string) (u a : Z) (d : create_data) : Instance :=
  (new_instance (cd_name d) u a (now e) cookie)
    <| i_cpus := cd_cpus d |> <| i_memory := cd_memory d |> <| i_isprivate := cd_private d |>.

Definition InstanceCreate_post (e : req) (cookie : string) : Web Cloud unit :=
  InstanceCreate_prepare e false (λ u A,
    d ← create_form e u A;
    match d with
    | None => emit (Render "myun/instance/create.html")
    | Some d =>
        A ← match A with
            | Some a => mret (Some a)
            | None => o ← get_text (A := Appliance) (select_field e "appliance");
                      mret (fst <$> o)
            end;
        match A with
        | None => emit (Write "Give me the appliance please.")
        | Some a =>
            i ← add_row (created_instance e cookie u a d);
            commit;;
            set_ip e i;;
            set_secret e u i;;
            emit (view_url i)
        end
    end).

(** ** What a creation does *)

(** The appliance of the request: the one its argument names, or, when that names none, the
    one chosen in the form among those that are public and usable. *)
Definition asked_for (e : req) (s : Cloud) (a : Z) : Prop :=
  (get_argument_int e "appliance_id" None = Some a ∧ a ≠ 0) ∨
  ((∀ k, get_argument_int e "appliance_id" None = Some k → k = 0 ∨ row (A := Appliance) s k = None) ∧
   py_int (select_field e "appliance") = Some a ∧
   ∃ A : Appliance, row s a = Some A ∧ a_isprivate A = false).

(** The data are those of the form. *)
Definition form_data (e : req) (d : create_data) : Prop :=
  cd_name d = text_field e "name" ∧ int_field e "cpus" (Some 1) = Some (cd_cpus d) ∧
  int_field e "memory" (Some 256) = Some (cd_memory d) ∧ cd_private d = bool_field e "isprivate".

(** What must hold of the instance that a request may store. *)
Definition may_create (e : req) (s : Cloud) (u a : Z) (d : create_data) : Prop :=
  user_has s "instance.create" u = true ∧ asked_for e s a ∧ form_data e d ∧
  (∃ A, row s a = Some A ∧ a_isuseable A = true ∧ (a_isprivate A = false ∨ a_user_id A = u)) ∧
  length_ok 2 30 (cd_name d) = true ∧ name_used s u (cd_name d) = false ∧
  ∃ pid p, profile_of s u = Some (pid, p) ∧ 1 ≤ cd_cpus d ≤ cpu_remain (now e) s p ∧
    64 ≤ cd_memory d ≤ memory_remain (now e) s p ∧ 1 ≤ instance_remain (now e) s p.

Lemma named_appliance_run e u w :
  ∃ r, named_appliance e u w = (Val r, w) ∧
  (∀ a, r = inr (Some a) → get_argument_int e "appliance_id" None = Some a ∧ a ≠ 0 ∧
     ∃ A, row (work w) a = Some A ∧ a_isuseable A = true ∧ (a_isprivate A = false ∨ a_user_id A = u)) ∧
  (r = inr None → ∀ k, get_argument_int e "appliance_id" None = Some k →
     k = 0 ∨ row (A := Appliance) (work w) k = None).
Proof.
  unfold named_appliance. destruct (get_argument_int _ _ _) as [a|]; web_run;
    [|by eexists].
  destruct (Z.eqb_spec a 0) as [->|Ha]; web_run.
  { eexists. split_and!; [done|done|]. intros _ k [= <-]. by left. }
  eexists. split; [done|]. destruct (row (work w) a) as [A|] eqn:EA.
  - split.
    + intros k. destruct (a_isprivate A) eqn:Ep, (Z.eqb_spec u (a_user_id A)), (a_isuseable A) eqn:Eu;
        simpl; intros [= <-]; (split_and!; [done..|]); exists A; auto.
    + destruct (a_isprivate A), (u =? a_user_id A), (a_isuseable A); done.
  - split; [done|]. intros _ k [= <-]. by right.
Qed.

Lemma enough_left_run e p w :
  ∃ r, enough_left e p w = (r, w) ∧
    (r = Val true → 1 ≤ cpu_remain (now e) (work w) p ∧ 64 ≤ memory_remain (now e) (work w) p ∧
       1 ≤ instance_remain (now e) (work w) p).
Proof.
  unfold enough_left. web_run.
  destruct (comparable _ _ _ _); [|by eexists]. destruct (negb _) eqn:E1; [by eexists|]. bool_prop. web_run.
  destruct (comparable _ _ _ _); [|by eexists]. destruct (negb _) eqn:E2; [by eexists|]. web_run.
  destruct (comparable _ _ _ _); [|by eexists]. web_run. eexists. split; [done|].
  intros [= H]. by bool_prop.
Qed.

Lemma create_base_run e u w :
  ∃ r, create_base e u w = (r, w) ∧ ∀ d, r = Val (Some d) →
    form_data e d ∧ length_ok 2 30 (cd_name d) = true ∧ name_used (work w) u (cd_name d) = false ∧
    ∃ pid p, profile_of (work w) u = Some (pid, p) ∧
      1 ≤ cd_cpus d ≤ cpu_remain (now e) (work w) p ∧
      64 ≤ cd_memory d ≤ memory_remain (now e) (work w) p.
Proof.
  unfold create_base, profile_of_user. web_run.
  destruct (profile_of (work w) u) as [[pid p]|] eqn:Ep; web_run;
    [|eexists; split; [done|done]].
  do 2 (destruct (comparable _ _ _ _); web_run; [|eexists; split; [done|done]]).
  eexists. split; [done|]. intros d [= H].
  destruct (int_field e "cpus" (Some 1)) as [c|] eqn:E1; [|done].
  destruct (int_field e "memory" (Some 256)) as [m|] eqn:E2; [|done].
  destruct (_ && _) eqn:Ec in H; [|done]. injection H as <-. bool_prop. simpl.
  split; [by repeat split|]. split_and!; [done|done|]. exists pid, p. split_and!; [done|lia..].
Qed.

Lemma create_form_run e u A w :
  ∃ r, create_form e u A w = (r, w) ∧ ∀ d, r = Val (Some d) →
    (∃ w', create_base e u w = (Val (Some d), w')) ∧
    (A = None → select_field e "appliance" ∈ id_choices (public_appliances (work w))).
Proof.
  unfold create_form. destruct (create_base_run e u w) as (r & Hb & _). destruct r as [d|x].
  - rewrite (run_bind _ _ _ _ _ Hb). destruct A; web_run; (eexists; split; [done|]).
    + intros d' [= ->]. split; [eauto|done].
    + intros d' [= H]. case_bool_decide; [|done]. subst. split; [eauto|done].
  - rewrite (run_exn _ _ _ _ _ Hb). eexists. split; [done|done].
Qed.

(** What runs once the instance is stored. *)
Definition equip (e : req) (u j : Z) : Web Cloud unit :=
  set_ip e j;; set_secret e u j;; emit (view_url j).

Lemma InstanceCreate_run e cookie w :
  quiet w (InstanceCreate_post e cookie w) ∨
  ∃ u a d, cur e = Some u ∧ may_create e (work w) u a d ∧
    InstanceCreate_post e cookie w =
    (i ← add_row (created_instance e cookie u a d); commit;; equip e u i) w.
Proof.
  unfold InstanceCreate_post, InstanceCreate_prepare, need_permission.
  destruct (cur e) as [u|] eqn:Hu; [|by left]. web_run.
  destruct (user_has (work w) "instance.create" u) eqn:Hperm; [|by left].
  destruct (named_appliance_run e u w) as (rA & HA & HrA & HrN).
  rewrite (run_bind _ _ _ _ _ HA). destruct rA as [msg|A]; [by left|]. web_run.
  destruct (profile_of (work w) u) as [[pid p]|] eqn:Hp; [|by left]. web_run.
  destruct (enough_left_run e p w) as (rn & Hn & Hen).
  destruct rn as [[]|x]; [|left; by rewrite (run_bind _ _ _ _ _ Hn)
                          |left; by rewrite (run_exn _ _ _ _ _ Hn)].
  rewrite (run_bind _ _ _ _ _ Hn). destruct (Hen eq_refl) as (_ & _ & Hins). clear Hn.
  destruct (create_form_run e u A w) as (r & Hf & Hr).
  destruct r as [[d|]|x]; [|left; by rewrite (run_bind _ _ _ _ _ Hf)
                            |left; by rewrite (run_exn _ _ _ _ _ Hf)].
  rewrite (run_bind _ _ _ _ _ Hf). destruct (Hr d eq_refl) as ((w' & Hb) & Hc). clear Hr Hf.
  destruct (create_base_run e u w) as (r & Hb' & Hd). rewrite Hb in Hb'. simplify_eq.
  destruct (Hd d eq_refl) as (Hform & Hl & Hnu & pid' & p' & Hp' & Hcpu & Hmem). simplify_eq.
  destruct A as [a|].
  - right. destruct (HrA a eq_refl) as (Harg & Ha0 & HA'). exists u, a, d.
    split_and!; [done| |by web_run]. split_and!; [done|by left|done|done..|].
    exists pid, p. split_and!; [done|lia..].
  - web_run. unfold get_text.
    destruct (py_int (select_field e "appliance")) as [k|] eqn:Ek; web_run; [|by left].
    destruct (choice_id _ _ k Ek (Hc eq_refl)) as (A & HA'). apply elem_of_select in HA' as [HA' Ha].
    rewrite HA'. web_run. right. exists u, k, d. bool_prop.
    split_and!; [done| |by web_run]. split_and!; [done| |done|exists A; auto|done..|].
    { right. split; [by apply HrN|]. split; [done|]. by exists A. }
    exists pid, p. split_and!; [done|lia..].
Qed.

(** The addresses a creation leaves: each keeps its binding, or was free and is
    now the new instance's. *)
Definition ips_grow (s : Cloud) (j : Z) (s' : Cloud) : Prop :=
  ∀ ip IP, row s ip = Some IP → ∃ o, row s' ip = Some (IP <| ip_instance_id := o |>) ∧
    (o = ip_instance_id IP ∨ unset (ip_instance_id IP) = true ∧ o = Some j).

Definition other_instances (j : Z) (s : Cloud) : gmap Z Instance := delete j (rows (c_instances s)).

Lemma frozen_others_put j (I : Instance) : keeps (frozen (other_instances j)) (put_row j I).
Proof.
  apply frozen_change. intros s. unfold other_instances. simpl. apply delete_insert_eq.
Qed.

Lemma frozen_others_modify j (g : Instance → Instance) : keeps (frozen (other_instances j)) (modify j g).
Proof.
  unfold modify. frozen_auto. apply frozen_others_put.
Qed.

Lemma equip_others e u j : keeps (frozen (other_instances j)) (equip e u j).
Proof.
  unfold equip, set_ip, set_secret, bind_ip, profile_of_user, do_update_network.
  frozen_auto; first [apply frozen_others_modify|apply frozen_others_put|by apply frozen_add_trace].
Qed.

Lemma equip_core e u j : keeps (frozen core) (equip e u j).
Proof.
  unfold equip, set_ip, set_secret, bind_ip, profile_of_user.
  frozen_auto; first [by apply frozen_core_modify|apply frozen_core_update_network
                     |by apply frozen_add_trace].
Qed.

(** What of an instance no step after its creation writes. *)
Definition shell (I : Instance) : Instance :=
  I <| i_config := None |> <| i_ischanged := false |> <| i_updated := 0 |>.
Definition shells (s : Cloud) : gmap Z Instance := shell <$> rows (c_instances s).

Lemma shells_put s i (I I' : Instance) :
  row s i = Some I → shell I' = shell I → shells (set_tbl (tput i I' (tbl s)) s) = shells s.
Proof.
  intros HI E. unfold shells. simpl. rewrite fmap_insert, E. apply insert_id. rewrite lookup_fmap.
  unfold row in HI. simpl in HI. by rewrite HI.
Qed.

Lemma shells_row s s0 i I :
  shells s = shells s0 → row s0 i = Some I → ∃ J, row s i = Some J ∧ shell J = shell I.
Proof.
  intros H HI. apply (f_equal (.!! i)) in H. unfold shells in H. rewrite !lookup_fmap in H.
  change (shell <$> row s i = shell <$> row s0 i) in H. rewrite HI in H.
  destruct (row s i) as [J|]; [|done]. exists J. split; [done|]. by apply (inj Some) in H.
Qed.

Lemma frozen_shells_modify i g : (∀ I, shell (g I) = shell I) → keeps (frozen shells) (modify i g).
Proof.
  intros Hg. apply keeps_modify; [apply _|]. intros s c o I HI.
  split; [by eapply shells_put|by left].
Qed.

Lemma update_network_shell now s i I I' : update_network now s i I = Some I' → shell I' = shell I.
Proof.
  unfold update_network. destruct (match i_get _ _ _ with JObj _ => _ | _ => _ end); [|done].
  cbn [mbind option_bind]. destruct (foldl _ _ _) as [[[n ns] d]|]; [|done].
  cbn [mbind option_bind]. intros [= <-]. simpl. by destruct (is_running _).
Qed.

Lemma frozen_shells_network e i : keeps (frozen shells) (do_update_network e i).
Proof.
  intros w. unfold do_update_network, fetch, ask, mbind, Web_bind. simpl.
  destruct (row (work w) i) as [I|] eqn:E; [|done]. simpl.
  destruct (update_network _ _ _ _) as [I'|] eqn:EU; [|done].
  split; [|by left]. simpl. eapply shells_put; [done|]. by eapply update_network_shell.
Qed.

Lemma equip_shells e u j : keeps (frozen shells) (equip e u j).
Proof.
  unfold equip, set_ip, set_secret, bind_ip, profile_of_user.
  frozen_auto; first [by apply frozen_shells_modify|apply frozen_shells_network
                     |by apply frozen_add_trace].
Qed.

Lemma ips_grow_ips s j s1 s2 : c_ips s1 = c_ips s2 → ips_grow s j s1 → ips_grow s j s2.
Proof.
  intros E H ip IP HIP. destruct (H ip IP HIP) as (o & Ho & Hc). exists o. split; [|done].
  change (rows (c_ips s2) !! ip = Some (IP <| ip_instance_id := o |>)). by rewrite <- E.
Qed.

Lemma first_free_spec s pools ip IP :
  first_free s pools = Some (ip, IP) → row s ip = Some IP ∧ unset (ip_instance_id IP) = true.
Proof.
  induction pools as [|N pools IH]; simpl; [done|].
  destruct (get_free_ip s N.1) as [x|] eqn:E; [|done]. intros [= ->].
  unfold get_free_ip in E. apply find_some in E as [Hin Hu].
  apply list_elem_of_In, elem_of_select in Hin as [HIP _]. done.
Qed.

Lemma ips_grow_bind s j s1 ip IP :
  ips_grow s j s1 → row s1 ip = Some IP → unset (ip_instance_id IP) = true →
  ips_grow s j (set_tbl (tput ip (IP <| ip_instance_id := Some j |>) (tbl s1)) s1).
Proof.
  intros H HIP Hun k K HK. destruct (H k K HK) as (o & Ho & Hc). rewrite row_put.
  destruct (decide (ip = k)) as [->|]; [|eauto].
  exists (Some j). rewrite HIP in Ho. injection Ho as ->. split; [done|].
  right. split; [|done]. simpl in Hun. destruct Hc as [->|[? _]]; done.
Qed.

Lemma keeps_grow_set_ip s e j : keeps (inv_rel (ips_grow s j)) (set_ip e j).
Proof.
  unfold set_ip. apply inv_ask. intros w Hw Hc.
  destruct (first_free _ _) as [[ip IP]|] eqn:Ef; [|done].
  destruct (first_free_spec _ _ _ _ Ef) as [HIP Hun]. rewrite Hun. simpl. unfold bind_ip. web_run.
  rewrite HIP. web_run.
  match goal with |- ips_grow _ _ (work (?m ?w1).2) ∧ _ =>
    assert (keeps (inv_rel (ips_grow s j)) m) as Hk;
      [|apply (Hk w1); cbn [work comm]; by apply ips_grow_bind] end.
  apply (frozen_inv c_ips); [exact (ips_grow_ips s j)|].
  frozen_auto; first [by apply frozen_update_network|by apply frozen_add_trace].
Qed.

Lemma equip_ips s e u j : keeps (inv_rel (ips_grow s j)) (equip e u j).
Proof.
  unfold equip. apply keeps_bind; [apply _|apply keeps_grow_set_ip|intros []].
  apply (frozen_inv c_ips); [exact (ips_grow_ips s j)|].
  unfold set_secret, profile_of_user. frozen_auto.
Qed.

Lemma core_insert s I :
  core (set_tbl (tinsert I (tbl s)).2 s) = <[seq (c_instances s) + 1 := core_of I]> (core s).
Proof. unfold core. simpl. apply fmap_insert. Qed.

Lemma count_core s s' u : core s = core s' → instance_count s u = instance_count s' u.
Proof. intros E. apply instance_count_owners. by rewrite !owners_core, E. Qed.

(** ** Properties *)

(** C12: creating an instance: the database is as before, or holds one new
    instance of the current user, stopped and on no node, of the appliance the request
    asks for, which is usable and public or the user's own, under the name of the form,
    which the user has not used, private as the form says, with its CPU and
    memory, which the user's quota still allows, and no more instances than
    granted. Every other instance is as it was; an address keeps its binding or
    was free and is the new instance's. *)
Theorem InstanceCreate_spec e cookie s :
  seq_ok (c_instances s) →
  let s' := (request (InstanceCreate_post e cookie) s).1 in
  let j := seq (c_instances s) + 1 in
  s' = s ∨ ∃ u a d pid p,
    cur e = Some u ∧ may_create e s u a d ∧ profile_of s u = Some (pid, p) ∧
    (∃ J, row s' j = Some J ∧ i_name J = text_field e "name" ∧ i_user_id J = u ∧ i_appliance_id J = a ∧
       i_isprivate J = bool_field e "isprivate" ∧ i_cpus J = cd_cpus d ∧ i_memory J = cd_memory d ∧
       i_status J = 1 ∧ i_node_id J = None) ∧
    core s' = <[j := (u, cd_cpus d, cd_memory d, 1)]> (core s) ∧
    instance_count s' u = instance_count s u + 1 ∧
    instance_count s' u ≤ pf_instance p + grant_total (now e) T_INSTANCE s u ∧
    (∀ k (I : Instance), row s k = Some I → row s' k = Some I) ∧
    ips_grow s j s'.
Proof.
  intros Hok s' j.
  destruct (InstanceCreate_run e cookie (start s)) as [H|(u & a & d & Hu & Hm & H)];
    [left; by apply request_quiet|].
  right. simpl in Hm. pose proof Hm as (_ & _ & Hform & _ & _ & _ & pid & p & Hp & _ & _ & Hi).
  exists u, a, d, pid, p.
  assert (∃ o, s' = comm (equip e u j (mkWorld
    (set_tbl (tinsert (created_instance e cookie u a d) (tbl s)).2 s)
    (set_tbl (tinsert (created_instance e cookie u a d) (tbl s)).2 s) o)).2) as [o Hs'].
  { unfold s'. rewrite request_fst, H. web_run. by eexists. }
  clearbody s'. subst s'. set (s1 := set_tbl _ s). set (w := mkWorld s1 s1 o).
  assert (core (comm (equip e u j w).2) = core s1) as Hcore
    by (apply (frozen_after core); [apply equip_core|done]).
  assert (other_instances j (comm (equip e u j w).2) = other_instances j s1) as Ho
    by (apply (frozen_after (other_instances j)); [apply equip_others|done]).
  assert (shells (comm (equip e u j w).2) = shells s1) as Hsh
    by (apply (frozen_after shells); [apply equip_shells|done]).
  assert (core s1 = <[j := (u, cd_cpus d, cd_memory d, 1)]> (core s)) as Hc1 by apply core_insert.
  assert (instance_count (comm (equip e u j w).2) u = instance_count s u + 1) as Hcount.
  { rewrite (count_core _ s1) by done. unfold instance_count, s1.
    change (c_instances (set_tbl ?t s)) with t. rewrite total_insert by done. simpl.
    by rewrite Z.eqb_refl. }
  split_and!; [done..| |by rewrite Hcore|done| | |].
  - destruct Hform as (Hn & _ & _ & Hpr).
    destruct (shells_row _ s1 j (created_instance e cookie u a d) Hsh) as (J & HJ & Hs); [exact (row_insert s _)|].
    exists J. rewrite <- Hn, <- Hpr.
    exact (conj HJ (conj (f_equal i_name Hs) (conj (f_equal i_user_id Hs) (conj (f_equal i_appliance_id Hs)
      (conj (f_equal i_isprivate Hs) (conj (f_equal i_cpus Hs) (conj (f_equal i_memory Hs)
      (conj (f_equal i_status Hs) (f_equal i_node_id Hs))))))))).
  - rewrite Hcount. rewrite instance_remain_eq, (profile_of_owner s u pid p Hp) in Hi. lia.
  - intros k I HI. assert (k ≠ j) as Hk.
    { intros ->. change (rows (c_instances s) !! j = Some I) in HI.
      rewrite Hok in HI; [done|unfold j; lia]. }
    apply (f_equal (.!! k)) in Ho. unfold other_instances in Ho.
    rewrite !lookup_delete_ne in Ho by done. unfold row. simpl tbl. rewrite Ho.
    unfold s1. simpl. by rewrite lookup_insert_ne.
  - destruct (equip_ips s e u j w) as [_ Hg]; [..|done];
      (intros ip IP HIP; exists (ip_instance_id IP); split; [|by left]);
      change (rows (c_ips s) !! ip = Some (IP <| ip_instance_id := ip_instance_id IP |>));
      change (rows (c_ips s) !! ip = Some IP) in HIP; rewrite HIP; by destruct IP.
Qed.

Definition create_cloud : Cloud :=
  life_cloud <| c_permissions := table_of [mkPermission "create" "instance.create"] |>
    <| c_users := table_of [mkUser "ann" None false false 0 0 [1] "" None None None None None] |>
    <| c_appliances := table_of [mkAppliance "ubuntu" 2 None "" "" false true false 1 "" ""] |>.
Definition create_req : req :=
  rq (life_env 1 [("appliance_id", "1"); ("name", "db"); ("cpus", "2"); ("memory", "256")]%string).

Example created :
  let s' := (request (InstanceCreate_post create_req "c0ffee") create_cloud).1 in
  (λ I, (i_name I, core_of I)) <$> row s' 2 = Some ("db"%string, (1, 2, 256, 1)) ∧
  ip_instance_id <$> row s' 1 = Some (Some 2).
Proof. by vm_compute. Qed.

Lemma InstanceCreate_spec_witness :
  let s := create_cloud in
  let s' := (request (InstanceCreate_post create_req "c0ffee") s).1 in
  let j := seq (c_instances s) + 1 in
  s' = s ∨ ∃ u a d pid p,
    cur create_req = Some u ∧ may_create create_req s u a d ∧ profile_of s u = Some (pid, p) ∧
    (∃ J, row s' j = Some J ∧ i_name J = text_field create_req "name" ∧ i_user_id J = u ∧ i_appliance_id J = a ∧
       i_isprivate J = bool_field create_req "isprivate" ∧ i_cpus J = cd_cpus d ∧ i_memory J = cd_memory d ∧
       i_status J = 1 ∧ i_node_id J = None) ∧
    core s' = <[j := (u, cd_cpus d, cd_memory d, 1)]> (core s) ∧
    instance_count s' u = instance_count s u + 1 ∧
    instance_count s' u ≤ pf_instance p + grant_total (now create_req) T_INSTANCE s u ∧
    (∀ k (I : Instance), row s k = Some I → row s' k = Some I) ∧
    ips_grow s j s'.
Proof.
  apply (InstanceCreate_spec create_req "c0ffee" create_cloud).
  intros k Hk. change (rows (c_instances create_cloud)) with
    (<[1 := life_instance]> (∅ : gmap Z Instance)).
  rewrite lookup_insert_ne; [reflexivity|]. intros <-. vm_compute in Hk. discriminate Hk.
Defined.
