(* ===== verification/NetworkAdmin.v ===== *)
(** The administration of networks (src/lyweb/app/network/admin_views.py,
    forms.py): gateways with their ports, network pools with their addresses. The
    library IPy is an interface. *)
From Stdlib Require Import Ascii String.
From S2P Require Import Prelude PyText Table Session Cloud Quota InstanceModel Web Forms LifeControl Myun MyNetwork.
#[local] Open Scope Z_scope.

(** ** Text *)

(** [s.split()]: the words between white space. *)
Fixpoint words_acc (w s : string) : list string :=
  match s with
  | EmptyString => if String.eqb w "" then [] else [w]
  | String c s' =>
      if is_space c then (if String.eqb w "" then [] else [w]) ++ words_acc "" s'
      else words_acc (w +:+ String c "") s'
  end.
Definition words (s : string) : list string := words_acc "" s.

(** [s.count(w) > 0]: a part of the text. *)
Fixpoint contains (w s : string) : bool :=
  String.prefix w s ||
  match s with
  | EmptyString => false
  | String _ s' => contains w s'
  end.

(** ** IPy *)

(** [parse] is [parseAddress] on IPv4 addresses, [None] for [ValueError]; [show]
    is [strNormal]; [network start mask] are the first address and the size of
    [IP('start/mask', make_net=True)]. *)
Class IPy := {
  parse_address : string → option Z;
  show_address : Z → string;
  network_of : string → string → option (Z * Z);
}.

Section network.
Context {IPyI : IPy}.

(** ** Gateways *)

(** What [GatewayForm] gives when it is valid; [new] tells that no gateway is
    edited. *)
Record gateway_data := mkGatewayData {
  gd_name : string; gd_description : string; gd_ip : string; gd_netmask : string;
  gd_start : Z; gd_end : Z; gd_exclude : string }.

Definition ip_ok (v : string) : bool := bool_decide (is_Some (parse_address v)).

Definition gateway_form (e : req) (new : bool) (s : Cloud) : option gateway_data :=
  let name := text_field e "name" in
  let ip := text_field e "ip" in
  let netmask := text_field e "netmask" in
  let start := int_field e "start" None in
  let end_ := int_field e "end" None in
  let exclude := text_field e "exclude_ports" in
  if length_ok 2 64 name && ip_ok ip && ip_ok netmask &&
     in_range 9999 65535 start && in_range 9999 65535 end_ &&
     forallb (λ x, bool_decide (is_Some (py_int x))) (words exclude) &&
     negb (new && existsb (λ G, String.eqb (gw_ip (snd G)) ip) (all_rows Gateway s))
  then
    match start, end_ with
    | Some a, Some b =>
        Some (mkGatewayData name (text_field e "description") ip netmask a b exclude)
    | _, _ => None
    end
  else None.

Definition gateway_row (d : gateway_data) : Gateway :=
  mkGateway (gd_name d) (gd_description d) (gd_ip d) (gd_netmask d) (gd_start d) (gd_end d)
    (gd_exclude d).

(** The column [ip] of a gateway is unique. *)
Definition ip_taken (s : Cloud) (g : option Z) (ip : string) : bool :=
  existsb (λ G, negb (bool_decide (g = Some G.1)) && String.eqb (gw_ip G.2) ip)
    (all_rows Gateway s).

Definition port_exists (s : Cloud) (p : Z) : bool :=
  existsb (λ P, pm_gateway_port (snd P) =? p) (all_rows PortMapping s).

(** [while cur < end]: [fuel] bounds the turns; running out of it is an
    exception of the model. *)
Fixpoint port_loop (fuel : nat) (g : Z) (exclude : list Z) (cur end_ : Z) : Web Cloud unit :=
  if end_ <=? cur then mret tt else
  match fuel with
  | O => raise "OutOfFuel"
  | Datatypes.S fuel =>
      if bool_decide (cur ∈ exclude) then port_loop fuel g exclude (cur + 1) end_ else
      old ← ask (λ s, port_exists s cur);
      (if (old : bool) then mret tt
       else _ ← add_row (mkPortMapping cur g None None); mret tt);;
      port_loop fuel g exclude (cur + 1) end_
  end.

(** [add_to_portmapping(G)] *)
Definition add_to_portmapping (g : Z) : Web Cloud unit :=
  G ← fetch (A := Gateway) g;
  match mapM py_int (words (gw_exclude_ports G)) with
  | None => raise "ValueError"
  | Some exclude =>
      port_loop (Z.to_nat (gw_end G - gw_start G)) g exclude (gw_start G) (gw_end G);;
      commit
  end.

Definition GatewayConfig_post (e : req) : Web Cloud unit :=
  need_permission e false "admin" (
    let ID := get_argument e "gateway" "" in
    o ← (if String.eqb ID "" then mret None else get_text (A := Gateway) ID);
    f ← ask (gateway_form e (bool_decide (o = None)));
    match f with
    | None => emit (Render "admin/network/gateway_config.html")
    | Some d =>
        taken ← ask (λ s, ip_taken s (fst <$> o) (gd_ip d));
        if (taken : bool) then raise "IntegrityError" else
        g ← match o with
            | Some (g, _) => put_row g (gateway_row d);; mret g
            | None => add_row (gateway_row d)
            end;
        commit;;
        add_to_portmapping g;;
        emit (Redirect "admin:network:gateway" 0)
    end) tt.

(** ** Network pools *)

Record network_data := mkNetworkData {
  nd_name : string; nd_description : string; nd_start : string; nd_end : string;
  nd_netmask : string; nd_gateway : string; nd_nameservers : string; nd_exclude : string }.

Definition network_pool_form (e : req) : option network_data :=
  let name := text_field e "name" in
  let start := text_field e "start" in
  let end_ := text_field e "end" in
  let netmask := text_field e "netmask" in
  let gateway := text_field e "gateway" in
  let nameservers := text_field e "nameservers" in
  let exclude := text_field e "exclude_ips" in
  if length_ok 2 128 name && ip_ok start && ip_ok end_ && ip_ok netmask && ip_ok gateway &&
     forallb ip_ok (words nameservers) && length_ok 0 1024 nameservers &&
     forallb ip_ok (words exclude)
  then Some (mkNetworkData name (text_field e "description") start end_ netmask gateway
               nameservers exclude)
  else None.

Definition network_row (d : network_data) : NetworkPool :=
  mkNetworkPool (nd_name d) (nd_description d) (nd_start d) (nd_end d) (nd_netmask d)
    (nd_gateway d) (nd_nameservers d) (nd_exclude d).

Definition ip_exists (s : Cloud) (ip : string) : bool :=
  existsb (λ P, String.eqb (ip_ip (snd P)) ip) (all_rows IPPool s).

(** The loop over the addresses of the network, left at the first one after
    [end]. *)
Fixpoint ip_loop (now : Z) (n : Z) (exclude : string) (start end_ : Z) (l : list Z) :
    Web Cloud unit :=
  match l with
  | [] => mret tt
  | a :: l =>
      if end_ <? a then mret tt else
      (if start <=? a then
         let ip := show_address a in
         if contains ip exclude then mret tt else
         old ← ask (λ s, ip_exists s ip);
         if (old : bool) then mret tt
         else _ ← add_row (mkIPPool ip n None now); mret tt
       else mret tt);;
      ip_loop now n exclude start end_ l
  end.

(** [add_to_ippool(N)] *)
Definition add_to_ippool (e : req) (n : Z) : Web Cloud unit :=
  N ← fetch (A := NetworkPool) n;
  match parse_address (np_start N), parse_address (np_end N),
        network_of (np_start N) (np_netmask N) with
  | Some start, Some end_, Some (base, size) =>
      ip_loop (now e) n (np_exclude_ips N) start end_ (seqZ base size);;
      commit
  | _, _, _ => raise "ValueError"
  end.

Definition NetworkConfig_post (e : req) : Web Cloud unit :=
  need_permission e false "admin" (
    let ID := get_argument e "network" "" in
    o ← (if String.eqb ID "" then mret None else get_text (A := NetworkPool) ID);
    match network_pool_form e with
    | None => emit (Render "admin/network/network_config.html")
    | Some d =>
        n ← match o with
            | Some (n, _) => put_row n (network_row d);; mret n
            | None => add_row (network_row d)
            end;
        commit;;
        add_to_ippool e n;;
        emit (Redirect "admin:network" 0)
    end) tt.

(** [db.delete] of an address: the port mappings that refer to it lose the
    reference and keep the rest. *)
Definition delete_ip (i : Z) : Web Cloud unit :=
  l ← ask (λ s, select (λ _ P, bool_decide (pm_ip_id P = Some i)) s);
  for_each l (λ p, modify p.1 (λ P : PortMapping, P <| pm_ip_id := None |>));;
  delete_row IPPool i.

Definition NetworkDelete_get (e : req) : Web Cloud unit :=
  need_permission e true "admin" (
    let ID := get_argument e "id" "" in
    if String.eqb ID "" then emit (Write "Give me network pool id please.") else
    o ← get_text (A := NetworkPool) ID;
    match o with
    | None => emit (Write "Can not find network pool")
    | Some (n, _) =>
        l ← ask (λ s, ips_in s n);
        if existsb (λ P, negb (unset (ip_instance_id P.2))) l
        then emit (Render "admin/network/network_delete_failed.html") else
        for_each l (λ P, delete_ip P.1);;
        commit;;
        delete_row NetworkPool n;;
        commit;;
        emit (Redirect "admin:network" 0)
    end) tt.

(** ** What the loops add *)

Definition new_port (g p : Z) : PortMapping := mkPortMapping p g None None.

Definition candidate_ports (exclude : list Z) (g start end_ : Z) : list PortMapping :=
  new_port g <$> filter (λ p, p ∉ exclude) (seqZ start (end_ - start)).

Lemma port_exists_key (s : Cloud) p :
  port_exists s p = key_exists pm_gateway_port (c_ports s) p.
Proof.
  apply eq_true_iff_eq. rewrite key_exists_spec. unfold port_exists, has_key.
  rewrite existsb_exists. split.
  - intros ([i P] & [Hi _]%list_elem_of_In%elem_of_select & Hp%Z.eqb_eq). by exists i, P.
  - intros (i & P & Hi & <-). exists (i, P). split; [|apply Z.eqb_refl].
    by apply list_elem_of_In, elem_of_select.
Qed.

Lemma set_ports_self (s : Cloud) : set_tbl (c_ports s) s = s.
Proof. exact (set_same (A := PortMapping) s). Qed.

Lemma port_loop_run exclude g end_ fuel : ∀ cur (w : world Cloud),
  (Z.to_nat (end_ - cur) ≤ fuel)%nat →
  port_loop fuel g exclude cur end_ w =
    (Val tt, mkWorld (set_tbl (add_fresh pm_gateway_port (candidate_ports exclude g cur end_)
                                (c_ports (work w))) (work w)) (comm w) (outs w)).
Proof.
  induction fuel as [|fuel IH]; intros cur w Hf; cbn [port_loop].
  all: destruct (Z.leb_spec end_ cur) as [Hle|Hlt]; [|try lia].
  1,2: unfold candidate_ports; rewrite seqZ_nil by lia; cbn [fmap list_fmap filter list_filter];
    unfold add_fresh; cbn [foldl]; rewrite set_ports_self; by destruct w.
  unfold candidate_ports. rewrite seqZ_cons by lia. rewrite filter_cons.
  replace (Z.pred (end_ - cur)) with (end_ - (cur + 1)) by lia.
  replace (Z.succ cur) with (cur + 1) by lia.
  destruct (decide (cur ∈ exclude)) as [Hin|Hin].
  - rewrite bool_decide_true, decide_False by tauto. by rewrite IH by lia.
  - rewrite bool_decide_false, decide_True by done. web_run.
    rewrite port_exists_key. cbn [fmap list_fmap]. unfold add_fresh at 1. cbn [foldl].
    change (pm_gateway_port (new_port g cur)) with cur.
    destruct (key_exists pm_gateway_port (c_ports (work w)) cur); web_run;
      rewrite IH by lia; done.
Qed.

Definition new_ip (now n a : Z) : IPPool := mkIPPool (show_address a) n None now.

Definition wanted_ip (exclude : string) (start end_ a : Z) : Prop :=
  start ≤ a ≤ end_ ∧ contains (show_address a) exclude = false.
#[local] Instance wanted_ip_dec exclude start end_ a : Decision (wanted_ip exclude start end_ a).
Proof. unfold wanted_ip. apply _. Defined.

Definition candidate_ips (now n : Z) (exclude : string) (start end_ : Z) (l : list Z) :
    list IPPool :=
  new_ip now n <$> filter (wanted_ip exclude start end_) l.

Lemma ip_exists_key (s : Cloud) ip : ip_exists s ip = key_exists ip_ip (c_ips s) ip.
Proof.
  apply eq_true_iff_eq. rewrite key_exists_spec. unfold ip_exists, has_key.
  rewrite existsb_exists. split.
  - intros ([i P] & [Hi _]%list_elem_of_In%elem_of_select & Hp%String.eqb_eq). by exists i, P.
  - intros (i & P & Hi & <-). exists (i, P). split; [|apply String.eqb_refl].
    by apply list_elem_of_In, elem_of_select.
Qed.

Lemma set_ips_self (s : Cloud) : set_tbl (c_ips s) s = s.
Proof. exact (set_same (A := IPPool) s). Qed.

Lemma ip_loop_run now n exclude start end_ k : ∀ base (w : world Cloud),
  ip_loop now n exclude start end_ (seqZ base (Z.of_nat k)) w =
    (Val tt, mkWorld (set_tbl (add_fresh ip_ip
       (candidate_ips now n exclude start end_ (seqZ base (Z.of_nat k)))
       (c_ips (work w))) (work w)) (comm w) (outs w)).
Proof.
  induction k as [|k IH]; intros base w.
  { rewrite seqZ_nil by lia. cbn [ip_loop]. unfold candidate_ips, add_fresh.
    cbn [filter list_filter fmap list_fmap foldl]. rewrite set_ips_self. by destruct w. }
  rewrite seqZ_cons by lia. replace (Z.pred (Z.of_nat (Datatypes.S k))) with (Z.of_nat k) by lia.
  replace (Z.succ base) with (base + 1) by lia. cbn [ip_loop].
  destruct (Z.ltb_spec end_ base) as [Hgt|Hle].
  - unfold candidate_ips.
    assert (filter (wanted_ip exclude start end_) (base :: seqZ (base + 1) (Z.of_nat k)) = []) as ->.
    { apply filter_nil_iff. apply Forall_forall. unfold wanted_ip.
      intros a [->|Ha%elem_of_seqZ]%elem_of_cons; lia. }
    unfold add_fresh. cbn [fmap list_fmap foldl]. rewrite set_ips_self. by destruct w.
  - unfold candidate_ips. rewrite filter_cons.
    destruct (Z.leb_spec start base) as [Hs|Hs]; cycle 1.
    { rewrite decide_False by (unfold wanted_ip; lia). web_run. by rewrite IH. }
    destruct (contains (show_address base) exclude) eqn:Ec.
    { rewrite decide_False by (unfold wanted_ip; rewrite Ec; intros [_ ?]; done).
      web_run. by rewrite IH. }
    rewrite decide_True by done. web_run. rewrite ip_exists_key. cbn [fmap list_fmap].
    unfold add_fresh at 1. cbn [foldl]. change (ip_ip (new_ip now n base)) with (show_address base).
    destruct (key_exists ip_ip (c_ips (work w)) (show_address base)); web_run;
      by rewrite IH.
Qed.

(** ** Properties *)

(** Configuring a new gateway returns and leaves exactly the ports it should:
    every port from the first up to but not including the last, unless it is
    excluded or is there already, also of another gateway; ports that were there
    stay as they were, the new ones are free, and no port number occurs twice. *)
Theorem GatewayConfig_ports e s u d exclude :
  cur e = Some u → user_has s "admin" u = true → get_argument e "gateway" "" = ""%string →
  gateway_form e true s = Some d → mapM py_int (words (gd_exclude d)) = Some exclude →
  seq_ok (c_ports s) → keys_distinct pm_gateway_port (c_ports s) →
  let s' := (request (GatewayConfig_post e) s).1 in
  keys_distinct pm_gateway_port (c_ports s') ∧
  (∀ p, has_key pm_gateway_port (c_ports s') p ↔
     has_key pm_gateway_port (c_ports s) p ∨ (gd_start d ≤ p < gd_end d ∧ p ∉ exclude)) ∧
  (∀ k (P : PortMapping), row s k = Some P → row s' k = Some P) ∧
  (∀ k P, row s' k = Some P → row s k = Some P ∨
     P = mkPortMapping (pm_gateway_port P) (seq (c_gateways s) + 1) None None).
Proof.
  intros Hu Ha Hid Hf Hex Hs Hd s'.
  assert (ip_taken s None (gd_ip d) = false) as Ht.
  { revert Hf. unfold gateway_form. destruct (_ && _) eqn:E; [|done].
    destruct (int_field e "start" None), (int_field e "end" None); try done.
    intros [= <-]. apply andb_prop in E as [_ E]. by apply negb_true_iff in E. }
  set (g := seq (c_gateways s) + 1).
  assert (c_ports s' = add_fresh pm_gateway_port
    (candidate_ports exclude g (gd_start d) (gd_end d)) (c_ports s)) as E.
  { unfold s', GatewayConfig_post, need_permission. rewrite request_fst, Hu. web_run.
    change (work (start s)) with s. rewrite Ha, Hid, String.eqb_refl. web_run.
    rewrite bool_decide_true by done. change (work (start s)) with s. rewrite Hf. web_run. cbn [fmap option_fmap option_map].
    change (work (start s)) with s. rewrite Ht. web_run. change (work (start s)) with s.
    unfold add_to_portmapping. web_run. change (gw_exclude_ports (gateway_row d)) with (gd_exclude d).
    rewrite Hex. web_run.
    erewrite run_bind by (apply port_loop_run; simpl; lia). web_run. reflexivity. }
  destruct (add_fresh_spec pm_gateway_port (candidate_ports exclude g (gd_start d) (gd_end d)) _ Hs Hd)
    as (_ & D & Hold & Hk & Hnew). rewrite <- E in D, Hold, Hk, Hnew.
  split_and!; [done| |exact Hold|].
  - intros p. rewrite Hk. f_equiv. unfold candidate_ports. rewrite <- list_fmap_compose.
    rewrite list_elem_of_fmap. setoid_rewrite list_elem_of_filter. setoid_rewrite elem_of_seqZ.
    simpl. split; [intros (q & -> & ? & ?); split; [lia|done]|].
    intros [? ?]. exists p. split_and!; [done|done|lia..].
  - intros k P HP. destruct (Hnew k P HP) as [Ho|[Hin _]]; [left; exact Ho|right].
    apply list_elem_of_fmap in Hin as (q & -> & _). done.
Qed.

Lemma seqZ_nat base size : seqZ base size = seqZ base (Z.of_nat (Z.to_nat size)).
Proof. unfold seqZ. by rewrite Nat2Z.id. Qed.

(** Configuring a network, new or not, returns and leaves exactly the addresses it
    should: the ones of the network from the first to the last that are not a part
    of the text of exclusions and are not in the pool already, also of another
    network; addresses that were there stay as they were, the new ones are bound to
    no instance, and no address occurs twice. *)
Theorem NetworkConfig_addresses e s u d o start end_ base size :
  cur e = Some u → user_has s "admin" u = true →
  (if String.eqb (get_argument e "network" "") "" then mret None
   else get_text (A := NetworkPool) (get_argument e "network" "")) (Session.start s) =
    (Val o, Session.start s) →
  network_pool_form e = Some d →
  parse_address (nd_start d) = Some start → parse_address (nd_end d) = Some end_ →
  network_of (nd_start d) (nd_netmask d) = Some (base, size) →
  seq_ok (c_ips s) → keys_distinct ip_ip (c_ips s) →
  let n := match o with Some (n, _) => n | None => seq (c_networkpools s) + 1 end in
  let s' := (request (NetworkConfig_post e) s).1 in
  row s' n = Some (network_row d) ∧
  keys_distinct ip_ip (c_ips s') ∧
  (∀ ip, has_key ip_ip (c_ips s') ip ↔ has_key ip_ip (c_ips s) ip ∨
     ∃ a, base ≤ a < base + size ∧ start ≤ a ≤ end_ ∧
          contains ip (nd_exclude d) = false ∧ ip = show_address a) ∧
  (∀ k (P : IPPool), row s k = Some P → row s' k = Some P) ∧
  (∀ k P, row s' k = Some P → row s k = Some P ∨ P = mkIPPool (ip_ip P) n None (now e)).
Proof.
  intros Hu Ha Ho Hf Hst Hen Hnet Hs Hd n s'.
  set (l := candidate_ips (now e) n (nd_exclude d) start end_ (seqZ base size)).
  assert (c_ips s' = add_fresh ip_ip l (c_ips s) ∧ row s' n = Some (network_row d)) as [E En].
  { unfold s', NetworkConfig_post, need_permission. rewrite request_fst, Hu. web_run.
    change (work (Session.start s)) with s. rewrite Ha. rewrite (run_bind _ _ _ _ _ Ho), Hf.
    unfold l, add_to_ippool. rewrite seqZ_nat. fold n.
    destruct o as [[k N]|]; web_run; change (np_start (network_row d)) with (nd_start d);
      change (np_end (network_row d)) with (nd_end d);
      change (np_netmask (network_row d)) with (nd_netmask d);
      rewrite Hst, Hen, Hnet, seqZ_nat; web_run;
      (erewrite run_bind by apply ip_loop_run); web_run;
      (split; [reflexivity|]); cbn [snd comm]; rewrite row_other; unfold n.
    - apply row_put_eq.
    - exact (row_insert s (network_row d)). }
  destruct (add_fresh_spec ip_ip l _ Hs Hd) as (_ & D & Hold & Hk & Hnew).
  rewrite <- E in D, Hold, Hk, Hnew. split_and!; [done|done| |exact Hold|].
  - intros ip. rewrite Hk. f_equiv. unfold l, candidate_ips. rewrite <- list_fmap_compose.
    rewrite list_elem_of_fmap. setoid_rewrite list_elem_of_filter. setoid_rewrite elem_of_seqZ.
    unfold wanted_ip. simpl. split.
    + intros (a & -> & [? ?] & ?). exists a. split_and!; [lia..|done|done].
    + intros (a & ? & ? & Hc & ->). exists a. by split_and!; [|lia..| |lia|lia].
  - intros k P HP. destruct (Hnew k P HP) as [Hold'|[Hin _]]; [left; exact Hold'|right].
    apply list_elem_of_fmap in Hin as (a & -> & _). done.
Qed.

(** ** Deleting a network *)

Definition cleared (js : list Z) (P : PortMapping) : PortMapping :=
  match pm_ip_id P with
  | Some i => if bool_decide (i ∈ js) then P <| pm_ip_id := None |> else P
  | None => P
  end.

Lemma cleared_cons i js P : cleared js (cleared [i] P) = cleared (i :: js) P.
Proof.
  unfold cleared. destruct (pm_ip_id P) as [k|] eqn:E; [|by rewrite E].
  destruct (decide (k = i)) as [->|Hk].
  - rewrite !bool_decide_true by set_solver. done.
  - rewrite (bool_decide_false (k ∈ [i])) by set_solver. rewrite E.
    by rewrite (bool_decide_ext (k ∈ i :: js) (k ∈ js)) by set_solver.
Qed.

Lemma delete_ip_run i (w : world Cloud) :
  ∃ t, delete_ip i w =
         (Val tt, mkWorld (set_tbl (tdelete i (c_ips (work w))) (set_tbl t (work w)))
                    (comm w) (outs w)) ∧
    ∀ k, rows t !! k = cleared [i] <$> rows (c_ports (work w)) !! k.
Proof.
  destruct (for_modify_select (λ P : PortMapping, P <| pm_ip_id := None |>)
    (λ _ P, bool_decide (pm_ip_id P = Some i)) w) as (t & Et & _ & Ht).
  exists t. split.
  - unfold delete_ip. web_run. rewrite (run_bind _ _ _ _ _ Et). done.
  - intros k. rewrite Ht. unfold row. cbn [tbl has_PortMapping].
    destruct (rows (c_ports (work w)) !! k) as [P|]; [|done]. cbn [fmap option_fmap option_map].
    f_equal. unfold cleared. destruct (pm_ip_id P) as [j|] eqn:Hj; [|by rewrite bool_decide_false].
    by rewrite (bool_decide_ext (Some j = Some i) (j ∈ [i])) by set_solver.
Qed.

Lemma delete_ips_run (l : list (Z * IPPool)) : ∀ (w : world Cloud),
  ∃ t a, for_each l (λ P, delete_ip P.1) w =
           (Val tt, mkWorld (set_tbl a (set_tbl t (work w))) (comm w) (outs w)) ∧
    (∀ k, rows t !! k = cleared l.*1 <$> rows (c_ports (work w)) !! k) ∧
    (∀ k, rows a !! k = if decide (k ∈ l.*1) then None else rows (c_ips (work w)) !! k).
Proof.
  induction l as [|[i P] l IH]; intros w.
  { exists (c_ports (work w)), (c_ips (work w)). split_and!.
    - cbn [for_each foldr]. rewrite ret_val. by destruct w as [[] c o].
    - intros k. destruct (rows (c_ports (work w)) !! k) as [Q|]; [|done]. simpl. f_equal.
      unfold cleared. by destruct (pm_ip_id Q).
    - intros k. by rewrite decide_False by (simpl; set_solver). }
  destruct (delete_ip_run i w) as (t1 & E1 & H1).
  set (w1 := mkWorld _ _ _) in E1. destruct (IH w1) as (t & a & E & Ht & Ha).
  exists t, a. split_and!.
  - change (for_each ((i, P) :: l) (λ P, delete_ip P.1))
      with (delete_ip i ;; for_each l (λ P, delete_ip P.1)).
    rewrite (run_bind _ _ _ _ _ E1), E. unfold w1. cbn [work comm outs].
    by destruct w as [[] c o].
  - intros k. rewrite Ht. unfold w1. cbn [work].
    change (c_ports (set_tbl ?a (set_tbl t1 ?s))) with t1. rewrite H1.
    rewrite <- option_fmap_compose. destruct (rows (c_ports (work w)) !! k); [|done].
    simpl. f_equal. apply cleared_cons.
  - intros k. rewrite Ha. unfold w1. cbn [work]. change (c_ips (set_tbl ?a ?s)) with a.
    cbn [rows tdelete fmap list_fmap fst].
    destruct (decide (k ∈ l.*1)) as [Hk|Hk].
    + by rewrite decide_True by set_solver.
    + destruct (decide (k = i)) as [->|Hi].
      * by rewrite lookup_delete_eq, decide_True by set_solver.
      * by rewrite lookup_delete_ne, decide_False by set_solver.
Qed.

(** C27: deleting a network whose addresses are all free removes the network and
    exactly its addresses; the port mappings of those addresses lose the address but
    stay, and keep their inner port; nothing else changes. When one of the addresses
    is bound to an instance nothing changes at all. *)
Theorem NetworkDelete_spec e u s n (N : NetworkPool) :
  cur e = Some u → user_has s "admin" u = true → get_argument e "id" "" ≠ ""%string →
  py_int (get_argument e "id" "") = Some n → row s n = Some N →
  let bound := existsb (λ P, negb (unset (ip_instance_id P.2))) (ips_in s n) in
  if bound then
    request (NetworkDelete_get e) s = (s, [Render "admin/network/network_delete_failed.html"])
  else ∃ t a,
    request (NetworkDelete_get e) s =
      (set_tbl (tdelete n (c_networkpools s)) (set_tbl a (set_tbl t s)),
       [Redirect "admin:network" 0]) ∧
    (∀ k, rows a !! k = P ← row (A := IPPool) s k; if ip_network_id P =? n then None else Some P) ∧
    (∀ k, rows t !! k = P ← row (A := PortMapping) s k;
       Some (match pm_ip_id P ≫= row (A := IPPool) s with
             | Some IP => if ip_network_id IP =? n then P <| pm_ip_id := None |> else P
             | None => P
             end)).
Proof.
  intros Hu Ha Hid Hn HN bound. unfold NetworkDelete_get, need_permission, request.
  rewrite Hu. web_run. change (work (Session.start s)) with s. rewrite Ha.
  rewrite (proj2 (String.eqb_neq _ _) Hid). unfold get_text. rewrite Hn. web_run.
  change (work (Session.start s)) with s. rewrite HN. cbn [mbind option_bind]. web_run.
  change (work (Session.start s)) with s. fold bound. destruct bound; [by web_run|].
  set (l := ips_in s n).
  destruct (delete_ips_run l (Session.start s)) as (t & a & E & Ht & Hk).
  exists t, a. rewrite (run_bind _ _ _ _ _ E). web_run.
  assert (∀ k, k ∈ l.*1 ↔ ∃ P, rows (c_ips s) !! k = Some P ∧ ip_network_id P = n) as Hl.
  { intros k. rewrite list_elem_of_fmap. unfold l, ips_in. split.
    - intros ([k' P] & -> & [HP ?%Z.eqb_eq]%elem_of_select). by exists P.
    - intros (P & HP & Hin). exists (k, P). split; [done|]. apply elem_of_select.
      split; [exact HP|by apply Z.eqb_eq]. }
  split_and!.
  - reflexivity.
  - intros k. rewrite Hk. change (work (Session.start s)) with s. unfold row. cbn [tbl has_IPPool].
    destruct (rows (c_ips s) !! k) as [P|] eqn:HP; cbn [mbind option_bind]; [|by case_decide].
    destruct (Z.eqb_spec (ip_network_id P) n) as [Hin|Hin].
    + rewrite decide_True; [done|]. apply Hl. eauto.
    + rewrite decide_False; [done|]. intros (P' & ? & ?)%Hl. congruence.
  - intros k. rewrite Ht. change (work (Session.start s)) with s. unfold row.
    cbn [tbl has_IPPool has_PortMapping].
    destruct (rows (c_ports s) !! k) as [P|]; [|done]. cbn [mbind option_bind fmap option_fmap option_map].
    f_equal. unfold cleared. destruct (pm_ip_id P) as [j|]; [|done]. cbn [mbind option_bind].
    destruct (rows (c_ips s) !! j) as [IP|] eqn:HIP.
    + destruct (Z.eqb_spec (ip_network_id IP) n) as [Hin|Hin].
      * rewrite bool_decide_true; [done|]. apply Hl. eauto.
      * rewrite bool_decide_false; [done|]. intros (? & ? & ?)%Hl. congruence.
    + rewrite bool_decide_false; [done|]. intros (? & ? & ?)%Hl. congruence.
Qed.
End network.

(** ** Witnesses *)

Definition dotted_parse (s : string) : option Z :=
  match mapM py_int (split_on "." s) with
  | Some [a; b; c; d] => Some (((a * 256 + b) * 256 + c) * 256 + d)
  | _ => None
  end.
Definition dotted_show (n : Z) : string :=
  str_of_Z (n / 16777216) +:+ "." +:+ str_of_Z (n / 65536 `mod` 256) +:+ "." +:+
  str_of_Z (n / 256 `mod` 256) +:+ "." +:+ str_of_Z (n `mod` 256).
Definition example_ipy : IPy := {|
  parse_address := dotted_parse;
  show_address := dotted_show;
  network_of start mask :=
    a ← dotted_parse start; m ← dotted_parse mask; Some (Z.land a m, 4294967296 - m) |}.

Definition gateway_req : req := rq (life_env 2
  [("name", "gate"); ("ip", "10.0.0.1"); ("netmask", "255.255.255.0"); ("start", "9999");
   ("end", "10003"); ("exclude_ports", "10000 10002")]%string).

(** Of 9999 to 10003 only 9999 and 10001 are added: 10003 is the end. *)
Example gateway_ports :
  (λ P, pm_gateway_port P.2) <$>
    listing (c_ports (request (GatewayConfig_post (IPyI := example_ipy) gateway_req) life_cloud).1) =
  [2201; 9999; 10001].
Proof. vm_compute. reflexivity. Qed.

Lemma life_ports_distinct : keys_distinct pm_gateway_port (c_ports life_cloud).
Proof. intros i j x y [-> ->]%table_of_one [-> ->]%table_of_one _. done. Qed.

Lemma GatewayConfig_ports_witness :
  let d := mkGatewayData "gate" "" "10.0.0.1" "255.255.255.0" 9999 10003 "10000 10002" in
  let s' := (request (GatewayConfig_post (IPyI := example_ipy) gateway_req) life_cloud).1 in
  keys_distinct pm_gateway_port (c_ports s') ∧
  (∀ p, has_key pm_gateway_port (c_ports s') p ↔
     has_key pm_gateway_port (c_ports life_cloud) p ∨
     (gd_start d ≤ p < gd_end d ∧ p ∉ [10000; 10002])) ∧
  (∀ k (P : PortMapping), row life_cloud k = Some P → row s' k = Some P) ∧
  (∀ k P, row s' k = Some P → row life_cloud k = Some P ∨
     P = mkPortMapping (pm_gateway_port P) (seq (c_gateways life_cloud) + 1) None None).
Proof.
  apply (GatewayConfig_ports (IPyI := example_ipy) gateway_req life_cloud 2).
  - reflexivity.
  - vm_compute. reflexivity.
  - vm_compute. reflexivity.
  - vm_compute. reflexivity.
  - vm_compute. reflexivity.
  - apply table_of_seq_ok.
  - exact life_ports_distinct.
Defined.

Definition network_req : req := rq (life_env 2
  [("name", "lan"); ("start", "10.0.0.1"); ("end", "10.0.0.12"); ("netmask", "255.255.255.0");
   ("gateway", "10.0.0.254"); ("exclude_ips", "10.0.0.10")]%string).

Definition admin_cloud : Cloud := life_cloud <| c_ips := empty_table |>.

(** Excluding 10.0.0.10 also excludes 10.0.0.1. *)
Example network_addresses :
  (λ P, ip_ip P.2) <$>
    listing (c_ips (request (NetworkConfig_post (IPyI := example_ipy) network_req) admin_cloud).1) =
  ["10.0.0.2"; "10.0.0.3"; "10.0.0.4"; "10.0.0.5"; "10.0.0.6"; "10.0.0.7"; "10.0.0.8";
   "10.0.0.9"; "10.0.0.11"; "10.0.0.12"]%string.
Proof. vm_compute. reflexivity. Qed.

Lemma NetworkConfig_addresses_witness :
  let d := mkNetworkData "lan" "" "10.0.0.1" "10.0.0.12" "255.255.255.0" "10.0.0.254" "" "10.0.0.10" in
  let s' := (request (NetworkConfig_post (IPyI := example_ipy) network_req) admin_cloud).1 in
  let n := seq (c_networkpools admin_cloud) + 1 in
  row s' n = Some (network_row d) ∧
  keys_distinct ip_ip (c_ips s') ∧
  (∀ ip, has_key ip_ip (c_ips s') ip ↔ has_key ip_ip (c_ips admin_cloud) ip ∨
     ∃ a, 167772160 ≤ a < 167772160 + 256 ∧ 167772161 ≤ a ≤ 167772172 ∧
          contains ip (nd_exclude d) = false ∧ ip = dotted_show a) ∧
  (∀ k (P : IPPool), row admin_cloud k = Some P → row s' k = Some P) ∧
  (∀ k P, row s' k = Some P → row admin_cloud k = Some P ∨ P = mkIPPool (ip_ip P) n None 100).
Proof.
  apply (NetworkConfig_addresses (IPyI := example_ipy) network_req admin_cloud 2 _ None).
  - reflexivity.
  - vm_compute. reflexivity.
  - reflexivity.
  - vm_compute. reflexivity.
  - vm_compute. reflexivity.
  - vm_compute. reflexivity.
  - vm_compute. reflexivity.
  - intros i _. apply lookup_empty.
  - intros i j x y H. exfalso. revert H. apply eq_None_ne_Some_1, lookup_empty.
Defined.

Definition delete_req : req := rq (life_env 2 [("id", "1")]%string).

Lemma NetworkDelete_spec_witness :
  let s := life_cloud <| c_networkpools := table_of [mkNetworkPool "lan" "" "" "" "" "" "" ""] |>
             <| c_ips := table_of [mkIPPool "10.0.0.9" 1 None 0; mkIPPool "10.0.1.9" 2 (Some 1) 0] |>
             <| c_ports := table_of [mkPortMapping 2201 1 (Some 22) (Some 1)] |> in
  ∃ t a,
    request (NetworkDelete_get delete_req) s =
      (set_tbl (tdelete 1 (c_networkpools s)) (set_tbl a (set_tbl t s)),
       [Redirect "admin:network" 0]) ∧
    (∀ k, rows a !! k = P ← row (A := IPPool) s k; if ip_network_id P =? 1 then None else Some P) ∧
    (∀ k, rows t !! k = P ← row (A := PortMapping) s k;
       Some (match pm_ip_id P ≫= row (A := IPPool) s with
             | Some IP => if ip_network_id IP =? 1 then P <| pm_ip_id := None |> else P
             | None => P
             end)).
Proof.
  intros s.
  exact (NetworkDelete_spec delete_req 2 s 1 (mkNetworkPool "lan" "" "" "" "" "" "" "")
    eq_refl eq_refl ltac:(discriminate) eq_refl eq_refl).
Defined.
