(* ===== verification/MyRoutes.v ===== *)
(** The pages under /myun for a user's instances (src/lyweb/app/myun/urls.py):
    which handler serves a request that may write, and what all of them leave
    alone: the instances of other users. *)
From Stdlib Require Import Ascii String.
From S2P Require Import Prelude PyText Table Session Cloud Quota InstanceModel Web Forms LifeControl Myun MyStorage MyNetwork MyDomain MyCreate.
#[local] Open Scope Z_scope.

(** ** Routes *)

(** What a request meets outside the program: the random session key, the
    salted password, whether iptables starts. *)
Record myun_env := mkMyun { me_rq : req; me_cookie : string; me_shadow : string → string; me_ipt : bool }.

Definition handlers : list (string * (myun_env → Web Cloud unit)) := [
  ("/myun/instance/create", λ e, InstanceCreate_post (me_rq e) (me_cookie e));
  ("/myun/instance/view", λ e, View_page (me_rq e));
  ("/myun/instance/global_password_edit", λ e, GlobalPasswordEdit_post (me_rq e) (me_shadow e));
  ("/myun/instance/baseinfo/edit", λ e, BaseinfoEdit_post (me_rq e));
  ("/myun/instance/resource/edit", λ e, ResourceEdit_post (me_rq e));
  ("/myun/instance/storage/add", λ e, StorageAdd_post (me_rq e));
  ("/myun/instance/storage/edit", λ e, StorageEdit_post (me_rq e));
  ("/myun/instance/storage/delete", λ e, StorageDelete_get (me_rq e));
  ("/myun/instance/network/add", λ e, NetworkAdd_post (me_rq e));
  ("/myun/instance/network/delete", λ e, NetworkDelete_get (me_rq e));
  ("/myun/instance/password/edit", λ e, InstancePasswordEdit_post (me_rq e) (me_shadow e));
  ("/myun/instance/public_key/edit", λ e, InstancePublicKeyEdit_post (me_rq e));
  ("/myun/instance/domain/add", λ e, DomainAdd_post (me_rq e));
  ("/myun/instance/domain/edit", λ e, DomainEdit_post (me_rq e));
  ("/myun/instance/domain/delete", λ e, DomainDelete_get (me_rq e));
  ("/myun/instance/portmapping/add", λ e, PortMappingAdd_post (me_rq e) (me_ipt e));
  ("/myun/instance/portmapping/delete", λ e, PortMappingDelete_get (me_rq e) (me_ipt e)) ]%string.

(** ** The instances of others *)

Definition foreign (o : option Z) (s : Cloud) : gmap Z Instance :=
  filter (λ kI : Z * Instance, o ≠ Some (i_user_id kI.2)) (rows (c_instances s)).

Lemma foreign_put o s i I I' :
  row s i = Some I → o = Some (i_user_id I) → i_user_id I' = i_user_id I →
  foreign o (set_tbl (tput i I' (tbl s)) s) = foreign o s.
Proof.
  intros HI Ho Hu. unfold foreign. simpl. apply map_eq. intros k.
  destruct (decide (k = i)) as [->|Hk].
  - rewrite !map_lookup_filter, lookup_insert_eq. unfold row in HI. simpl in HI. rewrite HI. simpl.
    repeat case_guard; simpl in *; congruence.
  - by rewrite !map_lookup_filter, lookup_insert_ne.
Qed.

(** Steps on an instance of the user keep it the user's, and the others'. *)
Definition mine (u i : Z) (w w' : world Cloud) : Prop :=
  (∃ I, row (work w) i = Some I ∧ i_user_id I = u) →
  (∃ I, row (work w') i = Some I ∧ i_user_id I = u) ∧ frozen (foreign (Some u)) w w'.

#[export] Instance mine_preorder u i : PreOrder (mine u i).
Proof.
  split; [by intros w H|]. intros w1 w2 w3 H1 H2 H.
  destruct (H1 H) as [H' Hf]. destruct (H2 H') as [H'' Hf']. split; [done|]. by etrans.
Qed.

Lemma mine_other {A} u i (m : Web Cloud A) : keeps (frozen c_instances) m → keeps (mine u i) m.
Proof.
  intros Hm w (I & HI & Hu). destruct (Hm w) as [H1 H2]. split.
  - exists I. split; [|done]. change (rows (c_instances (work (m w).2)) !! i = Some I).
    rewrite H1. done.
  - unfold frozen, foreign. rewrite H1. split; [done|]. destruct H2 as [->| ->]; auto.
Qed.

Lemma mine_put u i w I I' :
  row (work w) i = Some I → i_user_id I' = i_user_id I →
  mine u i w (mkWorld (set_tbl (tput i I' (tbl (work w))) (work w)) (comm w) (outs w)).
Proof.
  intros HI Hu (J & HJ & HuJ). assert (J = I) as -> by congruence. split.
  - exists I'. cbn [work]. rewrite row_put_eq. split; [done|congruence].
  - split; [|by left]. cbn [work]. apply (foreign_put _ _ _ I); congruence.
Qed.

Lemma mine_modify u i (g : Instance → Instance) :
  (∀ I, i_user_id (g I) = i_user_id I) → keeps (mine u i) (modify i g).
Proof.
  intros Hg w. rewrite modify_val. destruct (row (work w) i) as [I|] eqn:HI; [|done].
  by apply (mine_put u i w I).
Qed.

Lemma mine_update_network u i e : keeps (mine u i) (do_update_network e i).
Proof.
  intros w. unfold do_update_network, fetch, ask, mbind, Web_bind. simpl.
  destruct (row (work w) i) as [I|] eqn:HI; [|done]. simpl.
  destruct (update_network _ _ _ _) as [I'|] eqn:EU; [|done].
  apply (mine_put u i w I); [done|].
  apply update_network_core in EU. unfold core_of in EU. congruence.
Qed.

Lemma mine_frozen {A} u i (m : Web Cloud A) w :
  (∃ I, row (work w) i = Some I ∧ i_user_id I = u) → keeps (mine u i) m →
  frozen (foreign (Some u)) w (m w).2.
Proof. intros Ho Hm. by apply Hm. Qed.

Ltac mine_auto :=
  repeat first
    [ apply mine_update_network
    | apply mine_modify; reflexivity
    | apply mine_other; solve [frozen_auto]
    | keeps_step ].

Lemma quiet_frozen {A X} (f : Cloud → X) w (r : out A * world Cloud) : quiet w r → frozen f w r.2.
Proof. intros [H1 H2]. split; [by rewrite H1|left; by rewrite H2]. Qed.

(** A page on the user's own instance. *)
Lemma foreign_with e get k w :
  (∀ u i, keeps (mine u i) (k u i)) →
  frozen (foreign (cur e)) w (with_myinstance e get k w).2.
Proof.
  intros Hk. destruct (with_myinstance_run e get k w)
    as [H|(u & i & Hu & (I & HI & HuI & _) & H)]; [by apply quiet_frozen|].
  rewrite H, Hu. eapply (mine_frozen u i); [eauto|apply Hk].
Qed.

(** A handler that does not touch instances at all. *)
Lemma foreign_frozen {A} o w (m : Web Cloud A) :
  keeps (frozen c_instances) m → frozen (foreign o) w (m w).2.
Proof.
  intros Hm. destruct (Hm w) as [H1 H2]. unfold frozen, foreign. rewrite H1.
  split; [done|]. destruct H2 as [->| ->]; auto.
Qed.

Ltac unfold_base :=
  unfold with_myinstance, set_myinstance, authenticated, no, profile_of_user, get_text.

Lemma foreign_Storage p e w : frozen (foreign (cur e)) w (storage_handler p e w).2.
Proof.
  apply foreign_frozen. destruct p; simpl;
    unfold StorageAdd_post, StorageAdd_prepare, StorageEdit_post, StorageDelete_get, StorageAction,
      storage_form, update_used; unfold_base; frozen_auto.
Qed.

Lemma foreign_Port p e ipt w : frozen (foreign (cur e)) w (port_handler p e ipt w).2.
Proof.
  apply foreign_frozen. destruct p; simpl;
    unfold PortMappingAdd_post, PortMappingAdd_prepare, PortMappingDelete_get, port_form,
      binding_iptables, unbinding_iptables, bind_port, free_port; unfold_base; frozen_auto.
Qed.

Lemma foreign_NetworkAdd e w : frozen (foreign (cur e)) w (NetworkAdd_post e w).2.
Proof.
  apply foreign_with. intros u i. unfold network_form, bind_ip, add_trace, get_text. mine_auto.
Qed.

Lemma foreign_NetworkDelete e w :
  row (A := Instance) (work w) 0 = None → frozen (foreign (cur e)) w (NetworkDelete_get e w).2.
Proof.
  intros H0. unfold NetworkDelete_get.
  destruct (NetworkAction_run e w) as (r & o & Ha & Hr). destruct r as [[[ip IP]|]|x].
  - destruct (Hr ip IP eq_refl) as (-> & HIP & Hc). rewrite (run_bind _ _ _ _ _ Ha).
    replace (mkWorld (work w) (comm w) (outs w)) with w by by destruct w.
    unfold authenticated. destruct (cur e) as [u|] eqn:Hu; [|by apply quiet_frozen]. web_run.
    destruct (ip_instance_id IP) as [i|] eqn:Ei; [|by apply quiet_frozen]. cbn [mbind option_bind].
    destruct (row (work w) i) as [ins|] eqn:EI; [|by apply quiet_frozen]. cbn [mbind option_bind].
    destruct Hc as [Hc|(u' & i' & I & [= <-] & [= <-] & HI & HuI)].
    { simpl in Hc. bool_prop. subst i. by rewrite H0 in EI. }
    apply (mine_frozen u i); [eauto|]. unfold add_trace. mine_auto.
  - rewrite (run_bind _ _ _ _ _ Ha). unfold authenticated. apply quiet_frozen. by destruct (cur e).
  - rewrite (run_exn _ _ _ _ _ Ha). by apply quiet_frozen.
Qed.

Lemma foreign_DomainAdd e w : frozen (foreign (cur e)) w (DomainAdd_post e w).2.
Proof.
  apply foreign_with. intros u i. unfold set_domain_item, profile_of_user. mine_auto.
Qed.

Lemma foreign_DomainDelete e w : frozen (foreign (cur e)) w (DomainDelete_get e w).2.
Proof. apply foreign_frozen. unfold DomainDelete_get, DomainAction; unfold_base; frozen_auto. Qed.

Lemma foreign_DomainEdit e w : frozen (foreign (cur e)) w (DomainEdit_post e w).2.
Proof.
  unfold DomainEdit_post.
  destruct (DomainAction_run e w) as (r & o & Ha & Hr). destruct r as [[[d D]|]|x].
  - destruct (Hr d D eq_refl) as (-> & HD & u & i & I & Hu & Hi & HI & HuI).
    rewrite (run_bind _ _ _ _ _ Ha).
    replace (mkWorld (work w) (comm w) (outs w)) with w by by destruct w.
    unfold authenticated. rewrite Hu, Hi. apply (mine_frozen u i); [eauto|].
    unfold set_domain_item. simpl. mine_auto.
  - rewrite (run_bind _ _ _ _ _ Ha). unfold authenticated. apply quiet_frozen. by destruct (cur e).
  - rewrite (run_exn _ _ _ _ _ Ha). by apply quiet_frozen.
Qed.

Lemma foreign_insert u s I :
  seq_ok (c_instances s) → i_user_id I = u →
  foreign (Some u) (set_tbl (tinsert I (tbl s)).2 s) = foreign (Some u) s.
Proof.
  intros Hok Hu. unfold foreign. simpl. apply map_eq. intros k. rewrite !map_lookup_filter.
  destruct (decide (k = seq (c_instances s) + 1)) as [->|Hk].
  - rewrite lookup_insert_eq, Hok by lia. simpl. case_guard; simpl in *; congruence.
  - by rewrite lookup_insert_ne.
Qed.

Lemma foreign_Create e cookie w :
  seq_ok (c_instances (work w)) → frozen (foreign (cur e)) w (InstanceCreate_post e cookie w).2.
Proof.
  intros Hok. destruct (InstanceCreate_run e cookie w) as [H|(u & a & d & Hu & _ & H)];
    [by apply quiet_frozen|].
  rewrite H, Hu. web_run. set (s1 := set_tbl _ _).
  assert (foreign (Some u) s1 = foreign (Some u) (work w)) as Hf by by apply foreign_insert.
  etrans; [|apply (mine_frozen u (seq (c_instances (work w)) + 1))].
  - split; [exact Hf|right; exact Hf].
  - exists (created_instance e cookie u a d). split; [|done].
    cbn [work]. change (c_instances (work w)) with (tbl (A := Instance) (work w)).
    unfold s1. apply row_insert.
  - unfold equip, set_ip, set_secret, bind_ip, add_trace, profile_of_user. mine_auto.
Qed.

Lemma foreign_page path h e w :
  (path, h) ∈ handlers → seq_ok (c_instances (work w)) → row (A := Instance) (work w) 0 = None →
  frozen (foreign (cur (me_rq e))) w (h e w).2.
Proof.
  intros Hin Hok H0. unfold handlers in Hin.
  repeat (apply elem_of_cons in Hin as [[= -> ->]|Hin]); [..|by apply not_elem_of_nil in Hin].
  - by apply foreign_Create.
  - apply foreign_with. intros u i. mine_auto.
  - apply foreign_frozen. unfold GlobalPasswordEdit_post. unfold_base. frozen_auto.
  - apply foreign_with. intros u i. mine_auto.
  - apply foreign_with. intros u i. unfold resource_form. mine_auto.
    apply mine_modify. intros I. unfold set_resource. by destruct (is_running _).
  - apply (foreign_Storage AddStorage).
  - apply (foreign_Storage EditStorage).
  - apply (foreign_Storage DeleteStorage).
  - apply foreign_NetworkAdd.
  - by apply foreign_NetworkDelete.
  - apply foreign_with. intros u i. unfold profile_of_user. mine_auto.
  - apply foreign_with. intros u i. unfold key_form, get_text. mine_auto.
  - apply foreign_DomainAdd.
  - apply foreign_DomainEdit.
  - apply foreign_DomainDelete.
  - apply (foreign_Port AddPort).
  - apply (foreign_Port DeletePort).
Qed.

(** ** Properties *)

(** C17: isolation: no request to the pages under /myun changes, in any column
    (owner, size, state, configuration, password, key), an instance of another
    user, nor any instance when nobody is logged in, whatever the request holds
    and wherever its handler fails. *)
Theorem myun_isolation path h e s k I :
  (path, h) ∈ handlers → seq_ok (c_instances s) → row (A := Instance) s 0 = None →
  row s k = Some I → cur (me_rq e) ≠ Some (i_user_id I) →
  row (request (h e) s).1 k = Some I.
Proof.
  intros Hin Hok H0 HI Hne.
  destruct (foreign_page path h e (start s) Hin Hok H0) as [_ H]. rewrite request_fst.
  assert (foreign (cur (me_rq e)) (comm (h e (start s)).2) = foreign (cur (me_rq e)) s) as Hf
    by by destruct H.
  assert (foreign (cur (me_rq e)) s !! k = Some I) as Hk by by apply map_lookup_filter_Some.
  rewrite <- Hf in Hk. by apply map_lookup_filter_Some in Hk as [Hk _].
Qed.

(** A second user asks for the first user's instance. *)
Definition intruder : myun_env :=
  mkMyun (rq (life_env 2 [("id", "1"); ("name", "mine now")]%string)) "c0ffee" id true.

Lemma life_instances_seq_ok : seq_ok (c_instances life_cloud).
Proof.
  intros k Hk. change (rows (c_instances life_cloud)) with (<[1 := life_instance]> (∅ : gmap Z Instance)).
  rewrite lookup_insert_ne; [reflexivity|]. intros <-. vm_compute in Hk. discriminate Hk.
Qed.

Lemma myun_isolation_witness :
  row (request (BaseinfoEdit_post (me_rq intruder)) life_cloud).1 1 = Some life_instance.
Proof.
  apply (myun_isolation "/myun/instance/baseinfo/edit" (λ e, BaseinfoEdit_post (me_rq e))
    intruder life_cloud 1 life_instance).
  - apply (list_elem_of_lookup_2 handlers 3). reflexivity.
  - exact life_instances_seq_ok.
  - reflexivity.
  - reflexivity.
  - discriminate.
Defined.
