(* ===== verification/Account.v ===== *)
(** Accounts (src/lyweb/app/account): sessions, login and logout, forgotten and
    changed passwords, public keys, the validation of an e-mail address. What is
    drawn at random (the key of a session, of an application, a salt) is an
    argument of the request. *)
From Stdlib Require Import Ascii String.
From S2P Require Import Prelude PyText PyBytes Base64 Password Table Session Cloud Quota InstanceModel Web Forms LifeControl Myun.
#[local] Open Scope Z_scope.

(** ** E-mail addresses: [^.+@[^.].*\.[a-z]{2,10}$], ignoring case *)

Definition letter (c : ascii) : bool :=
  let n := nat_of_ascii c in
  ((65 <=? n) && (n <=? 90) || (97 <=? n) && (n <=? 122))%nat.

(** [.] matches everything but a line break. *)
Definition any_char (c : ascii) : bool := negb (c =? "010")%char.

Definition letters (s : string) : bool :=
  forallb letter (list_ascii_of_string s) && length_ok 2 10 s.

(** [.*\.[a-z]{2,10}$] *)
Fixpoint email_tail (s : string) : bool :=
  match s with
  | EmptyString => false
  | String c s => (c =? ".")%char && letters s || any_char c && email_tail s
  end.

(** [.*@[^.].*\.[a-z]{2,10}$] *)
Fixpoint email_rest (s : string) : bool :=
  match s with
  | EmptyString => false
  | String c s =>
      (c =? "@")%char &&
        match s with
        | EmptyString => false
        | String d s => negb (d =? ".")%char && email_tail s
        end
      || any_char c && email_rest s
  end.

Definition email_re (s : string) : bool :=
  match s with
  | EmptyString => false
  | String c s => any_char c && email_rest s
  end.

(** The fields several forms share. *)
Definition email_field (e : req) : option string :=
  let v := text_field e "email" in
  if length_ok 6 35 v && email_re v then Some v else None.

Definition password_fields (e : req) : option string :=
  let v := text_field e "password" in
  if length_ok 6 120 v && String.eqb (text_field e "password_confirm") v
  then Some v else None.

(** ** Queries *)

Definition user_by_email (s : Cloud) (addr : string) : option (Z * User) :=
  head (select (λ _ U, bool_decide (u_email U = Some addr)) s).
Definition user_by_name (s : Cloud) (name : string) : option (Z * User) :=
  head (select (λ _ U, String.eqb (u_username U) name) s).

Definition reset_by_key (s : Cloud) (key : string) : option (Z * UserResetpass) :=
  head (select (λ _ R, String.eqb (rp_key R) key) s).
Definition authkey_by_key (s : Cloud) (key : string) : option (Z * AuthKey) :=
  head (select (λ _ K, String.eqb (ak_key K) key) s).

(** [SiteConfig.get]: the text of the row, [None] for the default. *)
Definition site_config (s : Cloud) (key : string) : option string :=
  sc_value ∘ snd <$> head (select (λ _ x, String.eqb (sc_key x) key) s).

Definition SESSION_DAYS := 30 * 24 * 3600.
Definition WEEK := 3600 * 24 * 7.

(** [redirect_next(url)] *)
Definition redirect_next (e : req) (url : string) : Web Cloud unit :=
  let next := get_argument e "next_url" "" in
  emit (Redirect (if String.eqb next "" then url else next) 0).

Section account.
Context `{!Sha512, !SessionCodec}.

(** ** Sessions *)

Definition pack_session (u : Z) : string :=
  let pickled := pickle_user u in
  digits_text (encodestring (pickled ++ md5_hex (pickled ++ session_secret))).

Definition save_session (e : req) (session_key : string) (u : Z) : Web Cloud unit :=
  _ ← add_row (mkSession session_key (pack_session u) (now e + SESSION_DAYS));
  commit;;
  emit (SetCookie "session_key" session_key).

(** [db.delete(None)] raises. *)
Definition delete_session (cookie : string) : Web Cloud unit :=
  o ← ask (λ s, head (select (λ _ r, String.eqb (sk_key r) cookie) s));
  match o with
  | None => raise "UnmappedInstanceError"
  | Some (i, _) => delete_row SessionRow i;; commit;; emit ClearCookies
  end.

(** ** Login and logout *)

(** [LoginForm]: the user both validators find, when neither complains. *)
Definition login_form (e : req) (s : Cloud) : option Z :=
  let name := text_field e "user" in
  match (if has_char "@" name then user_by_email s name else user_by_name s name) with
  | None => None
  | Some (i, U) =>
      if u_is_locked U then None
      else if check_login_passwd (text_field e "password") (u_password U) then Some i
      else None
  end.

Definition Login_post (e : req) (session_key : string) : Web Cloud unit :=
  o ← ask (login_form e);
  match o with
  | Some u =>
      save_session e session_key u;;
      modify u (λ U : User, U <| u_last_login := Some (now e) |>);;
      commit;;
      redirect_next e "/"
  | None => emit (Render "account/login.html")
  end.

Definition Logout_get (e : req) (cookie : string) : Web Cloud unit :=
  authenticated e true (λ _, delete_session cookie;; emit (Redirect "/" 0)) tt.

(** ** Passwords *)

(** [ResetPassApply.post]: the filter for older applications compares the column
    itself with [None] and finds none. *)
Definition older_applies (s : Cloud) (u : Z) : list (Z * UserResetpass) :=
  select (λ _ R, (rp_user_id R =? u) && false) s.

Definition ResetPassApply_post (e : req) (key : string) : Web Cloud unit :=
  match email_field e with
  | None => emit (Render "account/reset_password_apply.html")
  | Some addr =>
      o ← ask (λ s, user_by_email s (strip addr));
      match o with
      | None => emit (Render "account/reset_password_apply.html")
      | Some (u, _) =>
          old ← ask (λ s, older_applies s u);
          for_each old (λ a, delete_row UserResetpass a.1);;
          _ ← add_row (mkUserResetpass u key);
          commit;;
          (if clc_up e then emit (Mail "" u key) else mret tt);;
          emit (Render "account/reset_password_apply_success.html")
      end
  end.

(** [ResetPass.prepare]: the application of the key; without one the answer is
    complete. *)
Definition reset_apply (e : req) : Web Cloud (option (Z * UserResetpass)) :=
  let key := get_argument e "key" "" in
  o ← ask (λ s, if String.eqb key "" then None else reset_by_key s key);
  match o with
  | Some a => mret (Some a)
  | None => emit (Render "account/reset_password_failed.html");; mret None
  end.

Definition ResetPass_post (e : req) (salt session_key : string) : Web Cloud unit :=
  o ← reset_apply e;
  match o with
  | None => mret tt
  | Some (i, a) =>
      match password_fields e with
      | None => emit (Render "account/reset_password.html")
      | Some pw =>
          modify (rp_user_id a) (λ U : User, U <| u_password := enc_login_passwd salt pw |>);;
          delete_row UserResetpass i;;
          commit;;
          save_session e session_key (rp_user_id a);;
          emit (Redirect "/" 0)
      end
  end.

Definition ResetMyPass_post (e : req) (salt : string) : Web Cloud unit :=
  authenticated e false (λ u,
    match password_fields e with
    | None => emit (Render "account/reset_mypass.html")
    | Some pw =>
        modify u (λ U : User, U <| u_password := enc_login_passwd salt pw |>);; commit;;
        emit (Redirect "/account" 0)
    end) tt.

(** ** Texts of the account *)

(** [choices] are the ids of the languages of the site, as text. *)
Definition BaseInfoEdit_post (e : req) (choices : list string) : Web Cloud unit :=
  authenticated e false (λ u,
    let nick := text_field e "nickname" in
    let first := text_field e "first_name" in
    let last := text_field e "last_name" in
    let lang := select_field e "language" in
    if length_ok 1 64 nick && length_ok 0 32 first && length_ok 0 32 last &&
       bool_decide (lang ∈ choices)
    then
      match py_int lang with
      | None => raise "DataError"
      | Some l =>
          modify u (λ U : User, U <| u_nickname := Some (strip nick) |>
            <| u_first_name := Some (strip first) |> <| u_last_name := Some (strip last) |>
            <| u_language_id := Some l |>);;
          commit;; emit (Redirect "/account" 0)
      end
    else emit (Render "account/baseinfo_edit.html")) tt.

(** ** Public keys *)

Definition has_default (s : Cloud) (u : Z) : bool :=
  existsb (λ K, k_isdefault (snd K)) (keys_of s u).

(** [PublicKey.__init__] *)
Definition new_key (s : Cloud) (u : Z) (name data : string) : PublicKey :=
  mkPublicKey u name data (negb (has_default s u)).

(** [PublicKey.set_default] of the key with id [k]. *)
Definition set_default (k : Z) : Web Cloud unit :=
  K ← fetch (A := PublicKey) k;
  l ← ask (λ s, keys_of s (k_user_id K));
  for_each l (λ x, modify x.1 (λ K : PublicKey, K <| k_isdefault := false |>));;
  modify k (λ K : PublicKey, K <| k_isdefault := true |>).

(** [PublicKeyForm] *)
Definition key_fields (e : req) : option (string * string) :=
  let name := text_field e "name" in
  let key := text_field e "key" in
  if length_ok 1 128 name && length_ok 1 1024 key then Some (name, key) else None.

Definition PublicKeyAdd_post (e : req) : Web Cloud unit :=
  authenticated e false (λ u,
    match key_fields e with
    | None => emit (Render "account/public_key/edit.html")
    | Some (name, key) =>
        K ← ask (λ s, new_key s u name key);
        k ← add_row K;
        commit;;
        (if bool_field e "isdefault" then set_default k else mret tt);;
        commit;;
        emit (Redirect "account:public_key" 0)
    end) tt.

(** [PublicKeyHandler.initialize] looks at the current user before anyone asked
    whether there is one. *)
Definition my_key (e : req) : Web Cloud (option (Z * PublicKey)) :=
  let ID := default 0 (get_argument_int e "id" None) in
  if ID =? 0 then no "Give me the pulic key id please." else
  o ← get_row (A := PublicKey) ID;
  match o with
  | None => no "Can not find public key"
  | Some K =>
      match cur e with
      | None => raise "AttributeError: NoneType"
      | Some u => if k_user_id K =? u then mret (Some (ID, K)) else no "Not you public key."
      end
  end.

Definition PublicKeyEdit_post (e : req) : Web Cloud unit :=
  o ← my_key e;
  authenticated e false (λ u,
    match o with
    | None => mret tt
    | Some (k, _) =>
        match key_fields e with
        | None => emit (Render "account/public_key/edit.html")
        | Some (name, key) =>
            conflict ← ask (λ s, existsb (λ x, negb (fst x =? k))
                                   (select (λ _ K, String.eqb (k_data K) key) s));
            if (conflict : bool) then emit (Render "account/public_key/edit.html") else
            modify k (λ K : PublicKey, K <| k_name := name |> <| k_data := key |>);;
            (if bool_field e "isdefault" then set_default k else mret tt);;
            commit;;
            emit (Redirect "account:public_key" 0)
        end
    end) tt.

Definition PublicKeyDelete_get (e : req) : Web Cloud unit :=
  o ← my_key e;
  authenticated e true (λ u,
    match o with
    | None => mret tt
    | Some (k, K) =>
        delete_row PublicKey k;;
        commit;;
        (if k_isdefault K then
           l ← ask (λ s, keys_of s u);
           match l with
           | (k', _) :: _ => modify k' (λ K : PublicKey, K <| k_isdefault := true |>)
           | [] => mret tt
           end;;
           commit
         else mret tt);;
        emit (Redirect "account:public_key" 0)
    end) tt.

(** ** The validation of an e-mail address *)

(** A link with a key: whoever is logged in gets the address of the key. *)
Definition EmailValidate_get (e : req) : Web Cloud unit :=
  authenticated e true (λ u,
    let key := get_argument e "auth_key" "" in
    if String.eqb key "" then emit (Render "account/email_validate.html") else
    o ← ask (λ s, authkey_by_key s key);
    match o with
    | None => emit (Write "Invalid key")
    | Some (i, K) =>
        if ak_expire K <? now e then emit (Write "The key is expired") else
        modify u (λ U : User, U <| u_email := Some (ak_data K) |> <| u_email_valid := true |>);;
        delete_row AuthKey i;;
        commit;;
        emit (Redirect "account" 0)
    end) tt.

Definition EmailValidate_post (e : req) (key : string) : Web Cloud unit :=
  authenticated e false (λ u,
    match email_field e with
    | None => emit (Render "account/email_validate.html")
    | Some addr =>
        U ← fetch (A := User) u;
        others ← ask (λ s, select (λ i V, negb (i =? u) && bool_decide (u_email V = Some addr)) s);
        match (others : list (Z * User)) with
        | _ :: _ => emit (Render "account/email_validate.html")
        | [] =>
            if bool_decide (u_email U = Some addr) && u_email_valid U
            then emit (Render "account/email_validate.html") else
            _ ← add_row (mkAuthKey key addr (now e + WEEK));
            commit;;
            (if clc_up e then emit (Mail addr 0 key) else mret tt);;
            emit (Render "account/email_validate_apply_success.html")
        end
    end) tt.
End account.

(** ** Sessions *)

Section sessions.
Context `{!Sha512, !SessionCodec}.

Lemma unpack_pack u : unpack_session (pack_session u) = Unpacked u.
Proof.
  unfold unpack_session, pack_session.
  set (p := pickle_user u). set (h := md5_hex (p ++ session_secret)).
  assert (length h = 32%nat) as Hh by apply md5_hex_length.
  rewrite decode_text by (apply Forall_app; split; [apply pickle_user_bytes|apply md5_hex_bytes]).
  rewrite length_app, Hh.
  replace (length p + 32 - 32)%nat with (length p) by lia.
  rewrite take_app_length, drop_app_length, decide_True by done.
  unfold p. by rewrite unpickle_pickle.
Qed.

(** The user a request finds depends on the rows of the session's key and on the
    user. *)
Lemma current_user_ext now (s s' : Cloud) cookie :
  select (A := SessionRow) (λ _ r, String.eqb (sk_key r) cookie) s' =
    select (λ _ r, String.eqb (sk_key r) cookie) s →
  (∀ u, u_is_locked <$> row (A := User) s' u = u_is_locked <$> row (A := User) s u) →
  get_current_user now s' cookie = get_current_user now s cookie.
Proof.
  intros Hs Hu. unfold get_current_user. rewrite Hs.
  destruct (select _ s) as [|[i r] [|]]; [done| |done].
  destruct (_ <? _); [done|]. destruct (unpack_session _) as [| |u]; [done..|].
  specialize (Hu u).
  destruct (row (A := User) s' u), (row (A := User) s u); simplify_eq/=; [|done].
  by rewrite Hu.
Qed.

(** The database after a login of [u], whose row was [U]. *)
Definition logged_in (e : req) (key : string) (u : Z) (U : User) (s : Cloud) : Cloud :=
  set_tbl (tput u (U <| u_last_login := Some (now e) |>) (tbl s))
    (set_tbl (tinsert (mkSession key (pack_session u) (now e + SESSION_DAYS)) (tbl s)).2 s).

Lemma logged_in_sessions e key u U s :
  seq_ok (c_sessions s) → select (A := SessionRow) (λ _ r, String.eqb (sk_key r) key) s = [] →
  row s u = Some U → u_is_locked U = false →
  let s' := logged_in e key u U s in
  (∀ t, get_current_user t s' key = if now e + SESSION_DAYS <? t then NoUser else UserId u) ∧
  ∀ t cookie, cookie ≠ key → get_current_user t s' cookie = get_current_user t s cookie.
Proof.
  intros Hseq Hfresh HU Hl. unfold logged_in. split.
  - intros t. unfold get_current_user. web_run. rewrite select_insert by done. rewrite Hfresh.
    cbn [sk_key app]. rewrite String.eqb_refl. cbn [sk_expire sk_data]. rewrite unpack_pack.
    rewrite row_set_put, decide_True by done.
    change (u_is_locked (U <| u_last_login := Some (now e) |>)) with (u_is_locked U).
    by rewrite Hl.
  - intros t cookie Hc. apply current_user_ext.
    + web_run. rewrite select_insert by done. cbn [sk_key].
      by rewrite (proj2 (String.eqb_neq _ _)), app_nil_r by congruence.
    + intros v. rewrite row_set_put. case_decide as Ev; [|done].
      subst v. by rewrite HU.
Qed.

(** What [Login.post] leaves, with the user the form accepted. *)
Lemma Login_run e key s :
  match login_form e s with
  | None => request (Login_post e key) s = (s, [Render "account/login.html"])
  | Some u => ∃ U o, row s u = Some U ∧ u_is_locked U = false ∧
      check_login_passwd (text_field e "password") (u_password U) = true ∧
      (u_username U = text_field e "user" ∨ u_email U = Some (text_field e "user")) ∧
      SetCookie "session_key" key ∈ o ∧
      request (Login_post e key) s = (logged_in e key u U s, o)
  end.
Proof.
  destruct (login_form e s) as [u|] eqn:E;
    [|unfold request, Login_post; web_run; change (work (start s)) with s; by rewrite E].
  assert (∃ U, row s u = Some U ∧ u_is_locked U = false ∧
      check_login_passwd (text_field e "password") (u_password U) = true ∧
      (u_username U = text_field e "user" ∨ u_email U = Some (text_field e "user")))
    as (U & HU & Hl & Hp & Hn).
  { revert E. unfold login_form, user_by_email, user_by_name.
    destruct (has_char "@" _).
    all: match goal with |- context [head ?l] => destruct l as [|[j V] l0] eqn:Es; [done|] end.
    all: simpl; destruct (u_is_locked V) eqn:El; [done|].
    all: destruct (check_login_passwd _ _) eqn:Ec; [|done]; intros [= ->].
    all: match type of Es with ?l = _ => assert ((u, V) ∈ l) as Hin by (rewrite Es; by left) end.
    all: apply elem_of_select in Hin as [HV HP]; exists V; split_and!; try done.
    - right. by apply bool_decide_eq_true in HP.
    - left. by apply String.eqb_eq in HP. }
  exists U. eexists. split_and!; [done..| |].
  2:{ unfold request, Login_post. web_run. change (work (start s)) with s. rewrite E.
      unfold save_session. web_run. change (work (start s)) with s. rewrite HU. web_run.
      unfold redirect_next. web_run. change (comm (start s)) with s. done. }
  set_solver.
Qed.

(** C6: logging in. A request that the login form does not accept leaves the
    database as it was and sets no cookie. Otherwise the user it names is there,
    is not locked and has the password that was given; the cookie is set; and
    from then on, until the session expires and as long as nothing else changes,
    a request with the cookie is a request of that user and of nobody after
    that, while every other cookie means what it meant before. *)
Theorem login_session e key s s' effs :
  request (Login_post e key) s = (s', effs) →
  seq_ok (c_sessions s) → select (A := SessionRow) (λ _ r, String.eqb (sk_key r) key) s = [] →
  match login_form e s with
  | None => s' = s ∧ ∀ k v, SetCookie k v ∉ effs
  | Some u => ∃ U, row s u = Some U ∧ u_is_locked U = false ∧
      check_login_passwd (text_field e "password") (u_password U) = true ∧
      (u_username U = text_field e "user" ∨ u_email U = Some (text_field e "user")) ∧
      SetCookie "session_key" key ∈ effs ∧
      (∀ t, get_current_user t s' key =
         if now e + SESSION_DAYS <? t then NoUser else UserId u) ∧
      ∀ t cookie, cookie ≠ key → get_current_user t s' cookie = get_current_user t s cookie
  end.
Proof.
  intros HE Hseq Hfresh. pose proof (Login_run e key s) as HL.
  destruct (login_form e s) as [u|].
  2:{ rewrite HE in HL. injection HL as -> ->. split; [done|]. intros k v. set_solver. }
  destruct HL as (U & o & HU & Hl & Hp & Hn & Ho & HR). rewrite HE in HR. apply pair_equal_spec in HR as [-> ->].
  exists U. split; [done|]. split; [done|]. split; [done|]. split; [done|]. split; [done|].
  by apply logged_in_sessions.
Qed.
End sessions.

(** ** An example *)

(** A digest and a codec that satisfy the laws: the hexadecimal digits of the
    text, and the decimal text of the id. *)
Definition hex_digit (n : nat) : ascii := default "0"%char (String.get n "0123456789abcdef").
Fixpoint hex_text (s : string) : string :=
  match s with
  | EmptyString => EmptyString
  | String c s =>
      String (hex_digit (nat_of_ascii c / 16)) (String (hex_digit (nat_of_ascii c mod 16)) (hex_text s))
  end.

Lemma hex_digit_plain n : (hex_digit n =? dollar)%char = false.
Proof. unfold hex_digit. do 16 (destruct n as [|n]; [done|]). by destruct n. Qed.

Lemma hex_text_plain s : has_char dollar (hex_text s) = false.
Proof.
  induction s as [|c s IH]; [done|]. cbn [hex_text has_char].
  by rewrite !hex_digit_plain, IH.
Qed.

#[export] Instance example_sha : Sha512 :=
  {| sha512_hex := hex_text; sha512_hex_plain := hex_text_plain |}.

Definition example_md5 (b : bytes) : bytes := pack_s 32 (text (str_of_Z (sum_list_Z id b mod 1000))).

Lemma example_md5_bytes b : Forall is_byte (example_md5 b).
Proof.
  unfold example_md5, pack_s. apply Forall_app. split; [apply Forall_take, text_bytes|].
  apply Forall_replicate. unfold is_byte. lia.
Qed.

Lemma example_unpickle u : default 0 (py_int (of_text (text (str_of_Z u)))) = u.
Proof. by rewrite of_text_text, py_int_str_of_Z. Qed.

#[export] Instance example_codec : SessionCodec := {|
  session_secret := text "secret";
  md5_hex := example_md5;
  pickle_user u := text (str_of_Z u);
  unpickle_user b := default 0 (py_int (of_text b));
  md5_hex_length _ := pack_s_length 32 _;
  md5_hex_bytes := example_md5_bytes;
  pickle_user_bytes u := text_bytes _;
  unpickle_pickle := example_unpickle |}.

(** Ann, whose password is [lilac], and a public key of hers. *)
Definition account_cloud : Cloud :=
  empty_cloud
    <| c_users := table_of [mkUser "ann" (Some "ann@example.org") true false 0 0 []
         (enc_login_passwd "5f3a" "lilac") (Some "ann") None None (Some 1) None] |>
    <| c_keys := table_of [mkPublicKey 1 "laptop" "ssh-rsa AAAA" true] |>
    <| c_resets := table_of [mkUserResetpass 1 "k1"] |>.

Definition account_req (u : option Z) (l : list (string * string)) : req :=
  mkReq 1000 u (list_to_map l) true true.

Definition login_req : req :=
  account_req None [("user", "ann"); ("password", "lilac")]%string.

Lemma login_session_witness :
  login_form login_req account_cloud = Some 1 ∧
  let '(s', effs) := request (Login_post login_req "sk") account_cloud in
  ∃ U, row account_cloud 1 = Some U ∧ u_is_locked U = false ∧
      check_login_passwd "lilac" (u_password U) = true ∧
      (u_username U = "ann"%string ∨ u_email U = Some "ann"%string) ∧
      SetCookie "session_key" "sk" ∈ effs ∧
      (∀ t, get_current_user t s' "sk" = if 1000 + SESSION_DAYS <? t then NoUser else UserId 1) ∧
      ∀ t cookie, cookie ≠ "sk"%string →
        get_current_user t s' cookie = get_current_user t account_cloud cookie.
Proof.
  split; [vm_compute; reflexivity|].
  destruct (request (Login_post login_req "sk") account_cloud) as [s' effs] eqn:E.
  apply (login_session login_req "sk" account_cloud s' effs E).
  - intros i _. apply lookup_empty.
  - vm_compute. reflexivity.
Defined.
