(* ===== verification/Message.v ===== *)
(** Messages between users and notices to all of them
    (src/lyweb/app/message/views.py, models.py, forms.py). A message and its copy
    for the sender share one text. *)
From Stdlib Require Import Ascii String.
From S2P Require Import Prelude PyText PyBytes Base64 Table Session Cloud Quota InstanceModel Web Forms LifeControl Myun MyNetwork Password Account.
#[local] Open Scope Z_scope.

(** ** Texts *)

Fixpoint replace_char (c : ascii) (r s : string) : string :=
  match s with
  | EmptyString => EmptyString
  | String c' s' => (if (c' =? c)%char then r else String c' EmptyString) +:+ replace_char c r s'
  end.

(** [MessageText(subject, body)] *)
Definition new_text (subject body : string) : MessageText :=
  mkMessageText (replace_char ">" "&gt;" (replace_char "<" "&lt;" subject)) body.

(** The text after [Re:] and the white space around it, if the text starts so. *)
Definition re_prefix (s : string) : option string :=
  match lstrip s with
  | String a (String b (String c s')) =>
      if String.eqb (lower (String a (String b (String c EmptyString)))) "re:"
      then Some (lstrip s') else None
  | _ => None
  end.

(** [reply_regex.sub('', s)]; [fuel] bounds the steps. The Chinese forms of the
    prefix are outside the text modelled. *)
Fixpoint strip_re (fuel : nat) (s : string) : string :=
  match fuel with
  | O => s
  | Datatypes.S fuel =>
      match s with
      | EmptyString => EmptyString
      | String c s' =>
          match re_prefix s with
          | Some rest => strip_re fuel rest
          | None => String c (strip_re fuel s')
          end
      end
  end.

Definition reply_subject (subject : string) : string :=
  "Re: " +:+ strip_re (String.length subject) subject.

(** ** Messages *)

(** [Message(sender_id, receiver_id, text_id)] *)
Definition new_message (sender : Z) (receiver : option Z) (text : Z) : Message :=
  mkMessage None sender receiver text true false None.

(** [User.notify(notice)] *)
Definition notify (n : Z) (U : User) : User :=
  let v := if u_notice U =? 0 then n else u_notice U + n in
  U <| u_notice := if v <? 0 then 0 else v |>.

Definition notify_user (o : option Z) (n : Z) : Web Cloud unit :=
  match o with
  | Some u => modify u (notify n)
  | None => raise "AttributeError: NoneType"
  end.

(** Sent or received by the user. *)
Definition concerns (u : Z) (M : Message) : bool :=
  bool_decide (m_receiver_id M = Some u) || (m_sender_id M =? u).

Definition my_message (u ID : Z) : Web Cloud (option Message) :=
  o ← get_row ID;
  match o with
  | None => no "Can not find message"
  | Some M => if concerns u M then mret (Some M)
              else no "You have no permissions to read this message!"
  end.

Definition text_of (s : Cloud) (M : Message) : option MessageText := row s (m_text_id M).

(** [View.get]: the message shown. *)
Definition View_message (e : req) (ID : Z) : Web Cloud (option Message) :=
  authenticated e true (λ u,
    o ← my_message u ID;
    (match o with
     | None => mret tt
     | Some M =>
         (if m_isread M then mret tt
          else modify ID (λ M : Message, M <| m_isread := true |>);;
               notify_user (m_receiver_id M) (-1));;
         (match m_readtime M with
          | Some _ => mret tt
          | None => modify ID (λ M : Message, M <| m_readtime := Some (now e) |>)
          end);;
         commit
     end);;
    emit (Render "message/view_message.html");;
    mret o) None.

Definition answers_to (k : Z) (s : Cloud) : list (Z * Message) :=
  select (λ _ Q, bool_decide (m_reply_id Q = Some k)) s.

(** The database keeps a message that another one answers. *)
Definition delete_message (k : Z) : Web Cloud unit :=
  q ← ask (answers_to k);
  match q with
  | [] => delete_row Message k
  | _ => raise "IntegrityError"
  end.

Definition with_text (s : Cloud) (t : Z) : list (Z * Message) :=
  select (λ _ Q, m_text_id Q =? t) s.

Definition unlink_message (u ID : Z) (M : Message) : Web Cloud unit :=
  (if m_isread M then mret tt else notify_user (m_receiver_id M) (-1));;
  quote_list ← ask (answers_to ID);
  for_each quote_list (λ q, modify q.1 (λ Q : Message,
    if concerns u Q then Q <| m_reply_id := None |> else Q));;
  delete_message ID.

(** [Delete.get] *)
Definition Delete_message (e : req) (ID : Z) : Web Cloud unit :=
  authenticated e true (λ u,
    o ← my_message u ID;
    match o with
    | None => emit (Write "This is not your message !")
    | Some M =>
        l ← ask (λ s, with_text s (m_text_id M));
        unlink_message u ID M;;
        (if (length l =? 1)%nat then delete_row MessageText (m_text_id M) else mret tt);;
        commit;;
        if String.eqb (get_argument e "ajax" "") "" then emit (Redirect "message:inbox" 0)
        else mret tt
    end) tt.

(** [New.get]: the subject and the text put into the form. *)
Definition New_get (e : req) : Web Cloud (option (string * string)) :=
  authenticated e true (λ _,
    let UID := get_argument e "user" "" in
    let orig := get_argument e "origmsg" "" in
    _ ← (if String.eqb UID "" then mret None else get_text (A := User) UID);
    o ← (if String.eqb orig "" then mret None else get_text (A := Message) orig);
    match o with
    | None => emit (Render "message/send_message.html");; mret None
    | Some (_, M) =>
        T ← fetch (A := MessageText) (m_text_id M);
        emit (Render "message/send_message.html");;
        mret (Some (reply_subject (mt_subject T), mt_body T))
    end) None.

(** [MessageForm] *)
Definition message_form (e : req) : option (string * string * string) :=
  let subject := text_field e "subject" in
  let text := text_field e "text" in
  if length_ok 2 256 subject && length_ok 6 10240 text
  then Some (text_field e "to", subject, text) else None.

(** [New.post] *)
Definition New_post (e : req) : Web Cloud unit :=
  authenticated e false (λ u,
    match message_form e with
    | None => emit (Render "message/send_message.html")
    | Some (to, subject, text) =>
        r ← ask (λ s, user_by_name s to);
        match r with
        | None => emit (Render "message/send_message.html")
        | Some (v, _) =>
            t ← add_row (new_text subject text);
            commit;;
            _ ← add_row (new_message u (Some v) t);
            (if v =? u then mret tt
             else _ ← add_row ((new_message u (Some v) t) <| m_isinbox := false |>); mret tt);;
            notify_user (Some v) 1;;
            commit;;
            emit (Redirect "message:inbox" 0)
        end
    end) tt.

(** [Reply.post] *)
Definition Reply_post (e : req) (ID : Z) : Web Cloud unit :=
  authenticated e false (λ u,
    o ← my_message u ID;
    match o with
    | None => emit (Write "Can not find message")
    | Some M =>
        let body := get_argument e "text" "" in
        if String.eqb body "" then emit (Write "No content write !") else
        T ← fetch (A := MessageText) (m_text_id M);
        t ← add_row (new_text (reply_subject (mt_subject T)) body);
        commit;;
        let N := (new_message u (Some (m_sender_id M)) t) <| m_reply_id := Some ID |> in
        _ ← add_row N;
        (if m_sender_id M =? u then mret tt
         else _ ← add_row (N <| m_isinbox := false |>); mret tt);;
        notify_user (Some (m_sender_id M)) 1;;
        commit;;
        emit (Redirect "message:outbox" 0)
    end) tt.

(** [SendNotice.post] *)
Definition SendNotice_post (e : req) : Web Cloud unit :=
  need_permission e false "admin" (
    match message_form e, cur e with
    | Some (_, subject, text), Some u =>
        t ← add_row (new_text subject text);
        commit;;
        _ ← add_row ((new_message u None t) <| m_isinbox := false |>);
        l ← ask (all_rows User);
        for_each l (λ U, _ ← add_row (new_message u (Some U.1) t); notify_user (Some U.1) 1);;
        commit;;
        emit (Redirect "message:notice" 0)
    | _, _ => emit (Render "message/send_notice.html")
    end) tt.

(** [NoticeDelete.get]: the text is deleted when no message has it, which never
    happens while the notice is there. *)
Definition NoticeDelete_get (e : req) (ID : Z) : Web Cloud unit :=
  need_permission e true "admin" (
    o ← get_row ID;
    match o with
    | None => raise "AttributeError: NoneType"
    | Some M =>
        if negb (unset (m_receiver_id M)) then emit (Write "This is not a notice !") else
        l ← ask (λ s, with_text s (m_text_id M));
        (match l with [] => delete_row MessageText (m_text_id M) | _ => mret tt end);;
        delete_message ID;;
        commit;;
        if String.eqb (get_argument e "ajax" "") "" then emit (Redirect "message:notice" 0)
        else mret tt
    end) tt.

(** ** What a request may do to the messages *)

Definition mail (s : Cloud) : table Message * table MessageText := (c_messages s, c_texts s).

(** Every message has its text. *)
Definition messages_ok (s : Cloud) : Prop :=
  seq_ok (c_messages s) ∧ seq_ok (c_texts s) ∧
  ∀ k M, row s k = Some M → is_Some (text_of s M).

Definition same_mail (M M' : Message) : Prop :=
  m_sender_id M' = m_sender_id M ∧ m_receiver_id M' = m_receiver_id M ∧
  m_text_id M' = m_text_id M ∧ m_isinbox M' = m_isinbox M.

(** From [s] to [s'] only messages that satisfy [may] were touched, the rest is
    as it was; a message that is new was sent by [u]; texts do not change. *)
Definition kept_mail (u : Z) (may : Message → bool) (s s' : Cloud) : Prop :=
  (∀ k M, row s k = Some M → may M = false → row s' k = Some M) ∧
  (∀ k M', row s' k = Some M' → (∃ M, row s k = Some M ∧ same_mail M M') ∨
     seq (c_messages s) < k ∧ m_sender_id M' = u ∧ may M' = true) ∧
  (∀ t T, row (A := MessageText) s' t = Some T → row s t = Some T ∨ seq (c_texts s) < t).

Section mail.
Context (u : Z) (may : Message → bool).
Hypothesis may_same : ∀ M M', same_mail M M' → may M' = may M.
#[local] Set Default Proof Using "All".

(** The message [ok], if any, may be touched; the text [ot], if any, is there. *)
Definition known (oK oT : option Z) (s : Cloud) : Prop :=
  (∀ k M, oK = Some k → row s k = Some M → may M = true) ∧
  (∀ t, oT = Some t → is_Some (row (A := MessageText) s t)).

Definition mail_step (oK oT : option Z) (s s' : Cloud) : Prop :=
  messages_ok s → known oK oT s →
  messages_ok s' ∧ known oK oT s' ∧ kept_mail u may s s' ∧
  seq (c_messages s) ≤ seq (c_messages s') ∧ seq (c_texts s) ≤ seq (c_texts s').

Lemma same_mail_refl M : same_mail M M.
Proof. done. Qed.

#[export] Instance mail_step_preorder oK oT : PreOrder (mail_step oK oT).
Proof.
  split.
  - intros s Hs Hk. split_and!; [done|done| |lia..]. split_and!; [auto| |auto].
    intros k M HM. left. exists M. auto using same_mail_refl.
  - intros s1 s2 s3 H12 H23 Ok1 Kn1.
    destruct (H12 Ok1 Kn1) as (Ok2 & Kn2 & (A1 & B1 & C1) & L1 & L1').
    destruct (H23 Ok2 Kn2) as (Ok3 & Kn3 & (A2 & B2 & C2) & L2 & L2').
    split_and!; [done|done| |lia..]. split_and!.
    + intros k M HM Hm. apply A2; [|done]. by apply A1.
    + intros k M3 [(M2 & HM2 & E2)|(Hk & Hsd & Hm)]%B2; [|right; split; [lia|done]].
      destruct (B1 k M2 HM2) as [(M1 & HM1 & E1)|(Hk & Hsd & Hm)].
      * left. exists M1. split; [done|]. unfold same_mail in *. naive_solver congruence.
      * right. split; [done|]. rewrite (may_same M2 M3) by done. destruct E2 as (-> & _). done.
    + intros t T [HT|Ht]%C2; [|right; lia]. by apply C1.
Qed.

Lemma mail_frozen oK oT {A} (m : Web Cloud A) :
  keeps (frozen mail) m → keeps (tracks (mail_step oK oT)) m.
Proof.
  apply frozen_tracks. intros s s' E Ok Kn.
  assert (c_messages s = c_messages s' ∧ c_texts s = c_texts s') as [E1 E2]
    by (unfold mail in E; by simplify_eq).
  unfold messages_ok, known, kept_mail, text_of, row in *. simpl in *. rewrite <- E1, <- E2.
  split_and!; try apply Ok; try apply Kn; auto; try lia.
  intros k M HM. left. exists M. split; [done|apply same_mail_refl].
Qed.

(** A touched message keeps its sender, receiver and text. *)
Lemma mail_put oK oT s k M M' :
  row s k = Some M → may M = true → same_mail M M' →
  mail_step oK oT s (set_tbl (tput k M' (tbl s)) s).
Proof.
  intros HM Hm E (S1 & S2 & HT) [K1 K2].
  assert (∀ j N', row (set_tbl (tput k M' (tbl s)) s) j = Some N' →
    ∃ N, row s j = Some N ∧ same_mail N N') as HB.
  { intros j N'. rewrite row_put. case_decide as Ej; [|eauto using same_mail_refl].
    intros [= <-]. subst. eauto. }
  split_and!; try (simpl; lia).
  - split_and!; [apply (tput_seq_ok k M' (tbl s)); [by eexists|done]|done|].
    intros j N' (N & HN & HS)%HB. unfold text_of. rewrite row_other.
    destruct HS as (_ & _ & -> & _). by apply (HT j).
  - split; [|by setoid_rewrite row_other].
    intros j N' Ej (N & HN & HS)%HB. rewrite (may_same N N') by done. by apply (K1 j).
  - split_and!.
    + intros j N HN Hf. rewrite row_put. case_decide; [|done]. subst. congruence.
    + intros j N' H%HB. by left.
    + intros t T. rewrite row_other. by left.
Qed.

Lemma mail_modify k oT (f : Message → Message) :
  (∀ M, same_mail M (f M)) → keeps (tracks (mail_step (Some k) oT)) (modify k f).
Proof.
  intros Hf. apply keeps_modify; [apply _|]. intros s c o M HM. split; cbn [work comm]; [|by left].
  intros Ok [K1 K2]. eapply mail_put; [done|by apply (K1 k)|apply Hf|done|done].
Qed.

(** A guarded change of any message. *)
Lemma mail_modify_if oK oT k (f : Message → Message) :
  (∀ M, same_mail M (f M)) → (∀ M, may M = false → f M = M) →
  keeps (tracks (mail_step oK oT)) (modify k f).
Proof.
  intros Hf Hm. apply keeps_modify; [apply _|]. intros s c o M HM. split; cbn [work comm]; [|by left].
  destruct (may M) eqn:E.
  - by apply (mail_put oK oT s k M (f M)).
  - rewrite Hm by done. intros Ok Kn.
    assert (tput k M (tbl s) = tbl s) as ->.
    { unfold tput. unfold row in HM. rewrite insert_id by done. by destruct (tbl s). }
    rewrite set_same. by apply mail_step_preorder.
Qed.

Lemma mail_delete k oT : keeps (tracks (mail_step (Some k) oT)) (delete_row Message k).
Proof.
  apply keeps_change; [apply _|]. intros s c o. split; cbn [work comm]; [|by left].
  intros (S1 & S2 & HT) [K1 K2].
  assert (∀ j N, row (A := Message) (set_tbl (tdelete k (tbl s : table Message)) s) j = Some N →
    row s j = Some N) as HB by (intros j N; rewrite row_delete; by case_decide).
  split_and!; try (simpl; lia).
  - split_and!; [by apply (tdelete_seq_ok k (tbl s))|done|].
    intros j N HN%HB. unfold text_of. rewrite row_other. by apply (HT j).
  - split; [|by setoid_rewrite row_other]. intros j N [= <-] HN%HB. by apply (K1 k).
  - split_and!.
    + intros j N HN Hf. rewrite row_delete. case_decide; [|done]. subst.
      rewrite (K1 j N) in Hf by done. done.
    + intros j N HN%HB. left. exists N. auto using same_mail_refl.
    + intros t T. rewrite row_other. by left.
Qed.

Lemma mail_delete_text oK s t :
  (∀ k M, row s k = Some M → m_text_id M ≠ t) →
  mail_step oK None s (set_tbl (tdelete t (tbl s : table MessageText)) s).
Proof.
  intros Hn (S1 & S2 & HT) [K1 K2]. split_and!; try (simpl; lia).
  - split_and!; [done|by apply (tdelete_seq_ok t (tbl s))|].
    intros k M. rewrite row_other. intros HM. unfold text_of. rewrite row_delete.
    rewrite decide_False; [by apply (HT k)|]. intros E. by apply (Hn k M).
  - split; [|done]. intros k M Ek. rewrite row_other. by apply K1.
  - split_and!.
    + intros k M HM _. by rewrite row_other.
    + intros k M. rewrite row_other. intros HM. left. exists M. auto using same_mail_refl.
    + intros t' T. rewrite row_delete. case_decide; [done|by left].
Qed.

Lemma mail_add_text oK s (T : MessageText) :
  mail_step oK None s (set_tbl (tinsert T (tbl s)).2 s).
Proof.
  intros (S1 & S2 & HT) [K1 K2].
  assert (∀ t (T' : MessageText), row s t = Some T' → row (set_tbl (tinsert T (tbl s)).2 s) t = Some T') as HO.
  { intros t T' HT'. unfold row. rewrite tbl_set. simpl.
    rewrite lookup_insert_ne; [exact HT'|]. intros E.
    apply row_seq in HT'; [simpl in HT'; lia|exact S2]. }
  split_and!; try (simpl; lia).
  - split_and!; [done|by apply (tinsert_seq_ok T (tbl s))|].
    intros k M. rewrite row_other. intros HM. destruct (HT k M HM) as [T' HT'].
    exists T'. by apply HO.
  - split; [|done]. intros k M Ek. rewrite row_other. by apply K1.
  - split_and!.
    + intros k M HM _. by rewrite row_other.
    + intros k M. rewrite row_other. intros HM. left. exists M. auto using same_mail_refl.
    + intros t T' [[-> ->]|[_ HT']]%row_insert_inv; [right; simpl; lia|by left].
Qed.

(** A message with a text that is there. *)
Lemma mail_add oT (N : Message) :
  oT = Some (m_text_id N) → m_sender_id N = u → may N = true →
  keeps (tracks (mail_step None oT)) (add_row N).
Proof.
  intros -> Hu Hm. apply keeps_add; [apply _|]. intros s c o. split; cbn [work comm]; [|by left].
  intros (S1 & S2 & HT) [K1 K2]. split_and!; try (simpl; lia).
  - split_and!; [by apply (tinsert_seq_ok N (tbl s))|done|].
    intros k M [[-> ->]|[_ HM]]%row_insert_inv; unfold text_of; rewrite row_other.
    + by apply K2.
    + by apply (HT k).
  - split; [done|]. by setoid_rewrite row_other.
  - split_and!.
    + intros k M HM _. unfold row. rewrite tbl_set. simpl.
      rewrite lookup_insert_ne; [exact HM|]. intros E.
      apply row_seq in HM; [simpl in HM; lia|exact S1].
    + intros k M [[-> ->]|[_ HM]]%row_insert_inv; [right; simpl; split; [lia|done]|].
      left. exists M. auto using same_mail_refl.
    + intros t T. rewrite row_other. by left.
Qed.

Lemma mail_commit oK oT : keeps (tracks (mail_step oK oT)) commit.
Proof. intros [s c o]. split; cbn [work comm]; [done|by right]. Qed.
End mail.

(** ** The requests *)

Inductive message_request :=
  | RView (ID : Z) | RDelete (ID : Z) | RNewPage | RNew | RReply (ID : Z)
  | RNotice | RNoticeDelete (ID : Z).

Definition message_handler (p : message_request) (e : req) : Web Cloud unit :=
  match p with
  | RView ID => _ ← View_message e ID; mret tt
  | RDelete ID => Delete_message e ID
  | RNewPage => _ ← New_get e; mret tt
  | RNew => New_post e
  | RReply ID => Reply_post e ID
  | RNotice => SendNotice_post e
  | RNoticeDelete ID => NoticeDelete_get e ID
  end.

(** The messages a request of [u] may touch: the user's own; an administrator may
    delete notices. *)
Definition touches (p : message_request) (u : Z) (M : Message) : bool :=
  match p with
  | RNoticeDelete _ => unset (m_receiver_id M)
  | _ => concerns u M
  end.

Lemma touches_same p u M M' : same_mail M M' → touches p u M' = touches p u M.
Proof. unfold touches, concerns. intros (-> & -> & _). by destruct p. Qed.

Lemma concerns_same u M M' : same_mail M M' → concerns u M' = concerns u M.
Proof. apply (touches_same RNew). Qed.
#[local] Hint Resolve concerns_same : ly.
#[local] Instance concerns_preorder u oK oT : PreOrder (mail_step u (concerns u) oK oT).
Proof. apply mail_step_preorder. auto with ly. Qed.

Lemma concerns_sender u M : m_sender_id M = u → concerns u M = true.
Proof. intros <-. unfold concerns. by rewrite Z.eqb_refl, orb_true_r. Qed.

Lemma my_message_run u ID (w : world Cloud) :
  (∃ msg, my_message u ID w = (Val None, mkWorld (work w) (comm w) (outs w ++ [Write msg]))) ∨
  ∃ M, row (work w) ID = Some M ∧ concerns u M = true ∧ my_message u ID w = (Val (Some M), w).
Proof.
  unfold my_message, no. web_run.
  destruct (row (work w) ID) as [M|] eqn:HM; [|left; web_run; eauto].
  destruct (concerns u M) eqn:Hc; [|left; web_run; eauto]. right. exists M. by web_run.
Qed.

Lemma frozen_notify_user o n : keeps (frozen mail) (notify_user o n).
Proof. unfold notify_user. frozen_auto. Qed.

Ltac mail_step_tac :=
  lazymatch goal with
  | |- keeps _ commit => apply mail_commit; auto with ly
  | |- keeps _ (emit _) => apply mail_frozen; [auto with ly|frozen_auto]
  | |- keeps _ (notify_user _ _) => apply mail_frozen; [auto with ly|apply frozen_notify_user]
  | |- keeps _ (modify _ _) => apply mail_modify; [auto with ly|by intros []]
  | |- keeps _ (add_row _) => apply mail_add; [auto with ly|done..]
  | |- keeps _ _ => keeps_step
  end.

(** What remains of a run that starts from what is known. *)
Lemma mail_run {A} u may oK oT (m : Web Cloud A) s :
  keeps (tracks (mail_step u may oK oT)) m → messages_ok s → known may oK oT s →
  messages_ok (comm (m (start s)).2) ∧ kept_mail u may s (comm (m (start s)).2).
Proof.
  intros HK Ok Kn. destruct (HK (start s)) as [_ [HK'|HK']]; by destruct HK' as (? & _ & ? & _).
Qed.

Lemma known_mail u s k M : row s k = Some M → concerns u M = true → known (concerns u) (Some k) None s.
Proof. intros HM Hc. split; [|done]. intros ? M' [= <-] HM'. congruence. Qed.

Lemma mail_refl u may s : messages_ok s → messages_ok s ∧ kept_mail u may s s.
Proof.
  intros Ok. split; [done|]. split_and!; [done| |by left]. intros k M HM. left. by exists M.
Qed.

Lemma View_mail e u ID s : cur e = Some u → messages_ok s →
  let s' := (request (View_message e ID) s).1 in
  messages_ok s' ∧ kept_mail u (concerns u) s s'.
Proof.
  intros Hu Ok. unfold View_message, authenticated. rewrite request_fst, Hu.
  destruct (my_message_run u ID (start s)) as [[msg E]|(M & HM & Hc & E)];
    rewrite (run_bind _ _ _ _ _ E).
  { web_run. by apply mail_refl. }
  apply (mail_run u (concerns u) (Some ID) None); [|done|by apply (known_mail u s ID M)].
  repeat mail_step_tac.
Qed.

(** Only answers of the user's own are changed. *)
Lemma unlink_keeps u ID M :
  keeps (tracks (mail_step u (concerns u) (Some ID) None)) (unlink_message u ID M).
Proof.
  unfold unlink_message, delete_message. repeat first [
    apply mail_modify_if; [auto with ly|intros Q; by case_match|by intros Q ->]
  | apply mail_delete; auto with ly | mail_step_tac].
Qed.

Definition message_seq (s : Cloud) : Z := seq (c_messages s).

Lemma unlink_end u ID M (w w' : world Cloud) x :
  unlink_message u ID M w = (Val x, w') →
  message_seq (work w') = message_seq (work w) ∧ row (A := Message) (work w') ID = None.
Proof.
  intros H. split.
  - eapply (frozen_run message_seq); [|exact H]. unfold unlink_message, delete_message, notify_user.
    repeat first [frozen_step | keeps_step].
    + apply keeps_modify; [apply _|]. intros s c o N HN. by split; [|left].
    + apply keeps_change; [apply _|]. intros s c o. by split; [|left].
  - unfold unlink_message in H. apply bind_Val in H as (? & w1 & _ & H).
    apply bind_Val in H as (? & w2 & _ & H). apply bind_Val in H as (? & w3 & _ & H).
    unfold delete_message in H. web_run_in H. destruct (answers_to ID (work w3)); [|done].
    unfold delete_row, change in H. simplify_eq. cbn [work]. by rewrite row_delete, decide_True.
Qed.

Lemma with_text_one s ID M k M0 :
  row s ID = Some M → length (with_text s (m_text_id M)) = 1%nat →
  row s k = Some M0 → m_text_id M0 = m_text_id M → k = ID.
Proof.
  intros HM Hl Hk Ht. unfold with_text in Hl.
  assert (∀ j N, row s j = Some N → m_text_id N = m_text_id M →
    (j, N) ∈ select (λ _ Q, m_text_id Q =? m_text_id M) s) as H.
  { intros j N HN Hj. apply elem_of_select. split; [done|by apply Z.eqb_eq]. }
  destruct (select _ s) as [|p [|]]; try done.
  pose proof (H k M0 Hk Ht) as H1%list_elem_of_singleton.
  pose proof (H ID M HM eq_refl) as H2%list_elem_of_singleton. congruence.
Qed.

Lemma Delete_mail e u ID s : cur e = Some u → messages_ok s →
  let s' := (request (Delete_message e ID) s).1 in
  messages_ok s' ∧ kept_mail u (concerns u) s s'.
Proof.
  intros Hu Ok. unfold Delete_message, authenticated. rewrite request_fst, Hu.
  destruct (my_message_run u ID (start s)) as [[msg E]|(M & HM & Hc & E)];
    rewrite (run_bind _ _ _ _ _ E).
  { web_run. by apply mail_refl. }
  web_run. change (work (start s)) with s.
  pose proof (unlink_keeps u ID M) as HU.
  pose proof (known_mail u s ID M HM Hc) as Kn.
  pose proof (mail_run _ _ _ _ _ s HU Ok Kn) as HR. specialize (HU (start s)).
  destruct (unlink_message u ID M (start s)) as [[x|x] w1] eqn:EU;
    [|by rewrite (run_exn _ _ _ _ _ EU)].
  rewrite (run_bind _ _ _ _ _ EU). destruct (unlink_end _ _ _ _ _ _ EU) as [HS HN].
  destruct HU as [HU _]. change (work (start s)) with s in *. cbn [snd] in HU.
  assert (mail_step u (concerns u) None None s (work w1)) as H1.
  { intros _ _. destruct (HU Ok Kn) as (? & _ & ? & ? & ?). by split_and!. }
  assert (∀ s2, mail_step u (concerns u) None None (work w1) s2 →
    messages_ok s2 ∧ kept_mail u (concerns u) s s2) as Hend.
  { intros s2 H2. assert (mail_step u (concerns u) None None s s2) as H by (by etrans).
    by destruct H as (? & _ & ? & _). }
  destruct (Nat.eqb_spec (length (with_text s (m_text_id M))) 1) as [Hl|_].
  - web_run. case_match; apply Hend; apply mail_delete_text; try (by auto with ly).
    all: intros k M' HM' Ht; destruct (Hend (work w1) ltac:(reflexivity)) as [Ok1 (_ & HB & _)];
      destruct (HB k M' HM') as [(M0 & HM0 & (_ & _ & Et & _))|(Hk & _)].
    all: try (assert (k = ID) as -> by (apply (with_text_one s ID M k M0); [done..|congruence]); congruence).
    all: destruct Ok1 as (S1 & _ & _); apply row_seq in HM'; [|exact S1];
      unfold message_seq in HS; simpl in HM'; lia.
  - web_run. case_match; apply Hend; reflexivity.
Qed.

(** A new text is committed before the messages that have it. *)
Lemma mail_new {A} u (T : MessageText) (k : Z → Web Cloud A) s :
  (∀ t, keeps (tracks (mail_step u (concerns u) None (Some t))) (k t)) → messages_ok s →
  let s' := comm ((t ← add_row T; commit;; k t) (start s)).2 in
  messages_ok s' ∧ kept_mail u (concerns u) s s'.
Proof.
  intros Hk Ok. cbv zeta. web_run. change (work (start s)) with s.
  set (s1 := set_tbl (tinsert T (tbl s)).2 s). set (t := seq (tbl s : table MessageText) + 1).
  assert (mail_step u (concerns u) None None s s1) as H1 by (apply mail_add_text; auto with ly).
  assert (known (concerns u) None (Some t) s1) as Kn.
  { split; [done|]. intros t' [= <-]. eexists. apply row_insert. }
  assert (∀ s2, mail_step u (concerns u) None (Some t) s1 s2 →
    messages_ok s2 ∧ kept_mail u (concerns u) s s2) as Hend.
  { intros s2 H2. assert (mail_step u (concerns u) None None s s2) as H.
    { etrans; [exact H1|]. intros Ok1 _. destruct (H2 Ok1 Kn) as (? & _ & ? & ? & ?).
      by split_and!. }
    by destruct H as (? & _ & ? & _). }
  destruct (Hk t (mkWorld s1 s1 (outs (start s)))) as [_ [H|H]]; by apply Hend.
Qed.

Ltac sender_tac := first [done | by apply concerns_sender].
Ltac post_mail := repeat first [
    apply mail_add; [auto with ly|sender_tac..] | mail_step_tac].

Lemma New_mail e u s : cur e = Some u → messages_ok s →
  let s' := (request (New_post e) s).1 in
  messages_ok s' ∧ kept_mail u (concerns u) s s'.
Proof.
  intros Hu Ok. unfold New_post, authenticated. rewrite request_fst, Hu.
  destruct (message_form e) as [[[to subject] text]|]; [|by apply mail_refl].
  rewrite run_ask. destruct (user_by_name _ to) as [[v V]|]; [|by apply mail_refl].
  apply mail_new; [|done]. intros t. post_mail.
Qed.

Lemma Reply_mail e u ID s : cur e = Some u → messages_ok s →
  let s' := (request (Reply_post e ID) s).1 in
  messages_ok s' ∧ kept_mail u (concerns u) s s'.
Proof.
  intros Hu Ok. unfold Reply_post, authenticated. rewrite request_fst, Hu.
  destruct (my_message_run u ID (start s)) as [[msg E]|(M & HM & Hc & E)];
    rewrite (run_bind _ _ _ _ _ E).
  { web_run. by apply mail_refl. }
  destruct (String.eqb _ ""); [by apply mail_refl|]. rewrite run_fetch.
  destruct (row _ (m_text_id M)) as [T|]; [|by apply mail_refl].
  apply mail_new; [|done]. intros t. post_mail.
Qed.

Lemma Notice_mail e u s : cur e = Some u → messages_ok s →
  let s' := (request (SendNotice_post e) s).1 in
  messages_ok s' ∧ kept_mail u (concerns u) s s'.
Proof.
  intros Hu Ok. unfold SendNotice_post, need_permission. rewrite request_fst, Hu, run_ask.
  destruct (user_has _ "admin" u); [|by apply mail_refl].
  destruct (message_form e) as [[[to subject] text]|]; [|by apply mail_refl].
  apply mail_new; [|done]. intros t. post_mail.
Qed.

Lemma NoticeDelete_mail e u ID s : cur e = Some u → messages_ok s →
  let s' := (request (NoticeDelete_get e ID) s).1 in
  messages_ok s' ∧ kept_mail u (touches (RNoticeDelete ID) u) s s' ∧
  (user_has s "admin" u = false → s' = s).
Proof.
  intros Hu Ok. unfold NoticeDelete_get, need_permission. rewrite request_fst, Hu, run_ask.
  change (work (start s)) with s.
  destruct (user_has s "admin" u); [|split; [done|]; split; [by apply mail_refl|done]].
  apply and_assoc. split; [|done]. rewrite run_get.
  destruct (row (work (start s)) ID) as [M|] eqn:HM; [|by apply mail_refl].
  destruct (unset (m_receiver_id M)) eqn:Hr; [cbn [negb]|by apply mail_refl].
  rewrite run_ask. change (work (start s)) with s in *.
  assert (∃ p l, with_text s (m_text_id M) = p :: l) as (p & l & ->).
  { assert ((ID, M) ∈ with_text s (m_text_id M)) as Hin
      by (apply elem_of_select; split; [done|apply Z.eqb_refl]).
    destruct (with_text _ _); [by apply elem_of_nil in Hin|eauto]. }
  assert (PreOrder (mail_step u (touches (RNoticeDelete ID) u) (Some ID) None))
    by (apply mail_step_preorder, touches_same).
  apply (mail_run _ _ (Some ID) None); [|done|].
  - unfold delete_message. repeat first [
      apply mail_delete; apply touches_same | apply mail_commit; apply touches_same
    | apply mail_frozen; [apply touches_same|solve [frozen_auto]] | keeps_step].
  - split; [|done]. intros k N [= <-] HN. cbn [touches]. congruence.
Qed.

(** C28: the mail is safe from others: whatever message request a user sends,
    every message keeps its text; messages that neither came from the user nor went
    to the user stay as they are, but for the notices an administrator deletes; of
    the others at most the marks of reading and the reference to the answered
    message change; a message that is new was sent by the user; and no text is ever
    changed. *)
Theorem message_isolation p e u s :
  cur e = Some u → messages_ok s →
  let s' := (request (message_handler p e) s).1 in
  messages_ok s' ∧ kept_mail u (touches p u) s s' ∧
  (∀ ID, p = RNoticeDelete ID → user_has s "admin" u = false → s' = s).
Proof.
  intros Hu Ok s'. unfold s'. clear s'.
  assert (∀ A (m : Web Cloud A), (request (_ ← m; mret tt) s).1 = (request m s).1) as Hret.
  { intros A m. rewrite !request_fst. unfold mbind, Web_bind. by destruct (m (start s)) as [[|] w]. }
  destruct p; cbn [message_handler touches]; rewrite ?Hret.
  7:{ destruct (NoticeDelete_mail e u ID s Hu Ok) as (? & ? & ?). split_and!; [done|done|].
      intros ? [= <-]. done. }
  all: apply and_assoc; split; [|done].
  - by apply View_mail.
  - by apply Delete_mail.
  - rewrite request_fst. apply (mail_run u (concerns u) None None); [|done|done].
    apply mail_frozen; [auto with ly|]. unfold New_get, authenticated, get_text. frozen_auto.
  - by apply New_mail.
  - by apply Reply_mail.
  - by apply Notice_mail.
Qed.

(** What the page of a message shows was sent by the user or to the user ... *)
Lemma View_message_mine e u ID s M w :
  cur e = Some u → View_message e ID (start s) = (Val (Some M), w) →
  row s ID = Some M ∧ concerns u M = true.
Proof.
  intros Hu H. unfold View_message, authenticated in H. rewrite Hu in H.
  destruct (my_message_run u ID (start s)) as [[msg E]|(M0 & HM & Hc & E)];
    rewrite (run_bind _ _ _ _ _ E) in H; [by web_run_in H|].
  apply bind_Val in H as (? & w1 & _ & H). web_run_in H. by simplify_eq.
Qed.

(** ** Examples *)

Definition mail_cloud : Cloud :=
  life_cloud <| c_messages := table_of [mkMessage None 2 (Some 2) 1 true false None] |>
    <| c_texts := table_of [mkMessageText "keys" "the root password is secret"] |>.

(** ... but the form for a new message quotes any message: user 1 neither sent nor
    received message 1. *)
Example quote_leaks :
  concerns 1 (mkMessage None 2 (Some 2) 1 true false None) = false ∧
  (New_get (rq (life_env 1 [("origmsg", "1")]%string)) (start mail_cloud)).1 =
    Val (Some ("Re: keys", "the root password is secret")%string).
Proof. vm_compute. done. Qed.

Example re_stripped : reply_subject "Re: re:RE: hello Re: you"%string = "Re: helloyou"%string.
Proof. vm_compute. reflexivity. Qed.

Lemma message_isolation_witness :
  let s' := (request (message_handler (RReply 1) (rq (life_env 2 [("text", "thanks")]%string)))
               mail_cloud).1 in
  messages_ok s' ∧ kept_mail 2 (touches (RReply 1) 2) mail_cloud s' ∧
  (∀ ID, RReply 1 = RNoticeDelete ID → user_has mail_cloud "admin" 2 = false → s' = mail_cloud).
Proof.
  apply (message_isolation (RReply 1)); [reflexivity|]. split_and!.
  - exact (table_of_seq_ok _).
  - exact (table_of_seq_ok _).
  - intros k M HM. apply table_of_one in HM as [_ ->]. vm_compute. by eexists.
Defined.
