(* ===== verification/Forum.v ===== *)
(** The forum (src/lyweb/app/forum): who may write where, topics with their tags,
    answers, votes. *)
From Stdlib Require Import Ascii String.
From S2P Require Import Prelude PyText Table Session Cloud Quota InstanceModel Web Forms LifeControl Myun.
#[local] Open Scope Z_scope.

(** ** Who may write and read *)

Definition is_manager (C : ForumCatalog) (u : Z) : bool := bool_decide (u ∈ fc_managers C).
Definition is_allowed (C : ForumCatalog) (u : Z) : bool := bool_decide (u ∈ fc_allowed C).
Definition forbidden (s : Cloud) (u : Z) : bool :=
  negb (bool_decide (select (λ _ F, fu_user_id F =? u) s = [])).

Definition can_add_topic (s : Cloud) (o : option Z) (C : option ForumCatalog) : bool :=
  match o, C with
  | Some u, Some C =>
      is_manager C u ||
      negb (forbidden s u) &&
      negb (fc_is_private C && negb (user_has s "admin" u) && negb (is_allowed C u))
  | _, _ => false
  end.

Definition can_view_topic (s : Cloud) (o : option Z) (C : option ForumCatalog) : bool :=
  match C with
  | None => false
  | Some C =>
      if fc_is_private C || negb (fc_is_visible C) then
        match o with
        | Some u => is_manager C u || is_allowed C u || user_has s "admin" u
        | None => false
        end
      else true
  end.

(** ** Tags *)

Definition tag_by_name (s : Cloud) (name : string) : option (Z * ForumTopicTag) :=
  head (select (λ _ G, String.eqb (lower (tg_name G)) (lower name)) s).

(** [re.split(',|:|\|', tag)]: each separator becomes a comma. *)
Fixpoint one_sep (s : string) : string :=
  match s with
  | EmptyString => EmptyString
  | String c s => String (if (c =? ":")%char || (c =? "|")%char then "," else c)%char (one_sep s)
  end.
Definition tag_names (tag : string) : list string :=
  filter (λ x, x ≠ EmptyString) (strip <$> split_on "," (one_sep tag)).

(** The loop over the names: tags that are there are hit once more, unless the
    topic had them; new ones are made. *)
Fixpoint tag_loop (old : list Z) (dotag names : list string) (taglist : list Z) :
    Web Cloud (list Z) :=
  match names with
  | [] => mret taglist
  | name :: names =>
      if bool_decide (name ∈ dotag) then tag_loop old dotag names taglist else
      o ← ask (λ s, tag_by_name s name);
      t ← match o with
          | Some (t, _) =>
              (if bool_decide (t ∈ old) then mret tt
               else modify t (λ G : ForumTopicTag, G <| tg_hit := tg_hit G + 1 |>));;
              mret t
          | None => add_row (mkForumTopicTag name 1)
          end;
      tag_loop old (dotag ++ [name]) names (taglist ++ [t])
  end.

(** [db.delete(tag)]: the topics lose it. *)
Definition delete_tag (i : Z) : Web Cloud unit :=
  l ← ask (select (λ _ X, bool_decide (i ∈ ft_tags X)));
  for_each l (λ p, modify p.1 (λ X : ForumTopic, X <| ft_tags := filter (λ j, j ≠ i) (ft_tags X) |>));;
  delete_row ForumTopicTag i.

Definition drop_hit (i : Z) : Web Cloud unit :=
  G ← fetch (A := ForumTopicTag) i;
  if tg_hit G =? 1 then delete_tag i
  else modify i (λ G : ForumTopicTag, G <| tg_hit := tg_hit G - 1 |>).

Definition update_tag (tag : string) (k : Z) : Web Cloud unit :=
  X ← fetch (A := ForumTopic) k;
  new ← tag_loop (ft_tags X) [] (tag_names tag) [];
  modify k (λ X : ForumTopic, X <| ft_tags := new |>);;
  for_each (ft_tags X) (λ i, if bool_decide (i ∈ new) then mret tt else drop_hit i);;
  commit.

(** ** Topics *)

Record topic_data := mkTopicData {
  td_catalog : Z; td_name : string; td_summary : string; td_tag : string; td_body : string }.

Definition open_catalogs (s : Cloud) : list (Z * ForumCatalog) :=
  select (λ _ C, fc_is_visible C && negb (fc_is_private C)) s.

(** [TopicForm] *)
Definition topic_form (e : req) (s : Cloud) : option topic_data :=
  let c := select_field e "catalog" in
  let name := text_field e "name" in
  let summary := text_field e "summary" in
  let body := text_field e "body" in
  if bool_decide (c ∈ id_choices (open_catalogs s)) && length_ok 2 128 name &&
     length_ok 2 1024 summary && length_ok 2 102400 body
  then i ← py_int c; Some (mkTopicData i name summary (text_field e "tag") body)
  else None.

(** [TopicAdd]: whoever names no catalog in [cid] is not asked for a permission. *)
Definition TopicAdd_post (e : req) : Web Cloud unit :=
  authenticated e false (λ u,
    let cid := default 0 (get_argument_int e "cid" None) in
    C ← (if cid =? 0 then mret None else get_row (A := ForumCatalog) cid);
    ok ← ask (λ s, can_add_topic s (Some u) C);
    if bool_decide (is_Some C) && negb ok then emit (Write "No permission to add topic") else
    f ← ask (topic_form e);
    match f with
    | None => emit (Render "forum/topic/edit.html")
    | Some d =>
        let catalog := if bool_decide (is_Some C) then cid else td_catalog d in
        let ml := if String.eqb (get_argument e "markup_language" "WYSIWYM") "WYSIWYM" then 2 else 1 in
        k ← add_row (mkForumTopic catalog (td_name d) (td_summary d) (td_body d) u
                       false true 0 0 0 0 [] ml);
        commit;;
        update_tag (td_tag d) k;;
        emit (Redirect "forum:catalog" catalog)
    end) tt.

(** [get_my_topic_byid] *)
Definition my_topic (e : req) (u : Z) : Web Cloud (option (Z * ForumTopic)) :=
  let ID := default 0 (get_argument_int e "id" None) in
  if ID =? 0 then mret None else
  o ← get_row (A := ForumTopic) ID;
  admin ← ask (λ s, user_has s "admin" u);
  match o with
  | Some X => mret (if (ft_user_id X =? u) || admin then Some (ID, X) else None)
  | None => mret None
  end.

Definition TopicEdit_post (e : req) : Web Cloud unit :=
  authenticated e false (λ u,
    o ← my_topic e u;
    match o with
    | None => emit (Write "Can not find topic")
    | Some (k, _) =>
        f ← ask (topic_form e);
        match f with
        | None => emit (Render "forum/topic/edit.html")
        | Some d =>
            modify k (λ X : ForumTopic, X <| ft_catalog_id := td_catalog d |>
              <| ft_name := td_name d |> <| ft_summary := td_summary d |>
              <| ft_body := td_body d |>);;
            commit;;
            update_tag (td_tag d) k;;
            emit (Redirect "forum:topic:view" k)
        end
    end) tt.

Definition TopicDelete_post (e : req) : Web Cloud unit :=
  authenticated e false (λ u,
    let ID := default 0 (get_argument_int e "id" None) in
    if ID =? 0 then emit (WriteCode 1 "Give me topic id please.") else
    o ← get_row (A := ForumTopic) ID;
    admin ← ask (λ s, user_has s "admin" u);
    match o with
    | None => emit (WriteCode 1 "No such topic")
    | Some X =>
        if negb (ft_user_id X =? u) && negb admin then emit (WriteCode 1 "No permissions !") else
        for_each (ft_tags X) drop_hit;;
        modify ID (λ X : ForumTopic, X <| ft_status := 1 |>);;
        commit;;
        emit (WriteCode 1 "Delete topic success.")
    end) tt.

(** [TopicView.get]: the topic shown. *)
Definition TopicView_get (e : req) : Web Cloud (option ForumTopic) :=
  let ID := default 0 (get_argument_int e "id" None) in
  if ID =? 0 then no "Give me topic id please." else
  o ← get_row (A := ForumTopic) ID;
  match o with
  | None => no "No such topic"
  | Some X =>
      if ft_status X =? 1 then no "Topic is deleted" else
      ok ← ask (λ s, can_view_topic s (cur e) (row s (ft_catalog_id X)));
      if negb ok then no "No permission to view topic" else
      if String.eqb (get_argument e "t" "") "source"
      then emit (Render "forum/topic/output/source.html");; mret (Some X) else
      modify ID (λ X : ForumTopic, X <| ft_visit := ft_visit X + 1 |>);;
      commit;;
      emit (Render "forum/topic/view.html");; mret (Some X)
  end.

(** ** Posts *)

Definition post_form (e : req) : option string :=
  let body := text_field e "body" in
  if length_ok 2 102400 body then Some body else None.

(** Posts of the user in the last 30 seconds. *)
Definition recent_posts (e : req) (u : Z) (s : Cloud) : list (Z * ForumPost) :=
  select (λ _ P, (fp_user_id P =? u) && (now e - 30 <? fp_updated P)) s.

Definition add_post (e : req) (u topic : Z) (parent : option Z) (body : string) : Web Cloud unit :=
  _ ← add_row (mkForumPost topic parent body u false true 0 0 (now e)); commit.

Definition TopicReply_post (e : req) : Web Cloud unit :=
  authenticated e false (λ u,
    let ID := default 0 (get_argument_int e "id" None) in
    if ID =? 0 then emit (Write "Give topic id please.") else
    o ← get_row (A := ForumTopic) ID;
    match o with
    | None => emit (Write "No such topic")
    | Some X =>
        if ft_is_locked X then emit (Write "Topic is locked.") else
        if negb (ft_is_visible X) then emit (Write "Topic is not visible.") else
        recent ← ask (recent_posts e u);
        match recent with
        | _ :: _ => emit (Write "Your speech is too fast!")
        | [] =>
            match post_form e with
            | None => emit (Render "forum/topic/reply.html")
            | Some body =>
                add_post e u ID None body;;
                (if u =? ft_user_id X then mret tt
                 else sendmsg e "mailto.address" (ft_user_id X));;
                emit (Redirect "forum:topic:view" ID)
            end
        end
    end) tt.

Definition PostReply_post (e : req) : Web Cloud unit :=
  authenticated e false (λ u,
    let ID := default 0 (get_argument_int e "id" None) in
    if ID =? 0 then emit (Write "Give post id please.") else
    o ← get_row (A := ForumPost) ID;
    match o with
    | None => emit (Write "No such post")
    | Some P =>
        if fp_is_locked P then emit (Write "Post is locked.") else
        if negb (fp_is_visible P) then emit (Write "Post is not visible.") else
        recent ← ask (recent_posts e u);
        match recent with
        | _ :: _ => emit (Write "Your speech is too fast!")
        | [] =>
            match post_form e with
            | None => emit (Render "forum/post/edit.html")
            | Some body =>
                add_post e u (fp_topic_id P) (Some ID) body;;
                (if u =? fp_user_id P then mret tt
                 else sendmsg e "mailto.address" (fp_user_id P));;
                emit (Redirect "forum:topic:view" (fp_topic_id P))
            end
        end
    end) tt.

Definition PostEdit_post (e : req) : Web Cloud unit :=
  authenticated e false (λ u,
    let ID := default 0 (get_argument_int e "id" None) in
    if ID =? 0 then emit (Write "Give post id please.") else
    o ← get_row (A := ForumPost) ID;
    admin ← ask (λ s, user_has s "admin" u);
    match o with
    | None => emit (Write "No such post")
    | Some P =>
        if negb (fp_user_id P =? u) && negb admin then emit (Write "No permission to edit post") else
        match post_form e with
        | None => emit (Render "forum/post/edit.html")
        | Some body =>
            modify ID (λ P : ForumPost, P <| fp_body := body |>);;
            commit;;
            X ← fetch (A := ForumTopic) (fp_topic_id P);
            sendmsg e "mailto.address" (ft_user_id X);;
            emit (Redirect "forum:topic:view" (fp_topic_id P))
        end
    end) tt.

(** ** Votes *)

(** What a vote changes, given the value of the user's earlier one: the votes for,
    the votes against and the recorded value; [None] when the user voted already. *)
Definition vote_effect (vote : Z) (old : option Z) : option (Z * Z * option Z) :=
  match old with
  | None =>
      Some (if 0 <? vote then 1 else 0, if vote <? 0 then 1 else 0, Some vote)
  | Some v =>
      if 0 <? vote then (if v <? 0 then Some (1, -1, Some vote) else None)
      else if vote <? 0 then (if 0 <? v then Some (-1, 1, Some vote) else None)
      else Some (0, 0, None)
  end.

Definition topic_vote_of (s : Cloud) (t u : Z) : option (Z * ForumTopicVote) :=
  head (select (λ _ V, (tv_topic_id V =? t) && (tv_user_id V =? u)) s).
Definition post_vote_of (s : Cloud) (p u : Z) : option (Z * ForumPostVote) :=
  head (select (λ _ V, (pv_post_id V =? p) && (pv_user_id V =? u)) s).

Definition TopicVote_post (e : req) : Web Cloud unit :=
  match cur e with
  | None => emit (WriteCode 1 "Please login to vote again.")
  | Some u =>
      let ID := default 0 (get_argument_int e "id" None) in
      if ID =? 0 then emit (WriteCode 1 "Give me topic id please.") else
      o ← get_row (A := ForumTopic) ID;
      match o with
      | None => emit (WriteCode 1 "No such topic")
      | Some X =>
          if ft_user_id X =? u then emit (WriteCode 1 "Can not vote yourself") else
          let vote := default 0 (get_argument_int e "vote" (Some 0)) in
          V ← ask (λ s, topic_vote_of s ID u);
          match vote_effect vote (tv_value ∘ snd <$> V) with
          | None => emit (WriteCode 1 "Voted already.")
          | Some (like, unlike, value) =>
              modify ID (λ X : ForumTopic, X <| ft_like := ft_like X + like |>
                <| ft_unlike := ft_unlike X + unlike |>);;
              (match V, value with
               | Some (v, _), Some value =>
                   modify v (λ V : ForumTopicVote, V <| tv_value := value |>)
               | None, Some value => _ ← add_row (mkForumTopicVote ID u value); mret tt
               | _, None => mret tt
               end);;
              commit;;
              emit (WriteCode 0 "Voted success.")
          end
      end
  end.

Definition PostVote_post (e : req) : Web Cloud unit :=
  authenticated e false (λ u,
    let ID := default 0 (get_argument_int e "id" None) in
    if ID =? 0 then emit (WriteCode 1 "Give me post id please.") else
    o ← get_row (A := ForumPost) ID;
    match o with
    | None => emit (WriteCode 1 "No such post")
    | Some P =>
        if fp_user_id P =? u then emit (WriteCode 1 "Can not vote yourself") else
        let vote := default 0 (get_argument_int e "vote" (Some 0)) in
        V ← ask (λ s, post_vote_of s ID u);
        match vote_effect vote (pv_value ∘ snd <$> V) with
        | None => emit (WriteCode 1 "Voted already.")
        | Some (like, unlike, value) =>
            modify ID (λ P : ForumPost, P <| fp_like := fp_like P + like |>
              <| fp_unlike := fp_unlike P + unlike |>);;
            (match V, value with
             | Some (v, _), Some value =>
                 modify v (λ V : ForumPostVote, V <| pv_value := value |>)
             | None, Some value => _ ← add_row (mkForumPostVote ID u value); mret tt
             | _, None => mret tt
             end);;
            commit;;
            emit (WriteCode 0 "Voted success.")
        end
    end) tt.

(** ** Catalogs (admin_views.py); logos are files *)

Definition catalog_fields (e : req) : option (string * string * string) :=
  let name := text_field e "name" in
  let summary := text_field e "summary" in
  let description := text_field e "description" in
  if length_ok 2 128 name && length_ok 2 1024 summary && length_ok 0 20480 description
  then Some (name, summary, description) else None.

Definition CatalogAdd_post (e : req) : Web Cloud unit :=
  need_permission e false "admin" (
    let pid := default 0 (get_argument_int e "pid" None) in
    parent ← (if pid =? 0 then mret None else get_row (A := ForumCatalog) pid);
    match catalog_fields e with
    | None => emit (Render "admin/forum/catalog/edit.html")
    | Some (name, summary, description) =>
        old ← ask (select (λ _ C, String.eqb (fc_name C) name));
        match old with
        | _ :: _ => emit (Render "admin/forum/catalog/edit.html")
        | [] =>
            _ ← add_row (mkForumCatalog name summary description
                           (if bool_decide (is_Some parent) then Some pid else None)
                           false true [] []);
            commit;;
            emit (Redirect "admin:forum:catalog" 0)
        end
    end) tt.

Definition CatalogEdit_post (e : req) : Web Cloud unit :=
  need_permission e false "admin" (
    let ID := default 0 (get_argument_int e "id" None) in
    if ID =? 0 then emit (Write "Give me catalog id please") else
    o ← get_row (A := ForumCatalog) ID;
    match o with
    | None => emit (Write "Can not find catalog")
    | Some _ =>
        match catalog_fields e with
        | None => emit (Render "admin/forum/catalog/edit.html")
        | Some (name, summary, description) =>
            modify ID (λ C : ForumCatalog, C <| fc_name := name |>
              <| fc_summary := summary |> <| fc_description := description |>);;
            commit;;
            emit (Redirect "admin:forum:catalog:view" ID)
        end
    end) tt.

(** ** The requests *)

Inductive forum_request :=
  | FTopicAdd | FTopicEdit | FTopicDelete | FTopicView | FTopicReply | FTopicVote
  | FPostReply | FPostEdit | FPostVote | FCatalogAdd | FCatalogEdit.

Definition forum_handler (p : forum_request) (e : req) : Web Cloud unit :=
  match p with
  | FTopicAdd => TopicAdd_post e
  | FTopicEdit => TopicEdit_post e
  | FTopicDelete => TopicDelete_post e
  | FTopicView => _ ← TopicView_get e; mret tt
  | FTopicReply => TopicReply_post e
  | FTopicVote => TopicVote_post e
  | FPostReply => PostReply_post e
  | FPostEdit => PostEdit_post e
  | FPostVote => PostVote_post e
  | FCatalogAdd => CatalogAdd_post e
  | FCatalogEdit => CatalogEdit_post e
  end.

(** ** Examples *)

Definition forum_cloud : Cloud :=
  life_cloud
    <| c_forums := table_of [mkForumCatalog "talk" "" "" None false true [] []] |>
    <| c_topics := table_of [mkForumTopic 1 "hello" "greetings" "hello all" 1 false true 1 0 0 0 [] 1] |>
    <| c_topicvotes := table_of [mkForumTopicVote 1 2 1] |>
    <| c_forbidden := table_of [mkForumForbiddenUser 1] |>.

(** A user who is forbidden to write still adds a topic by naming no catalog in
    [cid]. *)
Example forbidden_writes :
  let e l := rq (life_env 1 ([("catalog", "1"); ("name", "spam"); ("summary", "spam"); ("body", "spam")]%string ++ l)) in
  ft_name <$> row (request (TopicAdd_post (e [("cid", "1")]%string)) forum_cloud).1 2 = None ∧
  ft_name <$> row (request (TopicAdd_post (e [])) forum_cloud).1 2 = Some "spam"%string.
Proof. vm_compute. done. Qed.
