(* ===== verification/ForumVotes.v ===== *)
(** The numbers of votes shown beside the topics and posts of the forum are those of
    the votes that are recorded, after every forum request. *)
From Stdlib Require Import Ascii String.
From S2P Require Import Prelude PyText Table Session Cloud Quota InstanceModel Web Forms LifeControl Myun Forum.
#[local] Open Scope Z_scope.

(** ** A table of subjects and a table of votes on them *)

Section tally.
Context {X V : Type} (like unlike : X → Z) (subject user value : V → Z).
Implicit Types (xs : table X) (vs : table V).
#[local] Set Default Proof Using "All".

Definition votes (P : Z → bool) vs (t : Z) : Z :=
  total (λ _ v, if (subject v =? t) && P (value v) then 1 else 0) vs.

Definition tally_ok xs vs : Prop :=
  seq_ok xs ∧ seq_ok vs ∧
  (∀ t x, rows xs !! t = Some x →
     like x = votes (λ n, 0 <? n) vs t ∧ unlike x = votes (λ n, n <? 0) vs t) ∧
  (∀ i v, rows vs !! i = Some v → is_Some (rows xs !! subject v)) ∧
  (∀ i j v w, rows vs !! i = Some v → rows vs !! j = Some w →
     subject v = subject w → user v = user w → i = j).

Lemma votes_none P vs t :
  (∀ i v, rows vs !! i = Some v → subject v ≠ t) → votes P vs t = 0.
Proof.
  intros H. unfold votes. rewrite (total_ext _ (λ _ _, 0)); [apply total_zero|].
  intros i v Hv. by rewrite (proj2 (Z.eqb_neq _ _) (H i v Hv)).
Qed.

(** Changing a subject but for its numbers. *)
Lemma tally_put xs vs t x x' :
  rows xs !! t = Some x → like x' = like x → unlike x' = unlike x →
  tally_ok xs vs → tally_ok (tput t x' xs) vs.
Proof.
  intros Hx Hl Hu (S1 & S2 & HT & HF & HU). split_and!; [|done| | |done].
  - apply tput_seq_ok; [by eexists|done].
  - intros k y Hy. simpl in Hy. apply lookup_insert_Some in Hy as [[<- <-]|[_ Hy]]; [|by apply HT].
    rewrite Hl, Hu. by apply HT.
  - intros i v Hv. simpl. destruct (decide (t = subject v)) as [<-|Ht].
    + rewrite lookup_insert_eq. by eexists.
    + rewrite lookup_insert_ne by done. by apply (HF i).
Qed.

Lemma tally_insert xs vs x :
  like x = 0 → unlike x = 0 → tally_ok xs vs → tally_ok (tinsert x xs).2 vs.
Proof.
  intros Hl Hu (S1 & S2 & HT & HF & HU). split_and!; [by apply tinsert_seq_ok|done| | |done].
  - intros k y Hy. simpl in Hy. apply lookup_insert_Some in Hy as [[<- <-]|[_ Hy]]; [|by apply HT].
    rewrite Hl, Hu. assert (∀ P, votes P vs (seq xs + 1) = 0) as H; [|by rewrite !H].
    intros P. apply votes_none. intros i v Hv Hs. destruct (HF i v Hv) as [y Hy].
    rewrite Hs, S1 in Hy by lia. done.
  - intros i v Hv. simpl. destruct (HF i v Hv) as [y Hy].
    destruct (decide (seq xs + 1 = subject v)) as [<-|Ht].
    + rewrite lookup_insert_eq. by eexists.
    + rewrite lookup_insert_ne by done. by eexists.
Qed.

Definition flag (b : bool) : Z := if b then 1 else 0.

(** The first vote of a user on a subject. *)
Lemma tally_first xs vs t x x' v n :
  rows xs !! t = Some x → subject v = t → value v = n →
  (∀ i w, rows vs !! i = Some w → subject w = t → user w = user v → False) →
  like x' = like x + flag (0 <? n) → unlike x' = unlike x + flag (n <? 0) →
  tally_ok xs vs → tally_ok (tput t x' xs) (tinsert v vs).2.
Proof.
  intros Hx Hs Hn Hnew Hl Hu (S1 & S2 & HT & HF & HU).
  assert (∀ P k, votes P (tinsert v vs).2 k = votes P vs k + flag ((t =? k) && P n)) as Hv.
  { intros P k. unfold votes. rewrite total_insert by done. by rewrite Hs, Hn. }
  split_and!; [apply tput_seq_ok; [by eexists|done]|by apply tinsert_seq_ok| | |].
  - intros k y Hy. simpl in Hy. rewrite !Hv. apply lookup_insert_Some in Hy as [[<- <-]|[Ht Hy]].
    + rewrite Z.eqb_refl. destruct (HT t x Hx) as [<- <-]. by simpl.
    + rewrite (proj2 (Z.eqb_neq t k)) by done. destruct (HT k y Hy) as [-> ->]. simpl. lia.
  - intros i w Hw. simpl in *. apply lookup_insert_Some in Hw as [[_ <-]|[_ Hw]].
    + rewrite Hs, lookup_insert_eq. by eexists.
    + destruct (decide (t = subject w)) as [<-|Ht]; [rewrite lookup_insert_eq; by eexists|].
      rewrite lookup_insert_ne by done. by apply (HF i).
  - intros i j w w' Hw Hw' Es Eu. simpl in *.
    apply lookup_insert_Some in Hw as [[<- <-]|[? Hw]],
      Hw' as [[<- <-]|[? Hw']]; [done| | |by apply (HU i j w w')].
    + destruct (Hnew j w' Hw'); congruence.
    + destruct (Hnew i w Hw); congruence.
Qed.

(** A vote that is changed. *)
Lemma tally_again xs vs t x x' i v v' n :
  rows xs !! t = Some x → rows vs !! i = Some v → subject v = t →
  subject v' = t → user v' = user v → value v' = n →
  like x' = like x + flag (0 <? n) - flag (0 <? value v) →
  unlike x' = unlike x + flag (n <? 0) - flag (value v <? 0) →
  tally_ok xs vs → tally_ok (tput t x' xs) (tput i v' vs).
Proof.
  intros Hx Hi Hs Hs' Hu' Hn Hl Hu (S1 & S2 & HT & HF & HU).
  assert (∀ P k, votes P (tput i v' vs) k =
    votes P vs k - flag ((t =? k) && P (value v)) + flag ((t =? k) && P n)) as Hv.
  { intros P k. unfold votes. rewrite (total_update _ _ _ _ _ Hi). by rewrite Hs, Hs', Hn. }
  assert (∀ j w, rows (tput i v' vs) !! j = Some w →
    ∃ w0, rows vs !! j = Some w0 ∧ subject w = subject w0 ∧ user w = user w0) as Hold.
  { intros j w Hw. simpl in Hw. apply lookup_insert_Some in Hw as [[<- <-]|[_ Hw]].
    - exists v. split_and!; congruence.
    - by exists w. }
  split_and!.
  - apply tput_seq_ok; [by eexists|done].
  - apply tput_seq_ok; [by eexists|done].
  - intros k y Hy. simpl in Hy. rewrite !Hv. apply lookup_insert_Some in Hy as [[<- <-]|[Ht Hy]].
    + rewrite Z.eqb_refl. destruct (HT t x Hx) as [<- <-]. simpl. lia.
    + rewrite (proj2 (Z.eqb_neq t k)) by done. destruct (HT k y Hy) as [-> ->]. simpl. lia.
  - intros j w (w0 & Hw0 & -> & _)%Hold. simpl.
    destruct (decide (t = subject w0)) as [<-|Ht]; [rewrite lookup_insert_eq; by eexists|].
    rewrite lookup_insert_ne by done. by apply (HF j).
  - intros j k w w' (w0 & Hw0 & -> & ->)%Hold (w1 & Hw1 & -> & ->)%Hold. by apply HU.
Qed.
End tally.

(** What [vote_effect] adds to the numbers. *)
Lemma vote_effect_first vote a b r :
  vote_effect vote None = Some (a, b, r) →
  r = Some vote ∧ a = flag (0 <? vote) ∧ b = flag (vote <? 0).
Proof. by intros [= <- <- <-]. Qed.

Lemma vote_effect_again vote v a b r :
  vote_effect vote (Some v) = Some (a, b, r) →
  let n := default v r in
  a = flag (0 <? n) - flag (0 <? v) ∧ b = flag (n <? 0) - flag (v <? 0).
Proof.
  unfold vote_effect, flag.
  destruct (0 <? vote) eqn:E1, (vote <? 0) eqn:E2, (v <? 0) eqn:E3, (0 <? v) eqn:E4;
    try done; intros [= <- <- <-]; simpl; rewrite ?E1, ?E2, ?E3, ?E4; bool_prop; lia.
Qed.

(** ** The forum *)

#[local] Arguments flag : simpl never.

Definition topic_tally : table ForumTopic → table ForumTopicVote → Prop :=
  tally_ok ft_like ft_unlike tv_topic_id tv_user_id tv_value.
Definition post_tally : table ForumPost → table ForumPostVote → Prop :=
  tally_ok fp_like fp_unlike pv_post_id pv_user_id pv_value.

(** The numbers of every topic and post are right; nobody voted twice on one. *)
Definition votes_ok (s : Cloud) : Prop :=
  topic_tally (c_topics s) (c_topicvotes s) ∧ post_tally (c_posts s) (c_postvotes s).

Definition voting (s : Cloud) := (c_topics s, c_topicvotes s, c_posts s, c_postvotes s).

Lemma votes_frozen {A} (m : Web Cloud A) : keeps (frozen voting) m → keeps (inv_rel votes_ok) m.
Proof. apply frozen_inv. unfold votes_ok, voting. by intros s s' [= -> -> -> ->]. Qed.

Lemma votes_commit : keeps (inv_rel votes_ok) commit.
Proof. intros [s c o]. by split. Qed.

Lemma votes_modify_topic k (f : ForumTopic → ForumTopic) :
  (∀ X, ft_like (f X) = ft_like X) → (∀ X, ft_unlike (f X) = ft_unlike X) →
  keeps (inv_rel votes_ok) (modify k f).
Proof.
  intros Hl Hu. apply keeps_modify; [apply _|]. intros s c o X HX [Ht Hp] Hc. cbn [work comm] in *.
  split; [|done]. split; [|done]. exact (tally_put _ _ _ _ _ _ _ _ _ _ HX (Hl X) (Hu X) Ht).
Qed.
Lemma votes_modify_post k (f : ForumPost → ForumPost) :
  (∀ X, fp_like (f X) = fp_like X) → (∀ X, fp_unlike (f X) = fp_unlike X) →
  keeps (inv_rel votes_ok) (modify k f).
Proof.
  intros Hl Hu. apply keeps_modify; [apply _|]. intros s c o X HX [Ht Hp] Hc. cbn [work comm] in *.
  split; [|done]. split; [done|]. exact (tally_put _ _ _ _ _ _ _ _ _ _ HX (Hl X) (Hu X) Hp).
Qed.
Lemma votes_add_topic X : ft_like X = 0 → ft_unlike X = 0 → keeps (inv_rel votes_ok) (add_row X).
Proof.
  intros Hl Hu. apply keeps_add; [apply _|]. intros s c o [Ht Hp] Hc. cbn [work comm] in *.
  split; [|done]. split; [|done]. exact (tally_insert _ _ _ _ _ _ _ _ Hl Hu Ht).
Qed.
Lemma votes_add_post X : fp_like X = 0 → fp_unlike X = 0 → keeps (inv_rel votes_ok) (add_row X).
Proof.
  intros Hl Hu. apply keeps_add; [apply _|]. intros s c o [Ht Hp] Hc. cbn [work comm] in *.
  split; [|done]. split; [done|]. exact (tally_insert _ _ _ _ _ _ _ _ Hl Hu Hp).
Qed.

Ltac votes_step :=
  lazymatch goal with
  | |- keeps _ commit => apply votes_commit
  | |- keeps _ (modify (A := ForumTopic) _ _) => apply votes_modify_topic; done
  | |- keeps _ (modify (A := ForumPost) _ _) => apply votes_modify_post; done
  | |- keeps _ (add_row (A := ForumTopic) _) => apply votes_add_topic; done
  | |- keeps _ (add_row (A := ForumPost) _) => apply votes_add_post; done
  | |- keeps _ (emit _) => apply votes_frozen, frozen_emit
  | |- keeps _ (modify _ _) => apply votes_frozen; solve [frozen_auto]
  | |- keeps _ (add_row _) => apply votes_frozen; solve [frozen_auto]
  | |- keeps _ (delete_row _ _) => apply votes_frozen; solve [frozen_auto]
  | |- keeps _ _ => keeps_step
  end.
Ltac votes_auto := repeat first [votes_step | solve [eauto 2 with ly]].

Lemma votes_tag_loop old dotag names taglist :
  keeps (inv_rel votes_ok) (tag_loop old dotag names taglist).
Proof.
  revert dotag taglist. induction names as [|n l IH]; intros dotag taglist; cbn [tag_loop]; votes_auto; apply IH.
Qed.
Lemma votes_drop_hit i : keeps (inv_rel votes_ok) (drop_hit i).
Proof. unfold drop_hit, delete_tag. votes_auto. Qed.
#[local] Hint Resolve votes_tag_loop votes_drop_hit : ly.
Lemma votes_update_tag tag k : keeps (inv_rel votes_ok) (update_tag tag k).
Proof. unfold update_tag. votes_auto. Qed.
#[local] Hint Resolve votes_update_tag : ly.

Lemma votes_TopicVote e s : votes_ok s → votes_ok (request (TopicVote_post e) s).1.
Proof.
  intros Ok. rewrite request_fst. unfold TopicVote_post. destruct (cur e) as [u|]; [|done].
  set (ID := default 0 _). destruct (ID =? 0); [done|]. rewrite run_get.
  destruct (row (work (start s)) ID) as [X|] eqn:HX; [|done].
  destruct (ft_user_id X =? u); [done|]. rewrite run_ask. change (work (start s)) with s in *.
  set (vote := default 0 (get_argument_int e "vote" (Some 0))).
  destruct Ok as [Ht Hp]. destruct (topic_vote_of s ID u) as [[v V]|] eqn:EV; cbn [fmap option_fmap option_map compose snd].
  - apply head_select in EV as [HV [E1%Z.eqb_eq E2%Z.eqb_eq]%andb_prop].
    destruct (vote_effect vote (Some (tv_value V))) as [[[a b] r]|] eqn:Ee; [|done].
    destruct (vote_effect_again _ _ _ _ _ Ee) as [Ha Hb]. web_run.
    change (work (start s)) with s. rewrite HX. web_run. destruct r as [n|]; web_run.
    + change (work (start s)) with s. rewrite HV. web_run. cbn [snd comm].
      split; [|exact Hp]. eapply (tally_again _ _ _ _ _ (c_topics s) (c_topicvotes s) ID X);
        [exact HX|exact HV|done|done|done|done| | |exact Ht]; simpl in Ha, Hb |- *; lia.
    + cbn [snd comm]. split; [|exact Hp].
      eapply (tally_put _ _ _ _ _ (c_topics s) _ ID X); [exact HX| | |exact Ht]; simpl in Ha, Hb |- *; lia.
  - destruct (vote_effect vote None) as [[[a b] r]|] eqn:Ee; [|done].
    destruct (vote_effect_first _ _ _ _ Ee) as (-> & -> & ->). web_run.
    change (work (start s)) with s. rewrite HX. web_run. cbn [snd comm].
    split; [|exact Hp]. eapply (tally_first _ _ _ _ _ (c_topics s) (c_topicvotes s) ID X);
      [exact HX|done|done| |done|done|exact Ht].
    intros i w Hw E1 E2. pose proof (head_select_none _ _ _ _ EV Hw) as E. cbn in E, E2.
    by rewrite E1, E2, !Z.eqb_refl in E.
Qed.

Lemma votes_PostVote e s : votes_ok s → votes_ok (request (PostVote_post e) s).1.
Proof.
  intros Ok. rewrite request_fst. unfold PostVote_post, authenticated. destruct (cur e) as [u|]; [|done].
  set (ID := default 0 _). destruct (ID =? 0); [done|]. rewrite run_get.
  destruct (row (work (start s)) ID) as [X|] eqn:HX; [|done].
  destruct (fp_user_id X =? u); [done|]. rewrite run_ask. change (work (start s)) with s in *.
  set (vote := default 0 (get_argument_int e "vote" (Some 0))).
  destruct Ok as [Ht Hp]. destruct (post_vote_of s ID u) as [[v V]|] eqn:EV; cbn [fmap option_fmap option_map compose snd].
  - apply head_select in EV as [HV [E1%Z.eqb_eq E2%Z.eqb_eq]%andb_prop].
    destruct (vote_effect vote (Some (pv_value V))) as [[[a b] r]|] eqn:Ee; [|done].
    destruct (vote_effect_again _ _ _ _ _ Ee) as [Ha Hb]. web_run.
    change (work (start s)) with s. rewrite HX. web_run. destruct r as [n|]; web_run.
    + change (work (start s)) with s. rewrite HV. web_run. cbn [snd comm].
      split; [exact Ht|]. eapply (tally_again _ _ _ _ _ (c_posts s) (c_postvotes s) ID X);
        [exact HX|exact HV|done|done|done|done| | |exact Hp]; simpl in Ha, Hb |- *; lia.
    + cbn [snd comm]. split; [exact Ht|].
      eapply (tally_put _ _ _ _ _ (c_posts s) _ ID X); [exact HX| | |exact Hp]; simpl in Ha, Hb |- *; lia.
  - destruct (vote_effect vote None) as [[[a b] r]|] eqn:Ee; [|done].
    destruct (vote_effect_first _ _ _ _ Ee) as (-> & -> & ->). web_run.
    change (work (start s)) with s. rewrite HX. web_run. cbn [snd comm].
    split; [exact Ht|]. eapply (tally_first _ _ _ _ _ (c_posts s) (c_postvotes s) ID X);
      [exact HX|done|done| |done|done|exact Hp].
    intros i w Hw E1 E2. pose proof (head_select_none _ _ _ _ EV Hw) as E. cbn in E, E2.
    by rewrite E1, E2, !Z.eqb_refl in E.
Qed.

Lemma votes_handler p e s : votes_ok s → votes_ok (request (forum_handler p e) s).1.
Proof.
  intros Ok. destruct p; cbn [forum_handler].
  6: by apply votes_TopicVote.
  8: by apply votes_PostVote.
  all: apply request_inv; [|done].
  all: unfold TopicAdd_post, TopicEdit_post, TopicDelete_post, TopicView_get, TopicReply_post,
    PostReply_post, PostEdit_post, CatalogAdd_post, CatalogEdit_post, my_topic, add_post, sendmsg,
    authenticated, need_permission, no.
  all: votes_auto.
Qed.

(** C29: after every forum request, whoever sends it, the numbers beside every topic
    and post are exactly the votes for and against that are recorded, and no user has
    more than one recorded vote on any of them. *)
Theorem forum_votes_ok p e s : votes_ok s → votes_ok (request (forum_handler p e) s).1.
Proof. apply votes_handler. Qed.

(** User 2 takes the vote for topic 1 back and votes against it. *)
Lemma forum_votes_ok_witness :
  votes_ok (request (forum_handler FTopicVote (rq (life_env 2 [("id", "1"); ("vote", "-1")]%string)))
              forum_cloud).1.
Proof.
  apply (forum_votes_ok FTopicVote). split; split_and!.
  - exact (table_of_seq_ok _).
  - exact (table_of_seq_ok _).
  - intros t x Hx. apply table_of_one in Hx as [-> ->]. vm_compute. done.
  - intros i v Hv. apply table_of_one in Hv as [_ ->]. vm_compute. by eexists.
  - intros i j v w Hv Hw _ _. apply table_of_one in Hv as [-> _], Hw as [-> _]. done.
  - intros i _. apply lookup_empty.
  - intros i _. apply lookup_empty.
  - intros t x Hx. exfalso. revert Hx. apply eq_None_ne_Some_1, lookup_empty.
  - intros i v Hv. exfalso. revert Hv. apply eq_None_ne_Some_1, lookup_empty.
  - intros i j v w Hv. exfalso. revert Hv. apply eq_None_ne_Some_1, lookup_empty.
Defined.
