(* ===== verification/ForumTexts.v ===== *)
(** What is written in the forum stays its author's: no forum request changes the
    texts of others, but for an administrator's. *)
From Stdlib Require Import Ascii String.
From S2P Require Import Prelude PyText Table Session Cloud Quota InstanceModel Web Forms LifeControl Myun Forum ForumVotes.
#[local] Open Scope Z_scope.

Definition topic_text (X : ForumTopic) : Z * string * string * string * Z :=
  (ft_catalog_id X, ft_name X, ft_summary X, ft_body X, ft_status X).

Section texts.
(** Who may change a text of the user [a]. *)
Context (may : Z → Prop).
#[local] Set Default Proof Using "All".

(** The topic [ot] and the post [op], if any, may be changed. *)
Definition free (ot op : option Z) (s : Cloud) : Prop :=
  (∀ k X, ot = Some k → row s k = Some X → may (ft_user_id X)) ∧
  (∀ k P, op = Some k → row s k = Some P → may (fp_user_id P)).

(** Topics and posts stay, with their authors; the text of each stays unless it may
    be changed. *)
Definition texts_kept (s s' : Cloud) : Prop :=
  (∀ k X, row s k = Some X → ∃ X', row s' k = Some X' ∧ ft_user_id X' = ft_user_id X ∧
     (topic_text X' = topic_text X ∨ may (ft_user_id X))) ∧
  (∀ k P, row s k = Some P → ∃ P', row s' k = Some P' ∧ fp_user_id P' = fp_user_id P ∧
     (fp_body P' = fp_body P ∨ may (fp_user_id P))).

Definition forum_seq_ok (s : Cloud) : Prop := seq_ok (c_topics s) ∧ seq_ok (c_posts s).

Definition text_step (ot op : option Z) (s s' : Cloud) : Prop :=
  forum_seq_ok s → free ot op s → forum_seq_ok s' ∧ free ot op s' ∧ texts_kept s s'.

#[export] Instance text_step_preorder ot op : PreOrder (text_step ot op).
Proof.
  split.
  - intros s Hs Hf. split_and!; [done|done|]. split; eauto 6.
  - intros s1 s2 s3 H12 H23 Hs Hf. destruct (H12 Hs Hf) as (Hs2 & Hf2 & [A1 B1]).
    destruct (H23 Hs2 Hf2) as (Hs3 & Hf3 & [A2 B2]). split_and!; [done|done|]. split.
    + intros k X (X1 & HX1 & E1 & T1)%A1. destruct (A2 k X1 HX1) as (X2 & HX2 & E2 & T2).
      exists X2. split_and!; [done|congruence|]. rewrite E1 in T2.
      destruct T1 as [T1|]; [|by right]. destruct T2 as [T2|]; [left; congruence|by right].
    + intros k P (P1 & HP1 & E1 & T1)%B1. destruct (B2 k P1 HP1) as (P2 & HP2 & E2 & T2).
      exists P2. split_and!; [done|congruence|]. rewrite E1 in T2.
      destruct T1 as [T1|]; [|by right]. destruct T2 as [T2|]; [left; congruence|by right].
Qed.

Lemma text_frozen ot op {A} (m : Web Cloud A) :
  keeps (frozen (λ s, (c_topics s, c_posts s))) m → keeps (tracks (text_step ot op)) m.
Proof.
  apply frozen_tracks. intros s s' E. assert (c_topics s = c_topics s' ∧ c_posts s = c_posts s')
    as [E1 E2] by (by simplify_eq). unfold text_step, forum_seq_ok, free, texts_kept, row. simpl.
  rewrite <- E1, <- E2. intros Hs Hf. split_and!; [apply Hs|apply Hs|apply Hf|apply Hf| |]; eauto 6.
Qed.

Lemma text_commit ot op : keeps (tracks (text_step ot op)) commit.
Proof. intros [s c o]. split; cbn [work comm]; [done|by right]. Qed.

Lemma text_put_topic ot op s k X X' :
  row s k = Some X → ft_user_id X' = ft_user_id X →
  topic_text X' = topic_text X ∨ may (ft_user_id X) →
  text_step ot op s (set_tbl (tput k X' (tbl s)) s).
Proof.
  intros HX Hu Ht [S1 S2] [F1 F2].
  assert (∀ j Y', row (set_tbl (tput k X' (tbl s)) s) j = Some Y' →
    ∃ Y, row s j = Some Y ∧ ft_user_id Y' = ft_user_id Y) as Hold.
  { intros j Y'. rewrite row_put. case_decide; [|by eauto]. intros [= <-]. subst. eauto. }
  split_and!.
  - split; [apply (tput_seq_ok k X' (tbl s)); [by eexists|done]|done].
  - split; [|done]. intros j Y' Hj (Y & HY & ->)%Hold. by apply (F1 j).
  - split; [|by eauto 6]. intros j Y HY. rewrite row_put. case_decide; [|by eauto 6]. subst.
    simplify_eq. eauto.
Qed.

Lemma text_put_post ot op s k P P' :
  row s k = Some P → fp_user_id P' = fp_user_id P →
  fp_body P' = fp_body P ∨ may (fp_user_id P) →
  text_step ot op s (set_tbl (tput k P' (tbl s)) s).
Proof.
  intros HP Hu Ht [S1 S2] [F1 F2].
  assert (∀ j Q', row (set_tbl (tput k P' (tbl s)) s) j = Some Q' →
    ∃ Q, row s j = Some Q ∧ fp_user_id Q' = fp_user_id Q) as Hold.
  { intros j Q'. rewrite row_put. case_decide; [|by eauto]. intros [= <-]. subst. eauto. }
  split_and!.
  - split; [done|apply (tput_seq_ok k P' (tbl s)); [by eexists|done]].
  - split; [done|]. intros j Q' Hj (Q & HQ & ->)%Hold. by apply (F2 j).
  - split; [by eauto 6|]. intros j Q HQ. rewrite row_put. case_decide; [|by eauto 6]. subst.
    simplify_eq. eauto.
Qed.

(** A change that does not touch the text, or of what may be changed. *)
Lemma text_modify_topic ot op k (f : ForumTopic → ForumTopic) :
  (∀ X, ft_user_id (f X) = ft_user_id X) →
  (∀ X, topic_text (f X) = topic_text X) ∨ ot = Some k →
  keeps (tracks (text_step ot op)) (modify k f).
Proof.
  intros Hu Ht. apply keeps_modify; [apply _|]. intros s c o X HX. split; cbn [work comm]; [|by left].
  intros Hs [F1 F2]. eapply text_put_topic; [done|apply Hu| |done|done].
  destruct Ht as [Ht|Ht]; [by left|right; by apply (F1 k)].
Qed.
Lemma text_modify_post ot op k (f : ForumPost → ForumPost) :
  (∀ P, fp_user_id (f P) = fp_user_id P) →
  (∀ P, fp_body (f P) = fp_body P) ∨ op = Some k →
  keeps (tracks (text_step ot op)) (modify k f).
Proof.
  intros Hu Ht. apply keeps_modify; [apply _|]. intros s c o P HP. split; cbn [work comm]; [|by left].
  intros Hs [F1 F2]. eapply text_put_post; [done|apply Hu| |done|done].
  destruct Ht as [Ht|Ht]; [by left|right; by apply (F2 k)].
Qed.

(** New topics and posts; [free] is about those that are there. *)
Lemma text_add_topic op X : keeps (tracks (text_step None op)) (add_row (X : ForumTopic)).
Proof.
  apply keeps_add; [apply _|]. intros s c o. split; cbn [work comm]; [|by left].
  intros [S1 S2] [F1 F2]. split_and!.
  - split; [by apply (tinsert_seq_ok X (tbl s))|done].
  - by split.
  - split; [|by eauto 6]. intros k Y HY. exists Y. split_and!; [|done|by left].
    by apply row_insert_old.
Qed.
Lemma text_add_post ot P : keeps (tracks (text_step ot None)) (add_row (P : ForumPost)).
Proof.
  apply keeps_add; [apply _|]. intros s c o. split; cbn [work comm]; [|by left].
  intros [S1 S2] [F1 F2]. split_and!.
  - split; [done|by apply (tinsert_seq_ok P (tbl s))].
  - by split.
  - split; [by eauto 6|]. intros k Q HQ. exists Q. split_and!; [|done|by left].
    by apply row_insert_old.
Qed.

Ltac text_step_tac :=
  lazymatch goal with
  | |- keeps _ commit => apply text_commit
  | |- keeps _ (modify (A := ForumTopic) _ _) =>
      apply text_modify_topic; [done|first [left; done|right; done]]
  | |- keeps _ (modify (A := ForumPost) _ _) =>
      apply text_modify_post; [done|first [left; done|right; done]]
  | |- keeps _ (add_row (A := ForumTopic) _) => apply text_add_topic
  | |- keeps _ (add_row (A := ForumPost) _) => apply text_add_post
  | |- keeps _ (emit _) => apply text_frozen, frozen_emit
  | |- keeps _ (modify _ _) => apply text_frozen; solve [frozen_auto]
  | |- keeps _ (add_row _) => apply text_frozen; solve [frozen_auto]
  | |- keeps _ (delete_row _ _) => apply text_frozen; solve [frozen_auto]
  | |- keeps _ _ => keeps_step
  end.
Ltac text_auto := repeat first [text_step_tac | solve [eauto 2 with ly]].

Lemma text_tag_loop ot op old dotag names taglist :
  keeps (tracks (text_step ot op)) (tag_loop old dotag names taglist).
Proof.
  revert dotag taglist. induction names as [|n l IH]; intros dotag taglist; cbn [tag_loop]; text_auto; apply IH.
Qed.
Lemma text_drop_hit ot op i : keeps (tracks (text_step ot op)) (drop_hit i).
Proof. unfold drop_hit, delete_tag. text_auto. Qed.
#[local] Hint Resolve text_tag_loop text_drop_hit : ly.
Lemma text_update_tag ot op tag k : keeps (tracks (text_step ot op)) (update_tag tag k).
Proof. unfold update_tag. text_auto. Qed.
#[local] Hint Resolve text_update_tag : ly.

Lemma text_run {A} ot op (m : Web Cloud A) s :
  keeps (tracks (text_step ot op)) m → forum_seq_ok s → free ot op s →
  texts_kept s (comm (m (start s)).2).
Proof.
  intros HK Hs Hf. destruct (HK (start s)) as [_ [H|H]]; by destruct (H Hs Hf) as (_ & _ & ?).
Qed.

Lemma texts_kept_refl s : texts_kept s s.
Proof. split; eauto 6. Qed.

(** The requests that change no text that is there. *)
Definition adds_only (p : forum_request) : bool :=
  match p with FTopicEdit | FTopicDelete | FPostEdit => false | _ => true end.

Lemma text_adds p e : adds_only p = true → keeps (tracks (text_step None None)) (forum_handler p e).
Proof.
  intros Hp. destruct p; try done; cbn [forum_handler];
  unfold TopicAdd_post, TopicView_get, TopicReply_post, PostReply_post, CatalogAdd_post,
    CatalogEdit_post, TopicVote_post, PostVote_post, add_post, sendmsg, authenticated,
    need_permission, no.
  all: text_auto.
Qed.
End texts.

(** ** The requests that change one *)

Ltac text_tac :=
  repeat first [
    lazymatch goal with
    | |- keeps _ commit => apply text_commit
    | |- keeps _ (modify (A := ForumTopic) _ _) =>
        apply text_modify_topic; [done|first [left; done|right; done]]
    | |- keeps _ (modify (A := ForumPost) _ _) =>
        apply text_modify_post; [done|first [left; done|right; done]]
    | |- keeps _ (update_tag _ _) => apply text_update_tag
    | |- keeps _ (drop_hit _) => apply text_drop_hit
    | |- keeps _ (emit _) => apply text_frozen, frozen_emit
    end
  | keeps_step].

(** The author, or an administrator. *)
Definition may_edit (s : Cloud) (o : option Z) (author : Z) : Prop :=
  ∃ u, o = Some u ∧ (author = u ∨ user_has s "admin" u = true).

Lemma my_topic_run e u (w : world Cloud) :
  my_topic e u w = (Val None, w) ∨
  ∃ k X, my_topic e u w = (Val (Some (k, X)), w) ∧ row (work w) k = Some X ∧
    (ft_user_id X = u ∨ user_has (work w) "admin" u = true).
Proof.
  unfold my_topic. destruct (_ =? 0); [by left|]. rewrite run_get, run_ask.
  destruct (row (work w) _) as [X|] eqn:HX; [|by left].
  destruct (_ || _) eqn:E; [|by left]. right. eexists _, X. split_and!; [done|done|].
  apply orb_true_iff in E as [E%Z.eqb_eq|E]; auto.
Qed.

(** C30: no forum request changes what others wrote: every topic and every post that
    was there is there afterwards with the same author, and with the same catalog,
    name, summary, text and state unless the request was its author's or an
    administrator's. *)
Theorem forum_texts_kept p e s :
  forum_seq_ok s → texts_kept (may_edit s (cur e)) s (request (forum_handler p e) s).1.
Proof.
  intros Hs. destruct (adds_only p) eqn:Ep.
  { rewrite request_fst. eapply (text_run _ None None); [by apply text_adds|done|done]. }
  rewrite request_fst. destruct p; try done; cbn [forum_handler].
  - unfold TopicEdit_post, authenticated. destruct (cur e) as [u|] eqn:Hu; [|apply texts_kept_refl].
    destruct (my_topic_run e u (start s)) as [E|(k & X & E & HX & Hm)];
      rewrite (run_bind _ _ _ _ _ E); [apply texts_kept_refl|].
    eapply (text_run _ (Some k) None); [text_tac|done|]. split; [|done].
    intros k' X' [= <-] HX'. change (row s k = Some X) in HX. simplify_eq. by exists u.
  - unfold TopicDelete_post, authenticated. destruct (cur e) as [u|] eqn:Hu; [|apply texts_kept_refl].
    set (ID := default 0 _). destruct (ID =? 0); [apply texts_kept_refl|]. rewrite run_get, run_ask.
    change (work (start s)) with s.
    destruct (row s ID) as [X|] eqn:HX; [|apply texts_kept_refl].
    destruct (negb _ && negb _) eqn:Em; [apply texts_kept_refl|].
    eapply (text_run _ (Some ID) None); [text_tac|done|]. split; [|done].
    intros k' X' [= <-] HX'. simplify_eq. exists u. split; [done|].
    apply andb_false_iff in Em as [E%negb_false_iff%Z.eqb_eq|E%negb_false_iff]; auto.
  - unfold PostEdit_post, authenticated. destruct (cur e) as [u|] eqn:Hu; [|apply texts_kept_refl].
    set (ID := default 0 _). destruct (ID =? 0); [apply texts_kept_refl|]. rewrite run_get, run_ask.
    change (work (start s)) with s.
    destruct (row s ID) as [P|] eqn:HP; [|apply texts_kept_refl].
    destruct (negb _ && negb _) eqn:Em; [apply texts_kept_refl|].
    eapply (text_run _ None (Some ID)); [unfold sendmsg; text_tac|done|]. split; [done|].
    intros k' P' [= <-] HP'. simplify_eq. exists u. split; [done|].
    apply andb_false_iff in Em as [E%negb_false_iff%Z.eqb_eq|E%negb_false_iff]; auto.
Qed.

Definition edit_req (u : Z) : req := rq (life_env u
  [("id", "1"); ("catalog", "1"); ("name", "other"); ("summary", "other"); ("body", "other")]%string).

(** User 1 wrote topic 1, user 2 is an administrator, nobody is user 3. *)
Example edits :
  (λ u, ft_name <$> row (request (forum_handler FTopicEdit (edit_req u)) forum_cloud).1 1) <$> [1; 2; 3] =
  [Some "other"; Some "other"; Some "hello"]%string.
Proof. vm_compute. reflexivity. Qed.

(** Locking a topic stops the answers, but not its author, who is no administrator. *)
Definition locked_cloud : Cloud :=
  forum_cloud <| c_topics := table_of (map (λ X : ForumTopic, X <| ft_is_locked := true |>)
                               (listing (c_topics forum_cloud)).*2) |>.
Example locked_topic_edited :
  user_has locked_cloud "admin" 1 = false ∧
  (λ X, (ft_is_locked X, ft_name X)) <$>
    row (request (forum_handler FTopicEdit (edit_req 1)) locked_cloud).1 1 = Some (true, "other"%string).
Proof. split; vm_compute; reflexivity. Qed.

Lemma forum_texts_kept_witness :
  texts_kept (may_edit forum_cloud (Some 3)) forum_cloud
    (request (forum_handler FTopicEdit (edit_req 3)) forum_cloud).1.
Proof.
  apply (forum_texts_kept FTopicEdit (edit_req 3)). split.
  - exact (table_of_seq_ok _).
  - intros i _. apply lookup_empty.
Defined.
