(* ===== verification/AppStore.v ===== *)
(** Appliances, their catalogs and screenshots (src/lyweb/app/appliance,
    app/admin/appliance_views.py, app/myun/appliance). What happens to files is an
    argument of the requests. *)
From Stdlib Require Import Ascii String.
From S2P Require Import Prelude PyText Table Session Cloud Quota InstanceModel Web Forms LifeControl Myun MyNetwork Account Message.
#[local] Open Scope Z_scope.

(** ** Finding an appliance *)

(** [get_appliance_byid]: a private appliance is for its owner and administrators. *)
Definition get_appliance_byid (e : req) (s : Cloud) : option (Z * Appliance) :=
  match get_argument_int e "id" None with
  | None => None
  | Some ID =>
      if ID =? 0 then None else
      A ← row s ID;
      if a_isprivate A &&
         match cur e with
         | None => true
         | Some u => negb (u =? a_user_id A) && negb (user_has s "admin" u)
         end
      then None else Some (ID, A)
  end.

(** [View.get]: the appliance shown. *)
Definition View_appliance (e : req) : Web Cloud (option (Z * Appliance)) :=
  o ← ask (get_appliance_byid e);
  match o with
  | None => emit (SetStatus 404);; emit (Render "appliance/404.html");; mret None
  | Some x => emit (Render "appliance/view.html");; mret (Some x)
  end.

(** The owner, or an administrator. *)
Definition may_manage (s : Cloud) (u : Z) (A : Appliance) : bool :=
  (a_user_id A =? u) || user_has s "admin" u.

(** ** Upload *)

Definition done (e : req) (msg : string) : Web Cloud unit :=
  if default 0 (get_argument_int e "ajax" (Some 0)) =? 0
  then emit (Render "appliance/action_result.html") else emit (Write msg).

(** [saved] tells whether the file could be linked to its place. In Python 2 a text
    is greater than every number, so the size of the file is not checked. *)
Definition Upload_post (e : req) (saved : bool) : Web Cloud unit :=
  need_permission e false "appliance.upload" (
    let fname := get_argument e "upfile_name" "" in
    let fsize := get_argument e "upfile_size" "" in
    let fhash := get_argument e "upfile_md5" "" in
    let fpath := get_argument e "upfile_path" "" in
    if String.eqb fname "" || String.eqb fpath "" || negb (bool_decide (is_Some (args e !! "upfile_size"%string)))
       || String.eqb fhash "" then raise "HTTPError(400)" else
    old ← ask (λ s, head (select (λ _ A, String.eqb (a_checksum A) fhash) s));
    match old, cur e with
    | Some (k, A), Some u =>
        ok ← ask (λ s, may_manage s u A);
        if negb ok then done e "Appliance exists, but you have not any permission to management it."
        else emit (Redirect "myun:appliance:baseinfo:edit" k)
    | None, Some u =>
        if negb saved then emit (SetStatus 400);; done e "Save failed" else
        match py_int fsize with
        | None => raise "DataError"
        | Some _ =>
            k ← add_row (mkAppliance (replace_char "." " " fname) u None "" "" false true true 1
                           fsize fhash);
            commit;;
            emit (Redirect "myun:appliance:baseinfo:edit" k)
        end
    | _, None => raise "AttributeError: NoneType"
    end) tt.

(** ** Deletion *)

Definition instances_with (s : Cloud) (a : Z) : list (Z * Instance) :=
  select (λ _ x, i_appliance_id x =? a) s.

(** [db.delete(A)]: its screenshots lose it. *)
Definition delete_appliance (a : Z) : Web Cloud unit :=
  l ← ask (select (λ _ P, bool_decide (as_appliance_id P = Some a)));
  for_each l (λ p, modify p.1 (λ P : ApplianceScreenshot,
    mkApplianceScreenshot None (as_filename P) (as_checksum P)));;
  delete_row Appliance a.

(** [file] is [None] when there is no file, or tells whether it can be removed. *)
Definition Delete_appliance (e : req) (ID : Z) (file : option bool) : Web Cloud unit :=
  authenticated e true (λ u,
    let finish := emit (Render "appliance/delete_return.html") : Web Cloud unit in
    o ← get_row ID;
    match o with
    | None => finish
    | Some A =>
        ok ← ask (λ s, may_manage s u A);
        if negb ok then finish else
        l ← ask (λ s, instances_with s ID);
        match l with
        | _ :: _ => finish
        | [] =>
            (if bool_decide (file = None) then mret tt else emit (FileOp "unlink appliance" ID));;
            if bool_decide (file = Some false) then finish else
            delete_appliance ID;; commit;; finish
        end
    end) tt.

(** ** Flags *)

Definition set_flag (e : req) (ID : Z) (f : bool → Appliance → Appliance) : Web Cloud unit :=
  authenticated e true (λ u,
    o ← get_row ID;
    match o with
    | None => emit (Write "No such appliance")
    | Some A =>
        ok ← ask (λ s, may_manage s u A);
        if negb ok then emit (Write "No permission!") else
        modify ID (f (String.eqb (get_argument e "flag" "") "true"));;
        commit;;
        emit (Redirect (get_argument e "next_url" "appliance:view") ID)
    end) tt.

Definition SetUseable_get (e : req) (ID : Z) : Web Cloud unit :=
  set_flag e ID (λ b A, A <| a_isuseable := b |>).
Definition SetPrivate_get (e : req) (ID : Z) : Web Cloud unit :=
  set_flag e ID (λ b A, A <| a_isprivate := b |>).

Definition islockedToggle_get (e : req) (ID : Z) : Web Cloud unit :=
  need_permission e true "admin" (
    o ← get_row (A := Appliance) ID;
    match o with
    | None => emit (Write "Can not find appliance")
    | Some _ => modify ID (λ A : Appliance, A <| a_islocked := negb (a_islocked A) |>);; commit
    end) tt.

(** The permission is asked of the decorator, which is true of everybody. *)
Definition isuseableToggle_get (e : req) (ID : Z) : Web Cloud unit :=
  authenticated e true (λ _,
    o ← get_row (A := Appliance) ID;
    match o with
    | None => emit (Write "Can not find appliance")
    | Some _ => modify ID (λ A : Appliance, A <| a_isuseable := negb (a_isuseable A) |>);; commit
    end) tt.

(** The loop of [AttrSet.post]: the code of the last appliance; a value that is no
    truth value meets an unbound name. *)
Fixpoint attrs_loop (attr value : string) (ids : list Z) (code : Z) : Web Cloud Z :=
  match ids with
  | [] => mret code
  | ID :: ids =>
      o ← get_row (A := Appliance) ID;
      match o with
      | None => attrs_loop attr value ids 1
      | Some _ =>
          match priv_value value with
          | None => raise "NameError: value"
          | Some b =>
              modify ID (λ A : Appliance, if String.eqb attr "isprivate"
                then A <| a_isprivate := b |> else A <| a_isuseable := b |>);;
              attrs_loop attr value ids 0
          end
      end
  end.

Definition AttrSet_appliance (e : req) : Web Cloud unit :=
  authenticated e false (λ _,
    let ID := get_argument e "id" "" in
    let attr := get_argument e "attr" "" in
    let value := strip (lower (get_argument e "value" "")) in
    if String.eqb ID "" then emit (WriteCode 1 "Please give me the appliance id.") else
    if String.eqb attr "" then emit (WriteCode 1 "No attr find.") else
    if negb (String.eqb attr "isprivate" || String.eqb attr "isuseable")
    then emit (WriteCode 1 "Can not support attr") else
    if String.eqb value "" then emit (WriteCode 1 "No value find.") else
    code ← attrs_loop attr value (get_int <$> split_on "," ID) 0;
    commit;;
    emit (WriteCode code "attr_set")) tt.

(** ** Screenshots *)

Definition own_appliance (e : req) (u : Z) (s : Cloud) : option (Z * Appliance) :=
  ID ← get_argument_int e "appliance_id" None;
  if ID =? 0 then None else
  A ← row s ID;
  if may_manage s u A then Some (ID, A) else None.

(** The guard is the wrong way round: the owner of the appliance is refused and
    every other user is let in. *)
Definition get_screenshot (e : req) (u : Z) : Web Cloud (option (Z * ApplianceScreenshot)) :=
  match get_argument_int e "screenshot_id" None with
  | None => no "Give me screenshot_id please."
  | Some ID =>
      if ID =? 0 then no "Give me screenshot_id please." else
      o ← get_row ID;
      match o with
      | None => no "Can not find screenshot"
      | Some P =>
          A ← fetch_opt (A := Appliance) (as_appliance_id P);
          admin ← ask (λ s, user_has s "admin" u);
          if negb (a_user_id A =? u) || admin then mret (Some (ID, P))
          else no "No permission to manage screenshot"
      end
  end.

(** The files of the request, each with its name, its checksum and whether it is
    small enough and could be stored. *)
Fixpoint add_screenshots (a : Z) (files : list (string * string * bool)) : Web Cloud bool :=
  match files with
  | [] => mret true
  | (name, sum, ok) :: files =>
      if negb ok then emit (Write "Upload screenshot failed");; mret false else
      _ ← add_row (mkApplianceScreenshot (Some a) name sum);
      commit;;
      add_screenshots a files
  end.

(** A failed [prepare] answers but does not end the request: [post] then misses the
    appliance. *)
Definition ScreenshotAdd_post (e : req) (files : list (string * string * bool)) : Web Cloud unit :=
  authenticated e false (λ u,
    o ← ask (own_appliance e u);
    match o with
    | None => emit (Write "No appliance");; raise "KeyError"
    | Some (a, _) =>
        match files with
        | [] => emit (Write "No file find")
        | _ =>
            ok ← add_screenshots a files;
            if (ok : bool) then emit (Redirect (get_argument e "next_url" "appliance:view") a)
            else mret tt
        end
    end) tt.

Definition ScreenshotDelete_get (e : req) : Web Cloud unit :=
  authenticated e true (λ u,
    o ← get_screenshot e u;
    match o with
    | None => mret tt
    | Some (k, P) =>
        delete_row ApplianceScreenshot k;;
        commit;;
        emit (FileOp "unlink screenshot" k);;
        emit (Redirect "appliance:screenshot:management" (default 0 (as_appliance_id P)))
    end) tt.

(** ** Editing *)

Record base_info := mkBaseInfo {
  bi_name : string; bi_os : Z; bi_summary : string; bi_catalog : Z; bi_description : string }.

(** [ApplianceBaseinfoForm], [ApplianceEditForm] *)
Definition base_form (e : req) (s : Cloud) : option base_info :=
  let name := text_field e "name" in
  let os := select_field e "os" in
  let c := select_field e "catalog" in
  if length_ok 2 64 name && bool_decide (os ∈ ["1"; "2"]%string) &&
     bool_decide (c ∈ id_choices (all_rows ApplianceCatalog s))
  then i ← py_int c;
       Some (mkBaseInfo name (get_int os) (text_field e "summary") i (text_field e "description"))
  else None.

Definition set_base (d : base_info) (A : Appliance) : Appliance :=
  A <| a_name := bi_name d |> <| a_os := bi_os d |> <| a_summary := bi_summary d |>
    <| a_catalog_id := Some (bi_catalog d) |> <| a_description := bi_description d |>.

(** [BaseinfoEdit] of a user's own appliance; [initialize] comes before the user is
    asked to log in. *)
Definition BaseinfoEdit_appliance (e : req) : Web Cloud unit :=
  let ID := default 0 (get_argument_int e "id" (Some 0)) in
  o ← (if ID =? 0 then mret None else get_row (A := Appliance) ID);
  if bool_decide (is_Some o ∧ cur e = None) then raise "AttributeError: NoneType" else
  authenticated e false (λ u,
    match o with
    | None => emit (Write "No such appliance")
    | Some A =>
        if negb (u =? a_user_id A) then emit (Write "Not your appliance") else
        f ← ask (base_form e);
        match f with
        | None => emit (Render "myun/appliance/baseinfo_edit.html")
        | Some d =>
            modify ID (set_base d);; commit;;
            emit (Redirect "myun:appliance:view" ID)
        end
    end) tt.

(** The appliance of the argument [id], for administrators. *)
Definition admin_appliance (e : req) (k : Z → Appliance → Web Cloud unit) : Web Cloud unit :=
  need_permission e false "admin" (
    let ID := default 0 (get_argument_int e "id" None) in
    if ID =? 0 then emit (Write "Give me appliance id please.") else
    o ← get_row ID;
    match o with
    | None => emit (Write "Can not find appliance")
    | Some A => k ID A
    end) tt.

Definition ApplianceEdit_post (e : req) : Web Cloud unit :=
  admin_appliance e (λ ID _,
    f ← ask (base_form e);
    match f with
    | None => emit (Render "admin/appliance/edit.html")
    | Some d =>
        modify ID (set_base d);; commit;;
        emit (Redirect "admin:appliance:view" ID)
    end).

(** [user.isdigit()] *)
Definition digits (s : string) : bool :=
  negb (String.eqb s "") &&
  forallb (λ c, let n := nat_of_ascii c in (48 <=? n) && (n <=? 57))%nat (list_ascii_of_string s).

(** The user of an id or a name. *)
Definition user_named (s : Cloud) (name : string) : option (Z * User) :=
  match (if digits name then k ← py_int name; U ← row (A := User) s k; Some (k, U) else None) with
  | Some x => Some x
  | None => user_by_name s name
  end.

Definition LY_TARGET_APPLIANCE := 5.

Definition ApplianceChangeUser_post (e : req) : Web Cloud unit :=
  admin_appliance e (λ ID A,
    let user := get_argument e "user" "" in
    if String.eqb user "" then emit (Render "admin/appliance/change_owner.html") else
    o ← ask (λ s, user_named s user);
    match o with
    | None => emit (Render "admin/appliance/change_owner.html")
    | Some (v, _) =>
        _ ← fetch (A := User) (a_user_id A);
        modify ID (λ A : Appliance, A <| a_user_id := v |>);;
        commit;;
        add_trace e LY_TARGET_APPLIANCE ID "change owner";;
        emit (Redirect "admin:appliance:view" ID)
    end).

(** [ApplianceManagement] with the method POST. *)
Definition ApplianceManagement_post (e : req) : Web Cloud unit :=
  need_permission e false "admin" (
    let ID := get_argument e "id" "" in
    let action := get_argument e "action" "index" in
    let cid := get_argument e "catalog" "" in
    o ← (if String.eqb ID "" then mret None else get_text (A := Appliance) ID);
    if negb (String.eqb ID "") && bool_decide (o = None) then emit (Write "No such appliance") else
    c ← (if String.eqb cid "" then mret None else get_text (A := ApplianceCatalog) cid);
    if String.eqb action "" then emit (Write "No action found !") else
    if String.eqb action "change_owner" then raise "AttributeError: change_owner" else
    if negb (String.eqb action "change_catalog") then emit (Write "Wrong action value!") else
    match c with
    | None => emit (Render "admin/appliance/change_catalog.html")
    | Some (c, _) =>
        match o with
        | None => raise "AttributeError: NoneType"
        | Some (k, _) =>
            modify k (λ A : Appliance, A <| a_catalog_id := Some c |>);;
            commit;;
            emit (Redirect "admin:appliance" k)
        end
    end) tt.

(** ** Catalogs *)

(** [ApplianceCatalogEditForm] *)
Definition appliance_catalog_form (e : req) : option (string * string * string) :=
  let name := text_field e "name" in
  let summary := text_field e "summary" in
  if length_ok 2 32 name && length_ok 2 256 summary
  then Some (name, summary, text_field e "description") else None.

Definition CatalogAdd_appliance (e : req) : Web Cloud unit :=
  need_permission e false "admin" (
    match appliance_catalog_form e with
    | None => emit (Render "admin/appliance/catalog/add.html")
    | Some (name, summary, description) =>
        c ← add_row (mkApplianceCatalog name summary description 0);
        commit;;
        emit (Redirect "admin:appliance:catalog:view" c)
    end) tt.

Definition admin_catalog (e : req) (get : bool) (k : Z → Web Cloud unit) : Web Cloud unit :=
  need_permission e get "admin" (
    let ID := default 0 (get_argument_int e "id" None) in
    if ID =? 0 then emit (Write "Give me catalog id please.") else
    o ← get_row (A := ApplianceCatalog) ID;
    match o with
    | None => emit (Write "Can not find catalog")
    | Some _ => k ID
    end) tt.

Definition CatalogEdit_appliance (e : req) : Web Cloud unit :=
  admin_catalog e false (λ c,
    match appliance_catalog_form e with
    | None => emit (Render "admin/appliance/catalog/edit.html")
    | Some (name, summary, description) =>
        modify c (λ C : ApplianceCatalog,
          mkApplianceCatalog name summary description (ac_position C));;
        commit;;
        emit (Redirect "admin:appliance:catalog:view" c)
    end).

Definition appliances_in (s : Cloud) (c : Z) : list (Z * Appliance) :=
  select (λ _ A, bool_decide (a_catalog_id A = Some c)) s.

Definition CatalogDelete_get (e : req) : Web Cloud unit :=
  admin_catalog e true (λ c,
    l ← ask (λ s, appliances_in s c);
    match l with
    | _ :: _ => emit (Write "There are appliances exist, can not delete catalog now.")
    | [] =>
        delete_row ApplianceCatalog c;;
        commit;;
        emit (Redirect "admin:appliance:catalog" 0)
    end).

Definition tuneCatalogPosition_get (e : req) (ID : Z) : Web Cloud unit :=
  need_permission e true "admin" (
    o ← get_row (A := ApplianceCatalog) ID;
    match o with
    | None => emit (Write "Can not find appliance catalog")
    | Some _ =>
        let n := default 0 (get_argument_int e "value" (Some 0)) in
        if n =? 0 then emit (Write "tune value must be a integer.") else
        modify ID (λ C : ApplianceCatalog, C <| ac_position := ac_position C + n |>);;
        commit
    end) tt.

(** ** The requests *)

Inductive app_request :=
  | PView | PUpload (saved : bool) | PDelete (ID : Z) (file : option bool)
  | PSetUseable (ID : Z) | PSetPrivate (ID : Z) | PLocked (ID : Z) | PUseable (ID : Z) | PAttrSet
  | PShotAdd (files : list (string * string * bool)) | PShotDelete
  | PBaseinfo | PEdit | PChangeUser | PManagement
  | PCatalogAdd | PCatalogEdit | PCatalogDelete | PTune (ID : Z).

Definition app_handler (p : app_request) (e : req) : Web Cloud unit :=
  match p with
  | PView => _ ← View_appliance e; mret tt
  | PUpload saved => Upload_post e saved
  | PDelete ID file => Delete_appliance e ID file
  | PSetUseable ID => SetUseable_get e ID
  | PSetPrivate ID => SetPrivate_get e ID
  | PLocked ID => islockedToggle_get e ID
  | PUseable ID => isuseableToggle_get e ID
  | PAttrSet => AttrSet_appliance e
  | PShotAdd files => ScreenshotAdd_post e files
  | PShotDelete => ScreenshotDelete_get e
  | PBaseinfo => BaseinfoEdit_appliance e
  | PEdit => ApplianceEdit_post e
  | PChangeUser => ApplianceChangeUser_post e
  | PManagement => ApplianceManagement_post e
  | PCatalogAdd => CatalogAdd_appliance e
  | PCatalogEdit => CatalogEdit_appliance e
  | PCatalogDelete => CatalogDelete_get e
  | PTune ID => tuneCatalogPosition_get e ID
  end.
