(* ===== verification/AppSafety.v ===== *)
(** No request of the store takes an appliance away from its instances, or changes
    one behind the back of its owner but for two flags. *)
From Stdlib Require Import Ascii String.
From S2P Require Import Prelude PyText Table Session Cloud Quota InstanceModel Web Forms LifeControl Myun MyNetwork Account Message AppStore.
#[local] Open Scope Z_scope.

(** The same but for the two flags anybody who is logged in can set. *)
Definition same_but_flags (A A' : Appliance) : Prop :=
  A' = A <| a_isuseable := a_isuseable A' |> <| a_isprivate := a_isprivate A' |>.

Lemma same_but_flags_refl A : same_but_flags A A.
Proof. by destruct A. Qed.
Lemma same_but_flags_trans A1 A2 A3 :
  same_but_flags A1 A2 → same_but_flags A2 A3 → same_but_flags A1 A3.
Proof. unfold same_but_flags. intros -> ->. done. Qed.

(** ** A request that changes appliances only where [P] and [user] allow *)

Section step.
(** The appliances that may be changed; whether anybody is logged in. *)
Context (P : Z → Prop) (user : Prop).
#[local] Set Default Proof Using "All".

(** What becomes of the appliance [k]. *)
Definition app_changed (k : Z) (A A' : Appliance) : Prop :=
  A' = A ∨ same_but_flags A A' ∧ user ∨ P k.

Definition app_step (s s' : Cloud) : Prop :=
  seq_ok (c_appliances s) →
  seq_ok (c_appliances s') ∧ c_instances s' = c_instances s ∧
  ∀ k A, row s k = Some A → ∃ A', row s' k = Some A' ∧ app_changed k A A'.

#[export] Instance app_step_preorder : PreOrder app_step.
Proof.
  split.
  - intros s Hs. split_and!; [done|done|]. intros k A HA. exists A. split; [done|by left].
  - intros s1 s2 s3 H12 H23 Hs. destruct (H12 Hs) as (Hs2 & E2 & K2).
    destruct (H23 Hs2) as (Hs3 & E3 & K3). split_and!; [done|congruence|].
    intros k A (A2 & HA2 & C2)%K2. destruct (K3 k A2 HA2) as (A3 & HA3 & C3). exists A3.
    split; [done|]. destruct C2 as [->|[[F2 Hu]|]]; [done| |by right; right].
    destruct C3 as [->|[[F3 _]|]]; [right; left; done| |by right; right].
    right. left. split; [by eapply same_but_flags_trans|done].
Qed.

Lemma app_frozen {A} (m : Web Cloud A) :
  keeps (frozen (λ s, (c_appliances s, c_instances s))) m → keeps (tracks app_step) m.
Proof.
  apply frozen_tracks. intros s s' E. assert (c_appliances s = c_appliances s' ∧
    c_instances s = c_instances s') as [E1 E2] by (by simplify_eq).
  unfold app_step, row. simpl. rewrite <- E1, <- E2. intros Hs. split_and!; [done|done|].
  intros k Y HY. exists Y. split; [done|by left].
Qed.

Lemma app_commit : keeps (tracks app_step) commit.
Proof. intros [s c o]. split; cbn [work comm]; [done|by right]. Qed.

Lemma app_modify k (f : Appliance → Appliance) :
  (∀ A, same_but_flags A (f A) ∧ user) ∨ P k → keeps (tracks app_step) (modify k f).
Proof.
  intros Hf. apply keeps_modify; [apply _|]. intros s c o A HA. split; cbn [work comm]; [|by left].
  intros Hs. split_and!.
  - apply (tput_seq_ok k (f A) (tbl s)); [by eexists|done].
  - done.
  - intros j Y HY. rewrite row_put. case_decide as E; [|by exists Y; split; [|left]]. subst j.
    simplify_eq. eexists. split; [done|]. destruct Hf as [Hf|Hf]; right; auto.
Qed.

Lemma app_add A : keeps (tracks app_step) (add_row (A : Appliance)).
Proof.
  apply keeps_add; [apply _|]. intros s c o. split; cbn [work comm]; [|by left]. intros Hs.
  split_and!; [by apply (tinsert_seq_ok A (tbl s))|done|]. intros k Y HY. exists Y.
  split; [by apply row_insert_old|by left].
Qed.
End step.

Ltac app_step_tac :=
  lazymatch goal with
  | |- keeps _ commit => apply app_commit
  | |- keeps _ (modify (A := Appliance) _ _) =>
      apply app_modify; first [right; done|left; intros ?; split; [by repeat case_match|done]]
  | |- keeps _ (add_row (A := Appliance) _) => apply app_add
  | |- keeps _ (emit _) => apply app_frozen, frozen_emit
  | |- keeps _ (modify _ _) => apply app_frozen; solve [frozen_auto]
  | |- keeps _ (add_row _) => apply app_frozen; solve [frozen_auto]
  | |- keeps _ (delete_row _ _) => apply app_frozen; solve [frozen_auto]
  end.
Ltac app_auto := repeat first [app_step_tac | keeps_step | solve [eauto 2 with ly]].

Lemma app_step_attrs P (user : Prop) attr value ids : user → ∀ code,
  keeps (tracks (app_step P user)) (attrs_loop attr value ids code).
Proof. intros Hu. induction ids as [|x l IH]; intros code; cbn [attrs_loop]; app_auto; apply IH. Qed.

Lemma app_step_shots P user a files : keeps (tracks (app_step P user)) (add_screenshots a files).
Proof. induction files as [|[[x y] b] l IH]; cbn [add_screenshots]; app_auto; apply IH. Qed.
#[local] Hint Resolve app_step_attrs app_step_shots : ly.

(** ** What a request may do *)

(** Every appliance stays and is changed by its owner or an administrator, or in its
    flags by a user, or it is deleted by the former when no instance uses it. *)
Definition appliances_kept (o : option Z) (s s' : Cloud) : Prop :=
  let may A := ∃ u, o = Some u ∧ may_manage s u A = true in
  c_instances s' = c_instances s ∧
  ∀ k A, row s k = Some A →
    (∃ A', row s' k = Some A' ∧ (A' = A ∨ same_but_flags A A' ∧ is_Some o ∨ may A)) ∨
    row (A := Appliance) s' k = None ∧ may A ∧ instances_with s k = [].

Lemma app_run {A} P (m : Web Cloud A) o s :
  keeps (tracks (app_step P (is_Some o))) m → seq_ok (c_appliances s) →
  (∀ k A, P k → row s k = Some A → ∃ u, o = Some u ∧ may_manage s u A = true) →
  appliances_kept o s (comm (m (start s)).2).
Proof.
  intros HK Hs HP. destruct (HK (start s)) as [_ [H|H]]; destruct (H Hs) as (_ & E & K);
    (split; [done|]; intros k X HX; left; destruct (K k X HX) as (X' & HX' & C);
     exists X'; split; [done|]; destruct C as [|[|]]; eauto).
Qed.

Lemma appliances_kept_refl o s : appliances_kept o s s.
Proof. split; [done|]. eauto. Qed.

(** The requests that do not ask whose appliance they change. *)
Definition asks_owner (p : app_request) : bool :=
  match p with
  | PDelete _ _ | PSetUseable _ | PSetPrivate _ | PLocked _ | PBaseinfo | PEdit | PChangeUser
  | PManagement => true
  | _ => false
  end.

Lemma app_free p e : asks_owner p = false →
  keeps (tracks (app_step (λ _, False) (is_Some (cur e)))) (app_handler p e).
Proof.
  intros Hp. destruct p; try done; cbn [app_handler];
  unfold View_appliance, Upload_post, isuseableToggle_get, AttrSet_appliance, ScreenshotAdd_post,
    ScreenshotDelete_get, get_screenshot, no, done, CatalogAdd_appliance, CatalogEdit_appliance,
    CatalogDelete_get, tuneCatalogPosition_get, admin_catalog, authenticated, need_permission;
  destruct (cur e) as [u|]; app_auto; by apply app_step_attrs.
Qed.

(** What is for administrators only. *)
Lemma app_admin {A} e get (m : Web Cloud A) (none : A) s :
  keeps (tracks (app_step (λ _, True) (is_Some (cur e)))) m → seq_ok (c_appliances s) →
  appliances_kept (cur e) s (comm (need_permission e get "admin" m none (start s)).2).
Proof.
  intros HK Hs. unfold need_permission. destruct (cur e) as [u|] eqn:Hu;
    [|destruct get; apply appliances_kept_refl].
  rewrite run_ask. change (work (start s)) with s. destruct (user_has s "admin" u) eqn:Ha;
    [|apply appliances_kept_refl].
  eapply app_run; [exact HK|done|]. intros k A' _ HA. exists u. split; [done|].
  unfold may_manage. rewrite Ha. apply orb_true_r.
Qed.

Lemma app_set_flag e ID f s :
  seq_ok (c_appliances s) → appliances_kept (cur e) s (comm (set_flag e ID f (start s)).2).
Proof.
  intros Hs. unfold set_flag, authenticated. destruct (cur e) as [u|] eqn:Hu; [|apply appliances_kept_refl].
  rewrite run_get. change (work (start s)) with s. destruct (row s ID) as [A|] eqn:HA;
    [|apply appliances_kept_refl].
  rewrite run_ask. change (work (start s)) with s. destruct (may_manage s u A) eqn:Hm;
    [|apply appliances_kept_refl]. cbn [negb].
  apply (app_run (λ k, k = ID)); [app_auto|done|]. intros k A' -> HA'. simplify_eq. by exists u.
Qed.

Lemma delete_appliance_run a (w : world Cloud) : ∃ t,
  delete_appliance a w = (Val tt, mkWorld
    (set_tbl (tdelete a (c_appliances (work w))) (set_tbl (t : table ApplianceScreenshot) (work w)))
    (comm w) (outs w)).
Proof.
  unfold delete_appliance. rewrite run_ask.
  edestruct (for_modify_select (S := Cloud) (λ P : ApplianceScreenshot,
    mkApplianceScreenshot None (as_filename P) (as_checksum P))) as (t & E & _ & _).
  exists t. etrans; [eapply run_bind; exact E|]. done.
Qed.

Lemma app_delete e ID file s :
  seq_ok (c_appliances s) →
  appliances_kept (cur e) s (comm (Delete_appliance e ID file (start s)).2).
Proof.
  intros Hs. unfold Delete_appliance, authenticated.
  destruct (cur e) as [u|] eqn:Hu; [|apply appliances_kept_refl]. rewrite run_get.
  change (work (start s)) with s. destruct (row s ID) as [A|] eqn:HA; [|apply appliances_kept_refl].
  rewrite run_ask. change (work (start s)) with s. destruct (may_manage s u A) eqn:Hm;
    [|apply appliances_kept_refl]. cbn [negb]. rewrite run_ask. change (work (start s)) with s.
  destruct (instances_with s ID) eqn:Hi; [|apply appliances_kept_refl].
  assert (∃ os, ((if bool_decide (file = None) then mret tt else emit (FileOp "unlink appliance" ID))
    : Web Cloud unit) (start s) = (Val tt, mkWorld s s os)) as [os E]
    by (case_bool_decide; eexists; reflexivity).
  rewrite (run_bind _ _ _ _ _ E). clear E.
  destruct (bool_decide (file = Some false)); [apply appliances_kept_refl|].
  destruct (delete_appliance_run ID (mkWorld s s os)) as [t Et].
  rewrite (run_bind _ _ _ _ _ Et), run_commit, emit_val. cbn [work comm snd]. split; [done|].
  intros k X HX. rewrite row_set_delete. case_decide as Ek.
  - right. subst k. simplify_eq. split_and!; [done|by exists u|done].
  - left. exists X. split; [done|by left].
Qed.

Lemma app_baseinfo e s :
  seq_ok (c_appliances s) →
  appliances_kept (cur e) s (comm (BaseinfoEdit_appliance e (start s)).2).
Proof.
  intros Hs. unfold BaseinfoEdit_appliance, authenticated. set (ID := default 0 _).
  destruct (ID =? 0); [rewrite run_ret|rewrite run_get; change (work (start s)) with s].
  { rewrite bool_decide_false by (intros [[? ?] _]; done). destruct (cur e); apply appliances_kept_refl. }
  destruct (row s ID) as [A|] eqn:HA; case_bool_decide; try apply appliances_kept_refl;
    destruct (cur e) as [u|] eqn:Hu; try apply appliances_kept_refl.
  destruct (u =? a_user_id A) eqn:E; [|apply appliances_kept_refl]. cbn [negb].
  apply (app_run (λ k, k = ID)); [app_auto|done|]. intros k A' -> HA'. simplify_eq. exists u.
  split; [done|]. unfold may_manage. rewrite Z.eqb_sym, E. done.
Qed.

(** C32: whatever request of the appliance store is served, no instance changes, and
    every appliance that was there stays as it was, unless its owner or an
    administrator asked for the change, or only its flags [isuseable] and [isprivate]
    changed for a user who is logged in (any user: the code asks the wrong thing), or
    its owner or an administrator deleted it and no instance used it. *)
Theorem appliances_safe p e s :
  seq_ok (c_appliances s) → appliances_kept (cur e) s (request (app_handler p e) s).1.
Proof.
  intros Hs. rewrite request_fst. destruct (asks_owner p) eqn:Hp.
  2:{ eapply app_run; [by apply app_free|done|done]. }
  destruct p; try done; cbn [app_handler].
  - by apply app_delete.
  - by apply app_set_flag.
  - by apply app_set_flag.
  - apply app_admin; [app_auto|done].
  - by apply app_baseinfo.
  - apply app_admin; [app_auto|done].
  - apply app_admin; [|done]. unfold add_trace. app_auto.
  - apply app_admin; [|done]. unfold get_text. app_auto.
Qed.

Definition store_cloud : Cloud :=
  life_cloud <| c_appliances := table_of
    [mkAppliance "one" 1 None "" "" false true true 1 "10" "aa";
     mkAppliance "two" 1 None "" "" false true true 1 "10" "bb"] |>.

(** User 1 owns both appliances; the instance uses the first; user 3 is nobody. *)
Example store_deletes :
  (λ x, a_name <$> row (request (app_handler (PDelete x.2 (Some true)) (rq (life_env x.1 [])))
     store_cloud).1 x.2) <$> [(1, 1); (1, 2); (3, 2)] = [Some "one"; None; Some "two"]%string.
Proof. vm_compute. reflexivity. Qed.

(** A stranger makes a private appliance public. *)
Example stranger_publishes :
  a_isprivate <$> row (request (app_handler PAttrSet (rq (life_env 3
    [("id", "2"); ("attr", "isprivate"); ("value", "false")]%string))) store_cloud).1 2 = Some false.
Proof. vm_compute. reflexivity. Qed.

Lemma appliances_safe_witness :
  appliances_kept (Some 1) store_cloud
    (request (app_handler (PDelete 2 (Some true)) (rq (life_env 1 []))) store_cloud).1.
Proof. apply (appliances_safe (PDelete 2 (Some true)) (rq (life_env 1 []))). exact (table_of_seq_ok _). Defined.
