(* ===== verification/SiteContent.v ===== *)
(** What administrators write about the site itself: navigation, entries and their
    articles, the configuration tables (src/lyweb/app/site/admin_views.py and forms.py,
    app/system/views.py, app/domain/admin_views.py, app/registration/admin_views.py).
    The text of JSON and of Markdown is an interface; the lists of ids in the answers
    of the ajax handlers are not modelled, nor is what goes to configuration files. *)
From Stdlib Require Import Ascii String.
From S2P Require Import Prelude PyText Table Session Cloud Quota InstanceModel Web Forms LifeControl Account.
#[local] Open Scope Z_scope.

(** [json.dumps], [json.loads] ([None] for [ValueError]) and [Markdown.convert]. *)
Class SiteText := { dumps : json → string; loads : string → option json; markdown : string → string }.

(** [x = query(key).first(); if x: f(x) else: add(y)] *)
Definition upsert {A} `{HasTable Cloud A} (P : A → bool) (f : A → A) (y : A) : Web Cloud unit :=
  o ← ask (λ s, head (select (λ _, P) s));
  match o with
  | Some (k, _) => modify k f
  | None => _ ← add_row y; mret tt
  end.

(** ** Navigation *)

Definition LANGUAGES : list string := ["en_US"; "zh_CN"]%string.

Definition language_list (s : Cloud) : list (Z * Language) :=
  omap (λ c, head (select (λ _ L, String.eqb (l_codename L) c) s)) LANGUAGES.

Record nav_info := mkNavInfo {
  nf_language : Z; nf_name : string; nf_type : Z; nf_target : string; nf_summary : string;
  nf_isnewopen : bool }.

(** [SiteNavForm]; the one type there is is 1. *)
Definition nav_form (e : req) (s : Cloud) : option nav_info :=
  let name := text_field e "name" in
  let target := text_field e "target" in
  let summary := text_field e "summary" in
  if bool_decide (select_field e "language" ∈ id_choices (language_list s)) &&
     length_ok 2 64 name && String.eqb (select_field e "type") "1" && length_ok 1 64 target &&
     length_ok 2 256 summary
  then L ← py_int (select_field e "language");
       Some (mkNavInfo L name 1 target summary (bool_field e "isnewopen"))
  else None.

(** [get_entry_url] *)
Definition get_entry_url (d : nav_info) : string := if nf_type d =? 1 then nf_target d else "".

Definition NavAdd_post (e : req) : Web Cloud unit :=
  need_permission e false "admin" (
    f ← ask (nav_form e);
    match f with
    | None => emit (Render "admin/site/nav_add.html")
    | Some d =>
        if String.eqb (get_entry_url d) "" then emit (Render "admin/site/nav_add.html") else
        L ← get_row (A := Language) (nf_language d);
        _ ← add_row (mkSiteNav (nf_type d) 0 (match L with Some _ => Some (nf_language d) | None => None end)
               (nf_name d) (get_entry_url d) (nf_target d) (nf_summary d) (nf_isnewopen d));
        commit;;
        emit (Redirect "admin:site:nav" 0)
    end) tt.

Definition NavEdit_post (e : req) (ID : Z) : Web Cloud unit :=
  need_permission e false "admin" (
    o ← get_row (A := SiteNav) ID;
    match o with
    | None => emit (Write "No such entry")
    | Some _ =>
        f ← ask (nav_form e);
        match f with
        | None => emit (Render "admin/site/nav_edit.html")
        | Some d =>
            if String.eqb (get_entry_url d) "" then emit (Render "admin/site/nav_edit.html") else
            modify ID (λ N : SiteNav, mkSiteNav (nf_type d) (sn_position N) (Some (nf_language d))
              (nf_name d) (get_entry_url d) (nf_target d) (nf_summary d) (nf_isnewopen d));;
            commit;;
            emit (Redirect "admin:site:nav" 0)
        end
    end) tt.

(** The ids of [json.loads(self.get_argument('ids', []))], [None] when it raises. *)
Definition ajax_each (e : req) (ids : option (list Z)) (f : Z → Web Cloud unit) : Web Cloud unit :=
  need_permission e false "admin" (
    match ids with
    | None => raise "ValueError"
    | Some l => for_each l f;; commit;; emit (WriteCode 0 "")
    end) tt.

Definition delete_if {A} `{HasTable Cloud A} (ok : Cloud → Z → bool) (k : Z) : Web Cloud unit :=
  o ← get_row (A := A) k;
  b ← ask (λ s, ok s k);
  if bool_decide (is_Some o) && b then delete_row A k else mret tt.

Definition ajaxNavDelete_post (e : req) (ids : option (list Z)) : Web Cloud unit :=
  ajax_each e ids (delete_if (A := SiteNav) (λ _ _, true)).

Definition ajaxNavPositionAdjust_post (e : req) (ids : option (list Z)) : Web Cloud unit :=
  let plus := default 0 (get_argument_int e "plus" (Some 0)) in
  ajax_each e ids (λ k,
    o ← get_row (A := SiteNav) k;
    match o with
    | None => mret tt
    | Some _ => modify k (λ N : SiteNav, N <| sn_position := sn_position N + plus |>)
    end).

(** ** Entries and articles *)

Definition slug_form (e : req) : option string :=
  let slug := text_field e "slug" in if length_ok 1 64 slug then Some slug else None.

Definition entry_by_slug (s : Cloud) (slug : string) : option (Z * SiteEntry) :=
  head (select (λ _ E, String.eqb (se_slug E) slug) s).

Definition EntryAdd_post (e : req) : Web Cloud unit :=
  need_permission e false "admin" (
    let again := emit (Render "admin/site/entry_add.html") : Web Cloud unit in
    match slug_form e with
    | None => again
    | Some slug =>
        o ← ask (λ s, entry_by_slug s slug);
        match o with
        | Some _ => again
        | None => _ ← add_row (mkSiteEntry slug); commit;; emit (Redirect "admin:site:entry" 0)
        end
    end) tt.

Definition EntryEdit_post (e : req) (ID : Z) : Web Cloud unit :=
  need_permission e false "admin" (
    o ← get_row (A := SiteEntry) ID;
    match o with
    | None => emit (Write "No such entry")
    | Some _ =>
        let again := emit (Render "admin/site/entry_edit.html") : Web Cloud unit in
        match slug_form e with
        | None => again
        | Some slug =>
            old ← ask (λ s, entry_by_slug s slug);
            if match old with Some (k, _) => negb (k =? ID) | None => false end then again else
            modify ID (λ _ : SiteEntry, mkSiteEntry slug);;
            commit;;
            emit (Redirect "admin:site:entry" 0)
        end
    end) tt.

Definition articles_of (s : Cloud) (E : Z) : list (Z * SiteArticle) :=
  select (λ _ A, sa_entry_id A =? E) s.

Definition ajaxEntryDelete_post (e : req) (ids : option (list Z)) : Web Cloud unit :=
  ajax_each e ids (delete_if (A := SiteEntry) (λ s k, Nat.eqb (length (articles_of s k)) 0)).

(** Name, summary, text and visibility of [ArticleEditForm], [ArticleForm]. *)
Definition article_fields (e : req) : option (string * string * string * bool) :=
  let name := text_field e "name" in
  let summary := text_field e "summary" in
  let body := text_field e "body" in
  if length_ok 2 64 name && length_ok 0 256 summary && length_ok 0 10240 body
  then Some (name, summary, body, bool_field e "is_visible") else None.

(** The article an entry has in a language. *)
Definition article_of (s : Cloud) (E L : Z) : option (Z * SiteArticle) :=
  head (select (λ _ A, (sa_entry_id A =? E) && (sa_language_id A =? L)) s).

(** The field [is_visible] is not used for a new article. *)
Definition ArticleAdd_post (e : req) : Web Cloud unit :=
  need_permission e false "admin" (
    let again := emit (Render "admin/site/article_add.html") : Web Cloud unit in
    languages ← ask language_list;
    entries ← ask (all_rows SiteEntry);
    let entry := select_field e "entry" in
    let language := select_field e "language" in
    if negb (bool_decide (entry ∈ id_choices entries)) ||
       negb (bool_decide (language ∈ id_choices languages)) then again else
    match article_fields e with
    | None => again
    | Some (name, summary, body, _) =>
        E ← get_row (A := SiteEntry) (get_int entry);
        L ← get_row (A := Language) (get_int language);
        match E, L with
        | Some _, Some _ =>
            old ← ask (λ s, article_of s (get_int entry) (get_int language));
            match old with
            | Some _ => again
            | None =>
                _ ← add_row (mkSiteArticle (get_int language) (get_int entry) name summary body true);
                commit;;
                emit (Redirect "admin:site:article" 0)
            end
        | _, _ => again
        end
    end) tt.

Definition ArticleEdit_post (e : req) (ID : Z) : Web Cloud unit :=
  need_permission e false "admin" (
    o ← get_row (A := SiteArticle) ID;
    match o with
    | None => emit (Write "No such article")
    | Some _ =>
        match article_fields e with
        | None => emit (Render "admin/site/article_edit.html")
        | Some (name, summary, body, visible) =>
            modify ID (λ A : SiteArticle,
              mkSiteArticle (sa_language_id A) (sa_entry_id A) name summary body visible);;
            commit;;
            emit (Redirect "admin:site:article" 0)
        end
    end) tt.

Definition ajaxArticleDelete_post (e : req) (ids : option (list Z)) : Web Cloud unit :=
  ajax_each e ids (delete_if (A := SiteArticle) (λ _ _, true)).

(** ** Configuration *)

(** [SiteConfig.set] without its commit, and the same of the edit pages. *)
Definition set_config (key value : string) : Web Cloud unit :=
  upsert (λ x, String.eqb (sc_key x) key) (λ x : SiteConfig, x <| sc_value := value |>)
    (mkSiteConfig key value).

(** [SiteConfigForm] *)
Definition config_form (e : req) : option (string * string) :=
  let key := text_field e "key" in
  let value := text_field e "value" in
  if length_ok 2 256 key && length_ok 0 1024 value then Some (strip key, strip value) else None.

Definition ConfigEdit_post (e : req) : Web Cloud unit :=
  need_permission e false "admin" (
    match config_form e with
    | None => emit (Render "admin/site/config/edit.html")
    | Some (key, value) =>
        set_config key value;;
        commit;;
        redirect_next e "admin:site:config"
    end) tt.

Definition ConfigDelete_get (e : req) : Web Cloud unit :=
  need_permission e true "admin" (
    let key := get_argument e "key" "" in
    if String.eqb key "" then emit (Write "No config key found.") else
    o ← ask (λ s, head (select (λ _ x, String.eqb (sc_key x) key) s));
    match o with
    | Some (k, _) => delete_row SiteConfig k;; commit;; redirect_next e "admin:site:config"
    | None => emit (Write "No such config for key")
    end) tt.

Definition LocaleConfigEdit_post (e : req) : Web Cloud unit :=
  need_permission e false "admin" (
    languages ← ask language_list;
    let language := select_field e "language" in
    match (if bool_decide (language ∈ id_choices languages) then config_form e else None),
          py_int language with
    | Some (key, value), Some L =>
        upsert (λ x, String.eqb (lc_key x) key && (lc_language_id x =? L))
          (λ x : SiteLocaleConfig, x <| lc_value := value |> <| lc_language_id := L |>)
          (mkSiteLocaleConfig L key value);;
        commit;;
        redirect_next e "admin:site:localeconfig"
    | _, _ => emit (Render "admin/site/localeconfig/edit.html")
    end) tt.

Definition LocaleConfigDelete_get (e : req) (ID : Z) : Web Cloud unit :=
  need_permission e true "admin" (
    o ← get_row (A := SiteLocaleConfig) ID;
    match o with
    | Some _ => delete_row SiteLocaleConfig ID;; commit;; redirect_next e "admin:site:localeconfig"
    | None => emit (Write "No such locale config")
    end) tt.

Definition RegistrationStatusToggle_get (e : req) : Web Cloud unit :=
  need_permission e true "admin" (
    upsert (λ x, String.eqb (sc_key x) "registration.status")
      (λ x : SiteConfig, x <| sc_value := if String.eqb (sc_value x) "true" then "false" else "true" |>)%string
      (mkSiteConfig "registration.status" "false");;
    commit;;
    emit (Redirect "admin:registration" 0)) tt.

Section config.
Context {TextI : SiteText}.

(** After the redirect the page is rendered too, which fails. *)
Definition DomainEdit_post (e : req) : Web Cloud unit :=
  need_permission e false "admin" (
    let topdomain := text_field e "topdomain" in
    if length_ok 6 120 topdomain then
      set_config "domain" (dumps (JObj
        [("topdomain", JStr topdomain); ("prefix", JStr (text_field e "prefix"));
         ("suffix", JStr (text_field e "suffix"))]%string));;
      commit;;
      emit (Redirect "admin:domain" 0);;
      raise "RuntimeError: finish() called twice"
    else emit (Render "admin/domain/edit.html")) tt.

(** What [prepare] reads of a row of JSON text must be readable; the settings are
    updated with an object. *)
Definition load_config (key : string) (object : bool) : Web Cloud unit :=
  o ← ask (λ s, site_config s key);
  match o with
  | None => mret tt
  | Some v =>
      match loads v with
      | None => raise "ValueError"
      | Some (JObj _) => mret tt
      | Some _ => if object then raise "TypeError" else mret tt
      end
  end.

Definition NginxEdit_post (e : req) : Web Cloud unit :=
  need_permission e false "admin" (
    o ← ask (λ s, site_config s "nginx");
    (if bool_decide (o = Some ""%string) then mret tt else load_config "nginx" true);;
    set_config "nginx" (dumps (JObj
      [("conf_path", JStr (text_field e "conf_path")); ("log_path", JStr (text_field e "log_path"));
       ("nginx", JStr (text_field e "nginx")); ("template", JStr (text_field e "template"))]%string));;
    commit;;
    emit (Render "system/nginx_edit.html")) tt.

Definition QQAuth2Edit_post (e : req) : Web Cloud unit :=
  need_permission e false "admin" (
    load_config "qq.auth2" false;;
    set_config "qq.auth2" (dumps (JObj
      [("app_id", JStr (text_field e "app_id")); ("app_key", JStr (text_field e "app_key"));
       ("redirect_uri", JStr (text_field e "redirect_uri"));
       ("enabled", JBool (bool_field e "enabled"))]%string));;
    commit;;
    emit (Render "system/qqauth2_edit.html")) tt.

(** The table of [LuoYunConfig]. *)
Definition set_lyconfig (key value : string) : Web Cloud unit :=
  upsert (λ x, String.eqb (ly_key x) key) (λ x : LuoYunConfig, x <| ly_value := value |>)
    (mkLuoYunConfig key value).

(** [valid] tells whether every word of the text is an address for IPy. *)
Definition NameserversEdit_post (e : req) (valid : string → bool) : Web Cloud unit :=
  need_permission e false "admin" (
    let text := text_field e "nameservers" in
    (if valid text then set_lyconfig "nameservers" text;; commit else mret tt);;
    emit (Render "system/nameservers_edit.html")) tt.

(** [RegistrationProtocolEdit], [WelcomeNewUserEdit] *)
Definition text_edit (e : req) (key page : string) : Web Cloud unit :=
  need_permission e false "admin" (
    let text := text_field e "text" in
    (if length_ok 6 12000 text then
       set_lyconfig key (dumps (JObj [("text", JStr text); ("html", JStr (markdown text))]%string));;
       commit
     else mret tt);;
    emit (Render page)) tt.

Definition RegistrationProtocolEdit_post (e : req) : Web Cloud unit :=
  text_edit e "protocol" "system/registration_protocol_edit.html".
Definition WelcomeNewUserEdit_post (e : req) : Web Cloud unit :=
  text_edit e "welcome_new_user" "system/welcome_new_user_edit.html".

(** ** The requests *)

Inductive site_request :=
  | SNavAdd | SNavEdit (ID : Z) | SNavDelete (ids : option (list Z))
  | SNavPosition (ids : option (list Z)) | SEntryAdd | SEntryEdit (ID : Z)
  | SEntryDelete (ids : option (list Z)) | SArticleAdd | SArticleEdit (ID : Z)
  | SArticleDelete (ids : option (list Z)) | SConfigEdit | SConfigDelete | SLocaleEdit
  | SLocaleDelete (ID : Z) | SRegistration | SDomain | SNginx | SQQ
  | SNameservers (valid : string → bool) | SProtocol | SWelcome.

Definition site_handler (p : site_request) (e : req) : Web Cloud unit :=
  match p with
  | SNavAdd => NavAdd_post e
  | SNavEdit ID => NavEdit_post e ID
  | SNavDelete ids => ajaxNavDelete_post e ids
  | SNavPosition ids => ajaxNavPositionAdjust_post e ids
  | SEntryAdd => EntryAdd_post e
  | SEntryEdit ID => EntryEdit_post e ID
  | SEntryDelete ids => ajaxEntryDelete_post e ids
  | SArticleAdd => ArticleAdd_post e
  | SArticleEdit ID => ArticleEdit_post e ID
  | SArticleDelete ids => ajaxArticleDelete_post e ids
  | SConfigEdit => ConfigEdit_post e
  | SConfigDelete => ConfigDelete_get e
  | SLocaleEdit => LocaleConfigEdit_post e
  | SLocaleDelete ID => LocaleConfigDelete_get e ID
  | SRegistration => RegistrationStatusToggle_get e
  | SDomain => DomainEdit_post e
  | SNginx => NginxEdit_post e
  | SQQ => QQAuth2Edit_post e
  | SNameservers valid => NameserversEdit_post e valid
  | SProtocol => RegistrationProtocolEdit_post e
  | SWelcome => WelcomeNewUserEdit_post e
  end.
End config.
