(* ===== verification/SiteOk.v ===== *)
(** The tables administrators write keep their keys unique, whatever they send. *)
From Stdlib Require Import Ascii String.
From S2P Require Import Prelude PyText Table Session Cloud Quota InstanceModel Web Forms LifeControl Account SiteContent.
#[local] Open Scope Z_scope.

Definition unique {A K} `{EqDecision K} (key : A → K) (t : table A) : Prop :=
  seq_ok t ∧ keys_distinct key t.

Definition locale_key (x : SiteLocaleConfig) : string * Z := (lc_key x, lc_language_id x).
Definition article_key (A : SiteArticle) : Z * Z := (sa_entry_id A, sa_language_id A).

(** One row for a key of each configuration, one entry for a slug, one article for an
    entry and a language, and no article without its entry. *)
Definition content_ok (s : Cloud) : Prop :=
  unique sc_key (c_siteconfig s) ∧ unique locale_key (c_localeconfig s) ∧
  unique ly_key (c_lyconfig s) ∧ unique se_slug (c_entries s) ∧
  unique article_key (c_articles s) ∧
  ∀ k A, row s k = Some A → is_Some (row (A := SiteEntry) s (sa_entry_id A)).

Definition content (s : Cloud) :=
  (c_siteconfig s, c_localeconfig s, c_lyconfig s, c_entries s, c_articles s).

Lemma content_frozen {A} (m : Web Cloud A) :
  keeps (frozen content) m → keeps (inv_rel content_ok) m.
Proof.
  apply frozen_inv. unfold content_ok, content, row. simpl. by intros s s' [= -> -> -> -> ->].
Qed.
Lemma content_commit : keeps (inv_rel content_ok) commit.
Proof. intros [s c o]. by split. Qed.

(** ** Tables with unique keys *)

Section unique.
Context {A K : Type} `{EqDecision K} (key : A → K).
#[local] Set Default Proof Using "All".

Lemma unique_delete t i : unique key t → unique key (tdelete i t).
Proof.
  intros [Hs Hd]. split; [|by apply keys_delete]. intros j Hj. simpl in *.
  rewrite lookup_delete_None. right. by apply Hs.
Qed.
Lemma unique_insert t x : ¬ has_key key t (key x) → unique key t → unique key (tinsert x t).2.
Proof. intros Hx [Hs Hd]. split; [by apply tinsert_seq_ok|by apply tinsert_fresh]. Qed.
Lemma unique_put t i x :
  is_Some (rows t !! i) → (∀ j y, rows t !! j = Some y → key y = key x → j = i) →
  unique key t → unique key (tput i x t).
Proof. intros Hi Hx [Hs Hd]. split; [by apply tput_seq_ok|by apply keys_put]. Qed.
Lemma unique_same t i x y :
  rows t !! i = Some x → key y = key x → unique key t → unique key (tput i y t).
Proof.
  intros Hi Hx H. apply unique_put; [by eexists| |done]. intros j z Hj E. apply H with z x; [done..|congruence].
Qed.
End unique.

(** [upsert] with a key. *)
Lemma upsert_unique {A K} `{HasTable Cloud A, EqDecision K} (key : A → K) P f y (w : world Cloud) :
  (∀ x, P x = true ↔ key x = key y) → (∀ x, key x = key y → key (f x) = key y) →
  ∃ t, work (upsert P f y w).2 = set_tbl t (work w) ∧ comm (upsert P f y w).2 = comm w ∧
    (unique key (tbl (work w)) → unique key t).
Proof.
  intros HP Hf. unfold upsert. rewrite run_ask.
  destruct (head (select (λ _, P) (work w))) as [[k x]|] eqn:Eh.
  - apply head_select in Eh as [Hx Hk%HP]. rewrite modify_val, Hx. eexists.
    split_and!; [reflexivity|done|]. apply unique_same with x; [done|]. rewrite Hf; congruence.
  - rewrite run_add, ret_val. eexists. split_and!; [reflexivity|done|]. apply unique_insert.
    intros (i & x & Hx & Hk%HP). by rewrite (head_select_none _ _ _ _ Eh Hx) in Hk.
Qed.

Lemma content_upsert {A K} `{HasTable Cloud A, EqDecision K} (key : A → K) P f y :
  (∀ x, P x = true ↔ key x = key y) → (∀ x, key x = key y → key (f x) = key y) →
  (∀ s t, content_ok s → (unique key (tbl s) → unique key t) → content_ok (set_tbl t s)) →
  keeps (inv_rel content_ok) (upsert P f y).
Proof.
  intros HP Hf Hc w Hw Hm. destruct (upsert_unique key P f y w HP Hf) as (t & -> & -> & Ht).
  split; [by apply Hc|done].
Qed.

Lemma content_config key value : keeps (inv_rel content_ok) (set_config key value).
Proof.
  apply (content_upsert sc_key); [intros x; apply String.eqb_eq|done|].
  intros s t (H1 & H2 & H3 & H4 & H5 & H6) Ht. split_and!; [by apply Ht|done..].
Qed.
Lemma content_lyconfig key value : keeps (inv_rel content_ok) (set_lyconfig key value).
Proof.
  apply (content_upsert ly_key); [intros x; apply String.eqb_eq|done|].
  intros s t (H1 & H2 & H3 & H4 & H5 & H6) Ht. split_and!; [done|done|by apply Ht|done..].
Qed.
Lemma content_locale L key value :
  keeps (inv_rel content_ok)
    (upsert (λ x, String.eqb (lc_key x) key && (lc_language_id x =? L))
       (λ x : SiteLocaleConfig, x <| lc_value := value |> <| lc_language_id := L |>)
       (mkSiteLocaleConfig L key value)).
Proof.
  apply (content_upsert locale_key); unfold locale_key.
  - intros [l k v]. simpl. rewrite andb_true_iff, String.eqb_eq, Z.eqb_eq. naive_solver.
  - intros [l k v] [= -> ->]. done.
  - intros s t (H1 & H2 & H3 & H4 & H5 & H6) Ht. split_and!; [done|by apply Ht|done..].
Qed.
Lemma content_toggle :
  keeps (inv_rel content_ok)
    (upsert (λ x, String.eqb (sc_key x) "registration.status")
      (λ x : SiteConfig, x <| sc_value := if String.eqb (sc_value x) "true" then "false" else "true" |>)%string
      (mkSiteConfig "registration.status" "false")).
Proof.
  apply (content_upsert sc_key); [intros x; apply String.eqb_eq|done|].
  intros s t (H1 & H2 & H3 & H4 & H5 & H6) Ht. split_and!; [by apply Ht|done..].
Qed.

(** ** Deletions *)

Lemma content_delete_config k : keeps (inv_rel content_ok) (delete_row SiteConfig k).
Proof.
  intros [s c o] (H1 & H2 & H3 & H4 & H5 & H6) Hc. split; [|done].
  split_and!; [by apply unique_delete|done..].
Qed.
Lemma content_delete_locale k : keeps (inv_rel content_ok) (delete_row SiteLocaleConfig k).
Proof.
  intros [s c o] (H1 & H2 & H3 & H4 & H5 & H6) Hc. split; [|done].
  split_and!; [done|by apply unique_delete|done..].
Qed.
Lemma content_delete_article k : keeps (inv_rel content_ok) (delete_row SiteArticle k).
Proof.
  intros [s c o] (H1 & H2 & H3 & H4 & H5 & H6) Hc. split; [|done].
  split_and!; [done|done|done|done|by apply unique_delete|].
  cbn [delete_row change snd work]. intros j A HA. rewrite row_set_delete in HA. case_decide; [done|]. by apply (H6 j).
Qed.

(** Only entries without articles go. *)
Lemma content_delete_entry k : keeps (inv_rel content_ok)
  (delete_if (A := SiteEntry) (λ s k, Nat.eqb (length (articles_of s k)) 0) k).
Proof.
  intros w Hw Hc. unfold delete_if. rewrite run_get, run_ask.
  destruct (bool_decide _ && _) eqn:E; [|done].
  apply andb_true_iff in E as [_ E%Nat.eqb_eq%length_zero_iff_nil]. split; [|done].
  destruct Hw as (H1 & H2 & H3 & H4 & H5 & H6). cbn [delete_row change snd work].
  split_and!; [done|done|done|by apply unique_delete|done|].
  intros j A HA. rewrite row_delete. case_decide as Ek; [|by apply (H6 j)].
  assert ((j, A) ∈ articles_of (work w) k) as Hin.
  { apply elem_of_select. split; [exact HA|]. by apply Z.eqb_eq. }
  rewrite E in Hin. by apply elem_of_nil in Hin.
Qed.

Ltac content_step :=
  lazymatch goal with
  | |- keeps _ commit => apply content_commit
  | |- keeps _ (set_config _ _) => apply content_config
  | |- keeps _ (set_lyconfig _ _) => apply content_lyconfig
  | |- keeps _ (emit _) => apply content_frozen, frozen_emit
  | |- keeps _ (modify (A := SiteNav) _ _) => apply content_frozen; solve [frozen_auto]
  | |- keeps _ (add_row (A := SiteNav) _) => apply content_frozen; solve [frozen_auto]
  | |- keeps _ (delete_row SiteNav _) => apply content_frozen; solve [frozen_auto]
  | |- keeps _ (delete_row SiteArticle _) => apply content_delete_article
  | |- keeps _ (delete_row SiteConfig _) => apply content_delete_config
  | |- keeps _ (delete_row SiteLocaleConfig _) => apply content_delete_locale
  | |- keeps _ (delete_if (A := SiteEntry) _ _) => apply content_delete_entry
  | |- keeps _ (upsert _ _ _) => first [apply content_locale|apply content_toggle]
  end.
Ltac content_auto := repeat first [content_step | keeps_step].

(** ** Entries and articles *)

Lemma content_entry_add slug s c o :
  content_ok s → entry_by_slug s slug = None → content_ok c →
  let w' := (add_row (mkSiteEntry slug) (mkWorld s c o)).2 in content_ok (work w') ∧ content_ok (comm w').
Proof.
  intros (H1 & H2 & H3 & H4 & H5 & H6) Hn Hc. split; [|done].
  split_and!; [done|done|done| |done|].
  - apply unique_insert; [|done]. intros (k & [x] & Hx & E). simpl in E.
    pose proof (head_select_none _ s k (mkSiteEntry x) Hn Hx) as Hf. simpl in Hf. by rewrite E, String.eqb_refl in Hf.
  - intros k A HA. destruct (H6 k A HA) as [E HE]. exists E. apply row_insert_old; [apply H4|done].
Qed.

Lemma content_entry_edit ID slug s c :
  content_ok s → is_Some (row (A := SiteEntry) s ID) →
  match entry_by_slug s slug with Some (k, _) => negb (k =? ID) | None => false end = false →
  content_ok c →
  let w' := (modify ID (λ _ : SiteEntry, mkSiteEntry slug) (mkWorld s c [])).2 in
  content_ok (work w') ∧ content_ok (comm w').
Proof.
  intros (H1 & H2 & H3 & H4 & H5 & H6) [E HE] Hk Hc. rewrite modify_val. cbn [work comm].
  rewrite HE. split; [|done]. cbn [snd work]. split_and!; [done|done|done| |done|].
  - apply unique_put; [by eexists| |done]. intros j [x] Hx Ex. simpl in Ex. subst x.
    destruct (entry_by_slug s slug) as [[k [y]]|] eqn:Eh.
    + apply head_select in Eh as [Hy Ey%String.eqb_eq]. apply negb_false_iff, Z.eqb_eq in Hk. subst k.
      by eapply H4.
    + pose proof (head_select_none _ s j _ Eh Hx) as Hf. simpl in Hf. by rewrite String.eqb_refl in Hf.
  - intros k A HA. rewrite row_put. case_decide; [by eexists|]. by apply (H6 k).
Qed.

Lemma content_article_edit ID name summary body visible :
  keeps (inv_rel content_ok) (modify ID (λ A : SiteArticle,
    mkSiteArticle (sa_language_id A) (sa_entry_id A) name summary body visible)).
Proof.
  apply keeps_modify; [apply _|]. intros s c o A HA (H1 & H2 & H3 & H4 & H5 & H6) Hc. split; [|done].
  cbn [work] in *. split_and!; [done|done|done|done| |].
  - by apply unique_same with A.
  - intros j B. rewrite row_put. case_decide; [|by apply (H6 j)]. intros [= <-].
    destruct (H6 ID A HA) as [E HE]. by exists E.
Qed.

Lemma content_article_add E L name summary body visible s c o :
  content_ok s → is_Some (row (A := SiteEntry) s E) → article_of s E L = None → content_ok c →
  let w' := (add_row (mkSiteArticle L E name summary body visible) (mkWorld s c o)).2 in
  content_ok (work w') ∧ content_ok (comm w').
Proof.
  intros (H1 & H2 & H3 & H4 & H5 & H6) HE Hn Hc. split; [|done].
  split_and!; [done|done|done|done| |].
  - apply unique_insert; [|done]. intros (k & x & Hx & Ek). unfold article_key in Ek. simpl in Ek.
    injection Ek as E1 E2. pose proof (head_select_none _ s k x Hn Hx) as Hf. simpl in Hf.
    by rewrite E1, E2, !Z.eqb_refl in Hf.
  - cbn [add_row snd work]. intros k A HA. apply row_insert_inv in HA as [[_ ->]|[_ HA]]; [done|].
    by apply (H6 k).
Qed.

(** ** Every request *)

Section requests.
Context {TextI : SiteText}.
#[local] Set Default Proof Using "All".

Lemma content_admin {A} e get (m : Web Cloud A) none s :
  content_ok s → (content_ok s → content_ok (comm (m (start s)).2)) →
  content_ok (comm (need_permission e get "admin" m none (start s)).2).
Proof.
  intros Hs Hm. unfold need_permission. destruct (cur e) as [u|]; [|by destruct get].
  rewrite run_ask. destruct (user_has _ _ _); [by apply Hm|done].
Qed.

Lemma content_keeps {A} e get (m : Web Cloud A) none s :
  content_ok s → keeps (inv_rel content_ok) m →
  content_ok (comm (need_permission e get "admin" m none (start s)).2).
Proof. intros Hs Hm. apply content_admin; [done|]. intros _. by apply (Hm (start s)). Qed.

Lemma content_handler p e s : content_ok s → content_ok (request (site_handler p e) s).1.
Proof.
  intros Hs. rewrite request_fst. destruct p; cbn [site_handler];
    unfold NavAdd_post, NavEdit_post, ajaxNavDelete_post, ajaxNavPositionAdjust_post, EntryAdd_post,
      EntryEdit_post, ajaxEntryDelete_post, ArticleAdd_post, ArticleEdit_post, ajaxArticleDelete_post,
      ajax_each, ConfigEdit_post, ConfigDelete_get, LocaleConfigEdit_post, LocaleConfigDelete_get,
      RegistrationStatusToggle_get, DomainEdit_post, NginxEdit_post, QQAuth2Edit_post, load_config,
      NameserversEdit_post, RegistrationProtocolEdit_post, WelcomeNewUserEdit_post, text_edit,
      redirect_next.
  all: try (apply content_keeps; [done|content_auto; unfold delete_if; content_auto; fail]).
  - apply content_admin; [done|]. intros _. destruct (slug_form e) as [slug|]; [|done].
    rewrite run_ask. change (work (start s)) with s. destruct (entry_by_slug s slug) eqn:E; [done|].
    destruct (content_entry_add slug s s [] Hs E Hs) as [Hw _]. exact Hw.
  - apply content_admin; [done|]. intros _. rewrite run_get. change (work (start s)) with s.
    destruct (row s ID) as [E|] eqn:HE; [|done]. destruct (slug_form e) as [slug|]; [|done].
    rewrite run_ask. change (work (start s)) with s.
    destruct (match entry_by_slug s slug with Some (k, _) => _ | None => _ end) eqn:Ek; [done|].
    destruct (content_entry_edit ID slug s s Hs) as [Hw _]; [by eexists|done|done|].
    rewrite modify_val in Hw. rewrite run_modify. cbn [work comm start] in *. by rewrite HE in *.
  - apply content_admin; [done|]. intros _. rewrite !run_ask. change (work (start s)) with s.
    destruct (_ || _); [done|]. destruct (article_fields e) as [[[[name summary] body] v]|]; [|done].
    rewrite !run_get. change (work (start s)) with s.
    destruct (row s (get_int (select_field e "entry"))) as [E|] eqn:HE; [|done].
    destruct (row s (get_int (select_field e "language"))) as [L|]; [|done].
    rewrite run_ask. change (work (start s)) with s. destruct (article_of s _ _) eqn:Ea; [done|].
    edestruct content_article_add as [Hw _]; [exact Hs|by eexists|exact Ea|exact Hs|]. exact Hw.
  - apply content_keeps; [done|]. content_auto. apply content_article_edit.
Qed.

(** Whatever is sent to the pages of the site's content, each configuration keeps
    one row for a key (and language), entries keep distinct slugs, there is at most one
    article for an entry and a language, and every article has its entry. *)
Theorem site_content_ok p e s : content_ok s → content_ok (request (site_handler p e) s).1.
Proof. apply content_handler. Qed.
End requests.

#[local] Instance demo_text : SiteText :=
  {| dumps _ := "{}"%string; loads _ := Some (JObj []); markdown t := t |}.

(** Two entries, the first with an article in English. *)
Definition site_cloud : Cloud :=
  life_cloud
    <| c_languages := table_of [mkLanguage "English" "en_US"] |>
    <| c_entries := table_of [mkSiteEntry "about"; mkSiteEntry "empty"] |>
    <| c_articles := table_of [mkSiteArticle 1 1 "About" "" "" true] |>
    <| c_siteconfig := table_of [mkSiteConfig "domain" "{}"] |>.

Definition site_req (l : list (string * string)) : req := rq (life_env 2 l).

(** Deleting both entries leaves the one with the article; a second article for it is
    refused, and so is a slug that is taken. *)
Example entries_deleted :
  (λ k, is_Some (row (A := SiteEntry)
    (request (site_handler (SEntryDelete (Some [1; 2])) (site_req [])) site_cloud).1 k)) 1 ∧
  row (A := SiteEntry)
    (request (site_handler (SEntryDelete (Some [1; 2])) (site_req [])) site_cloud).1 2 = None ∧
  c_articles (request (site_handler SArticleAdd (site_req
    [("entry", "1"); ("language", "1"); ("name", "Again")]%string)) site_cloud).1 = c_articles site_cloud ∧
  c_entries (request (site_handler (SEntryEdit 2) (site_req [("slug", "about")]%string)) site_cloud).1 =
    c_entries site_cloud.
Proof. vm_compute. split_and!; [by eexists|done..]. Qed.

Lemma site_content_ok_witness :
  content_ok (request (site_handler (SEntryDelete (Some [1; 2])) (site_req [])) site_cloud).1.
Proof.
  apply (site_content_ok (SEntryDelete (Some [1; 2])) (site_req [])).
  assert (∀ {A K} `{EqDecision K} (key : A → K) (l : list A),
    bool_decide (map_Forall (λ i x, map_Forall (λ j y, key x = key y → i = j)
      (rows (table_of l))) (rows (table_of l))) = true → unique key (table_of l)) as Hu.
  { intros A K HK key l H%bool_decide_eq_true. split; [exact (table_of_seq_ok l)|].
    intros i j x y Hx Hy. exact (H i x Hx j y Hy). }
  split_and!.
  - apply Hu. vm_compute. reflexivity.
  - apply (Hu _ _ _ _ []). reflexivity.
  - apply (Hu _ _ _ _ []). reflexivity.
  - apply Hu. vm_compute. reflexivity.
  - apply Hu. vm_compute. reflexivity.
  - assert (map_Forall (λ _ A, is_Some (row (A := SiteEntry) site_cloud (sa_entry_id A)))
      (rows (c_articles site_cloud))) as H
      by (apply (bool_decide_unpack _); vm_compute; exact Logic.I).
    intros k A HA. exact (H k A HA).
Defined.
