(* ===== verification/OpsAdmin.v ===== *)
(** Nodes and jobs (src/lyweb/app/node/views.py, app/job/views.py), and what
    administrators see and do about instances and users in app/admin/views.py,
    app/admin/instance_views.py and app/account/admin_views.py. *)
From Stdlib Require Import Ascii String.
From S2P Require Import Prelude PyText Table Session Cloud Quota JobModel InstanceModel Web Forms LifeControl Account AppStore.
#[local] Open Scope Z_scope.

Definition UPDATE_NODE := 104.

(** ** Nodes *)

(** [Action.get]: anybody who is logged in may send it. *)
Definition Action_get (e : req) (id : Z) : Web Cloud unit :=
  authenticated e true (λ u,
    let action := default 0 (get_argument_int e "action" (Some 0)) in
    o ← get_row (A := Node) id;
    match o with
    | None => emit (Write "No such node!")
    | Some N =>
        let go (action_id : Z) : Web Cloud unit :=
          job ← add_row (new_job u JOB_TARGET_NODE id action_id (now e));
          commit;;
          job_notify e job;;
          emit (Write "Action success !") in
        if action =? 0 then emit (Write "No action specified") else
        if action =? 1 then
          if n_isenable N then emit (Write "Already enable !") else go ENABLE_NODE
        else if action =? 2 then
          if negb (n_isenable N) then emit (Write "Already disable !") else go DISABLE_NODE
        else emit (Write "Unknow action!")
    end) tt.

(** The job stays initiated when the controller does not listen. *)
Definition isenableToggle_get (e : req) (id : Z) : Web Cloud unit :=
  need_permission e true "admin" (
    o ← get_row (A := Node) id;
    match o, cur e with
    | Some N, Some u =>
        job ← add_row (new_job u JOB_TARGET_NODE id
                 (if n_isenable N then DISABLE_NODE else ENABLE_NODE) (now e));
        commit;;
        try_except (
          job_notify e job;;
          modify id (λ N : Node, N <| n_isenable := negb (n_isenable N) |>);;
          commit)
        (emit (Write "Run job failed"))
    | _, _ => emit (Write "Can not find node")
    end) tt.

(** [NodeEditForm]: the memory in GB and the number of CPUs. *)
Definition node_form (e : req) : option (Z * Z) :=
  let vmemory := int_field e "vmemory" None in
  let vcpus := int_field e "vcpus" None in
  if in_range 1 1024 vmemory && in_range 1 1024 vcpus
  then m ← vmemory; c ← vcpus; Some (m, c) else None.

Definition NodeEdit_post (e : req) (id : Z) : Web Cloud unit :=
  need_permission e false "admin" (
    o ← get_row (A := Node) id;
    match o, cur e with
    | Some _, Some u =>
        match node_form e with
        | None => emit (Render "node/edit.html")
        | Some (m, c) =>
            modify id (λ N : Node, N <| n_vmemory := Some (m * 1024 * 1024) |> <| n_vcpus := Some c |>);;
            job ← add_row (new_job u JOB_TARGET_NODE id UPDATE_NODE (now e));
            commit;;
            try_except (job_notify e job;; emit (Redirect "admin:node" 0))
              (emit (Render "node/edit.html"))
        end
    | _, _ => emit (Write "Can not find node")
    end) tt.

Inductive node_request := NAction (id : Z) | NToggle (id : Z) | NEdit (id : Z).

Definition node_handler (p : node_request) (e : req) : Web Cloud unit :=
  match p with
  | NAction id => Action_get e id
  | NToggle id => isenableToggle_get e id
  | NEdit id => NodeEdit_post e id
  end.

Definition node_of (p : node_request) : Z :=
  match p with NAction id | NToggle id | NEdit id => id end.

(** ** The state of a job *)

(** One check: answer with a code, or look again in three seconds. *)
Inductive check := Again (previous : Z) | Reply (code status : Z).

Definition check_job_status (status previous : Z) : check :=
  if (300 <=? status) && (status <=? 399) then Reply 0 status
  else if status =? previous then Again status
  else Reply 1 status.

(** [JobStatus.get], where the check [k] finds the state [status k]: the number of the
    check that answers, with the answer. The client stays connected. *)
Fixpoint JobStatus_get (fuel : nat) (status : nat → Z) (k : nat) (previous : Z) :
    option (nat * (Z * Z)) :=
  match fuel with
  | 0%nat => None
  | Datatypes.S fuel =>
      match check_job_status (status k) previous with
      | Reply code st => Some (k, (code, st))
      | Again previous => JobStatus_get fuel status (Datatypes.S k) previous
      end
  end.

(** What the client waits for. *)
Definition news (previous status : Z) : bool :=
  ((300 <=? status) && (status <=? 399)) || negb (status =? previous).

(** ** The start page of the administration *)

Record system_data := mkSystemData {
  TOTAL_CPU : Z; TOTAL_MEMORY : Z; USED_CPU : Z; USED_MEMORY : Z }.

Definition _get_data (s : Cloud) : system_data :=
  let nodes := select (λ _ N, n_isenable N) s in
  let insts := select (λ _ x, bool_decide (i_status x ∈ [3; 4; 5])) s in
  mkSystemData
    (foldl (λ t p, t + default 0 (n_vcpus p.2)) 0 nodes)
    (foldl (λ t p, t + default 0 (n_vmemory p.2)) 0 nodes)
    (foldl (λ t p, t + i_cpus p.2) 0 insts)
    (foldl (λ t p, t + i_memory p.2 * 1024) 0 insts).

(** ** Instances and mail *)

(** [change_owner] with the method POST: no user is [None.username], no instance
    [None.user], and the text of the trace has a wrong format: it always raises. *)
Definition change_owner_post (e : req) (o : option (Z * Instance)) : Web Cloud unit :=
  let user := get_argument e "user" "" in
  U ← (if String.eqb user "" then mret None else ask (λ s, user_named s user));
  match o with
  | None => raise "AttributeError: NoneType"
  | Some (_, x) =>
      _ ← fetch (A := User) (i_user_id x);
      match U with
      | None => raise "AttributeError: NoneType"
      | Some _ => raise "ValueError: incomplete format"
      end
  end.

(** The handler has no [new_job]. *)
Definition get_control_all (start_all : bool) : Web Cloud unit :=
  l ← ask (select (λ _ x, if start_all then i_status x =? 2 else negb (i_status x =? 2)));
  match l with
  | _ :: _ => raise "AttributeError: new_job"
  | [] => emit (Write "action all instance success")
  end.

Definition InstanceManagement (e : req) (post : bool) : Web Cloud unit :=
  need_permission e (negb post) "admin" (
    let action := get_argument e "action" "index" in
    let ID := get_argument e "id" "" in
    o ← (if String.eqb ID "" then mret None else get_text (A := Instance) ID);
    if negb (String.eqb ID "") && bool_decide (o = None) then emit (Write "No such instance") else
    if post && String.eqb action "" then emit (Write "No action found !") else
    if String.eqb action "change_owner" then
      if post then change_owner_post e o else emit (Render "admin/instance/change_owner.html")
    else if negb post && String.eqb action "stop_all" then get_control_all false
    else if negb post && String.eqb action "start_all" then get_control_all true
    else emit (Write "Wrong action value!")) tt.

(** The users of [MailTo.prepare], each with an address that was confirmed. *)
Fixpoint mail_users (ids : list string) : Web Cloud (list Z) :=
  match ids with
  | [] => mret []
  | x :: ids =>
      let x := strip x in
      if String.eqb x "" then mail_users ids else
      o ← get_text (A := User) x;
      l ← mail_users ids;
      match o with
      | Some (u, U) =>
          if bool_decide (is_Some (u_email U)) && negb (bool_decide (u_email U = Some ""%string)) &&
             u_email_valid U
          then mret (u :: l) else mret l
      | None => mret l
      end
  end.

(** One message names all of them. *)
Definition MailTo_post (e : req) : Web Cloud (list Z) :=
  need_permission e false "admin" (
    l ← mail_users (split_on "," (get_argument e "user" ""));
    if length_ok 6 12000 (text_field e "body") then
      (if clc_up e then emit (SendMsg "mailto.userlist" 0) else mret tt);;
      redirect_next e "admin:site:job";;
      mret l
    else emit (Render "admin/account/mailto.html");; mret []) [].

(** ** What a request about nodes does *)

(** The jobs it may create for the node [N] in the name of [u]. *)
Definition node_action_ok (s : Cloud) (u : Z) (N : Node) (action : Z) : Prop :=
  action = ENABLE_NODE ∧ n_isenable N = false ∨
  action = DISABLE_NODE ∧ n_isenable N = true ∨
  action = UPDATE_NODE ∧ user_has s "admin" u = true.

(** How administrators change a node: enabled or not, or 1 to 1024 GB (in KB) and 1 to
    1024 CPUs. *)
Definition node_changed (N N' : Node) : Prop :=
  N' = N <| n_isenable := negb (n_isenable N) |> ∨
  ∃ m c, 1 ≤ m ≤ 1024 ∧ 1 ≤ c ≤ 1024 ∧
    N' = N <| n_vmemory := Some (m * 1024 * 1024) |> <| n_vcpus := Some c |>.

Definition node_step (p : node_request) (e : req) (s s' : Cloud) : Prop :=
  let id := node_of p in
  s' = s ∨
  ∃ u N action, cur e = Some u ∧ row s id = Some N ∧ node_action_ok s u N action ∧
    c_jobs s' = (tinsert (new_job u JOB_TARGET_NODE id action (now e)) (c_jobs s)).2 ∧
    (c_nodes s' = c_nodes s ∨
     user_has s "admin" u = true ∧ ∃ N', node_changed N N' ∧ c_nodes s' = tput id N' (c_nodes s)).

Lemma node_form_range e m c : node_form e = Some (m, c) → 1 ≤ m ≤ 1024 ∧ 1 ≤ c ≤ 1024.
Proof.
  unfold node_form. destruct (_ && _) eqn:E; [|done].
  destruct (int_field e "vmemory" None) as [m'|]; [|done].
  destruct (int_field e "vcpus" None) as [c'|]; [|by rewrite andb_false_r in E].
  intros [= <- <-]. unfold in_range in E. lia.
Qed.

Lemma node_action e id s : node_step (NAction id) e s (request (Action_get e id) s).1.
Proof.
  rewrite request_fst. unfold Action_get, authenticated, job_notify.
  destruct (cur e) as [u|] eqn:Hu; [|by left]. rewrite run_get. change (work (start s)) with s.
  destruct (row s id) as [N|] eqn:HN; [|by left].
  destruct (_ =? 0); [by left|]. destruct (_ =? 1).
  - destruct (n_isenable N) eqn:En; [by left|]. right. exists u, N, ENABLE_NODE.
    split_and!; [done|done|by left|..]; rewrite run_add, run_commit; destruct (notify_ok e);
      web_run; first [done|by left].
  - destruct (_ =? 2); [|by left]. destruct (n_isenable N) eqn:En; [|by left].
    right. exists u, N, DISABLE_NODE.
    split_and!; [done|done|by right; left|..]; cbn [negb]; rewrite run_add, run_commit; destruct (notify_ok e);
      web_run; first [done|by left].
Qed.

Lemma node_toggle e id s : node_step (NToggle id) e s (request (isenableToggle_get e id) s).1.
Proof.
  rewrite request_fst. unfold isenableToggle_get, need_permission, job_notify.
  destruct (cur e) as [u|] eqn:Hu; [|by left]. rewrite run_ask. change (work (start s)) with s.
  destruct (user_has s "admin" u) eqn:Ha; [|by left]. rewrite run_get. change (work (start s)) with s.
  destruct (row s id) as [N|] eqn:HN; [|by left]. right.
  exists u, N, (if n_isenable N then DISABLE_NODE else ENABLE_NODE).
  split_and!; [done|done|destruct (n_isenable N) eqn:En; [by right; left|by left]|..];
    rewrite run_add, run_commit; cbn [work comm outs start];
    destruct (notify_ok e); unfold try_except; web_run; rewrite ?row_other; change (work (start s)) with s;
    rewrite ?HN; web_run; [done|done|right|by left].
  split; [done|]. eexists. split; [by left|]. done.
Qed.

Lemma node_edit e id s : node_step (NEdit id) e s (request (NodeEdit_post e id) s).1.
Proof.
  rewrite request_fst. unfold NodeEdit_post, need_permission, job_notify.
  destruct (cur e) as [u|] eqn:Hu; [|by left]. rewrite run_ask. change (work (start s)) with s.
  destruct (user_has s "admin" u) eqn:Ha; [|by left]. rewrite run_get. change (work (start s)) with s.
  destruct (row s id) as [N|] eqn:HN; [|by left].
  destruct (node_form e) as [[m c]|] eqn:Hf; [|by left]. right. exists u, N, UPDATE_NODE.
  apply node_form_range in Hf.
  split_and!; [done|done|by right; right|..];
    rewrite run_modify; change (work (start s)) with s; rewrite HN, run_add, run_commit;
    cbn [work comm outs start]; destruct (notify_ok e); unfold try_except; web_run; [done|done|right..].
  all: split; [done|]; eexists; split; [right; exists m, c; by destruct Hf|done].
Qed.

(** A request about a node changes nothing, or leaves one job for that node in the
    name of its sender: to enable it when it is disabled, to disable it when it is enabled
    (any user may), or to update it; the node itself is changed by administrators only,
    and its memory and CPUs are then within the limits of the form. *)
Theorem node_requests p e s : node_step p e s (request (node_handler p e) s).1.
Proof.
  destruct p as [id|id|id]; [exact (node_action e id s)|exact (node_toggle e id s)|exact (node_edit e id s)].
Qed.

(** ** Sizes of columns *)

(** What an [Integer] column holds. *)
Definition fits (o : option Z) : Prop := match o with Some n => -2^31 ≤ n < 2^31 | None => True end.
Definition nodes_fit (s : Cloud) : Prop :=
  ∀ k N, row s k = Some N → fits (n_vmemory N) ∧ fits (n_vcpus N).

(** The memory in KB and the number of CPUs an administrator gives a node fit
    their 32-bit columns, so no request about nodes overflows one. *)
Theorem nodes_fit_kept p e s : nodes_fit s → nodes_fit (request (node_handler p e) s).1.
Proof.
  intros Hf. assert (node_step p e s (request (node_handler p e) s).1) as H.
  { destruct p as [id|id|id]; [exact (node_action e id s)|exact (node_toggle e id s)|exact (node_edit e id s)]. }
  destruct H as [->|(u & N & action & _ & HN & _ & _ & [E|(_ & N' & HN' & E)])]; [done|..];
    intros k X HX; unfold row in HX; simpl in HX; rewrite E in HX; [by apply (Hf k)|].
  simpl in HX. apply lookup_insert_Some in HX as [[<- <-]|[_ HX]]; [|by apply (Hf k)].
  destruct (Hf _ N HN) as [F1 F2]. destruct HN' as [->|(m & c & Hm & Hc & ->)]; [done|].
  simpl. split; lia.
Qed.

Definition node_cloud : Cloud :=
  life_cloud <| c_nodes := table_of [mkNode "10.0.0.1" true 1 None None] |>.
Definition node_req (u : Z) (l : list (string * string)) : req := rq (life_env u l).

(** A user who owns nothing has the node disabled; only an administrator sizes it. *)
Example node_disabled :
  (λ j, (j_user_id j, j_action j)) <$>
    row (request (node_handler (NAction 1) (node_req 1 [("action", "2")]%string)) node_cloud).1 1 =
    Some (1, DISABLE_NODE) ∧
  (λ u, n_vmemory <$> row (request (node_handler (NEdit 1)
    (node_req u [("vmemory", "1024"); ("vcpus", "8")]%string)) node_cloud).1 1) <$> [1; 2] =
    [Some None; Some (Some (2 ^ 30))].
Proof. vm_compute. split; reflexivity. Qed.

Lemma nodes_fit_kept_witness :
  nodes_fit (request (node_handler (NEdit 1)
    (node_req 2 [("vmemory", "1024"); ("vcpus", "8")]%string)) node_cloud).1.
Proof.
  apply (nodes_fit_kept (NEdit 1) (node_req 2 [("vmemory", "1024"); ("vcpus", "8")]%string)).
  intros k N HN. apply table_of_one in HN as [-> ->]. done.
Defined.

(** ** Waiting for a job *)

Lemma check_news previous st :
  check_job_status st previous =
  if news previous st then Reply (if (300 <=? st) && (st <=? 399) then 0 else 1) st else Again previous.
Proof.
  unfold check_job_status, news. destruct (_ && _); [done|]. simpl.
  destruct (Z.eqb_spec st previous) as [->|]; done.
Qed.

Definition answer_code (st : Z) : Z := if (300 <=? st) && (st <=? 399) then 0 else 1.

Lemma job_polls n status previous : ∀ fuel k,
  (n < fuel)%nat → (∀ i, (k ≤ i < k + n)%nat → news previous (status i) = false) →
  news previous (status (k + n)%nat) = true →
  JobStatus_get fuel status k previous =
    Some ((k + n)%nat, (answer_code (status (k + n)%nat), status (k + n)%nat)).
Proof.
  induction n as [|n IH]; intros [|fuel] k Hf Hold Hnew; try lia; simpl; rewrite check_news.
  - rewrite Nat.add_0_r in *. by rewrite Hnew.
  - rewrite Hold by lia. replace (k + Datatypes.S n)%nat with (Datatypes.S k + n)%nat in * by lia.
    apply IH; [lia| |done]. intros i Hi. apply Hold. lia.
Qed.

(** A client that waits for a job is answered: the first check that finds the job
    failed or done, or in another state than the client knows, answers with that state,
    and no check before it does. *)
Theorem job_status_answers status previous n :
  (∀ i, (i < n)%nat → news previous (status i) = false) → news previous (status n) = true →
  ∀ fuel, (n < fuel)%nat →
    JobStatus_get fuel status 0 previous = Some (n, (answer_code (status n), status n)).
Proof.
  intros Hold Hnew fuel Hf. apply (job_polls n status previous fuel 0); [done| |done].
  intros i Hi. apply Hold. lia.
Qed.

(** The job is found running twice, then done. *)
Lemma job_status_answers_witness :
  JobStatus_get 3 (λ k, if (k <? 2)%nat then 200 else 300) 0 200 = Some (2%nat, (0, 300)).
Proof.
  apply (job_status_answers (λ k, if (k <? 2)%nat then 200 else 300) 200 2).
  - intros i Hi. destruct (Nat.ltb_spec i 2); [reflexivity|lia].
  - reflexivity.
  - lia.
Defined.
