(* ===== verification/Lists.v ===== *)
(** The pages that list rows: a query with its conditions, an ORDER BY taken from
    the request, a slice of it and the links of [Pages]. Times of creation and
    change are no columns of the model, and a text column is ordered by the
    collation of the database: the rank of a row under the text of an ORDER BY
    is an interface ([Ranks]). Rows of one rank come in any order, which need not be
    the same for the next request ([Ties]). *)
From Stdlib Require Import Ascii String.
From S2P Require Import Prelude PyText Table Session Cloud Quota Web Forms Pages.
#[local] Open Scope Z_scope.

(** ** LIKE *)

(** SQL's [LIKE]: any text for a percent sign, one character for an underscore, the next
    character itself after a backslash. *)
Fixpoint like (p : list ascii) : list ascii → bool :=
  match p with
  | [] => λ s, match s with [] => true | _ => false end
  | c :: p' =>
      if Ascii.eqb c "%" then
        fix any (s : list ascii) : bool :=
          like p' s || match s with [] => false | _ :: s' => any s' end
      else if Ascii.eqb c "_" then
        λ s, match s with [] => false | _ :: s' => like p' s' end
      else if Ascii.eqb c "\" then
        match p' with
        | [] => λ _, false
        | d :: p'' => λ s, match s with [] => false | x :: s' => Ascii.eqb x d && like p'' s' end
        end
      else λ s, match s with [] => false | x :: s' => Ascii.eqb x c && like p' s' end
  end.

(** [column.like('%' + search + '%')] *)
Definition contains (search s : string) : bool :=
  like ("%"%char :: list_ascii_of_string search ++ ["%"%char]) (list_ascii_of_string s).

(** ** A list and its pages *)

(** [lq_count] are the conditions of the rows that are counted for the links,
    [lq_by] and [lq_desc] the text of the ORDER BY and its direction. *)
Record list_query (A : Type) := mkQuery {
  lq_where : Z → A → bool; lq_count : Z → A → bool;
  lq_by : string; lq_desc : bool; lq_size : Z; lq_page : Z }.
#[global] Arguments mkQuery {A} _ _ _ _ _ _.
#[global] Arguments lq_where {A} _ _ _.
#[global] Arguments lq_count {A} _ _ _.
#[global] Arguments lq_by {A} _.
#[global] Arguments lq_desc {A} _.
#[global] Arguments lq_size {A} _.
#[global] Arguments lq_page {A} _.

Class Ranks := rank : ∀ A : Type, string → Z → A → Z.

(** Where the database puts a row, by its id, among rows that are equal for the ORDER BY:
    SQL promises nothing about it, so each request has its own. *)
Class Ties := tie : Z → Z.

(** [query.slice((page - 1) * size, page * size)]: the database refuses a negative OFFSET
    or LIMIT. *)
Definition slice {A} (size page : Z) (l : list A) : option (list A) :=
  let start := (page - 1) * size in
  if (start <? 0) || (size <? 0) then None
  else Some (take (Z.to_nat size) (drop (Z.to_nat start) l)).

Section lists.
Context {RI : Ranks}.

(** What the ORDER BY compares. *)
Definition sort_key {A} (by_ : string) (p : Z * A) : Z :=
  if String.eqb by_ "id" then p.1 else rank A by_ p.1 p.2.

Section requests.
Context {TI : Ties}.

Definition in_order {A} (by_ : string) (down : bool) (p q : Z * A) : Prop :=
  let a := sort_key by_ p in
  let b := sort_key by_ q in
  (if down then b < a else a < b) ∨ (a = b ∧ tie p.1 ≤ tie q.1).
#[export] Instance in_order_dec {A} b d (p q : Z * A) : Decision (in_order b d p q).
Proof. unfold in_order. destruct d; apply _. Defined.

Definition ordered {A} `{HasTable Cloud A} (q : list_query A) (s : Cloud) : list (Z * A) :=
  merge_sort (in_order (lq_by q) (lq_desc q)) (select (lq_where q) s).
(** A query without an ORDER BY. *)
Definition tie_order {A} (p q : Z * A) : Prop := tie p.1 ≤ tie q.1.
#[export] Instance tie_order_dec {A} (p q : Z * A) : Decision (tie_order p q).
Proof. unfold tie_order. apply _. Defined.
Definition any_order {A} (l : list (Z * A)) : list (Z * A) := merge_sort tie_order l.
Definition list_total {A} `{HasTable Cloud A} (q : list_query A) (s : Cloud) : Z :=
  Z.of_nat (length (select (A := A) (lq_count q) s)).

(** The rows of the page and the links under it; 0 rows on a page is a division by zero. *)
Definition show_list {A} `{HasTable Cloud A} (template : string) (q : list_query A) :
    Web Cloud (list (Z * A)) :=
  l ← ask (λ s, slice (lq_size q) (lq_page q) (ordered q s));
  n ← ask (list_total q);
  match l, pagination n (lq_size q) (lq_page q) with
  | None, _ => raise "DataError"
  | _, None => raise "ZeroDivisionError"
  | Some l, Some _ => emit (Render template);; mret l
  end.

Definition int_arg (e : req) (key : string) (def : Z) : Z :=
  default def (get_argument_int e key (Some def)).

(** A query whose rows are those that are counted, with the page of the request; [ps] is
    the name of the argument with the size of a page. *)
Definition paged {A} (e : req) (ps : string) (size : Z) (P : Z → A → bool) (by_ : string) (down : bool) :
    list_query A :=
  mkQuery P P by_ down (int_arg e ps size) (int_arg e "p" 1).

(** [if by not in names: by = 'id'] *)
Definition one_of (names : list string) (def by_ : string) : string :=
  if bool_decide (by_ ∈ names) then by_ else def.

Definition order_arg (e : req) : bool := negb (int_arg e "order" 1 =? 0).
Definition sort_arg (e : req) (def yes : string) : bool := String.eqb (get_argument e "sort" def) yes.

(** ** Instances *)

Definition INSTANCE_SLIST_ALL : list Z := [1; 2; 3; 4; 5].
Definition INSTANCE_SLIST_RUNING : list Z := [3; 4; 5].
Definition INSTANCE_SLIST_STOPED : list Z := [1; 2].

Definition status_list (status : string) : list Z :=
  if String.eqb status "running" then INSTANCE_SLIST_RUNING
  else if String.eqb status "stoped" then INSTANCE_SLIST_STOPED
  else INSTANCE_SLIST_ALL.

(** [view == 'self'] keeps the instances of the current user. *)
Definition view_self (c : option Z) (view : string) (x : Instance) : bool :=
  match c with
  | Some u => if String.eqb view "self" then i_user_id x =? u else true
  | None => true
  end.

(** instance/views.py *)
Definition Index_instance (e : req) : Web Cloud (list (Z * Instance)) :=
  let view := get_argument e "view" "all" in
  let status := get_argument e "status" "running" in
  let by_ := get_argument e "by" "updated" in
  show_list "instance/index.html"
    (paged e "sepa" 24 (λ _ x, negb (i_isprivate x) && bool_decide (i_status x ∈ status_list status) &&
                               view_self (cur e) view x)
       (if String.eqb by_ "created" then "created" else if String.eqb by_ "user" then "user_id" else "updated")
       (order_arg e)).

(** appliance/views.py: the instances made from an appliance. *)
Definition View_instances (e : req) (a : Z) : Web Cloud (list (Z * Instance)) :=
  let view := get_argument e "view" "all" in
  let status := get_argument e "status" "all" in
  let by_ := get_argument e "by" "updated" in
  show_list "appliance/view.html"
    (paged e "sepa" 10 (λ _ x, negb (i_isprivate x) && bool_decide (i_status x ∈ status_list status) &&
                               (i_appliance_id x =? a) && view_self (cur e) view x)
       (if String.eqb by_ "created" then "created" else "updated") (sort_arg e "desc" "desc")).

(** myun/instance/views.py: a relationship has no column to order by. *)
Definition Index_myun_instance (e : req) : Web Cloud (list (Z * Instance)) :=
  authenticated e true (λ u,
    let status := get_argument e "status" "all" in
    let by_ := get_argument e "by" "id" in
    if String.eqb by_ "username" then raise "AttributeError: username" else
    show_list "myun/instance/index.html"
      (paged e "sepa" 24
         (λ _ x, (if String.eqb status "running" then bool_decide (i_status x ∈ INSTANCE_SLIST_RUNING)
                  else if String.eqb status "stoped" then bool_decide (i_status x ∈ INSTANCE_SLIST_STOPED)
                  else negb (i_status x =? INSTANCE_DELETED_STATUS)) && (i_user_id x =? u))
         (if String.eqb by_ "created" then "created" else "id") (sort_arg e "desc" "desc"))) [].

(** [INSTANCE_HUMAN_STATUS] *)
Definition human_status (status : string) : option (list Z) :=
  if String.eqb status "stoped" then Some [1; 2]
  else if String.eqb status "running" then Some [3; 4; 5]
  else if String.eqb status "suspend" then Some [9]
  else if String.eqb status "query" then Some [0; 245; 255]
  else if String.eqb status "deleted" then Some [INSTANCE_DELETED_STATUS]
  else None.

Definition instance_columns : list string :=
  ["created"; "updated"; "node_id"; "user_id"; "appliance_id"; "status"; "name"; "id"; "tx"; "rx";
   "bandwidth"; "extendsize"; "memory"; "cpus"; "islocked"; "isprivate"; "like"; "unlike"; "visit"]%string.

(** The user of an instance is in a group. *)
Definition owner_in_group (s : Cloud) (g : Z) (x : Instance) : bool :=
  match row (A := User) s (i_user_id x) with
  | Some U => bool_decide (g ∈ u_groups U)
  | None => false
  end.

(** admin/instance_views.py: only a login is asked for. *)
Definition Index_admin_instance (e : req) : Web Cloud (list (Z * Instance)) :=
  authenticated e true (λ _,
    let search := get_argument e "search" "" in
    let g := int_arg e "user_group" (-1) in
    let uid := int_arg e "uid" 0 in
    let aid := int_arg e "aid" 0 in
    let nid := int_arg e "node" 0 in
    if (128 <? Z.of_nat (String.length search)) then emit (Write "Too long search text.");; mret [] else
    s ← ask id;
    let sid := get_int search in
    let found (k : Z) (x : Instance) :=
      if String.eqb search "" then true
      else contains (lower search) (lower (i_name x)) || (negb (sid =? 0) && (k =? sid)) in
    let in_state (x : Instance) :=
      match human_status (get_argument e "status" "running") with
      | Some l => bool_decide (i_status x ∈ l)
      | None => negb (i_status x =? INSTANCE_DELETED_STATUS)
      end in
    let of_user (x : Instance) :=
      if (g <=? 0) && negb (uid =? 0) && bool_decide (is_Some (row (A := User) s uid))
      then i_user_id x =? uid else true in
    let of_appliance (x : Instance) :=
      if bool_decide (is_Some (row (A := Appliance) s aid)) then i_appliance_id x =? aid else true in
    let on_node (x : Instance) :=
      if negb (nid =? 0) && bool_decide (is_Some (row (A := Node) s nid))
      then bool_decide (i_node_id x = Some nid) else true in
    let of_group (x : Instance) :=
      if (0 <? g) && bool_decide (is_Some (row (A := Group) s g)) then owner_in_group s g x else true in
    show_list "admin/instance/index.html"
      (paged e "sepa" 50
         (λ k x, found k x && in_state x && of_user x && of_appliance x && on_node x && of_group x)
         (one_of instance_columns "id" (get_argument e "by" "id")) (sort_arg e "DESC" "DESC"))) [].

(** api/views.py: nothing is ordered; an empty list is an error. *)
Definition MyInstanceList_post (e : req) : Web Cloud (list (Z * Instance)) :=
  match cur e with
  | None => emit (WriteCode 1 "Requires authentication");; mret []
  | Some u =>
      let P (_ : Z) (x : Instance) := i_user_id x =? u in
      l ← ask (λ s, any_order (select P s));
      match l with
      | [] => emit (WriteCode 1 "No instances found");; mret []
      | _ =>
          match slice (int_arg e "sepa" 50) (int_arg e "p" 1) l with
          | None => raise "DataError"
          | Some l => emit (WriteCode 0 "List instances");; mret l
          end
      end
  end.

(** ** Appliances *)

(** appliance/views.py: the text of the ORDER BY is the argument. *)
Definition Index_appliance (e : req) : Web Cloud (list (Z * Appliance)) :=
  let c := int_arg e "c" 0 in
  show_list "appliance/index.html"
    (paged e "sepa" 24
       (λ _ x, negb (a_isprivate x) && (if c =? 0 then true else bool_decide (a_catalog_id x = Some c)))
       (get_argument e "by" "updated") (sort_arg e "DESC" "DESC")).

(** myun/appliance/views.py, with the same text. *)
Definition Index_myun_appliance (e : req) : Web Cloud (list (Z * Appliance)) :=
  authenticated e true (λ u,
    show_list "myun/appliance/index.html"
      (paged e "sepa" 10 (λ _ x, a_user_id x =? u) (get_argument e "by" "id") (sort_arg e "ASC" "DESC"))) [].

Definition appliance_columns : list string :=
  ["name"; "created"; "updated"; "id"; "os"; "disksize"; "user_id"; "catalog_id"; "filesize";
   "islocked"; "isprivate"; "like"; "unlike"; "visit"]%string.

(** admin/appliance_views.py; the number of the user is the text of the argument. *)
Definition Index_admin_appliance (e : req) : Web Cloud (list (Z * Appliance)) :=
  need_permission e true "admin" (
    let c := int_arg e "catalog" 0 in
    U ← get_text (A := User) (get_argument e "uid" "0");
    s ← ask id;
    show_list "admin/appliance/index.html"
      (paged e "sepa" 20
         (λ _ x, (if bool_decide (is_Some (row (A := ApplianceCatalog) s c))
                  then bool_decide (a_catalog_id x = Some c) else true) &&
                 match U with Some (u, _) => a_user_id x =? u | None => true end)
         (one_of appliance_columns "id" (get_argument e "by" "id")) (sort_arg e "ASC" "DESC"))) [].

(** ** Users, jobs, resources, networks, traces *)

Definition user_columns : list string :=
  ["id"; "date_joined"; "last_login"; "last_active"; "username"; "is_locked"]%string.

(** admin/user_views.py; the column [description] is an argument. *)
Definition Index_user (has_description : Z → User → bool) (e : req) : Web Cloud (list (Z * User)) :=
  need_permission e true "admin" (
    let by_ := get_argument e "by" "id" in
    let gid := int_arg e "gid" (-1) in
    let search := get_argument e "search" "" in
    s ← ask id;
    let in_group (U : User) :=
      if gid =? 0 then bool_decide (u_groups U = [])
      else if (0 <? gid) && bool_decide (is_Some (row (A := Group) s gid))
      then bool_decide (gid ∈ u_groups U) else true in
    let found (U : User) :=
      if String.eqb search "" then true
      else contains search (u_username U) ||
           match u_email U with Some addr => contains search addr | None => false end in
    show_list "admin/user/index.html"
      (paged e "sepa" 50
         (λ k U, (if String.eqb by_ "description" then has_description k U else true) &&
                 found U && in_group U)
         (one_of user_columns "id" by_) (order_arg e))) [].

Definition job_columns : list string :=
  ["id"; "user_id"; "status"; "target_type"; "target_id"; "action"; "created"; "started"; "ended"]%string.

(** admin/job_views.py, [get_index]; the class has [has_permission] on [prepare]. *)
Definition JobManagement_index (e : req) : Web Cloud (list (Z * Job)) :=
  need_permission e true "admin" (
    let u := int_arg e "user" 0 in
    show_list "admin/job/index.html"
      (paged e "sepa" 50 (λ _ J, if u =? 0 then true else j_user_id J =? u)
         (one_of job_columns "id" (get_argument e "by" "id")) (order_arg e))) [].

(** resource/admin_views.py *)
Definition ResourceIndex_get (e : req) : Web Cloud (list (Z * Resource)) :=
  need_permission e true "admin" (
    show_list "admin/resource/index.html" (paged e "sepa" 50 (λ _ _, true) "id" (order_arg e))) [].

Definition network_column (by_ network : string) : string :=
  if String.eqb by_ "created" then "created" else if String.eqb by_ "network" then network else "id".

(** network/admin_views.py: the addresses are counted without the network that is asked for. *)
Definition IPPoolIndex_get (e : req) : Web Cloud (list (Z * IPPool)) :=
  need_permission e true "admin" (
    let nid := int_arg e "network" 0 in
    s ← ask id;
    show_list "admin/network/ippool.html"
      (mkQuery (λ _ x, if negb (nid =? 0) && bool_decide (is_Some (row (A := NetworkPool) s nid))
                       then ip_network_id x =? nid else true)
         (λ _ _, true)
         (network_column (get_argument e "by" "id") "network_id") (sort_arg e "ASC" "DESC")
         (int_arg e "sepa" 50) (int_arg e "p" 1))) [].

Definition PortMappingIndex_get (e : req) : Web Cloud (list (Z * PortMapping)) :=
  need_permission e true "admin" (
    let gid := int_arg e "gateway" 0 in
    s ← ask id;
    show_list "admin/network/portmapping.html"
      (paged e "sepa" 50
         (λ _ x, (if negb (gid =? 0) && bool_decide (is_Some (row (A := Gateway) s gid))
                  then pm_gateway_id x =? gid else true) &&
                 (if String.eqb (get_argument e "has_ip" "") "" then true
                  else bool_decide (is_Some (pm_ip_id x))))
         (network_column (get_argument e "by" "id") "gateway_id") (sort_arg e "ASC" "DESC"))) [].

Definition trace_columns : list string :=
  ["id"; "who_id"; "comefrom"; "target_type"; "target_id"; "isok"; "when"; "do"]%string.

(** system/views.py, [LyTraceManage.get_index]: the traces are counted without the user. *)
Definition LyTraceManage_index (e : req) : Web Cloud (list (Z * LyTrace)) :=
  need_permission e true "admin" (
    let by_ := get_argument e "by" "id" in
    let u := int_arg e "user" 0 in
    if negb (bool_decide (by_ ∈ trace_columns)) then emit (Write "Wrong sort by value");; mret [] else
    U ← get_row (A := User) u;
    if negb (u =? 0) && bool_decide (U = None) then emit (Write "Can not find user by id");; mret [] else
    show_list "system/traces.html"
      (mkQuery (λ _ x, if u =? 0 then true else t_who_id x =? u) (λ _ _, true) by_ (order_arg e)
         (int_arg e "sepa" 50) (int_arg e "p" 1))) [].

Definition time_columns : list string := ["id"; "created"; "updated"]%string.

(** site/admin_views.py *)
Definition SiteJobIndex_get (e : req) : Web Cloud (list (Z * SiteJob)) :=
  need_permission e true "admin" (
    show_list "admin/site/job/index.html"
      (paged e "sepa" 50 (λ _ _, true) (one_of time_columns "id" (get_argument e "by" "id")) (order_arg e))) [].

(** ** Messages (message/views.py, [my_box_list]) *)

Inductive box := InboxBox | OutboxBox | NoticeBox.

Definition in_box (b : box) (u : Z) (m : Message) : bool :=
  match b with
  | InboxBox => bool_decide (m_receiver_id m = Some u) && m_isinbox m
  | OutboxBox => (m_sender_id m =? u) && negb (m_isinbox m) && bool_decide (is_Some (m_receiver_id m))
  | NoticeBox => bool_decide (m_receiver_id m = None)
  end.

Definition message_column (by_ : string) : string :=
  if String.eqb by_ "sender" then "sender_id"
  else one_of ["status"; "isread"; "readtime"]%string "id" by_.

Definition my_box_list (e : req) (b : box) (u : Z) (template : string) : Web Cloud (list (Z * Message)) :=
  show_list template
    (paged e "sepa" 20 (λ _ m, in_box b u m) (message_column (get_argument e "by" "id"))
       (sort_arg e "DESC" "DESC")).

(** The number of messages not read, and the list. *)
Definition Inbox_get (e : req) : Web Cloud (Z * list (Z * Message)) :=
  authenticated e true (λ u,
    unread ← ask (λ s, Z.of_nat (length (select (A := Message)
               (λ _ m, bool_decide (m_receiver_id m = Some u) && negb (m_isread m)) s)));
    l ← my_box_list e InboxBox u "message/inbox.html";
    mret (unread, l)) (0, []).

Definition Outbox_get (e : req) : Web Cloud (list (Z * Message)) :=
  authenticated e true (λ u, my_box_list e OutboxBox u "message/outbox.html") [].

Definition NoticeHome_get (e : req) : Web Cloud (list (Z * Message)) :=
  need_permission e true "admin" (
    let m := int_arg e "message" 0 in
    if m =? 0 then my_box_list e NoticeBox (default 0 (cur e)) "message/notice.html"
    else emit (Render "message/notice_view.html");; mret []) [].

(** ** The forum (forum/views.py) *)

Definition forum_page {A} `{HasTable Cloud A} (e : req) (template : string) (P : Z → A → bool)
    (by_ : string) : Web Cloud (list (Z * A)) :=
  show_list template (paged e "ps" 20 P by_ (order_arg e)).

Definition time_column (e : req) : string := one_of time_columns "id" (get_argument e "by" "created").

(** The catalog of a topic, as the join of [get_topics] asks for it. *)
Definition public_topic (s : Cloud) (T : ForumTopic) : bool :=
  negb (ft_status T =? 1) && ft_is_visible T &&
  match row (A := ForumCatalog) s (ft_catalog_id T) with
  | Some C => fc_is_visible C && negb (fc_is_private C)
  | None => false
  end.

Definition get_topics (e : req) : Web Cloud (list (Z * ForumTopic)) :=
  s ← ask id;
  forum_page e "forum/index_topics.html" (λ _ T, public_topic s T) (time_column e).
Definition get_topic_votes (e : req) : Web Cloud (list (Z * ForumTopicVote)) :=
  forum_page e "forum/index_topic_votes.html" (λ _ _, true) (time_column e).
Definition get_posts (e : req) : Web Cloud (list (Z * ForumPost)) :=
  forum_page e "forum/index_posts.html" (λ _ _, true) (time_column e).
Definition get_post_votes (e : req) : Web Cloud (list (Z * ForumPostVote)) :=
  forum_page e "forum/index_post_votes.html" (λ _ _, true) (time_column e).

(** The topics of a catalog: a private one is listed for everybody, unless it is hidden too. *)
Definition CatalogIndex_get (e : req) : Web Cloud (list (Z * ForumTopic)) :=
  let ID := int_arg e "id" 0 in
  if ID =? 0 then emit (Write "Give me catalog id please.");; mret [] else
  o ← get_row (A := ForumCatalog) ID;
  match o with
  | None => emit (Write "No such catalog");; mret []
  | Some C =>
      if fc_is_private C && negb (fc_is_visible C)
      then emit (Write "Catalog is private and not visible.");; mret []
      else forum_page e "forum/catalog_index.html"
             (λ _ T, (ft_catalog_id T =? ID) && negb (ft_status T =? 1)) (time_column e)
  end.

Definition TagView_get (e : req) : Web Cloud (list (Z * ForumTopic)) :=
  let ID := int_arg e "id" 0 in
  if ID =? 0 then emit (Write "Give me tag id please.");; mret [] else
  o ← get_row (A := ForumTopicTag) ID;
  match o with
  | None => emit (Write "No such tag");; mret []
  | Some _ => forum_page e "forum/tag/view.html" (λ _ T, bool_decide (ID ∈ ft_tags T)) (time_column e)
  end.

(** ** What a list shows *)

Definition shown {A} (m : Web Cloud (list (Z * A))) (s : Cloud) : list (Z * A) :=
  match (m (start s)).1 with Val l => l | Raise _ => [] end.

Lemma show_list_run {A} `{HasTable Cloud A} template (q : list_query A) w :
  (show_list template q w).1 =
    match slice (lq_size q) (lq_page q) (ordered q (work w)),
          pagination (list_total q (work w)) (lq_size q) (lq_page q) with
    | None, _ => Raise "DataError"
    | _, None => Raise "ZeroDivisionError"
    | Some l, Some _ => Val l
    end.
Proof.
  unfold show_list. rewrite !run_ask. cbn [work].
  destruct (slice _ _ _); [by destruct (pagination _ _ _)|done].
Qed.

Lemma elem_of_slice {A} size page (l k : list A) x : slice size page l = Some k → x ∈ k → x ∈ l.
Proof.
  unfold slice. case_match; [done|]. intros [= <-] Hx.
  apply elem_of_take in Hx as (i & Hi & _). rewrite lookup_drop in Hi. by eapply list_elem_of_lookup_2.
Qed.

Lemma ordered_perm {A} `{HasTable Cloud A} (q : list_query A) s : ordered q s ≡ₚ select (lq_where q) s.
Proof. apply merge_sort_Permutation. Qed.

Lemma elem_of_ordered {A} `{HasTable Cloud A} (q : list_query A) s k x :
  (k, x) ∈ ordered q s ↔ row s k = Some x ∧ lq_where q k x = true.
Proof. rewrite ordered_perm. apply elem_of_select. Qed.

(** What is shown is in the table and meets the conditions. *)
Lemma show_list_elem {A} `{HasTable Cloud A} template (q : list_query A) s k x :
  (k, x) ∈ shown (show_list template q) s → row s k = Some x ∧ lq_where q k x = true.
Proof.
  unfold shown. rewrite show_list_run. change (work (start s)) with s.
  intros Hx. destruct (slice _ _ _) as [l|] eqn:E; [|cbn in Hx; inversion Hx].
  destruct (pagination _ _ _); [|cbn in Hx; inversion Hx]. by eapply elem_of_ordered, elem_of_slice.
Qed.

Lemma shown_ask {A B} (f : Cloud → B) (m : B → Web Cloud (list (Z * A))) s :
  shown (ask f ≫= m) s = shown (m (f s)) s.
Proof. done. Qed.
Lemma shown_get_row {A B} `{HasTable Cloud B} k (m : option B → Web Cloud (list (Z * A))) s :
  shown (get_row k ≫= m) s = shown (m (row s k)) s.
Proof. unfold shown. by rewrite run_get. Qed.
Lemma shown_none {A} x s : shown (A := A) (emit x;; mret []) s = [].
Proof. done. Qed.
Lemma shown_raise {A} x s : shown (A := A) (raise x) s = [].
Proof. done. Qed.
Lemma shown_authenticated {A} e (m : Z → Web Cloud (list (Z * A))) s :
  shown (authenticated e true m []) s = match cur e with Some u => shown (m u) s | None => [] end.
Proof. unfold authenticated. by destruct (cur e). Qed.
Lemma shown_need_permission {A} e perm (m : Web Cloud (list (Z * A))) s :
  shown (need_permission e true perm m []) s =
    match cur e with Some u => if user_has s perm u then shown m s else [] | None => [] end.
Proof.
  unfold need_permission. destruct (cur e) as [u|]; [|done]. rewrite shown_ask.
  by destruct (user_has s perm u).
Qed.

Ltac shown_elem H := apply show_list_elem in H as [? H]; cbn [lq_where paged] in H; bool_prop.

(** C5: four of the lists that are open to everybody show nothing private: the list of
    instances, the instances of an appliance and the list of appliances show rows that are
    not private, the list of topics shows topics that are neither deleted nor hidden nor in
    a hidden or private catalog. The lists of a user show nothing of another: own instances
    and appliances, messages received and sent. The other open lists of the forum ask for
    less: the topics of a catalog are topics of it that are not deleted, the catalog being
    visible or not private; the topics of a tag only bear the tag ([open_tabs_hide_nothing]
    and [private_catalog_listed] show what comes out). *)
Theorem lists_keep_private e s :
  (∀ k x, (k, x) ∈ shown (Index_instance e) s → row s k = Some x ∧ i_isprivate x = false) ∧
  (∀ a k x, (k, x) ∈ shown (View_instances e a) s →
     row s k = Some x ∧ i_isprivate x = false ∧ i_appliance_id x = a) ∧
  (∀ k x, (k, x) ∈ shown (Index_appliance e) s → row s k = Some x ∧ a_isprivate x = false) ∧
  (∀ k x, (k, x) ∈ shown (get_topics e) s → row s k = Some x ∧ public_topic s x = true) ∧
  (∀ k x, (k, x) ∈ shown (Index_myun_instance e) s → row s k = Some x ∧ cur e = Some (i_user_id x)) ∧
  (∀ k x, (k, x) ∈ shown (MyInstanceList_post e) s → row s k = Some x ∧ cur e = Some (i_user_id x)) ∧
  (∀ k x, (k, x) ∈ shown (Index_myun_appliance e) s → row s k = Some x ∧ cur e = Some (a_user_id x)) ∧
  (∀ k m, (k, m) ∈ shown (l ← Inbox_get e; mret l.2) s → row s k = Some m ∧ m_receiver_id m = cur e) ∧
  (∀ k m, (k, m) ∈ shown (Outbox_get e) s → row s k = Some m ∧ cur e = Some (m_sender_id m)) ∧
  (∀ k x, (k, x) ∈ shown (CatalogIndex_get e) s →
     row s k = Some x ∧ ft_catalog_id x = int_arg e "id" 0 ∧ ft_status x ≠ 1 ∧
     ∃ C, row s (ft_catalog_id x) = Some C ∧ (fc_is_private C = false ∨ fc_is_visible C = true)) ∧
  (∀ k x, (k, x) ∈ shown (TagView_get e) s →
     row s k = Some x ∧ int_arg e "id" 0 ∈ ft_tags x ∧ is_Some (row (A := ForumTopicTag) s (int_arg e "id" 0))).
Proof.
  split_and!.
  - intros k x H. unfold Index_instance in H. cbv zeta in H. shown_elem H. done.
  - intros a k x H. unfold View_instances in H. cbv zeta in H. shown_elem H. done.
  - intros k x H. unfold Index_appliance in H. cbv zeta in H. shown_elem H. done.
  - intros k x H. unfold get_topics in H. rewrite shown_ask in H. unfold forum_page in H. by shown_elem H.
  - intros k x H. unfold Index_myun_instance in H. rewrite shown_authenticated in H.
    destruct (cur e) as [u|]; [|by inversion H]. cbv zeta in H. destruct (String.eqb _ "username"); [by inversion H|].
    shown_elem H. split; congruence.
  - intros k x H. unfold MyInstanceList_post in H. destruct (cur e) as [u|]; [|by inversion H].
    cbv zeta in H. rewrite shown_ask in H. destruct (any_order _) as [|p l] eqn:E; [by inversion H|].
    destruct (slice _ _ _) as [l'|] eqn:Es; [|by inversion H].
    change (shown _ s) with l' in H. apply (elem_of_slice _ _ _ _ _ Es) in H. rewrite <- E in H.
    unfold any_order in H. rewrite merge_sort_Permutation in H. apply elem_of_select in H as [Hr H]. bool_prop. split; congruence.
  - intros k x H. unfold Index_myun_appliance in H. rewrite shown_authenticated in H.
    destruct (cur e) as [u|]; [|by inversion H]. shown_elem H. split; congruence.
  - intros k m H. unfold Inbox_get, authenticated in H. destruct (cur e) as [u|]; [|by inversion H].
    assert ((k, m) ∈ shown (my_box_list e InboxBox u "message/inbox.html") s) as H'.
    { revert H. unfold shown. rewrite run_assoc, run_ask, run_assoc. unfold mbind at 1, Web_bind.
      by destruct (my_box_list _ _ _ _ _) as [[l|x] w]. }
    clear H. rename H' into H. unfold my_box_list in H. shown_elem H. unfold in_box in H. by bool_prop.
  - intros k m H. unfold Outbox_get in H. rewrite shown_authenticated in H.
    destruct (cur e) as [u|]; [|by inversion H]. unfold my_box_list in H. shown_elem H. unfold in_box in H.
    bool_prop. split; congruence.
  - intros k x H. unfold CatalogIndex_get in H. cbv zeta in H. case_match; [by inversion H|].
    rewrite shown_get_row in H. destruct (row s (int_arg e "id" 0)) as [C|] eqn:HC; [|by inversion H].
    destruct (fc_is_private C && negb (fc_is_visible C)) eqn:Hp; [by inversion H|].
    unfold forum_page in H. shown_elem H. split_and!; [done..|]. exists C. rewrite H. split; [done|].
    destruct (fc_is_private C), (fc_is_visible C); naive_solver.
  - intros k x H. unfold TagView_get in H. cbv zeta in H. case_match; [by inversion H|].
    rewrite shown_get_row in H. destruct (row s (int_arg e "id" 0)) as [C|] eqn:HC; [|by inversion H].
    unfold forum_page in H. by shown_elem H.
Qed.

End requests.

(** ** Pages together *)

(** The same request with another page. *)
Definition with_page (e : req) (p : Z) : req :=
  mkReq (now e) (cur e) (<["p"%string := str_of_Z p]> (args e)) (notify_ok e) (clc_up e).

Lemma get_argument_with_page e p key d :
  key ≠ "p"%string → get_argument (with_page e p) key d = get_argument e key d.
Proof. intros H. unfold get_argument. cbn. by rewrite lookup_insert_ne. Qed.
Lemma int_arg_with_page e p key d :
  key ≠ "p"%string → int_arg (with_page e p) key d = int_arg e key d.
Proof. intros H. unfold int_arg, get_argument_int. cbn. by rewrite lookup_insert_ne. Qed.
Lemma int_arg_page e p d : int_arg (with_page e p) "p" d = p.
Proof. unfold int_arg, get_argument_int. cbn. by rewrite lookup_insert_eq, py_int_str_of_Z. Qed.

Definition at_page {A} (q : list_query A) (p : Z) : list_query A :=
  mkQuery (lq_where q) (lq_count q) (lq_by q) (lq_desc q) (lq_size q) p.

Lemma paged_with_page {A} e p ps size (P : Z → A → bool) by_ down :
  ps ≠ "p"%string →
  paged (with_page e p) ps size P by_ down = at_page (paged e ps size P by_ down) p.
Proof. intros H. unfold paged, at_page. cbn. by rewrite int_arg_with_page, int_arg_page. Qed.

Lemma concat_slices {A} (l : list A) k n :
  mjoin ((λ i, take k (drop (i * k)%nat l)) <$> List.seq 0 n) = take (n * k) l.
Proof.
  induction n as [|n IH]; [done|]. rewrite List.seq_S, fmap_app, join_app, IH. cbn. rewrite app_nil_r, (Nat.add_comm k).
  by rewrite <- take_take_drop.
Qed.

Lemma slice_nth {A} (l : list A) size (i : nat) :
  0 < size → slice size (Z.of_nat i + 1) l = Some (take (Z.to_nat size) (drop (i * Z.to_nat size)%nat l)).
Proof.
  intros Hs. unfold slice. rewrite !(proj2 (Z.ltb_ge _ _)) by nia. cbn. do 2 f_equal.
  f_equal. nia.
Qed.

(** The order of a query, without a look at ties. *)
Definition key_order {A} (by_ : string) (down : bool) (p q : Z * A) : Prop :=
  if down then sort_key by_ q ≤ sort_key by_ p else sort_key by_ p ≤ sort_key by_ q.
#[export] Instance key_order_trans {A} b d : Transitive (key_order (A := A) b d).
Proof. intros x y z. unfold key_order. destruct d; lia. Qed.

(** No two rows that meet the conditions have the same value for the ORDER BY. *)
Definition distinct_keys {A} `{HasTable Cloud A} (s : Cloud) (P : Z → A → bool) (by_ : string) : Prop :=
  ∀ j x k y, row s j = Some x → row s k = Some y → P j x = true → P k y = true →
    sort_key by_ (j, x) = sort_key by_ (k, y) → j = k.

Lemma in_order_key {TI : Ties} {A} b d (p q : Z * A) : in_order b d p q → key_order b d p q.
Proof. unfold in_order, key_order. destruct d; lia. Qed.
#[export] Instance in_order_total {TI : Ties} {A} b d : Total (in_order (A := A) b d).
Proof. intros x y. unfold in_order. destruct d; lia. Qed.

Lemma ordered_sorted {TI : Ties} {A} `{HasTable Cloud A} (q : list_query A) s :
  StronglySorted (key_order (lq_by q) (lq_desc q)) (ordered q s).
Proof.
  apply (Sorted_StronglySorted _).
  assert (Sorted (in_order (lq_by q) (lq_desc q)) (ordered q s)) as Hs by (apply (Sorted_merge_sort _)).
  induction Hs as [|x l Hl IH Hx]; constructor; [exact IH|].
  destruct Hx as [|y l Hxy]; constructor. by apply in_order_key.
Qed.

(** With distinct values there is one order only, however ties would be broken. *)
Lemma ordered_ties (T T' : Ties) {A} `{HasTable Cloud A} (q : list_query A) s :
  distinct_keys s (lq_where q) (lq_by q) → ordered (TI := T) q s = ordered (TI := T') q s.
Proof.
  intros Hd. apply (StronglySorted_unique_strong (key_order (lq_by q) (lq_desc q)));
    [|apply ordered_sorted..|by rewrite !ordered_perm].
  intros [j x] [k y] [Hj Pj]%elem_of_ordered [Hk Pk]%elem_of_ordered H1 H2.
  assert (j = k) as -> by (apply (Hd j x k y Hj Hk Pj Pk); unfold key_order in H1, H2; destruct (lq_desc q); lia).
  congruence.
Qed.

(** The pages of a query: as many as the links say, all of them can be shown, and one after
    the other they are the rows of the query in order, when the requests cannot differ in
    their order. *)
Lemma pages_partition (ties : nat → Ties) {A} `{HasTable Cloud A} template (q : list_query A) s :
  0 < lq_size q → (∀ k x, lq_count q k x = lq_where q k x) → distinct_keys s (lq_where q) (lq_by q) →
  ∃ pages : list (list (Z * A)),
    Z.of_nat (length pages) = page_sum (list_total q s) (lq_size q) ∧
    (∀ i l, pages !! i = Some l →
       (show_list (TI := ties i) template (at_page q (Z.of_nat i + 1)) (start s)).1 = Val l ∧
       Z.of_nat (length l) ≤ lq_size q) ∧
    mjoin pages = ordered (TI := ties 0%nat) q s.
Proof.
  intros Hs Hc Hd. set (k := Z.to_nat (lq_size q)). set (l := ordered (TI := ties 0%nat) q s).
  assert (list_total q s = Z.of_nat (length l)) as Ht.
  { unfold list_total. f_equal. unfold l. rewrite ordered_perm. f_equal. unfold select.
    apply list_filter_iff. intros [j x]. cbn. by rewrite Hc. }
  pose proof (page_sum_ceil (list_total q s) (lq_size q) Hs) as Hp.
  assert (0 ≤ page_sum (list_total q s) (lq_size q)) as Hn by nia.
  set (n := Z.to_nat (page_sum (list_total q s) (lq_size q))) in *.
  exists ((λ i, take k (drop (i * k)%nat l)) <$> List.seq 0 n). split_and!.
  - rewrite length_fmap, List.length_seq. unfold n. lia.
  - intros i x Hx. rewrite list_lookup_fmap in Hx.
    destruct (List.seq 0 n !! i) as [j|] eqn:Hj; [|done]. cbn in Hx. injection Hx as <-.
    apply lookup_seq in Hj as [-> Hj]. cbn [Nat.add]. split; [|rewrite length_take; unfold k; lia].
    rewrite show_list_run. cbn [at_page lq_size lq_page]. change (work (start s)) with s.
    change (ordered (at_page q _) s) with (ordered (TI := ties i) q s).
    rewrite (ordered_ties (ties i) (ties 0%nat) q s Hd). fold l. rewrite slice_nth by done. fold k.
    change (list_total (at_page q _) s) with (list_total q s).
    unfold pagination. destruct (_ <=? _); [done|]. by rewrite (proj2 (Z.eqb_neq _ _)) by lia.
  - rewrite concat_slices. apply take_ge. unfold n, k. nia.
Qed.

(** [view] asked for each page of its links in turn, with the ties of every request its own,
    shows the rows of [s] that meet [P] exactly once, in order, at most [size] on a page. *)
Definition turned_once {A} `{HasTable Cloud A} (view : Ties → req → Web Cloud (list (Z * A)))
    (e : req) (s : Cloud) (P : Z → A → bool) (by_ : string) (down : bool) (size : Z) : Prop :=
  ∀ ties : nat → Ties, ∃ pages,
    Z.of_nat (length pages) = page_sum (Z.of_nat (length (select P s))) size ∧
    (∀ i l, pages !! i = Some l →
       (view (ties i) (with_page e (Z.of_nat i + 1)) (start s)).1 = Val l ∧ Z.of_nat (length l) ≤ size) ∧
    mjoin pages ≡ₚ select P s ∧ StronglySorted (key_order by_ down) (mjoin pages).

Lemma view_turned_once {A} `{HasTable Cloud A} (view : Ties → req → Web Cloud (list (Z * A))) e s template
    (q : list_query A) :
  (∀ T p, (view T (with_page e p) (start s)).1 = (show_list (TI := T) template (at_page q p) (start s)).1) →
  (∀ k x, lq_count q k x = lq_where q k x) → 0 < lq_size q → distinct_keys s (lq_where q) (lq_by q) →
  turned_once view e s (lq_where q) (lq_by q) (lq_desc q) (lq_size q).
Proof.
  intros Hv Hc Hs Hd ties.
  destruct (pages_partition ties template q s Hs Hc Hd) as (pages & Hl & Hp & Hj).
  exists pages. rewrite Hj. split_and!.
  - rewrite Hl. unfold list_total. do 3 f_equal. unfold select. apply list_filter_iff.
    intros [j x]. cbn. by rewrite Hc.
  - intros i l Hi. rewrite Hv. by apply Hp.
  - apply ordered_perm.
  - apply ordered_sorted.
Qed.

(** C31: turning the pages of a list from 1 to the number the links give, with a page size
    above 0 and everything else of the request unchanged, shows every row that meets the
    conditions exactly once, in order, at most as many on a page as its size: in the public
    lists of instances and of appliances when no two of these rows have the same value in
    the column of the ORDER BY (or the column is the id), in the list of one's own instances
    whenever it is ordered by the id, which it is unless the request asks for something
    else. The database may put rows of equal values in another order for every request
    ([pages_repeat_a_row] shows what happens then). *)
Theorem public_pages_complete e s :
  (let P := λ _ x, negb (i_isprivate x) &&
       bool_decide (i_status x ∈ status_list (get_argument e "status" "running")) &&
       view_self (cur e) (get_argument e "view" "all") x in
   let by_ := if String.eqb (get_argument e "by" "updated") "created" then "created"
              else if String.eqb (get_argument e "by" "updated") "user" then "user_id" else "updated" in
   0 < int_arg e "sepa" 24 → distinct_keys s P by_ →
   turned_once (λ T, Index_instance (TI := T)) e s P by_ (order_arg e) (int_arg e "sepa" 24)) ∧
  (let P := λ _ x, negb (a_isprivate x) &&
       (if int_arg e "c" 0 =? 0 then true else bool_decide (a_catalog_id x = Some (int_arg e "c" 0))) in
   let by_ := get_argument e "by" "updated" in
   0 < int_arg e "sepa" 24 → distinct_keys s P by_ →
   turned_once (λ T, Index_appliance (TI := T)) e s P by_ (sort_arg e "DESC" "DESC") (int_arg e "sepa" 24)) ∧
  (∀ u, cur e = Some u →
   let status := get_argument e "status" "all" in
   let P := λ _ x,
       (if String.eqb status "running" then bool_decide (i_status x ∈ INSTANCE_SLIST_RUNING)
        else if String.eqb status "stoped" then bool_decide (i_status x ∈ INSTANCE_SLIST_STOPED)
        else negb (i_status x =? INSTANCE_DELETED_STATUS)) && (i_user_id x =? u) in
   get_argument e "by" "id" ∉ ["username"; "created"]%string → 0 < int_arg e "sepa" 24 →
   turned_once (λ T, Index_myun_instance (TI := T)) e s P "id" (sort_arg e "desc" "desc") (int_arg e "sepa" 24)).
Proof.
  split_and!.
  - intros P by_ Hs Hd. apply (view_turned_once _ e s "instance/index.html" (paged e "sepa" 24 P by_ (order_arg e)));
      [|done..]. intros T p. unfold Index_instance, order_arg. cbv zeta.
    rewrite !get_argument_with_page by done. rewrite int_arg_with_page by done. by rewrite paged_with_page.
  - intros P by_ Hs Hd.
    apply (view_turned_once _ e s "appliance/index.html" (paged e "sepa" 24 P by_ (sort_arg e "DESC" "DESC")));
      [|done..]. intros T p. unfold Index_appliance, sort_arg. cbv zeta.
    rewrite !get_argument_with_page by done. rewrite int_arg_with_page by done. by rewrite paged_with_page.
  - intros u Hu status P Hb Hs. rewrite !not_elem_of_cons in Hb. destruct Hb as (H1 & H2 & _).
    apply (view_turned_once _ e s "myun/instance/index.html" (paged e "sepa" 24 P "id" (sort_arg e "desc" "desc")));
      [|done|done|]; cycle 1.
    { intros j x k y _ _ _ _. done. }
    intros T p. unfold Index_myun_instance, authenticated, sort_arg. cbn [cur with_page]. rewrite Hu. cbv zeta.
    rewrite !get_argument_with_page by done. rewrite (proj2 (String.eqb_neq _ _) H1).
    rewrite (proj2 (String.eqb_neq _ _) H2). by rewrite paged_with_page.
Qed.
End lists.

(** ** What the open tabs show *)

Section open_tabs.
Context {RI : Ranks} {TI : Ties}.

Lemma elem_of_some_slice {A} (l : list A) size x :
  0 < size → x ∈ l → ∃ p k, 0 < p ∧ slice size p l = Some k ∧ x ∈ k.
Proof.
  intros Hs (i & Hi)%list_elem_of_lookup_1. set (n := Z.to_nat size).
  assert (0 < n)%nat as Hn by (unfold n; lia).
  pose proof (Nat.div_mod_eq i n) as Hd. pose proof (Nat.mod_upper_bound i n) as Hm.
  exists (Z.of_nat (i / n) + 1), (take n (drop (i / n * n)%nat l)). split; [lia|].
  split; [by apply slice_nth|]. apply (list_elem_of_lookup_2 _ (i mod n)).
  rewrite lookup_take_lt, lookup_drop by lia. rewrite <- Hi. f_equal. lia.
Qed.

(** Every row that meets the conditions is on one of the pages. *)
Lemma show_list_some_page {A} `{HasTable Cloud A} template (q : list_query A) s k x :
  0 < lq_size q → row s k = Some x → lq_where q k x = true →
  ∃ p, (k, x) ∈ shown (show_list template (at_page q p)) s.
Proof.
  intros Hs Hr Hw. destruct (elem_of_some_slice (ordered q s) (lq_size q) (k, x) Hs) as (p & l & Hp & Hl & Hx).
  { by apply elem_of_ordered. }
  exists p. unfold shown. rewrite show_list_run. cbn [at_page lq_size lq_page]. change (work (start s)) with s.
  change (ordered (at_page q p) s) with (ordered q s). rewrite Hl. unfold pagination.
  destruct (_ <=? _); [done|]. by rewrite (proj2 (Z.eqb_neq _ _)) by lia.
Qed.

(** The tabs of posts and of votes hide nothing from anybody: every post and every vote is
    on one of their pages, and so is every topic that is not deleted, hidden or not, on a page
    of its catalog when that is private but visible. *)
Theorem open_tabs_hide_nothing e s :
  0 < int_arg e "ps" 20 →
  (∀ k (x : ForumPost), row s k = Some x → ∃ p, (k, x) ∈ shown (get_posts (with_page e p)) s) ∧
  (∀ k (x : ForumPostVote), row s k = Some x → ∃ p, (k, x) ∈ shown (get_post_votes (with_page e p)) s) ∧
  (∀ k (x : ForumTopicVote), row s k = Some x → ∃ p, (k, x) ∈ shown (get_topic_votes (with_page e p)) s) ∧
  (∀ k (x : ForumTopic) C, row s k = Some x → ft_status x ≠ 1 → ft_catalog_id x ≠ 0 →
     row s (ft_catalog_id x) = Some C → fc_is_visible C = true → int_arg e "id" 0 = ft_catalog_id x →
     ∃ p, (k, x) ∈ shown (CatalogIndex_get (with_page e p)) s).
Proof.
  intros Hs.
  assert (∀ A (H : HasTable Cloud A) t (P : Z → A → bool) k x, row s k = Some x → P k x = true →
    ∃ p, (k, x) ∈ shown (forum_page (with_page e p) t P (time_column (with_page e p))) s) as Hf.
  { intros A H t P k x Hr HP.
    destruct (show_list_some_page t (paged e "ps" 20 P (time_column e) (order_arg e)) s k x Hs Hr HP) as [p Hp].
    exists p. unfold forum_page, time_column, order_arg in *. rewrite paged_with_page by done.
    rewrite get_argument_with_page, int_arg_with_page by done. exact Hp. }
  split_and!; try (intros k x Hr; by apply Hf).
  intros k x C Hr Hst H0 HC Hv Hid.
  destruct (Hf _ _ "forum/catalog_index.html"
    (λ _ T, (ft_catalog_id T =? ft_catalog_id x) && negb (ft_status T =? 1)) k x Hr) as [p Hp].
  { by rewrite Z.eqb_refl, (proj2 (Z.eqb_neq _ _) Hst). }
  exists p. unfold CatalogIndex_get. rewrite int_arg_with_page, Hid by done. cbv zeta.
  rewrite (proj2 (Z.eqb_neq _ _) H0), shown_get_row, HC, Hv. by rewrite andb_false_r.
Qed.
End open_tabs.

(** ** The text of the ORDER BY *)

Section sort_ext.
Context {A : Type} (R R' : relation A) `{!∀ x y, Decision (R x y), !∀ x y, Decision (R' x y)}.
Context (HR : ∀ x y, R x y ↔ R' x y).
#[local] Set Default Proof Using "All".

Lemma list_merge_ext l1 : ∀ l2, list_merge R l1 l2 = list_merge R' l1 l2.
Proof.
  induction l1 as [|x l1 IH]; intros l2; [by destruct l2|].
  induction l2 as [|y l2 IH2]; [done|]. cbn. rewrite (decide_ext _ _ _ _ (HR x y)).
  case_decide; [by rewrite IH|]. f_equal. exact IH2.
Qed.
Lemma merge_list_to_stack_ext st : ∀ l, merge_list_to_stack R st l = merge_list_to_stack R' st l.
Proof. induction st as [|[k|] st IH]; intros l; cbn; [done| |done]. by rewrite list_merge_ext, IH. Qed.
Lemma merge_stack_ext st : merge_stack R st = merge_stack R' st.
Proof. induction st as [|[k|] st IH]; cbn; [done| |done]. by rewrite IH, list_merge_ext. Qed.
Lemma merge_sort_ext l : merge_sort R l = merge_sort R' l.
Proof.
  unfold merge_sort. generalize ([] : list (option (list A))). induction l as [|x l IH]; intros st; cbn.
  - apply merge_stack_ext.
  - by rewrite merge_list_to_stack_ext, IH.
Qed.
End sort_ext.

(** Every column the lists name. *)
Definition listed_columns : list string :=
  instance_columns ++ appliance_columns ++ user_columns ++ job_columns ++ trace_columns ++ time_columns ++
  ["network_id"; "gateway_id"; "sender_id"; "status"; "isread"; "readtime"]%string.

Definition same_ranks (R R' : Ranks) : Prop :=
  ∀ A c k (x : A), c ∈ listed_columns → @rank R A c k x = @rank R' A c k x.

Section order_by.
Context {TI : Ties} (R R' : Ranks) (Hsame : same_ranks R R').
#[local] Set Default Proof Using "All".

Lemma show_list_ranks {A} `{HasTable Cloud A} template (q : list_query A) w :
  lq_by q ∈ listed_columns →
  show_list (RI := R) template q w = show_list (RI := R') template q w.
Proof.
  intros Hc. unfold show_list. rewrite !run_ask. unfold ordered.
  rewrite (merge_sort_ext (in_order (RI := R) (lq_by q) (lq_desc q))
             (in_order (RI := R') (lq_by q) (lq_desc q))); [done|].
  intros x y. unfold in_order, sort_key. cbv zeta. by rewrite !(λ k z, Hsame A _ k z Hc).
Qed.

End order_by.

Lemma one_of_listed names def by_ :
  (∀ c, c ∈ def :: names → c ∈ listed_columns) → one_of names def by_ ∈ listed_columns.
Proof. intros H. unfold one_of. case_bool_decide; apply H; [by right|by left]. Qed.

Lemma listed_names names :
  bool_decide (Forall (λ c, c ∈ listed_columns) names) = true → ∀ c, c ∈ names → c ∈ listed_columns.
Proof. intros H%bool_decide_eq_true. rewrite Forall_forall in H. exact H. Qed.

Ltac list_admin :=
  unfold need_permission;
  match goal with |- context [cur ?e] => destruct (cur e); [|done] end;
  rewrite !run_ask; match goal with |- context [user_has ?s ?p ?u] => destruct (user_has s p u); [|done] end.

(** No list but that of all appliances and that of one's own appliances lets a text of the
    request into the ORDER BY of its query: what they show depends on the order of
    the columns they name only, whatever the arguments are. *)
Theorem order_by_is_fixed {TI : Ties} R R' has_description e a b u t w :
  same_ranks R R' →
  Index_instance (RI := R) e w = Index_instance (RI := R') e w ∧
  View_instances (RI := R) e a w = View_instances (RI := R') e a w ∧
  Index_myun_instance (RI := R) e w = Index_myun_instance (RI := R') e w ∧
  Index_admin_instance (RI := R) e w = Index_admin_instance (RI := R') e w ∧
  Index_admin_appliance (RI := R) e w = Index_admin_appliance (RI := R') e w ∧
  Index_user (RI := R) has_description e w = Index_user (RI := R') has_description e w ∧
  JobManagement_index (RI := R) e w = JobManagement_index (RI := R') e w ∧
  ResourceIndex_get (RI := R) e w = ResourceIndex_get (RI := R') e w ∧
  IPPoolIndex_get (RI := R) e w = IPPoolIndex_get (RI := R') e w ∧
  PortMappingIndex_get (RI := R) e w = PortMappingIndex_get (RI := R') e w ∧
  LyTraceManage_index (RI := R) e w = LyTraceManage_index (RI := R') e w ∧
  SiteJobIndex_get (RI := R) e w = SiteJobIndex_get (RI := R') e w ∧
  my_box_list (RI := R) e b u t w = my_box_list (RI := R') e b u t w ∧
  get_topics (RI := R) e w = get_topics (RI := R') e w ∧
  get_topic_votes (RI := R) e w = get_topic_votes (RI := R') e w ∧
  get_posts (RI := R) e w = get_posts (RI := R') e w ∧
  get_post_votes (RI := R) e w = get_post_votes (RI := R') e w ∧
  CatalogIndex_get (RI := R) e w = CatalogIndex_get (RI := R') e w ∧
  TagView_get (RI := R) e w = TagView_get (RI := R') e w.
Proof.
  intros HR.
  assert (∀ names by_, bool_decide (Forall (λ c, c ∈ listed_columns) ("id"%string :: names)) = true →
            one_of names "id" by_ ∈ listed_columns) as H1
    by (intros; apply one_of_listed; by apply listed_names).
  assert (∀ c, bool_decide (c ∈ listed_columns) = true → c ∈ listed_columns) as H2
    by (by intros c ?%bool_decide_eq_true).
  assert (∀ by_ n, n ∈ listed_columns → network_column by_ n ∈ listed_columns) as H3
    by (intros by_ n Hn; unfold network_column; repeat case_match; try done; by apply H2).
  assert (∀ P t, forum_page (A := ForumTopic) (RI := R) e t P (time_column e) w =
                 forum_page (RI := R') e t P (time_column e) w) as Hf
    by (intros; apply show_list_ranks; [done|by apply H1]).
  split_and!.
  - apply show_list_ranks; [done|]. cbn [paged lq_by]. repeat case_match; by apply H2.
  - apply show_list_ranks; [done|]. cbn [paged lq_by]. case_match; by apply H2.
  - unfold Index_myun_instance, authenticated. destruct (cur e); [|done]. cbv zeta. case_match; [done|].
    apply show_list_ranks; [done|]. cbn [paged lq_by]. case_match; by apply H2.
  - unfold Index_admin_instance, authenticated. destruct (cur e); [|done]. cbv zeta. case_match; [done|].
    rewrite !run_ask. apply show_list_ranks; [done|]. by apply H1.
  - unfold Index_admin_appliance. list_admin. cbv zeta. unfold get_text.
    destruct (py_int _); [|done]. rewrite !run_ask. apply show_list_ranks; [done|]. by apply H1.
  - unfold Index_user. list_admin. cbv zeta. rewrite !run_ask. apply show_list_ranks; [done|]. by apply H1.
  - unfold JobManagement_index. list_admin. apply show_list_ranks; [done|]. by apply H1.
  - unfold ResourceIndex_get. list_admin. apply show_list_ranks; [done|]. by apply H2.
  - unfold IPPoolIndex_get. list_admin. cbv zeta. rewrite !run_ask. apply show_list_ranks; [done|].
    apply H3. by apply H2.
  - unfold PortMappingIndex_get. list_admin. cbv zeta. rewrite !run_ask. apply show_list_ranks; [done|].
    apply H3. by apply H2.
  - unfold LyTraceManage_index. list_admin. cbv zeta. case_bool_decide as Hb; [|done]. cbn [negb].
    rewrite !run_get. case_match; [done|]. apply show_list_ranks; [done|]. cbn [lq_by].
    revert Hb. generalize (get_argument e "by" "id"). apply listed_names. vm_compute. reflexivity.
  - unfold SiteJobIndex_get. list_admin. apply show_list_ranks; [done|]. by apply H1.
  - apply show_list_ranks; [done|]. cbn [paged lq_by]. unfold message_column.
    case_match; [by apply H2|by apply H1].
  - unfold get_topics. rewrite !run_ask. apply Hf.
  - apply show_list_ranks; [done|by apply H1].
  - apply show_list_ranks; [done|by apply H1].
  - apply show_list_ranks; [done|by apply H1].
  - unfold CatalogIndex_get. cbv zeta. case_match; [done|]. rewrite !run_get.
    case_match; [|done]. case_match; [done|]. apply Hf.
  - unfold TagView_get. cbv zeta. case_match; [done|]. rewrite !run_get. case_match; [|done]. apply Hf.
Qed.

(** ** Searching *)

Definition plain_char (c : ascii) : bool := negb (Ascii.eqb c "%" || Ascii.eqb c "_" || Ascii.eqb c "\").

Lemma like_percent p s :
  like ("%"%char :: p) s = true ↔ ∃ a b, s = a ++ b ∧ like p b = true.
Proof.
  induction s as [|c s IH].
  - change (like ("%"%char :: p) []) with (like p [] || false). rewrite orb_false_r. split.
    + intros H. by exists [], [].
    + intros (a & b & E & H). symmetry in E. by apply app_nil in E as [-> ->].
  - change (like ("%"%char :: p) (c :: s)) with (like p (c :: s) || like ("%"%char :: p) s).
    rewrite orb_true_iff, IH. split.
    + intros [H|(a & b & -> & H)]; [by exists [], (c :: s)|by exists (c :: a), b].
    + intros ([|x a] & b & E & H); cbn in E; [left; by rewrite E|right].
      injection E as -> ->. eauto.
Qed.

Lemma like_plain t p : ∀ s,
  forallb plain_char t = true → like (t ++ p) s = true ↔ ∃ b, s = t ++ b ∧ like p b = true.
Proof.
  induction t as [|c t IH]; intros s Ht.
  { cbn. split; [eauto|by intros (b & -> & H)]. }
  cbn in Ht. apply andb_prop in Ht as [Hc Ht]. unfold plain_char in Hc.
  apply negb_true_iff, orb_false_iff in Hc as [[H1 H2]%orb_false_iff H3].
  cbn [app like]. rewrite H1, H2, H3. destruct s as [|x s].
  - split; [done|]. by intros (b & E & _).
  - rewrite andb_true_iff, (IH s Ht), Ascii.eqb_eq. split.
    + intros [-> (b & -> & H)]. by exists b.
    + intros (b & E & H). injection E as -> ->. eauto.
Qed.

(** A search finds exactly the texts in which it occurs, when it has none of the
    characters that mean something to LIKE. *)
Theorem contains_spec search s :
  forallb plain_char (list_ascii_of_string search) = true →
  contains search s = true ↔
    ∃ a b, list_ascii_of_string s = a ++ list_ascii_of_string search ++ b.
Proof.
  intros Hp. unfold contains. rewrite like_percent. split.
  - intros (a & b & -> & H). apply like_plain in H as (d & -> & _); [|done]. by exists a, d.
  - intros (a & b & ->). exists a, (list_ascii_of_string search ++ b). split; [done|].
    apply like_plain; [done|]. exists b. split; [done|]. apply like_percent. exists b, [].
    split; [by rewrite app_nil_r|done].
Qed.

(** ** Concrete runs *)

#[local] Instance rank_by_id : Ranks := λ _ _ k _, k.
#[local] Instance tie_by_id : Ties := λ k, k.

Definition list_req (u : option Z) (l : list (string * string)) : req :=
  mkReq 1000 u (list_to_map l) true true.

Definition example_instance (n : string) (u : Z) (private : bool) : Instance :=
  mkInstance n 1 256 u 1 None None 3 None None private false 0 "" "".

Definition list_cloud : Cloud :=
  empty_cloud
    <| c_users := table_of [mkUser "ann" None false false 0 0 [] "" None None None None None;
                            mkUser "bob" None false false 0 0 [] "" None None None None None] |>
    <| c_instances := table_of [example_instance "a" 1 false; example_instance "b" 1 true;
                                example_instance "c" 2 false] |>
    <| c_forums := table_of [mkForumCatalog "secret" "" "" None true true [] [];
                             mkForumCatalog "open" "" "" None false true [] []] |>
    <| c_topics := table_of [mkForumTopic 1 "plans" "" "" 1 false true 0 0 0 0 [] 1;
                             mkForumTopic 2 "news" "" "" 1 false true 0 0 0 0 [] 1] |>
    <| c_posts := table_of [mkForumPost 1 None "the plan" 1 false true 0 0 0] |>.

(** A private instance is on the page of the administration for every user who is logged in. *)
Example private_instance_listed :
  (shown (Index_instance (list_req None [])) list_cloud).*1 = [3; 1] ∧
  (shown (Index_admin_instance (list_req (Some 2) [])) list_cloud).*1 = [3; 2; 1].
Proof. split; vm_compute; reflexivity. Qed.

(** Without a login: the topics of a private catalog, and a post in it. *)
Example private_catalog_listed :
  (shown (get_topics (list_req None [])) list_cloud).*1 = [2] ∧
  (shown (CatalogIndex_get (list_req None [("id", "1")]%string)) list_cloud).*1 = [1] ∧
  (shown (get_posts (list_req None [])) list_cloud).*1 = [1].
Proof. split_and!; vm_compute; reflexivity. Qed.

(** Two orders that agree on all columns: the text of the request decides what is shown. *)
Definition rank_by_text : Ranks := λ _ c k _, if String.eqb c "(select password from auth_user limit 1)" then - k else k.
Example order_by_injected :
  let e := list_req None [("by", "(select password from auth_user limit 1)")]%string in
  let s := list_cloud <| c_appliances := table_of
    [mkAppliance "x" 1 None "" "" false true false 0 "" ""; mkAppliance "y" 1 None "" "" false true false 0 "" ""] |> in
  (shown (Index_appliance (RI := rank_by_id) e) s).*1 = [2; 1] ∧
  (shown (Index_appliance (RI := rank_by_text) e) s).*1 = [1; 2].
Proof. split; vm_compute; reflexivity. Qed.

(** Two rows of the same time on pages of one row each: when the database puts them in
    another order for the second request, the first is shown twice and the other never. *)
Example pages_repeat_a_row :
  let _ : Ranks := λ _ _ _ _, 0 in
  let page (T : Ties) n := (shown (Index_instance (TI := T) (list_req None [("sepa", "1"); ("p", n)]%string)) list_cloud).*1 in
  page (λ k, k) "1"%string = [1] ∧ page (λ k, - k) "2"%string = [1] ∧
  page (λ k, k) "2"%string = [3] ∧ page (λ k, - k) "1"%string = [3].
Proof. cbv zeta. split_and!; vm_compute; reflexivity. Qed.

(** Pages of no rows, and before the first. *)
Example page_size_zero :
  (Index_instance (list_req None [("sepa", "0")]%string) (start list_cloud)).1 = Raise "ZeroDivisionError" ∧
  (Index_instance (list_req None [("p", "0")]%string) (start list_cloud)).1 = Raise "DataError".
Proof. split; vm_compute; reflexivity. Qed.

Lemma lists_keep_private_witness :
  (3, example_instance "c" 2 false) ∈ shown (Index_instance (list_req None [])) list_cloud ∧
  row list_cloud 3 = Some (example_instance "c" 2 false) ∧ i_isprivate (example_instance "c" 2 false) = false.
Proof.
  assert ((3, example_instance "c" 2 false) ∈ shown (Index_instance (list_req None [])) list_cloud) as H
    by (vm_compute; by left).
  split; [exact H|]. exact (proj1 (lists_keep_private (list_req None []) list_cloud) _ _ H).
Defined.

Lemma public_pages_complete_witness :
  let e := list_req None [("sepa", "1")]%string in
  let P := λ (_ : Z) x, negb (i_isprivate x) &&
       bool_decide (i_status x ∈ status_list (get_argument e "status" "running")) &&
       view_self (cur e) (get_argument e "view" "all") x in
  select P list_cloud = [(1, example_instance "a" 1 false); (3, example_instance "c" 2 false)] ∧
  turned_once (λ T, Index_instance (TI := T)) e list_cloud P "updated" (order_arg e) (int_arg e "sepa" 24).
Proof.
  cbv zeta. split; [vm_compute; reflexivity|].
  apply (public_pages_complete (list_req None [("sepa", "1")]%string) list_cloud);
    [vm_compute; reflexivity|].
  intros j x k y _ _ _ _ H. exact H.
Defined.

Lemma order_by_is_fixed_witness :
  let e := list_req (Some 1) [("by", "(select password from auth_user limit 1)")]%string in
  Index_instance (RI := rank_by_id) e (start list_cloud) =
  Index_instance (RI := rank_by_text) e (start list_cloud).
Proof.
  cbv zeta. apply (order_by_is_fixed rank_by_id rank_by_text (λ _ _, true) _ 1 InboxBox 1 "" (start list_cloud)).
  intros A c k x Hc. unfold rank, rank_by_id, rank_by_text.
  destruct (String.eqb_spec c "(select password from auth_user limit 1)") as [->|]; [|done].
  exfalso. revert Hc. apply (bool_decide_unpack _). vm_compute. exact I.
Defined.

Lemma contains_spec_witness :
  contains "uo" "luoyun" = true ∧
  ∃ a b, list_ascii_of_string "luoyun" = a ++ list_ascii_of_string "uo" ++ b.
Proof.
  split; [vm_compute; reflexivity|]. apply (contains_spec "uo" "luoyun"); vm_compute; reflexivity.
Defined.
