(* ===== verification/Api.v ===== *)
(** The JSON interface (src/lyweb/app/api/views.py): a login that answers with
    the key of a session, requests that name the session by an argument and need
    no token against forgery, and the instances of the user. The list
    [MyInstanceList] is in [Lists]. *)
From Stdlib Require Import Ascii String.
From S2P Require Import Prelude PyText Password Table Session Cloud Web Forms Account.
#[local] Open Scope Z_scope.

Section api.
Context `{!Sha512, !SessionCodec}.

(** [get_current_user]: the key is an argument of the request. *)
Definition api_current_user (e : req) (s : Cloud) : user_result :=
  match args e !! "session_key"%string with
  | None => NoUser
  | Some key => get_current_user (now e) s (strip key)
  end.

(** The request of the user the session stands for. *)
Definition with_user (e : req) (s : Cloud) : option req :=
  match api_current_user e s with
  | UserId u => Some (mkReq (now e) (Some u) (args e) (notify_ok e) (clc_up e))
  | NoUser => Some (mkReq (now e) None (args e) (notify_ok e) (clc_up e))
  | UserRaise => None
  end.

(** [@authenticated] of this file: a message instead of a redirection. *)
Definition api_authenticated (m : req → Z → Web Cloud unit) (e : req) : Web Cloud unit :=
  s ← ask id;
  match with_user e s with
  | None => raise "UnboundLocalError: session"
  | Some e' => match cur e' with
               | Some u => m e' u
               | None => emit (WriteCode 1 "Requires authentication")
               end
  end.

(** The stored password has a salt and a digest: [enc_password.split('$')] gives two texts. *)
Definition salted (enc : string) : bool :=
  match split_on dollar enc with [_; _] => true | _ => false end.

(** [Login.post]; without a password the digest of [None] raises, when there is a salt to
    put before it. *)
Definition Login_api (e : req) (session_key : string) : Web Cloud unit :=
  o ← ask (λ s, match args e !! "username"%string with
                | Some name => user_by_name s (strip name)
                | None => None
                end);
  match o with
  | None => emit (WriteCode 1 "No such user.")
  | Some (u, U) =>
      if u_is_locked U then emit (WriteCode 1 "User is locked") else
      match args e !! "password"%string with
      | None => if salted (u_password U) then raise "TypeError" else emit (WriteCode 1 "Password is wrong.")
      | Some password =>
          if negb (check_login_passwd (strip password) (u_password U))
          then emit (WriteCode 1 "Password is wrong.") else
          save_session e session_key u;;
          modify u (λ U : User, U <| u_last_login := Some (now e) |>);;
          commit;;
          emit (WriteCode 0 session_key)
      end
  end.

(** [InstanceBaseinfo.post]: the address of the node, the port of the display is a column
    that is not kept. *)
Definition InstanceBaseinfo_post (e : req) : Web Cloud unit :=
  api_authenticated (λ e u,
    match get_argument_int e "instance_id" None with
    | None => emit (WriteCode 1 "Give me instance_id please.")
    | Some ID =>
        if ID =? 0 then emit (WriteCode 1 "Give me instance_id please.") else
        o ← get_row (A := Instance) ID;
        match o with
        | None => emit (WriteCode 1 "Can not find instance")
        | Some x =>
            if negb (i_user_id x =? u) then emit (WriteCode 1 "Instance is someone else's") else
            host ← (match i_node_id x with
                    | None => mret ""%string
                    | Some n => N ← get_row (A := Node) n;
                                mret (match N with Some N => n_ip N | None => ""%string end)
                    end);
            emit (WriteCode 0 host)
        end
    end) e.

(** What a request of the interface answers: code 0 only when it is served. *)
Definition served (o : list effect) : Prop := ∃ text, WriteCode 0 text ∈ o.

Ltac api_no := by intros (? & ? & ? & ? & ? & ? & ? & ? & ?); simplify_eq; congruence.

(** C7: the login of the interface. It is served exactly when the name is that of a user (the
    first one with this name), who is not locked, and the password is this user's; it changes
    nothing when it is not served. When it is served, the answer is a key that stands for this user until it expires, as a cookie of the
    pages too, while all other keys mean what they meant before. *)
Theorem api_login e key s :
  seq_ok (c_sessions s) → select (A := SessionRow) (λ _ r, String.eqb (sk_key r) key) s = [] →
  let '(s', o) := request (Login_api e key) s in
  (¬ served o → s' = s) ∧
  (served o ↔ ∃ u U name password,
     args e !! "username"%string = Some name ∧ args e !! "password"%string = Some password ∧
     user_by_name s (strip name) = Some (u, U) ∧ u_is_locked U = false ∧
     check_login_passwd (strip password) (u_password U) = true) ∧
  (served o → ∃ u U name password,
     args e !! "username"%string = Some name ∧ args e !! "password"%string = Some password ∧
     row s u = Some U ∧ u_username U = strip name ∧ u_is_locked U = false ∧
     check_login_passwd (strip password) (u_password U) = true ∧
     WriteCode 0 key ∈ o ∧
     (∀ t, get_current_user t s' key = if now e + SESSION_DAYS <? t then NoUser else UserId u) ∧
     (∀ t k, k ≠ key → get_current_user t s' k = get_current_user t s k)).
Proof.
  intros Hseq Hfresh. unfold request, Login_api. rewrite run_ask. change (work (start s)) with s.
  assert (∀ text, ¬ served [WriteCode 1 text]) as Hno
    by (intros text (text' & [=]%list_elem_of_singleton)).
  assert (¬ served []) as Hno' by (intros (text & Ht); by apply elem_of_nil in Ht).
  destruct (args e !! "username"%string) as [name|].
  2: { split_and!; [done| |by intros ?%Hno]. split; [by intros ?%Hno|api_no]. }
  destruct (user_by_name s (strip name)) as [[u U]|] eqn:Hby.
  2: { split_and!; [done| |by intros ?%Hno]. split; [by intros ?%Hno|api_no]. }
  pose proof Hby as HU. unfold user_by_name in HU. apply head_select in HU as [HU Hn%String.eqb_eq].
  destruct (u_is_locked U) eqn:Hl.
  { split_and!; [done| |by intros ?%Hno]. split; [by intros ?%Hno|api_no]. }
  destruct (args e !! "password"%string) as [password|].
  2: { destruct (salted _); (split_and!; [done| |by first [intros ?%Hno|intros ?%Hno']]);
       (split; [by first [intros ?%Hno|intros ?%Hno']|api_no]). }
  destruct (check_login_passwd _ _) eqn:Hc; cbn [negb].
  2: { split_and!; [done| |by intros ?%Hno]. split; [by intros ?%Hno|api_no]. }
  unfold save_session. web_run. change (work (start s)) with s. rewrite HU. web_run.
  destruct (logged_in_sessions e key u U s Hseq Hfresh HU Hl) as [H1 H2].
  match goal with |- (¬ served ?o → _) ∧ _ => assert (served o) as Hs by (exists key; set_solver) end.
  split_and!; [done|split; [|done]|].
  - intros _. by exists u, U, name, password.
  - intros _. exists u, U, name, password. split_and!; try done. set_solver.
Qed.

(** A request about an instance is served for the user of the session only, with an
    address of a node, when the instance is this user's; it changes nothing in any case. *)
Theorem api_baseinfo_own e s :
  let '(s', o) := request (InstanceBaseinfo_post e) s in
  s' = s ∧
  (served o → ∃ u i x, api_current_user e s = UserId u ∧ get_argument_int e "instance_id" None = Some i ∧
     row s i = Some x ∧ i_user_id x = u).
Proof.
  unfold request, InstanceBaseinfo_post, api_authenticated. rewrite run_ask. change (id (work (start s))) with s.
  assert (∀ text, ¬ served [WriteCode 1 text]) as Hno
    by (intros text (text' & [=]%list_elem_of_singleton)).
  assert (¬ served []) as Hno' by (intros (text & Ht); by apply elem_of_nil in Ht).
  unfold with_user. destruct (api_current_user e s) as [|u|] eqn:Hu; cbn [cur].
  - split; [done|]. by intros ?%Hno.
  - change (get_argument_int (mkReq _ _ _ _ _) "instance_id" None) with (get_argument_int e "instance_id" None).
    destruct (get_argument_int e "instance_id" None) as [i|] eqn:Hi; [|split; [done|by intros ?%Hno]].
    destruct (i =? 0); [split; [done|by intros ?%Hno]|]. rewrite run_get. change (work (start s)) with s.
    destruct (row s i) as [x|] eqn:Hx; [|split; [done|by intros ?%Hno]].
    destruct (Z.eqb_spec (i_user_id x) u) as [E|]; cbn [negb]; [|split; [done|by intros ?%Hno]].
    destruct (i_node_id x) as [n|]; [rewrite run_assoc, run_get|]; rewrite run_ret, emit_val;
      (split; [done|by exists u, i, x]).
  - split; [done|]. by intros ?%Hno'.
Qed.

(** A session made by the login of the pages serves the interface, and the other way round. *)
Lemma api_user_is_user e s key :
  args e !! "session_key"%string = Some key → strip key = key →
  api_current_user e s = get_current_user (now e) s key.
Proof. intros Hk E. unfold api_current_user. by rewrite Hk, E. Qed.
End api.

Definition api_req : req :=
  account_req None [("username", "ann"); ("password", "lilac")]%string.

Lemma api_login_witness :
  let '(s', o) := request (Login_api api_req "sk") account_cloud in
  served o ∧
  (¬ served o → s' = account_cloud) ∧
  (served o ↔ ∃ u U name password,
     args api_req !! "username"%string = Some name ∧ args api_req !! "password"%string = Some password ∧
     user_by_name account_cloud (strip name) = Some (u, U) ∧ u_is_locked U = false ∧
     check_login_passwd (strip password) (u_password U) = true) ∧
  (served o → ∃ u U name password,
     args api_req !! "username"%string = Some name ∧ args api_req !! "password"%string = Some password ∧
     row account_cloud u = Some U ∧ u_username U = strip name ∧ u_is_locked U = false ∧
     check_login_passwd (strip password) (u_password U) = true ∧
     WriteCode 0 "sk" ∈ o ∧
     (∀ t, get_current_user t s' "sk" = if now api_req + SESSION_DAYS <? t then NoUser else UserId u) ∧
     (∀ t k, k ≠ "sk"%string → get_current_user t s' k = get_current_user t account_cloud k)).
Proof.
  assert (served (request (Login_api api_req "sk") account_cloud).2) as Hs
    by (exists "sk"%string; vm_compute; by right; left).
  pose proof (api_login api_req "sk" account_cloud) as H. revert H Hs.
  destruct (request _ _) as [s' o]. intros H Hs. split; [exact Hs|]. apply H.
  - intros i _. apply lookup_empty.
  - vm_compute. reflexivity.
Defined.

(** It is served. *)
Example api_login_runs : (request (Login_api api_req "sk") account_cloud).2 =
  [SetCookie "session_key" "sk"; WriteCode 0 "sk"].
Proof. vm_compute. reflexivity. Qed.

Lemma api_baseinfo_own_witness :
  let s := account_cloud <| c_instances := table_of [mkInstance "a" 1 256 1 1 None None 2 None None false false 0 "" ""] |>
             <| c_sessions := table_of [mkSession "sk" (pack_session 1) 2000] |> in
  let e := account_req None [("session_key", "sk"); ("instance_id", "1")]%string in
  served (request (InstanceBaseinfo_post e) s).2 ∧
  ∃ u i x, api_current_user e s = UserId u ∧ get_argument_int e "instance_id" None = Some i ∧
     row s i = Some x ∧ i_user_id x = u.
Proof.
  cbv zeta. set (s := _ <| c_sessions := _ |>). set (e := account_req _ _).
  assert (served (request (InstanceBaseinfo_post e) s).2) as H.
  { exists ""%string. vm_compute. by left. }
  split; [exact H|]. pose proof (api_baseinfo_own e s) as T. revert T H.
  destruct (request (InstanceBaseinfo_post e) s) as [s' o]. intros [_ T] H. exact (T H).
Defined.
