(* ===== verification/MailStore.v ===== *)
(** The mail store of the controller (src/lyweb/lib/yweb/mail.py): senders write
    one file for each e-mail into a directory, the thread [FileSysMail] lists the
    directory and passes what it finds to the SMTP server. The model is a
    transition system whose steps are the calls that touch the directory or the
    server, so that senders and the thread interleave as the threads of the
    server do. A name of the directory leads to an inode: [open(p, 'w')] on a
    name in use truncates the same file, and a file unlinked while a sender
    writes it is lost. *)
From Stdlib Require Import Ascii String.
From S2P Require Import Prelude Table.
#[local] Open Scope Z_scope.

(** ** State *)

Record Email := mkEmail {
  em_text : string; em_subject : option string; em_to : option string;
  em_from : string; em_mime : string }.

#[export] Instance Email_eq_dec : EqDecision Email.
Proof. solve_decision. Defined.

Definition email_unique : string := "unique-send".

(** Where [run] stands. [Passing] is the head of [while email_list]; [Loaded] a
    mail that was read, [Sent] one whose [sendmail] is over and whose file is there
    still; [Quitting] the [finally] clause, with the connection up or not. *)
Inductive phase :=
  | Looping
  | Connecting (l : list string)
  | LoggingIn (l : list string)
  | Passing (l : list string)
  | Loaded (n : string) (m : Email) (l : list string)
  | Sent (n : string) (m : Email) (l : list string)
  | Quitting (connected : bool)
  | Stopped
  | Died.

(** [inodes] holds [None] for a file that is being written (nothing can be
    unpickled from it); [writers] are the calls of [send] between [open] and
    [close]. The lists of mails are the history of the run: [accepted] by
    [send], [tried] those the server answered for, with its answer (taken or
    refused), [unsent] those for which [sendmail] was never answered - the text of the
    message could not be made, or there was no connection any more - and [again] those
    whose file could not be removed. *)
Record mailer := mkMailer {
  dir : gmap string nat; inodes : gmap nat (option Email); next : nat;
  writers : list (nat * Email); at_ : phase; do_quit : bool;
  accepted : list Email; tried : list (Email * bool); unsent : list Email; again : list Email }.

#[export] Instance eta_Email : Eta Email :=
  λ r, mkEmail (em_text r) (em_subject r) (em_to r) (em_from r) (em_mime r).
#[export] Instance eta_mailer : Eta mailer :=
  λ r, mkMailer (dir r) (inodes r) (next r) (writers r) (at_ r) (do_quit r)
         (accepted r) (tried r) (unsent r) (again r).

Definition new_mailer : mailer := mkMailer ∅ ∅ 0 [] Looping false [] [] [] [].

(** ** Steps *)

(** The first five kinds are steps of the thread with the answer they get, the
    next two those of a sender, [End] is the call of [end]. [Sendmail] stands for the inner
    [try] of [run]: [Some ok] is the server's answer, [None] an exception before it had the
    mail ([as_rfc_message], [as_string], or a connection that was lost). *)
Inductive event :=
  | Listdir (l : list string)
  | Connect (ok : bool)
  | Login (ok : bool)
  | Load
  | Sendmail (reply : option bool)
  | Unlink (ok : bool)
  | Quit (ok : bool)
  | Leave
  | Open (n : string) (m : Email)
  | Close (k : nat)
  | End.

(** [get_email(name)]: no file, or nothing to unpickle, raises. *)
Definition get_email (st : mailer) (n : string) : option Email :=
  i ← dir st !! n; m ← inodes st !! i; m.

(** The directory as names with the mails that can be read. *)
Definition files (st : mailer) : gmap string Email := omap (λ i, m ← inodes st !! i; m) (dir st).

Definition names (st : mailer) : list string := (map_to_list (dir st)).*1.

(** [send], up to and including [open(p, 'w')], and from there on. *)
Definition send_open (n : string) (m : Email) (st : mailer) : mailer :=
  match dir st !! n with
  | Some i => st <| inodes ::= <[i := None]> |> <| writers ::= λ l, l ++ [(i, m)] |>
  | None => st <| dir ::= <[n := next st]> |> <| inodes ::= <[next st := None]> |>
               <| next ::= Datatypes.S |> <| writers ::= λ l, l ++ [(next st, m)] |>
  end.
Definition send_close (k : nat) (st : mailer) : option mailer :=
  '(i, m) ← writers st !! k;
  Some (st <| inodes ::= <[i := Some m]> |> <| writers ::= delete k |>
           <| accepted ::= λ l, l ++ [m] |>).

(** [delete_email(name)]: a failure is logged. *)
Definition delete_email (n : string) (m : Email) (ok : bool) (st : mailer) : mailer :=
  if ok && bool_decide (is_Some (dir st !! n)) then st <| dir ::= delete n |>
  else st <| again ::= λ l, l ++ [m] |>.

(** [email_list.pop()] *)
Definition pop_last {A} (l : list A) : option (A * list A) :=
  x ← last l; Some (x, take (pred (length l)) l).

(** One step; [login] tells whether a user and a password are configured.
    [smtp.quit()] on a connection that was never made raises, in the [finally]
    clause of the thread. *)
Definition step (login : bool) (st : mailer) (ev : event) : option mailer :=
  match ev, at_ st with
  | Listdir l, Looping =>
      if do_quit st then None
      else if decide (l ≡ₚ names st) then
        Some (st <| at_ := match l with [] => Looping | _ => Connecting l end |>)
      else None
  | Leave, Looping => if do_quit st then Some (st <| at_ := Stopped |>) else None
  | Connect ok, Connecting l =>
      Some (st <| at_ := if ok then (if login then LoggingIn l else Passing l) else Quitting false |>)
  | Login ok, LoggingIn l => Some (st <| at_ := if ok then Passing l else Quitting true |>)
  | Load, Passing l =>
      match pop_last l with
      | None => Some (st <| at_ := Quitting true |>)
      | Some (n, l') =>
          match get_email st n with
          | Some m => Some (st <| at_ := Loaded n m l' |>)
          | None => Some (st <| at_ := Quitting true |>)
          end
      end
  | Sendmail (Some ok), Loaded n m l =>
      Some (st <| tried ::= λ k, k ++ [(m, ok)] |> <| at_ := Sent n m l |>)
  | Sendmail None, Loaded n m l =>
      Some (st <| unsent ::= λ k, k ++ [m] |> <| at_ := Sent n m l |>)
  | Unlink ok, Sent n m l => Some ((delete_email n m ok st) <| at_ := Passing l |>)
  | Quit ok, Quitting connected =>
      Some (st <| at_ := if connected && ok then Looping else Died |>)
  | Open n m, _ => Some (send_open n m st)
  | Close k, _ => send_close k st
  | End, _ => Some (st <| do_quit := true |>)
  | _, _ => None
  end.

Definition run (login : bool) (st : mailer) (evs : list event) : option mailer :=
  foldl (λ o ev, st ← o; step login st ev) (Some st) evs.

(** [FileSysMail.init]: the directory exists or is made. *)
Definition init (exists_ makedirs_ok : bool) : bool := exists_ || makedirs_ok.

(** ** Nothing that was accepted is lost *)

(** The mails on disk for which [sendmail] was not called since they were loaded. *)
Definition pending (st : mailer) : gmap string Email :=
  match at_ st with Sent n _ _ => delete n (files st) | _ => files st end.
Definition waiting (st : mailer) : list Email := (map_to_list (pending st)).*2.

(** A sender takes a name that is not in use. *)
Definition fresh_name (st : mailer) (ev : event) : Prop :=
  match ev with Open n _ => dir st !! n = None | _ => True end.

(** The states of runs whose steps all satisfy [P]. *)
Inductive reach (login : bool) (P : mailer → event → Prop) : mailer → Prop :=
  | reach_new : reach login P new_mailer
  | reach_step st ev st' :
      reach login P st → P st ev → step login st ev = Some st' → reach login P st'.

Record mailer_ok (st : mailer) : Prop := {
  ok_next n i : dir st !! n = Some i → (i < next st)%nat;
  ok_inj n n' i : dir st !! n = Some i → dir st !! n' = Some i → n = n';
  ok_open k i m : writers st !! k = Some (i, m) →
    inodes st !! i = Some None ∧ ∃ n, dir st !! n = Some i;
  ok_apart k k' i m m' : writers st !! k = Some (i, m) → writers st !! k' = Some (i, m') → k = k';
  ok_current : match at_ st with
               | Loaded n m _ | Sent n m _ => get_email st n = Some m
               | _ => True
               end;
  ok_mails : accepted st ++ again st ≡ₚ (tried st).*1 ++ unsent st ++ waiting st }.

Lemma files_get st n : files st !! n = get_email st n.
Proof. unfold files, get_email. by rewrite lookup_omap. Qed.

Lemma files_ext st st' : (∀ n, get_email st' n = get_email st n) → files st' = files st.
Proof. intros H. apply map_eq. intros n. by rewrite !files_get. Qed.

(** A step that only moves the thread. *)
Lemma ok_move st a :
  mailer_ok st → match at_ st with Sent _ _ _ => False | _ => True end →
  match a with
  | Loaded n m _ => get_email st n = Some m
  | Sent _ _ _ => False
  | _ => True
  end → mailer_ok (st <| at_ := a |>).
Proof.
  intros [H1 H2 H3 H4 H5 H6] Hs Ha. split; try done; [by destruct a|].
  assert (pending (st <| at_ := a |>) = pending st) as E
    by (unfold pending; cbn; by destruct a, (at_ st)).
  unfold waiting in *. by rewrite E.
Qed.

Lemma values_insert (f : gmap string Email) n m :
  f !! n = None → (map_to_list (<[n := m]> f)).*2 ≡ₚ m :: (map_to_list f).*2.
Proof. intros H. by rewrite map_to_list_insert. Qed.

Lemma values_delete (f : gmap string Email) n m :
  f !! n = Some m → (map_to_list f).*2 ≡ₚ m :: (map_to_list (delete n f)).*2.
Proof.
  intros H. rewrite <- (insert_id f n m H) at 1. rewrite <- insert_delete_eq.
  apply values_insert, lookup_delete_eq.
Qed.

Lemma lookup_deleted {A} (l : list A) k j x :
  delete k l !! j = Some x →
  ∃ i, i ≠ k ∧ l !! i = Some x ∧ j = if decide (i < k)%nat then i else pred i.
Proof.
  intros H. destruct (decide (j < k)%nat).
  - rewrite list_lookup_delete_lt in H by done. exists j. rewrite decide_True by done.
    split_and!; [lia|done|done].
  - rewrite list_lookup_delete_ge in H by lia. exists (Datatypes.S j).
    rewrite decide_False by lia. split_and!; [lia|done|done].
Qed.

(** What senders do to what can be read. *)
Lemma get_email_open n m st n' :
  dir st !! n = None → mailer_ok st → get_email (send_open n m st) n' = get_email st n'.
Proof.
  intros Hn Hok. unfold get_email, send_open. rewrite Hn. cbn.
  destruct (decide (n = n')) as [<-|Hne].
  - rewrite lookup_insert_eq, Hn. cbn. by rewrite lookup_insert_eq.
  - rewrite lookup_insert_ne by done. destruct (dir st !! n') as [i|] eqn:E; [|done]. cbn.
    apply (ok_next _ Hok) in E. rewrite lookup_insert_ne; [done|lia].
Qed.

Lemma get_email_close k st st' i m n n' :
  send_close k st = Some st' → writers st !! k = Some (i, m) → dir st !! n = Some i →
  mailer_ok st → get_email st' n' = if decide (n = n') then Some m else get_email st n'.
Proof.
  unfold send_close. intros Hs Hk Hn Hok. rewrite Hk in Hs. cbn in Hs. injection Hs as <-.
  unfold get_email. cbn. case_decide as E.
  - subst n'. rewrite Hn. cbn. by rewrite lookup_insert_eq.
  - destruct (dir st !! n') as [j|] eqn:Hj; [|done]. cbn.
    rewrite lookup_insert_ne; [done|]. intros <-. destruct E. by eapply ok_inj.
Qed.

Lemma send_open_ok n m st :
  dir st !! n = None → mailer_ok st → mailer_ok (send_open n m st).
Proof.
  intros Hn Hok. pose proof (λ n', get_email_open n m st n' Hn Hok) as Hg.
  destruct Hok as [H1 H2 H3 H4 H5 H6].
  unfold send_open in *. rewrite Hn in *. cbn in *. set (st' := mkMailer _ _ _ _ _ _ _ _ _ _) in *.
  assert (files st' = files st) as Hfs by by apply files_ext.
  split; cbn.
  - intros n' i [[<- <-]|[_ Hi%H1]]%lookup_insert_Some; lia.
  - intros n1 n2 i [[<- <-]|[_ Hi]]%lookup_insert_Some [[<- Hj]|[_ Hj]]%lookup_insert_Some;
      [done| | |by eapply H2].
    + apply H1 in Hj. lia.
    + subst. apply H1 in Hi. lia.
  - intros k i m' [Hk|[_ Hk]]%lookup_app_Some.
    + destruct (H3 _ _ _ Hk) as [Hi [n' Hn']]. pose proof (H1 _ _ Hn').
      split; [rewrite lookup_insert_ne; [done|lia]|]. exists n'.
      rewrite lookup_insert_ne; [done|congruence].
    + apply list_lookup_singleton_Some in Hk as [_ [= <- <-]].
      split; [by rewrite lookup_insert_eq|]. exists n. by rewrite lookup_insert_eq.
  - assert (∀ k m', writers st !! k = Some (next st, m') → False) as Hf.
    { intros k m' Hk. destruct (H3 _ _ _ Hk) as [_ [n' Hn'%H1]]. lia. }
    intros k k' i m1 m2 [Hk|[Hl Hk]]%lookup_app_Some [Hk'|[Hl' Hk']]%lookup_app_Some; [by eapply H4| | |].
    + apply list_lookup_singleton_Some in Hk' as [_ [= <- <-]]. by apply Hf in Hk.
    + apply list_lookup_singleton_Some in Hk as [_ [= <- <-]]. by apply Hf in Hk'.
    + apply list_lookup_singleton_Some in Hk as [Hk _], Hk' as [Hk' _]. lia.
  - by destruct (at_ st); rewrite ?Hg.
  - rewrite H6. unfold waiting, pending. by rewrite Hfs.
Qed.

Lemma send_close_ok k st st' : send_close k st = Some st' → mailer_ok st → mailer_ok st'.
Proof.
  intros Hs Hok. pose proof Hs as Hs'. unfold send_close in Hs'.
  destruct (writers st !! k) as [[i m]|] eqn:Hk; [|done]. cbn in Hs'. injection Hs' as E.
  destruct (ok_open _ Hok _ _ _ Hk) as [Hi [n Hn]].
  pose proof (λ n', get_email_close _ _ _ _ _ _ n' Hs Hk Hn Hok) as Hg. clear Hs.
  destruct Hok as [H1 H2 H3 H4 H5 H6]. subst st'. set (st' := mkMailer _ _ _ _ _ _ _ _ _ _) in *.
  assert (get_email st n = None) as Hn0 by (unfold get_email; rewrite Hn; cbn; by rewrite Hi).
  assert (files st' = <[n := m]> (files st)) as Hf.
  { apply map_eq. intros n'. rewrite files_get, Hg, lookup_insert, files_get.
    by repeat case_decide. }
  split; cbn.
  - done.
  - done.
  - intros k' j m' Hk'. 
    apply lookup_deleted in Hk' as (k2 & Hne & Hk2 & _).
    destruct (H3 _ _ _ Hk2) as [Hj Hd]. split; [|done].
    rewrite lookup_insert_ne; [done|]. intros <-. destruct Hne. by eapply H4.
  - intros k1 k2 j m1 m2 E1 E2. 
    apply lookup_deleted in E1 as (j1 & N1 & E1 & ->), E2 as (j2 & N2 & E2 & ->).
    by rewrite (H4 _ _ _ _ _ E1 E2).
  - destruct (at_ st) as [| | | |n' m' ?|n' m' ?| | |]; try done.
    all: change (get_email st' n' = Some m'); rewrite Hg; case_decide; [by subst; rewrite Hn0 in H5|done].
  - assert (waiting st' ≡ₚ m :: waiting st) as ->.
    { unfold waiting, pending. rewrite Hf. cbn. destruct (at_ st) as [| | | | |n' m' ?| | |];
        try (apply values_insert; by rewrite files_get).
      rewrite delete_insert_ne by (intros ->; congruence).
      apply values_insert. rewrite lookup_delete_None, files_get. auto. }
    rewrite <- app_assoc. cbn. rewrite <- Permutation_middle, H6. by rewrite !Permutation_middle.
Qed.

(** A mail that was loaded waits until [sendmail] is over. *)
Lemma loaded_waits st n m l :
  mailer_ok st → at_ st = Loaded n m l → waiting st ≡ₚ m :: (map_to_list (delete n (files st))).*2.
Proof.
  intros Hok Ha. unfold waiting, pending. rewrite Ha. apply values_delete. rewrite files_get.
  pose proof (ok_current _ Hok) as H. by rewrite Ha in H.
Qed.

Lemma step_ok login st ev st' :
  fresh_name st ev → step login st ev = Some st' → mailer_ok st → mailer_ok st'.
Proof.
  intros Hf Hs Hok. unfold step in Hs. destruct ev as [l|ok|ok| |[ok|]|ok|ok| |n m|k| ]; cbv beta iota in Hs.
  10: { simplify_eq. by apply send_open_ok. }
  10: { by eapply send_close_ok. }
  10: { simplify_eq. by destruct Hok; split. }
  all: destruct (at_ st) as [|l'|l'|l'|n m l'|n m l'|c| |] eqn:Ha; try done.
  - destruct (do_quit st); [done|]. case_decide; [|done]. simplify_eq.
    apply ok_move; [done|by rewrite Ha|]. by destruct l.
  - simplify_eq. apply ok_move; [done|by rewrite Ha|]. by destruct ok, login.
  - simplify_eq. apply ok_move; [done|by rewrite Ha|]. by destruct ok.
  - destruct (pop_last l') as [[n l]|]; [destruct (get_email st n) eqn:E|]; simplify_eq;
      (apply ok_move; [done|by rewrite Ha|done]).
  - pose proof (loaded_waits st n m l' Hok Ha) as Hw.
    simplify_eq; destruct Hok as [H1 H2 H3 H4 H5 H6]. split; cbn; try done; [by rewrite Ha in H5|].
    rewrite H6, Hw, fmap_app, <- app_assoc. cbn. f_equiv. by rewrite <- Permutation_middle.
  - pose proof (loaded_waits st n m l' Hok Ha) as Hw.
    simplify_eq; destruct Hok as [H1 H2 H3 H4 H5 H6]. split; cbn; try done; [by rewrite Ha in H5|].
    by rewrite H6, Hw, <- (app_assoc (unsent st)).
  - simplify_eq. destruct Hok as [H1 H2 H3 H4 H5 H6]. rewrite Ha in H5. unfold delete_email.
    assert (is_Some (dir st !! n)) as Hd by (unfold get_email in H5; by destruct (dir st !! n)).
    unfold waiting, pending in H6. rewrite Ha in H6. destruct ok; cbn.
    + rewrite bool_decide_true by done. split; cbn; try done.
      * intros n' i [_ Hi]%lookup_delete_Some. by eapply H1.
      * intros n1 n2 i [_ Hi]%lookup_delete_Some [_ Hj]%lookup_delete_Some. by eapply H2.
      * intros k i m' Hk. destruct (H3 _ _ _ Hk) as [Hi [n' Hn']]. split; [done|].
        exists n'. rewrite lookup_delete_ne; [done|]. intros <-.
        unfold get_email in H5. rewrite Hn' in H5. cbn in H5. rewrite Hi in H5. discriminate H5.
      * rewrite H6. unfold waiting, pending, files. cbn. by rewrite omap_delete.
    + split; cbn; try done. rewrite app_assoc, H6, <- !app_assoc. do 2 f_equiv.
      rewrite Permutation_app_comm. symmetry. unfold waiting, pending.
      apply (values_delete (files st)). by rewrite files_get.
  - simplify_eq. apply ok_move; [done|by rewrite Ha|by destruct (_ && _)].
  - destruct (do_quit st); [|done]. simplify_eq. apply ok_move; [done|by rewrite Ha|done].
Qed.

Lemma reach_ok login P st :
  (∀ st ev, P st ev → fresh_name st ev) → reach login P st → mailer_ok st.
Proof.
  intros HP. induction 1 as [|st ev st' _ IH Hp Hs].
  - by split.
  - by eapply step_ok; [apply HP| |].
Qed.

(** [sendmail] is answered by the server. *)
Definition answered (ev : event) : Prop := ev ≠ Sendmail None.

Lemma reach_weaken login (P Q : mailer → event → Prop) st :
  (∀ st ev, P st ev → Q st ev) → reach login P st → reach login Q st.
Proof. intros HPQ. induction 1; [apply reach_new|]. eapply reach_step; eauto. Qed.

Lemma unsent_step login st ev st' :
  step login st ev = Some st' → unsent st' = unsent st ∨ ev = Sendmail None ∧
    ∃ n m l, at_ st = Loaded n m l ∧ unsent st' = unsent st ++ [m].
Proof.
  intros H. destruct ev as [l|ok|ok| |[ok|]|ok|ok| |n m|k|]; unfold step in H; cbv beta iota in H.
  10: { left. injection H as <-. unfold send_open. by destruct (dir st !! n). }
  10: { left. unfold send_close in H. destruct (writers st !! k) as [[i m]|]; [|done]. by injection H as <-. }
  10: { left. by injection H as <-. }
  all: destruct (at_ st) eqn:Ha; try done; try (injection H as <-; by left).
  all: repeat case_match; simplify_eq; try (by left).
  - right. split; [done|]. eauto.
  - left. unfold delete_email. by case_match.
Qed.

(** C33: when senders take fresh names, the mails [send] accepted, with those that had to
    be sent again because their file could not be removed, are at every moment
    those the SMTP server answered for, those for which [sendmail] ended without an answer
    (they are deleted all the same, and nobody gets them), and those that wait on disk,
    however the threads interleave. So the only mails lost are those of the second
    kind: there are none as long as the server answers for each. *)
Theorem mails_conserved login st :
  reach login fresh_name st →
  accepted st ++ again st ≡ₚ (tried st).*1 ++ unsent st ++ waiting st ∧
  (reach login (λ st ev, fresh_name st ev ∧ answered ev) st →
   accepted st ++ again st ≡ₚ (tried st).*1 ++ waiting st).
Proof.
  intros H. assert (mailer_ok st) as Hok by by apply (reach_ok login fresh_name).
  split; [by apply ok_mails|]. intros Ha. rewrite (ok_mails _ Hok).
  assert (unsent st = []) as ->; [|done]. clear H Hok.
  induction Ha as [|st ev st' _ IH [_ Hev] Hs]; [done|].
  destruct (unsent_step _ _ _ _ Hs) as [->|[-> _]]; done.
Qed.

(** ** A pass sends everything it listed *)

(** The steps of the thread from one [listdir] to the end of [finally] when the
    server answers; [oks] tells which mails it takes. *)
Definition pass_mails (oks : list bool) : list event :=
  oks ≫= λ b, [Load; Sendmail (Some b); Unlink true].
Definition pass (login : bool) (l : list string) (oks : list bool) : list event :=
  [Listdir l; Connect true] ++ (if login then [Login true] else []) ++
  pass_mails oks ++ [Load; Quit true].

(** [sends st st']: senders did something. *)
Inductive sends (login : bool) : mailer → mailer → Prop :=
  | sends_refl st : sends login st st
  | sends_open st n m st' :
      dir st !! n = None → sends login (send_open n m st) st' → sends login st st'
  | sends_close st k st1 st' :
      send_close k st = Some st1 → sends login st1 st' → sends login st st'.

(** The thread makes the steps [evs] while senders interleave. *)
Inductive mixed (login : bool) : mailer → list event → mailer → Prop :=
  | mixed_nil st st' : sends login st st' → mixed login st [] st'
  | mixed_cons st st0 ev st1 evs st' :
      sends login st st0 → step login st0 ev = Some st1 → mixed login st1 evs st' →
      mixed login st (ev :: evs) st'.

(** What senders leave alone. *)
Record undisturbed (st st' : mailer) : Prop := {
  un_at : at_ st' = at_ st;
  un_quit : do_quit st' = do_quit st;
  un_tried : tried st' = tried st;
  un_unsent : unsent st' = unsent st;
  un_email n m : get_email st n = Some m → get_email st' n = Some m }.

Lemma sends_undisturbed login st st' :
  sends login st st' → mailer_ok st → mailer_ok st' ∧ undisturbed st st'.
Proof.
  induction 1 as [st|st n m st' Hn _ IH|st k st1 st' Hk _ IH]; intros Hok.
  - done.
  - destruct (IH (send_open_ok n m st Hn Hok)) as [Hok' [U1 U2 U3 U3' U4]]. split; [done|].
    unfold send_open in U1, U2, U3, U3'. rewrite Hn in U1, U2, U3, U3'. split; try done.
    intros n' m' E. apply U4. by rewrite get_email_open.
  - destruct (IH (send_close_ok k st st1 Hk Hok)) as [Hok' [U1 U2 U3 U3' U4]]. split; [done|].
    pose proof Hk as E. unfold send_close in E.
    destruct (writers st !! k) as [[i m]|] eqn:Hw; [|done]. cbn in E.
    destruct (ok_open _ Hok _ _ _ Hw) as [Hi [n Hn]].
    split; [by simplify_eq..|]. intros n' m' E'. apply U4.
    rewrite (get_email_close _ _ _ _ _ _ _ Hk Hw Hn Hok). case_decide as En; [|done].
    subst n'. unfold get_email in E'. rewrite Hn in E'. cbn in E'. by rewrite Hi in E'.
Qed.

Lemma mixed_inv login st ev evs st' :
  mixed login st (ev :: evs) st' → mailer_ok st → (∀ st0, fresh_name st0 ev) →
  ∃ st0 st1, mailer_ok st0 ∧ undisturbed st st0 ∧ step login st0 ev = Some st1 ∧
    mailer_ok st1 ∧ mixed login st1 evs st'.
Proof.
  inversion 1 as [|? st0 ? st1 ? ? Hs Hev Hm]; subst. intros Hok Hf.
  destruct (sends_undisturbed _ _ _ Hs Hok). exists st0, st1. split_and!; try done.
  by eapply step_ok; [apply Hf| |].
Qed.

Lemma pop_last_reverse {A} (x : A) l : pop_last (reverse (x :: l)) = Some (x, reverse l).
Proof.
  unfold pop_last. rewrite reverse_cons, last_snoc. cbn. rewrite length_app. cbn.
  rewrite take_app_le by lia. rewrite take_ge by lia. done.
Qed.

(** The thread in front of the mails [l], given with their names. *)
Definition in_pass (st : mailer) (l : list (string * Email)) : Prop :=
  at_ st = Passing (reverse l.*1) ∧ NoDup l.*1 ∧
  Forall (λ p, get_email st p.1 = Some p.2) l.

Lemma in_pass_undisturbed st st' l : undisturbed st st' → in_pass st l → in_pass st' l.
Proof.
  intros U (Ha & Hd & Hl). split_and!; [by rewrite (un_at _ _ U)|done|].
  eapply Forall_impl; [exact Hl|]. intros p. apply (un_email _ _ U).
Qed.

(** One mail: loaded, passed to the server, removed. *)
Lemma pass_mail login st n m l ok evs st' :
  mailer_ok st → in_pass st ((n, m) :: l) →
  mixed login st ([Load; Sendmail (Some ok); Unlink true] ++ evs) st' →
  ∃ st1, mailer_ok st1 ∧ in_pass st1 l ∧ tried st1 = tried st ++ [(m, ok)] ∧ unsent st1 = unsent st ∧
    do_quit st1 = do_quit st ∧ mixed login st1 evs st'.
Proof.
  intros Hok Hin Hm.
  apply mixed_inv in Hm as (s1 & s2 & _ & U1 & E1 & Hok2 & Hm); [|done..].
  destruct (in_pass_undisturbed _ _ _ U1 Hin) as (Ha & Hd & Hl). cbn [fmap list_fmap fst] in Ha, Hd.
  apply NoDup_cons in Hd as [Hn Hd]. apply Forall_cons in Hl as [Hnm Hl]. cbn [fst snd] in Hnm.
  unfold step in E1. rewrite Ha, pop_last_reverse, Hnm in E1. injection E1 as E1.
  apply mixed_inv in Hm as (s3 & s4 & _ & U3 & E3 & Hok4 & Hm); [|done..].
  unfold step in E3. rewrite (un_at _ _ U3) in E3. subst s2. cbn in E3. injection E3 as E3.
  apply mixed_inv in Hm as (s5 & s6 & _ & U5 & E5 & Hok6 & Hm); [|done..].
  unfold step in E5. rewrite (un_at _ _ U5) in E5. subst s4. cbn in E5.
  assert (∀ n' m', get_email s1 n' = Some m' → get_email s5 n' = Some m') as He.
  { intros n' m' E. apply (un_email _ _ U5). change (get_email s3 n' = Some m').
    by apply (un_email _ _ U3). }
  assert (tried s5 = tried st ++ [(m, ok)]) as Ht.
  { rewrite (un_tried _ _ U5). cbn. rewrite (un_tried _ _ U3). cbn. by rewrite (un_tried _ _ U1). }
  assert (unsent s5 = unsent st) as Hu.
  { rewrite (un_unsent _ _ U5). cbn. rewrite (un_unsent _ _ U3). cbn. by rewrite (un_unsent _ _ U1). }
  assert (do_quit s5 = do_quit st) as Hq.
  { rewrite (un_quit _ _ U5). cbn. rewrite (un_quit _ _ U3). cbn. by rewrite (un_quit _ _ U1). }
  assert (is_Some (dir s5 !! n)) as Hs.
  { pose proof (He _ _ Hnm) as E. unfold get_email in E. by destruct (dir s5 !! n). }
  unfold delete_email in E5. rewrite (bool_decide_true _ Hs) in E5. cbn in E5. injection E5 as E5.
  exists s6. split_and!; [done| |by subst s6|by subst s6|by subst s6|done]. subst s6.
  split_and!; [done|done|]. rewrite Forall_forall in Hl |- *. intros [n' m'] Hp.
  pose proof (He _ _ (Hl _ Hp)) as E. cbn [fst snd] in *. unfold get_email in E |- *. cbn.
  rewrite lookup_delete_ne; [done|]. intros <-. apply Hn, list_elem_of_fmap. by exists (n, m').
Qed.

(** All of them, from the last of the list on, then [smtp.quit()]. *)
Lemma pass_rest login l : ∀ st oks st',
  mailer_ok st → in_pass st l → length oks = length l →
  mixed login st (pass_mails oks ++ [Load; Quit true]) st' →
  mailer_ok st' ∧ at_ st' = Looping ∧ tried st' = tried st ++ zip l.*2 oks ∧
  unsent st' = unsent st ∧ do_quit st' = do_quit st.
Proof.
  induction l as [|[n m] l IH]; intros st [|ok oks] st' Hok Hin Hlen Hm; try done.
  - apply mixed_inv in Hm as (s1 & s2 & _ & U1 & E1 & Hok2 & Hm); [|done..].
    destruct (in_pass_undisturbed _ _ _ U1 Hin) as (Ha & _ & _).
    unfold step in E1. rewrite Ha in E1. cbn in E1. injection E1 as E1.
    apply mixed_inv in Hm as (s3 & s4 & _ & U3 & E3 & Hok4 & Hm); [|done..].
    unfold step in E3. rewrite (un_at _ _ U3) in E3. subst s2. cbn in E3. injection E3 as E3.
    inversion Hm as [? ? Hs|]; subst.
    destruct (sends_undisturbed _ _ _ Hs Hok4) as [Hok' U]. cbn [fmap list_fmap zip zip_with].
    split_and!; [done|by rewrite (un_at _ _ U)| | |].
    + rewrite (un_tried _ _ U). cbn. rewrite (un_tried _ _ U3). cbn.
      by rewrite (un_tried _ _ U1), app_nil_r.
    + rewrite (un_unsent _ _ U). cbn. rewrite (un_unsent _ _ U3). cbn. apply (un_unsent _ _ U1).
    + rewrite (un_quit _ _ U). cbn. rewrite (un_quit _ _ U3). cbn. apply (un_quit _ _ U1).
  - unfold pass_mails in Hm. rewrite bind_cons, <- app_assoc in Hm.
    apply (pass_mail _ _ n m l) in Hm as (st1 & Hok1 & Hin1 & Ht & Hu & Hq & Hm); [|done..].
    destruct (IH st1 oks st') as (? & ? & Ht' & ? & ?); [done|done|by injection Hlen|done|].
    split_and!; [done|done| |congruence|congruence]. by rewrite Ht', Ht, <- app_assoc.
Qed.

Lemma pass_runs login l : ∀ st oks,
  in_pass st l → length oks = length l →
  ∃ st', mixed login st (pass_mails oks ++ [Load; Quit true]) st'.
Proof.
  induction l as [|[n m] l IH]; intros st [|ok oks] (Ha & Hd & Hl) Hlen; try done.
  - eexists. eapply mixed_cons; [apply sends_refl|unfold step; by rewrite Ha|].
    eapply mixed_cons; [apply sends_refl|done|]. apply mixed_nil, sends_refl.
  - cbn [fmap list_fmap fst] in Ha, Hd. apply NoDup_cons in Hd as [Hn Hd].
    apply Forall_cons in Hl as [Hnm Hl]. cbn [fst snd] in Hnm.
    assert (is_Some (dir st !! n)) as Hs by (unfold get_email in Hnm; by destruct (dir st !! n)).
    destruct (IH ((delete_email n m true (st <| tried ::= λ k, k ++ [(m, ok)] |>))
                   <| at_ := Passing (reverse l.*1) |>) oks) as [st' Hst'].
    { split_and!; [done|done|]. rewrite Forall_forall in Hl |- *. intros [n' m'] Hp.
      pose proof (Hl _ Hp) as E. cbn [fst snd] in *. unfold delete_email, get_email in E |- *.
      rewrite (bool_decide_true _ Hs). cbn.
      rewrite lookup_delete_ne; [done|]. intros <-. apply Hn, list_elem_of_fmap. by exists (n, m'). }
    { by injection Hlen. }
    exists st'. unfold pass_mails. rewrite bind_cons, <- app_assoc.
    eapply mixed_cons; [apply sends_refl|unfold step; by rewrite Ha, pop_last_reverse, Hnm|].
    eapply mixed_cons; [apply sends_refl|reflexivity|].
    eapply mixed_cons; [apply sends_refl| |exact Hst'].
    unfold step, delete_email. cbn. by rewrite (bool_decide_true _ Hs).
Qed.

(** What [listdir] finds, with the mails of the files. *)
Lemma listed_mails st l :
  l ≡ₚ names st → Forall (λ n, is_Some (get_email st n)) l →
  ∃ k, reverse k.*1 = l ∧ NoDup k.*1 ∧ Forall (λ p, get_email st p.1 = Some p.2) k.
Proof.
  intros Hl Hf. assert (NoDup (reverse l)) as Hd.
  { rewrite reverse_Permutation, Hl. apply NoDup_fst_map_to_list. }
  assert (Forall (λ n, is_Some (get_email st n)) (reverse l)) as Hf' by by rewrite reverse_Permutation.
  rewrite <- (reverse_involutive l). revert Hd Hf'. generalize (reverse l). clear.
  induction l as [|n l IH]; intros Hd Hf; [by exists []|].
  apply NoDup_cons in Hd as [Hn Hd]. apply Forall_cons in Hf as [[m Hm] Hf].
  destruct (IH Hd Hf) as (k & Hk & Hdk & Hfk). exists ((n, m) :: k).
  apply (f_equal reverse) in Hk. rewrite !reverse_involutive in Hk. subst l.
  split_and!; [done|by apply NoDup_cons|by apply Forall_cons].
Qed.

(** C34: the thread at the head of its loop lists the directory; when every file listed
    is complete and the server answers, the pass comes to its end, back at the head of
    the loop, and passes every mail it listed to the server once, in the reverse order
    of the listing, whatever senders add in the meantime. *)
Theorem pass_delivers login st l oks :
  reach login fresh_name st → at_ st = Looping → do_quit st = false →
  l ≡ₚ names st → l ≠ [] → Forall (λ n, is_Some (get_email st n)) l →
  length oks = length l →
  (∃ st', mixed login st (pass login l oks) st') ∧
  ∀ st', mixed login st (pass login l oks) st' →
    at_ st' = Looping ∧
    tried st' = tried st ++ zip (omap (get_email st) (reverse l)) oks ∧ unsent st' = unsent st ∧
    accepted st' ++ again st' ≡ₚ (tried st').*1 ++ unsent st ++ waiting st'.
Proof.
  intros Hr Ha Hq Hl Hne Hf Hlen. pose proof (reach_ok _ _ _ (λ _ _ H, H) Hr) as Hok.
  destruct (listed_mails st l Hl Hf) as (k & Hk & Hd & Hfk).
  assert (length oks = length k) as Hlk
    by (rewrite Hlen, <- Hk, length_reverse, length_fmap; done).
  assert (omap (get_email st) (reverse l) = k.*2) as Hom.
  { rewrite <- Hk, reverse_involutive. clear -Hfk. induction Hfk as [|p k Hp _ IH]; [done|].
    cbn. by rewrite Hp, <- IH. }
  unfold pass. split.
  - destruct (pass_runs login k (st <| at_ := Passing (reverse k.*1) |>) oks) as [st' Hst'];
      [done|done|].
    exists st'. eapply mixed_cons; [apply sends_refl| |].
    { unfold step. rewrite Ha, Hq, decide_True by done. reflexivity. }
    destruct l as [|n l]; [done|].
    eapply mixed_cons; [apply sends_refl|reflexivity|]. rewrite Hk in Hst'.
    destruct login; cbn [app]; [|exact Hst'].
    eapply mixed_cons; [apply sends_refl|reflexivity|]. exact Hst'.
  - intros st' Hm.
    apply mixed_inv in Hm as (s1 & s2 & _ & U1 & E1 & Hok2 & Hm); [|done..].
    unfold step in E1. rewrite (un_at _ _ U1), Ha, (un_quit _ _ U1), Hq in E1.
    case_decide as Hl1; [|done]. destruct l as [|n l]; [done|]. injection E1 as E1.
    apply mixed_inv in Hm as (s3 & s4 & _ & U3 & E3 & Hok4 & Hm); [|done..].
    unfold step in E3. rewrite (un_at _ _ U3) in E3. subst s2. cbn in E3. injection E3 as E3.
    assert (∀ n' m', get_email st n' = Some m' → get_email s4 n' = Some m') as He.
    { intros n' m' E. subst s4. apply (un_email _ _ U3). change (get_email s1 n' = Some m').
      by apply (un_email _ _ U1). }
    assert (unsent s4 = unsent st) as Hu.
    { subst s4. cbn. rewrite (un_unsent _ _ U3). cbn. apply (un_unsent _ _ U1). }
    assert (tried s4 = tried st) as Ht.
    { subst s4. cbn. rewrite (un_tried _ _ U3). cbn. apply (un_tried _ _ U1). }
    assert (∃ s5, mailer_ok s5 ∧ in_pass s5 k ∧ tried s5 = tried st ∧ unsent s5 = unsent st ∧
              mixed login s5 (pass_mails oks ++ [Load; Quit true]) st')
      as (s5 & Hok5 & Hin5 & Ht5 & Hu5 & Hm5).
    { assert (Forall (λ p, get_email s4 p.1 = Some p.2) k) as Hf4
        by (eapply Forall_impl; [exact Hfk|]; intros p; apply He).
      destruct login; cbn [app] in Hm.
      - apply mixed_inv in Hm as (s6 & s7 & _ & U6 & E6 & Hok7 & Hm); [|done..].
        unfold step in E6. rewrite (un_at _ _ U6) in E6. subst s4. cbn in E6. injection E6 as E6.
        exists s7. split_and!; [done| |by subst s7; cbn; rewrite (un_tried _ _ U6)|by subst s7; cbn; rewrite (un_unsent _ _ U6)|done].
        subst s7. split_and!; [by cbn; rewrite Hk|done|]. eapply Forall_impl; [exact Hf4|].
        intros p E. by apply (un_email _ _ U6).
      - exists s4. split_and!; [done| |done|done|done]. split_and!; [subst s4; cbn; by rewrite Hk|done|done]. }
    destruct (pass_rest _ _ _ _ _ Hok5 Hin5 Hlk Hm5) as (Hok' & Ha' & Ht' & Hu' & _).
    assert (unsent st' = unsent st) as Hun by congruence.
    split_and!; [done|by rewrite Ht', Ht5, Hom|done|rewrite <- Hun; by apply ok_mails].
Qed.

(** ** A server that cannot be reached ends the thread *)

Definition step_rel (login : bool) (st st' : mailer) : Prop :=
  ∃ ev, fresh_name st ev ∧ step login st ev = Some st'.

Definition ending (a : phase) : Prop := a = Quitting false ∨ a = Died.

Lemma ending_step login st st' :
  ending (at_ st) → step_rel login st st' → ending (at_ st') ∧ tried st' = tried st ∧ unsent st' = unsent st.
Proof.
  intros Ha (ev & _ & Hs). unfold step in Hs.
  destruct ev as [l|ok|ok| |[ok|]|ok|ok| |n m|k| ]; destruct Ha as [Ha|Ha]; try rewrite Ha in Hs; try done.
  all: try (injection Hs as <-).
  - by split; [right|].
  - split; [left|]; unfold send_open; by destruct (dir st !! n).
  - split; [right|]; unfold send_open; by destruct (dir st !! n).
  - unfold send_close in Hs. destruct (writers st !! k) as [[i m]|]; [|done]. cbn in Hs.
    injection Hs as <-. by split; [left|].
  - unfold send_close in Hs. destruct (writers st !! k) as [[i m]|]; [|done]. cbn in Hs.
    injection Hs as <-. by split; [right|].
  - by split; [left|].
  - by split; [right|].
Qed.

(** C35: when the connection to the SMTP server fails once, no mail is ever passed to it
    again ([smtp.quit()] in the [finally] clause raises and ends the thread), while [send]
    goes on accepting mails: all that were accepted and not yet passed stay on disk. *)
Theorem failed_connection_is_final login st l st1 st' :
  reach login fresh_name st → at_ st = Connecting l →
  step login st (Connect false) = Some st1 → rtc (step_rel login) st1 st' →
  ending (at_ st') ∧ tried st' = tried st ∧ unsent st' = unsent st ∧
  accepted st' ++ again st' ≡ₚ (tried st).*1 ++ unsent st ++ waiting st'.
Proof.
  intros Hr Ha Hs Hrun. unfold step in Hs. rewrite Ha in Hs.
  assert (reach login fresh_name st1) as Hr1.
  { eapply (reach_step _ _ st (Connect false)); [done|done|]. unfold step. by rewrite Ha. }
  assert (ending (at_ st1) ∧ tried st1 = tried st ∧ unsent st1 = unsent st) as (He & Ht & Hu) by (injection Hs as <-; by split; [left|]).
  rewrite <- Ht, <- Hu. clear Hs Ht Hu Ha Hr. induction Hrun as [s|s s2 s3 Hst _ IH].
  - split_and!; [done|done|done|]. by apply ok_mails, (reach_ok login fresh_name).
  - destruct (ending_step _ _ _ He Hst) as (He2 & <- & <-). apply IH; [|done].
    destruct Hst as (ev & Hf & Hst). by eapply reach_step.
Qed.

(** ** Concrete runs *)

#[export] Instance fresh_name_dec st ev : Decision (fresh_name st ev).
Proof. destruct ev; apply _. Defined.

Fixpoint run_fresh (login : bool) (st : mailer) (evs : list event) : option mailer :=
  match evs with
  | [] => Some st
  | ev :: evs => if decide (fresh_name st ev) then st' ← step login st ev; run_fresh login st' evs
                 else None
  end.

Lemma reach_run_fresh login evs : ∀ st st',
  reach login fresh_name st → run_fresh login st evs = Some st' → reach login fresh_name st'.
Proof.
  induction evs as [|ev evs IH]; intros st st' Hr; cbn; [by intros [= <-]|].
  case_decide as Hf; [|done]. destruct (step login st ev) as [s1|] eqn:E; [|done]. cbn.
  apply IH. by eapply reach_step.
Qed.

Definition mail_a : Email := mkEmail "hello" (Some "s"%string) (Some "a@b"%string) "admin@localhost" "html".
Definition mail_b : Email := mail_a <| em_to := Some "c@d"%string |>.
Definition example_stored : list event := [Open "1-mail" mail_a; Close 0; Open "2-mail" mail_b; Close 0].
Definition example_sent : list event :=
  example_stored ++ [Listdir ["2-mail"; "1-mail"]%string; Connect true; Load; Sendmail (Some true);
    Open "3-mail" mail_b; Unlink false; Load; Sendmail None; Unlink true].

(** Names used again: the second mail replaces the first, which nobody gets. *)
Example name_used_twice :
  (λ st, (accepted st, waiting st)) <$>
    run false new_mailer [Open "1-mail" mail_a; Close 0; Open "1-mail" mail_b; Close 0] =
  Some ([mail_a; mail_b], [mail_b]).
Proof. vm_compute. reflexivity. Qed.

(** A name used again while its file is sent: the new mail goes with the old file. *)
Example name_used_while_sent :
  (λ st, (accepted st, tried st, waiting st)) <$>
    run false new_mailer [Open "1-mail" mail_a; Close 0; Listdir ["1-mail"%string]; Connect true; Load;
      Sendmail (Some true); Open "1-mail" mail_b; Unlink true; Close 0] =
  Some ([mail_a; mail_b], [(mail_a, true)], []).
Proof. vm_compute. reflexivity. Qed.

(** [end] does not wait for what is on disk. *)
Example end_leaves_mail :
  (λ st, (at_ st, waiting st)) <$> run false new_mailer (example_stored ++ [End; Leave]) =
  Some (Stopped, [mail_a; mail_b]).
Proof. vm_compute. reflexivity. Qed.

(** A text that cannot be made, or a lost connection: the mail never reaches the server, and
    is removed all the same. *)
Example unsent_is_removed :
  (λ st, (accepted st, tried st, waiting st)) <$>
    run false new_mailer [Open "1-mail" mail_a; Close 0; Listdir ["1-mail"%string]; Connect true; Load;
      Sendmail None; Unlink true] =
  Some ([mail_a], [], []).
Proof. vm_compute. reflexivity. Qed.

(** A server that refuses a mail: it is removed all the same. *)
Example refused_is_removed :
  (λ st, (tried st, waiting st)) <$>
    run false new_mailer [Open "1-mail" mail_a; Close 0; Listdir ["1-mail"%string]; Connect true; Load;
      Sendmail (Some false); Unlink true] =
  Some ([(mail_a, false)], []).
Proof. vm_compute. reflexivity. Qed.

Lemma mails_conserved_witness :
  let st := default new_mailer (run_fresh false new_mailer example_sent) in
  reach false fresh_name st ∧ length (tried st) = 1%nat ∧ length (unsent st) = 1%nat ∧
  accepted st ++ again st ≡ₚ (tried st).*1 ++ unsent st ++ waiting st.
Proof.
  assert (reach false fresh_name (default new_mailer (run_fresh false new_mailer example_sent))) as H
    by (eapply (reach_run_fresh _ example_sent); [apply reach_new|vm_compute; reflexivity]).
  split; [exact H|]. split; [vm_compute; reflexivity|]. split; [vm_compute; reflexivity|].
  apply (mails_conserved false _ H).
Defined.

Lemma pass_delivers_witness :
  let st := default new_mailer (run_fresh false new_mailer example_stored) in
  let l := ["2-mail"; "1-mail"]%string in
  (∃ st', mixed false st (pass false l [true; false]) st') ∧
  ∀ st', mixed false st (pass false l [true; false]) st' →
    at_ st' = Looping ∧
    tried st' = tried st ++ zip (omap (get_email st) (reverse l)) [true; false] ∧ unsent st' = unsent st ∧
    accepted st' ++ again st' ≡ₚ (tried st').*1 ++ unsent st ++ waiting st'.
Proof.
  assert (reach false fresh_name (default new_mailer (run_fresh false new_mailer example_stored))) as H
    by (eapply (reach_run_fresh _ example_stored); [apply reach_new|vm_compute; reflexivity]).
  cbv zeta. apply (pass_delivers false _ ["2-mail"; "1-mail"]%string [true; false] H);
    [vm_compute; reflexivity|vm_compute; reflexivity| |done| |reflexivity].
  - apply (bool_decide_unpack _). vm_compute. exact I.
  - repeat constructor; vm_compute; by eexists.
Defined.

Lemma failed_connection_is_final_witness :
  let st := default new_mailer (run_fresh false new_mailer
              (example_stored ++ [Listdir ["2-mail"; "1-mail"]%string])) in
  let st1 := default new_mailer (step false st (Connect false)) in
  let st' := default new_mailer (step false st1 (Quit true)) in
  ending (at_ st') ∧ tried st' = tried st ∧ unsent st' = unsent st ∧
  accepted st' ++ again st' ≡ₚ (tried st).*1 ++ unsent st ++ waiting st'.
Proof.
  set (st := default _ _). cbv zeta. set (st1 := default new_mailer (step false st (Connect false))).
  assert (reach false fresh_name st) as H
    by (eapply (reach_run_fresh _ (example_stored ++ [Listdir ["2-mail"; "1-mail"]%string])); [apply reach_new|vm_compute; reflexivity]).
  apply (failed_connection_is_final false st ["2-mail"; "1-mail"]%string st1); [exact H|vm_compute; reflexivity..|].
  apply rtc_once. exists (Quit true). split; [exact I|vm_compute; reflexivity].
Defined.
