(* ===== verification/MailTo.v ===== *)
(** The message handlers of the controller's server (src/lyweb/tool/clc/handler/
    base.py, node.py; the class [SiteJob] of app/site/models.py): dispatch of a
    message, registration of a node, e-mail to one address and to a list of
    users. The handlers of mail run on a database session of their own and put
    what they write into the mail store ([MailStore]). *)
From Stdlib Require Import Ascii String.
From S2P Require Import Prelude PyText Password Table Session Cloud Account SiteContent MailStore.
#[local] Open Scope Z_scope.

(** ** Jobs of the site *)

Definition site_job (uid : option Z) (desc : string) : SiteJob := mkSiteJob uid 1 desc "".
Definition update_status (text : string) (j : SiteJob) : SiteJob := j <| sj_text := text |>.
Definition set_started (j : SiteJob) : SiteJob := j <| sj_text := "started"%string |> <| sj_status := 2 |>.
Definition set_ended (j : SiteJob) : SiteJob := j <| sj_text := "ended"%string |> <| sj_status := 3 |>.
Definition is_stoped (j : SiteJob) : bool := sj_status j =? 3.
Definition is_running (j : SiteJob) : bool := sj_status j =? 2.

(** ** Mail *)

(** The members of a message the web application sends; one that is absent is [None],
    a list of users that is absent is empty. *)
Record mail_data := mkMailData {
  md_uid : option Z; md_ids : list Z; md_to : option string; md_to_user_id : option Z;
  md_subject : option string; md_body : option string }.

Definition TOTAL_KEY : string := "site.send_mail.total".
Definition adr_from (s : Cloud) : string :=
  default "admin@localhost"%string (site_config s "notice.smtp.fromaddr").

(** [start_filesysmail]: the settings, with an [int] of the port that may raise. *)
Record mail_config := mkMailConfig {
  mc_server : string; mc_port : Z; mc_username : option string; mc_password : option string;
  mc_dir : string }.

Definition mail_settings (s : Cloud) : string + mail_config :=
  match (match site_config s "notice.smtp.port" with None => Some 25 | Some v => py_int v end) with
  | None => inl "ValueError: int()"%string
  | Some port => inr (mkMailConfig (default "127.0.0.1"%string (site_config s "notice.smtp.server")) port
      (site_config s "notice.smtp.username") (site_config s "notice.smtp.password")
      (default "/opt/LuoYun/run/email/"%string (site_config s "site.send_mail.dir")))
  end.

(** A text that Python takes for true. *)
Definition truthy (o : option string) : bool :=
  match o with Some t => negb (String.eqb t "") | None => false end.

(** The argument [login] of the thread's steps. *)
Definition has_login (c : mail_config) : bool := truthy (mc_username c) && truthy (mc_password c).

(** The thread is started when the directory is there or can be made. *)
Definition start_filesysmail (s : Cloud) (dir_exists makedirs_ok : bool) : string + option mail_config :=
  match mail_settings s with
  | inl x => inl x
  | inr c => inr (if init dir_exists makedirs_ok then Some c else None)
  end.

Definition total_row (s : Cloud) : option (Z * SiteConfig) :=
  head (select (λ _ x, String.eqb (sc_key x) TOTAL_KEY) s).

(** [render_template('custom/mail_template.html', ...)] with the subject, the body
    and the name of the user: [None] when it raises. *)
Section mail.
Context (mail_template : option string → option string → string → option string).

(** The counter of mails: made when it is not there, then its row. *)
Definition mail_total : Web Cloud Z :=
  total ← ask (λ s, site_config s TOTAL_KEY);
  (if truthy total then mret tt else set_config TOTAL_KEY "0" ;; commit);;
  o ← ask total_row;
  match o with
  | Some (k, _) => mret k
  | None => raise "AttributeError: NoneType"
  end.

(** [mail_total.value = int(mail_total.value) + 1] and the name of the file. *)
Definition mail_name (n : Z) : string := (str_of_Z n +:+ "-mail")%string.
Definition next_mail (k : Z) : Web Cloud string :=
  x ← fetch (A := SiteConfig) k;
  match py_int (sc_value x) with
  | None => raise "ValueError: int()"
  | Some n => modify k (λ x : SiteConfig, x <| sc_value := str_of_Z (n + 1) |>) ;;
              mret (mail_name (n + 1))
  end.

Definition display_name (U : User) : string :=
  match u_nickname U with
  | Some n => if String.eqb n "" then u_username U else n
  | None => u_username U
  end.

Definition py_str (o : option string) : string := default "None"%string o.

(** One user of [mailto_user_list]. *)
Definition mailto_user (d : mail_data) (from : string) (j k u : Z) : Web Cloud unit :=
  U ← fetch (A := User) u;
  modify j (update_status ("send mail to " +:+ str_of_Z u +:+ ": " +:+ u_username U +:+
                           " (" +:+ py_str (u_email U) +:+ ")")%string);;
  commit;;
  if negb (truthy (u_email U) && u_email_valid U) then mret tt else
  let body_html := mail_template (md_subject d) (md_body d) (display_name U) in
  if truthy body_html then
    name ← next_mail k;
    emit (StoreMail name (md_subject d) (default ""%string (u_email U)) from
            (default ""%string body_html))
  else mret tt.

(** The users of the list that exist; every user when the list is empty. *)
Definition user_list (s : Cloud) (ids : list Z) : list Z :=
  match ids with
  | [] => (select (A := User) (λ _ _, true) s).*1
  | _ => filter (λ u, is_Some (row (A := User) s u)) ids
  end.

Definition mailto_user_list (d : mail_data) : Web Cloud unit :=
  from ← ask adr_from;
  j ← add_row (set_started (site_job (md_uid d) "send mail to user list."));
  commit;;
  us ← ask (λ s, user_list s (md_ids d));
  k ← mail_total;
  for_each us (mailto_user d from j k);;
  modify j set_ended;;
  commit.

(** [to.split('@')[0]] *)
Definition local_part (addr : string) : string := default addr (head (split_on "@" addr)).

(** What [mailto_address] uses as name and address: [username] may stay unbound. *)
Definition addressee (s : Cloud) (d : mail_data) : option string * option string :=
  let username := if truthy (md_to d) then local_part <$> md_to d else None in
  match md_to_user_id d with
  | None => (username, md_to d)
  | Some u =>
      if u =? 0 then (username, md_to d) else
      match row (A := User) s u with
      | Some U => (Some (display_name U), u_email U)
      | None => (username, md_to d)
      end
  end.

Definition mailto_address (d : mail_data) : Web Cloud unit :=
  from ← ask adr_from;
  if negb (truthy (md_to d) || bool_decide (default 0 (md_to_user_id d) ≠ 0)) then mret tt else
  k ← mail_total;
  a ← ask (λ s, addressee s d);
  known ← ask (λ s, bool_decide (is_Some (row (A := User) s (default 0 (md_to_user_id d)))) &&
                    negb (default 0 (md_to_user_id d) =? 0));
  if (known : bool) && negb (truthy a.2) then mret tt else
  match a.1 with
  | None => raise "UnboundLocalError: username"
  | Some username =>
      let body := mail_template (md_subject d) (md_body d) username in
      if truthy body then
        name ← next_mail k;
        emit (StoreMail name (md_subject d) (default ""%string a.2) from (default ""%string body))
      else mret tt
  end.

(** ** What a request to mail a list does *)

(** The mails for the users [us]: those with a confirmed address, when the template renders. *)
Definition mails_for (s : Cloud) (d : mail_data) (us : list Z) : list (string * string) :=
  omap (λ u, U ← row (A := User) s u;
             if negb (truthy (u_email U) && u_email_valid U) then None else
             let body_html := mail_template (md_subject d) (md_body d) (display_name U) in
             if truthy body_html then Some (default ""%string (u_email U), default ""%string body_html)
             else None) us.

Definition stored (d : mail_data) (from : string) (n : Z) (ms : list (string * string)) : list effect :=
  imap (λ i m, StoreMail (mail_name (n + 1 + Z.of_nat i)) (md_subject d) m.1 from m.2) ms.

(** The database [s] with other rows [J] and [x] for the job [j] and the counter [k]. *)
Definition with_rows (j k : Z) (s : Cloud) (J : SiteJob) (x : SiteConfig) : Cloud :=
  s <| c_sitejobs := tput j J (c_sitejobs s) |> <| c_siteconfig := tput k x (c_siteconfig s) |>.

Section list.
Context (j k : Z) (s : Cloud) (c : Cloud) (o : list effect).

Lemma row_job J x : row (with_rows j k s J x) j = Some J.
Proof. apply lookup_insert_eq. Qed.
Lemma row_total J x : row (with_rows j k s J x) k = Some x.
Proof. apply lookup_insert_eq. Qed.

Lemma put_job J J' x :
  set_tbl (tput j J' (tbl (with_rows j k s J x))) (with_rows j k s J x) = with_rows j k s J' x.
Proof.
  unfold with_rows. cbn. unfold tput. cbn. by rewrite insert_insert_eq.
Qed.
Lemma put_total J x x' :
  set_tbl (tput k x' (tbl (with_rows j k s J x))) (with_rows j k s J x) = with_rows j k s J x'.
Proof.
  unfold with_rows. cbn. unfold tput. cbn. by rewrite insert_insert_eq.
Qed.
End list.

(** One user: the text of the job is committed, then at most one mail is stored. *)
Lemma mailto_user_run d from j k u U s J x n c o :
  row (A := User) s u = Some U → py_int (sc_value x) = Some n →
  ∃ J' x' c' n', mailto_user d from j k u (mkWorld (with_rows j k s J x) c o) =
    (Val tt, mkWorld (with_rows j k s J' x') c' (o ++ stored d from n (mails_for s d [u]))) ∧
    sj_user_id J' = sj_user_id J ∧ sj_desc J' = sj_desc J ∧ sc_key x' = sc_key x ∧
    py_int (sc_value x') = Some n' ∧ n' = n + Z.of_nat (length (mails_for s d [u])).
Proof.
  intros HU Hn. unfold mailto_user. rewrite run_fetch. cbn [work].
  change (row (with_rows j k s J x) u) with (row (A := User) s u). rewrite HU.
  rewrite run_modify. cbn [work comm outs]. rewrite row_job, put_job, run_commit. cbn [work comm outs].
  unfold mails_for. cbn [omap list_omap]. rewrite HU. cbn [mbind option_bind].
  destruct (negb _).
  { eexists (update_status _ J), x, _, n. split; [by rewrite app_nil_r|]. repeat split; [done|cbn; lia]. }
  cbv zeta. destruct (truthy (mail_template _ _ _)).
  2: { eexists (update_status _ J), x, _, n. split; [by rewrite app_nil_r|]. repeat split; [done|cbn; lia]. }
  unfold next_mail. rewrite run_assoc, run_fetch. cbn [work]. rewrite row_total, Hn.
  rewrite run_assoc, run_modify. cbn [work comm outs]. rewrite row_total, put_total, run_ret, emit_val.
  cbn [work comm outs]. eexists (update_status _ J), _, _, (n + 1).
  split; [cbn; by rewrite Z.add_0_r|]. repeat split. cbn. apply py_int_str_of_Z.
Qed.

Lemma imap_app_stored d from n ms ms' :
  stored d from n (ms ++ ms') = stored d from n ms ++ stored d from (n + Z.of_nat (length ms)) ms'.
Proof.
  unfold stored. rewrite imap_app. f_equal. apply imap_ext. intros i m _. cbn. do 2 f_equal. lia.
Qed.

Lemma mails_for_cons s d u us : mails_for s d (u :: us) = mails_for s d [u] ++ mails_for s d us.
Proof. unfold mails_for. cbn [omap list_omap]. by case_match. Qed.

Lemma mailto_users_run d from j k s us : ∀ J x n c o,
  (∀ u, u ∈ us → is_Some (row (A := User) s u)) → py_int (sc_value x) = Some n →
  ∃ J' x' c', for_each us (mailto_user d from j k) (mkWorld (with_rows j k s J x) c o) =
    (Val tt, mkWorld (with_rows j k s J' x') c' (o ++ stored d from n (mails_for s d us))) ∧
    sj_user_id J' = sj_user_id J ∧ sj_desc J' = sj_desc J ∧ sc_key x' = sc_key x ∧
    py_int (sc_value x') = Some (n + Z.of_nat (length (mails_for s d us))).
Proof.
  induction us as [|u us IH]; intros J x n c o Hus Hn.
  { exists J, x, c. split; [by cbn; rewrite app_nil_r|]. repeat split. by rewrite Hn, Z.add_0_r. }
  destruct (Hus u) as [U HU]; [by left|].
  destruct (mailto_user_run d from j k u U s J x n c o HU Hn)
    as (J1 & x1 & c1 & n1 & E1 & Hu1 & Hd1 & Hk1 & Hn1 & ->).
  destruct (IH J1 x1 _ c1 (o ++ stored d from n (mails_for s d [u]))
              (λ u Hu, Hus u (list_elem_of_further _ _ _ Hu)) Hn1)
    as (J2 & x2 & c2 & E2 & Hu2 & Hd2 & Hk2 & Hn2).
  exists J2, x2, c2. cbn [for_each foldr]. rewrite (run_bind _ _ _ _ _ E1).
  rewrite (mails_for_cons s d u us). split; [by rewrite imap_app_stored, app_assoc|].
  split_and!; try congruence. rewrite Hn2, length_app. f_equal. lia.
Qed.

(** ** The counter *)

Definition is_total (x : SiteConfig) : bool := String.eqb (sc_key x) TOTAL_KEY.

(** The number of mails counted so far; [None] when the text is no number. *)
Definition mail_count (s : Cloud) : option Z :=
  match total_row s with
  | None => Some 0
  | Some (_, x) => if String.eqb (sc_value x) "" then Some 0 else py_int (sc_value x)
  end.

(** [s'] is [s] but for the row of the counter. *)
Definition same_but_total (s s' : Cloud) : Prop :=
  s' <| c_siteconfig := c_siteconfig s |> = s ∧
  ∀ k x, is_total x = false → (row s' k = Some x ↔ row s k = Some x).

Lemma total_row_put s k x y :
  total_row s = Some (k, y) → is_total x = true →
  total_row (s <| c_siteconfig := tput k x (c_siteconfig s) |>) = Some (k, x).
Proof. intros Hk Hx. exact (head_select_put (λ _, is_total) s k x y Hk Hx). Qed.

Lemma same_but_total_put s k x y :
  row s k = Some y → is_total y = true → is_total x = true →
  same_but_total s (s <| c_siteconfig := tput k x (c_siteconfig s) |>).
Proof.
  intros Hy Ty Tx. split; [by destruct s|]. intros k' z Hz.
  change (rows (tput k x (c_siteconfig s)) !! k' = Some z ↔ row s k' = Some z). simpl.
  rewrite lookup_insert_Some. split; [|intros Hk; destruct (decide (k = k')) as [<-|]; [|by right]].
  - intros [[<- <-]|[_ ?]]; [congruence|done].
  - congruence.
Qed.

(** [mail_total] leaves a row with a number. *)
Lemma mail_total_run s c o n :
  seq_ok (c_siteconfig s) → mail_count s = Some n →
  ∃ k x s' c', mail_total (mkWorld s c o) = (Val k, mkWorld s' c' o) ∧
    total_row s' = Some (k, x) ∧ py_int (sc_value x) = Some n ∧ same_but_total s s' ∧
    (s' = s ∧ c' = c ∨ c' = s').
Proof.
  intros Hs Hn. unfold mail_total. rewrite run_ask. cbn [work]. unfold mail_count in Hn.
  unfold site_config. fold (total_row s) in *.
  change (head (select (λ _ x, String.eqb (sc_key x) TOTAL_KEY) s)) with (total_row s).
  destruct (total_row s) as [[k x]|] eqn:Ht; cbn [fmap option_fmap option_map compose snd truthy].
  - pose proof (head_select _ _ _ _ Ht) as [Hx HT].
    destruct (String.eqb (sc_value x) "") eqn:E; cbn [negb].
    + simplify_eq. unfold set_config, upsert. rewrite !run_assoc, run_ask. cbn [work].
      change (head (select (λ _ x, String.eqb (sc_key x) TOTAL_KEY) s)) with (total_row s).
      rewrite Ht, run_modify. cbn [work comm outs]. rewrite Hx, run_commit. cbn [work comm outs].
      rewrite run_ask. cbn [work]. set (s' := set_tbl _ s).
      assert (total_row s' = Some (k, x <| sc_value := "0"%string |>)) as Ht' by (by apply (total_row_put s k _ x)).
      rewrite Ht'. eexists k, _, s', s'. split_and!; [done|done|done| |by right].
      by apply (same_but_total_put s k _ x).
    + rewrite run_ret, run_ask. cbn [work]. rewrite Ht. exists k, x, s, c.
      split_and!; [done|done|done|by destruct s|by left].
  - simplify_eq. unfold set_config, upsert. rewrite !run_assoc, run_ask. cbn [work].
    change (head (select (λ _ x, String.eqb (sc_key x) TOTAL_KEY) s)) with (total_row s).
    rewrite Ht, run_assoc, run_add. cbn [work comm outs]. rewrite run_ret, run_commit. cbn [work comm outs].
    rewrite run_ask. cbn [work]. set (s' := set_tbl _ s).
    assert (total_row s' = Some (seq (c_siteconfig s) + 1, mkSiteConfig TOTAL_KEY "0")) as Ht'.
    { unfold total_row, s'. rewrite select_insert by done.
      unfold total_row in Ht. destruct (select _ s); [done|done]. }
    rewrite Ht'. eexists _, _, s', s'. split_and!; [done|done|done| |by right].
    split; [by destruct s|]. intros k x Hx. unfold s'. split.
    + intros [(-> & ->)|[_ ?]]%row_insert_inv; done.
    + by apply row_insert_old.
Qed.

Lemma user_list_rows s ids u : u ∈ user_list s ids → is_Some (row (A := User) s u).
Proof.
  unfold user_list. destruct ids as [|i ids].
  - intros ([u' U] & -> & Hu)%list_elem_of_fmap. apply elem_of_select in Hu as [Hu _]. by eexists.
  - by intros [Hu _]%list_elem_of_filter.
Qed.

Lemma mails_for_users s s' d us : c_users s = c_users s' → mails_for s d us = mails_for s' d us.
Proof.
  intros E. unfold mails_for. induction us as [|u us IH]; [done|]. cbn [omap list_omap].
  rewrite IH. unfold row. cbn. by rewrite E.
Qed.

Lemma list_run d s n :
  seq_ok (c_siteconfig s) → mail_count s = Some n →
  let ms := mails_for s d (user_list s (md_ids d)) in
  let '(r, w) := mailto_user_list d (start s) in
  let s' := comm w in
  r = Val tt ∧ outs w = stored d (adr_from s) n ms ∧
  mail_count s' = Some (n + Z.of_nat (length ms)) ∧
  (∃ J, c_sitejobs s' = tput (seq (c_sitejobs s) + 1) J (tinsert J (c_sitejobs s)).2 ∧
        sj_user_id J = md_uid d ∧ is_stoped J = true) ∧
  same_but_total s (s' <| c_sitejobs := c_sitejobs s |>).
Proof.
  intros Hs Hn ms. unfold mailto_user_list. rewrite run_ask. change (work (start s)) with s.
  rewrite run_add, run_commit, run_ask. cbn [work comm outs start].
  set (j := seq (tbl s) + 1). set (J0 := set_started _). set (s1 := set_tbl _ s).
  assert (mail_count s1 = Some n) as Hn1 by done.
  destruct (mail_total_run s1 s1 [] n Hs Hn1) as (k & x & s2 & c2 & E2 & Ht2 & Hx2 & Hsame & _).
  rewrite (run_bind _ _ _ _ _ E2).
  destruct Hsame as [Hsame Hrest].
  pose proof (f_equal c_sitejobs Hsame) as Hj2. pose proof (f_equal c_users Hsame) as Hu2.
  cbn in Hj2, Hu2. pose proof (head_select _ _ _ _ Ht2) as [Hk2 HT2].
  assert (s2 = with_rows j k s2 J0 x) as Hw.
  { unfold with_rows. rewrite (tput_id j J0 (c_sitejobs s2)) by (rewrite Hj2; apply lookup_insert_eq).
    rewrite (tput_id k x) by exact Hk2. by destruct s2. }
  assert (∀ u, u ∈ user_list s (md_ids d) → is_Some (row (A := User) s2 u)) as Hus.
  { intros u Hu. unfold row. cbn. rewrite Hu2. by apply (user_list_rows s (md_ids d)). }
  destruct (mailto_users_run d (adr_from s) j k s2 _ J0 x n c2 [] Hus Hx2)
    as (J3 & x3 & c3 & E3 & Hu3 & Hd3 & Hk3 & Hx3).
  change (user_list s1 (md_ids d)) with (user_list s (md_ids d)).
  rewrite <- Hw in E3. rewrite (run_bind _ _ _ _ _ E3).
  rewrite run_modify. cbn [work comm outs]. rewrite row_job, put_job, commit_val. cbn [work comm outs].
  rewrite (mails_for_users s2 s d _ Hu2) in *. fold ms in Hx3 |- *.
  assert (is_total x3 = true) as HT3 by (unfold is_total in *; by rewrite Hk3).
  assert (total_row (with_rows j k s2 (set_ended J3) x3) = Some (k, x3)) as Ht3
    by exact (total_row_put s2 k x3 x Ht2 HT3).
  split_and!.
  - done.
  - done.
  - unfold mail_count. rewrite Ht3. destruct (String.eqb_spec (sc_value x3) "") as [E|]; [|done].
    by rewrite E in Hx3.
  - exists (set_ended J3). split_and!; [|done|done]. unfold with_rows. cbn. rewrite Hj2.
    unfold tput, tinsert. cbn. by rewrite !insert_insert_eq.
  - split.
    { etrans; [exact (f_equal (λ r : Cloud, r <| c_sitejobs := c_sitejobs s |>) Hsame)|by destruct s]. }
    intros k' y Hy. transitivity (row s2 k' = Some y); [|exact (Hrest k' y Hy)].
    exact (proj2 (same_but_total_put s2 k x3 x Hk2 HT2 HT3) k' y Hy).
Qed.

(** [mailto_user_list] stores one HTML mail for each user of the list with a confirmed
    address for whom the template renders (for every user of the site when the list is
    empty), in the order of the list and under the names that follow the counter; when it
    returns, the counter has grown by the number of mails, the new job of the site is
    stopped, and of the database nothing else has changed. *)
Theorem mailto_user_list_spec d s n :
  seq_ok (c_siteconfig s) → mail_count s = Some n →
  let ms := mails_for s d (user_list s (md_ids d)) in
  let '(r, w) := mailto_user_list d (start s) in
  let s' := comm w in
  r = Val tt ∧ outs w = stored d (adr_from s) n ms ∧
  mail_count s' = Some (n + Z.of_nat (length ms)) ∧
  (∃ J, c_sitejobs s' = tput (seq (c_sitejobs s) + 1) J (tinsert J (c_sitejobs s)).2 ∧
        sj_user_id J = md_uid d ∧ is_stoped J = true) ∧
  same_but_total s (s' <| c_sitejobs := c_sitejobs s |>).
Proof. by apply list_run. Qed.

(** The mail of [mailto_address], when there is one. *)
Definition address_mail (s : Cloud) (d : mail_data) : option (string * string) :=
  if negb (truthy (md_to d) || bool_decide (default 0 (md_to_user_id d) ≠ 0)) then None else
  let a := addressee s d in
  username ← a.1;
  if truthy a.2 then
    let body := mail_template (md_subject d) (md_body d) username in
    if truthy body then Some (default ""%string a.2, default ""%string body) else None
  else None.

Lemma addressee_users s s' d : c_users s = c_users s' → addressee s d = addressee s' d.
Proof. intros E. unfold addressee, row. cbn. by rewrite E. Qed.

(** Without a user the address is the one of the message. *)
Lemma addressee_to s d :
  truthy (md_to d) || bool_decide (default 0 (md_to_user_id d) ≠ 0) = true →
  bool_decide (is_Some (row (A := User) s (default 0 (md_to_user_id d)))) &&
    negb (default 0 (md_to_user_id d) =? 0) = false →
  addressee s d = (if truthy (md_to d) then local_part <$> md_to d else None, md_to d).
Proof.
  unfold addressee. intros _ H. destruct (md_to_user_id d) as [u|]; [|done].
  change (default 0 (Some u)) with u in H.
  destruct (u =? 0); [done|]. destruct (row s u); [|done]. by rewrite bool_decide_true in H.
Qed.

(** [mailto_address] stores at most one mail, under the name that follows the counter,
    and never makes the counter permanent: whatever the next call is, it finds the
    same number, so that its mail gets the same name and replaces the first when
    that one is still in the store. *)
Theorem mailto_address_reuses_name d s n :
  seq_ok (c_siteconfig s) → mail_count s = Some n →
  let '(s', o) := request (mailto_address d) s in
  mail_count s' = Some n ∧ same_but_total s s' ∧
  o = match address_mail s d with
      | Some (to, text) => [StoreMail (mail_name (n + 1)) (md_subject d) to (adr_from s) text]
      | None => []
      end.
Proof.
  intros Hs Hn. unfold request, mailto_address, address_mail. rewrite run_ask.
  change (work (start s)) with s. destruct (negb _) eqn:Hto.
  { cbn. split_and!; [done|by destruct s|done]. }
  apply negb_false_iff in Hto.
  destruct (mail_total_run s s [] n Hs Hn) as (k & x & s2 & c2 & E2 & Ht2 & Hx2 & Hsame & Hc).
  rewrite (run_bind _ _ _ _ _ E2), !run_ask. cbn [work].
  pose proof (f_equal c_users (proj1 Hsame)) as Hu2. cbn in Hu2.
  rewrite (addressee_users _ _ d Hu2).
  assert (row (A := User) s2 (default 0 (md_to_user_id d)) = row s (default 0 (md_to_user_id d))) as ->
    by (unfold row; cbn; by rewrite Hu2).
  pose proof (head_select _ _ _ _ Ht2) as [Hk2 HT2].
  assert (mail_count c2 = Some n ∧ same_but_total s c2) as [Hcn Hcs].
  { destruct Hc as [[-> ->]| ->]; [split; [done|by destruct s]|]. split; [|done].
    unfold mail_count. rewrite Ht2. destruct (String.eqb_spec (sc_value x) "") as [E|]; [|done].
    by rewrite E in Hx2. }
  set (a := addressee s d). 
  set (known := bool_decide _ && negb (default 0 _ =? 0)).
  destruct (truthy a.2) eqn:Ha; cbn [negb].
  - rewrite andb_false_r. destruct a.1 as [username|]; cbn [mbind option_bind]; [|done]. cbv zeta.
    destruct (truthy (mail_template _ _ _)); [|done].
    unfold next_mail. rewrite run_assoc, run_fetch. cbn [work]. rewrite Hk2, Hx2.
    rewrite run_assoc, run_modify. cbn [work]. by rewrite Hk2.
  - rewrite andb_true_r. assert ((a.1 ≫= λ _ : string, None : option (string * string)) = None) as E
      by (by destruct a.1).
    destruct known eqn:Hkn.
    { cbn [andb]. rewrite ret_val. split_and!; [done|done|]. by destruct a.1. }
    assert (a.1 = None) as ->; [|done].
    unfold a in Ha |- *. rewrite addressee_to in Ha |- * by done. cbn [fst snd] in *.
    by rewrite Ha.
Qed.

(** ** What is stored goes into the mail store *)

Definition mail_of (x : effect) : option (string * Email) :=
  match x with
  | StoreMail name subject to from text => Some (name, mkEmail text subject (Some to) from "html")
  | _ => None
  end.

(** The calls of [send], one after the other. *)
Definition sends_of (l : list (string * Email)) : list event := l ≫= λ p, [Open p.1 p.2; Close 0].

Lemma str_length_app (a b : string) :
  String.length (a +:+ b) = (String.length a + String.length b)%nat.
Proof.
  induction a as [|c a IH]; [done|].
  change (String c a +:+ b)%string with (String c (a +:+ b)). simpl. by rewrite IH.
Qed.

Lemma str_app_inj_l (x a b : string) : (a +:+ x)%string = (b +:+ x)%string → a = b.
Proof.
  revert b. induction a as [|c a IH]; intros [|c' b] E; [done|..].
  - apply (f_equal String.length) in E. rewrite !str_length_app in E. simpl in E. lia.
  - apply (f_equal String.length) in E. rewrite !str_length_app in E. simpl in E. lia.
  - change (String c a +:+ x)%string with (String c (a +:+ x)) in E.
    change (String c' b +:+ x)%string with (String c' (b +:+ x)) in E.
    injection E as -> E. f_equal. by apply IH.
Qed.

Lemma mail_name_inj n n' : mail_name n = mail_name n' → n = n'.
Proof.
  intros E%str_app_inj_l%(f_equal py_int). rewrite !py_int_str_of_Z in E. congruence.
Qed.

Lemma stored_names d from n ms m :
  m ∈ omap mail_of (stored d from n ms) →
  ∃ i, n < i ≤ n + Z.of_nat (length ms) ∧ m.1 = mail_name i.
Proof.
  intros (x & Hx & Hm)%list_elem_of_omap. unfold stored in Hx.
  apply elem_of_lookup_imap in Hx as (i & [to text] & -> & Hi). cbn in Hm. simplify_eq.
  exists (n + 1 + Z.of_nat i). apply lookup_lt_Some in Hi. split; [lia|done].
Qed.

Lemma stored_cons d from n m ms :
  stored d from n (m :: ms) =
    StoreMail (mail_name (n + 1)) (md_subject d) m.1 from m.2 :: stored d from (n + 1) ms.
Proof.
  unfold stored. cbn. rewrite Z.add_0_r. f_equal. apply imap_ext. intros i x _. cbn. do 2 f_equal. lia.
Qed.

Lemma run_send login nm m st :
  writers st = [] → dir st !! nm = None →
  ∃ st', run_fresh login st [Open nm m; Close 0] = Some st' ∧ writers st' = [] ∧
    accepted st' = accepted st ++ [m] ∧ at_ st' = at_ st ∧
    (∀ nm', nm' ≠ nm → dir st' !! nm' = dir st !! nm').
Proof.
  intros Hw Hn. cbn [run_fresh]. rewrite decide_True by done. cbn [step mbind option_bind].
  unfold send_open. rewrite Hn. cbn. rewrite Hw. cbn.
  eexists. split_and!; [done|done|done|done|]. intros nm' Hne. cbn. by rewrite lookup_insert_ne.
Qed.

Lemma run_fresh_app login evs evs' : ∀ st st1,
  run_fresh login st evs = Some st1 → run_fresh login st (evs ++ evs') = run_fresh login st1 evs'.
Proof.
  induction evs as [|ev evs IH]; intros st st1; cbn; [by intros [= ->]|].
  case_decide; [|done]. destruct (step login st ev) as [s|]; [|done]. cbn. apply IH.
Qed.

Lemma run_stored login d from ms : ∀ st n,
  writers st = [] → (∀ i, n < i → dir st !! mail_name i = None) →
  ∃ st', run_fresh login st (sends_of (omap mail_of (stored d from n ms))) = Some st' ∧
    writers st' = [] ∧ at_ st' = at_ st ∧
    accepted st' = accepted st ++ (omap mail_of (stored d from n ms)).*2 ∧
    (∀ i, n + Z.of_nat (length ms) < i → dir st' !! mail_name i = None).
Proof.
  induction ms as [|m ms IH]; intros st n Hw Hn.
  { exists st. cbn. rewrite app_nil_r. split_and!; try done. intros i Hi. apply Hn. lia. }
  rewrite stored_cons. cbn [omap list_omap mail_of].
  set (e := mkEmail _ _ _ _ _).
  destruct (run_send login (mail_name (n + 1)) e st Hw (Hn (n + 1) ltac:(lia)))
    as (s1 & E1 & Hw1 & Hacc1 & Hat1 & Hd1).
  destruct (IH s1 (n + 1) Hw1) as (s2 & E2 & Hw2 & Hat2 & Hacc2 & Hd2).
  { intros i Hi. rewrite Hd1; [apply Hn; lia|]. intros E%mail_name_inj. lia. }
  exists s2. unfold sends_of in *. rewrite bind_cons. cbn [fst snd].
  rewrite (run_fresh_app _ _ _ _ _ E1). split_and!; [done|done|congruence| |].
  - rewrite Hacc2, Hacc1, <- app_assoc. done.
  - intros i Hi. apply Hd2. rewrite length_cons in Hi. lia.
Qed.

(** As long as the numbers above the counter are not in use as names in the mail store,
    the mails of [mailto_user_list] all get names of their own: the store accepts every
    one of them, the numbers above the new counter are free again, and the account of
    [MailStore.mails_conserved] still holds. *)
Theorem user_list_mails_kept login d s n st :
  reach login fresh_name st → writers st = [] →
  seq_ok (c_siteconfig s) → mail_count s = Some n →
  (∀ i, n < i → dir st !! mail_name i = None) →
  let '(s', o) := request (mailto_user_list d) s in
  ∃ n' st', mail_count s' = Some n' ∧
    run_fresh login st (sends_of (omap mail_of o)) = Some st' ∧
    accepted st' = accepted st ++ (omap mail_of o).*2 ∧
    length (omap mail_of o) = length (mails_for s d (user_list s (md_ids d))) ∧
    (∀ i, n' < i → dir st' !! mail_name i = None) ∧
    accepted st' ++ again st' ≡ₚ (tried st').*1 ++ unsent st' ++ waiting st'.
Proof.
  intros Hr Hw Hs Hn Hd. pose proof (list_run d s n Hs Hn) as H. unfold request.
  destruct (mailto_user_list d (start s)) as [r w]. destruct H as (_ & -> & Hc & _).
  set (ms := mails_for s d _) in *.
  destruct (run_stored login d (adr_from s) ms st n Hw Hd) as (st' & E & _ & _ & Ha & Hd').
  exists (n + Z.of_nat (length ms)), st'. split_and!; try done.
  - assert (∀ n ms, length (omap mail_of (stored d (adr_from s) n ms)) = length ms) as Hl; [|apply Hl].
    clear. intros n ms. revert n. induction ms as [|m ms IH]; intros n; [done|].
    rewrite stored_cons. cbn. by rewrite IH.
  - apply ok_mails, (reach_ok login fresh_name); [done|]. by eapply reach_run_fresh.
Qed.
End mail.

(** ** Messages to the server *)

Section server.
Context `{Sha512}.

(** lyc/security.py: the salt is drawn at random. *)
Definition get_enc_password (salt password : string) : string :=
  salt +:+ String dollar (_encrypt_password salt password).
Definition check_password (raw_password enc_password : string) : bool :=
  match split_on dollar enc_password with
  | [salt; hsh] => String.eqb hsh (_encrypt_password salt raw_password)
  | _ => false
  end.

(** What reads the messages of a connection: [NewClientHandler], after a
    registration [NodeStreamHandler], nothing once it is closed. *)
Inductive reader := NewClient | NodeStream | Closed.

(** The connection, and the list of nodes of the application. *)
Record clc := mkClc { cl_reader : reader; cl_nodes : list (Z * string); cl_sent : list (string * bool) }.

(** What a message sets going. *)
Inductive task := NoTask | UserList (msg : json) | Address (msg : json).

Definition member (k : string) (v : json) : option json :=
  match v with JObj l => jget k l | _ => None end.

(** [_register_node(data)]; [salt] and [node_id] are drawn at random. *)
Definition register_node (salt : string) (node_id : Z) (data : json) (c : clc) : string + clc :=
  match member "msg" data with
  | None => inl "KeyError: msg"%string
  | Some (JObj m) =>
      match jget "password" m with
      | Some (JStr password) =>
          if check_password password (get_enc_password salt "fffaaa")
          then inr (mkClc NodeStream (cl_nodes c ++ [(node_id, "testnode03"%string)])
                      (cl_sent c ++ [("/register/result"%string, true)]))
          else inr (mkClc Closed (cl_nodes c) (cl_sent c ++ [("/register/result"%string, false)]))
      | _ => inl "TypeError"%string
      end
  | Some _ => inl "AttributeError: get"%string
  end.

(** [data_received]: a body that is no object, or has no key, raises. *)
Definition data_received (salt : string) (node_id : Z) (data : json) (c : clc) :
    string + (clc * task) :=
  match data with
  | JObj l =>
      match jget "key" l with
      | None => inl "KeyError: key"%string
      | Some (JStr key) =>
          if String.eqb key "/node/register" then
            match register_node salt node_id data c with
            | inr c' => inr (c', NoTask)
            | inl x => inl x
            end
          else if String.eqb key "mailto.userlist" then inr (c, UserList data)
          else if String.eqb key "mailto.address" then inr (c, Address data)
          else if String.eqb key "test.api" then inr (c, NoTask)
          else inr (mkClc Closed (cl_nodes c) (cl_sent c), NoTask)
      | Some _ => inr (mkClc Closed (cl_nodes c) (cl_sent c), NoTask)
      end
  | _ => inl "TypeError"%string
  end.

(** [NodeStreamHandler.data_received] asks for the body of what is a body already:
    a value that JSON makes has no such attribute. *)
Definition node_data_received (data : json) (c : clc) : string + (clc * task) :=
  inl "AttributeError: body"%string.

Definition receive (salt : string) (node_id : Z) (data : json) (c : clc) : string + (clc * task) :=
  match cl_reader c with
  | NewClient => data_received salt node_id data c
  | NodeStream => node_data_received data c
  | Closed => inr (c, NoTask)
  end.

Definition has_salt_ok (salt : string) : Prop := has_char dollar salt = false.

Lemma check_own_password salt password raw :
  has_salt_ok salt →
  check_password raw (get_enc_password salt password) =
    String.eqb (_encrypt_password salt password) (_encrypt_password salt raw).
Proof.
  intros Hs. unfold check_password, get_enc_password.
  rewrite split_on_app by done. rewrite split_on_plain; [done|]. apply sha512_hex_plain.
Qed.

(** A connection becomes one of a node only by a registration with a password whose
    digest is that of the password in the code, only then is a node added, and whoever
    holds this password becomes one; once it has, every message on the connection
    raises, mails are never sent for it. *)
Theorem node_registration salt node_id data c :
  has_salt_ok salt →
  (∀ c' t, receive salt node_id data c = inr (c', t) → c' ≠ c →
     cl_reader c = NewClient ∧
     (cl_nodes c' = cl_nodes c ∧ cl_reader c' = Closed ∨
      ∃ m password, data = JObj m ∧ jget "key" m = Some (JStr "/node/register") ∧
        (x ← jget "msg" m; member "password" x) = Some (JStr password) ∧
        _encrypt_password salt password = _encrypt_password salt "fffaaa" ∧
        cl_nodes c' = cl_nodes c ++ [(node_id, "testnode03"%string)] ∧ cl_reader c' = NodeStream ∧
        t = NoTask)) ∧
  (cl_reader c = NodeStream → ∃ x, receive salt node_id data c = inl x).
Proof.
  intros Hs. split; [|intros E; unfold receive; rewrite E; by eexists].
  intros c' t. unfold receive. destruct (cl_reader c) eqn:Er; [|done|by intros [= <- <-]].
  unfold data_received. destruct data as [|b|z|x|l|m]; try done.
  destruct (jget "key" m) as [[| | |key| |]|] eqn:Ek; try done;
    try (intros [= <- <-] _; split; [done|by left]).
  destruct (String.eqb_spec key "/node/register") as [->|].
  - unfold register_node. cbn [member]. destruct (jget "msg" m) as [[| | | | |d]|] eqn:Em; try done.
    destruct (jget "password" d) as [[| | |password| |]|] eqn:Ep; try done.
    rewrite check_own_password by done.
    destruct (String.eqb_spec (_encrypt_password salt "fffaaa") (_encrypt_password salt password)) as [E|];
      intros [= <- <-] _; (split; [done|]); [right|by left].
    exists m, password. rewrite Em. by split_and!.
  - do 3 (case_match; [intros [= <- <-]; first [done|intros _; split; [done|by left]]|]).
    intros [= <- <-] _. split; [done|by left].
Qed.
End server.

(** ** Concrete runs *)

Definition example_mail_template (subject body : option string) (username : string) : option string :=
  Some ("Hello " +:+ username +:+ ", " +:+ default ""%string body)%string.

Definition mail_cloud : Cloud :=
  account_cloud
    <| c_siteconfig := table_of [mkSiteConfig TOTAL_KEY "7"] |>.

Definition mail_request (ids : list Z) (to : option string) : mail_data :=
  mkMailData (Some 1) ids to None (Some "news"%string) (Some "body"%string).

(** An empty list of users mails everybody with a confirmed address. *)
Example empty_list_mails_all :
  (request (mailto_user_list example_mail_template (mail_request [] None)) mail_cloud).2 =
  [StoreMail "8-mail" (Some "news"%string) "ann@example.org" "admin@localhost" "Hello ann, body"].
Proof. vm_compute. reflexivity. Qed.

(** A user that is not there, and no address: the name is not bound. *)
Example no_such_user :
  (mailto_address example_mail_template
     (mkMailData None [] None (Some 99) None None) (start mail_cloud)).1 =
  Raise "UnboundLocalError: username".
Proof. vm_compute. reflexivity. Qed.

Definition two_addresses : list effect :=
  let '(s1, o1) := request (mailto_address example_mail_template (mail_request [] (Some "x@y"%string))) mail_cloud in
  let '(_, o2) := request (mailto_address example_mail_template (mail_request [] (Some "z@y"%string))) s1 in
  o1 ++ o2.

(** Two requests in a row: the second mail replaces the first in the store. *)
Example second_address_replaces :
  map_to_list ∘ files <$> run false new_mailer (sends_of (omap mail_of two_addresses)) =
  Some [("8-mail"%string, mkEmail "Hello z, body" (Some "news"%string) (Some "z@y"%string) "admin@localhost" "html")].
Proof. vm_compute. reflexivity. Qed.

Lemma mailto_user_list_spec_witness :
  let d := mail_request [1; 5] None in
  let ms := mails_for example_mail_template mail_cloud d (user_list mail_cloud [1; 5]) in
  ms = [("ann@example.org", "Hello ann, body")]%string ∧
  let '(r, w) := mailto_user_list example_mail_template d (start mail_cloud) in
  let s' := comm w in
  r = Val tt ∧ outs w = stored d (adr_from mail_cloud) 7 ms ∧
  mail_count s' = Some (7 + Z.of_nat (length ms)) ∧
  (∃ J, c_sitejobs s' = tput (seq (c_sitejobs mail_cloud) + 1) J (tinsert J (c_sitejobs mail_cloud)).2 ∧
        sj_user_id J = Some 1 ∧ is_stoped J = true) ∧
  same_but_total mail_cloud (s' <| c_sitejobs := c_sitejobs mail_cloud |>).
Proof.
  split; [vm_compute; reflexivity|].
  apply (mailto_user_list_spec example_mail_template (mail_request [1; 5] None) mail_cloud 7).
  - apply table_of_seq_ok.
  - vm_compute. reflexivity.
Defined.

Lemma mailto_address_reuses_name_witness :
  let d := mail_request [] (Some "x@y"%string) in
  let '(s', o) := request (mailto_address example_mail_template d) mail_cloud in
  mail_count s' = Some 7 ∧ same_but_total mail_cloud s' ∧
  o = match address_mail example_mail_template mail_cloud d with
      | Some (to, text) => [StoreMail (mail_name (7 + 1)) (md_subject d) to (adr_from mail_cloud) text]
      | None => []
      end.
Proof.
  apply (mailto_address_reuses_name example_mail_template (mail_request [] (Some "x@y"%string)) mail_cloud 7).
  - apply table_of_seq_ok.
  - vm_compute. reflexivity.
Defined.

Lemma user_list_mails_kept_witness :
  let '(s', o) := request (mailto_user_list example_mail_template (mail_request [1] None)) mail_cloud in
  ∃ n' st', mail_count s' = Some n' ∧
    run_fresh true new_mailer (sends_of (omap mail_of o)) = Some st' ∧
    accepted st' = accepted new_mailer ++ (omap mail_of o).*2 ∧
    length (omap mail_of o) = length (mails_for example_mail_template mail_cloud (mail_request [1] None)
                                        (user_list mail_cloud [1])) ∧
    (∀ i, n' < i → dir st' !! mail_name i = None) ∧
    accepted st' ++ again st' ≡ₚ (tried st').*1 ++ unsent st' ++ waiting st'.
Proof.
  apply (user_list_mails_kept example_mail_template true (mail_request [1] None) mail_cloud 7 new_mailer).
  - apply reach_new.
  - reflexivity.
  - apply table_of_seq_ok.
  - vm_compute. reflexivity.
  - intros i _. apply lookup_empty.
Defined.

Definition register_msg : json :=
  JObj [("key", JStr "/node/register"); ("msg", JObj [("password", JStr "fffaaa")])]%string.

Lemma node_registration_witness :
  let c := mkClc NewClient [] [] in
  let c' := mkClc NodeStream [(7, "testnode03")]%string [("/register/result", true)]%string in
  receive "5f3a" 7 register_msg c = inr (c', NoTask) ∧
  (cl_reader c = NewClient ∧
     (cl_nodes c' = cl_nodes c ∧ cl_reader c' = Closed ∨
      ∃ m password, register_msg = JObj m ∧ jget "key" m = Some (JStr "/node/register") ∧
        (x ← jget "msg" m; member "password" x) = Some (JStr password) ∧
        _encrypt_password "5f3a" password = _encrypt_password "5f3a" "fffaaa" ∧
        cl_nodes c' = cl_nodes c ++ [(7, "testnode03"%string)] ∧ cl_reader c' = NodeStream ∧
        NoTask = NoTask)).
Proof.
  split; [vm_compute; reflexivity|].
  apply (proj1 (node_registration "5f3a" 7 register_msg (mkClc NewClient [] []) eq_refl)
           (mkClc NodeStream [(7, "testnode03")]%string [("/register/result", true)]%string) NoTask);
    [vm_compute; reflexivity|done].
Defined.
