(* ===== verification/MailQueue.v ===== *)
(** The older server of mail: the queue [QueMail] (src/lyweb/lib/yweb/quemail.py)
    with its sending thread, and src/lyweb/tool/lymaster.py, which answers
    messages and fills the queue. *)
From Stdlib Require Import Ascii String.
From S2P Require Import Prelude PyText Table Session Cloud MailStore MailTo.
#[local] Open Scope Z_scope.

(** ** The queue *)

Inductive qphase := QLooping | QConnecting | QLoggingIn | QPassing | QLoaded (m : Email)
  | QQuitting (connected : bool) | QStopped | QDied.

(** [q_accepted] and [q_tried] are the history: what [send] took, and what was
    taken from the queue, with the answer of the server, or [None] when the mail did not
    come to one (its text could not be made, or the connection was lost); [q_refused] what [put] refused, after
    30 seconds with a full queue. *)
Record quemail := mkQuemail {
  q_queue : list Email; q_at : qphase; q_quit : bool;
  q_accepted : list Email; q_tried : list (Email * option bool); q_refused : list Email }.

#[export] Instance eta_quemail : Eta quemail :=
  λ r, mkQuemail (q_queue r) (q_at r) (q_quit r) (q_accepted r) (q_tried r) (q_refused r).

Definition QUEUE_SIZE : nat := 200.
Definition new_quemail : quemail := mkQuemail [] QLooping false [] [] [].

Inductive qevent := QCheck | QConnect (ok : bool) | QLogin (ok : bool) | QGet | QSendmail (reply : option bool)
  | QQuit (ok : bool) | QPut (m : Email) | QFull (m : Email) | QEnd.

(** [QCheck] is the head of [while not self._do_quit] with the test of the queue. *)
Definition qstep (login : bool) (st : quemail) (ev : qevent) : option quemail :=
  match ev, q_at st with
  | QCheck, QLooping =>
      Some (st <| q_at := if q_quit st then QStopped else
                          match q_queue st with [] => QLooping | _ => QConnecting end |>)
  | QConnect ok, QConnecting =>
      Some (st <| q_at := if ok then (if login then QLoggingIn else QPassing) else QQuitting false |>)
  | QLogin ok, QLoggingIn => Some (st <| q_at := if ok then QPassing else QQuitting true |>)
  | QGet, QPassing =>
      match q_queue st with
      | [] => Some (st <| q_at := QQuitting true |>)
      | m :: l => Some (st <| q_queue := l |> <| q_at := QLoaded m |>)
      end
  | QSendmail reply, QLoaded m =>
      Some (st <| q_tried ::= λ l, l ++ [(m, reply)] |> <| q_at := QPassing |>)
  | QQuit ok, QQuitting connected =>
      Some (st <| q_at := if connected && ok then QLooping else QDied |>)
  | QPut m, _ =>
      if decide (length (q_queue st) < QUEUE_SIZE)%nat
      then Some (st <| q_queue ::= λ l, l ++ [m] |> <| q_accepted ::= λ l, l ++ [m] |>)
      else None
  | QFull m, _ =>
      if decide (length (q_queue st) < QUEUE_SIZE)%nat then None
      else Some (st <| q_refused ::= λ l, l ++ [m] |>)
  | QEnd, _ => Some (st <| q_quit := true |>)
  | _, _ => None
  end.

Definition q_step_rel (login : bool) (st st' : quemail) : Prop := ∃ ev, qstep login st ev = Some st'.

(** The mail the thread took from the queue and holds. *)
Definition in_hand (st : quemail) : list Email :=
  match q_at st with QLoaded m => [m] | _ => [] end.

Record quemail_ok (st : quemail) : Prop := {
  q_fifo : q_accepted st = (q_tried st).*1 ++ in_hand st ++ q_queue st;
  q_bound : (length (q_queue st) ≤ QUEUE_SIZE)%nat }.

Lemma qstep_ok login st ev st' : qstep login st ev = Some st' → quemail_ok st → quemail_ok st'.
Proof.
  intros Hs [Hf Hb]. unfold qstep in Hs. unfold in_hand in Hf.
  destruct ev as [|ok|ok| |ok|ok|m|m|].
  - destruct (q_at st); try done. simplify_eq. split; [|done]. cbn. rewrite Hf. by destruct (q_quit st), (q_queue st).
  - destruct (q_at st); try done. simplify_eq. split; [|done]. cbn. rewrite Hf. by destruct ok, login.
  - destruct (q_at st); try done. simplify_eq. split; [|done]. cbn. rewrite Hf. by destruct ok.
  - destruct (q_at st); try done. destruct (q_queue st) as [|m l] eqn:Hq; simplify_eq; split; cbn in *; rewrite ?Hf, ?Hq; try done; lia.
  - destruct (q_at st); try done. simplify_eq. split; [|done]. cbn. by rewrite Hf, fmap_app, <- app_assoc.
  - destruct (q_at st); try done. simplify_eq. split; [|done]. cbn. rewrite Hf. by destruct (connected && ok).
  - case_decide; [|done]. simplify_eq. split; cbn; [by rewrite Hf, <- !app_assoc|].
    rewrite length_app. cbn. lia.
  - case_decide; [done|]. simplify_eq. by split.
  - simplify_eq. by split.
Qed.

(** Whatever the server answers and however senders and the thread interleave, the
    queue never holds more than 200 mails, and the mails the thread is done with, the
    one in the hands of the thread and the queue are together exactly the mails that
    were accepted, in the order in which they were: none is sent twice or overtakes
    another. *)
Theorem queue_fifo login st :
  rtc (q_step_rel login) new_quemail st →
  (length (q_queue st) ≤ QUEUE_SIZE)%nat ∧
  q_accepted st = (q_tried st).*1 ++ in_hand st ++ q_queue st.
Proof.
  intros H. cut (quemail_ok st); [by intros []|].
  assert (quemail_ok new_quemail) as H0 by (by split; [|cbn; lia]).
  revert H0. induction H as [|s1 s2 s3 [ev Hs] _ IH]; [done|].
  intros H0. apply IH. by eapply qstep_ok.
Qed.

(** ** lymaster *)

Section lymaster.
Context (mail_template : option string → option string → string → option string).

(** The body of one user is the template around the body of the user before; the call that
    would queue the mail is commented out in the source. *)
Fixpoint master_users (d : mail_data) (body : option string) (j : Z) (us : list Z) : Web Cloud unit :=
  match us with
  | [] => mret tt
  | u :: us =>
      U ← fetch (A := User) u;
      modify j (update_status ("send mail to " +:+ str_of_Z u +:+ ": " +:+ u_username U +:+
                               " (" +:+ py_str (u_email U) +:+ ")")%string);;
      commit;;
      if negb (truthy (u_email U) && u_email_valid U) then master_users d body j us else
      master_users d (mail_template (md_subject d) body (display_name U)) j us
  end.

Definition master_user_list (d : mail_data) : Web Cloud unit :=
  j ← add_row (set_started (site_job (md_uid d) "send mail to user list."));
  commit;;
  us ← ask (λ s, user_list s (md_ids d));
  master_users d (md_body d) j us;;
  modify j set_ended;;
  commit.

(** The mail that is queued, without a look at the address of the user. *)
Definition master_address (s : Cloud) (d : mail_data) : string + option Email :=
  if negb (truthy (md_to d) || bool_decide (default 0 (md_to_user_id d) ≠ 0)) then inr None else
  let a := addressee s d in
  match a.1 with
  | None => inl "UnboundLocalError: username"%string
  | Some username =>
      let body := mail_template (md_subject d) (md_body d) username in
      if truthy body then
        inr (Some (mkEmail (default ""%string body) (md_subject d) a.2 (adr_from s) "html"))
      else inr None
  end.

Inductive master_task := MUserList (data : json) | MAddress (data : json).

(** What Python takes for false. *)
Definition falsy (v : json) : bool :=
  match v with
  | JNull | JBool false | JList [] | JObj [] => true
  | JNum n => n =? 0
  | JStr s => String.eqb s ""
  | _ => false
  end.

Definition is_str (v : json) (s : string) : bool :=
  match v with JStr t => String.eqb t s | _ => false end.

(** [main] on the messages that arrive: the replies it sends, what it sets going, and
    whether it still runs. A message that is no object raises. *)
Fixpoint main (msgs : list json) : nat * list master_task * bool :=
  match msgs with
  | [] => (0%nat, [], true)
  | JObj l :: msgs =>
      let go (ts : list master_task) :=
        let '(n, ts', running) := main msgs in (Datatypes.S n, ts ++ ts', running) in
      let uri := default JNull (jget "uri" l) in
      if falsy uri then go [] else
      let data := default (JObj []) (jget "data" l) in
      if is_str uri "mailto.userlist" then go [MUserList data]
      else if is_str uri "mailto.address" then go [MAddress data]
      else (1%nat, [], false)
  | _ :: _ => (1%nat, [], false)
  end.

(** A message [main] goes on after. *)
Definition supported (v : json) : bool :=
  match v with
  | JObj l => let uri := default JNull (jget "uri" l) in
              falsy uri || is_str uri "mailto.userlist" || is_str uri "mailto.address"
  | _ => false
  end.

Lemma main_supported v msgs :
  supported v = true →
  ∃ ts, main (v :: msgs) = let '(n, ts', running) := main msgs in (Datatypes.S n, ts ++ ts', running).
Proof.
  destruct v as [| | | | |l]; try done. cbn. intros H. destruct (main msgs) as [[n ts] running].
  destruct (falsy _); [by exists []|]. cbn in H. destruct (is_str _ "mailto.userlist"); [by exists [MUserList (default (JObj []) (jget "data" l))]|].
  cbn in H. rewrite H. by exists [MAddress (default (JObj []) (jget "data" l))].
Qed.

Lemma main_unsupported v msgs : supported v = false → main (v :: msgs) = (1%nat, [], false).
Proof.
  destruct v as [| | | | |l]; try done. cbn. intros H. destruct (falsy _); [done|].
  cbn in H. apply orb_false_iff in H as [H1 H2]. by rewrite H1, H2.
Qed.

(** The older server answers every message as long as it supports them all; at the first
    one it does not support it answers that one and ends, whatever comes after. *)
Theorem main_ends_on_unsupported msgs :
  (Forall (λ v, supported v = true) msgs → (main msgs).2 = true ∧ (main msgs).1.1 = length msgs) ∧
  ∀ v post, Forall (λ v, supported v = true) msgs → supported v = false →
    (main (msgs ++ v :: post)).2 = false ∧ (main (msgs ++ v :: post)).1.1 = (length msgs + 1)%nat.
Proof.
  split.
  - induction 1 as [|v msgs Hv _ IH]; [done|]. destruct (main_supported v msgs Hv) as [ts ->].
    destruct (main msgs) as [[n ts'] running]. cbn in *. destruct IH. by subst.
  - intros v post H Hv. induction H as [|v' msgs Hv' _ IH].
    + cbn [app]. by rewrite main_unsupported.
    + cbn [app]. destruct (main_supported v' (msgs ++ v :: post) Hv') as [ts ->].
      destruct (main _) as [[n ts'] running]. cbn in *. destruct IH. by subst.
Qed.
End lymaster.

(** ** Concrete runs *)

(** The same request on both servers: the older one reports success and mails nobody. *)
Example master_mails_nobody :
  (request (master_user_list example_mail_template (mail_request [1] None)) mail_cloud).2 = [] ∧
  length (request (mailto_user_list example_mail_template (mail_request [1] None)) mail_cloud).2 = 1%nat.
Proof. split; vm_compute; reflexivity. Qed.

Lemma queue_fifo_witness :
  let st := mkQuemail [mail_b] (QLoaded mail_a) false [mail_a; mail_b] [] [] in
  (length (q_queue st) ≤ QUEUE_SIZE)%nat ∧
  q_accepted st = (q_tried st).*1 ++ in_hand st ++ q_queue st.
Proof.
  apply (queue_fifo false).
  eapply rtc_l; [exists (QPut mail_a); reflexivity|].
  eapply rtc_l; [exists QCheck; reflexivity|].
  eapply rtc_l; [exists (QConnect true); reflexivity|].
  eapply rtc_l; [exists QGet; reflexivity|].
  eapply rtc_l; [exists (QPut mail_b); reflexivity|]. apply rtc_refl.
Defined.

Lemma main_ends_on_unsupported_witness :
  let m uri := JObj [("uri", JStr uri)]%string in
  (main ([m "mailto.address"] ++ m "x" :: [m "mailto.address"])).2 = false ∧
  (main ([m "mailto.address"] ++ m "x" :: [m "mailto.address"])).1.1 = 2%nat.
Proof.
  cbv zeta. apply (proj2 (main_ends_on_unsupported [JObj [("uri", JStr "mailto.address")]%string])).
  - repeat constructor.
  - reflexivity.
Defined.
