(* ===== verification/Register.v ===== *)
(** New accounts: the profile and the defaults of a user
    (src/lyweb/app/account/models.py, tool/luoyuncloud_default.py), registration
    by e-mail (app/registration), users of another site (the OpenID handlers and
    the QQ login of app/account/views.py). *)
From Stdlib Require Import Ascii String.
From S2P Require Import Prelude PyText PyBytes Password Table Session Cloud Quota InstanceModel Web Forms LifeControl Myun Account.
#[local] Open Scope Z_scope.

(** ** The defaults of a user *)

(** A text of the site's configuration stored in an integer column: the database
    refuses what is no number. *)
Definition config_number (s : Cloud) (key : string) (def : Z) : option Z :=
  match site_config s key with
  | None => Some def
  | Some t => py_int t
  end.

Definition get_site_config_int (s : Cloud) (key : string) (def : Z) : Z :=
  match site_config s key with
  | None => def
  | Some t => default 0 (py_int t)
  end.

(** [UserProfile.__init__] *)
Definition new_profile (now : Z) (u : Z) (s : Cloud) : option UserProfile :=
  cpu ← config_number s "user.default.static_cpu" 1;
  memory ← config_number s "user.default.static_memory" 256;
  storage ← config_number s "user.default.static_storage" 2;
  instance ← config_number s "user.default.static_instance" 3;
  bandwidth ← config_number s "user.default.static_bandwidth" 1;
  rx ← config_number s "user.default.static_rx" 2000;
  tx ← config_number s "user.default.static_tx" 2000;
  port ← config_number s "user.default.static_port" 6;
  vlan ← config_number s "user.default.static_vlan" 1;
  domain ← config_number s "user.default.static_domain" 6;
  Some (mkUserProfile u cpu memory storage instance bandwidth rx tx port vlan domain None now).

Definition add_profile (e : req) (u : Z) : Web Cloud unit :=
  o ← ask (new_profile (now e) u);
  match o with
  | None => raise "DataError"
  | Some p => _ ← add_row p; commit
  end.

Definition YEAR := 365 * 3600 * 24.

(** What [init_account] grants besides the profile. *)
Definition dynamic_resources (s : Cloud) : list (Z * Z) := [
  (T_CPU, get_site_config_int s "user.default.dynamic_cpu" 0);
  (T_MEMORY, get_site_config_int s "user.default.dynamic_memory" 0);
  (T_STORAGE, get_site_config_int s "user.default.dynamic_storage" 0);
  (T_INSTANCE, get_site_config_int s "user.default.dynamic_instance" 0)].

Definition init_account (e : req) (u : Z) : Web Cloud unit :=
  l ← ask dynamic_resources;
  for_each l (λ '(t, size),
    if size =? 0 then mret tt
    else _ ← add_row (mkResource u t size (Some (now e)) (Some (now e + YEAR))); mret tt);;
  p ← ask (λ s, profile_of s u);
  match p with None => add_profile e u | Some _ => mret tt end;;
  lang ← ask (λ s, config_number s "user.default.language" 61);
  gid ← ask (λ s, config_number s "user.default.group" 2);
  match lang, gid with
  | Some lang, Some gid =>
      modify u (λ U : User, U <| u_language_id := Some lang |>);;
      g ← get_row (A := Group) gid;
      match g with
      | Some _ => modify u (λ U : User, U <| u_groups := [gid] |>)
      | None => mret tt
      end;;
      commit
  | _, _ => raise "DataError"
  end.

Section register.
Context `{!Sha512, !SessionCodec}.

(** [User.__init__]; [lang] is the language of the request. *)
Definition new_user (username password : string) (lang : Z) : User :=
  mkUser username None false false 0 0 [] password (Some username) None None (Some lang) None.

(** ** Registration *)

Definition apply_by_key (s : Cloud) (key : string) : option (Z * RegistrationApply) :=
  head (select (λ _ A, String.eqb (ra_key A) key) s).
Definition apply_by_email (s : Cloud) (addr : string) : option (Z * RegistrationApply) :=
  head (select (λ _ A, String.eqb (ra_email A) addr) s).

(** A new application, or a new key for the one that is there; [key] is drawn at
    random. *)
Definition post_apply (e : req) (key : string) : Web Cloud unit :=
  match email_field e with
  | Some addr =>
      if negb (bool_field e "accept_rules") then emit (Render "registration/apply.html") else
      K ← ask (λ s, apply_by_email s addr);
      U ← ask (λ s, user_by_email s addr);
      let done : Web Cloud unit :=
        commit;;
        (if clc_up e then emit (Mail addr 0 key) else mret tt);;
        emit (Render "registration/apply_complete.html") in
      match K with
      | Some (i, _) =>
          modify i (λ A : RegistrationApply, A <| ra_key := key |>);; done
      | None =>
          match U with
          | Some _ => emit (Render "registration/apply.html")
          | None => _ ← add_row (mkRegistrationApply addr key); done
          end
      end
  | None => emit (Render "registration/apply.html")
  end.

Definition username_field (e : req) : option string :=
  let v := text_field e "username" in if length_ok 2 21 v then Some v else None.

Definition post_registration (e : req) (i : Z) (x : RegistrationApply)
    (salt session_key : string) (lang : Z) : Web Cloud unit :=
  match username_field e, password_fields e with
  | Some name, Some pw =>
      old ← ask (λ s, user_by_name s name);
      match old with
      | Some _ => emit (Render "registration/registration.html")
      | None =>
          u ← add_row ((new_user name (enc_login_passwd salt pw) lang)
                         <| u_email_valid := true |> <| u_email := Some (ra_email x) |>);
          delete_row RegistrationApply i;;
          commit;;
          add_profile e u;;
          init_account e u;;
          save_session e session_key u;;
          emit (Redirect "/" 0)
      end
  | _, _ => emit (Render "registration/registration.html")
  end.

(** [Register]: its [prepare], then [post]. *)
Definition Register_post (e : req) (key salt session_key : string) (lang : Z) :
    Web Cloud unit :=
  status ← ask (λ s, site_config s "registration.status");
  if bool_decide (is_Some status ∧ status ≠ Some "true"%string)
  then emit (Write "Registration is disabled now.") else
  let k := get_argument e "key" "" in
  if String.eqb k "" then post_apply e key else
  x ← ask (λ s, apply_by_key s k);
  match x with
  | None => emit (Render "registration/registration.html")
  | Some (i, x) => post_registration e i x salt session_key lang
  end.

(** ** OpenID *)

(** [OpenIDHandler.initialize] and [prepare]: the key and the identity it is for. *)
Definition openid_handler (e : req) : Web Cloud (option (Z * Z * OpenID)) :=
  let k := get_argument e "auth_key" "" in
  if String.eqb k "" then no "No auth key" else
  K ← ask (λ s, authkey_by_key s k);
  match K with
  | None => no "Invalid key"
  | Some (ki, K) =>
      let openid := default 0 (get_argument_int e "openid" (Some 0)) in
      if openid =? 0 then no "No openid" else
      OI ← get_row (A := OpenID) openid;
      match OI with
      | None => no "Invalid openid"
      | Some OI =>
          if String.eqb (ak_data K) (oi_openid OI) then mret (Some (ki, openid, OI))
          else no "auth key and openid not match."
      end
  end.

(** [OpenIDNewForm] *)
Definition openid_form (e : req) (s : Cloud) : option (string * string * string) :=
  addr ← email_field e;
  name ← username_field e;
  pw ← password_fields e;
  match user_by_email s addr, user_by_name s name with
  | None, None => Some (addr, name, pw)
  | _, _ => None
  end.

Definition OpenIDUserNew_post (e : req) (salt session_key : string) (lang : Z) :
    Web Cloud unit :=
  o ← openid_handler e;
  match o with
  | None => mret tt
  | Some (ki, oi, OI) =>
      f ← ask (openid_form e);
      match f with
      | None => emit (Render "account/openid_user_new.html")
      | Some (addr, name, pw) =>
          u ← add_row ((new_user name (enc_login_passwd salt pw) lang)
                         <| u_nickname := Some (default name (oi_nickname OI)) |>
                         <| u_email := Some addr |>);
          commit;;
          init_account e u;;
          modify u (λ U : User, U <| u_last_login := Some (now e) |>);;
          modify oi (λ OI : OpenID, OI <| oi_user_id := Some u |>);;
          commit;;
          save_session e session_key u;;
          delete_row AuthKey ki;;
          commit;;
          redirect_next e "/account"
      end
  end.

(** The nickname of the other site is taken when the user has none of his own. *)
Definition take_nickname (OI : OpenID) (U : User) : User :=
  match u_nickname U with
  | Some n => if String.eqb n "" || String.eqb n (u_username U)
              then U <| u_nickname := Some (default (u_username U) (oi_nickname OI)) |> else U
  | None => U <| u_nickname := Some (default (u_username U) (oi_nickname OI)) |>
  end.

Definition OpenIDUserBinding_post (e : req) (session_key : string) : Web Cloud unit :=
  o ← openid_handler e;
  match o with
  | None => mret tt
  | Some (ki, oi, OI) =>
      f ← ask (login_form e);
      match f with
      | None => emit (Render "account/openid_user_binding.html")
      | Some u =>
          modify oi (λ OI : OpenID, OI <| oi_user_id := Some u |>);;
          modify u (take_nickname OI);;
          save_session e session_key u;;
          delete_row AuthKey ki;;
          commit;;
          redirect_next e "/"
      end
  end.

(** ** The answers of QQ *)

Definition openid_of (s : Cloud) (openid : string) : option (Z * OpenID) :=
  head (select (λ _ OI, String.eqb (oi_openid OI) openid) s).

Definition add_authkey (e : req) (key openid : string) : Web Cloud unit :=
  _ ← add_row (mkAuthKey key openid (now e + WEEK));
  commit;;
  emit (Render "account/openid_success.html").

(** [QQLogin._on_auth]: [None] for no session; otherwise the members [openid] and
    [access_token], empty when they are missing. The result tells to ask QQ who
    the user is. *)
Definition qq_on_auth (e : req) (session : option (string * string)) (key session_key : string) :
    Web Cloud bool :=
  match session with
  | None => emit (Write "QQ auth failed");; mret false
  | Some (openid, token) =>
      if String.eqb openid "" then emit (Write "Have not get openid");; mret false else
      OI ← ask (λ s, openid_of s openid);
      match OI with
      | Some (_, OI) =>
          match oi_user_id OI with
          | Some u =>
              save_session e session_key u;;
              modify u (λ U : User, U <| u_last_login := Some (now e) |>);;
              commit;;
              emit (Redirect "/" 0);; mret false
          | None => add_authkey e key openid;; mret false
          end
      | None =>
          if String.eqb token "" then emit (Write "QQ auth failed");; mret false
          else mret true
      end
  end.

(** [QQLogin._on_user_info]: [ret] and the nickname of the answer. *)
Definition qq_on_user_info (e : req) (openid : string) (ret : option Z)
    (nickname : option string) (key : string) : Web Cloud unit :=
  if bool_decide (ret = Some 0) then
    _ ← add_row (mkOpenID None openid 1 nickname);
    commit;;
    add_authkey e key openid
  else emit (Write "QQ auth failed").
End register.
