(* ===== verification/QQLogin.v ===== *)
(** Login by an account of QQ (OAuth 2; QQLogin of src/lyweb/app/account/views.py over
    src/lyweb/lib/yweb/auth.py): the request as a whole, from the configuration and the
    state cookie through the answers of QQ's servers to the session or the new OpenID. What
    [_on_auth] and [_on_user_info] do is in Register. *)
From Stdlib Require Import Ascii String.
From S2P Require Import Prelude PyText PyBytes Password Table Session Cloud Quota InstanceModel Web Forms LifeControl Myun Account SiteContent Register.
#[local] Open Scope Z_scope.

(** ** JSON objects as Python's dictionaries *)

(** [d.get(k, default)] *)
Definition dict_get (k : string) (def : json) (l : list (string * json)) : json :=
  default def (jget k l).

(** Texts are texts; QQ and the configuration page send no other values here. *)
Definition json_text (v : json) : string := match v with JStr t => t | _ => ""%string end.

(** [d.update(e)] *)
Definition dict_update (d e : list (string * json)) : list (string * json) :=
  foldl (λ d kv, jset kv.1 kv.2 d) d e.

(** ** The answers of QQ *)

(** [re.match(r'.*?\\((.*?)\\)', body).group(1)]: what is between the first parenthesis and
    the first closing one after it, on the first line. *)
Definition newline : ascii := "010"%char.

Fixpoint up_to_close (s : string) : option string :=
  match s with
  | EmptyString => None
  | String c s' =>
      if (c =? ")")%char then Some EmptyString
      else if (c =? newline)%char then None
      else String c <$> up_to_close s'
  end.
Fixpoint in_parentheses (s : string) : option string :=
  match s with
  | EmptyString => None
  | String c s' =>
      match (if (c =? "(")%char then up_to_close s' else None) with
      | Some t => Some t
      | None => if (c =? newline)%char then None else in_parentheses s'
      end
  end.

(** What a login meets outside the program: the value of the signed cookie [state_key], the
    random state of a new one, the bodies of the three answers of QQ ([None] for an error),
    the random keys of the session and of the mailed link. *)
Record qq_env := mkQQ {
  qq_state : option string; qq_new_state : string;
  qq_token : option string; qq_openid : option string; qq_info : option string;
  qq_key : string; qq_session : string }.

Section qq.
Context {ShaI : Sha512} {CodecI : SessionCodec} {TextI : SiteText}.
(** [parse_qs]: the values of each name in a query text. *)
Context (parse_qs : string → list (string * list string)).

Fixpoint qs_get (k : string) (l : list (string * list string)) : option (list string) :=
  match l with
  | [] => None
  | (k', v) :: l => if String.eqb k' k then Some v else qs_get k l
  end.

(** [_on_access_token], [_on_open_id]: an exception, no session, or its members. *)
Definition get_authenticated_user (q : qq_env) : string + option (list (string * json)) :=
  match qq_token q with
  | None => inr None
  | Some body =>
      let args := parse_qs body in
      match qs_get "access_token" args ≫= last, qs_get "expires_in" args ≫= head with
      | None, _ => inl "KeyError: access_token"%string
      | Some _, None => inl "TypeError: NoneType"%string
      | Some token, Some expires =>
          match qq_openid q with
          | None => inr None
          | Some body =>
              match in_parentheses body with
              | None => inl "AttributeError: NoneType"%string
              | Some text =>
                  match loads text with
                  | Some (JObj l) =>
                      inr (Some (dict_update
                        [("access_token", JStr token); ("expires", JStr expires)]%string l))
                  | _ => inl "ValueError"%string
                  end
              end
          end
      end
  end.

(** ** The request *)

(** [prepare]: who may be asked, the application's id, its key and the address to come
    back to; the text of the answer otherwise. *)
Definition qq_config (s : Cloud) : string + (string + string * string * string) :=
  match site_config s "qq.auth2" with
  | None => inr (inl "QQ Auth2 have not configured."%string)
  | Some v =>
      if String.eqb v "" then inr (inl "QQ Auth2 have not configured."%string) else
      match loads v with
      | None => inl "ValueError"%string
      | Some QV =>
          if negb (json_true QV) then inr (inl "QQ Auth2 have not configured."%string) else
          match QV with
          | JObj l =>
              if negb (json_true (dict_get "enabled" (JBool false) l))
              then inr (inl "QQ Auth2 login is disabled."%string) else
              let id := json_text (dict_get "app_id" (JStr "") l) in
              let key := json_text (dict_get "app_key" (JStr "") l) in
              let uri := json_text (dict_get "redirect_uri" (JStr "") l) in
              if String.eqb id "" || String.eqb key "" || String.eqb uri ""
              then inr (inl "QQ Auth2 configure has wrong."%string)
              else inr (inr (id, key, uri))
          | _ => inl "AttributeError: get"%string
          end
      end
  end.

Definition argument (e : req) (key : string) : option string := strip <$> args e !! key.

(** [_on_user_info] with the text of QQ's answer. *)
Definition on_user_info (e : req) (q : qq_env) (openid : string) : Web Cloud unit :=
  match qq_info q with
  | None => raise "TypeError: NoneType"
  | Some body =>
      match loads body with
      | Some (JObj l) =>
          let ret := match jget "ret" l with
                     | Some (JNum n) => Some n
                     | Some (JBool false) => Some 0
                     | _ => None
                     end in
          qq_on_user_info e openid ret (json_text <$> jget "nickname" l) (qq_key q)
      | Some _ => raise "AttributeError: get"
      | None => raise "ValueError"
      end
  end.

(** The members [openid] and [access_token] of a session. *)
Definition session_of (l : list (string * json)) : string * string :=
  (json_text (dict_get "openid" JNull l), json_text (dict_get "access_token" JNull l)).

Definition AUTHORIZE_URL : string := "https://graph.qq.com/oauth2.0/authorize".

Definition QQLogin_get (e : req) (q : qq_env) : Web Cloud unit :=
  cfg ← ask qq_config;
  match cfg with
  | inl x => raise x
  | inr (inl msg) => emit (Write msg)
  | inr (inr (client_id, client_secret, redirect_uri)) =>
      if negb (String.eqb (default ""%string (argument e "code")) "") then
        if negb (bool_decide (argument e "state" = qq_state q))
        then emit (Write "state is not match.") else
        emit (SetCookie "state_key" "");;
        match get_authenticated_user q with
        | inl x => raise x
        | inr session =>
            more ← qq_on_auth e (session_of <$> session) (qq_key q) (qq_session q);
            if (more : bool)
            then on_user_info e q (default ""%string (fst ∘ session_of <$> session))
            else mret tt
        end
      else
        emit (SetCookie "state_key" (qq_new_state q));;
        emit (Redirect AUTHORIZE_URL 0)
  end.

(** ** What a login does *)

(** The OpenID a request is accepted for: the site is configured, the request brings a code
    and the state of the cookie, and QQ names one for the code. *)
Definition qq_accepts (e : req) (q : qq_env) (s : Cloud) : option string :=
  match qq_config s with
  | inr (inr _) =>
      if negb (String.eqb (default ""%string (argument e "code")) "") &&
         bool_decide (argument e "state" = qq_state q)
      then
        match get_authenticated_user q with
        | inr (Some l) =>
            let openid := (session_of l).1 in
            if String.eqb openid "" then None else Some openid
        | _ => None
        end
      else None
  | _ => None
  end.

Lemma qq_run_refused e q s :
  qq_accepts e q s = None →
  (request (QQLogin_get e q) s).1 = s ∧
  ∀ v, SetCookie "session_key" v ∉ (request (QQLogin_get e q) s).2.
Proof.
  unfold qq_accepts, QQLogin_get, request. rewrite run_ask. change (work (start s)) with s.
  destruct (qq_config s) as [x|[msg|[[a b] c]]]; [intros _; split; [done|set_solver]..|].
  destruct (String.eqb _ ""); cbn [negb andb].
  { intros _. web_run. split; [done|]. cbn [outs start]. set_solver. }
  case_bool_decide; cbn [negb].
  2:{ intros _. split; [done|]. cbn. set_solver. }
  web_run. destruct (get_authenticated_user q) as [x|[l|]]; cbn [fmap option_fmap option_map].
  - intros _. split; [done|]. cbn. set_solver.
  - unfold qq_on_auth. destruct (session_of l) as [openid token]. cbn [fst].
    destruct (String.eqb openid ""); [|done]. intros _. web_run. split; [done|]. cbn. set_solver.
  - intros _. cbn. split; [done|]. set_solver.
Qed.

(** What follows [_on_auth] for an OpenID that is not known does not touch users and
    sessions. *)
Definition logins (s : Cloud) := (c_users s, c_sessions s).

Lemma user_info_frozen e q openid : keeps (frozen logins) (on_user_info e q openid).
Proof. unfold on_user_info, qq_on_user_info, add_authkey. frozen_auto. Qed.

Lemma qq_run_accepted e q s openid :
  qq_accepts e q s = Some openid →
  ∃ token o, (o = [SetCookie "state_key" ""]) ∧
    request (QQLogin_get e q) s =
      request (λ w, (more ← qq_on_auth e (Some (openid, token)) (qq_key q) (qq_session q);
                     if (more : bool) then on_user_info e q openid else mret tt)
                      (mkWorld (work w) (comm w) o)) s.
Proof.
  unfold qq_accepts, QQLogin_get. destruct (qq_config s) as [x|[msg|[[a b] c]]] eqn:Ec; [done..|].
  destruct (String.eqb _ "") eqn:En; [done|]. case_bool_decide as Es; [|done]. cbn [negb andb].
  destruct (get_authenticated_user q) as [x|[l|]] eqn:Ea; [done| |done].
  destruct (session_of l) as [o token] eqn:El. cbn [fst]. destruct (String.eqb o "") eqn:Eo; [done|].
  intros [= <-]. exists token, [SetCookie "state_key" ""]. split; [done|].
  unfold request. rewrite run_ask. change (work (start s)) with s. rewrite Ec. cbn beta iota. rewrite run_emit.
  cbn [fmap option_fmap option_map default compose fst]. by rewrite El.
Qed.

(** C8: a login by QQ. Nothing is stored and no session cookie set unless the site is
    configured for it, the request brings a code and the state of its cookie, and QQ names
    an OpenID for the code. If a user has bound the OpenID, the request is a login of that
    user and of nobody else, as with a password; if nobody has, the users and sessions stay
    as they are: the browser gets a key for the new OpenID. *)
Theorem qq_login e q s s' effs :
  request (QQLogin_get e q) s = (s', effs) →
  seq_ok (c_sessions s) →
  select (A := SessionRow) (λ _ r, String.eqb (sk_key r) (qq_session q)) s = [] →
  match qq_accepts e q s with
  | None => s' = s ∧ ∀ v, SetCookie "session_key" v ∉ effs
  | Some openid =>
      match oi_user_id ∘ snd <$> openid_of s openid with
      | Some (Some u) => ∀ U, row s u = Some U → u_is_locked U = false →
          SetCookie "session_key" (qq_session q) ∈ effs ∧
          (∀ t, get_current_user t s' (qq_session q) =
             if now e + SESSION_DAYS <? t then NoUser else UserId u) ∧
          ∀ t cookie, cookie ≠ qq_session q →
            get_current_user t s' cookie = get_current_user t s cookie
      | _ => c_users s' = c_users s ∧ c_sessions s' = c_sessions s
      end
  end.
Proof.
  intros HE Hseq Hfresh. destruct (qq_accepts e q s) as [openid|] eqn:Ea.
  2:{ destruct (qq_run_refused e q s Ea) as [H1 H2]. by rewrite HE in H1, H2. }
  assert (String.eqb openid "" = false) as En.
  { revert Ea. unfold qq_accepts. destruct (qq_config s) as [|[|]]; [done..|].
    destruct (_ && _); [|done]. destruct (get_authenticated_user q) as [|[l|]]; [done| |done].
    destruct (String.eqb _ "") eqn:E; [done|]. by intros [= <-]. }
  destruct (qq_run_accepted e q s openid Ea) as (token & o & _ & HR). rewrite HE in HR. clear HE Ea.
  unfold request, qq_on_auth in HR. rewrite En in HR. rewrite run_assoc, run_ask in HR.
  change (work (start s)) with s in HR. cbn [work comm start] in HR.
  assert (∀ m : Web Cloud unit, keeps (frozen logins) m →
    (s', effs) = (let '(_, w) := m (mkWorld s s o) in (comm w, outs w)) →
    c_users s' = c_users s ∧ c_sessions s' = c_sessions s) as Hframe.
  { intros m Hm E. destruct (Hm (mkWorld s s o)) as [_ Hc]. destruct (m _) as [r w].
    injection E as -> _. cbn [snd comm work] in Hc. by destruct Hc as [Hc|Hc]; apply pair_equal_spec in Hc. }
  destruct (openid_of s openid) as [[i OI]|]; cbn [fmap option_fmap option_map compose snd].
  - destruct (oi_user_id OI) as [u|].
    + intros U HU Hl. unfold save_session in HR. web_run_in HR. cbn [work] in HR.
      rewrite HU in HR. web_run_in HR. injection HR as -> ->.
      split; [set_solver|]. by apply (logged_in_sessions e (qq_session q) u U s).
    + revert HR. apply Hframe. unfold add_authkey. frozen_auto. apply user_info_frozen.
  - revert HR. apply Hframe. frozen_auto. apply user_info_frozen.
Qed.
End qq.

(** ** Concrete runs *)

Definition demo_loads (t : string) : option json :=
  if String.eqb t "cfg" then
    Some (JObj [("enabled", JBool true); ("app_id", JStr "1"); ("app_key", JStr "k");
                ("redirect_uri", JStr "http://cloud")]%string)
  else if String.eqb t "me" then Some (JObj [("openid", JStr "O1")]%string)
  else None.
#[local] Instance demo_text : SiteText := {| dumps _ := "{}"%string; loads := demo_loads; markdown t := t |}.
Definition demo_qs (_ : string) : list (string * list string) :=
  [("access_token", ["T"]); ("expires_in", ["7776000"])]%string.

(** Ann has bound the OpenID O1. *)
Definition qq_cloud : Cloud :=
  account_cloud
    <| c_siteconfig := table_of [mkSiteConfig "qq.auth2" "cfg"] |>
    <| c_openids := table_of [mkOpenID (Some 1) "O1" 1 None] |>.
Definition qq_demo (state : option string) : qq_env :=
  mkQQ state "new" (Some "token") (Some "callback(me);") None "key" "sk".

Example callback_text : in_parentheses "callback( me ); (x)" = Some " me "%string.
Proof. vm_compute. reflexivity. Qed.

Lemma qq_login_witness :
  qq_accepts demo_qs (account_req None [("code", "c"); ("state", "st")]%string) (qq_demo (Some "st"%string))
    qq_cloud = Some "O1"%string ∧
  let '(s', effs) := request (QQLogin_get demo_qs
    (account_req None [("code", "c"); ("state", "st")]%string) (qq_demo (Some "st"%string))) qq_cloud in
  SetCookie "session_key" "sk" ∈ effs ∧
  (∀ t, get_current_user t s' "sk" = if 1000 + SESSION_DAYS <? t then NoUser else UserId 1) ∧
  ∀ t cookie, cookie ≠ "sk"%string → get_current_user t s' cookie = get_current_user t qq_cloud cookie.
Proof.
  split; [vm_compute; reflexivity|].
  destruct (request _ qq_cloud) as [s' effs] eqn:E.
  assert (∃ U, row (A := User) qq_cloud 1 = Some U ∧ u_is_locked U = false) as (U & HU & Hl)
    by (eexists; split; vm_compute; reflexivity).
  refine (qq_login demo_qs _ (qq_demo (Some "st"%string)) qq_cloud s' effs E _ _ U HU Hl).
  - intros i _. apply lookup_empty.
  - vm_compute. reflexivity.
Defined.

(** A browser that has no state cookie is served when the request brings no state: both are
    [None], and whoever can make it open the address logs it in as he likes. *)
Example missing_state_passes :
  SetCookie "session_key" "sk" ∈
    (request (QQLogin_get demo_qs (account_req None [("code", "c")]%string) (qq_demo None)) qq_cloud).2.
Proof. vm_compute. repeat (first [by left | right]). Qed.

(** A state that does not match is refused; the text is never finished, so that the browser
    waits. *)
Example other_state_refused :
  request (QQLogin_get demo_qs (account_req None [("code", "c"); ("state", "x")]%string)
    (qq_demo (Some "st"%string))) qq_cloud = (qq_cloud, [Write "state is not match."%string]).
Proof. vm_compute. reflexivity. Qed.
