(* ===== verification/Setup.v ===== *)
(** Setting up the database (src/lyweb/manage.py with the defaults of
    src/lyweb/settings.py, tool/add_default_network.py): the program an administrator runs
    when the site is installed, and again after every update. *)
From Stdlib Require Import Ascii String.
From S2P Require Import Prelude PyText PyBytes Password Table Session Cloud Quota JobModel InstanceModel Web Forms LifeControl Myun MyStorage MyNetwork NetworkAdmin Account Register.
#[local] Open Scope Z_scope.

(** ** The defaults *)

Definition LANGUAGES : list (string * string) := [
  ("af_ZA", "Afrikaans"); ("am_ET", "አማርኛ"); ("ar_AR", "العربية"); ("bg_BG", "Български");
  ("bn_IN", "বাংলা"); ("bs_BA", "Bosanski"); ("ca_ES", "Català"); ("cs_CZ", "Čeština");
  ("cy_GB", "Cymraeg"); ("da_DK", "Dansk"); ("de_DE", "Deutsch"); ("el_GR", "Ελληνικά");
  ("en_GB", "English (UK)"); ("en_US", "English (US)"); ("es_ES", "Español (España)");
  ("es_LA", "Español"); ("et_EE", "Eesti"); ("eu_ES", "Euskara"); ("fa_IR", "فارسی");
  ("fi_FI", "Suomi"); ("fr_CA", "Français (Canada)"); ("fr_FR", "Français");
  ("ga_IE", "Gaeilge"); ("gl_ES", "Galego"); ("he_IL", "עברית"); ("hi_IN", "हिन्दी");
  ("hr_HR", "Hrvatski"); ("hu_HU", "Magyar"); ("id_ID", "Bahasa Indonesia");
  ("is_IS", "Íslenska"); ("it_IT", "Italiano"); ("ja_JP", "日本語"); ("ko_KR", "한국어");
  ("lt_LT", "Lietuvių"); ("lv_LV", "Latviešu"); ("mk_MK", "Македонски"); ("ml_IN", "മലയാളം");
  ("ms_MY", "Bahasa Melayu"); ("nb_NO", "Norsk (bokmål)"); ("nl_NL", "Nederlands");
  ("nn_NO", "Norsk (nynorsk)"); ("pa_IN", "ਪੰਜਾਬੀ"); ("pl_PL", "Polski");
  ("pt_BR", "Português (Brasil)"); ("pt_PT", "Português (Portugal)"); ("ro_RO", "Română");
  ("ru_RU", "Русский"); ("sk_SK", "Slovenčina"); ("sl_SI", "Slovenščina"); ("sq_AL", "Shqip");
  ("sr_RS", "Српски"); ("sv_SE", "Svenska"); ("sw_KE", "Kiswahili"); ("ta_IN", "தமிழ்");
  ("te_IN", "తెలుగు"); ("th_TH", "ภาษาไทย"); ("tl_PH", "Filipino"); ("tr_TR", "Türkçe");
  ("uk_UA", "Українська"); ("vi_VN", "Tiếng Việt"); ("zh_CN", "中文(简体)"); ("zh_TW", "中文(繁體)")
]%string.

Definition default_permission : list (string * string) := [
  ("admin", "Administrator"); ("appliance.upload", "Can upload appliance");
  ("instance.create", "Can create instance"); ("network.add", "Can add another NIC configure")
]%string.

Definition default_group : list string := ["admin"; "user"]%string.

Definition default_user : list (string * string) := [("admin", "admin")]%string.

(** Groups with users, groups with permissions. *)
Definition default_user_group : list (string * string) := [("admin", "admin")]%string.

Definition default_group_permission : list (string * string) := [
  ("admin", "admin"); ("user", "appliance.upload"); ("user", "instance.create")]%string.

Definition default_appliance_catalog : list (string * string) := [("LuoYun", "Default Catalog")]%string.

(** A value is a text, a number or a boolean. *)
Definition default_site_config : list (string * json) := [
  ("registration.status", JBool true); ("registration.host", JStr "http://127.0.0.1");
  ("notice.smtp.fromaddr", JStr "noreply@localhost"); ("notice.smtp.server", JStr "127.0.0.1");
  ("notice.smtp.port", JNum 25); ("notice.smtp.username", JStr ""); ("notice.smtp.password", JStr "");
  ("user.default.group", JNum 2);
  ("user.default.static_cpu", JNum 1); ("user.default.static_memory", JNum 256);
  ("user.default.static_storage", JNum 2); ("user.default.static_instance", JNum 3);
  ("user.default.static_bandwidth", JNum 0); ("user.default.static_rx", JNum 2000);
  ("user.default.static_tx", JNum 2000); ("user.default.static_port", JNum 6);
  ("user.default.static_vlan", JNum 1); ("user.default.static_domain", JNum 6);
  ("user.default.dynamic_cpu", JNum 0); ("user.default.dynamic_memory", JNum 0);
  ("user.default.dynamic_storage", JNum 0); ("user.default.dynamic_instance", JNum 0);
  ("site.attachment.url", JStr "/dl/attachment/");
  ("site.attachment.path", JStr "/opt/LuoYun/data/attachment/")]%string.

(** Name, description, size in GB. *)
Definition default_storage_config : list (string * string * Z) :=
  [("Default", "LuoYunCloud default storage pool", 1024)]%string.

(** ** The program *)

(** [query.filter_by(key = k).first()] *)
Definition find_key {A} `{HasTable Cloud A} (key : A → string) (k : string) (s : Cloud) : option (Z * A) :=
  head (select (λ _ y, String.eqb (key y) k) s).

(** The loops add what is not there under its key. *)
Definition add_missing {A} `{HasTable Cloud A} (key : A → string) (x : A) : Web Cloud bool :=
  o ← ask (find_key key (key x));
  match o with
  | Some _ => mret false
  | None => _ ← add_row x; mret true
  end.

Definition add_all {A} `{HasTable Cloud A} (key : A → string) (l : list A) : Web Cloud unit :=
  for_each l (λ x, _ ← add_missing key x; mret tt).

(** ... some commit after each addition. *)
Definition add_all_commit {A} `{HasTable Cloud A} (key : A → string) (l : list A) : Web Cloud unit :=
  for_each l (λ x, b ← add_missing key x; if (b : bool) then commit else mret tt).

(** Another session of the same program sees what is committed. *)
Definition ask_committed {A} (f : Cloud → A) : Web Cloud A := λ w, (Val (f (comm w)), w).

(** [if not p.cpu: p.cpu = 1], and so on for each limit. *)
Definition or_default (d v : Z) : Z := if v =? 0 then d else v.
Definition fill_profile (p : UserProfile) : UserProfile :=
  mkUserProfile (pf_user_id p) (or_default 1 (pf_cpu p)) (or_default 256 (pf_memory p))
    (or_default 2 (pf_storage p)) (or_default 3 (pf_instance p)) (or_default 0 (pf_bandwidth p))
    (or_default 2000 (pf_rx p)) (or_default 2000 (pf_tx p)) (or_default 6 (pf_port p))
    (or_default 1 (pf_vlan p)) (or_default 6 (pf_domain p)) (pf_config p) (pf_updated p).

Section setup.
Context `{!Sha512}.
(** What the database keeps of a value that is put into a text column. *)
Context (stored : json → string).

Definition languages : list Language := (λ '(c, n), mkLanguage n c) <$> LANGUAGES.
Definition permissions : list Permission := (λ '(c, n), mkPermission n c) <$> default_permission.
Definition groups : list Group := (λ n, mkGroup n "" true []) <$> default_group.
Definition catalogs : list ApplianceCatalog :=
  (λ '(n, t), mkApplianceCatalog n t "" 0) <$> default_appliance_catalog.
Definition configs : list SiteConfig := (λ '(k, v), mkSiteConfig k (stored v)) <$> default_site_config.
Definition pools : list StoragePool :=
  (λ '(n, d, t), mkStoragePool n d t 0) <$> default_storage_config.
(** The language column of a new user has the default 14; the salts are drawn at random. *)
Definition users (salt : string → string) : list User :=
  (λ '(n, p), new_user n (enc_login_passwd (salt n) p) 14) <$> default_user.

Definition update_language : Web Cloud unit := add_all l_codename languages.
Definition update_storage : Web Cloud unit := add_all sp_name pools.
Definition update_site_config : Web Cloud unit := add_all_commit sc_key configs.

Definition check_profile (now u : Z) : Web Cloud unit :=
  o ← ask (λ s, profile_of s u);
  match o with
  | Some (p, _) => modify p fill_profile
  | None =>
      c ← ask_committed (new_profile now u);
      match c with
      | None => raise "DataError"
      | Some P => _ ← add_row P; mret tt
      end
  end.

Definition update_user (now : Z) (salt : string → string) : Web Cloud unit :=
  add_all u_username (users salt);;
  commit;;
  us ← ask (all_rows User);
  for_each us (λ p, check_profile now p.1);;
  commit.

(** [append] on the collections [u.groups], [g.permissions]; nothing but a row can be put
    into one. *)
Definition join (g : Z) (U : User) : User := U <| u_groups := u_groups U ++ [g] |>.
Definition permit (p : Z) (G : Group) : Group := G <| g_permissions := g_permissions G ++ [p] |>.

Definition add_member (x : string * string) : Web Cloud unit :=
  u ← ask (find_key u_username x.2);
  g ← ask (find_key g_name x.1);
  match u, g with
  | None, _ => mret tt
  | Some _, None => raise "FlushError"
  | Some (u, U), Some (g, _) =>
      if bool_decide (g ∈ u_groups U) then mret tt
      else modify u (join g)
  end.

Definition add_grant (x : string * string) : Web Cloud unit :=
  g ← ask (find_key g_name x.1);
  p ← ask (find_key p_codename x.2);
  match g, p with
  | None, _ => raise "AttributeError: NoneType"
  | Some _, None => raise "FlushError"
  | Some (g, G), Some (p, _) =>
      if bool_decide (p ∈ g_permissions G) then mret tt
      else modify g (permit p)
  end.

(** [update_instance] fills columns of instances that are not kept here. *)
Definition default_value (now : Z) (salt : string → string) : Web Cloud unit :=
  update_language;;
  add_all p_codename permissions;;
  add_all g_name groups;;
  update_user now salt;;
  for_each default_user_group add_member;;
  for_each default_group_permission add_grant;;
  add_all_commit ac_name catalogs;;
  update_site_config;;
  update_storage;;
  commit.
End setup.

(** [check_user_profile]: the names of users with more than one profile. *)
Definition check_user_profile (s : Cloud) : list string :=
  (λ p, u_username p.2) <$> filter (λ p : Z * User,
    1 < Z.of_nat (length (select (λ _ (P : UserProfile), pf_user_id P =? p.1) s))) (all_rows User s).

(** tool/add_default_network.py *)
Definition default_network : NetworkPool :=
  mkNetworkPool "192.168.122.X" "Add default network" "192.168.122.120" "192.168.122.254"
    "255.255.255.0" "192.168.122.1" "8.8.8.8" "".

Definition add_default_network {IPyI : IPy} (now : Z) : Web Cloud unit :=
  n ← add_row default_network;
  add_to_ippool (mkReq now None ∅ false false) n.

Lemma find_key_spec {A} `{HasTable Cloud A} (key : A → string) k s i (x : A) :
  find_key key k s = Some (i, x) → row s i = Some x ∧ key x = k.
Proof. intros [Hx Hk%String.eqb_eq]%head_select. done. Qed.

(** ** What a run keeps, also one that fails *)

(** The rows of one type stay, each as [le] allows. *)
Definition grown {A} `{HasTable Cloud A} (le : A → A → Prop) (s s' : Cloud) : Prop :=
  seq_ok (tbl s : table A) → seq_ok (tbl s' : table A) ∧
  ∀ k x, row s k = Some x → ∃ y, row s' k = Some y ∧ le x y.

#[export] Instance grown_preorder {A} `{HasTable Cloud A} (le : A → A → Prop) :
  PreOrder le → PreOrder (grown le).
Proof.
  intros Hle. split; [intros s Hs; split; [done|]; intros k x Hx; by exists x|].
  intros s1 s2 s3 H12 H23 Hs. destruct (H12 Hs) as [Hs2 K12]. destruct (H23 Hs2) as [Hs3 K23].
  split; [done|]. intros k x Hx. destruct (K12 k x Hx) as (y & Hy & ?).
  destruct (K23 k y Hy) as (z & Hz & ?). exists z. split; [done|]. by trans y.
Qed.

Section grown.
Context {A : Type} `{HasTable Cloud A} (le : A → A → Prop) `{!PreOrder le}.
#[local] Set Default Proof Using "All".

Lemma grown_insert (x : A) s : grown le s (set_tbl (tinsert x (tbl s)).2 s).
Proof.
  intros Hs. rewrite tbl_set. split; [by apply tinsert_seq_ok|]. intros k y Hy.
  exists y. split; [by apply row_insert_old|done].
Qed.
Lemma grown_put k (x y : A) s : row s k = Some x → le x y → grown le s (set_tbl (tput k y (tbl s)) s).
Proof.
  intros Hx Hle Hs. rewrite tbl_set. split; [apply tput_seq_ok; [by eexists|done]|].
  intros j z Hz. rewrite row_put. case_decide as E; [subst j|by exists z].
  exists y. split; [done|]. rewrite Hx in Hz. by injection Hz as <-.
Qed.
Lemma grown_same s s' : tbl s' = (tbl s : table A) → grown le s s'.
Proof. intros E Hs. rewrite E. split; [done|]. intros k x. unfold row. rewrite E. intros ?. by exists x. Qed.
End grown.

Definition group_le (G G' : Group) : Prop :=
  ∃ l, G' = G <| g_permissions := g_permissions G ++ l |>.
Definition user_le (U U' : User) : Prop :=
  U' = U ∨ u_username U ∈ default_user_group.*2 ∧ ∃ l, U' = U <| u_groups := u_groups U ++ l |>.
(** Only a limit that is zero may become another one. *)
Definition limits (P : UserProfile) : list Z :=
  [pf_cpu P; pf_memory P; pf_storage P; pf_instance P; pf_bandwidth P; pf_rx P; pf_tx P; pf_port P;
   pf_vlan P; pf_domain P].
Definition limit_le (a b : Z) : Prop := b = a ∨ a = 0.
Definition profile_le (P P' : UserProfile) : Prop :=
  Forall2 limit_le (limits P) (limits P') ∧
  (pf_user_id P', pf_config P', pf_updated P') = (pf_user_id P, pf_config P, pf_updated P).

#[export] Instance group_le_preorder : PreOrder group_le.
Proof.
  split; [intros [n d l p]; exists []; unfold upd; simpl; by rewrite app_nil_r|].
  intros G1 G2 G3 [l ->] [l' ->]. exists (l ++ l'). unfold upd. simpl. by rewrite app_assoc.
Qed.
#[export] Instance user_le_preorder : PreOrder user_le.
Proof.
  split; [by intros U; left|].
  intros U1 U2 U3 [->|[H1 [l ->]]] [->|[H2 [l' ->]]]; [by left|right; eauto..|].
  right. split; [done|]. exists (l ++ l'). unfold upd. simpl. by rewrite app_assoc.
Qed.
Lemma fill_twice P : fill_profile (fill_profile P) = fill_profile P.
Proof.
  assert (∀ d v, or_default d (or_default d v) = or_default d v) as E.
  { intros d v. unfold or_default. destruct (v =? 0) eqn:Ev; [by destruct (d =? 0)|by rewrite Ev]. }
  unfold fill_profile. cbn. by rewrite !E.
Qed.
#[export] Instance limit_le_preorder : PreOrder limit_le.
Proof. split; [by left|]. unfold limit_le. intros a b c [->|?] [->|?]; auto. Qed.
#[export] Instance profile_le_preorder : PreOrder profile_le.
Proof.
  split; [by intros P|]. intros P1 P2 P3 [H1 E1] [H2 E2]. split; [by etrans|congruence].
Qed.
Lemma fill_le P : profile_le P (fill_profile P).
Proof.
  assert (∀ d v, limit_le v (or_default d v)) as H.
  { intros d v. unfold limit_le, or_default. destruct (Z.eqb_spec v 0); auto. }
  split; [|done]. unfold limits. by repeat (constructor; [apply H|]).
Qed.

(** What the set-up has no business with. *)
Definition rest (s : Cloud) :=
  (c_keys s, c_resources s, c_instances s, c_appliances s, c_jobs s, c_nodes s, c_storages s,
   c_networkpools s, c_ips s, c_gateways s, c_ports s, c_domains s, c_traces s,
   (c_authkeys s, c_openids s, c_sessions s, c_resets s, c_applies s, c_screenshots s, c_messages s,
    c_texts s, c_forbidden s, c_forums s, c_topics s, c_tags s, c_posts s),
   (c_topicvotes s, c_postvotes s, c_localeconfig s, c_navs s, c_entries s, c_articles s,
    c_lyconfig s, c_sitejobs s, c_runtime_domain s)).

(** A run only adds: no row goes, no value that is there is replaced, but limits that are
    zero; groups may get permissions, and the named users groups. *)
Record only_adds (s s' : Cloud) : Prop := {
  oa_languages : grown (A := Language) (=) s s';
  oa_permissions : grown (A := Permission) (=) s s';
  oa_catalogs : grown (A := ApplianceCatalog) (=) s s';
  oa_configs : grown (A := SiteConfig) (=) s s';
  oa_pools : grown (A := StoragePool) (=) s s';
  oa_groups : grown group_le s s';
  oa_users : grown user_le s s';
  oa_profiles : grown profile_le s s';
  oa_rest : rest s' = rest s }.

#[export] Instance only_adds_preorder : PreOrder only_adds.
Proof.
  split; [intros s; by constructor|]. intros s1 s2 s3 [] []. constructor; try (by etrans).
Qed.

(** One change of one table. *)
Lemma adds_insert {A} `{HasTable Cloud A} (x : A) :
  (∀ s, only_adds s (set_tbl (tinsert x (tbl s)).2 s)) → keeps (tracks only_adds) (add_row x).
Proof.
  intros H1. apply keeps_add; [apply _|]. intros s c o. split; cbn [work comm]; [apply H1|by left].
Qed.
Lemma adds_commit : keeps (tracks only_adds) commit.
Proof. intros [s c o]. split; cbn [work comm]; [done|by right]. Qed.

Ltac adds_table :=
  intros ?; constructor;
  first [reflexivity | apply grown_same; [apply _|reflexivity] | apply grown_insert; apply _].
Ltac adds_put H :=
  constructor;
  first [reflexivity | apply grown_same; [apply _|reflexivity] | eapply grown_put; [apply _|exact H|]].

Lemma adds_missing {A} `{HasTable Cloud A} key (x : A) :
  (∀ s, only_adds s (set_tbl (tinsert x (tbl s)).2 s)) → keeps (tracks only_adds) (add_missing key x).
Proof. intros H1. unfold add_missing. repeat first [by apply adds_insert|keeps_step]. Qed.
Lemma adds_all {A} `{HasTable Cloud A} key (l : list A) :
  (∀ (x : A) s, only_adds s (set_tbl (tinsert x (tbl s)).2 s)) → keeps (tracks only_adds) (add_all key l).
Proof. intros H1. unfold add_all. repeat first [apply adds_missing, H1|keeps_step]. Qed.
Lemma adds_all_commit {A} `{HasTable Cloud A} key (l : list A) :
  (∀ (x : A) s, only_adds s (set_tbl (tinsert x (tbl s)).2 s)) → keeps (tracks only_adds) (add_all_commit key l).
Proof. intros H1. unfold add_all_commit. repeat first [apply adds_missing, H1|apply adds_commit|keeps_step]. Qed.

Section safety.
Context {ShaI : Sha512} (stored : json → string).
#[local] Set Default Proof Using "All".

Lemma adds_profile now u : keeps (tracks only_adds) (check_profile now u).
Proof.
  unfold check_profile. apply keeps_bind; [apply _|apply keeps_ask; apply _|]. intros [[p P0]|].
  - apply keeps_modify; [apply _|]. intros s c o P HP. split; cbn [work comm]; [|by left].
    adds_put HP. apply fill_le.
  - intros w. unfold mbind, Web_bind, ask_committed. destruct (new_profile now u (comm w)); [|done].
    revert w. change (keeps (tracks only_adds) (_ ← add_row u0; mret tt)).
    apply keeps_bind; [apply _| |intros ?; apply keeps_ret; apply _]. apply adds_insert. adds_table.
Qed.
Lemma adds_user now salt : keeps (tracks only_adds) (update_user now salt).
Proof.
  unfold update_user.
  repeat first [apply adds_profile|apply adds_commit|apply adds_all; intros ?; adds_table|keeps_step].
Qed.

Lemma adds_member x : x ∈ default_user_group → keeps (tracks only_adds) (add_member x).
Proof.
  intros Hx w. unfold add_member. rewrite !run_ask.
  destruct (find_key u_username _ _) as [[u U]|] eqn:Eu; [|done].
  destruct (find_key g_name _ _) as [[g G]|]; [|done]. case_bool_decide; [done|].
  apply find_key_spec in Eu as [HU Hn]. rewrite modify_val, HU. split; cbn [snd work comm]; [|by left].
  adds_put HU.
  right. split; [|by eexists]. rewrite Hn. apply list_elem_of_fmap. by exists x.
Qed.
Lemma adds_grant x : keeps (tracks only_adds) (add_grant x).
Proof.
  intros w. unfold add_grant. rewrite !run_ask.
  destruct (find_key g_name _ _) as [[g G]|] eqn:Eg; [|done].
  destruct (find_key p_codename _ _) as [[p P]|]; [|done]. case_bool_decide; [done|].
  apply find_key_spec in Eg as [HG _]. rewrite modify_val, HG. split; cbn [snd work comm]; [|by left].
  adds_put HG.
  by eexists.
Qed.

Lemma adds_members l : l ⊆ default_user_group → keeps (tracks only_adds) (for_each l add_member).
Proof.
  induction l as [|x l IH]; intros Hl; [apply keeps_ret; apply _|]. cbn [for_each foldr].
  apply keeps_bind; [apply _|apply adds_member, Hl; by left|intros _]. apply IH. set_solver.
Qed.

Lemma adds_default now salt : keeps (tracks only_adds) (default_value stored now salt).
Proof.
  unfold default_value, update_language, update_storage, update_site_config.
  repeat first [apply adds_user|apply adds_grant|by apply adds_members|apply adds_commit
    |apply adds_all; intros ?; adds_table|apply adds_all_commit; intros ?; adds_table|keeps_step].
Qed.

(** Setting up the site only adds, also when it stops with an error: no row of any
    table goes; the configuration, permissions, languages, catalogs and pools that are
    there keep every value, whatever the administrators made of the defaults; of a profile
    only limits that are zero change; groups keep what they may do and may get a default
    permission; nobody's row changes but that of the default administrator, who may become a
    member of a default group; the tables of instances, networks, keys, messages and the
    forum are not touched. *)
Theorem setup_only_adds now salt s : only_adds s (request (default_value stored now salt) s).1.
Proof. apply request_tracks, adds_default. Qed.
End safety.

(** ** What a run that ends leaves *)

Section tables.
Context {A : Type} `{HasTable Cloud A} (key : A → string).
#[local] Set Default Proof Using "All".

Lemma find_key_exists k (s : Cloud) :
  match find_key key k s with Some _ => true | None => false end = key_exists key (tbl s) k.
Proof.
  apply eq_true_iff_eq. rewrite key_exists_spec. unfold find_key, has_key.
  destruct (head _) as [[i x]|] eqn:E.
  - apply head_select in E as [Hx Hk%String.eqb_eq]. split; [intros _; eauto|done].
  - split; [done|]. intros (i & x & Hx & <-). apply (head_select_none _ _ _ _ E) in Hx.
    by rewrite String.eqb_refl in Hx.
Qed.

Lemma add_missing_run (x : A) (w : world Cloud) :
  add_missing key x w = (Val (negb (key_exists key (tbl (work w)) (key x))),
    mkWorld (set_tbl (add_fresh key [x] (tbl (work w))) (work w)) (comm w) (outs w)).
Proof.
  unfold add_missing. rewrite run_ask. pose proof (find_key_exists (key x) (work w)) as E.
  unfold add_fresh. cbn [foldl]. rewrite <- E. destruct (find_key _ _ _); [|done].
  rewrite ret_val, set_same. by destruct w.
Qed.

Lemma add_all_run l : ∀ w : world Cloud,
  add_all key l w =
    (Val tt, mkWorld (set_tbl (add_fresh key l (tbl (work w))) (work w)) (comm w) (outs w)).
Proof.
  induction l as [|x l IH]; intros w; [cbn; rewrite set_same; by destruct w|].
  unfold add_all. cbn [for_each foldr]. rewrite run_assoc, (run_bind _ _ _ _ _ (add_missing_run x w)).
  rewrite run_ret. etrans; [apply IH|]. cbn [work comm outs]. by rewrite tbl_set, set_twice.
Qed.

(** With the commits, all that matters is the last one. *)
Lemma add_all_commit_run l : ∀ w : world Cloud, ∃ c,
  add_all_commit key l w =
    (Val tt, mkWorld (set_tbl (add_fresh key l (tbl (work w))) (work w)) c (outs w)).
Proof.
  induction l as [|x l IH]; intros w; [exists (comm w); cbn; rewrite set_same; by destruct w|].
  unfold add_all_commit. cbn [for_each foldr].
  rewrite run_assoc, (run_bind _ _ _ _ _ (add_missing_run x w)).
  set (w1 := mkWorld _ _ _). destruct (negb _).
  - rewrite run_commit. destruct (IH (mkWorld (work w1) (work w1) (outs w1))) as [c E].
    exists c. etrans; [exact E|]. cbn [work comm outs w1]. by rewrite tbl_set, set_twice.
  - rewrite run_ret. destruct (IH w1) as [c E].
    exists c. etrans; [exact E|]. cbn [work comm outs w1]. by rewrite tbl_set, set_twice.
Qed.

Lemma add_fresh_cons x l t :
  add_fresh key (x :: l) t = add_fresh key l (if key_exists key t (key x) then t else (tinsert x t).2).
Proof. done. Qed.
Lemma has_key_insert x t k : seq_ok t → has_key key t k → has_key key (tinsert x t).2 k.
Proof.
  intros Hs (i & y & Hy & <-). exists i, y. split; [|done]. simpl.
  rewrite lookup_insert_ne; [done|]. intros <-. by rewrite Hs in Hy by lia.
Qed.
Lemma add_fresh_seq l : ∀ t, seq_ok t → seq_ok (add_fresh key l t).
Proof.
  induction l as [|x l IH]; intros t Hs; [done|]. rewrite add_fresh_cons. apply IH.
  case_match; [done|by apply tinsert_seq_ok].
Qed.
Lemma add_fresh_keys l : ∀ t, seq_ok t →
  (∀ k, has_key key t k → has_key key (add_fresh key l t) k) ∧
  ∀ x, x ∈ l → has_key key (add_fresh key l t) (key x).
Proof.
  induction l as [|y l IH]; intros t Hs; [split; [done|by intros x ?%elem_of_nil]|].
  rewrite add_fresh_cons. destruct (key_exists key t (key y)) eqn:E.
  - destruct (IH t Hs) as [K1 K2]. split; [done|]. intros x [->|Hx]%elem_of_cons; [|by apply K2].
    by apply K1, key_exists_spec.
  - destruct (IH _ (tinsert_seq_ok y t Hs)) as [K1 K2].
    split; [intros k Hk; by apply K1, has_key_insert|]. intros x [->|Hx]%elem_of_cons; [|by apply K2].
    apply K1. exists (seq t + 1), y. split; [apply lookup_insert_eq|done].
Qed.
(** Nothing is added a second time. *)
Lemma add_fresh_id l t : (∀ x, x ∈ l → has_key key t (key x)) → add_fresh key l t = t.
Proof.
  induction l as [|x l IH]; intros Hk; [done|]. rewrite add_fresh_cons.
  assert (key_exists key t (key x) = true) as -> by (apply key_exists_spec, Hk; by left).
  apply IH. intros y Hy. apply Hk. by right.
Qed.
Lemma add_fresh_twice l l' t :
  seq_ok t → (∀ x, x ∈ l' → ∃ y, y ∈ l ∧ key y = key x) →
  add_fresh key l' (add_fresh key l t) = add_fresh key l t.
Proof.
  intros Hs Hl. apply add_fresh_id. intros x (y & Hy & <-)%Hl. by apply add_fresh_keys.
Qed.
End tables.

(** The first row of a query when a row changes, but not whether it is in the query. *)
Lemma head_put {A} (P : A → bool) t i (x y : A) :
  rows t !! i = Some x → P y = P x →
  head (filter (λ p : Z * A, P p.2 = true) (listing (tput i y t))) =
    (λ q, if decide (q.1 = i) then (i, y) else q) <$> head (filter (λ p : Z * A, P p.2 = true) (listing t)).
Proof.
  intros Hx HP. rewrite (listing_put i y x) by done.
  assert (∀ q, q ∈ listing t → q.1 = i → q.2 = x) as Hl.
  { intros [k z] Hk%elem_of_listing E. simpl in *. congruence. }
  induction (listing t) as [|q l IH]; [done|]. cbn [fmap list_fmap].
  assert (P (if decide (q.1 = i) then (i, y) else q).2 = P q.2) as E.
  { case_decide as E; [|done]. simpl. rewrite HP. by rewrite (Hl q); [|left|]. }
  destruct (P q.2) eqn:Eq.
  - by rewrite !filter_cons_True by (rewrite ?E, ?Eq; done).
  - rewrite !filter_cons_False by (rewrite ?E, ?Eq; done). apply IH. intros z Hz. apply Hl. by right.
Qed.

Lemma find_key_put {A} `{HasTable Cloud A} (key : A → string) k s i (x y : A) :
  row s i = Some x → key y = key x →
  find_key key k (set_tbl (tput i y (tbl s)) s) =
    (λ q, if decide (q.1 = i) then (i, y) else q) <$> find_key key k s.
Proof.
  intros Hx Hy. unfold find_key, select. rewrite tbl_set.
  by apply (head_put (λ z, String.eqb (key z) k) (tbl s) i x y); [|rewrite Hy].
Qed.
Lemma find_key_some {A} `{HasTable Cloud A} (key : A → string) k s :
  has_key key (tbl s) k → ∃ i x, find_key key k s = Some (i, x) ∧ row s i = Some x ∧ key x = k.
Proof.
  intros Hk%key_exists_spec. rewrite <- find_key_exists in Hk.
  destruct (find_key key k s) as [[i x]|] eqn:E; [|done]. exists i, x. split; [done|].
  by apply find_key_spec.
Qed.

Lemma find_key_other {A B} `{HasTable Cloud A, HasTable Cloud B, !Indep Cloud A B} (key : B → string) k
    (t : table A) s : find_key key k (set_tbl t s) = find_key key k s.
Proof. unfold find_key. by rewrite select_other. Qed.

Ltac tables := repeat first [rewrite tbl_set | rewrite tbl_set_other].

(** *** Profiles *)

Definition first_profile (t : table UserProfile) (u : Z) : option (Z * UserProfile) :=
  head (filter (λ p : Z * UserProfile, (pf_user_id p.2 =? u) = true) (listing t)).

(** [c u] is the profile a user without one gets. *)
Definition profile_step (c : Z → UserProfile) (t : table UserProfile) (u : Z) : table UserProfile :=
  match first_profile t u with
  | Some (p, P) => tput p (fill_profile P) t
  | None => (tinsert (c u) t).2
  end.

Lemma first_profile_spec t u p P :
  first_profile t u = Some (p, P) → rows t !! p = Some P ∧ pf_user_id P = u.
Proof.
  unfold first_profile. intros E. destruct (filter _ _) as [|q l] eqn:Ef; [done|]. injection E as ->.
  assert ((p, P) ∈ filter (λ p : Z * UserProfile, (pf_user_id p.2 =? u) = true) (listing t)) as Hin
    by (rewrite Ef; by left).
  apply list_elem_of_filter in Hin as [Hu%Z.eqb_eq Hp%elem_of_listing]. done.
Qed.

(** A change of somebody else's profile, or of fields but the user, is not seen. *)
Lemma first_profile_put t u p P Q :
  rows t !! p = Some P → pf_user_id Q = pf_user_id P →
  first_profile (tput p Q t) u = (λ q, if decide (q.1 = p) then (p, Q) else q) <$> first_profile t u.
Proof. intros HP HQ. by apply (head_put (λ P, pf_user_id P =? u) t p P Q); [|rewrite HQ]. Qed.
Lemma first_profile_insert t u P :
  seq_ok t → first_profile (tinsert P t).2 u =
    match first_profile t u with
    | Some q => Some q
    | None => if pf_user_id P =? u then Some (seq t + 1, P) else None
    end.
Proof.
  intros Hs. unfold first_profile. rewrite listing_insert by done. rewrite filter_app, head_app.
  destruct (head (filter _ (listing t))); [done|].
  rewrite filter_cons. simpl. by destruct (pf_user_id P =? u).
Qed.

(** The first profile has no limit that is zero. *)
Definition full (P : UserProfile) : Prop := fill_profile P = P.
Definition full_at (t : table UserProfile) (u : Z) : Prop :=
  ∃ p P, first_profile t u = Some (p, P) ∧ full P.

Section profiles.
Context (c : Z → UserProfile) (Hc : ∀ u, pf_user_id (c u) = u).
#[local] Set Default Proof Using "All".

Lemma profile_step_seq t u : seq_ok t → seq_ok (profile_step c t u).
Proof.
  intros Hs. unfold profile_step. destruct (first_profile t u) as [[p P]|] eqn:E.
  - apply first_profile_spec in E as [E _]. apply tput_seq_ok; [by eexists|done].
  - by apply tinsert_seq_ok.
Qed.
Lemma profiles_seq us : ∀ t, seq_ok t → seq_ok (foldl (profile_step c) t us).
Proof. induction us as [|u us IH]; intros t Hs; [done|]. apply IH. by apply profile_step_seq. Qed.

Lemma profile_step_full t u v :
  seq_ok t → full_at t v ∨ (v = u ∧ full (c u)) → full_at (profile_step c t u) v.
Proof.
  intros Hs Hv. unfold profile_step. destruct (first_profile t u) as [[p P]|] eqn:E.
  - pose proof (first_profile_spec t u p P E) as [HP Hu]. unfold full_at.
    rewrite (first_profile_put t v p P) by done.
    destruct (decide (v = u)) as [->|Hne].
    + rewrite E. cbn. rewrite decide_True by done. eexists _, _. split; [done|]. apply fill_twice.
    + destruct Hv as [(q & Q & EQ & HQ)|[? _]]; [|done]. rewrite EQ. cbn [fmap option_fmap option_map fst].
      eexists q, Q. split; [|done]. rewrite decide_False; [done|]. intros ->.
      apply first_profile_spec in EQ as [HQ' Hv']. congruence.
  - unfold full_at. rewrite first_profile_insert by done.
    destruct Hv as [(q & Q & -> & HQ)|[-> Hf]]; [by eexists q, Q|].
    rewrite E, Hc, Z.eqb_refl. by eexists _, _.
Qed.
(** Every user the loop has met has a full profile. *)
Lemma profiles_full us : (∀ u, full (c u)) → ∀ t v, seq_ok t →
  full_at t v ∨ v ∈ us → full_at (foldl (profile_step c) t us) v.
Proof.
  intros Hf. induction us as [|u us IH]; intros t v Hs Hv; [by destruct Hv as [|?%elem_of_nil]|].
  cbn [foldl]. apply IH; [by apply profile_step_seq|].
  destruct Hv as [Hv|[->|Hv]%elem_of_cons]; [left|left|by right].
  all: apply profile_step_full; [done|auto].
Qed.
(** ... and a full profile is not touched. *)
Lemma profiles_id us t : (∀ u, u ∈ us → full_at t u) → foldl (profile_step c) t us = t.
Proof.
  induction us as [|u us IH]; intros Hu; [done|]. cbn [foldl].
  assert (profile_step c t u = t) as ->.
  { destruct (Hu u) as (p & P & E & HP); [by left|]. unfold profile_step. rewrite E, HP.
    apply tput_id. by destruct (first_profile_spec t u p P E). }
  apply IH. intros v Hv. apply Hu. by right.
Qed.
End profiles.

(** *** Members and grants: rows that list the ids of rows of another table *)

Section link.
Context {A B : Type} `{HasTable Cloud A, HasTable Cloud B, !Indep Cloud A B}.
Context (ka : A → string) (kb : B → string) (ids : A → list Z) (put : Z → A → A).
Context (ids_put : ∀ j x, ids (put j x) = ids x ++ [j]) (ka_put : ∀ j x, ka (put j x) = ka x).
#[local] Set Default Proof Using "All".

(** [x] is the key of the row and the key of the row it shall list. *)
Definition link (s : Cloud) (x : string * string) : Cloud :=
  match find_key ka x.1 s, find_key kb x.2 s with
  | Some (i, X), Some (j, _) =>
      if bool_decide (j ∈ ids X) then s else set_tbl (tput i (put j X) (tbl s)) s
  | _, _ => s
  end.
Definition linked (s : Cloud) (x : string * string) : Prop :=
  ∃ i X j Y, find_key ka x.1 s = Some (i, X) ∧ find_key kb x.2 s = Some (j, Y) ∧ j ∈ ids X.

Lemma link_other s x : ∃ t, link s x = set_tbl (A := A) t s.
Proof.
  assert (∃ t, s = set_tbl (A := A) t s) as Hs by (exists (tbl s); by rewrite set_same).
  unfold link. destruct (find_key ka _ s) as [[i X]|]; [|done].
  destruct (find_key kb _ s) as [[j Y]|]; [|done]. case_bool_decide; [done|by eexists].
Qed.
Lemma links_other l : ∀ s, ∃ t, foldl link s l = set_tbl (A := A) t s.
Proof.
  induction l as [|x l IH]; intros s; [exists (tbl s); by rewrite set_same|].
  cbn [foldl]. destruct (link_other s x) as [t ->]. destruct (IH (set_tbl t s)) as [t' ->].
  exists t'. by rewrite set_twice.
Qed.

Lemma find_kb_put k i (X : A) s : find_key kb k (set_tbl (tput i X (tbl s)) s) = find_key kb k s.
Proof. apply find_key_other. Qed.
Lemma find_ka_put k i X j s :
  row s i = Some X →
  find_key ka k (set_tbl (tput i (put j X) (tbl s)) s) =
    (λ q, if decide (q.1 = i) then (i, put j X) else q) <$> find_key ka k s.
Proof. intros HX. by apply find_key_put with X. Qed.

(** What is linked stays so, ... *)
Lemma link_keeps s x y : linked s y → linked (link s x) y.
Proof.
  intros (i & X & j & Y & EX & EY & Hin). unfold link.
  destruct (find_key ka x.1 s) as [[k K]|] eqn:Ek; [|by exists i, X, j, Y].
  destruct (find_key kb x.2 s) as [[h Z0]|]; [|by exists i, X, j, Y].
  case_bool_decide; [by exists i, X, j, Y|]. apply find_key_spec in Ek as [HK _].
  unfold linked. rewrite find_kb_put, find_ka_put, EX, EY by done. cbn.
  case_decide as E; [subst k|by eexists i, X, j, Y].
  eexists _, _, j, Y. split_and!; [done|done|]. apply find_key_spec in EX as [HX _].
  rewrite HX in HK. injection HK as <-. rewrite ids_put. apply elem_of_app. by left.
Qed.
(** ... what is asked for becomes so. *)
Lemma link_does s x : has_key ka (tbl s) x.1 → has_key kb (tbl s) x.2 → linked (link s x) x.
Proof.
  intros Ha Hb. destruct (find_key_some ka _ s Ha) as (i & X & EX & HX & _).
  destruct (find_key_some kb _ s Hb) as (j & Y & EY & HY & _). unfold link. rewrite EX, EY.
  case_bool_decide; [by exists i, X, j, Y|].
  unfold linked. rewrite find_kb_put, find_ka_put, EX, EY by done. cbn. rewrite decide_True by done.
  eexists _, _, j, Y. split_and!; [done|done|]. rewrite ids_put. apply elem_of_app. right. by left.
Qed.
(** Rows stay, and their keys. *)
Lemma link_row s x k K :
  row (A := A) s k = Some K → ∃ K', row (link s x) k = Some K' ∧ ka K' = ka K.
Proof.
  intros HK. unfold link. destruct (find_key ka _ s) as [[i X]|] eqn:E; [|by exists K].
  destruct (find_key kb _ s) as [[j Y]|]; [|by exists K]. case_bool_decide; [by exists K|].
  apply find_key_spec in E as [HX _]. rewrite row_put. case_decide as Ei; [subst k|by exists K].
  eexists. split; [done|]. rewrite ka_put. congruence.
Qed.
Lemma link_rows s x k : is_Some (row (A := A) (link s x) k) ↔ is_Some (row (A := A) s k).
Proof.
  split; [|intros [K HK]; destruct (link_row s x k K HK) as (K' & ? & _); by exists K'].
  unfold link. destruct (find_key ka _ s) as [[i X]|] eqn:E; [|done].
  destruct (find_key kb _ s) as [[j Y]|]; [|done]. case_bool_decide; [done|].
  apply find_key_spec in E as [HX _]. rewrite row_put. case_decide as Ei; [subst k; by exists X|done].
Qed.
Lemma link_keys s x k : has_key ka (tbl s) k → has_key ka (tbl (link s x)) k.
Proof.
  intros (i & X & HX & <-). destruct (link_row s x i X HX) as (K & HK & <-). by exists i, K.
Qed.
Lemma links_all l : ∀ s,
  (∀ x, x ∈ l → has_key ka (tbl s) x.1 ∧ has_key kb (tbl s) x.2) →
  ∀ y, linked s y ∨ y ∈ l → linked (foldl link s l) y.
Proof.
  induction l as [|x l IH]; intros s Hl y Hy; [by destruct Hy as [|?%elem_of_nil]|]. cbn [foldl].
  apply IH.
  - intros z Hz. destruct (Hl z) as [Ha Hb]; [by right|]. split; [by apply link_keys|].
    destruct (link_other s x) as [t ->]. by rewrite tbl_set_other.
  - destruct Hy as [Hy|[->|Hy]%elem_of_cons]; [left; by apply link_keeps| |by right].
    left. destruct (Hl x) as [Ha Hb]; [by left|]. by apply link_does.
Qed.

Lemma links_keys l : ∀ s k, has_key ka (tbl s) k → has_key ka (tbl (foldl link s l)) k.
Proof. induction l as [|x l IH]; intros s k Hk; [done|]. cbn [foldl]. by apply IH, link_keys. Qed.
Lemma links_rows l : ∀ s k, is_Some (row (A := A) (foldl link s l) k) ↔ is_Some (row (A := A) s k).
Proof. induction l as [|x l IH]; intros s k; [done|]. cbn [foldl]. by rewrite IH, link_rows. Qed.

(** The row of a key stays the row of that key. *)
Lemma link_find s x k i X :
  find_key ka k s = Some (i, X) → ∃ X', find_key ka k (link s x) = Some (i, X').
Proof.
  intros E. unfold link. destruct (find_key ka x.1 s) as [[h K]|] eqn:Eh; [|by exists X].
  destruct (find_key kb _ s) as [[j Y]|]; [|by exists X]. case_bool_decide; [by exists X|].
  apply find_key_spec in Eh as [HK _]. rewrite find_ka_put, E by done. cbn.
  case_decide as Ei; [subst h|]; by eexists.
Qed.

(** A loop over such steps. *)
Lemma links_run (f : string * string → string * string) (step : string * string → Web Cloud unit) l :
  (∀ x w, has_key ka (tbl (work w)) (f x).1 → has_key kb (tbl (work w)) (f x).2 →
     step x w = (Val tt, mkWorld (link (work w) (f x)) (comm w) (outs w))) →
  ∀ w : world Cloud,
  (∀ x, x ∈ l → has_key ka (tbl (work w)) (f x).1 ∧ has_key kb (tbl (work w)) (f x).2) →
  for_each l step w = (Val tt, mkWorld (foldl link (work w) (f <$> l)) (comm w) (outs w)).
Proof.
  intros Hstep. induction l as [|x l IH]; intros w Hl; [by destruct w|].
  cbn [for_each foldr fmap list_fmap foldl]. destruct (Hl x) as [Ha Hb]; [by left|].
  rewrite (run_bind _ _ _ _ _ (Hstep x w Ha Hb)). etrans; [apply IH|done].
  intros y Hy. cbn [work]. destruct (Hl y) as [Ha' Hb']; [by right|]. split; [by apply link_keys|].
  destruct (link_other (work w) (f x)) as [t ->]. by rewrite tbl_set_other.
Qed.
End link.

Definition member : Cloud → string * string → Cloud :=
  link u_username g_name u_groups join.
Definition is_member : Cloud → string * string → Prop := linked u_username g_name u_groups.
Definition grant : Cloud → string * string → Cloud :=
  link g_name p_codename g_permissions permit.
Definition is_granted : Cloud → string * string → Prop := linked g_name p_codename g_permissions.

(** The pairs of [default_user_group] name the group first. *)
Definition swap (x : string * string) : string * string := (x.2, x.1).

Lemma add_member_run x (w : world Cloud) :
  has_key u_username (tbl (work w)) x.2 → has_key g_name (tbl (work w)) x.1 →
  add_member x w = (Val tt, mkWorld (member (work w) (swap x)) (comm w) (outs w)).
Proof.
  intros Hu Hg. destruct (find_key_some u_username _ (work w) Hu) as (u & U & Eu & HU & _).
  destruct (find_key_some g_name _ (work w) Hg) as (g & G & Eg & _).
  unfold add_member, member, link, swap. rewrite !run_ask, Eu, Eg. cbn [fst snd]. rewrite Eu, Eg.
  case_bool_decide; [by destruct w|]. by rewrite modify_val, HU.
Qed.
Lemma add_grant_run x (w : world Cloud) :
  has_key g_name (tbl (work w)) x.1 → has_key p_codename (tbl (work w)) x.2 →
  add_grant x w = (Val tt, mkWorld (grant (work w) x) (comm w) (outs w)).
Proof.
  intros Hg Hp. destruct (find_key_some g_name _ (work w) Hg) as (g & G & E & HG & _).
  destruct (find_key_some p_codename _ (work w) Hp) as (p & P & E' & _).
  unfold add_grant, grant, link. rewrite !run_ask, E, E'. case_bool_decide; [by destruct w|].
  by rewrite modify_val, HG.
Qed.

Lemma add_members_run l (w : world Cloud) :
  (∀ x, x ∈ l → has_key u_username (tbl (work w)) x.2 ∧ has_key g_name (tbl (work w)) x.1) →
  for_each l add_member w = (Val tt, mkWorld (foldl member (work w) (swap <$> l)) (comm w) (outs w)).
Proof.
  apply (links_run u_username g_name u_groups join (λ _ _, eq_refl) (λ _ _, eq_refl) swap).
  intros. by apply add_member_run.
Qed.
Lemma add_grants_run l (w : world Cloud) :
  (∀ x, x ∈ l → has_key g_name (tbl (work w)) x.1 ∧ has_key p_codename (tbl (work w)) x.2) →
  for_each l add_grant w = (Val tt, mkWorld (foldl grant (work w) l) (comm w) (outs w)).
Proof.
  intros Hl. rewrite <- (list_fmap_id l) at 2.
  by apply (links_run g_name p_codename g_permissions permit (λ _ _, eq_refl) (λ _ _, eq_refl) id
    add_grant l add_grant_run).
Qed.

(** The groups keep their keys: members stay members. *)
Lemma grants_members l : ∀ s y, is_member s y → is_member (foldl grant s l) y.
Proof.
  induction l as [|x l IH]; intros s y Hy; [done|]. cbn [foldl]. apply IH.
  destruct Hy as (u & U & g & G & Eu & Eg & Hin).
  destruct (link_find g_name p_codename g_permissions permit
    (λ _ _, eq_refl) (λ _ _, eq_refl) s x _ _ _ Eg) as [G' Eg'].
  exists u, U, g, G'. split; [|by split].
  destruct (link_other g_name p_codename g_permissions permit
    (λ _ _, eq_refl) (λ _ _, eq_refl) s x) as [t E]. unfold grant. rewrite E. exact Eu.
Qed.

(** *** The whole run *)

Lemma new_profile_user now u s P : new_profile now u s = Some P → pf_user_id P = u.
Proof.
  unfold new_profile. intros H. repeat (apply bind_Some in H as (? & _ & H)). by simplify_eq.
Qed.

Lemma check_profiles_run now c us : ∀ w : world Cloud,
  (∀ u, new_profile now u (comm w) = Some (c u)) →
  for_each us (λ p : Z * User, check_profile now p.1) w =
    (Val tt, mkWorld (set_tbl (foldl (profile_step c) (tbl (work w)) us.*1) (work w)) (comm w) (outs w)).
Proof.
  induction us as [|[u U] us IH]; intros w Hc.
  { cbn [for_each foldr fmap list_fmap foldl]. rewrite ret_val, set_same. by destruct w. }
  cbn [for_each foldr fst].
  assert (check_profile now u w =
    (Val tt, mkWorld (set_tbl (profile_step c (tbl (work w)) u) (work w)) (comm w) (outs w))) as E.
  { unfold check_profile, profile_step. rewrite run_ask.
    change (profile_of (work w) u) with (first_profile (tbl (work w)) u).
    destruct (first_profile _ u) as [[p P]|] eqn:E.
    - apply first_profile_spec in E as [HP _]. rewrite modify_val. unfold row. by rewrite HP.
    - unfold mbind, Web_bind, ask_committed. by rewrite Hc. }
  rewrite (run_bind _ _ _ _ _ E). etrans; [by apply IH|]. cbn [work comm outs].
  by rewrite tbl_set, set_twice.
Qed.

(** The tables the set-up writes have their sequences. *)
Record seqs_ok (s : Cloud) : Prop := {
  so_languages : seq_ok (c_languages s); so_permissions : seq_ok (c_permissions s);
  so_groups : seq_ok (c_groups s); so_users : seq_ok (c_users s);
  so_profiles : seq_ok (c_profiles s); so_catalogs : seq_ok (c_catalogs s);
  so_configs : seq_ok (c_siteconfig s); so_pools : seq_ok (c_storagepools s) }.

Section installed.
Context {ShaI : Sha512} (stored : json → string).
#[local] Set Default Proof Using "All".

(** Everything the settings name is there: one row for each key, a full profile for every
    user, the administrator in the group of administrators, the groups with their
    permissions. *)
Record installed (s : Cloud) : Prop := {
  in_languages x : x ∈ languages → has_key l_codename (tbl s) (l_codename x);
  in_permissions x : x ∈ permissions → has_key p_codename (tbl s) (p_codename x);
  in_groups x : x ∈ groups → has_key g_name (tbl s) (g_name x);
  in_users x : x ∈ default_user → has_key u_username (tbl s) x.1;
  in_profiles u : is_Some (row (A := User) s u) → full_at (tbl s) u;
  in_members x : x ∈ default_user_group → is_member s (swap x);
  in_grants x : x ∈ default_group_permission → is_granted s x;
  in_catalogs x : x ∈ catalogs → has_key ac_name (tbl s) (ac_name x);
  in_configs x : x ∈ configs stored → has_key sc_key (tbl s) (sc_key x);
  in_pools x : x ∈ pools → has_key sp_name (tbl s) (sp_name x) }.

(** The lists of the settings name only what they add. *)
Lemma named_members salt x :
  x ∈ default_user_group → (∃ U, U ∈ users salt ∧ u_username U = x.2) ∧ ∃ G, G ∈ groups ∧ g_name G = x.1.
Proof.
  intros [->|[]%elem_of_nil]%elem_of_cons. cbn [fst snd]. split; (eexists; split; [by left|done]).
Qed.
Lemma named_grants x :
  x ∈ default_group_permission →
  (∃ G, G ∈ groups ∧ g_name G = x.1) ∧ ∃ P, P ∈ permissions ∧ p_codename P = x.2.
Proof.
  unfold default_group_permission. intros Hx.
  repeat (apply elem_of_cons in Hx as [->|Hx]); [..|by apply elem_of_nil in Hx]; cbn [fst snd]; split.
  all: first [by eexists; split; [by left|] | by eexists; split; [by right; left|]
    | by eexists; split; [by right; right; left|]].
Qed.
Lemma named_users salt U : U ∈ users salt → ∃ x, x ∈ default_user ∧ x.1 = u_username U.
Proof. intros ([n p] & -> & Hx)%list_elem_of_fmap. by exists (n, p). Qed.

Lemma update_user_run now salt c (w : world Cloud) :
  (∀ u, new_profile now u (work w) = Some (c u)) →
  let s1 := set_tbl (add_fresh u_username (users salt) (tbl (work w))) (work w) in
  let s2 := set_tbl (foldl (profile_step c) (tbl (work w)) (all_rows User s1).*1) s1 in
  update_user now salt w = (Val tt, mkWorld s2 s2 (outs w)).
Proof.
  intros Hc s1 s2. unfold update_user. rewrite (run_bind _ _ _ _ _ (add_all_run u_username _ w)).
  rewrite run_commit, run_ask. cbn [work comm outs]. fold s1.
  erewrite run_bind by (apply check_profiles_run; exact Hc). done.
Qed.

Lemma default_run now salt c s :
  seqs_ok s → (∀ u, new_profile now u s = Some (c u)) →
  ∃ s', default_value stored now salt (start s) = (Val tt, mkWorld s' s' []) ∧
    ((∀ u, full (c u)) → installed s').
Proof.
  intros [] Hc. assert (∀ u, pf_user_id (c u) = u) as Hcu by (intros u; exact (new_profile_user now u s _ (Hc u))).
  unfold default_value, update_language.
  rewrite (run_bind _ _ _ _ _ (add_all_run l_codename _ _)), (run_bind _ _ _ _ _ (add_all_run p_codename _ _)),
    (run_bind _ _ _ _ _ (add_all_run g_name _ _)).
  erewrite run_bind by (apply (update_user_run _ _ c); exact Hc). cbn [work comm outs].
  match goal with |- context [mkWorld ?t ?t _] => set (s4 := t) end.
  assert (∀ x, x ∈ default_user_group →
    has_key u_username (tbl s4) x.2 ∧ has_key g_name (tbl s4) x.1) as Hm.
  { intros x (( U & HU & <-) & (G & HG & <-))%(named_members salt).
    split; [by apply (add_fresh_keys u_username)|by apply (add_fresh_keys g_name)]. }
  erewrite run_bind by (apply add_members_run; exact Hm). cbn [work comm outs].
  set (s5 := foldl member s4 (swap <$> default_user_group)).
  assert (∃ t, s5 = set_tbl (A := User) t s4) as [tu Eu] by (by apply links_other).
  assert (∀ x, x ∈ default_group_permission →
    has_key g_name (tbl s5) x.1 ∧ has_key p_codename (tbl s5) x.2) as Hg.
  { rewrite Eu. intros x ((G & HG & <-) & (P & HP & <-))%named_grants.
    split; [by apply (add_fresh_keys g_name)|by apply (add_fresh_keys p_codename)]. }
  erewrite run_bind by (apply add_grants_run; exact Hg). cbn [work comm outs].
  set (s6 := foldl grant s5 default_group_permission).
  assert (∃ t, s6 = set_tbl (A := Group) t s5) as [tg Eg] by (by apply links_other).
  match goal with |- context [mkWorld s6 ?c ?o] => destruct (add_all_commit_run ac_name catalogs (mkWorld s6 c o)) as [c1 E1] end.
  rewrite (run_bind _ _ _ _ _ E1). cbn [work comm outs]. clear E1. unfold update_site_config, update_storage.
  match goal with |- context [mkWorld ?a c1 ?o] =>
    destruct (add_all_commit_run sc_key (configs stored) (mkWorld a c1 o)) as [c2 E2] end.
  rewrite (run_bind _ _ _ _ _ E2). cbn [work comm outs]. clear E2.
  rewrite (run_bind _ _ _ _ _ (add_all_run sp_name _ _)), commit_val. cbn [work comm outs].
  eexists. split; [reflexivity|]. intros Hf.
  assert (∀ x, x ∈ default_user_group → is_member s6 (swap x)) as FM.
  { intros x Hx. apply grants_members. apply links_all; [done|done| |].
    - by intros y (z & -> & Hz)%list_elem_of_fmap; apply Hm.
    - right. apply list_elem_of_fmap. by exists x. }
  assert (∀ x, x ∈ default_group_permission → is_granted s6 x) as FG.
  { intros x Hx. apply links_all; [done|done|exact Hg|by right]. }
  assert (∀ x, x ∈ default_user → has_key u_username (tbl s5) x.1) as FU.
  { intros [n p] Hx. apply (links_keys u_username g_name u_groups join); [done|done|].
    apply (proj2 (add_fresh_keys u_username (users salt) (c_users s) so_users0)
      (new_user n (enc_login_passwd (salt n) p) 14)).
    apply list_elem_of_fmap. by exists (n, p). }
  assert (∀ x, x ∈ groups → has_key g_name (tbl s6) (g_name x)) as FGr.
  { intros x Hx. apply (links_keys g_name p_codename g_permissions permit); [done|done|].
    rewrite Eu. by apply (add_fresh_keys g_name). }
  assert (∀ u, is_Some (row (A := User) s5 u) → full_at (tbl s4) u) as FP.
  { intros u Hu%links_rows; [|done..]. apply profiles_full; [|done|exact so_profiles0|right].
    - exact Hcu.
    - destruct Hu as [U HU]. apply list_elem_of_fmap. exists (u, U). split; [done|].
      unfold s4 in HU. rewrite row_other in HU. apply elem_of_select. split; [exact HU|reflexivity]. }
  clearbody s5 s6. split; cbn [comm work] in *.
  - intros x Hx. tables. rewrite Eg. tables. rewrite Eu. unfold s4. tables.
    by apply (add_fresh_keys l_codename).
  - intros x Hx. tables. rewrite Eg. tables. rewrite Eu. unfold s4. tables.
    by apply (add_fresh_keys p_codename).
  - intros x Hx. tables. by apply FGr.
  - intros x Hx. tables. rewrite Eg. tables. by apply FU.
  - intros u. rewrite !row_other. tables. rewrite Eg. tables. rewrite row_other. intros Hu.
    rewrite Eu. tables. by apply FP.
  - intros x Hx. destruct (FM x Hx) as (u & U & g & G & ? & ? & ?). exists u, U, g, G.
    by rewrite !find_key_other.
  - intros x Hx. destruct (FG x Hx) as (g & G & p & P & ? & ? & ?). exists g, G, p, P.
    by rewrite !find_key_other.
  - intros x Hx. tables. apply (add_fresh_keys ac_name); [|done]. rewrite Eg. tables. rewrite Eu. unfold s4. by tables.
  - intros x Hx. tables. apply (add_fresh_keys sc_key); [|done]. rewrite Eg. tables. rewrite Eu. unfold s4. by tables.
  - intros x Hx. tables. apply (add_fresh_keys sp_name); [|done]. rewrite Eg. tables. rewrite Eu. unfold s4. by tables.
Qed.

(** *** A run on what is set up already *)

Lemma for_each_idle {X} (l : list X) (f : X → Web Cloud unit) (w : world Cloud) :
  (∀ x, x ∈ l → f x w = (Val tt, w)) → for_each l f w = (Val tt, w).
Proof.
  induction l as [|x l IH]; intros Hl; [done|]. cbn [for_each foldr].
  rewrite (run_bind _ _ _ _ _ (Hl x ltac:(by left))). apply IH. intros y Hy. apply Hl. by right.
Qed.
Lemma add_missing_idle {A} `{HasTable Cloud A} key (x : A) (w : world Cloud) :
  has_key key (tbl (work w)) (key x) → add_missing key x w = (Val false, w).
Proof.
  intros Hk%key_exists_spec. rewrite add_missing_run, Hk. cbn [negb].
  unfold add_fresh. cbn [foldl]. rewrite Hk, set_same. by destruct w.
Qed.
Lemma add_all_idle {A} `{HasTable Cloud A} key (l : list A) (w : world Cloud) :
  (∀ x, x ∈ l → has_key key (tbl (work w)) (key x)) → add_all key l w = (Val tt, w).
Proof.
  intros Hl. apply for_each_idle. intros x Hx.
  by rewrite (run_bind _ _ _ _ _ (add_missing_idle key x w (Hl x Hx))).
Qed.
Lemma add_all_commit_idle {A} `{HasTable Cloud A} key (l : list A) (w : world Cloud) :
  (∀ x, x ∈ l → has_key key (tbl (work w)) (key x)) → add_all_commit key l w = (Val tt, w).
Proof.
  intros Hl. apply for_each_idle. intros x Hx.
  by rewrite (run_bind _ _ _ _ _ (add_missing_idle key x w (Hl x Hx))).
Qed.
Lemma check_profile_idle now u (w : world Cloud) :
  full_at (tbl (work w)) u → check_profile now u w = (Val tt, w).
Proof.
  intros (p & P & E & HP). unfold check_profile. rewrite run_ask.
  change (profile_of (work w) u) with (first_profile (tbl (work w)) u). rewrite E.
  apply first_profile_spec in E as [HPr _]. rewrite modify_val. unfold row. rewrite HPr, HP.
  rewrite tput_id, set_same by done. by destruct w.
Qed.
Lemma add_member_idle x (w : world Cloud) : is_member (work w) (swap x) → add_member x w = (Val tt, w).
Proof.
  intros (u & U & g & G & Eu & Eg & Hin). cbn [swap fst snd] in *.
  unfold add_member. rewrite !run_ask, Eu, Eg. by rewrite bool_decide_true.
Qed.
Lemma add_grant_idle x (w : world Cloud) : is_granted (work w) x → add_grant x w = (Val tt, w).
Proof.
  intros (u & U & g & G & Eu & Eg & Hin). unfold add_grant. rewrite !run_ask, Eu, Eg.
  by rewrite bool_decide_true.
Qed.

Lemma default_idle now salt s : installed s → default_value stored now salt (start s) = (Val tt, start s).
Proof.
  intros [H1 H2 H3 H4 H5 H6 H7 H8 H9 H10].
  unfold default_value, update_language, update_user, update_site_config, update_storage.
  rewrite (run_bind _ _ _ _ _ (add_all_idle l_codename _ (start s) H1)),
    (run_bind _ _ _ _ _ (add_all_idle p_codename _ (start s) H2)),
    (run_bind _ _ _ _ _ (add_all_idle g_name _ (start s) H3)), run_assoc.
  rewrite (run_bind _ _ _ _ _ (add_all_idle u_username (users salt) (start s)
    ltac:(intros U (x & Hx & <-)%named_users; by apply H4))).
  rewrite run_assoc, run_commit, run_assoc, run_ask, run_assoc. change (mkWorld _ _ _) with (start s).
  erewrite run_bind.
  2: { apply for_each_idle. intros [u U] [HU _]%elem_of_select. apply check_profile_idle.
       apply H5. by exists U. }
  rewrite run_commit. change (mkWorld _ _ _) with (start s).
  erewrite run_bind by (apply for_each_idle; intros x Hx; by apply add_member_idle, H6).
  erewrite run_bind by (apply for_each_idle; intros x Hx; by apply add_grant_idle, H7).
  rewrite (run_bind _ _ _ _ _ (add_all_commit_idle ac_name _ (start s) H8)),
    (run_bind _ _ _ _ _ (add_all_commit_idle sc_key _ (start s) H9)),
    (run_bind _ _ _ _ _ (add_all_idle sp_name _ (start s) H10)).
  done.
Qed.

(** A profile of the site's configuration whose limits are not zero can be made for every
    user. *)
Definition profiles_fine (now : Z) (s : Cloud) : Prop :=
  ∀ u, ∃ P, new_profile now u s = Some P ∧ full P.

Lemma profiles_choice now s :
  profiles_fine now s → ∃ c, ∀ u, new_profile now u s = Some (c u) ∧ full (c u).
Proof.
  intros H. exists (λ u, default (mkUserProfile u 0 0 0 0 0 0 0 0 0 0 None 0) (new_profile now u s)).
  intros u. destruct (H u) as (P & -> & HP). done.
Qed.

Lemma default_installs now salt s :
  seqs_ok s → profiles_fine now s → installed (request (default_value stored now salt) s).1.
Proof.
  intros Hs (c & Hc)%profiles_choice.
  destruct (default_run now salt c s Hs) as (s' & E & HI); [intros u; apply Hc|].
  rewrite request_fst, E. apply HI. intros u. apply Hc.
Qed.

(** Setting up comes to its end and leaves a site that is complete: every default
    of the settings is there, every user has a profile without a limit that is zero, the
    default administrator is in the group of administrators, and the groups have their
    permissions. *)
Theorem setup_installs now salt s :
  seqs_ok s → profiles_fine now s →
  (default_value stored now salt (start s)).1 = Val tt ∧
  installed (request (default_value stored now salt) s).1.
Proof.
  intros Hs Hf. split; [|by apply default_installs].
  destruct (profiles_choice now s Hf) as [c Hc].
  destruct (default_run now salt c s Hs) as (s' & -> & _); [intros u; apply Hc|done].
Qed.

(** C14: setting up is idempotent: on a site that is set up another run, at whatever time
    and with whatever salts, changes nothing, so running it again after every update leaves
    what one run leaves. *)
Theorem setup_idempotent now now' salt salt' s :
  seqs_ok s → profiles_fine now s →
  let s' := (request (default_value stored now salt) s).1 in
  request (default_value stored now' salt') s' = (s', []).
Proof.
  intros Hs Hf s'. unfold request at 1. by rewrite default_idle by by apply default_installs.
Qed.

(** The administrator of a site that is set up has every permission. *)
Lemma installed_admin s u U perm :
  installed s → find_key u_username "admin" s = Some (u, U) → user_has s perm u = true.
Proof.
  intros HI HU. apply user_has_admin.
  destruct (in_members s HI ("admin", "admin")%string) as (u' & U' & g & G & EU & EG & Hg); [by left|].
  destruct (in_grants s HI ("admin", "admin")%string) as (g' & G' & p & P & EG' & EP & Hp); [by left|].
  cbn [swap fst snd] in *. rewrite HU in EU. injection EU as <- <-. rewrite EG in EG'. injection EG' as <- <-.
  apply find_key_spec in HU as [HU _]. apply find_key_spec in EG as [HG _].
  apply find_key_spec in EP as [HP En]. unfold user_has. rewrite HU. apply existsb_exists.
  exists g. split; [by apply list_elem_of_In|]. unfold group_has. rewrite HG. apply existsb_exists.
  exists p. split; [by apply list_elem_of_In|]. rewrite HP, En. done.
Qed.
End installed.

(** ** Concrete runs *)

Definition example_stored (v : json) : string :=
  match v with
  | JStr t => t
  | JNum n => str_of_Z n
  | JBool true => "true"
  | _ => ""
  end.
Definition fresh_site : Cloud := (request (default_value example_stored 0 (λ _, "5f3a"%string)) empty_cloud).1.

(** On an empty database: the administrator, who is known by the password of the settings. *)
Example fresh_admin :
  (λ p : Z * User, (p.1, u_username p.2, user_has fresh_site "instance.create" p.1,
     check_login_passwd "admin" (u_password p.2), profile_of fresh_site p.1)) <$> all_rows User fresh_site =
  [(1, "admin"%string, true, true, Some (1, mkUserProfile 1 1 256 2 3 1 2000 2000 6 1 6 None 0))].
Proof. vm_compute. reflexivity. Qed.

(** A limit that an administrator set to zero does not survive the next run. *)
Example zero_limit_reset :
  let s := fresh_site <| c_profiles := table_of [mkUserProfile 1 1 256 2 3 1 2000 2000 0 1 0 None 0] |> in
  let s' := (request (default_value example_stored 0 (λ _, "5f3a"%string)) s).1 in
  (λ p, (pf_port p.2, pf_domain p.2)) <$> profile_of s' 1 = Some (6, 6).
Proof. vm_compute. reflexivity. Qed.

Lemma setup_empty_seqs : seqs_ok empty_cloud.
Proof. split; intros i _; apply lookup_empty. Qed.
Lemma setup_empty_profiles : profiles_fine 0 empty_cloud.
Proof. intros u. eexists. split; reflexivity. Qed.

Lemma setup_installs_witness :
  (default_value example_stored 0 (λ _, "5f3a"%string) (start empty_cloud)).1 = Val tt ∧
  installed example_stored (request (default_value example_stored 0 (λ _, "5f3a"%string)) empty_cloud).1.
Proof.
  apply (setup_installs example_stored 0 (λ _, "5f3a"%string) empty_cloud).
  - exact setup_empty_seqs.
  - exact setup_empty_profiles.
Defined.

Lemma setup_idempotent_witness :
  let s' := (request (default_value example_stored 0 (λ _, "5f3a"%string)) empty_cloud).1 in
  request (default_value example_stored 7 (λ _, "c0ffee"%string)) s' = (s', []).
Proof.
  apply (setup_idempotent example_stored 0 7 (λ _, "5f3a"%string) (λ _, "c0ffee"%string) empty_cloud).
  - exact setup_empty_seqs.
  - exact setup_empty_profiles.
Defined.

(** The network program run twice: a second pool of the same name without an address. *)
Example default_network_twice :
  let s := (request (add_default_network (IPyI := example_ipy) 0) fresh_site).1 in
  let s' := (request (add_default_network (IPyI := example_ipy) 0) s).1 in
  (length (all_rows IPPool s), (λ p : Z * NetworkPool, length (ips_in s' p.1)) <$> all_rows NetworkPool s') =
  (135%nat, [135; 0]%nat).
Proof. vm_compute. reflexivity. Qed.
