(* ===== verification/UserDelete.v ===== *)
(** Deleting a user (src/lyweb/app/admin/user_views.py, [UserDelete]): what SQLAlchemy does
    with the rows that refer to the user, by the relationships of the models.

    A relationship with a [backref] gives the user a collection of rows; deleting the user
    sets their [user_id] to NULL. A column of a user id holds 0 for NULL: the sequences of
    the database start at 1. A foreign key without a [backref] is unknown to the session;
    the database refuses to delete the row it points to. *)
From Stdlib Require Import Ascii String.
From S2P Require Import Prelude Table Session Cloud Quota JobModel Web Forms LifeControl Account Forum.
#[local] Open Scope Z_scope.

Definition NULL : Z := 0.

(** ** Rows that lose their user *)

Definition tmap {A} (f : A → A) (t : table A) : table A := mkTable (f <$> rows t) (seq t).

(** [x.user_id = None] for each row of the collection. *)
Definition disown {A} `{HasTable Cloud A} (owner : A → Z) (leave : A → A) (u : Z) : Web Cloud unit :=
  l ← ask (select (λ _ x, owner x =? u));
  for_each l (λ x, modify x.1 leave).

Definition left_alone {A} (owner : A → Z) (leave : A → A) (u : Z) (x : A) : A :=
  if owner x =? u then leave x else x.

Definition leave_instance (I : Instance) : Instance := I <| i_user_id := NULL |>.
Definition leave_appliance (A : Appliance) : Appliance := A <| a_user_id := NULL |>.
Definition leave_job (J : Job) : Job := J <| j_user_id := NULL |>.
Definition leave_resource (R : Resource) : Resource :=
  mkResource NULL (r_type R) (r_size R) (r_effect_date R) (r_expired_date R).
Definition leave_profile (P : UserProfile) : UserProfile := P <| pf_user_id := NULL |>.
Definition leave_key (K : PublicKey) : PublicKey := K <| k_user_id := NULL |>.
Definition leave_trace (T : LyTrace) : LyTrace :=
  mkLyTrace NULL (t_target_type T) (t_target_id T) (t_do T) (t_isok T).
Definition leave_domain (D : UserDomain) : UserDomain := D <| d_user_id := NULL |>.
Definition openid_owner (o : OpenID) : Z := default NULL (oi_user_id o).
Definition leave_openid (o : OpenID) : OpenID := o <| oi_user_id := None |>.

(** ** Rows that keep the user *)

Definition some_row {A} `{HasTable Cloud A} (P : A → bool) (s : Cloud) : bool :=
  negb (bool_decide (select (λ _ x, P x) s = [])).

(** A foreign key without a collection points to the user; [attached] tells of the table of
    attachments, which is not in the model. Of several profiles the session knows one; the
    others keep their user. *)
Definition referenced (attached : bool) (u : Z) (s : Cloud) : bool :=
  attached ||
  some_row (λ M, (m_sender_id M =? u) || bool_decide (m_receiver_id M = Some u)) s ||
  some_row (λ F, fu_user_id F =? u) s ||
  some_row (λ C, bool_decide (u ∈ fc_managers C) || bool_decide (u ∈ fc_allowed C)) s ||
  some_row (λ T, ft_user_id T =? u) s ||
  some_row (λ P, fp_user_id P =? u) s ||
  some_row (λ V, tv_user_id V =? u) s ||
  some_row (λ V, pv_user_id V =? u) s ||
  some_row (λ R, rp_user_id R =? u) s ||
  (1 <? Z.of_nat (length (select (λ _ P, pf_user_id P =? u) s))).

(** ** The handler *)

(** The flush of [db.delete(U)]; jobs of the site have [ON DELETE CASCADE]. *)
Definition delete_user (attached : bool) (u : Z) : Web Cloud unit :=
  r ← ask (referenced attached u);
  if r : bool then raise "IntegrityError" else
  disown i_user_id leave_instance u;;
  disown a_user_id leave_appliance u;;
  disown j_user_id leave_job u;;
  disown r_user_id leave_resource u;;
  disown pf_user_id leave_profile u;;
  disown k_user_id leave_key u;;
  disown t_who_id leave_trace u;;
  disown d_user_id leave_domain u;;
  disown openid_owner leave_openid u;;
  jobs ← ask (select (λ _ j, bool_decide (sj_user_id j = Some u)));
  for_each jobs (λ j, delete_row SiteJob j.1);;
  delete_row User u.

(** [UserDelete.get]: the profile is deleted, and that committed, before the user. *)
Definition UserDelete_get (e : req) (attached : bool) : Web Cloud unit :=
  need_permission e true "admin" (
    match get_argument_int e "id" None with
    | None => emit (Write "Give user id please.")
    | Some u =>
        if u =? 0 then emit (Write "Give user id please.") else
        o ← get_row (A := User) u;
        match o with
        | None => emit (Write "Can not find user")
        | Some _ =>
            p ← ask (λ s, profile_of s u);
            match p with
            | Some (pid, _) => delete_row UserProfile pid;; commit
            | None => mret tt
            end;;
            delete_user attached u;;
            commit;;
            redirect_next e "admin:user"
        end
    end) tt.

(** ** What it leaves *)

(** The database after [disown]. *)
Definition orphan {A} `{HasTable Cloud A} (owner : A → Z) (leave : A → A) (u : Z) (s : Cloud) : Cloud :=
  set_tbl (tmap (left_alone owner leave u) (tbl s)) s.

Definition drop_profile (u : Z) (s : Cloud) : Cloud :=
  match profile_of s u with
  | Some (pid, _) => set_tbl (tdelete pid (tbl s : table UserProfile)) s
  | None => s
  end.

Definition drop_sitejobs (u : Z) (s : Cloud) : Cloud :=
  set_tbl (mkTable (filter (λ p, bool_decide (sj_user_id p.2 = Some u) = false) (rows (c_sitejobs s))) (seq (c_sitejobs s))) s.

Definition deleted (u : Z) (s : Cloud) : Cloud :=
  let s := orphan i_user_id leave_instance u s in
  let s := orphan a_user_id leave_appliance u s in
  let s := orphan j_user_id leave_job u s in
  let s := orphan r_user_id leave_resource u s in
  let s := orphan pf_user_id leave_profile u s in
  let s := orphan k_user_id leave_key u s in
  let s := orphan t_who_id leave_trace u s in
  let s := orphan d_user_id leave_domain u s in
  let s := orphan openid_owner leave_openid u s in
  let s := drop_sitejobs u s in
  set_tbl (tdelete u (tbl s : table User)) s.

Lemma table_eq {A} (t t' : table A) : seq t = seq t' → rows t = rows t' → t = t'.
Proof. destruct t, t'. simpl. by intros -> ->. Qed.

Lemma disown_run {A} `{HasTable Cloud A} (owner : A → Z) (leave : A → A) u w :
  disown owner leave u w = (Val tt, mkWorld (orphan owner leave u (work w)) (comm w) (outs w)).
Proof.
  unfold disown. rewrite run_ask.
  destruct (for_modify_select leave (λ _ x, owner x =? u) w) as (t & -> & Hs & Ht).
  unfold orphan. do 3 f_equal. apply table_eq; [done|]. apply map_eq. intros k. rewrite Ht. simpl.
  by rewrite lookup_fmap.
Qed.

(** [for x in l: db.delete(x)] *)
Lemma for_delete {A} `{HasTable Cloud A} (l : list (Z * A)) : ∀ w : world Cloud,
  for_each l (λ x, delete_row A x.1) w =
    (Val tt, mkWorld (set_tbl (mkTable (foldl (λ m x, delete x.1 m) (rows (tbl (work w) : table A)) l)
      (seq (tbl (work w) : table A))) (work w)) (comm w) (outs w)).
Proof.
  induction l as [|[k x] l IH]; intros w; cbn [for_each foldr].
  - rewrite ret_val. destruct w as [s c o]. cbn [work comm outs foldl]. do 2 f_equal.
    rewrite <- (set_same (A := A) s) at 1. f_equal. by apply table_eq.
  - rewrite run_delete.
    change (foldr _ _ l) with (for_each l (λ x : Z * A, delete_row (S := Cloud) A x.1)).
    rewrite IH. cbn [work comm outs foldl].
    by rewrite set_twice, tbl_set.
Qed.

Lemma delete_all_lookup {A} (l : list (Z * A)) : ∀ (m : gmap Z A) k,
  foldl (λ m x, delete x.1 m) m l !! k = if bool_decide (k ∈ l.*1) then None else m !! k.
Proof.
  induction l as [|[i x] l IH]; intros m k; [done|]. cbn [foldl fst]. rewrite IH. cbn [fmap list_fmap fst].
  destruct (decide (k = i)) as [->|Hk].
  - rewrite (bool_decide_true (i ∈ i :: _)) by (by left). case_bool_decide; [done|]. apply lookup_delete_eq.
  - rewrite lookup_delete_ne by done. rewrite (bool_decide_ext (k ∈ i :: l.*1) (k ∈ l.*1)); [done|].
    rewrite elem_of_cons. tauto.
Qed.

Lemma delete_selected {A} `{HasTable Cloud A} (P : A → bool) (s : Cloud) :
  foldl (λ m x, delete x.1 m) (rows (tbl s : table A)) (select (λ _ x, P x) s) =
  filter (λ p, P p.2 = false) (rows (tbl s : table A)).
Proof.
  apply map_eq. intros k. rewrite delete_all_lookup, map_lookup_filter.
  destruct (rows (tbl s : table A) !! k) as [x|] eqn:Hx.
  - destruct (P x) eqn:HP.
    + rewrite bool_decide_true.
      * simpl. by rewrite option_guard_False by (simpl; congruence).
      * apply list_elem_of_fmap. exists (k, x). split; [done|]. by apply elem_of_select.
    + rewrite bool_decide_false; [simpl; by rewrite option_guard_True by done|].
      intros ([j y] & -> & [Hy HPy]%elem_of_select)%list_elem_of_fmap.
      unfold row in Hy. simpl in *. congruence.
  - by case_bool_decide.
Qed.

Lemma delete_user_run attached u w :
  delete_user attached u w =
  if referenced attached u (work w) then (Raise "IntegrityError", w)
  else (Val tt, mkWorld (deleted u (work w)) (comm w) (outs w)).
Proof.
  unfold delete_user. rewrite run_ask. destruct (referenced attached u (work w)); [done|].
  do 9 (rewrite (run_bind _ _ _ _ _ (disown_run _ _ _ _)); cbn [work comm outs]).
  rewrite run_ask, (run_bind _ _ _ _ _ (for_delete _ _)). cbn [work comm outs].
  unfold deleted, delete_row, change, drop_sitejobs. cbv zeta. cbn [work comm outs].
  by rewrite (delete_selected (λ j, bool_decide (sj_user_id j = Some u))).
Qed.

(** ** Properties *)

(** The request as a function of the database. *)
Lemma UserDelete_run e attached s a u (U : User) :
  cur e = Some a → user_has s "admin" a = true → get_argument_int e "id" None = Some u →
  u ≠ NULL → row s u = Some U →
  (request (UserDelete_get e attached) s).1 =
    if referenced attached u (drop_profile u s) then drop_profile u s
    else deleted u (drop_profile u s).
Proof.
  intros Ha Hp Hu Hn HU. unfold UserDelete_get, need_permission. rewrite request_fst, Ha. web_run.
  change (work (start s)) with s. rewrite Hp, Hu, (proj2 (Z.eqb_neq u 0)) by done. web_run.
  change (work (start s)) with s. rewrite HU.
  unfold drop_profile. web_run. change (work (start s)) with s.
  destruct (profile_of s u) as [[pid p]|]; web_run.
  all: match goal with |- context [(delete_user ?b ?v ≫= ?k) ?w] => pose proof (delete_user_run b v w) as E end.
  all: cbn [work] in E; change (work (start s)) with s in E.
  all: destruct (referenced _ _ _); [by rewrite (run_exn _ _ _ _ _ E)|].
  all: rewrite (run_bind _ _ _ _ _ E); web_run; unfold redirect_next; by repeat case_match.
Qed.

Lemma UserDelete_result e attached s :
  (request (UserDelete_get e attached) s).1 = s ∨
  ∃ a u (U : User), cur e = Some a ∧ user_has s "admin" a = true ∧ u ≠ NULL ∧ row s u = Some U ∧
    (request (UserDelete_get e attached) s).1 =
      (if referenced attached u (drop_profile u s) then drop_profile u s
       else deleted u (drop_profile u s)).
Proof.
  destruct (cur e) as [a|] eqn:Ha; [|left; unfold UserDelete_get, need_permission; by rewrite Ha].
  destruct (user_has s "admin" a) eqn:Hp;
    [|left; unfold UserDelete_get, need_permission; rewrite request_fst, Ha; web_run;
      change (work (start s)) with s; by rewrite Hp].
  destruct (get_argument_int e "id" None) as [u|] eqn:Hu; [destruct (decide (u = NULL)) as [->|Hn]|].
  2: destruct (row (A := User) s u) as [U|] eqn:HU;
       [right; exists a, u, U; split_and!; [done..|by eapply UserDelete_run]|].
  all: left; unfold UserDelete_get, need_permission; rewrite request_fst, Ha; web_run;
    change (work (start s)) with s; rewrite Hp, Hu; try done.
  rewrite (proj2 (Z.eqb_neq u 0)) by done. web_run. change (work (start s)) with s. by rewrite HU.
Qed.

(** Listings of rows that a change does not touch. *)
Lemma select_same {A} `{HasTable Cloud A} (P : A → bool) (s s' : Cloud) :
  (∀ k x, P x = true → row s k = Some x ↔ row s' k = Some x) →
  select (λ _ x, P x) s = select (λ _ x, P x) s'.
Proof.
  intros Hr.
  assert (∀ s : Cloud, StronglySorted id_le (select (λ _ x, P x) s : list (Z * A))) as Hsort.
  { intros s0. unfold select. induction (listing_sorted (tbl s0 : table A)) as [|x l Hl IH HF]; [constructor|].
    rewrite filter_cons. case_decide; [|done]. constructor; [done|].
    rewrite !Forall_forall in *. intros y [_ Hy]%list_elem_of_filter. by apply HF. }
  assert (∀ s : Cloud, NoDup (select (λ _ x, P x) s : list (Z * A))) as Hnd.
  { intros s0. eapply NoDup_fmap_1, select_NoDup. }
  apply (StronglySorted_unique_strong id_le); [|apply Hsort..|].
  - intros [i x] [j y] Hi Hj H1 H2. unfold id_le in *. simpl in *. assert (i = j) as -> by lia.
    apply elem_of_select in Hi as [Hi Px], Hj as [Hj _]. apply Hr in Hi; [|done]. congruence.
  - apply NoDup_Permutation; [done..|]. intros [k x]. rewrite !elem_of_select.
    split; intros [Hk Px]; (split; [by apply (Hr k x)|done]).
Qed.

Lemma row_orphan {A} `{HasTable Cloud A} owner (leave : A → A) u s k :
  row (orphan owner leave u s) k = left_alone owner leave u <$> row s k.
Proof. unfold row, orphan. rewrite tbl_set. simpl. apply lookup_fmap. Qed.

(** What belongs to somebody else is listed as before. *)
Lemma select_orphan {A} `{HasTable Cloud A} owner (leave : A → A) u v s :
  (∀ x, owner (leave x) = NULL) → v ≠ u → v ≠ NULL →
  select (λ _ x, owner x =? v) (orphan owner leave u s) = select (λ _ x, owner x =? v) s.
Proof.
  intros Hl Hu Hv. symmetry. apply select_same. intros k x Hx%Z.eqb_eq. rewrite row_orphan. split.
  - intros ->. simpl. unfold left_alone. by rewrite (proj2 (Z.eqb_neq _ _)) by congruence.
  - intros (y & -> & ->)%fmap_Some. unfold left_alone in *.
    destruct (Z.eqb_spec (owner y) u); [|done]. rewrite Hl in Hx. congruence.
Qed.

Lemma select_orphaned {A} `{HasTable Cloud A} owner (leave : A → A) u s :
  (∀ x, owner (leave x) = NULL) → u ≠ NULL →
  select (λ _ x, owner x =? u) (orphan owner leave u s) = [].
Proof.
  intros Hl Hu. destruct (select _ _) as [|[k x] l] eqn:E; [done|].
  assert ((k, x) ∈ select (λ _ x, owner x =? u) (orphan owner leave u s)) as Hin by (rewrite E; by left).
  apply elem_of_select in Hin as [Hk Hx%Z.eqb_eq]. rewrite row_orphan in Hk.
  apply fmap_Some in Hk as (y & _ & ->). unfold left_alone in Hx.
  destruct (Z.eqb_spec (owner y) u); [rewrite Hl in Hx|]; congruence.
Qed.

Lemma profile_dropped u v s : v ≠ u → profile_of (drop_profile u s) v = profile_of s v.
Proof.
  intros Hv. unfold drop_profile. destruct (profile_of s u) as [[pid p]|] eqn:E; [|done].
  unfold profile_of at 1 2. f_equal. symmetry. apply select_same. intros k x Hx%Z.eqb_eq.
  rewrite row_delete. case_decide as Hk; [|done]. subst k. split; [|done].
  pose proof (profile_of_owner _ _ _ _ E).
  apply head_Some_elem_of, elem_of_select in E as [E _]. intros Hp. congruence.
Qed.

(** The tables of the whole deletion. *)
Lemma deleted_tables u s :
  c_users (deleted u s) = tdelete u (c_users s) ∧
  c_profiles (deleted u s) = tmap (left_alone pf_user_id leave_profile u) (c_profiles s) ∧
  c_instances (deleted u s) = tmap (left_alone i_user_id leave_instance u) (c_instances s) ∧
  c_resources (deleted u s) = tmap (left_alone r_user_id leave_resource u) (c_resources s) ∧
  c_keys (deleted u s) = tmap (left_alone k_user_id leave_key u) (c_keys s) ∧
  c_domains (deleted u s) = tmap (left_alone d_user_id leave_domain u) (c_domains s).
Proof. split_and!; reflexivity. Qed.

(** A listing only looks at its table. *)
Lemma select_tbl {A} `{HasTable Cloud A} P (s s' : Cloud) :
  tbl s = (tbl s' : table A) → select P s = (select P s' : list (Z * A)).
Proof. unfold select. by intros ->. Qed.

(** C10: deleting a user, by an administrator. What other users own stays theirs, and nobody
    else's account is touched, whatever happens. If messages, topics, posts, votes or
    applications of the user are left, the user stays - but the profile is gone, and with it
    the quota. Otherwise the user and the user's jobs of the site go, every other row stays,
    and those whose owner the user was (instances, appliances, jobs, resources, profiles,
    keys, traces, domains, OpenIDs) have none: the database is exactly the one written out. *)
Theorem UserDelete_spec e attached s a u (U : User) :
  cur e = Some a → user_has s "admin" a = true → get_argument_int e "id" None = Some u →
  u ≠ NULL → row s u = Some U →
  let s1 := match profile_of s u with
            | Some (pid, _) => s <| c_profiles := tdelete pid (c_profiles s) |>
            | None => s
            end in
  let s' := (request (UserDelete_get e attached) s).1 in
  (∀ v, v ≠ u → v ≠ NULL → row (A := User) s' v = row s v ∧ profile_of s' v = profile_of s v ∧
     instances_of s' v = instances_of s v ∧ resources_of s' v = resources_of s v) ∧
  (∀ i, row s' i = (λ I, if negb (referenced attached u s1) && (i_user_id I =? u)
                         then leave_instance I else I) <$> row s i) ∧
  if referenced attached u s1 then s' = s1
  else row (A := User) s' u = None ∧ profile_of s' u = None ∧ instances_of s' u = [] ∧
       resources_of s' u = [] ∧
       s' = s1
         <| c_users := tdelete u (c_users s1) |>
         <| c_instances := tmap (λ x, if i_user_id x =? u then x <| i_user_id := NULL |> else x) (c_instances s1) |>
         <| c_appliances := tmap (λ x, if a_user_id x =? u then x <| a_user_id := NULL |> else x) (c_appliances s1) |>
         <| c_jobs := tmap (λ x, if j_user_id x =? u then x <| j_user_id := NULL |> else x) (c_jobs s1) |>
         <| c_resources := tmap (λ x, if r_user_id x =? u then
              mkResource NULL (r_type x) (r_size x) (r_effect_date x) (r_expired_date x) else x) (c_resources s1) |>
         <| c_profiles := tmap (λ x, if pf_user_id x =? u then x <| pf_user_id := NULL |> else x) (c_profiles s1) |>
         <| c_keys := tmap (λ x, if k_user_id x =? u then x <| k_user_id := NULL |> else x) (c_keys s1) |>
         <| c_traces := tmap (λ x, if t_who_id x =? u then
              mkLyTrace NULL (t_target_type x) (t_target_id x) (t_do x) (t_isok x) else x) (c_traces s1) |>
         <| c_domains := tmap (λ x, if d_user_id x =? u then x <| d_user_id := NULL |> else x) (c_domains s1) |>
         <| c_openids := tmap (λ x, if default NULL (oi_user_id x) =? u then x <| oi_user_id := None |> else x) (c_openids s1) |>
         <| c_sitejobs := mkTable (filter (λ p, bool_decide (sj_user_id p.2 = Some u) = false) (rows (c_sitejobs s1)))
                            (seq (c_sitejobs s1)) |>.
Proof.
  intros Ha Hp Hid Hu HU s1' s'. assert (s1' = drop_profile u s) as E1 by reflexivity.
  clearbody s1'. subst s1'. set (s1 := drop_profile u s).
  pose proof (UserDelete_run e attached s a u U Ha Hp Hid Hu HU) as E.
  fold s1 s' in E.
  assert (∀ A (HA : HasTable Cloud A), @Indep Cloud UserProfile A _ HA →
    ∀ P, select P s1 = (select P s : list (Z * A)) ∧ ∀ i, row s1 i = (row s i : option A)) as Hs1.
  { intros A HA Hi P. unfold s1, drop_profile. destruct (profile_of s u) as [[pid p]|]; [|done].
    split; [apply select_other|intros i; apply row_other]. }
  destruct (referenced attached u s1); rewrite E.
  - split_and!; [|intros i; rewrite (proj2 (Hs1 _ _ _ (λ _ _, true))); by destruct (row s i)|done].
    intros v Hv Hv0. split_and!; [by apply Hs1|by apply profile_dropped|by apply Hs1..].
  - destruct (deleted_tables u s1) as (EU & EP & EI & ER & _).
    assert (∀ P : Z → UserProfile → bool, select P (deleted u s1) =
      select P (orphan pf_user_id leave_profile u s1)) as TP
      by (intros P; by apply select_tbl).
    assert (∀ P : Z → Instance → bool, select P (deleted u s1) =
      select P (orphan i_user_id leave_instance u s1)) as TI
      by (intros P; by apply select_tbl).
    assert (∀ P : Z → Resource → bool, select P (deleted u s1) =
      select P (orphan r_user_id leave_resource u s1)) as TR
      by (intros P; by apply select_tbl).
    split_and!.
    + intros v Hv Hv0. unfold profile_of at 1, instances_of at 1, resources_of at 1.
      rewrite TP, TI, TR, !select_orphan by done. split_and!.
      * change (row (deleted u s1) v) with (rows (c_users (deleted u s1)) !! v).
        rewrite EU. simpl. rewrite lookup_delete_ne by done.
        exact (proj2 (Hs1 User _ _ (λ _ _, true)) v).
      * by apply profile_dropped.
      * by apply Hs1.
      * by apply Hs1.
    + intros i. change (row (deleted u s1) i) with (rows (c_instances (deleted u s1)) !! i).
      rewrite EI. simpl. rewrite lookup_fmap.
      change (rows (c_instances s1) !! i) with (row (A := Instance) s1 i).
      by rewrite (proj2 (Hs1 _ _ _ (λ _ _, true))).
    + change (row (deleted u s1) u) with (rows (c_users (deleted u s1)) !! u).
      rewrite EU. simpl. apply lookup_delete_eq.
    + unfold profile_of. by rewrite TP, select_orphaned by done.
    + unfold instances_of. by rewrite TI, select_orphaned by done.
    + unfold resources_of. by rewrite TR, select_orphaned by done.
    + reflexivity.
Qed.

(** ** Examples *)

Definition delete_req : req := rq (life_env 2 [("id", "1")]%string).

(** Deleting a user who once wrote a message takes the profile away and fails. *)
Definition writer_cloud : Cloud :=
  life_cloud <| c_messages := table_of [mkMessage None 1 (Some 2) 1 true false None] |>.

Example UserDelete_half :
  let s' := (request (UserDelete_get delete_req false) writer_cloud).1 in
  (UserDelete_get delete_req false (start writer_cloud)).1 = Raise "IntegrityError" ∧
  is_Some (row (A := User) s' 1) ∧ is_Some (profile_of writer_cloud 1) ∧ profile_of s' 1 = None ∧
  (run (life_env 1 []) 1 1 (start s')).1 = Raise "AttributeError: NoneType".
Proof. split_and!; [by vm_compute|by eexists|by eexists|by vm_compute|by vm_compute]. Qed.

Lemma UserDelete_spec_witness :
  let s1 := match profile_of life_cloud 1 with
            | Some (pid, _) => life_cloud <| c_profiles := tdelete pid (c_profiles life_cloud) |>
            | None => life_cloud
            end in
  let s' := (request (UserDelete_get delete_req false) life_cloud).1 in
  (∀ v, v ≠ 1 → v ≠ NULL → row (A := User) s' v = row life_cloud v ∧
     profile_of s' v = profile_of life_cloud v ∧
     instances_of s' v = instances_of life_cloud v ∧ resources_of s' v = resources_of life_cloud v) ∧
  (∀ i, row s' i = (λ I, if negb (referenced false 1 s1) && (i_user_id I =? 1)
                         then leave_instance I else I) <$> row life_cloud i) ∧
  if referenced false 1 s1 then s' = s1
  else row (A := User) s' 1 = None ∧ profile_of s' 1 = None ∧ instances_of s' 1 = [] ∧
       resources_of s' 1 = [] ∧
       s' = s1
         <| c_users := tdelete 1 (c_users s1) |>
         <| c_instances := tmap (λ x, if i_user_id x =? 1 then x <| i_user_id := NULL |> else x) (c_instances s1) |>
         <| c_appliances := tmap (λ x, if a_user_id x =? 1 then x <| a_user_id := NULL |> else x) (c_appliances s1) |>
         <| c_jobs := tmap (λ x, if j_user_id x =? 1 then x <| j_user_id := NULL |> else x) (c_jobs s1) |>
         <| c_resources := tmap (λ x, if r_user_id x =? 1 then
              mkResource NULL (r_type x) (r_size x) (r_effect_date x) (r_expired_date x) else x) (c_resources s1) |>
         <| c_profiles := tmap (λ x, if pf_user_id x =? 1 then x <| pf_user_id := NULL |> else x) (c_profiles s1) |>
         <| c_keys := tmap (λ x, if k_user_id x =? 1 then x <| k_user_id := NULL |> else x) (c_keys s1) |>
         <| c_traces := tmap (λ x, if t_who_id x =? 1 then
              mkLyTrace NULL (t_target_type x) (t_target_id x) (t_do x) (t_isok x) else x) (c_traces s1) |>
         <| c_domains := tmap (λ x, if d_user_id x =? 1 then x <| d_user_id := NULL |> else x) (c_domains s1) |>
         <| c_openids := tmap (λ x, if default NULL (oi_user_id x) =? 1 then x <| oi_user_id := None |> else x) (c_openids s1) |>
         <| c_sitejobs := mkTable (filter (λ p, bool_decide (sj_user_id p.2 = Some 1) = false) (rows (c_sitejobs s1)))
                            (seq (c_sitejobs s1)) |>.
Proof.
  destruct (row (A := User) life_cloud 1) as [U|] eqn:E; [|discriminate].
  apply (UserDelete_spec delete_req false life_cloud 2 1 U); [reflexivity..|done|done].
Defined.
