(* ===== verification/UserAdmin.v ===== *)
(** The administration of users, groups and resources
    (src/lyweb/app/admin/user_views.py, group_views.py, forms.py,
    app/resource/admin_views.py, utils.py). Fields that take several values
    ([groups], [perms]) are arguments of the handlers; the format of dates is an
    interface. *)
From Stdlib Require Import Ascii String.
From S2P Require Import Prelude PyText PyBytes Password Table Session Cloud Quota InstanceModel Web Forms LifeControl Myun MyNetwork Account Forum Register UserDelete.
#[local] Open Scope Z_scope.

(** [datetime.strptime(text, '%Y-%m-%d %H:%M:%S')], [None] for [ValueError]. *)
Class Dates := strptime : string → option Z.

Section admin.
Context {ShaI : Sha512} {CodecI : SessionCodec} {DatesI : Dates}.

(** ** Users *)

Definition user_url (u : Z) : effect := Redirect "admin:user:view" u.

(** [CreateUserForm] *)
Definition create_user_form (e : req) : option (string * string) :=
  let name := text_field e "username" in
  if length_ok 2 25 name && bool_decide (is_Some (email_field e)) then
    pw ← password_fields e; Some (name, pw)
  else None.

(** [UserAdd.post]: the address of the form is not stored, and the user gets a
    second profile. *)
Definition UserAdd_post (e : req) (salt : string) : Web Cloud unit :=
  need_permission e false "admin" (
    match create_user_form e with
    | None => emit (Render "admin/user/add.html")
    | Some (name, pw) =>
        old ← ask (λ s, user_by_name s name);
        match old with
        | Some _ => emit (Render "admin/user/add.html")
        | None =>
            u ← add_row (new_user name (enc_login_passwd salt pw) 14);
            commit;;
            init_account e u;;
            add_profile e u;;
            emit (user_url u)
        end
    end) tt.

(** The user named by the argument [id], for administrators. *)
Definition admin_user (e : req) (k : Z → User → Web Cloud unit) : Web Cloud unit :=
  need_permission e false "admin" (
    match get_argument_int e "id" None with
    | None => emit (Write "Give me user id please.")
    | Some u =>
        if u =? 0 then emit (Write "Give me user id please.") else
        o ← get_row u;
        match o with
        | None => emit (Write "Can not find user")
        | Some U => k u U
        end
    end) tt.

(** ... in the handlers that take 0 for a missing number. *)
Definition named_user (e : req) (k : Z → User → Web Cloud unit) : Web Cloud unit :=
  need_permission e false "admin" (
    let ID := default 0 (get_argument_int e "id" (Some 0)) in
    o ← get_row ID;
    match o with
    | None => emit (Write "No such user")
    | Some U => k ID U
    end) tt.

Definition ResetPass_admin (e : req) (salt : string) : Web Cloud unit :=
  admin_user e (λ u _,
    match password_fields e with
    | None => emit (Render "admin/user/reset_password.html")
    | Some pw =>
        modify u (λ U : User, U <| u_password := enc_login_passwd salt pw |>);;
        commit;;
        emit (user_url u)
    end).

Definition group_by_name (s : Cloud) (name : string) : option (Z * Group) :=
  head (select (λ _ G, String.eqb (g_name G) name) s).

(** [GroupEdit.post]; [groups] are the values of the field. *)
Definition GroupEdit_user (e : req) (groups : list string) : Web Cloud unit :=
  named_user e (λ u _,
    choices ← ask (λ s, (λ G, g_name (snd G)) <$> all_rows Group s);
    if forallb (λ g, bool_decide (g ∈ choices)) groups then
      l ← ask (λ s, omap (λ g, fst <$> group_by_name s g) groups);
      modify u (λ U : User, U <| u_groups := l |>);;
      commit;;
      emit (user_url u)
    else emit (Render "admin/user/group_edit.html")).

(** ** Resources *)

(** A date field: [None] for text that is no date, [Some None] when it is absent. *)
Definition date_field (e : req) (name : string) : option (option Z) :=
  match args e !! name with
  | None => Some None
  | Some v => Some <$> strptime (strip v)
  end.

(** [Resource(user, rtype, size, effect_date, expired_date)]: without a date of
    expiry the constructor uses a module that is not imported. *)
Definition add_resource (e : req) (u ty size : Z) (effect expired : option Z) :
    Web Cloud unit :=
  match expired with
  | None => raise "NameError: settings"
  | Some x => _ ← add_row (mkResource u ty size (Some (default (now e) effect)) (Some x)); mret tt
  end.

Definition resource_types : list string := str_of_Z <$> [T_CPU; T_MEMORY; T_STORAGE; T_INSTANCE].

(** [ResourceForm] *)
Definition resource_fields (e : req) : option (Z * Z * option Z * option Z) :=
  effect ← date_field e "effect_date";
  expired ← date_field e "expired_date";
  size ← int_field e "size" None;
  let ty := select_field e "type" in
  if (1 <=? size) && bool_decide (ty ∈ resource_types)
  then t ← py_int ty; Some (t, size, effect, expired) else None.

(** [resource_mail_notice(hdr, user)] *)
Definition resource_mail_notice (e : req) (u : Z) : Web Cloud unit :=
  o ← get_row (A := User) u;
  match o with
  | None => mret tt
  | Some U =>
      match u_email U with
      | Some addr =>
          if u_email_valid U && has_char "@" addr then sendmsg e "mailto.address" u else mret tt
      | None => mret tt
      end
  end.

Definition ResourceAdd_post (e : req) : Web Cloud unit :=
  named_user e (λ u _,
    match resource_fields e with
    | None => emit (Render "admin/user/resource_add.html")
    | Some (t, size, effect, expired) =>
        add_resource e u t size effect expired;;
        commit;;
        resource_mail_notice e u;;
        emit (user_url u)
    end).

(** [ResourceSimpleForm] *)
Definition simple_fields (e : req) : option (list (Z * Z) * option Z * option Z) :=
  effect ← date_field e "effect_date";
  expired ← date_field e "expired_date";
  c ← int_field e "cpu" None;
  m ← int_field e "memory" None;
  g ← int_field e "storage" None;
  i ← int_field e "instance" None;
  if (1 <=? c) && (64 <=? m) && (1 <=? g) && (1 <=? i) then
    Some ([(T_CPU, c); (T_MEMORY, m); (T_STORAGE, g); (T_INSTANCE, i)], effect, expired)
  else None.

Definition add_resources (e : req) (u : Z) (l : list (Z * Z)) (effect expired : option Z) :
    Web Cloud unit :=
  for_each l (λ '(t, size), add_resource e u t size effect expired).

(** [ResourceSimpleAdd]: [initialize] answers a user without the permission before
    the request is set up, which raises. *)
Definition ResourceSimpleAdd_post (e : req) : Web Cloud unit :=
  match cur e with
  | None => raise "HTTPError(403)"
  | Some v =>
      ok ← ask (λ s, user_has s "admin" v);
      if negb ok then raise "TypeError" else
      let u := default 0 (get_argument_int e "id" (Some 0)) in
      o ← get_row (A := User) u;
      match o with
      | None => emit (Write "No such user")
      | Some _ =>
          match simple_fields e with
          | None => emit (Render "admin/user/simple_resource_add.html")
          | Some (l, effect, expired) =>
              add_resources e u l effect expired;;
              commit;;
              resource_mail_notice e u;;
              emit (user_url u)
          end
      end
  end.

(** [AllUserResourceAdd.post]: no decorator asks who sends the request. *)
Definition AllUserResourceAdd_post (e : req) : Web Cloud unit :=
  match simple_fields e with
  | None => emit (Render "admin/user/alluser_resource_add.html")
  | Some (l, effect, expired) =>
      users ← ask (all_rows User);
      for_each users (λ U,
        old ← ask (λ s, resources_of s U.1);
        match old with
        | _ :: _ => mret tt
        | [] =>
            add_resources e U.1 l effect expired;;
            commit;;
            resource_mail_notice e U.1
        end);;
      emit (Redirect "admin:user" 0)
  end.

(** [ResourceDelete.get] *)
Definition ResourceDelete_get (e : req) : Web Cloud unit :=
  need_permission e true "admin" (
    let ID := default 0 (get_argument_int e "id" (Some 0)) in
    o ← get_row (A := Resource) ID;
    match o with
    | None => raise "NameError: resource_id"
    | Some R =>
        delete_row Resource ID;;
        commit;;
        resource_mail_notice e (r_user_id R);;
        redirect_next e "admin:resource"
    end) tt.

(** [ResourceEdit.prepare]; an unknown resource ends the request. *)
Definition ResourceEdit_prepare (e : req) (get : bool) (k : Z → Resource → Web Cloud unit) :
    Web Cloud unit :=
  need_permission e get "admin" (
    let ID := default 0 (get_argument_int e "id" (Some 0)) in
    o ← get_row (A := Resource) ID;
    match o with
    | None => emit (Write "No such resource")
    | Some R => k ID R
    end) tt.

Definition set_grant (t size : Z) (effect expired : option Z) (R : Resource) : Resource :=
  R <| r_type := t |> <| r_size := size |> <| r_effect_date := effect |>
    <| r_expired_date := expired |>.

(** [ResourceEdit.post]: the dates are stored as the form has them, NULL for an absent one. *)
Definition ResourceEdit_admin (e : req) : Web Cloud unit :=
  ResourceEdit_prepare e false (λ ID R,
    match resource_fields e with
    | None => emit (Render "admin/resource/edit.html")
    | Some (t, size, effect, expired) =>
        modify ID (set_grant t size effect expired);;
        commit;;
        resource_mail_notice e (r_user_id R);;
        redirect_next e "admin:resource"
    end).

(** ** Groups *)

(** [GroupMerge.post] *)
Definition GroupMerge_post (e : req) : Web Cloud unit :=
  need_permission e false "admin" (
    match get_argument_int e "id" None with
    | None => emit (Write "Give me group id please.")
    | Some g =>
        if g =? 0 then emit (Write "Give me group id please.") else
        o ← get_row (A := Group) g;
        match o with
        | None => emit (Write "Can not find group")
        | Some _ =>
            groups ← ask (all_rows Group);
            let v := select_field e "group" in
            if bool_decide (v ∈ id_choices groups) then
              let new := get_int v in
              users ← ask (all_rows User);
              for_each users (λ U, modify U.1 (λ V : User,
                V <| u_groups := (λ x, if x =? g then new else x) <$> u_groups V |>));;
              commit;;
              emit (Redirect "admin:group" 0)
            else emit (Render "admin/account/group_merge.html")
        end
    end) tt.

(** [GroupManagement.prepare]: the group of the argument [id], if there is one. *)
Definition managed_group (e : req) (get : bool) (k : option Z → Web Cloud unit) :
    Web Cloud unit :=
  need_permission e get "admin" (
    let ID := get_argument e "id" "" in
    if String.eqb ID "" then k None else
    o ← get_text (A := Group) ID;
    match o with
    | None => emit (Write "No such group")
    | Some (g, _) => k (Some g)
    end) tt.

Definition group_name_ok (e : req) : bool := length_ok 2 25 (text_field e "name").

(** [post_add]; a value of [perms] meets a field without choices. *)
Definition GroupManagement_add (e : req) (perms : list string) : Web Cloud unit :=
  managed_group e false (λ _,
    match perms with
    | _ :: _ => raise "TypeError"
    | [] =>
        if negb (group_name_ok e) then emit (Render "admin/group/add.html") else
        old ← ask (λ s, group_by_name s (text_field e "name"));
        match old with
        | Some _ => emit (Render "admin/group/add.html")
        | None =>
            _ ← add_row (mkGroup (text_field e "name") (text_field e "description") false []);
            commit;;
            emit (Redirect "admin:group" 0)
        end
    end).

Definition permission_by_codename (s : Cloud) (c : string) : option (Z * Permission) :=
  head (select (λ _ P, String.eqb (p_codename P) c) s).

(** [post_edit] *)
Definition GroupManagement_edit (e : req) (perms : list string) : Web Cloud unit :=
  managed_group e false (λ o,
    choices ← ask (λ s, (λ P, p_codename (snd P)) <$> all_rows Permission s);
    if group_name_ok e && forallb (λ c, bool_decide (c ∈ choices)) perms then
      match o with
      | None => raise "AttributeError: NoneType"
      | Some g =>
          l ← ask (λ s, omap (λ c, fst <$> permission_by_codename s c) perms);
          modify g (λ G : Group, G <| g_name := text_field e "name" |>
            <| g_description := text_field e "description" |> <| g_permissions := l |>);;
          commit;;
          emit (Redirect "admin:group" 0)
      end
    else emit (Render "admin/group/edit.html")).

Definition members (s : Cloud) (g : Z) : list (Z * User) :=
  select (λ _ U, bool_decide (g ∈ u_groups U)) s.

(** [get_delete] *)
Definition GroupManagement_delete (e : req) : Web Cloud unit :=
  managed_group e true (λ o,
    match o with
    | None => raise "AttributeError: NoneType"
    | Some g =>
        G ← fetch g;
        l ← ask (λ s, members s g);
        if negb (bool_decide (l = [])) || g_islocked G
        then emit (Render "admin/group/delete_failed.html")
        else delete_row Group g;; commit;; emit (Redirect "admin:group" 0)
    end).

(** ** The requests *)

Inductive admin_request :=
  | AUserAdd (salt : string) | AResetPass (salt : string) | AGroupEdit (groups : list string)
  | AResourceAdd | AResourceSimpleAdd | AAllUserResourceAdd | AResourceDelete | AResourceEdit
  | AUserDelete (attached : bool)
  | AGroupMerge | AGroupAdd (perms : list string) | AGroupChange (perms : list string)
  | AGroupDelete.

Definition admin_handler (p : admin_request) (e : req) : Web Cloud unit :=
  match p with
  | AUserAdd salt => UserAdd_post e salt
  | AResetPass salt => ResetPass_admin e salt
  | AGroupEdit groups => GroupEdit_user e groups
  | AResourceAdd => ResourceAdd_post e
  | AResourceSimpleAdd => ResourceSimpleAdd_post e
  | AAllUserResourceAdd => AllUserResourceAdd_post e
  | AResourceDelete => ResourceDelete_get e
  | AResourceEdit => ResourceEdit_admin e
  | AUserDelete attached => UserDelete_get e attached
  | AGroupMerge => GroupMerge_post e
  | AGroupAdd perms => GroupManagement_add e perms
  | AGroupChange perms => GroupManagement_edit e perms
  | AGroupDelete => GroupManagement_delete e
  end.

(** ** Properties *)

Lemma members_spec (s : Cloud) g u U :
  row s u = Some U → g ∈ u_groups U → members s g ≠ [].
Proof.
  intros HU Hg E. assert ((u, U) ∈ members s g) as H.
  { apply elem_of_select. split; [done|by apply bool_decide_eq_true]. }
  rewrite E in H. by apply elem_of_nil in H.
Qed.

Lemma existsb_ext_in {A} (f g : A → bool) l :
  (∀ x, x ∈ l → f x = g x) → existsb f l = existsb g l.
Proof.
  induction l as [|x l IH]; intros H; [done|]. simpl.
  rewrite (H x) by by left. rewrite IH; [done|]. intros y Hy. apply H. by right.
Qed.

Lemma group_has_ext s s' perm g :
  row (A := Group) s' g = row s g → c_permissions s' = c_permissions s →
  group_has s' perm g = group_has s perm g.
Proof.
  intros Hg Hp. unfold group_has. rewrite Hg. destruct (row s g) as [G|]; [|done].
  apply existsb_ext_in. intros p _. unfold row. simpl. by rewrite Hp.
Qed.

(** Deleting a group, whoever asks for it, takes no permission from anyone and
    gives none: only groups without members and without the lock are deleted. *)
Theorem group_delete_safe e s perm v :
  let s' := (request (GroupManagement_delete e) s).1 in
  user_has s' perm v = user_has s perm v ∧
  ∀ g G, row s g = Some G → g_islocked G = true → row s' g = Some G.
Proof.
  unfold GroupManagement_delete, managed_group, need_permission. rewrite request_fst.
  destruct (cur e) as [u|]; [|by web_run]. web_run. change (work (start s)) with s.
  destruct (user_has s "admin" u); [|by web_run].
  destruct (String.eqb _ ""); [by web_run|]. unfold get_text.
  destruct (py_int _) as [g|]; [|by web_run]. web_run. change (work (start s)) with s.
  destruct (row s g) as [G|] eqn:HG; cbn [mbind option_bind]; [|by web_run]. web_run.
  change (work (start s)) with s. rewrite HG. web_run. change (work (start s)) with s.
  destruct (bool_decide (members s g = [])) eqn:Em; cbn [negb orb]; [|by web_run].
  apply bool_decide_eq_true in Em. destruct (g_islocked G) eqn:El; [by web_run|].
  web_run. cbn [snd comm]. change (work (start s)) with s. split.
  - unfold user_has. rewrite row_other. destruct (row s v) as [U|] eqn:HU; [|done].
    apply existsb_ext_in. intros x Hx. apply group_has_ext; [|done].
    rewrite row_delete, decide_False; [done|]. intros ->. by eapply members_spec.
  - intros k K HK Hk. rewrite row_delete, decide_False; [done|]. intros ->. congruence.
Qed.

(** Replacing a group in a list of groups. *)
Definition merged (g new : Z) (l : list Z) : list Z := (λ x, if x =? g then new else x) <$> l.

Lemma select_all_rows {A} `{HasTable Cloud A} (s : Cloud) k (x : A) :
  row s k = Some x → (k, x) ∈ all_rows A s.
Proof. intros Hx. by apply elem_of_select. Qed.

(** Merging a group into another one moves every member, also twice those who
    are in both; nothing else of the users changes, the groups and what they permit
    stay, and afterwards the merged group has no members. *)
Theorem group_merge e s u g new (G : Group) :
  cur e = Some u → user_has s "admin" u = true →
  get_argument_int e "id" None = Some g → g ≠ 0 → row s g = Some G →
  select_field e "group" = str_of_Z new → is_Some (row (A := Group) s new) → new ≠ g →
  ∃ t, request (GroupMerge_post e) s = (set_tbl (A := User) t s, [Redirect "admin:group" 0]) ∧
    (∀ v, rows t !! v = (λ U, U <| u_groups := merged g new (u_groups U) |>) <$> row s v) ∧
    members (set_tbl t s) g = [].
Proof.
  intros Hu Ha Hid Hg HG Hsel [N HN] Hne. unfold request, GroupMerge_post, need_permission.
  rewrite Hu, run_ask. change (work (start s)) with s. rewrite Ha, Hid.
  rewrite (proj2 (Z.eqb_neq g 0) Hg), run_get. change (work (start s)) with s. rewrite HG, run_ask.
  change (work (start s)) with s. rewrite Hsel, bool_decide_true; cycle 1.
  { unfold id_choices. apply list_elem_of_fmap. exists (new, N). split; [done|].
    by apply select_all_rows. }
  rewrite run_ask. unfold get_int. rewrite py_int_str_of_Z. cbn [default].
  destruct (for_modify_select (λ V : User, V <| u_groups := merged g new (u_groups V) |>)
    (λ _ _, true) (start s)) as (t & E & _ & Ht).
  unfold all_rows, merged in *. rewrite (run_bind _ _ _ _ _ E). web_run.
  exists t. split_and!; [done|done|].
  destruct (members (set_tbl t s) g) as [|[v U] l] eqn:Em; [done|].
  assert ((v, U) ∈ members (set_tbl t s) g) as Hin by (rewrite Em; by left).
  apply elem_of_select in Hin as [HU Hin%bool_decide_eq_true].
  unfold row in HU. rewrite tbl_set, Ht in HU.
  apply fmap_Some in HU as (U0 & _ & ->). exfalso. revert Hin.
  change (u_groups (U0 <| u_groups := ?x |>)) with x.
  intros (x & Ex & _)%list_elem_of_fmap. destruct (Z.eqb_spec x g); congruence.
Qed.

(** ** Resources for everyone *)

Definition grants (u : Z) (l : list (Z * Z)) (effect expired : Z) : list Resource :=
  (λ '(t, size), mkResource u t size (Some effect) (Some expired)) <$> l.

Definition add_all (rs : list Resource) (s : Cloud) : Cloud :=
  foldl (λ s R, set_tbl (tinsert R (tbl s)).2 s) s rs.

Lemma add_all_resources rs : ∀ s : Cloud, ∃ t, add_all rs s = set_tbl (A := Resource) t s.
Proof.
  induction rs as [|R rs IH]; intros s; cbn [add_all foldl].
  - exists (tbl s). symmetry. apply set_same.
  - fold (add_all rs (set_tbl (tinsert R (tbl s)).2 s)).
    destruct (IH (set_tbl (tinsert R (tbl s)).2 s)) as [t ->]. exists t. apply (set_twice (A := Resource)).
Qed.

Lemma add_all_users rs (s : Cloud) : row (A := User) (add_all rs s) = row s.
Proof. destruct (add_all_resources rs s) as [t ->]. reflexivity. Qed.

(** The resources of [v] after new ones were added. *)
Lemma add_all_of rs v : ∀ s : Cloud, seq_ok (c_resources s) →
  seq_ok (c_resources (add_all rs s)) ∧
  (snd <$> resources_of (add_all rs s) v) =
    (snd <$> resources_of s v) ++ filter (λ R, r_user_id R = v) rs.
Proof.
  induction rs as [|R rs IH]; intros s Hs; [by rewrite app_nil_r|].
  cbn [add_all foldl]. fold (add_all rs (set_tbl (tinsert R (tbl s)).2 s)).
  destruct (IH (set_tbl (tinsert R (tbl s)).2 s)) as [H1 H2]; [by apply (tinsert_seq_ok R (tbl s))|].
  split; [done|]. rewrite H2. unfold resources_of. rewrite select_insert by done.
  rewrite fmap_app, <- app_assoc. f_equal. rewrite filter_cons. 
  destruct (Z.eqb_spec (r_user_id R) v); [by rewrite decide_True|by rewrite decide_False].
Qed.

Lemma add_resources_run e u l effect expired (w : world Cloud) :
  add_resources e u l effect (Some expired) w =
    (Val tt, mkWorld (add_all (grants u l (default (now e) effect) expired) (work w)) (comm w) (outs w)).
Proof.
  revert w. induction l as [|[t size] l IH]; intros w; [by destruct w|].
  change (add_resources e u ((t, size) :: l) effect (Some expired)) with
    (add_resource e u t size effect (Some expired);; add_resources e u l effect (Some expired)).
  unfold add_resource. web_run. by rewrite IH.
Qed.

Lemma mail_notice_run e u (w : world Cloud) :
  ∃ o, resource_mail_notice e u w = (Val tt, mkWorld (work w) (comm w) o).
Proof.
  unfold resource_mail_notice, sendmsg. web_run.
  destruct (row (work w) u) as [U|]; [|exists (outs w); by destruct w].
  destruct (u_email U); [|exists (outs w); by destruct w].
  destruct (_ && _); [|exists (outs w); by destruct w].
  destruct (clc_up e); [eexists; by web_run|exists (outs w); by destruct w].
Qed.

(** What the loop over the users leaves of the resources of each. *)
Definition grant_all (e : req) (l : list (Z * Z)) (effect expired : option Z)
    (users : list (Z * User)) : Web Cloud unit :=
  for_each users (λ U,
    old ← ask (λ s, resources_of s U.1);
    match old with
    | _ :: _ => mret tt
    | [] => add_resources e U.1 l effect expired;; commit;; resource_mail_notice e U.1
    end).

Lemma filter_grants u v l effect expired :
  filter (λ R, r_user_id R = v) (grants u l effect expired) =
  if decide (v = u) then grants u l effect expired else [].
Proof.
  unfold grants. induction l as [|[a b] l IH]; [by case_decide|].
  cbn [fmap list_fmap]. rewrite filter_cons, IH. cbn [r_user_id]. repeat case_decide; congruence.
Qed.

Lemma grant_all_run e l effect expired users : ∀ (w : world Cloud),
  comm w = work w → seq_ok (c_resources (work w)) → NoDup users.*1 → l ≠ [] →
  ∃ (t : table Resource) o, grant_all e l effect (Some expired) users w =
      (Val tt, mkWorld (set_tbl t (work w)) (set_tbl t (work w)) o) ∧
    ∀ v, (snd <$> resources_of (set_tbl t (work w)) v) =
      if decide (v ∈ users.*1 ∧ resources_of (work w) v = [])
      then grants v l (default (now e) effect) expired
      else snd <$> resources_of (work w) v.
Proof.
  induction users as [|[u U] users IH]; intros w Hc Hs Hd Hl.
  { exists (tbl (work w)), (outs w). split.
    - unfold grant_all. cbn [for_each foldr]. rewrite ret_val, (set_same (A := Resource) (work w)). destruct w; simpl in *; by subst.
    - intros v. rewrite (set_same (A := Resource) (work w)), decide_False; [done|]. intros [Hv _]. by apply elem_of_nil in Hv. }
  cbn [fmap list_fmap fst] in Hd. apply NoDup_cons in Hd as [Hu Hd].
  assert (∀ v, v ∈ ((u, U) :: users).*1 ↔ v = u ∨ v ∈ users.*1) as Hin
    by (intros v; cbn [fmap list_fmap fst]; apply elem_of_cons).
  unfold grant_all. cbn [for_each foldr fst]. fold (grant_all e l effect (Some expired) users).
  web_run. destruct (resources_of (work w) u) as [|r rs] eqn:Er.
  - web_run. rewrite (run_bind _ _ _ _ _ (add_resources_run e u l effect expired w)). web_run.
    set (s1 := add_all (grants u l (default (now e) effect) expired) (work w)).
    destruct (mail_notice_run e u (mkWorld s1 s1 (outs w))) as [o1 E1].
    rewrite (run_bind _ _ _ _ _ E1). cbn [work comm].
    destruct (IH (mkWorld s1 s1 o1)) as (t & o & E & Ht); [done| |done|done|].
    { cbn [work]. by apply (add_all_of _ u). }
    cbn [work] in *. exists t, o. destruct (add_all_resources
      (grants u l (default (now e) effect) expired) (work w)) as [t1 E2]. fold s1 in E2.
    assert (∀ t, set_tbl t s1 = set_tbl (A := Resource) t (work w)) as E3
      by (intros t'; rewrite E2; apply set_twice).
    rewrite E3 in E, Ht. split; [exact E|]. intros v. rewrite Ht.
    destruct (add_all_of (grants u l (default (now e) effect) expired) v (work w) Hs) as [_ Hv].
    fold s1 in Hv.
    rewrite filter_grants in Hv. destruct (decide (v = u)) as [->|Hvu].
    + rewrite Er in Hv. cbn [fmap list_fmap app] in Hv.
      rewrite decide_False by (intros [? _]; done). rewrite decide_True; [done|].
      split; [apply Hin; by left|done].
    + rewrite app_nil_r in Hv. rewrite Hv. 
      assert (resources_of s1 v = [] ↔ resources_of (work w) v = []) as Hnil.
      { by destruct (resources_of s1 v), (resources_of (work w) v). }
      rewrite (decide_ext (v ∈ users.*1 ∧ resources_of s1 v = [])
        (v ∈ ((u, U) :: users).*1 ∧ resources_of (work w) v = [])); [done|].
      rewrite Hin, Hnil. tauto.
  - web_run. destruct (IH w) as (t & o & E & Ht); [done..|]. exists t, o. split; [exact E|].
    intros v. rewrite Ht. rewrite (decide_ext (v ∈ users.*1 ∧ resources_of (work w) v = [])
        (v ∈ ((u, U) :: users).*1 ∧ resources_of (work w) v = [])); [done|].
    rewrite Hin. split; [tauto|]. intros [[->|?] ?]; [congruence|done].
Qed.

(** The request that gives resources to everyone asks nobody for a permission:
    whoever sends it, logged in or not, every user without a resource gets exactly
    the four of the form, and the others keep what they have. *)
Theorem AllUserResourceAdd_grants e s l effect expired :
  simple_fields e = Some (l, effect, Some expired) → seq_ok (c_resources s) →
  let s' := (request (AllUserResourceAdd_post e) s).1 in
  ∀ v, (snd <$> resources_of s' v) =
    if decide (is_Some (row (A := User) s v) ∧ resources_of s v = [])
    then grants v l (default (now e) effect) expired
    else snd <$> resources_of s v.
Proof.
  intros Hf Hs s' v. unfold s', AllUserResourceAdd_post. rewrite request_fst, Hf, run_ask.
  change (work (start s)) with s. fold (grant_all e l effect (Some expired) (all_rows User s)).
  destruct (grant_all_run e l effect expired (all_rows User s) (start s))
    as (t & o & E & Ht); [done|done|apply select_NoDup| |].
  { revert Hf. unfold simple_fields.
    repeat (match goal with |- context [?o ≫= _] => destruct o; [|done] end; cbn [mbind option_bind]).
    destruct (_ && _); [|done]. by intros [= <- _ _]. }
  rewrite (run_bind _ _ _ _ _ E). web_run. cbn [snd comm]. change (work (start s)) with s in *.
  rewrite Ht. rewrite (decide_ext (v ∈ (all_rows User s).*1 ∧ resources_of s v = [])
    (is_Some (row (A := User) s v) ∧ resources_of s v = [])); [done|].
  f_equiv. unfold all_rows. split.
  - intros ([k U] & -> & [HU _]%elem_of_select)%list_elem_of_fmap. by exists U.
  - intros [U HU]. apply list_elem_of_fmap. exists (v, U). split; [done|]. by apply elem_of_select.
Qed.
(** ** Editing a resource *)

(** An edit of a resource that is there replaces the four columns of the form in its row
    and leaves the owner and everything else; without the permission, or with a form that
    does not validate, nothing changes. *)
Theorem ResourceEdit_spec e s :
  let s' := (request (ResourceEdit_admin e) s).1 in
  s' = s ∨ ∃ u id R t size effect expired,
    cur e = Some u ∧ user_has s "admin" u = true ∧ row s id = Some R ∧
    resource_fields e = Some (t, size, effect, expired) ∧
    s' = set_tbl (tput id (set_grant t size effect expired R) (tbl s)) s.
Proof.
  intros s'. unfold s', ResourceEdit_admin, ResourceEdit_prepare, need_permission.
  rewrite request_fst. destruct (cur e) as [u|] eqn:Hu; [|by left]. web_run.
  change (work (start s)) with s. destruct (user_has s "admin" u) eqn:Hp; [|by left].
  web_run. change (work (start s)) with s. set (id := default 0 _).
  destruct (row s id) as [R|] eqn:HR; [|by left].
  destruct (resource_fields e) as [[[[t size] effect] expired]|] eqn:Hf; [|by left].
  right. exists u, id, R, t, size, effect, expired. split_and!; [done..|].
  web_run. change (work (start s)) with s. rewrite HR. web_run.
  destruct (mail_notice_run e (r_user_id R) (mkWorld
    (set_tbl (tput id (set_grant t size effect expired R) (tbl s)) s)
    (set_tbl (tput id (set_grant t size effect expired R) (tbl s)) s) (outs (start s)))) as [o E].
  rewrite (run_bind _ _ _ _ _ E). unfold redirect_next. by repeat case_match.
Qed.

(** The end of an edit without a first date: [None < now] raises in every loop over the
    resources of the owner, so no instance of the owner can be started any more. *)
Theorem undated_resource_blocks_run (e : lenv) u i s I rid R :
  row s i = Some I → row s rid = Some R → r_user_id R = i_user_id I →
  r_effect_date R = None →
  (∃ pid p, profile_of s (i_user_id I) = Some (pid, p)) →
  ∃ w, run e u i (start s) =
    (Raise "TypeError: can't compare datetime.datetime to NoneType", w) ∧ comm w = s.
Proof.
  intros HI HR Hu Hd (pid & p & Hp). unfold run, profile_of_user. web_run.
  change (work (start s)) with s. rewrite HI. web_run. destruct (waits _ _). web_run.
  change (work (start s)) with s. rewrite Hp. web_run. change (work (start s)) with s.
  assert (comparable (now (rq e)) (λ _, true) (pf_user_id p) s = false) as ->; [|by eexists].
  apply not_true_iff_false. unfold comparable. rewrite forallb_forall.
  intros H. specialize (H (rid, R)).
  rewrite (profile_of_owner s _ _ _ Hp) in H. unfold dated in H. cbn [snd fst] in H.
  rewrite Hd in H. discriminate H. apply list_elem_of_In, elem_of_select.
  split; [done|by apply Z.eqb_eq].
Qed.
End admin.

(** ** Witnesses *)

Definition grant_cloud : Cloud :=
  life_cloud <| c_resources := table_of [mkResource 1 T_CPU 4 (Some 50) (Some 500)] |>.
Definition undate_req : req :=
  rq (life_env 2 [("id", "1"); ("type", "1"); ("size", "4")]%string).

(** An administrator sends the form without dates, and the owner of instance 1 cannot
    start it. *)
Example ResourceEdit_undates :
  let s' := (request (ResourceEdit_admin (DatesI := λ _, None) undate_req) grant_cloud).1 in
  row s' 1 = Some (mkResource 1 T_CPU 4 None None) ∧
  (run (life_env 1 []) 1 1 (start grant_cloud)).1 = Val (0, "Task starts successfully.")%string ∧
  (run (life_env 1 []) 1 1 (start s')).1 =
    Raise "TypeError: can't compare datetime.datetime to NoneType".
Proof. by vm_compute. Qed.

Lemma undated_resource_blocks_run_witness :
  let s := life_cloud <| c_resources := table_of [mkResource 1 T_CPU 4 None None] |> in
  ∃ w, run (life_env 1 []) 1 1 (start s) =
    (Raise "TypeError: can't compare datetime.datetime to NoneType", w) ∧ comm w = s.
Proof.
  apply (undated_resource_blocks_run (life_env 1 []) 1 1 _ life_instance 1
    (mkResource 1 T_CPU 4 None None)); [vm_compute; reflexivity..|].
  eexists _, _. vm_compute. reflexivity.
Defined.

Definition group_cloud : Cloud :=
  life_cloud <| c_groups := table_of [mkGroup "admin" "" true [1]; mkGroup "staff" "" false []] |>
    <| c_users ::= λ t, tput 1 (mkUser "ann" None false false 0 0 [2] "" None None None None None) t |>.

Lemma group_merge_witness :
  ∃ t, request (GroupMerge_post (rq (life_env 2 [("id", "2"); ("group", "1")]%string))) group_cloud =
      (set_tbl (A := User) t group_cloud, [Redirect "admin:group" 0]) ∧
    (∀ v, rows t !! v = (λ U, U <| u_groups := merged 2 1 (u_groups U) |>) <$> row group_cloud v) ∧
    members (set_tbl t group_cloud) 2 = [].
Proof.
  apply (group_merge (rq (life_env 2 [("id", "2"); ("group", "1")]%string)) group_cloud 2 2 1
    (mkGroup "staff" "" false [])); try (vm_compute; reflexivity); try done.
Defined.

Definition all_req : req := mkReq 100 None (list_to_map
  [("cpu", "1"); ("memory", "64"); ("storage", "1"); ("instance", "1");
   ("expired_date", "2014-01-01 00:00:00")]%string) true true.

Lemma AllUserResourceAdd_grants_witness :
  let s' := (request (AllUserResourceAdd_post (DatesI := λ _, Some 900) all_req) life_cloud).1 in
  (snd <$> resources_of s' 1) = grants 1 [(1, 1); (2, 64); (3, 1); (4, 1)] 100 900.
Proof.
  assert (is_Some (row (A := User) life_cloud 1) ∧ resources_of life_cloud 1 = []) as H
    by (split; [by eexists|vm_compute; reflexivity]).
  rewrite <- (decide_True (P := is_Some (row (A := User) life_cloud 1) ∧ resources_of life_cloud 1 = [])
    (grants 1 [(1, 1); (2, 64); (3, 1); (4, 1)] 100 900) (snd <$> resources_of life_cloud 1) H).
  apply (AllUserResourceAdd_grants (DatesI := λ _, Some 900) all_req life_cloud _ None 900).
  - vm_compute. reflexivity.
  - intros i _. apply lookup_empty.
Defined.
