(* ===== verification/AdminPages.v ===== *)
(** The pages of the administration that only show: the start page, single rows, lists
    without pages, and the forms that the handlers of [UserAdmin], [AppStore], [SiteContent]
    and others take. A page gives the rows its template gets; forms are shown with what they
    are filled with. The files are the admin_views.py of the parts, system/views.py and
    node/views.py. [locale] is the code of the language of a request. *)
From Stdlib Require Import Ascii String.
From S2P Require Import Prelude PyText Table Session Cloud Quota Web Forms LifeControl Account.
From S2P Require Import Lists AppStore SiteContent OpsAdmin UserAdmin.
#[local] Open Scope Z_scope.

(** ** Showing *)

Definition page {A} (template : string) (a : A) : Web Cloud A := emit (Render template);; mret a.

Definition some_page {A} (template : string) (a : A) : Web Cloud (option A) := page template (Some a).

Definition answer {A} (msg : string) : Web Cloud (option A) := emit (Write msg);; mret None.

(** The row of the argument [id], which is a number. *)
Definition by_id {A} `{HasTable Cloud A} {B} (e : req) (give miss : string)
    (k : Z → A → Web Cloud (option B)) : Web Cloud (option B) :=
  let ID := default 0 (get_argument_int e "id" None) in
  if ID =? 0 then answer give else
  o ← get_row ID;
  match o with
  | None => answer miss
  | Some x => k ID x
  end.

(** The row of the path. *)
Definition by_path {A} `{HasTable Cloud A} {B} (ID : Z) (miss : string)
    (k : A → Web Cloud (option B)) : Web Cloud (option B) :=
  o ← get_row ID;
  match o with
  | None => answer miss
  | Some x => k x
  end.

(** [@has_permission('admin')] *)
Definition admin_page {A} (e : req) (m : Web Cloud (option A)) : Web Cloud (option A) :=
  need_permission e true "admin" m None.

(** ** The start page (admin/views.py) *)

Record dashboard := mkDashboard {
  TOTAL_INSTANCE : Z; TOTAL_APPLIANCE : Z; TOTAL_USER : Z; TOTAL_JOB : Z; TOTAL_NODE : Z;
  NEW_USER_LIST : list (Z * User); NEW_JOB_LIST : list (Z * Job); SYSTEM_DATA : system_data }.

Definition count_rows (A : Type) `{HasTable Cloud A} (s : Cloud) : Z :=
  Z.of_nat (length (all_rows A s)).

(** [order_by(desc(id)).limit(n)] *)
Definition newest (A : Type) `{HasTable Cloud A} (n : nat) (s : Cloud) : list (Z * A) :=
  take n (rev (all_rows A s)).

Definition Index_admin (e : req) : Web Cloud (option dashboard) :=
  admin_page e (
    d ← ask (λ s, mkDashboard (count_rows Instance s) (count_rows Appliance s) (count_rows User s)
                    (count_rows Job s) (count_rows Node s) (newest User 10 s) (newest Job 10 s)
                    (_get_data s));
    some_page "admin/index.html" d).

Definition AccountIndex_get (e : req) : Web Cloud (option unit) :=
  admin_page e (some_page "admin/account.html" tt).

(** ** Appliances (admin/appliance_views.py) *)

Definition ApplianceView_get (e : req) : Web Cloud (option (Z * Appliance)) :=
  admin_page e (by_id e "Give me appliance id please." "Can not find appliance"
    (λ ID A, some_page "admin/appliance/view.html" (ID, A))).

Definition ApplianceChangeUser_get (e : req) : Web Cloud (option (Z * Appliance)) :=
  admin_page e (by_id e "Give me appliance id please." "Can not find appliance"
    (λ ID A, some_page "admin/appliance/change_owner.html" (ID, A))).

(** The appliance and the choices of its catalog. *)
Definition ApplianceEdit_get (e : req) : Web Cloud (option (Z * Appliance * list string)) :=
  admin_page e (by_id e "Give me appliance id please." "Can not find appliance"
    (λ ID A, choices ← ask (λ s, id_choices (all_rows ApplianceCatalog s));
             some_page "admin/appliance/edit.html" (ID, A, choices))).

Definition CatalogIndex_appliance (e : req) : Web Cloud (option (list (Z * ApplianceCatalog))) :=
  admin_page e (l ← ask (all_rows ApplianceCatalog); some_page "admin/appliance/catalog/index.html" l).

Definition CatalogView_appliance (e : req) : Web Cloud (option (Z * ApplianceCatalog)) :=
  admin_page e (by_id e "Give me catalog id please." "Can not find catalog"
    (λ ID C, some_page "admin/appliance/catalog/view.html" (ID, C))).

Definition CatalogAdd_get_appliance (e : req) : Web Cloud (option unit) :=
  admin_page e (some_page "admin/appliance/catalog/add.html" tt).

Definition CatalogEdit_get_appliance (e : req) : Web Cloud (option (Z * ApplianceCatalog)) :=
  admin_page e (by_id e "Give me catalog id please." "Can not find catalog"
    (λ ID C, some_page "admin/appliance/catalog/edit.html" (ID, C))).

(** ** Groups, permissions, users, resources *)

(** The permissions that can be chosen, and whether the group has them. *)
Definition perm_choices (s : Cloud) (G : Group) : list (string * bool) :=
  (λ p, (p_codename (snd p), bool_decide (fst p ∈ g_permissions G))) <$> all_rows Permission s.

Inductive group_page := GroupList (l : list (Z * Group)) | GroupShown (G : Group)
  | GroupForm (choices : list (string * bool)).

(** [GroupManagement.get] for the actions that show. Without an id the action [edit] meets no
    group. *)
Definition GroupManagement_show (e : req) : Web Cloud (option group_page) :=
  admin_page e (
    let action := get_argument e "action" "index" in
    let ID := get_argument e "id" "" in
    g ← (if String.eqb ID "" then mret (Some None)
         else o ← get_text (A := Group) ID;
              match o with
              | None => emit (Write "No such group");; mret None
              | Some x => mret (Some (Some x))
              end);
    match g with
    | None => mret None
    | Some g =>
        if String.eqb action "index" then
          match g with
          | Some (_, G) => some_page "admin/group/view.html" (GroupShown G)
          | None => l ← ask (all_rows Group); some_page "admin/group/index.html" (GroupList l)
          end
        else if String.eqb action "add" then some_page "admin/group/add.html" (GroupForm [])
        else if String.eqb action "edit" then
          match g with
          | Some (_, G) => c ← ask (λ s, perm_choices s G); some_page "admin/group/edit.html" (GroupForm c)
          | None => raise "AttributeError: NoneType"
          end
        else answer "Wrong action value!"
    end).

(** The action [delete] is the one that writes. *)
Definition group_deleted (e : req) : bool := String.eqb (get_argument e "action" "index") "delete".

Definition GroupManagement_get (e : req) : Web Cloud (option group_page) :=
  if group_deleted e then GroupManagement_delete e;; mret None else GroupManagement_show e.

(** The permission of the argument is only looked for. *)
Definition PermissionManagement_get (e : req) : Web Cloud (option (list (Z * Permission))) :=
  admin_page e (
    let ID := get_argument e "id" "" in
    found ← (if String.eqb ID "" then mret true
             else o ← get_text (A := Permission) ID; mret (bool_decide (is_Some o)));
    if negb found then answer "No such permission" else
    l ← ask (all_rows Permission); some_page "admin/permission/index.html" l).

(** A user with the sums of the profile; a user without a profile is an error. *)
Definition View_user_admin (e : req) : Web Cloud (option (User * amounts * amounts)) :=
  admin_page e (
    let ID := default 0 (get_argument_int e "id" (Some 0)) in
    o ← get_row ID;
    match o with
    | None => answer "No such user"
    | Some U =>
        p ← profile_of_user ID;
        total ← quota (now e) (λ _, true) (pf_user_id p) (λ s, get_resource_total (now e) s p);
        used ← ask (λ s, get_resource_used s ID);
        some_page "admin/user/view.html" (U, total, used)
    end).

Definition ResourceView_get (e : req) : Web Cloud (option (Z * Resource)) :=
  admin_page e (
    let ID := default 0 (get_argument_int e "id" (Some 0)) in
    by_path ID "No such resource" (λ R, some_page "admin/resource/view.html" (ID, R))).

Definition ResourceEdit_get (e : req) : Web Cloud (option (Z * Resource)) :=
  admin_page e (
    let ID := default 0 (get_argument_int e "id" (Some 0)) in
    by_path ID "No such resource" (λ R, some_page "admin/resource/edit.html" (ID, R))).

(** ** Instances, jobs, nodes *)

(** admin/instance_views.py, [View]; the id may be any text the database takes. *)
Definition View_instance_admin (e : req) : Web Cloud (option (Z * Instance)) :=
  admin_page e (
    let ID := get_argument e "id" "" in
    if String.eqb ID "" then answer "Give me instance id please." else
    o ← get_text (A := Instance) ID;
    match o with
    | None => answer "Can not find instance"
    | Some x => some_page (if String.eqb (get_argument e "ajax" "") "" then "admin/instance/view.html"
                           else "admin/instance/view.ajax.html") x
    end).

Inductive node_page :=
  | NodeList (l : list (Z * Node * Z * Z))  (* with the instances on it, and those that run *)
  | NodeShown (N : Node).

Definition on_node (n : Z) (s : Cloud) : list (Z * Instance) :=
  select (λ _ x, bool_decide (i_node_id x = Some n)) s.

(** [NodeManagement.get]: a given id makes [prepare] replace the action, so [get_instances]
    has no node to show; neither has the template of [view], whose failure is a page too. *)
Definition NodeManagement_get (e : req) : Web Cloud (option node_page) :=
  admin_page e (
    let action := get_argument e "action" "index" in
    let ID := get_argument e "id" "" in
    if negb (String.eqb ID "") then
      o ← get_text (A := Node) ID;
      match o with
      | None => answer "No such node"
      | Some (_, N) => some_page "admin/node/view.html" (NodeShown N)
      end
    else if String.eqb action "index" then
      l ← ask (λ s, (λ p, (fst p, snd p, Z.of_nat (length (on_node (fst p) s)),
             Z.of_nat (length (filter (λ q, i_status (snd q) ∈ INSTANCE_SLIST_RUNING) (on_node (fst p) s)))))
           <$> all_rows Node s);
      some_page "admin/node/index.html" (NodeList l)
    else if String.eqb action "view" then emit (Render "mako_failed.html");; mret None
    else if String.eqb action "instances" then raise "AttributeError: NoneType"
    else answer "Wrong action value!").

(** [JobManagement.get]: the class has no [get_view]. *)
Definition JobManagement_get {RI : Ranks} {TI : Ties} (e : req) : Web Cloud (option (list (Z * Job))) :=
  admin_page e (
    let ID := get_argument e "id" "" in
    let action := get_argument e "action" "index" in
    found ← (if String.eqb ID "" then mret true
             else o ← get_text (A := Job) ID; mret (bool_decide (is_Some o)));
    if negb found then answer "No such node" else
    if String.eqb action "index" then l ← JobManagement_index e; mret (Some l)
    else if String.eqb action "view" then raise "AttributeError: get_view"
    else answer "Wrong action value!").

(** The form has the limits of the node, or the memory (in GB) and CPUs it reports, which
    are no columns of the model. *)
Definition NodeEdit_get (e : req) (ID : Z) : Web Cloud (option (option Z * option Z)) :=
  admin_page e (by_path ID "Can not find node"
    (λ N, some_page "node/edit.html"
       ((λ m, m / (1024 * 1024)) <$> (m ← n_vmemory N; if m =? 0 then None else Some m),
        c ← n_vcpus N; if c =? 0 then None else Some c))).

(** ** Networks, domain, forum *)

Definition Index_network (e : req) :
    Web Cloud (option (list (Z * NetworkPool) * list (Z * Gateway) * Z)) :=
  admin_page e (
    d ← ask (λ s, (all_rows NetworkPool s, all_rows Gateway s, count_rows PortMapping s));
    some_page "/admin/network/index.html" d).

Definition GatewayIndex_get (e : req) : Web Cloud (option (list (Z * Gateway))) :=
  admin_page e (l ← ask (all_rows Gateway); some_page "/admin/network/gateway.html" l).

Definition Index_forum_admin (e : req) : Web Cloud (option (Z * Z * Z)) :=
  admin_page e (
    d ← ask (λ s, (count_rows ForumCatalog s, count_rows ForumTopic s, count_rows ForumTopicTag s));
    some_page "admin/forum/index.html" d).

Definition sub_catalogs (parent : option Z) (s : Cloud) : list (Z * ForumCatalog) :=
  select (λ _ C, bool_decide (fc_parent_id C = parent)) s.

Definition CatalogIndex_forum (e : req) : Web Cloud (option (list (Z * ForumCatalog))) :=
  admin_page e (l ← ask (sub_catalogs None); some_page "admin/forum/catalog/index.html" l).

Definition CatalogView_forum (e : req) :
    Web Cloud (option (ForumCatalog * list (Z * ForumCatalog))) :=
  admin_page e (by_id e "Give me catalog id please" "Can not find catalog"
    (λ ID C, l ← ask (sub_catalogs (Some ID)); some_page "admin/forum/catalog/view.html" (C, l))).

(** ** The site (site/admin_views.py) *)

Section site.
Context {TextI : SiteText} (locale : string).

(** The first language with the code. *)
Definition language_by (code : string) (s : Cloud) : option (Z * Language) :=
  head (select (λ _ L, String.eqb (l_codename L) code) s).

(** The language that is asked for, when it is one of the site and of the database. *)
Definition asked_language (e : req) (s : Cloud) : option Z :=
  let code := get_argument e "language" locale in
  if bool_decide (code ∈ LANGUAGES) then fst <$> language_by code s else None.

Definition Index_site (e : req) : Web Cloud (option unit) :=
  admin_page e (some_page "admin/site/index.html" tt).

Definition by_position (p q : Z * SiteNav) : Prop := sn_position p.2 ≤ sn_position q.2.
#[export] Instance by_position_dec p q : Decision (by_position p q).
Proof. unfold by_position. apply _. Defined.

Definition NavIndex_get (e : req) : Web Cloud (option (list (Z * SiteNav))) :=
  admin_page e (
    l ← ask (λ s, merge_sort by_position (select (λ _ N,
          match asked_language e s with
          | Some g => bool_decide (sn_language_id N = Some g)
          | None => true
          end) s));
    some_page "admin/site/nav.html" l).

Definition NavAdd_get (e : req) : Web Cloud (option (list (Z * Language))) :=
  admin_page e (l ← ask language_list; some_page "admin/site/nav_add.html" l).

Definition NavEdit_get (e : req) (ID : Z) : Web Cloud (option (SiteNav * list (Z * Language))) :=
  admin_page e (by_path ID "No such entry"
    (λ N, l ← ask language_list; some_page "admin/site/nav_edit.html" (N, l))).

Definition EntryIndex_get (e : req) : Web Cloud (option (list (Z * SiteEntry))) :=
  admin_page e (l ← ask (all_rows SiteEntry); some_page "admin/site/entry.html" l).

Definition EntryAdd_get (e : req) : Web Cloud (option unit) :=
  admin_page e (some_page "admin/site/entry_add.html" tt).

Definition EntryEdit_get (e : req) (ID : Z) : Web Cloud (option SiteEntry) :=
  admin_page e (by_path ID "No such entry" (λ E, some_page "admin/site/entry_edit.html" E)).

Definition ArticleIndex_get (e : req) : Web Cloud (option (list (Z * SiteArticle))) :=
  admin_page e (
    let EID := default 0 (get_argument_int e "entry" (Some 0)) in
    l ← ask (λ s, select (λ _ A,
          match (if EID =? 0 then None else row (A := SiteEntry) s EID) with
          | Some _ => sa_entry_id A =? EID
          | None => match asked_language e s with
                    | Some g => sa_language_id A =? g
                    | None => true
                    end
          end) s);
    some_page "admin/site/article.html" l).

Definition ArticleAdd_get (e : req) : Web Cloud (option (list (Z * Language) * list (Z * SiteEntry))) :=
  admin_page e (
    d ← ask (λ s, (language_list s, all_rows SiteEntry s)); some_page "admin/site/article_add.html" d).

Definition ArticleEdit_get (e : req) (ID : Z) : Web Cloud (option SiteArticle) :=
  admin_page e (by_path ID "No such article" (λ A, some_page "admin/site/article_edit.html" A)).

Definition ConfigIndex_get (e : req) : Web Cloud (option (list (Z * SiteConfig))) :=
  admin_page e (l ← ask (all_rows SiteConfig); some_page "admin/site/config/index.html" l).

Definition ConfigEdit_get (e : req) : Web Cloud (option (option (Z * SiteConfig))) :=
  admin_page e (
    c ← ask (λ s, head (select (λ _ x, bool_decide (Some (sc_key x) = strip <$> args e !! "key"%string)) s));
    some_page "admin/site/config/edit.html" c).

Definition LocaleConfigIndex_get (e : req) : Web Cloud (option (list (Z * SiteLocaleConfig))) :=
  admin_page e (l ← ask (all_rows SiteLocaleConfig); some_page "admin/site/localeconfig/index.html" l).

(** The language of the request must be one of the database. *)
Definition LocaleConfigEdit_get (e : req) : Web Cloud (option (option (Z * SiteLocaleConfig))) :=
  admin_page e (
    g ← ask (language_by locale);
    match g with
    | None => raise "AttributeError: NoneType"
    | Some _ =>
        let ID := get_argument e "ID" "" in
        c ← (if String.eqb ID "" then mret None else get_text (A := SiteLocaleConfig) ID);
        some_page "admin/site/localeconfig/edit.html" c
    end).

Definition SiteJobView_get (e : req) : Web Cloud (option SiteJob) :=
  admin_page e (by_id e "Give me site job id please." "Can not find site job"
    (λ _ J, if String.eqb (get_argument e "ajax" "") ""
            then some_page "admin/site/job/view.html" J
            else emit (Write "job");; mret (Some J))).

(** ** Configuration (system/views.py, registration/admin_views.py, domain/admin_views.py) *)

Definition Index_system (e : req) : Web Cloud (option unit) :=
  admin_page e (some_page "admin/system/index.html" tt).

(** [DBEdit], [CLCEdit], [BaseinfoEdit], of both methods: [OpenINI] takes one argument and is
    given two. *)
Definition INIEdit (e : req) (get : bool) : Web Cloud (option unit) :=
  need_permission e get "admin" (raise "TypeError: __init__() takes exactly 2 arguments (3 given)") None.

Definition lyconfig (s : Cloud) (key : string) : option string :=
  ly_value ∘ snd <$> head (select (λ _ x, String.eqb (ly_key x) key) s).

Definition NameserversEdit_get (e : req) : Web Cloud (option (option string)) :=
  admin_page e (v ← ask (λ s, lyconfig s "nameservers"); some_page "system/nameservers_edit.html" v).

(** [json.loads(v).get(k)] of a row that may be missing. *)
Definition loaded (o : option string) (k : string) : Web Cloud (option json) :=
  match o with
  | None => mret None
  | Some v =>
      match loads v with
      | None => raise "ValueError"
      | Some (JObj l) => mret (jget k l)
      | Some _ => raise "AttributeError: get"
      end
  end.

Definition RegistrationProtocolEdit_get (e : req) : Web Cloud (option (option json)) :=
  admin_page e (v ← ask (λ s, lyconfig s "protocol"); t ← loaded v "text";
    some_page "system/registration_protocol_edit.html" t).

Definition WelcomeNewUserEdit_get (e : req) : Web Cloud (option (option json)) :=
  admin_page e (v ← ask (λ s, lyconfig s "welcome_new_user"); t ← loaded v "text";
    some_page "system/welcome_new_user_edit.html" t).

(** home/views.py *)
Definition WelcomeNewUser_get (e : req) : Web Cloud (option (option json)) :=
  admin_page e (v ← ask (λ s, lyconfig s "welcome_new_user"); t ← loaded v "html";
    some_page "home/welcome.html" t).

Definition DomainIndex_get (e : req) : Web Cloud (option (option json)) :=
  admin_page e (
    v ← ask (λ s, site_config s "domain");
    match v with
    | None => some_page "/admin/domain/index.html" None
    | Some t => if String.eqb t "" then some_page "/admin/domain/index.html" (Some (JObj []))
                else match loads t with
                     | None => raise "ValueError"
                     | Some j => some_page "/admin/domain/index.html" (Some j)
                     end
    end).

Definition registration_keys : list string :=
  ["registration.status"; "registration.host"; "notice.smtp.fromaddr"; "notice.smtp.server";
   "notice.smtp.port"; "notice.smtp.username"; "notice.smtp.password"]%string.

(** Among the settings the page gets is the password of the mail server. *)
Definition Index_registration (e : req) : Web Cloud (option (list (option string) *
    list (Z * SiteLocaleConfig) * list (Z * SiteLocaleConfig))) :=
  admin_page e (
    d ← ask (λ s, (site_config s <$> registration_keys,
                   select (λ _ x, String.eqb (lc_key x) "registration.email.subject") s,
                   select (λ _ x, String.eqb (lc_key x) "registration.email.welcome") s));
    some_page "admin/registration/index.html" d).

(** Nothing is filled in from an empty object. *)
Definition QQAuth2Edit_get (e : req) : Web Cloud (option (list (option json))) :=
  admin_page e (
    v ← ask (λ s, site_config s "qq.auth2");
    j ← match v with
        | None => mret (JObj [])
        | Some t => match loads t with None => raise "ValueError" | Some j => mret j end
        end;
    if negb (json_true j) then some_page "system/qqauth2_edit.html" [] else
    match j with
    | JObj l => some_page "system/qqauth2_edit.html"
                  ((λ k, jget k l) <$> ["app_id"; "app_key"; "redirect_uri"; "enabled"]%string)
    | _ => raise "AttributeError: get"
    end).

Definition SendNotice_get (e : req) : Web Cloud (option unit) :=
  admin_page e (some_page "message/send_notice.html" tt).
End site.

(** ** All of them *)

Inductive admin_view :=
  | VIndex | VAccount | VAppliance | VApplianceOwner | VApplianceEdit | VCatalogs | VCatalog
  | VCatalogAdd | VCatalogEdit | VGroup | VPermission | VUser | VResource | VResourceEdit
  | VInstance | VNode | VJob | VNodeEdit (ID : Z) | VNetwork | VGateways | VForum | VForumCatalogs
  | VForumCatalog | VSite | VNavs | VNavAdd | VNavEdit (ID : Z) | VEntries | VEntryAdd
  | VEntryEdit (ID : Z) | VArticles | VArticleAdd | VArticleEdit (ID : Z) | VConfigs | VConfigEdit
  | VLocaleConfigs | VLocaleConfigEdit | VSiteJob | VSystem | VIni (get : bool) | VNameservers | VProtocol
  | VWelcome | VWelcomeShown | VDomain | VRegistration | VQQ | VNotice.

Definition show {A} (m : Web Cloud (option A)) : Web Cloud unit := _ ← m; mret tt.

(** The database stays, in the session and outside. *)
Definition same_data (w w' : world Cloud) : Prop := work w' = work w ∧ comm w' = comm w.
#[export] Instance same_data_preorder : PreOrder same_data.
Proof. split; [by split|]. intros ??? [? ?] [? ?]. split; congruence. Qed.

Lemma emit_same x : keeps same_data (emit x).
Proof. apply keeps_emit; [apply _|]. intros s c o. by split. Qed.

Lemma show_list_same {RI : Ranks} {TI : Ties} {A} `{HasTable Cloud A} t (q : list_query A) : keeps same_data (show_list t q).
Proof.
  unfold show_list. repeat first [keeps_step | apply emit_same].
Qed.

Ltac same_auto := repeat first [keeps_step | apply emit_same | apply show_list_same].

Lemma show_same {A} e get (m : Web Cloud (option A)) :
  keeps same_data m → keeps same_data (show (need_permission e get "admin" m None)).
Proof. intros Hm. unfold show, need_permission. same_auto. apply Hm. Qed.

Lemma by_id_same {A} `{HasTable Cloud A} {B} e give miss (k : Z → A → Web Cloud (option B)) :
  (∀ i x, keeps same_data (k i x)) → keeps same_data (by_id e give miss k).
Proof. intros Hk. unfold by_id, answer. cbv zeta. same_auto. apply Hk. Qed.

Lemma by_path_same {A} `{HasTable Cloud A} {B} ID miss (k : A → Web Cloud (option B)) :
  (∀ x, keeps same_data (k x)) → keeps same_data (by_path ID miss k).
Proof. intros Hk. unfold by_path, answer. same_auto. apply Hk. Qed.

Ltac page_auto := unfold some_page, page, answer, loaded, profile_of_user, quota, get_text;
  repeat first [apply by_id_same; intros ? ?|apply by_path_same; intros ?|keeps_step
               |apply emit_same|apply show_list_same].

Section views.
Context {TextI : SiteText} {RI : Ranks} {TI : Ties} (locale : string).

Definition view_handler (v : admin_view) (e : req) : Web Cloud unit :=
  match v with
  | VIndex => show (Index_admin e) | VAccount => show (AccountIndex_get e)
  | VAppliance => show (ApplianceView_get e) | VApplianceOwner => show (ApplianceChangeUser_get e)
  | VApplianceEdit => show (ApplianceEdit_get e) | VCatalogs => show (CatalogIndex_appliance e)
  | VCatalog => show (CatalogView_appliance e) | VCatalogAdd => show (CatalogAdd_get_appliance e)
  | VCatalogEdit => show (CatalogEdit_get_appliance e) | VGroup => show (GroupManagement_get e)
  | VPermission => show (PermissionManagement_get e) | VUser => show (View_user_admin e)
  | VResource => show (ResourceView_get e) | VResourceEdit => show (ResourceEdit_get e)
  | VInstance => show (View_instance_admin e) | VNode => show (NodeManagement_get e)
  | VJob => show (JobManagement_get e) | VNodeEdit ID => show (NodeEdit_get e ID)
  | VNetwork => show (Index_network e) | VGateways => show (GatewayIndex_get e)
  | VForum => show (Index_forum_admin e) | VForumCatalogs => show (CatalogIndex_forum e)
  | VForumCatalog => show (CatalogView_forum e) | VSite => show (Index_site e)
  | VNavs => show (NavIndex_get locale e) | VNavAdd => show (NavAdd_get e)
  | VNavEdit ID => show (NavEdit_get e ID) | VEntries => show (EntryIndex_get e)
  | VEntryAdd => show (EntryAdd_get e) | VEntryEdit ID => show (EntryEdit_get e ID)
  | VArticles => show (ArticleIndex_get locale e) | VArticleAdd => show (ArticleAdd_get e)
  | VArticleEdit ID => show (ArticleEdit_get e ID) | VConfigs => show (ConfigIndex_get e)
  | VConfigEdit => show (ConfigEdit_get e) | VLocaleConfigs => show (LocaleConfigIndex_get e)
  | VLocaleConfigEdit => show (LocaleConfigEdit_get locale e) | VSiteJob => show (SiteJobView_get e)
  | VSystem => show (Index_system e) | VIni get => show (INIEdit e get)
  | VNameservers => show (NameserversEdit_get e) | VProtocol => show (RegistrationProtocolEdit_get e)
  | VWelcome => show (WelcomeNewUserEdit_get e) | VWelcomeShown => show (WelcomeNewUser_get e)
  | VDomain => show (DomainIndex_get e) | VRegistration => show (Index_registration e)
  | VQQ => show (QQAuth2Edit_get e) | VNotice => show (SendNotice_get e)
  end.

(** The request is not one to delete a group. *)
Definition only_shows (v : admin_view) (e : req) : Prop := v = VGroup → group_deleted e = false.

Lemma view_same v e : only_shows v e → keeps same_data (view_handler v e).
Proof.
  intros Hv. destruct v; cbn [view_handler];
    try (unfold GroupManagement_get; rewrite (Hv eq_refl)); apply show_same; page_auto.
  unfold JobManagement_index, need_permission. page_auto.
Qed.

(** Without the permission nothing is rendered. *)
Lemma show_gated {A} e get (m : Web Cloud (option A)) s t :
  Render t ∈ (request (show (need_permission e get "admin" m None)) s).2 →
  ∃ a, cur e = Some a ∧ user_has s "admin" a = true.
Proof.
  unfold show, need_permission. destruct (cur e) as [a|].
  - unfold request. rewrite run_assoc, run_ask. change (work (start s)) with s.
    destruct (user_has s "admin" a) eqn:Ha; [by eauto|]. web_run. cbn.
    intros H. apply list_elem_of_singleton in H. done.
  - destruct get; intros H; cbn in H; [by apply list_elem_of_singleton in H|by apply elem_of_nil in H].
Qed.

(** A request for one of the pages of [admin_view] (the one that deletes a group apart) leaves
    the database as it is, and its page is only shown to an administrator: whoever else
    asks is sent to the login, to the page of missing permissions, or refused. Two pages of the
    administration are not among them, because they ask for less: the list of instances is shown
    to every user ([Lists.private_instance_listed]), and the form that gives resources to all
    users to everybody ([AllUserResourceAdd.get] only renders it; what sending it does is
    [UserAdmin.AllUserResourceAdd_post]). *)
Theorem admin_pages_safe v e s :
  only_shows v e →
  let r := request (view_handler v e) s in
  r.1 = s ∧ ∀ t, Render t ∈ r.2 → ∃ a, cur e = Some a ∧ user_has s "admin" a = true.
Proof.
  intros Hv r. split.
  - unfold r. rewrite request_fst. by destruct (view_same v e Hv (start s)) as [_ ->].
  - intros t. unfold r. destruct v; cbn [view_handler];
      try (unfold GroupManagement_get; rewrite (Hv eq_refl)); apply show_gated.
Qed.
End views.

(** ** Concrete runs *)

#[local] Instance no_text : SiteText := {| dumps _ := ""; loads _ := None; markdown t := t |}.
#[local] Instance no_ranks : Ranks := λ _ _ k _, k.
#[local] Instance no_ties : Ties := λ k, k.

(** No request shows the instances on a node. *)
Lemma no_instances_of_node l e s :
  Render "admin/node/instances.html" ∉ (request (view_handler l VNode e) s).2.
Proof.
  intros H. pose proof (show_gated _ _ _ _ _ H) as (a & Ha & Hp). revert H.
  cbn [view_handler]. unfold show, NodeManagement_get, admin_page, need_permission. rewrite Ha.
  unfold request. rewrite run_assoc, run_ask. change (work (start s)) with s. rewrite Hp.
  cbv zeta. destruct (negb _).
  - unfold get_text. destruct (py_int _) as [n|]; web_run; [|by intros ?%elem_of_nil].
    change (work (start s)) with s. destruct (row (A := Node) s n) as [N|]; cbn; by intros ?%list_elem_of_singleton.
  - repeat (destruct (String.eqb _ _); [cbn; by first [intros ?%list_elem_of_singleton|intros ?%elem_of_nil]|]).
    cbn. by intros ?%list_elem_of_singleton.
Qed.

(** The user 2 is an administrator, the user 1 is none. *)
Lemma admin_pages_safe_witness :
  let r := request (view_handler "" VUser (rq (life_env 2 [("id", "1")]%string))) life_cloud in
  r.1 = life_cloud ∧ Render "admin/user/view.html" ∈ r.2 ∧
  ∃ a, cur (rq (life_env 2 [("id", "1")]%string)) = Some a ∧ user_has life_cloud "admin" a = true.
Proof.
  destruct (admin_pages_safe "" VUser (rq (life_env 2 [("id", "1")]%string)) life_cloud) as [H1 H2];
    [intros [=]|].
  assert (Render "admin/user/view.html" ∈ (request (view_handler "" VUser
    (rq (life_env 2 [("id", "1")]%string))) life_cloud).2) as Hr by (vm_compute; left).
  split; [exact H1|]. split; [exact Hr|]. exact (H2 "admin/user/view.html"%string Hr).
Defined.

Example user_page_refused :
  (request (view_handler "" VUser (rq (life_env 1 [("id", "2")]%string))) life_cloud).2
    = [Redirect "no_permission" 0].
Proof. by vm_compute. Qed.

Example ini_pages_fail : (view_handler "" (VIni true) (rq (life_env 2 [])) (start life_cloud)).1
  = Raise "TypeError: __init__() takes exactly 2 arguments (3 given)".
Proof. by vm_compute. Qed.
