(* ===== verification/UserPages.v ===== *)
(** The pages of visitors and users that only show: home/views.py, myun/views.py,
    account/user_views.py, the start pages of the account, of the forum and of messages, and
    forms that show a row. [locale] is the code of the language of the request. *)
From Stdlib Require Import Ascii String.
From S2P Require Import Prelude PyText Table Session Cloud Quota Web Forms LifeControl Myun MyCreate.
From S2P Require Import Account Message Forum Lists AppStore SiteContent UserAdmin AdminPages.
#[local] Open Scope Z_scope.

Section pages.
Context {TextI : SiteText} {RI : Ranks} {TI : Ties} (locale : string).

(** ** home/views.py *)

(** The article of the entry [home] in the language of the request. *)
Definition home_article (s : Cloud) : option SiteArticle :=
  '(E, _) ← head (select (λ _ x, String.eqb (se_slug x) "home") s);
  '(L, _) ← language_by locale s;
  snd <$> head (select (λ _ A, (sa_entry_id A =? E) && (sa_language_id A =? L)) s).

Definition Index_home : Web Cloud (option (option SiteArticle)) :=
  a ← ask home_article; some_page "home/index.html" a.

(** A character up to the code [n] is in the text: tornado refuses them in cookies (with the
    space) and in headers. *)
Definition has_below (n : nat) (t : string) : bool :=
  existsb (λ c, (nat_of_ascii c <=? n)%nat) (list_ascii_of_string t).

(** The address that follows is the argument [next], whatever it is. *)
Definition SetLocale_get (e : req) : Web Cloud unit :=
  let language := get_argument e "language" locale in
  let next_url := get_argument e "next" "/" in
  if has_below 32 language then raise "ValueError: Invalid cookie" else
  emit (SetCookie "user_locale" language);;
  if has_below 31 next_url then raise "ValueError: Unsafe header value" else
  emit (Redirect next_url 0).

Definition NoPermission_get (e : req) : Web Cloud (option (list (Z * Permission))) :=
  l ← ask (λ s, omap (permission_by_codename s) (split_on "," (get_argument e "codenames" "")));
  emit (SetStatus 403);;
  some_page "home/no_permission.html" l.

(** What the profile of the current user grants, and what is used of it. *)
Definition my_sums (e : req) (u : Z) : Web Cloud (amounts * amounts) :=
  p ← profile_of_user u;
  total ← quota (now e) (λ _, true) (pf_user_id p) (λ s, get_resource_total (now e) s p);
  used ← ask (λ s, get_resource_used s u);
  mret (total, used).

Definition sums_page (template : string) (e : req) : Web Cloud (option (amounts * amounts)) :=
  authenticated e true (λ u, d ← my_sums e u; some_page template d) None.

Definition NoResource_get : req → Web Cloud (option (amounts * amounts)) :=
  sums_page "home/no_resource.html".

Definition RegistrationProtocol_get : Web Cloud (option (option json)) :=
  v ← ask (λ s, lyconfig s "protocol"); t ← loaded v "html";
  some_page "home/registration_protocol.html" t.

(** The text in HTML; other languages than markdown give nothing. *)
Definition Preview_post (e : req) : Web Cloud (option string) :=
  let data := get_argument e "data" "" in
  some_page "forum/topic/preview.html"
    (if negb (String.eqb data "") && String.eqb (get_argument e "markup_language" "markdown") "markdown"
     then markdown data else EmptyString).

Definition Search_get : Web Cloud (option unit) := some_page "home/search.html" tt.

(** ** Accounts *)

(** myun/views.py, account/views.py *)
Definition Index_myun : req → Web Cloud (option (amounts * amounts)) := sums_page "myun/index.html".
Definition MyAccount_get : req → Web Cloud (option (amounts * amounts)) := sums_page "account/index.html".

(** account/user_views.py: every user is shown to everybody. *)
Definition View_user (e : req) : Web Cloud (option User) :=
  by_path (default 0 (get_argument_int e "id" (Some 0))) "No such user"
    (λ U, some_page "account/user/view.html" U).

(** The form for a new password shows whose it is. *)
Definition ResetPass_get (e : req) : Web Cloud (option (Z * User)) :=
  o ← reset_apply e;
  match o with
  | None => mret None
  | Some (_, a) => U ← fetch (A := User) (rp_user_id a);
                   some_page "account/reset_password.html" (rp_user_id a, U)
  end.

(** ** The forum (forum/views.py) *)

Inductive forum_tab :=
  | FCatalogs (l : list (Z * ForumCatalog * Z))    (* with the number of topics *)
  | FTopics (l : list (Z * ForumTopic)) | FTopicVotes (l : list (Z * ForumTopicVote))
  | FPosts (l : list (Z * ForumPost)) | FPostVotes (l : list (Z * ForumPostVote)).

(** The catalogs at the top, by their position, hidden ones too. *)
Definition get_catalogs : Web Cloud (option forum_tab) :=
  l ← ask (λ s, (λ p, (p, Z.of_nat (length (select (λ _ T, ft_catalog_id T =? fst p) s)))) <$>
        ordered (mkQuery (λ _ C, bool_decide (fc_parent_id C = None)) (λ _ _, true) "position" false 0 0) s);
  some_page "forum/index_catalogs.html" (FCatalogs l).

Definition by_hit (p q : Z * ForumTopicTag) : Prop :=
  tg_hit q.2 < tg_hit p.2 ∨ (tg_hit q.2 = tg_hit p.2 ∧ tie p.1 ≤ tie q.1).
#[export] Instance by_hit_dec p q : Decision (by_hit p q).
Proof. unfold by_hit. apply _. Defined.

Definition tags_by_hit (s : Cloud) : list (Z * ForumTopicTag) :=
  merge_sort by_hit (all_rows ForumTopicTag s).

(** With the twelve tags used most. *)
Definition Index_forum (e : req) : Web Cloud (option (forum_tab * list (Z * ForumTopicTag))) :=
  tags ← ask (λ s, take 12 (tags_by_hit s));
  let tab := get_argument e "tab" "catalogs" in
  t ← (if String.eqb tab "topics" then l ← get_topics e; mret (Some (FTopics l))
       else if String.eqb tab "topic_votes" then l ← get_topic_votes e; mret (Some (FTopicVotes l))
       else if String.eqb tab "posts" then l ← get_posts e; mret (Some (FPosts l))
       else if String.eqb tab "post_votes" then l ← get_post_votes e; mret (Some (FPostVotes l))
       else get_catalogs);
  mret ((λ t, (t, tags)) <$> t).

Definition TagHome_get : Web Cloud (option (list (Z * ForumTopicTag) * Z)) :=
  d ← ask (λ s, (tags_by_hit s, count_rows ForumTopicTag s)); some_page "forum/tag/index.html" d.

(** ** Messages, appliances, instances *)

Definition Index_message (e : req) : Web Cloud (option unit) :=
  authenticated e true (λ _, some_page "message/index.html" tt) None.

(** A message that is not there, or is of others, was answered already; its text is then
    taken for the name of a template. *)
Definition Reply_get (e : req) (ID : Z) : Web Cloud (option Message) :=
  authenticated e true (λ u,
    o ← my_message u ID;
    match o with
    | Some M => some_page "message/reply_message.html" M
    | None => raise "TopLevelLookupException"
    end) None.

Definition Upload_get (e : req) : Web Cloud (option unit) :=
  need_permission e true "appliance.upload" (some_page "appliance/upload_appliance.html" tt) None.

(** What [get_appliance] says when it finds no appliance for the user. *)
Definition no_appliance (e : req) (s : Cloud) : string :=
  let ID := default 0 (get_argument_int e "appliance_id" None) in
  if ID =? 0 then "Give me appliance_id please."
  else match row (A := Appliance) s ID with
       | None => "Can not find appliance"
       | Some _ => "No permission to manage screenshot"
       end.

Definition ScreenshotManagement_get (e : req) : Web Cloud (option (Z * Appliance)) :=
  authenticated e true (λ u,
    o ← ask (own_appliance e u);
    match o with
    | None => msg ← ask (no_appliance e); answer msg
    | Some x => some_page "appliance/screenshot_management.html" x
    end) None.

(** The form for an instance, with the name of the appliance when one is named. *)
Definition InstanceCreate_get (e : req) : Web Cloud unit :=
  InstanceCreate_prepare e true (λ _ A,
    match A with
    | Some a => _ ← fetch (A := Appliance) a; mret tt
    | None => mret tt
    end;;
    emit (Render "myun/instance/create.html")).

(** ** All of them *)

Inductive user_view :=
  | UNewMessage | UHome | USetLocale | UNoPermission | UNoResource | UProtocol | UPreview | USearch | UMyun
  | UAccount | UUser | UResetPass | UForum | UTags | UMessages | UReply (ID : Z) | UUpload
  | UScreenshots | UCreate.

Definition user_view_handler (v : user_view) (e : req) : Web Cloud unit :=
  match v with
  | UNewMessage => show (New_get e) | UHome => show Index_home | USetLocale => SetLocale_get e
  | UNoPermission => show (NoPermission_get e) | UNoResource => show (NoResource_get e)
  | UProtocol => show RegistrationProtocol_get | UPreview => show (Preview_post e)
  | USearch => show Search_get | UMyun => show (Index_myun e) | UAccount => show (MyAccount_get e)
  | UUser => show (View_user e) | UResetPass => show (ResetPass_get e)
  | UForum => show (Index_forum e) | UTags => show TagHome_get | UMessages => show (Index_message e)
  | UReply ID => show (Reply_get e ID) | UUpload => show (Upload_get e)
  | UScreenshots => show (ScreenshotManagement_get e) | UCreate => InstanceCreate_get e
  end.

Ltac user_auto := unfold my_sums, authenticated, need_permission, forum_page, my_message, reset_apply,
  named_appliance, enough_left, no, time_column, InstanceCreate_prepare; page_auto.

Lemma user_view_same v e : keeps same_data (user_view_handler v e).
Proof.
  destruct v; cbn [user_view_handler]; unfold show, New_get, Index_home, SetLocale_get, NoPermission_get,
    NoResource_get, RegistrationProtocol_get, Preview_post, Search_get, Index_myun, MyAccount_get, sums_page,
    View_user, ResetPass_get, Index_forum, TagHome_get, Index_message, Reply_get, Upload_get,
    ScreenshotManagement_get, InstanceCreate_get, get_topics, get_topic_votes, get_posts, get_post_votes,
    get_catalogs, InstanceCreate_prepare; user_auto.
Qed.

(** ** What a page gives to its template *)

Definition given {A} (m : Web Cloud (option A)) (s : Cloud) : option A :=
  match (m (start s)).1 with Val o => o | Raise _ => None end.

Lemma given_page {A} t (a : A) s : given (some_page t a) s = Some a.
Proof. done. Qed.
Lemma given_none {A} x s : given (emit x;; mret (None : option A)) s = None.
Proof. done. Qed.
Lemma given_raise {A} m s : given (raise (A := option A) m) s = None.
Proof. done. Qed.
Lemma given_ask {A B} (f : Cloud → B) (k : B → Web Cloud (option A)) s :
  given (ask f ≫= k) s = given (k (f s)) s.
Proof. done. Qed.
Lemma given_get {A B} `{HasTable Cloud B} i (k : option B → Web Cloud (option A)) s :
  given (get_row i ≫= k) s = given (k (row s i)) s.
Proof. done. Qed.
Lemma given_assoc {A B C} (m : Web Cloud B) (f : B → Web Cloud C) (k : C → Web Cloud (option A)) s :
  given ((m ≫= f) ≫= k) s = given (x ← m; f x ≫= k) s.
Proof. unfold given. by rewrite run_assoc. Qed.

Lemma given_authenticated {A} e get (m : Z → Web Cloud (option A)) s (x : A) :
  given (authenticated e get m None) s = Some x ↔ ∃ u, cur e = Some u ∧ given (m u) s = Some x.
Proof.
  unfold authenticated. destruct (cur e) as [u|].
  - split; [by eauto|]. by intros (? & [= <-] & ?).
  - split; [by destruct get|]. by intros (? & ? & ?).
Qed.

Lemma sums_given t e s d :
  given (sums_page t e) s = Some d → ∃ u i p, cur e = Some u ∧ profile_of s u = Some (i, p) ∧
    d = (get_resource_total (now e) s p, get_resource_used s u).
Proof.
  unfold sums_page. rewrite given_authenticated. intros (u & Hu & H).
  unfold my_sums, profile_of_user in H. rewrite !given_assoc, given_ask in H.
  destruct (profile_of s u) as [[i p]|] eqn:Hp; [|done]. exists u, i, p. split; [done|]. split; [done|].
  unfold given in H. rewrite run_ret, run_assoc, run_quota in H.
  destruct (comparable _ _ _ _); [|done]. by injection H as <-.
Qed.

Lemma reply_given e ID s M :
  given (Reply_get e ID) s = Some M ↔ ∃ u, cur e = Some u ∧ row s ID = Some M ∧ concerns u M = true.
Proof.
  unfold Reply_get. rewrite given_authenticated. apply exist_proper. intros u. apply and_iff_compat_l.
  unfold my_message. rewrite given_assoc, given_get. destruct (row s ID) as [N|]; [|by split; [|intros []]].
  destruct (concerns u N) eqn:Hc; split.
  - by intros [= <-].
  - intros [[= ->] _]. done.
  - done.
  - intros [[= ->] ?]. congruence.
Qed.

Lemma screenshot_given e s x :
  given (ScreenshotManagement_get e) s = Some x ↔ ∃ u, cur e = Some u ∧
    get_argument_int e "appliance_id" None = Some x.1 ∧ x.1 ≠ 0 ∧ row s x.1 = Some x.2 ∧
    may_manage s u x.2 = true.
Proof.
  unfold ScreenshotManagement_get. rewrite given_authenticated. apply exist_proper. intros u.
  apply and_iff_compat_l. rewrite given_ask. unfold own_appliance. destruct x as [k B]. cbn [fst snd].
  destruct (get_argument_int _ _ _) as [i|]; cbn; [|by split; [|intros [??]]].
  destruct (Z.eqb_spec i 0) as [->|Hi]; [split; [done|]; intros ([= <-] & ? & _); done|].
  destruct (row s i) as [A|] eqn:HA; cbn; [|split; [done|]; intros ([= <-] & _ & HB & _); congruence].
  destruct (may_manage s u A) eqn:Hm.
  - split; [by intros [= <- <-]|]. intros ([= <-] & _ & HB & _). rewrite given_page. congruence.
  - split; [done|]. intros ([= <-] & _ & HB & ?). congruence.
Qed.

Lemma resetpass_given e s x :
  given (ResetPass_get e) s = Some x ↔
    let key := get_argument e "key" "" in
    key ≠ ""%string ∧ ∃ i a, reset_by_key s key = Some (i, a) ∧ x.1 = rp_user_id a ∧ row s x.1 = Some x.2.
Proof.
  cbv zeta. unfold ResetPass_get, reset_apply. rewrite given_assoc, given_ask.
  destruct (String.eqb_spec (get_argument e "key" "") "") as [->|Hk]; [by split; [|intros []]|].
  destruct (reset_by_key s _) as [[i a]|] eqn:Hr; [|split; [done|]; by intros (_ & ? & ? & ? & _)].
  unfold given. rewrite run_ret, run_fetch. change (work (start s)) with s.
  destruct (row s (rp_user_id a)) as [U|] eqn:HU.
  - split; [intros [= <-]; eauto 6|]. destruct x as [k V]. cbn [fst snd].
    intros (_ & ? & ? & [= <- <-] & -> & HV). by simplify_eq.
  - split; [done|]. destruct x as [k V]. cbn [fst snd]. intros (_ & ? & ? & [= <- <-] & -> & HV). congruence.
Qed.

(** The appliance named by the request, when it names one that can be found. *)
Definition named (e : req) (s : Cloud) : option Appliance :=
  a ← get_argument_int e "appliance_id" None; if a =? 0 then None else row s a.

Lemma named_appliance_usable e u w r A :
  named_appliance e u w = (Val (inr r), w) → named e (work w) = Some A →
  a_isuseable A = true ∧ (a_isprivate A = false ∨ a_user_id A = u).
Proof.
  unfold named_appliance, named. destruct (get_argument_int _ _ _) as [a|]; [|done]. cbn.
  destruct (a =? 0); [done|]. web_run. intros H HA. rewrite HA in H.
  destruct (a_isprivate A), (Z.eqb_spec u (a_user_id A)), (a_isuseable A); cbn in H; auto; done.
Qed.

Lemma create_form_shown e s :
  Render "myun/instance/create.html" ∈ (request (InstanceCreate_get e) s).2 →
  ∃ u i p, cur e = Some u ∧ user_has s "instance.create" u = true ∧ profile_of s u = Some (i, p) ∧
    1 ≤ cpu_remain (now e) s p ∧ 64 ≤ memory_remain (now e) s p ∧ 1 ≤ instance_remain (now e) s p ∧
    ∀ A, named e s = Some A → a_isuseable A = true ∧ (a_isprivate A = false ∨ a_user_id A = u).
Proof.
  unfold InstanceCreate_get, InstanceCreate_prepare, need_permission.
  destruct (cur e) as [u|]; [|cbn; by intros ?%list_elem_of_singleton].
  unfold request. rewrite run_ask. change (work (start s)) with s.
  destruct (user_has s _ u) eqn:Ha; [|cbn; by intros ?%list_elem_of_singleton].
  destruct (named_appliance_run e u (start s)) as (r & Hr & _).
  rewrite (run_bind _ _ _ _ _ Hr). destruct r as [msg|r]; [cbn; by intros ?%list_elem_of_singleton|].
  rewrite run_ask. change (work (start s)) with s.
  destruct (profile_of s u) as [[i p]|] eqn:Hp; [|cbn; by intros ?%list_elem_of_singleton].
  destruct (enough_left_run e p (start s)) as (q & Hq & Hi). destruct q as [[]|msg].
  - intros _. destruct (Hi eq_refl) as (H1 & H2 & H3). exists u, i, p. repeat (split; [by auto|]). intros A HA.
    exact (named_appliance_usable _ _ _ _ _ Hr HA).
  - rewrite (run_bind _ _ _ _ _ Hq). cbn. by intros ?%list_elem_of_singleton.
  - rewrite (run_exn _ _ _ _ _ Hq). cbn. by intros ?%elem_of_nil.
Qed.

(** What the form for a new message quotes: any message that is named, whoever is logged in. *)
Lemma new_message_given e s q :
  given (New_get e) s = Some q ↔
    ∃ u k M T, cur e = Some u ∧
      (get_argument e "user" "" = ""%string ∨ is_Some (py_int (get_argument e "user" ""))) ∧
      get_argument e "origmsg" "" ≠ ""%string ∧ py_int (get_argument e "origmsg" "") = Some k ∧
      row s k = Some M ∧ row s (m_text_id M) = Some T ∧ q = (reply_subject (mt_subject T), mt_body T).
Proof.
  unfold New_get. rewrite given_authenticated. apply exist_proper. intros u. cbv zeta.
  generalize (get_argument e "user" ""), (get_argument e "origmsg" ""). intros user orig.
  assert (∀ B (k : option (Z * User) → Web Cloud (option B)),
    given ((if String.eqb user "" then mret None else get_text (A := User) user) ≫= k) s =
      if String.eqb user "" then given (k None) s else
      match py_int user with
      | Some n => given (k (U ← row s n; Some (n, U))) s
      | None => None
      end) as Hu.
  { intros B k. unfold get_text. destruct (String.eqb user ""), (py_int user); done. }
  rewrite Hu. clear Hu.
  assert (given (o ← (if String.eqb orig "" then mret None else get_text (A := Message) orig);
      match o with
      | None => emit (Render "message/send_message.html");; mret None
      | Some (_, M) => T ← fetch (A := MessageText) (m_text_id M);
                       emit (Render "message/send_message.html");;
                       mret (Some (reply_subject (mt_subject T), mt_body T))
      end) s = Some q ↔
    ∃ k M T, orig ≠ ""%string ∧ py_int orig = Some k ∧ row s k = Some M ∧ row s (m_text_id M) = Some T ∧
      q = (reply_subject (mt_subject T), mt_body T)) as Hq.
  { unfold get_text. destruct (String.eqb_spec orig "") as [Ho|Ho]; [by split; [|naive_solver]|].
    destruct (py_int orig) as [k|]; [|by split; [|naive_solver]]. rewrite given_ask.
    destruct (row (A := Message) s k) as [M|] eqn:HM; [|by split; [|naive_solver]]. cbn [mbind option_bind].
    unfold given. rewrite run_fetch. change (work (start s)) with s.
    destruct (row (A := MessageText) s (m_text_id M)) as [T|] eqn:HT; [|by split; [|naive_solver]].
    split; [intros [= <-]; by exists k, M, T|naive_solver]. }
  destruct (String.eqb_spec user "") as [Hu|Hu]; [|destruct (py_int user) as [n|]];
    rewrite ?Hq; naive_solver.
Qed.

(** C16: what the pages of visitors and users show. They leave the database as it is. The sums
    are those of the user's own profile; the page of an answer shows a message that the user
    sent or got; the page of screenshots an appliance of the user's (or any one to an
    administrator); the form for an instance is for users who may create one, have a CPU, 64 MB
    and an instance left, and name no appliance that is locked or private to another. The page
    for a new password is tied to the key of the request alone, without a login; and the form
    for a new message shows the text of every message that is named to every user. *)
Theorem user_pages_private e s :
  (∀ v, (request (user_view_handler v e) s).1 = s) ∧
  (∀ t d, given (sums_page t e) s = Some d → ∃ u i p, cur e = Some u ∧
     profile_of s u = Some (i, p) ∧ d = (get_resource_total (now e) s p, get_resource_used s u)) ∧
  (∀ ID M, given (Reply_get e ID) s = Some M ↔
     ∃ u, cur e = Some u ∧ row s ID = Some M ∧ (m_receiver_id M = Some u ∨ m_sender_id M = u)) ∧
  (∀ q, given (New_get e) s = Some q ↔
     ∃ u k M T, cur e = Some u ∧
       (get_argument e "user" "" = ""%string ∨ is_Some (py_int (get_argument e "user" ""))) ∧
       get_argument e "origmsg" "" ≠ ""%string ∧ py_int (get_argument e "origmsg" "") = Some k ∧
       row s k = Some M ∧ row s (m_text_id M) = Some T ∧ q = (reply_subject (mt_subject T), mt_body T)) ∧
  (∀ ID A, given (ScreenshotManagement_get e) s = Some (ID, A) ↔
     ∃ u, cur e = Some u ∧ get_argument_int e "appliance_id" None = Some ID ∧ ID ≠ 0 ∧
       row s ID = Some A ∧ (a_user_id A = u ∨ user_has s "admin" u = true)) ∧
  (∀ ID U, given (ResetPass_get e) s = Some (ID, U) ↔
     let key := get_argument e "key" "" in key ≠ ""%string ∧
     ∃ i a, reset_by_key s key = Some (i, a) ∧ ID = rp_user_id a ∧ row s ID = Some U) ∧
  (Render "myun/instance/create.html" ∈ (request (user_view_handler UCreate e) s).2 →
     ∃ u i p, cur e = Some u ∧ user_has s "instance.create" u = true ∧
       profile_of s u = Some (i, p) ∧
       1 ≤ cpu_remain (now e) s p ∧ 64 ≤ memory_remain (now e) s p ∧ 1 ≤ instance_remain (now e) s p ∧
       ∀ A, named e s = Some A → a_isuseable A = true ∧ (a_isprivate A = false ∨ a_user_id A = u)).
Proof.
  split; [|split; [|split; [|split; [|split; [|split]]]]].
  - intros v. rewrite request_fst. by destruct (user_view_same v e (start s)) as [_ ->].
  - intros t d. apply sums_given.
  - intros ID M. rewrite reply_given. unfold concerns.
    by setoid_rewrite orb_true_iff; setoid_rewrite bool_decide_eq_true; setoid_rewrite Z.eqb_eq.
  - intros q. apply new_message_given.
  - intros ID A. rewrite screenshot_given. unfold may_manage. cbn [fst snd].
    by setoid_rewrite orb_true_iff; setoid_rewrite Z.eqb_eq.
  - intros ID U. apply resetpass_given.
  - apply create_form_shown.
Qed.
End pages.

(** ** Concrete runs *)

#[local] Instance no_text : SiteText := {| dumps _ := ""; loads _ := None; markdown t := t |}.
#[local] Instance no_ranks : Ranks := λ _ _ k _, k.
#[local] Instance no_ties : Ties := λ k, k.

Definition page_req (user : option Z) (l : list (string * string)) : req :=
  mkReq 100 user (list_to_map l) true true.

Definition page_cloud : Cloud :=
  life_cloud
    <| c_messages := table_of [mkMessage None 2 (Some 1) 1 true false None] |>
    <| c_texts := table_of [mkMessageText "subject" "text"] |>.

(** The user 1 may answer what the user 2 wrote; others may not. *)
Example reply_pages :
  m_sender_id <$> given (Reply_get (page_req (Some 1) []) 1) page_cloud = Some 2 ∧
  given (Reply_get (page_req (Some 3) []) 1) page_cloud = None ∧
  (Reply_get (page_req (Some 3) []) 1 (start page_cloud)).1 = Raise "TopLevelLookupException".
Proof. by vm_compute. Qed.

(** Whoever follows a link that chooses a language may be sent anywhere. *)
Example open_redirect :
  (request (user_view_handler "" USetLocale
     (page_req None [("language", "en"); ("next", "http://evil.example")]%string)) page_cloud).2
  = [SetCookie "user_locale" "en"; Redirect "http://evil.example" 0].
Proof. by vm_compute. Qed.

(** Users are shown to visitors who are not logged in; users without a profile, as the user 2,
    get an error for their own pages. *)
Example users_shown :
  (u_username <$> given (View_user (page_req None [("id", "2")]%string)) page_cloud) = Some "root"%string ∧
  (user_view_handler "" UMyun (page_req (Some 2) []) (start page_cloud)).1
    = Raise "AttributeError: NoneType".
Proof. by vm_compute. Qed.
