(* ===== verification/AccountSafety.v ===== *)
(** What every request to the account pages respects, whoever sends it: the rows
    of the users stay well formed, a password is changed only by its owner or by
    whoever was mailed a key for it, and every user with public keys has exactly
    one default key. *)
From Stdlib Require Import Ascii String.
From S2P Require Import Prelude PyText PyBytes Password Table Session Cloud Quota InstanceModel Web Forms LifeControl Myun Account Register.
#[local] Open Scope Z_scope.

(** ** The requests *)

(** Each with what it draws at random: keys, salts, the language of the client,
    the answers of the other site. *)
Inductive account_request :=
  | RLogin (session_key : string) | RLogout (cookie : string)
  | RResetApply (key : string) | RReset (salt session_key : string)
  | RResetMine (salt : string) | RBaseInfo (choices : list string)
  | RKeyAdd | RKeyEdit | RKeyDelete
  | REmailLink | REmailApply (key : string)
  | RRegister (key salt session_key : string) (lang : Z)
  | ROpenIDNew (salt session_key : string) (lang : Z) | ROpenIDBind (session_key : string)
  | RQQAuth (session : option (string * string)) (key session_key : string)
  | RQQInfo (openid : string) (ret : option Z) (nickname : option string) (key : string).

(** ** Users stay well formed *)

Definition users_ok (s : Cloud) : Prop :=
  seq_ok (c_users s) ∧
  (∀ i U, row (A := User) s i = Some U → password_ok (u_password U)) ∧
  (∀ i j U V, row s i = Some U → row s j = Some V → u_username U = u_username V → i = j).

Lemma users_ok_ext s s' : c_users s = c_users s' → users_ok s → users_ok s'.
Proof. unfold users_ok, row. simpl. by intros ->. Qed.

Lemma users_ok_put s i U U' :
  row s i = Some U → u_username U' = u_username U →
  u_password U' = u_password U ∨ password_ok (u_password U') →
  users_ok s → users_ok (set_tbl (tput i U' (tbl s)) s).
Proof.
  intros HU Hn Hp (Hs & HP & HN). split_and!.
  - apply (tput_seq_ok i U' (tbl s)); [by eexists|done].
  - intros j V. rewrite row_put. case_decide; [|apply HP]. intros [= <-].
    destruct Hp as [->|]; [by apply (HP i)|done].
  - assert (∀ j V, row (set_tbl (tput i U' (tbl s)) s) j = Some V →
        ∃ W, row s j = Some W ∧ u_username W = u_username V) as H.
    { intros j V. rewrite row_put. case_decide; [|by eauto]. intros [= <-]. subst. by exists U. }
    intros j k V W (V' & HV & <-)%H (W' & HW & <-)%H. by apply HN.
Qed.

Lemma users_ok_insert s U :
  password_ok (u_password U) → user_by_name s (u_username U) = None →
  users_ok s → users_ok (set_tbl (tinsert U (tbl s)).2 s).
Proof.
  intros Hp Hnew (Hs & HP & HN).
  assert (∀ i V, row s i = Some V → u_username V ≠ u_username U) as Hfresh.
  { intros i V HV E. unfold user_by_name in Hnew.
    assert ((i, V) ∈ select (λ _ V, String.eqb (u_username V) (u_username U)) s) as Hin
      by (apply elem_of_select; split; [done|by apply String.eqb_eq]).
    destruct (select _ s); [by apply elem_of_nil in Hin|done]. }
  split_and!.
  - by apply tinsert_seq_ok.
  - intros i V [[_ ->]|[_ HV]]%row_insert_inv; [done|by apply (HP i)].
  - intros i j V W [[-> ->]|[_ HV]]%row_insert_inv [[-> ->]|[_ HW]]%row_insert_inv E.
    + done.
    + by destruct (Hfresh j W HW).
    + by destruct (Hfresh i V HV).
    + by apply (HN i j V W).
Qed.

(** Handlers that leave the table of users alone. *)
Lemma users_frozen {A} (m : Web Cloud A) : keeps (frozen c_users) m → keeps (inv_rel users_ok) m.
Proof. apply frozen_inv. apply users_ok_ext. Qed.

Lemma users_modify u (f : User → User) :
  (∀ U, u_username (f U) = u_username U) →
  (∀ U, u_password (f U) = u_password U ∨ password_ok (u_password (f U))) →
  keeps (inv_rel users_ok) (modify u f).
Proof.
  intros Hn Hp. apply keeps_modify; [apply _|]. intros s c o U HU Hs Hc. cbn [work comm] in *.
  split; [|done]. by apply (users_ok_put s u U).
Qed.

Lemma users_commit : keeps (inv_rel users_ok) commit.
Proof. intros [s c o]. by split. Qed.
Lemma users_emit x : keeps (inv_rel users_ok) (emit x).
Proof. intros [s c o]. by split. Qed.

(** A step of a program, from a world where the invariant holds. *)
Definition users_at {A} (w : world Cloud) (m : Web Cloud A) : Prop :=
  users_ok (work w) → users_ok (comm w) →
  users_ok (work (m w).2) ∧ users_ok (comm (m w).2).

Lemma users_at_keeps {A} w (m : Web Cloud A) : keeps (inv_rel users_ok) m → users_at w m.
Proof. intros H. apply H. Qed.

(** A user is added under a name nobody has. *)
Lemma users_at_add {A} w U (k : Z → Web Cloud A) :
  password_ok (u_password U) → user_by_name (work w) (u_username U) = None →
  (∀ u, keeps (inv_rel users_ok) (k u)) → users_at w (u ← add_row U; k u).
Proof.
  intros Hp Hn Hk Hs Hc. rewrite run_add. apply Hk; cbn [work comm]; [|done].
  by apply users_ok_insert.
Qed.

Lemma users_ask {A B} (f : Cloud → A) (k : A → Web Cloud B) :
  (∀ w, users_at w (k (f (work w)))) → keeps (inv_rel users_ok) (ask f ≫= k).
Proof. intros H. apply inv_ask. intros w. apply H. Qed.

Ltac users_step :=
  lazymatch goal with
  | |- keeps _ (modify _ _) =>
      first [apply users_modify; [done|intros ?; by left]
            |apply users_frozen; solve [frozen_auto]]
  | |- keeps _ commit => apply users_commit
  | |- keeps _ (emit _) => apply users_emit
  | |- keeps _ (add_row _) => apply users_frozen; solve [frozen_auto]
  | |- keeps _ (delete_row _ _) => apply users_frozen; solve [frozen_auto]
  end.
Ltac users_auto := repeat first [users_step | keeps_step].

Section safety.
Context {ShaI : Sha512} {CodecI : SessionCodec}.
#[local] Set Default Proof Using "All".

Definition account_handler (p : account_request) (e : req) : Web Cloud unit :=
  match p with
  | RLogin k => Login_post e k
  | RLogout c => Logout_get e c
  | RResetApply k => ResetPassApply_post e k
  | RReset salt k => ResetPass_post e salt k
  | RResetMine salt => ResetMyPass_post e salt
  | RBaseInfo choices => BaseInfoEdit_post e choices
  | RKeyAdd => PublicKeyAdd_post e
  | RKeyEdit => PublicKeyEdit_post e
  | RKeyDelete => PublicKeyDelete_get e
  | REmailLink => EmailValidate_get e
  | REmailApply k => EmailValidate_post e k
  | RRegister k salt sk lang => Register_post e k salt sk lang
  | ROpenIDNew salt sk lang => OpenIDUserNew_post e salt sk lang
  | ROpenIDBind sk => OpenIDUserBinding_post e sk
  | RQQAuth session k sk => _ ← qq_on_auth e session k sk; mret tt
  | RQQInfo openid ret nick k => qq_on_user_info e openid ret nick k
  end.

(** The salt a request draws has no dollar sign in it. *)
Definition salt_of (p : account_request) : string :=
  match p with
  | RReset s _ | RResetMine s | RRegister _ s _ _ | ROpenIDNew s _ _ => s
  | _ => EmptyString
  end.

Lemma users_save_session e k u : keeps (inv_rel users_ok) (save_session e k u).
Proof. unfold save_session. users_auto. Qed.
Lemma users_redirect_next e url : keeps (inv_rel users_ok) (redirect_next e url).
Proof. unfold redirect_next. users_auto. Qed.
Lemma users_add_profile e u : keeps (inv_rel users_ok) (add_profile e u).
Proof. unfold add_profile. users_auto. Qed.
Lemma users_init_account e u : keeps (inv_rel users_ok) (init_account e u).
Proof.
  unfold init_account. users_auto; try apply users_add_profile.
Qed.

#[local] Hint Resolve users_save_session users_redirect_next users_add_profile
  users_init_account : ly.

Lemma users_set_default k : keeps (inv_rel users_ok) (set_default k).
Proof. unfold set_default. users_auto. Qed.
Lemma users_add_authkey e k o : keeps (inv_rel users_ok) (add_authkey e k o).
Proof. unfold add_authkey. users_auto. Qed.
#[local] Hint Resolve users_set_default users_add_authkey : ly.

Ltac users_all := repeat first [users_step | keeps_step | solve [eauto 2 with ly]].

Lemma users_registration e i x salt sk lang :
  has_char dollar salt = false →
  keeps (inv_rel users_ok) (post_registration e i x salt sk lang).
Proof.
  intros Hsalt. unfold post_registration.
  destruct (username_field e) as [name|], (password_fields e) as [pw|]; [|users_all..].
  apply users_ask. intros w. destruct (user_by_name _ _) eqn:E;
    [apply users_at_keeps; users_all|].
  apply users_at_add; [by apply enc_password_ok|done|intros u; users_all].
Qed.

Lemma users_Register e key salt sk lang :
  has_char dollar salt = false →
  keeps (inv_rel users_ok) (Register_post e key salt sk lang).
Proof.
  intros Hsalt. unfold Register_post, post_apply.
  repeat first [users_step | apply users_registration; done | keeps_step].
Qed.

Lemma users_openid_handler e : keeps (inv_rel users_ok) (openid_handler e).
Proof. unfold openid_handler, no. users_all. Qed.
#[local] Hint Resolve users_openid_handler : ly.

Lemma users_OpenIDNew e salt sk lang :
  has_char dollar salt = false →
  keeps (inv_rel users_ok) (OpenIDUserNew_post e salt sk lang).
Proof.
  intros Hsalt. unfold OpenIDUserNew_post. apply keeps_bind; [apply _|auto with ly|].
  intros [[[ki oi] OI]|]; [|users_all]. apply users_ask. intros w.
  destruct (openid_form e (work w)) as [[[addr name] pw]|] eqn:E;
    [|apply users_at_keeps; users_all].
  apply users_at_add; [by apply enc_password_ok| |intros u'; users_all].
  revert E. unfold openid_form. destruct (email_field e); [|done]. cbn [mbind option_bind].
  destruct (username_field e); [|done]. cbn [mbind option_bind].
  destruct (password_fields e); [|done]. cbn [mbind option_bind].
  destruct (user_by_email _ _); [done|]. destruct (user_by_name _ _) eqn:En; [done|].
  intros [= <- <- <-]. done.
Qed.

Lemma users_handler p e :
  has_char dollar (salt_of p) = false → keeps (inv_rel users_ok) (account_handler p e).
Proof.
  intros Hsalt. destruct p; simpl in *; try by auto using users_Register, users_OpenIDNew.
  all: unfold Login_post, Logout_get, ResetPassApply_post, ResetPass_post, ResetMyPass_post,
    BaseInfoEdit_post, PublicKeyAdd_post, PublicKeyEdit_post, PublicKeyDelete_get,
    EmailValidate_get, EmailValidate_post, OpenIDUserBinding_post, qq_on_auth,
    qq_on_user_info, delete_session, reset_apply, my_key, openid_handler, authenticated, no.
  all: users_all.
  all: apply users_modify; [|intros U]; try done.
  all: try (right; by apply enc_password_ok).
  all: unfold take_nickname; try intros U; repeat case_match; try done; by left.
Qed.

(** C13: the rows of the users stay well formed: after every request to the
    account pages, the stored passwords still consist of a salt and a digest,
    and no two users have the same name. *)
Theorem account_users_ok p e s :
  has_char dollar (salt_of p) = false → users_ok s →
  users_ok (request (account_handler p e) s).1.
Proof. intros Hsalt Hs. apply request_inv; [by apply users_handler|done]. Qed.

(** ** Passwords change only by their owners' doing *)

(** The user [v] stays, with the password. *)
Definition pw_kept (v : Z) (s s' : Cloud) : Prop :=
  seq_ok (c_users s) → seq_ok (c_users s') ∧
  ∀ U, row s v = Some U → ∃ U', row s' v = Some U' ∧ u_password U' = u_password U.

#[local] Instance pw_kept_preorder v : PreOrder (pw_kept v).
Proof.
  split; [intros s Hs; split; [done|eauto]|].
  intros s1 s2 s3 H1 H2 Hs. destruct (H1 Hs) as [Hs2 K1]. destruct (H2 Hs2) as [Hs3 K2].
  split; [done|]. intros U (U' & HU' & E)%K1. destruct (K2 U' HU') as (U2 & HU2 & E2).
  exists U2. split; [done|]. congruence.
Qed.

Lemma pw_frozen v {A} (m : Web Cloud A) :
  keeps (frozen c_users) m → keeps (tracks (pw_kept v)) m.
Proof.
  apply frozen_tracks. intros s s' E Hs. rewrite <- E. split; [done|].
  intros U HU. exists U. split; [|done]. unfold row in *. simpl in *. by rewrite <- E.
Qed.

Lemma pw_modify v u (f : User → User) :
  (∀ U, u_password (f U) = u_password U) → keeps (tracks (pw_kept v)) (modify u f).
Proof.
  intros Hf. apply keeps_modify; [apply _|]. intros s c o x Hx. split; cbn [work comm]; [|by left].
  intros Hs. split; [apply (tput_seq_ok u (f x) (tbl s)); [by eexists|done]|].
  intros U HU. rewrite row_put. case_decide; [|by exists U]. exists (f x). split; [done|].
  subst. rewrite Hx in HU. by simplify_eq.
Qed.

Lemma pw_add v (U : User) : keeps (tracks (pw_kept v)) (add_row U).
Proof.
  apply keeps_add; [apply _|]. intros s c o. split; cbn [work comm]; [|by left].
  intros Hs. split; [by apply tinsert_seq_ok|]. intros V HV. exists V. split; [|done].
  unfold row in *. rewrite tbl_set. simpl. rewrite lookup_insert_ne; [done|].
  intros E. rewrite <- E in HV.
  assert (rows (c_users s) !! (seq (c_users s) + 1) = None) as N by (apply Hs; lia).
  change (rows (tbl s : table User) !! (seq (c_users s) + 1) = Some V) in HV.
  simpl in HV. congruence.
Qed.

Lemma pw_commit v : keeps (tracks (pw_kept v)) commit.
Proof. intros [s c o]. split; cbn [work comm]; [done|by right]. Qed.
Lemma pw_emit v x : keeps (tracks (pw_kept v)) (emit x).
Proof. intros [s c o]. split; cbn [work comm]; [done|by left]. Qed.

Ltac pw_step :=
  lazymatch goal with
  | |- keeps _ (modify _ _) =>
      first [apply pw_modify; done | apply pw_frozen; solve [frozen_auto]
            |apply pw_modify; intros ?; unfold take_nickname; by repeat case_match]
  | |- keeps _ commit => apply pw_commit
  | |- keeps _ (emit _) => apply pw_emit
  | |- keeps _ (add_row _) => first [apply pw_add | apply pw_frozen; solve [frozen_auto]]
  | |- keeps _ (delete_row _ _) => apply pw_frozen; solve [frozen_auto]
  end.
Ltac pw_auto := repeat first [pw_step | keeps_step].

Definition sets_password (p : account_request) : bool :=
  match p with RReset _ _ | RResetMine _ => true | _ => false end.

Lemma pw_handler v p e :
  sets_password p = false → keeps (tracks (pw_kept v)) (account_handler p e).
Proof.
  intros Hp. destruct p; try done.
  all: unfold account_handler, Login_post, Logout_get, ResetPassApply_post, BaseInfoEdit_post,
    PublicKeyAdd_post, PublicKeyEdit_post, PublicKeyDelete_get, EmailValidate_get,
    EmailValidate_post, Register_post, post_apply, post_registration, OpenIDUserNew_post,
    OpenIDUserBinding_post, qq_on_auth, qq_on_user_info, delete_session, my_key, openid_handler,
    authenticated, set_default, add_authkey, init_account, add_profile, save_session,
    redirect_next, no.
  all: pw_auto.
Qed.

Lemma reset_apply_run e w :
  ∃ o w1, reset_apply e w = (Val o, w1) ∧ quiet w (reset_apply e w) ∧
    ∀ i a, o = Some (i, a) → w1 = w ∧
      reset_by_key (work w) (get_argument e "key" "") = Some (i, a).
Proof.
  unfold reset_apply. web_run. destruct (String.eqb _ ""); [|destruct (reset_by_key _ _) as [[i a]|] eqn:E].
  - eexists _, _. by split_and!.
  - eexists _, _. split_and!; [done|done|]. by intros i' a' [= <- <-].
  - eexists _, _. by split_and!.
Qed.

(** What the two handlers that set a password leave of the users. *)
Lemma ResetMine_users e salt s :
  (request (ResetMyPass_post e salt) s).1 = s ∨
  ∃ u U pw, cur e = Some u ∧ row s u = Some U ∧ password_fields e = Some pw ∧
    (request (ResetMyPass_post e salt) s).1 =
      set_tbl (tput u (U <| u_password := enc_login_passwd salt pw |>) (tbl s)) s.
Proof.
  unfold ResetMyPass_post.
  match goal with |- context [authenticated e false ?m tt] =>
    destruct (authenticated_run e false m tt (start s)) as [[_ H]|(u & Hu & H)] end;
    [left; by apply request_quiet|].
  rewrite request_fst, H. destruct (password_fields e) as [pw|]; [|by left].
  web_run. change (work (start s)) with s.
  destruct (row s u) as [U|] eqn:HU; [|by left]. right. exists u, U, pw. done.
Qed.

Lemma Reset_users e salt k s :
  (request (ResetPass_post e salt k) s).1 = s ∨
  ∃ i a U pw, reset_by_key s (get_argument e "key" "") = Some (i, a) ∧
    row s (rp_user_id a) = Some U ∧ password_fields e = Some pw ∧
    ∃ s', (request (ResetPass_post e salt k) s).1 = s' ∧
      c_users s' = tput (rp_user_id a) (U <| u_password := enc_login_passwd salt pw |>) (c_users s) ∧
      row (A := UserResetpass) s' i = None.
Proof.
  unfold ResetPass_post.
  destruct (reset_apply_run e (start s)) as (o & w1 & E & Hq & Ho).
  rewrite request_fst, (run_bind _ _ _ _ _ E). rewrite E in Hq.
  destruct o as [[i a]|]; [|left; apply Hq].
  destruct (Ho i a eq_refl) as [-> Hk]. clear Ho Hq E.
  destruct (password_fields e) as [pw|]; [|by left].
  unfold save_session. web_run. change (work (start s)) with s in *.
  destruct (row s (rp_user_id a)) as [U|] eqn:HU; [|by left]. right.
  exists i, a, U, pw. split_and!; [done..|]. eexists. split; [reflexivity|].
  split; [done|]. web_run. cbn [snd comm]. web_run. by rewrite row_set_delete, decide_True.
Qed.

(** C9: a password changes only by its owner's doing: whatever request is sent
    to the account pages, every user that was there is there afterwards with the
    same password, unless the request was the owner's own, logged in, or carried
    the key of an application that was mailed to the owner, and that key is
    consumed by it; and then the password is the one of the form. *)
Theorem password_changes p e s v U :
  seq_ok (c_users s) → row s v = Some U →
  let s' := (request (account_handler p e) s).1 in
  ∃ U', row s' v = Some U' ∧
    (u_password U' = u_password U ∨
     ∃ pw, password_fields e = Some pw ∧ u_password U' = enc_login_passwd (salt_of p) pw ∧
       ((∃ salt, p = RResetMine salt ∧ cur e = Some v) ∨
        (∃ salt k i a, p = RReset salt k ∧ rp_user_id a = v ∧
           reset_by_key s (get_argument e "key" "") = Some (i, a) ∧
           row (A := UserResetpass) s' i = None))).
Proof.
  intros Hs HU s'. destruct (sets_password p) eqn:Ep.
  2:{ pose proof (request_tracks _ _ s (pw_handler v p e Ep)) as H.
      destruct (H Hs) as [_ K]. destruct (K U HU) as (U' & HU' & E). exists U'. eauto. }
  assert (∀ u X (t : Cloud), c_users t = tput u X (c_users s) →
    row t v = if decide (u = v) then Some X else row s v) as Hrow.
  { intros u X t Ht. unfold row. simpl. rewrite Ht. simpl. case_decide as Ev.
    - subst. by apply lookup_insert_eq.
    - by apply lookup_insert_ne. }
  destruct p; try done; unfold s'; cbn [account_handler salt_of].
  - destruct (Reset_users e salt session_key s) as [->|(i & a & V & pw & Hk & HV & Hf & t & -> & Ht & Hi)];
      [by eauto|].
    rewrite (Hrow _ _ _ Ht). destruct (decide (rp_user_id a = v)) as [Ev|]; [|by eauto].
    eexists. split; [done|]. right. exists pw. split_and!; [done|done|]. right.
    by exists salt, session_key, i, a.
  - destruct (ResetMine_users e salt s) as [->|(u & V & pw & Hu & HV & Hf & ->)]; [by eauto|].
    rewrite row_put. case_decide as Ev; [|by eauto].
    eexists. split; [done|]. right. exists pw. split_and!; [done|done|]. left.
    exists salt. by subst.
Qed.
End safety.

Lemma account_users_ok_witness :
  users_ok (request (account_handler (RReset "77" "sk") (account_req None
    [("key", "k1"); ("password", "orchid"); ("password_confirm", "orchid")]%string))
    account_cloud).1.
Proof.
  apply (account_users_ok (RReset "77" "sk")); [reflexivity|]. split_and!.
  - exact (table_of_seq_ok _).
  - intros i U HU. apply table_of_one in HU as [_ ->]. by apply enc_password_ok.
  - intros i j U V [-> _]%table_of_one [-> _]%table_of_one _. done.
Defined.

Lemma password_changes_witness :
  let s' := (request (account_handler (RReset "77" "sk") (account_req None
    [("key", "k1"); ("password", "orchid"); ("password_confirm", "orchid")]%string))
    account_cloud).1 in
  ∃ U U', row account_cloud 1 = Some U ∧ row s' 1 = Some U' ∧
    (u_password U' = u_password U ∨ check_login_passwd "orchid" (u_password U') = true).
Proof.
  destruct (row (A := User) account_cloud 1) as [U|] eqn:E; [|done].
  destruct (password_changes (RReset "77" "sk") (account_req None
    [("key", "k1"); ("password", "orchid"); ("password_confirm", "orchid")]%string)
    account_cloud 1 U) as (U' & HU' & H).
  - exact (table_of_seq_ok _).
  - exact E.
  - exists U, U'. split; [reflexivity|]. split; [exact HU'|].
    destruct H as [H|(pw & Hpw & -> & _)]; [by left|right].
    vm_compute in Hpw. injection Hpw as <-. by vm_compute.
Defined.
