(* ===== verification/Site.v ===== *)
(** The whole site: every request that may write, of every part, and what all of them
    keep from everybody but administrators: permissions. *)
From Stdlib Require Import Ascii String.
From S2P Require Import Prelude PyText PyBytes Password Table Session Cloud Quota JobModel InstanceModel Web Forms LifeControl Myun MyStorage MyNetwork MyDomain MyCreate NetworkAdmin MyRoutes Account Message Forum AppStore SiteContent OpsAdmin Api MailTo Register QQLogin UserDelete UserAdmin AccountSafety.
#[local] Open Scope Z_scope.

(** ** Groups and who is in them *)

(** What a request may do to the users up to the id [n]: not to their groups. *)
Section roles.
Context (n : Z).
#[local] Set Default Proof Using "All".

Definition roles (s s' : Cloud) : Prop :=
  seq_ok (c_users s) → n ≤ seq (c_users s) →
  seq_ok (c_users s') ∧ n ≤ seq (c_users s') ∧
  c_groups s' = c_groups s ∧ c_permissions s' = c_permissions s ∧
  ∀ k, k ≤ n → u_groups <$> row s' k = u_groups <$> row s k.

#[export] Instance roles_preorder : PreOrder roles.
Proof.
  split; [by intros s Hs Hn|]. intros s1 s2 s3 H12 H23 Hs Hn.
  destruct (H12 Hs Hn) as (Hs2 & Hn2 & G2 & P2 & K2).
  destruct (H23 Hs2 Hn2) as (Hs3 & Hn3 & G3 & P3 & K3). split_and!; [done|done|congruence|congruence|].
  intros k Hk. rewrite K3 by done. by apply K2.
Qed.

Lemma roles_refl s : roles s s.
Proof. reflexivity. Qed.

Lemma roles_frozen {A} (m : Web Cloud A) : keeps (frozen auth) m → keeps (tracks roles) m.
Proof.
  apply frozen_tracks. unfold auth, roles, row. simpl. intros s s' [= -> -> ->]. intros Hs Hn; by split_and!.
Qed.
Lemma roles_commit : keeps (tracks roles) commit.
Proof. intros [s c o]. split; cbn [work comm]; [done|by right]. Qed.

Lemma roles_put k U U' s :
  row s k = Some U → n < k ∨ u_groups U' = u_groups U →
  roles s (set_tbl (tput k U' (tbl s)) s).
Proof.
  intros HU Hg Hs Hn. split_and!; [apply (tput_seq_ok k U' (tbl s)); [by eexists|done]|done|done|done|].
  intros j Hj. rewrite row_put. case_decide as E; [|done]. subst j. rewrite HU. simpl.
  destruct Hg as [Hg|Hg]; [lia|congruence].
Qed.
(** Users keep their groups; a new user may get some. *)
Lemma roles_modify k (f : User → User) :
  n < k ∨ (∀ U, u_groups (f U) = u_groups U) → keeps (tracks roles) (modify k f).
Proof.
  intros Hf. apply keeps_modify; [apply _|]. intros s c o U HU. split; cbn [work comm]; [|by left].
  apply roles_put with U; [done|]. destruct Hf; auto.
Qed.
Lemma roles_add {A} U (f : Z → Web Cloud A) :
  (∀ k, n < k → keeps (tracks roles) (f k)) → keeps (tracks roles) (k ← add_row (U : User); f k).
Proof.
  intros Hf w. rewrite run_add. set (w1 := mkWorld _ _ _).
  assert (tracks roles w w1) as H1.
  { split; [|by left]. intros Hs Hn. cbn [work w1]. split_and!; [by apply (tinsert_seq_ok U (tbl (work w)))|simpl; lia|done|done|].
    intros k Hk. unfold row. rewrite tbl_set. simpl. rewrite lookup_insert_ne; [done|]. lia. }
  destruct (Z.ltb_spec n (seq (tbl (work w) : table User) + 1)) as [Hlt|Hge].
  - etrans; [exact H1|]. apply Hf. done.
  - (* without the bound nothing is claimed *)
    split; [intros _ Hn|]. 1: simpl in Hge; lia.
    right. intros _ Hn. simpl in Hge. lia.
Qed.
End roles.

Ltac roles_step :=
  lazymatch goal with
  | |- keeps _ commit => apply roles_commit
  | |- keeps _ (modify (A := User) _ _) => apply roles_modify; first [left; assumption|right; done]
  | |- keeps _ (mbind _ (add_row (A := User) _)) => apply roles_add; intros ? ?
  | |- keeps _ (emit _) => apply roles_frozen, frozen_emit
  | |- keeps _ (modify _ _) => apply roles_frozen; solve [frozen_auto]
  | |- keeps _ (put_row _ _) => apply roles_frozen; solve [frozen_auto]
  | |- keeps _ (add_row _) => apply roles_frozen; solve [frozen_auto]
  | |- keeps _ (delete_row _ _) => apply roles_frozen; solve [frozen_auto]
  | |- keeps _ _ => keeps_step
  end.
Ltac roles_auto := repeat first [roles_step | solve [eauto 3 with ly]].

(** ** Opening the handlers of a part *)

Ltac open_control :=
  unfold LifeControl_post, authenticated, control_one, callback, run, stop, query,
    prepare_run, set_root_passwd, do_update_storage, do_update_network, profile_of_user, binding_domain,
    unbinding_domain, instance_domain_binding, instance_domain_unbinding, do_update_network, quota.
Ltac open_delete :=
  unfold InstanceDelete_post, authenticated, release_holdings, free_ip, free_port,
    run_job, job_notify, instance_control_notice, sendmsg, add_trace, unbinding_domain,
    instance_domain_unbinding, do_update_network.
Ltac open_myun :=
  unfold InstanceCreate_post, View_page, GlobalPasswordEdit_post, BaseinfoEdit_post,
    ResourceEdit_post, StorageAdd_post, StorageEdit_post, StorageDelete_get, NetworkAdd_post,
    MyNetwork.NetworkDelete_get, InstancePasswordEdit_post, InstancePublicKeyEdit_post, DomainAdd_post,
    MyDomain.DomainEdit_post, DomainDelete_get, PortMappingAdd_post, PortMappingDelete_get;
  unfold InstanceCreate_prepare, StorageAdd_prepare, StorageAction, NetworkAdd_prepare,
    NetworkAction, DomainAdd_prepare, DomainAction, PortMappingAdd_prepare, equip;
  unfold named_appliance, create_form, create_base, set_ip, set_secret, bind_ip, storage_form,
    update_used, resource_form, network_form, key_form, set_domain_item, domain_form, port_form,
    binding_iptables, unbinding_iptables, bind_port, free_port, free_ip;
  unfold with_myinstance, set_myinstance, authenticated, need_permission, no, profile_of_user,
    get_text, add_trace, do_update_network, enough_left, quota.
Ltac open_account :=
  unfold Register_post, post_apply, post_registration, OpenIDUserNew_post, openid_handler, Login_post,
    Logout_get, ResetPassApply_post, ResetPass_post, ResetMyPass_post, BaseInfoEdit_post,
    PublicKeyAdd_post, PublicKeyEdit_post, PublicKeyDelete_get, EmailValidate_get, EmailValidate_post,
    OpenIDUserBinding_post, qq_on_auth, qq_on_user_info, delete_session, reset_apply, my_key,
    openid_handler, authenticated, no.
Ltac open_message :=
  unfold View_message, Delete_message, New_get, New_post, Reply_post, SendNotice_post, NoticeDelete_get,
    unlink_message, delete_message, my_message, authenticated, need_permission, no, get_text.
Ltac open_forum :=
  unfold TopicAdd_post, TopicEdit_post, TopicDelete_post, TopicView_get, TopicReply_post, PostReply_post,
    PostEdit_post, CatalogAdd_post, CatalogEdit_post, TopicVote_post, PostVote_post, add_post, my_topic,
    update_tag, drop_hit, delete_tag, sendmsg, authenticated, need_permission, no.
Ltac open_app :=
  unfold View_appliance, Upload_post, Delete_appliance, delete_appliance, SetUseable_get, SetPrivate_get,
    set_flag, islockedToggle_get, isuseableToggle_get, AttrSet_appliance, ScreenshotAdd_post,
    ScreenshotDelete_get, get_screenshot, BaseinfoEdit_appliance, ApplianceEdit_post,
    ApplianceChangeUser_post, ApplianceManagement_post, CatalogAdd_appliance, CatalogEdit_appliance,
    CatalogDelete_get, tuneCatalogPosition_get, admin_appliance, admin_catalog, done, authenticated,
    need_permission, no, get_text, add_trace.
Ltac open_node :=
  unfold Action_get, isenableToggle_get, NodeEdit_post, job_notify, authenticated, need_permission.
Ltac open_site :=
  unfold NavAdd_post, NavEdit_post, ajaxNavDelete_post, ajaxNavPositionAdjust_post, EntryAdd_post,
    EntryEdit_post, ajaxEntryDelete_post, ArticleAdd_post, ArticleEdit_post, ajaxArticleDelete_post,
    ajax_each, ConfigEdit_post, ConfigDelete_get, LocaleConfigEdit_post, LocaleConfigDelete_get,
    RegistrationStatusToggle_get, SiteContent.DomainEdit_post, NginxEdit_post, QQAuth2Edit_post,
    NameserversEdit_post, RegistrationProtocolEdit_post, WelcomeNewUserEdit_post, text_edit.

(** ** Life control and the pages of /myun *)

Lemma roles_control n e : keeps (tracks (roles n)) (LifeControl_post e).
Proof.
  apply roles_frozen. open_control.
  repeat first [apply frozen_run_job; done | frozen_step | keeps_step].
Qed.

Lemma roles_attr n e : keeps (tracks (roles n)) (AttrSet_post e).
Proof.
  apply roles_frozen. unfold AttrSet_post, authenticated, attr_one, set_isprivate. frozen_auto.
Qed.

Lemma roles_delete n e : keeps (tracks (roles n)) (InstanceDelete_post e).
Proof.
  apply roles_frozen. open_delete.
  frozen_auto.
Qed.

Lemma roles_myun n path h e : (path, h) ∈ handlers → keeps (tracks (roles n)) (h e).
Proof.
  intros Hin. apply roles_frozen. unfold handlers in Hin.
  repeat (apply elem_of_cons in Hin as [[= -> ->]|Hin]); [..|by apply not_elem_of_nil in Hin].
  all: open_myun.
  all: frozen_auto.
Qed.

(** ** Accounts *)

Section accounts.
Context {ShaI : Sha512} {CodecI : SessionCodec}.
#[local] Set Default Proof Using "All".

Lemma roles_save_session n e k u : keeps (tracks (roles n)) (save_session e k u).
Proof. unfold save_session. roles_auto. Qed.
Lemma roles_redirect_next n e url : keeps (tracks (roles n)) (redirect_next e url).
Proof. unfold redirect_next. roles_auto. Qed.
Lemma roles_add_profile n e u : keeps (tracks (roles n)) (add_profile e u).
Proof. unfold add_profile. roles_auto. Qed.
#[local] Hint Resolve roles_save_session roles_redirect_next roles_add_profile : ly.
Lemma roles_init_account n e u : n < u → keeps (tracks (roles n)) (init_account e u).
Proof. intros Hu. unfold init_account. roles_auto. Qed.
Lemma roles_set_default n k : keeps (tracks (roles n)) (set_default k).
Proof. unfold set_default. roles_auto. Qed.
Lemma roles_add_authkey n e k o : keeps (tracks (roles n)) (add_authkey e k o).
Proof. unfold add_authkey. roles_auto. Qed.
#[local] Hint Resolve roles_init_account roles_set_default roles_add_authkey : ly.

Lemma take_nickname_groups OI U : u_groups (take_nickname OI U) = u_groups U.
Proof. unfold take_nickname. by repeat case_match. Qed.

Lemma roles_account n p e : keeps (tracks (roles n)) (account_handler p e).
Proof.
  destruct p; cbn [account_handler]; open_account.
  all: roles_auto.
  all: apply roles_modify; right; intros U; by rewrite ?take_nickname_groups; repeat case_match.
Qed.
End accounts.

(** ** Login by QQ, the JSON interface, and mail in the controller's server *)

Section interface.
Context {ShaI : Sha512} {CodecI : SessionCodec}.
#[local] Set Default Proof Using "All".

Lemma roles_qq `{!SiteText} parse_qs n e q : keeps (tracks (roles n)) (QQLogin_get parse_qs e q).
Proof.
  unfold QQLogin_get, on_user_info, qq_on_user_info, qq_on_auth, add_authkey, save_session. roles_auto.
Qed.

Lemma roles_api_login n e key : keeps (tracks (roles n)) (Login_api e key).
Proof. unfold Login_api, save_session. roles_auto. Qed.

Lemma roles_api_instance n e : keeps (tracks (roles n)) (InstanceBaseinfo_post e).
Proof.
  unfold InstanceBaseinfo_post, api_authenticated. roles_auto.
Qed.
End interface.

Lemma roles_mail_total n : keeps (tracks (roles n)) mail_total.
Proof. unfold mail_total, set_config, upsert. roles_auto. Qed.
Lemma roles_next_mail n k : keeps (tracks (roles n)) (next_mail k).
Proof. unfold next_mail. roles_auto. Qed.
#[local] Hint Resolve roles_mail_total roles_next_mail : ly.
Lemma roles_mail_users n t d : keeps (tracks (roles n)) (mailto_user_list t d).
Proof. unfold mailto_user_list, mailto_user. roles_auto. Qed.
Lemma roles_mail_address n t d : keeps (tracks (roles n)) (mailto_address t d).
Proof. unfold mailto_address. roles_auto. Qed.

(** ** Messages, the forum, appliances *)

Lemma roles_notify n o d : keeps (tracks (roles n)) (notify_user o d).
Proof. unfold notify_user. roles_auto. Qed.
#[local] Hint Resolve roles_notify : ly.

Lemma roles_message n p e : keeps (tracks (roles n)) (message_handler p e).
Proof.
  destruct p; cbn [message_handler]; open_message.
  all: roles_auto.
Qed.

Lemma roles_tag_loop n old dotag names taglist : keeps (tracks (roles n)) (tag_loop old dotag names taglist).
Proof.
  revert dotag taglist. induction names as [|x l IH]; intros dotag taglist; cbn [tag_loop]; roles_auto; apply IH.
Qed.
Lemma roles_attrs n attr value ids : ∀ code, keeps (tracks (roles n)) (attrs_loop attr value ids code).
Proof. induction ids as [|x l IH]; intros code; cbn [attrs_loop]; roles_auto; apply IH. Qed.
Lemma roles_shots n a files : keeps (tracks (roles n)) (add_screenshots a files).
Proof. induction files as [|[[x y] b] l IH]; cbn [add_screenshots]; roles_auto; apply IH. Qed.
#[local] Hint Resolve roles_tag_loop roles_attrs roles_shots : ly.

Lemma roles_forum n p e : keeps (tracks (roles n)) (forum_handler p e).
Proof.
  destruct p; cbn [forum_handler]; open_forum.
  all: roles_auto.
Qed.

Lemma roles_app n p e : keeps (tracks (roles n)) (app_handler p e).
Proof.
  destruct p; cbn [app_handler]; open_app.
  all: roles_auto.
Qed.

Lemma roles_node n p e : keeps (tracks (roles n)) (node_handler p e).
Proof.
  destruct p; cbn [node_handler]; open_node.
  all: roles_auto.
Qed.

(** ** The requests of the site *)

Section site.
Context {ShaI : Sha512} {CodecI : SessionCodec} {DatesI : Dates} {TextI : SiteText} {IPyI : IPy}.
#[local] Set Default Proof Using "All".

(** The salt that a request of an administrator draws. *)
Definition admin_salt (p : admin_request) : string :=
  match p with AUserAdd s | AResetPass s => s | _ => EmptyString end.

(** A request that may write, and who sends it; salts are hexadecimal digits. The last two
    are messages that reach the controller's server, where nobody is asked who sends them. *)
Inductive serves : option Z → Web Cloud unit → Prop :=
  | serve_control e : serves (cur (rq e)) (LifeControl_post e)
  | serve_attr e : serves (cur e) (AttrSet_post e)
  | serve_delete e : serves (cur (rq e)) (InstanceDelete_post e)
  | serve_myun path h e : (path, h) ∈ handlers → serves (cur (me_rq e)) (h e)
  | serve_account p e :
      has_char dollar (salt_of p) = false → serves (cur e) (account_handler p e)
  | serve_message p e : serves (cur e) (message_handler p e)
  | serve_forum p e : serves (cur e) (forum_handler p e)
  | serve_app p e : serves (cur e) (app_handler p e)
  | serve_node p e : serves (cur e) (node_handler p e)
  | serve_gateway e : serves (cur e) (GatewayConfig_post e)
  | serve_network e : serves (cur e) (NetworkConfig_post e)
  | serve_network_delete e : serves (cur e) (NetworkDelete_get e)
  | serve_users p e :
      has_char dollar (admin_salt p) = false → serves (cur e) (admin_handler p e)
  | serve_site p e : serves (cur e) (site_handler p e)
  | serve_instances e post : serves (cur e) (InstanceManagement e post)
  | serve_mail e : serves (cur e) (_ ← MailTo_post e; mret tt)
  | serve_qq parse_qs e q : serves (cur e) (QQLogin_get parse_qs e q)
  | serve_api_login e key : serves (cur e) (Login_api e key)
  | serve_api_instance e : serves (cur e) (InstanceBaseinfo_post e)
  | serve_mail_users mail_template d : serves None (mailto_user_list mail_template d)
  | serve_mail_address mail_template d : serves None (mailto_address mail_template d).

Definition no_admin (o : option Z) (s : Cloud) : Prop :=
  ∀ u, o = Some u → user_has s "admin" u = false.

(** What asks for the permission [admin] first does nothing for others. *)
Lemma gated {A} e get (m : Web Cloud A) none s :
  no_admin (cur e) s → comm (need_permission e get "admin" m none (start s)).2 = s.
Proof.
  intros H. unfold need_permission. destruct (cur e) as [u|]; [|by destruct get].
  rewrite run_ask. change (work (start s)) with s. by rewrite (H u).
Qed.

Lemma roles_all_add n e : keeps (tracks (roles n)) (AllUserResourceAdd_post e).
Proof.
  unfold AllUserResourceAdd_post, add_resources, add_resource, resource_mail_notice, sendmsg.
  roles_auto.
Qed.

(** Requests to the pages of users, for others than administrators. *)
Lemma roles_users n p e s :
  no_admin (cur e) s → roles n s (comm (admin_handler p e (start s)).2).
Proof.
  intros H. destruct p; cbn [admin_handler];
    unfold UserAdd_post, ResetPass_admin, GroupEdit_user, ResourceAdd_post, ResourceDelete_get,
      ResourceEdit_admin, ResourceEdit_prepare, UserDelete_get,
      GroupMerge_post, GroupManagement_add, GroupManagement_edit, GroupManagement_delete, admin_user,
      named_user, managed_group.
  all: try (rewrite gated by done; exact (roles_refl n s)).
  - unfold ResourceSimpleAdd_post. destruct (cur e) as [u|] eqn:Hu; [|exact (roles_refl n s)].
    rewrite run_ask. change (work (start s)) with s. rewrite (H u) by done. exact (roles_refl n s).
  - rewrite <- request_fst. apply request_tracks. apply roles_all_add.
Qed.

Lemma site_gated p e s : no_admin (cur e) s → comm (site_handler p e (start s)).2 = s.
Proof.
  intros H. destruct p; cbn [site_handler]; open_site;
    by apply gated.
Qed.

Lemma roles_request n o m s :
  serves o m → no_admin o s → roles n s (request m s).1.
Proof.
  intros Hm Ha. destruct Hm.
  all: try (rewrite request_fst; unfold GatewayConfig_post, NetworkConfig_post, NetworkDelete_get,
    InstanceManagement; rewrite gated by done; exact (roles_refl n s)).
  all: try (apply request_tracks; auto using roles_control, roles_attr, roles_delete, roles_account,
    roles_message, roles_forum, roles_app, roles_node, roles_qq, roles_api_login, roles_api_instance, roles_mail_users,
    roles_mail_address; fail).
  - apply request_tracks. by eapply roles_myun.
  - rewrite request_fst. by apply roles_users.
  - rewrite request_fst, site_gated by done. exact (roles_refl n s).
  - rewrite request_fst. unfold MailTo_post, need_permission. destruct (cur e) as [u|] eqn:Hu; [|exact (roles_refl n s)].
    rewrite run_assoc, run_ask. change (work (start s)) with s. rewrite (Ha u) by done. exact (roles_refl n s).
Qed.

Lemma roles_user_has n s s' k perm :
  seq_ok (c_users s) → n = seq (c_users s) → roles n s s' → is_Some (row (A := User) s k) →
  user_has s' perm k = user_has s perm k.
Proof.
  intros Hs -> H [U HU]. destruct (H Hs) as (_ & _ & Hg & Hp & K); [lia|].
  assert (k ≤ seq (c_users s)) as Hk by exact (row_seq s k U Hs HU). specialize (K k Hk).
  rewrite HU in K. cbn [fmap option_fmap option_map] in K. unfold user_has. rewrite HU.
  destruct (row s' k) as [U'|]; [|done]. injection K as ->.
  induction (u_groups U) as [|g l IH]; [done|]. cbn [existsb]. rewrite IH. f_equal.
  unfold group_has, row. simpl. by rewrite Hg, Hp.
Qed.

(** C3: nobody gains or loses a permission by a request of somebody who is no
    administrator: whatever request of the site is served, whoever sends it (nobody, or a
    user without the permission admin), every user who was there has exactly the
    permissions he had, in any part of the site. *)
Theorem permissions_safe o m s k perm :
  serves o m → no_admin o s → seq_ok (c_users s) → is_Some (row (A := User) s k) →
  user_has (request m s).1 perm k = user_has s perm k.
Proof. intros Hm Ha Hs Hk. eapply roles_user_has; [done|done|by eapply roles_request|done]. Qed.
End site.

(** User 1 asks to be put into the group of the administrators; the administrator 2
    does it. *)
Definition promote (u : Z) : Web Cloud unit :=
  admin_handler (DatesI := λ _, None) (AGroupEdit ["admin"%string]) (rq (life_env u [("id", "1")]%string)).

Example promotions :
  (λ u, user_has (request (promote u) life_cloud).1 "admin" 1) <$> [1; 2] = [false; true].
Proof. vm_compute. reflexivity. Qed.

Lemma permissions_safe_witness :
  user_has (request (promote 1) life_cloud).1 "admin" 1 = user_has life_cloud "admin" 1.
Proof.
  apply (permissions_safe (DatesI := λ _, None)
    (TextI := {| dumps _ := "{}"%string; loads _ := None; markdown t := t |}) (IPyI := example_ipy)
    (Some 1)).
  - by apply (serve_users (DatesI := λ _, None) (AGroupEdit ["admin"%string])
      (rq (life_env 1 [("id", "1")]%string))).
  - intros u [= <-]. vm_compute. reflexivity.
  - exact (table_of_seq_ok _).
  - vm_compute. by eexists.
Defined.
