(* ===== verification/AccountKeys.v ===== *)
(** Public keys: every user who has keys has exactly one default key, whatever
    requests are sent to the account pages. *)
From Stdlib Require Import Ascii String.
From S2P Require Import Prelude PyText Password Table Session Cloud Quota InstanceModel Web Forms LifeControl Myun Account Register UserDelete AccountSafety.
#[local] Open Scope Z_scope.

(** The key [d] is a key of the user [u] and the only default one. *)
Definition default_key (s : Cloud) (u d : Z) : Prop :=
  (∃ D, row s d = Some D ∧ k_user_id D = u) ∧
  ∀ j J, row s j = Some J → k_user_id J = u → k_isdefault J = bool_decide (j = d).

Definition keys_ok (s : Cloud) : Prop :=
  seq_ok (c_keys s) ∧
  ∀ k K, row s k = Some K → k_user_id K ≠ NULL → ∃ d, default_key s (k_user_id K) d.

Lemma keys_ok_ext s s' : c_keys s = c_keys s' → keys_ok s → keys_ok s'.
Proof. unfold keys_ok, default_key, row. simpl. by intros ->. Qed.

(** ** One change of the table *)

(** The rows of [s'] are those of [s], each changed by [f]. *)
Definition mapped (f : Z → PublicKey → PublicKey) (s s' : Cloud) : Prop :=
  seq (c_keys s') = seq (c_keys s) ∧ ∀ j, row s' j = f j <$> row s j.

Lemma mapped_seq_ok f s s' : mapped f s s' → seq_ok (c_keys s) → seq_ok (c_keys s').
Proof.
  intros [Hq Hr] Hs i Hi. specialize (Hr i). unfold row in Hr. simpl in Hr.
  rewrite Hr, Hs; [done|lia].
Qed.

(** [set_default] makes [k] the default key of its owner. *)
Definition make_default (u k j : Z) (J : PublicKey) : PublicKey :=
  if k_user_id J =? u then J <| k_isdefault := bool_decide (j = k) |> else J.

Lemma make_default_ok s s' k K :
  row s k = Some K → mapped (make_default (k_user_id K) k) s s' →
  seq_ok (c_keys s) → (∀ j J, row s j = Some J → k_user_id J ≠ NULL → k_user_id J ≠ k_user_id K →
    ∃ d, default_key s (k_user_id J) d) → keys_ok s'.
Proof.
  intros HK Hm Hs Hother. split; [by eapply mapped_seq_ok|]. destruct Hm as [_ Hm].
  assert (∀ j J', row s' j = Some J' → ∃ J, row s j = Some J ∧ J' = make_default (k_user_id K) k j J ∧
    k_user_id J' = k_user_id J) as Hinv.
  { intros j J'. rewrite Hm. intros (J & -> & HJ)%fmap_Some. exists J. split_and!; [done|done|].
    subst J'. unfold make_default. by case_match. }
  intros j J' (J & HJ & -> & E)%Hinv. rewrite E. intros Hn.
  destruct (decide (k_user_id J = k_user_id K)) as [Eu|Hu].
  - exists k. split.
    + exists (make_default (k_user_id K) k k K). rewrite Hm, HK, Eu. split; [done|].
      unfold make_default. by case_match.
    + intros i I' (x & HI & -> & E')%Hinv Hi. unfold make_default.
      rewrite (proj2 (Z.eqb_eq _ _)) by congruence. done.
  - destruct (Hother j J HJ Hn Hu) as (d & (D & HD & HDu) & Hd). exists d.
    assert (∀ i X, k_user_id X = k_user_id J → make_default (k_user_id K) k i X = X) as Hid.
    { intros i X HX. unfold make_default. by rewrite (proj2 (Z.eqb_neq _ _)) by congruence. }
    split.
    + exists D. rewrite Hm, HD. simpl. by rewrite Hid.
    + intros i I' (x & HI & -> & E')%Hinv Hi. rewrite E' in Hi. rewrite Hid by done.
      by apply Hd.
Qed.

(** A loop that changes each listed row. *)
Lemma for_each_modify (g : PublicKey → PublicKey) (l : list (Z * PublicKey)) :
  (∀ x, g (g x) = g x) → ∀ w : world Cloud,
  (∀ x, x ∈ l → is_Some (row (A := PublicKey) (work w) x.1)) →
  ∃ s', for_each l (λ x, modify x.1 g) w = (Val tt, mkWorld s' (comm w) (outs w)) ∧
    mapped (λ j J, if decide (j ∈ l.*1) then g J else J) (work w) s'.
Proof.
  intros Hg. induction l as [|[i X] l IH]; intros w Hl.
  - exists (work w). split; [by destruct w|]. split; [done|]. intros j. by destruct (row (work w) j).
  - destruct (Hl (i, X)) as [Y HY]; [by left|]. simpl in HY.
    destruct (IH (mkWorld (set_tbl (tput i (g Y) (tbl (work w))) (work w)) (comm w) (outs w)))
      as (s' & E & Hq & Hr).
    { intros x Hx. cbn [work]. rewrite row_put. case_decide; [by eexists|]. apply Hl. by right. }
    exists s'. split.
    + change ((modify i g;; for_each l (λ x, modify x.1 g)) w =
              (Val tt, mkWorld s' (comm w) (outs w))). web_run. rewrite HY. by rewrite E.
    + split; [by rewrite Hq|]. intros j. rewrite Hr. cbn [work fmap list_fmap fst].
      rewrite row_put. destruct (decide (i = j)) as [->|Hj].
      * rewrite HY. simpl. rewrite (decide_True (P := j ∈ j :: _)) by (by left).
        case_decide; by rewrite ?Hg.
      * destruct (row (work w) j) as [Z|]; [|done]. simpl. f_equal.
        destruct (decide (j ∈ l.*1)) as [Hin|Hin].
        -- by rewrite decide_True by (by right).
        -- rewrite decide_False; [done|]. rewrite elem_of_cons. naive_solver.
Qed.

Lemma set_default_run k (w : world Cloud) K :
  row (work w) k = Some K →
  ∃ s', set_default k w = (Val tt, mkWorld s' (comm w) (outs w)) ∧
    mapped (make_default (k_user_id K) k) (work w) s'.
Proof.
  intros HK. unfold set_default. web_run. rewrite HK.
  web_run. set (l := keys_of (work w) (k_user_id K)).
  assert (∀ j, j ∈ l.*1 ↔ ∃ J, row (work w) j = Some J ∧ k_user_id J = k_user_id K) as Hl.
  { intros j. rewrite list_elem_of_fmap. split.
    - intros ([i J] & -> & [HJ Hu]%elem_of_select). exists J. split; [done|]. by bool_prop.
    - intros (J & HJ & Hu). exists (j, J). split; [done|]. apply elem_of_select.
      split; [done|]. by apply Z.eqb_eq. }
  destruct (for_each_modify (λ J : PublicKey, J <| k_isdefault := false |>) l)
    with (w := w) as (s1 & E & Hq & Hr); [done| |].
  { intros [j J] [HJ _]%elem_of_select. by eexists. }
  rewrite (run_bind _ _ _ _ _ E). web_run.
  assert (row s1 k = Some (K <| k_isdefault := false |>)) as HK1.
  { rewrite Hr, HK. simpl. rewrite decide_True; [done|]. apply Hl. by exists K. }
  rewrite HK1. eexists. split; [done|]. split; [done|]. intros j. rewrite row_put.
  destruct (decide (k = j)) as [->|Hj].
  - rewrite HK. unfold make_default. simpl. by rewrite Z.eqb_refl, bool_decide_true.
  - rewrite Hr. destruct (row (work w) j) as [J|] eqn:HJ; [|done]. simpl. f_equal.
    unfold make_default. destruct (Z.eqb_spec (k_user_id J) (k_user_id K)) as [E'|E'].
    + rewrite decide_True by (apply Hl; eauto). by rewrite bool_decide_false.
    + rewrite decide_False; [done|]. rewrite Hl. intros (J' & HJ' & ?). congruence.
Qed.

(** ** The three handlers *)

Lemma default_here (s : Cloud) u : has_default s u = true ↔
  ∃ k K, row s k = Some K ∧ k_user_id K = u ∧ k_isdefault K = true.
Proof.
  unfold has_default, keys_of. rewrite existsb_exists. split.
  - intros ([k K] & [Hk Hu]%list_elem_of_In%elem_of_select & Hd). exists k, K. by bool_prop.
  - intros (k & K & Hk & Hu & Hd). exists (k, K). split; [|done].
    apply list_elem_of_In, elem_of_select. split; [done|]. by apply Z.eqb_eq.
Qed.

Lemma insert_key_ok s u name data :
  keys_ok s → keys_ok (set_tbl (tinsert (new_key s u name data) (tbl s)).2 s).
Proof.
  intros [Hs Hk]. set (K := new_key s u name data). set (s1 := set_tbl _ s).
  split; [by apply tinsert_seq_ok|].
  assert (row (A := PublicKey) s (seq (c_keys s) + 1) = None) as Hnew by (apply Hs; lia).
  assert (∀ j J, row s1 j = Some J →
    (j = seq (c_keys s) + 1 ∧ J = K) ∨ (j ≠ seq (c_keys s) + 1 ∧ row s j = Some J)) as Hinv
    by (intros j J HJ; apply (row_insert_inv s K j J HJ)).
  assert (row s1 (seq (c_keys s) + 1) = Some K) as HK by exact (row_insert s K).
  assert (∀ j (J : PublicKey), row s j = Some J → row s1 j = Some J) as Hold.
  { intros j J HJ. unfold row, s1 in *. rewrite tbl_set. simpl in *.
    rewrite lookup_insert_ne; [done|]. intros <-. congruence. }
  destruct (has_default s u) eqn:Ed.
  - assert (k_isdefault K = false) as HKd by (unfold K, new_key; simpl; by rewrite Ed).
    apply default_here in Ed as (e & E & He & Eu & Ee).
    assert (∀ d v, default_key s v d → default_key s1 v d) as Hkeep.
    { intros d v [(D & HD & HDu) Hd]. split; [exists D; auto|].
      intros j J [[-> ->]|[_ HJ]]%Hinv Hu; [|by apply Hd].
      rewrite HKd. symmetry. apply bool_decide_false. congruence. }
    intros j J [[-> ->]|[_ HJ]]%Hinv Hn.
    + destruct (Hk e E He) as (d & Hd); [by rewrite Eu|]. exists d. apply Hkeep. by rewrite Eu in Hd.
    + destruct (Hk j J HJ Hn) as (d & Hd). exists d. by apply Hkeep.
  - assert (k_isdefault K = true) as HKd by (unfold K, new_key; simpl; by rewrite Ed).
    assert (u ≠ NULL → ∀ j (J : PublicKey), row s j = Some J → k_user_id J ≠ u) as Hnone.
    { intros Hn j J HJ HuJ. destruct (Hk j J HJ) as (d & (D & HD & HDu) & Hd); [congruence|].
      enough (has_default s u = true) by congruence. apply default_here.
      exists d, D. split_and!; [done|congruence|]. rewrite (Hd d D HD HDu).
      by apply bool_decide_true. }
    intros j J [[-> ->]|[_ HJ]]%Hinv Hn.
    + exists (seq (c_keys s) + 1). split; [by exists K|].
      intros i x [[-> ->]|[_ Hi]]%Hinv Hu; [by rewrite HKd, bool_decide_true|].
      by destruct (Hnone Hn i x Hi).
    + destruct (Hk j J HJ Hn) as (d & (D & HD & HDu) & Hd). exists d. split; [exists D; auto|].
      intros i x [[-> ->]|[_ Hi]]%Hinv Hu; [|by apply Hd].
      rewrite <- Hu in Hn. by destruct (Hnone Hn j J HJ).
Qed.

Lemma set_default_ok k (w : world Cloud) (K : PublicKey) :
  row (work w) k = Some K → keys_ok (work w) →
  ∃ s', set_default k w = (Val tt, mkWorld s' (comm w) (outs w)) ∧ keys_ok s'.
Proof.
  intros HK [Hs Hk]. destruct (set_default_run k w K HK) as (s' & E & Hm).
  exists s'. split; [done|]. eapply make_default_ok; eauto.
Qed.

(** The optional [set_default] of the forms. *)
Lemma maybe_default_ok (b : bool) k (w : world Cloud) (K : PublicKey) :
  row (work w) k = Some K → keys_ok (work w) →
  ∃ s', (if b then set_default k else mret tt) w = (Val tt, mkWorld s' (comm w) (outs w)) ∧
    keys_ok s'.
Proof.
  intros HK Hk. destruct b; [by eapply set_default_ok|].
  exists (work w). split; [by destruct w|done].
Qed.

Lemma KeyAdd_ok e s : keys_ok s → keys_ok (request (PublicKeyAdd_post e) s).1.
Proof.
  intros Hs. unfold PublicKeyAdd_post.
  match goal with |- context [authenticated e false ?m tt] =>
    destruct (authenticated_run e false m tt (start s)) as [[_ H]|(u & Hu & H)] end;
    [by rewrite request_quiet|].
  rewrite request_fst, H. clear H. destruct (key_fields e) as [[name key]|]; [|done].
  web_run. change (work (start s)) with s.
  set (s1 := set_tbl _ s). set (k := seq _ + 1).
  destruct (maybe_default_ok (bool_field e "isdefault") k
    (mkWorld s1 s1 (outs (start s))) (new_key s u name key)) as (s' & E & Hk).
  - exact (row_insert s (new_key s u name key)).
  - by apply insert_key_ok.
  - rewrite (run_bind _ _ _ _ _ E). web_run. done.
Qed.

Lemma my_key_run e w :
  quiet w (my_key e w) ∧
  ∀ k K w', my_key e w = (Val (Some (k, K)), w') → w' = w ∧ row (work w) k = Some K ∧
    cur e = Some (k_user_id K).
Proof.
  unfold my_key, no. destruct (_ =? 0); [by split|]. web_run.
  destruct (row (work w) _) as [K|] eqn:E; [|by split].
  destruct (cur e) as [u|]; [|by split].
  destruct (Z.eqb_spec (k_user_id K) u) as [Eu|]; [|by split].
  split; [done|]. intros k' K' w' [= <- <- <-]. by rewrite Eu.
Qed.

Lemma keys_ok_edit s k (K : PublicKey) name data :
  row s k = Some K → keys_ok s →
  keys_ok (set_tbl (tput k (K <| k_name := name |> <| k_data := data |>) (tbl s)) s).
Proof.
  intros HK [Hs Hk].
  split; [apply (tput_seq_ok k _ (tbl s)); [by eexists|done]|].
  set (s1 := set_tbl _ s).
  assert (∀ j J, row s1 j = Some J → ∃ I : PublicKey, row s j = Some I ∧
    k_user_id J = k_user_id I ∧ k_isdefault J = k_isdefault I) as Hinv.
  { intros j J. unfold s1. rewrite row_put. case_decide; [|by eauto].
    intros [= <-]. subst. by exists K. }
  intros j J (x & Hx & Eu & _)%Hinv Hn.
  destruct (Hk j x Hx) as (d & (D & HD & HDu) & Hd); [congruence|].
  rewrite Eu. exists d. split.
  - destruct (decide (k = d)) as [->|].
    + eexists. unfold s1. rewrite row_put_eq. split; [done|]. rewrite HK in HD. by simplify_eq.
    + exists D. unfold s1. by rewrite row_put_ne.
  - intros i I' (y & Hy & Eu' & ->)%Hinv Hu. apply Hd; [done|congruence].
Qed.

Lemma KeyEdit_ok e s : keys_ok s → keys_ok (request (PublicKeyEdit_post e) s).1.
Proof.
  intros Hs. unfold PublicKeyEdit_post. rewrite request_fst.
  destruct (my_key_run e (start s)) as [[Hq1 Hq2] Hm].
  destruct (my_key e (start s)) as [[o|x] w1] eqn:E;
    [rewrite (run_bind _ _ _ _ _ E)|rewrite (run_exn _ _ _ _ _ E); simpl in *; by rewrite Hq2].
  simpl in Hq1, Hq2. destruct o as [[k K]|].
  2:{ unfold authenticated. destruct (cur e); web_run; simpl; by rewrite Hq2. }
  destruct (Hm k K w1 eq_refl) as (-> & HK & Hu). change (work (start s)) with s in HK.
  unfold authenticated. rewrite Hu. destruct (key_fields e) as [[name key]|]; [|done].
  web_run. change (work (start s)) with s. case_match; [done|]. web_run.
  change (work (start s)) with s. rewrite HK.
  set (K' := K <| k_name := _ |> <| k_data := _ |>). set (s1 := set_tbl _ s).
  destruct (maybe_default_ok (bool_field e "isdefault") k (mkWorld s1 s (outs (start s))) K')
    as (s' & E' & Hk); [apply row_put_eq|by apply keys_ok_edit|].
  change (comm (start s)) with s. rewrite (run_bind _ _ _ _ _ E'). web_run. done.
Qed.

(** A key without an owner is nobody's default. *)
Lemma ownerless_ok s k (K K' : PublicKey) :
  row s k = Some K → k_user_id K = NULL → k_user_id K' = NULL → keys_ok s →
  keys_ok (set_tbl (tput k K' (tbl s)) s).
Proof.
  intros HK HKn HKn' [Hs Hk]. split; [apply (tput_seq_ok k _ (tbl s)); [by eexists|done]|].
  assert (∀ j (J : PublicKey), k_user_id J ≠ NULL →
    row (set_tbl (tput k K' (tbl s)) s) j = Some J ↔ row s j = Some J) as Hr.
  { intros j J HJ. rewrite row_put. case_decide as E; [|done]. subst.
    split; intros ?; exfalso; congruence. }
  intros j J HJ Hn. apply Hr in HJ; [|done]. destruct (Hk j J HJ Hn) as (d & (D & HD & HDu) & Hd).
  exists d. split; [exists D; split; [apply Hr; congruence|done]|].
  intros x X HX HXu. apply Hd; [apply Hr; congruence|done].
Qed.

(** Deleting the default key makes the owner's first key the default. *)
Lemma delete_key_ok s k (K : PublicKey) :
  row s k = Some K → keys_ok s →
  let s1 := set_tbl (tdelete k (tbl s : table PublicKey)) s in
  (k_isdefault K = false → keys_ok s1) ∧
  (k_isdefault K = true →
     match keys_of s1 (k_user_id K) with
     | [] => keys_ok s1
     | (k', K') :: _ =>
         keys_ok (set_tbl (tput k' (K' <| k_isdefault := true |>) (tbl s1)) s1)
     end).
Proof.
  intros HK [Hs Hk] s1.
  assert (∀ j (J : PublicKey), row s1 j = Some J ↔ j ≠ k ∧ row s j = Some J) as Hr.
  { intros j J. unfold s1. rewrite row_delete. case_decide; split; [done|by intros []|done|by intros []]. }
  assert (seq_ok (c_keys s1)) as Hs1 by (by apply tdelete_seq_ok).
  assert (∀ j (J : PublicKey), row s1 j = Some J → k_user_id J ≠ NULL → k_user_id J ≠ k_user_id K →
    ∃ d, default_key s1 (k_user_id J) d) as Hother.
  { intros j J HJ Hn Hu. destruct (Hk j J) as (c & (X & HX & HXu) & Hc); [by apply Hr in HJ as []|done|].
    exists c. split; [exists X; split; [apply Hr; split; [congruence|done]|done]|].
    intros i x Hx. apply Hr in Hx as [_ Hx]. by apply Hc. }
  destruct (decide (k_user_id K = NULL)) as [Ho|Ho].
  { assert (keys_ok s1) as H1 by (split; [done|]; intros j J HJ Hn; apply (Hother j J HJ Hn); congruence).
    split; [done|]. intros _. destruct (keys_of s1 (k_user_id K)) as [|[k' K'] l] eqn:El; [done|].
    assert ((k', K') ∈ keys_of s1 (k_user_id K)) as [HK' Hu'%Z.eqb_eq]%elem_of_select
      by (rewrite El; by left).
    apply (ownerless_ok s1 k' K'); [done|congruence|cbn; congruence|done]. }
  destruct (Hk k K HK Ho) as (d & (D & HD & HDu) & Hdd).
  assert (k_isdefault K = bool_decide (k = d)) as Hkd by by apply Hdd.
  split; intros Hdef; rewrite Hkd in Hdef.
  - apply bool_decide_eq_false in Hdef. split; [done|]. intros j J HJ Hn.
    destruct (decide (k_user_id J = k_user_id K)) as [->|Hu]; [|by apply (Hother j)].
    exists d. split; [exists D; split; [apply Hr; split; [congruence|done]|done]|].
    intros i x Hx. apply Hr in Hx as [_ Hx]. by apply Hdd.
  - apply bool_decide_eq_true in Hdef as <-.
    destruct (keys_of s1 (k_user_id K)) as [|[k' K'] l] eqn:El.
    + split; [done|]. intros j J HJ Hn. destruct (decide (k_user_id J = k_user_id K)) as [E|Hu];
        [|by apply (Hother j)].
      assert ((j, J) ∈ keys_of s1 (k_user_id K)) as Hin
        by (apply elem_of_select; split; [done|by apply Z.eqb_eq]).
      rewrite El in Hin. by apply elem_of_nil in Hin.
    + assert ((k', K') ∈ keys_of s1 (k_user_id K)) as [HK' Hu'%Z.eqb_eq]%elem_of_select
        by (rewrite El; by left).
      apply (make_default_ok s1 _ k' K' HK'); [|done|by rewrite Hu'].
      split; [done|]. intros j. rewrite row_put. unfold make_default.
      destruct (decide (k' = j)) as [<-|Hj].
      * rewrite HK'. simpl. by rewrite Z.eqb_refl, bool_decide_true.
      * destruct (row s1 j) as [J|] eqn:HJ; [|done]. simpl. f_equal.
        destruct (Z.eqb_spec (k_user_id J) (k_user_id K')) as [E|]; [|done].
        rewrite bool_decide_false by congruence. apply Hr in HJ as [Hjk HJ].
        assert (k_isdefault J = false) as Hf
          by (rewrite (Hdd j J HJ) by congruence; by apply bool_decide_false).
        destruct J. simpl in *. by rewrite Hf.
Qed.

Lemma KeyDelete_ok e s : keys_ok s → keys_ok (request (PublicKeyDelete_get e) s).1.
Proof.
  intros Hs. unfold PublicKeyDelete_get. rewrite request_fst.
  destruct (my_key_run e (start s)) as [[Hq1 Hq2] Hm].
  destruct (my_key e (start s)) as [[o|x] w1] eqn:E;
    [rewrite (run_bind _ _ _ _ _ E)|rewrite (run_exn _ _ _ _ _ E); simpl in *; by rewrite Hq2].
  simpl in Hq1, Hq2. destruct o as [[k K]|].
  2:{ unfold authenticated. destruct (cur e); web_run; simpl; by rewrite Hq2. }
  destruct (Hm k K w1 eq_refl) as (-> & HK & Hu). change (work (start s)) with s in HK.
  unfold authenticated. rewrite Hu. web_run. change (work (start s)) with s.
  destruct (delete_key_ok s k K HK Hs) as [H1 H2].
  destruct (k_isdefault K); [specialize (H2 eq_refl)|by web_run; apply H1].
  web_run. set (s1 := set_tbl _ s) in *.
  destruct (keys_of s1 (k_user_id K)) as [|[k' K'] l] eqn:El; [by web_run|].
  assert ((k', K') ∈ keys_of s1 (k_user_id K)) as [HK' _]%elem_of_select
    by (rewrite El; by left).
  web_run. rewrite HK'. web_run. done.
Qed.

(** ** Every request *)

Section keys.
Context {ShaI : Sha512} {CodecI : SessionCodec}.
#[local] Set Default Proof Using "All".

Definition edits_keys (p : account_request) : bool :=
  match p with RKeyAdd | RKeyEdit | RKeyDelete => true | _ => false end.

Lemma keys_frozen p e : edits_keys p = false → keeps (frozen c_keys) (account_handler p e).
Proof.
  intros Hp. destruct p; try done.
  all: unfold account_handler, Login_post, Logout_get, ResetPassApply_post, ResetPass_post,
    ResetMyPass_post, BaseInfoEdit_post, EmailValidate_get,
    EmailValidate_post, Register_post, post_apply, post_registration, OpenIDUserNew_post,
    OpenIDUserBinding_post, qq_on_auth, qq_on_user_info, delete_session, reset_apply,
    openid_handler, authenticated, add_authkey, init_account, add_profile, save_session,
    redirect_next, no.
  all: frozen_auto.
Qed.

Lemma keys_handler p e s :
  keys_ok s → keys_ok (request (account_handler p e) s).1.
Proof.
  intros Hs. destruct (edits_keys p) eqn:Ep.
  - destruct p; try done; cbn [account_handler];
      [by apply KeyAdd_ok|by apply KeyEdit_ok|by apply KeyDelete_ok].
  - apply (keys_ok_ext s); [|done]. symmetry. apply request_frozen. by apply keys_frozen.
Qed.

(** Whatever requests are sent to the account pages, every user who has
    public keys has exactly one default key: the first one that is added, the
    one that was last made the default, or, when the default key is deleted, the
    first that is left. *)
Theorem default_keys_ok p e s :
  keys_ok s → keys_ok (request (account_handler p e) s).1.
Proof. apply keys_handler. Qed.
End keys.

Lemma default_keys_ok_witness :
  keys_ok (request (account_handler RKeyAdd (account_req (Some 1)
    [("name", "desk"); ("key", "ssh-rsa BBBB"); ("isdefault", "y")]%string)) account_cloud).1.
Proof.
  apply (default_keys_ok RKeyAdd). split.
  - exact (table_of_seq_ok _).
  - intros k K HK. apply table_of_one in HK as [-> ->]. exists 1. split.
    + eexists. split; [vm_compute; reflexivity|done].
    + intros j J [-> ->]%table_of_one _. by vm_compute.
Defined.
