(* ===== verification/Reach.v ===== *)
(** The site as a transition system: it is set up on an empty database, set up again after
    updates, and serves requests in any order; what is true of every database it reaches.
    The invariants of the parts (AccountSafety, AccountKeys, SiteOk, ForumVotes, MyDomain,
    MyNetwork, NetworkAdmin) are kept by the requests of all the other parts too. *)
From Stdlib Require Import Ascii String.
From S2P Require Import Prelude PyText PyBytes Password Table Session Cloud Quota JobModel InstanceModel Web Forms LifeControl Myun MyStorage MyNetwork MyDomain MyCreate NetworkAdmin MyRoutes Account Message Forum ForumVotes AppStore SiteContent SiteOk OpsAdmin Api MailTo Register QQLogin Setup UserDelete UserAdmin AccountSafety Site AccountKeys.
#[local] Open Scope Z_scope.

(** ** The invariant *)

(** Domain names are well formed and distinct. *)
Definition domains_ok (s : Cloud) : Prop := seq_ok (c_domains s) ∧ names_ok (c_domains s).
(** Port numbers are distinct, and so are the targets of ports that are bound. *)
Definition ports_ok (s : Cloud) : Prop := unique pm_gateway_port (c_ports s) ∧ targets_unique s.
(** No address is there twice. *)
Definition ips_ok (s : Cloud) : Prop := unique ip_ip (c_ips s).

Record site_ok (s : Cloud) : Prop := {
  ok_users : users_ok s;
  ok_keys : keys_ok s;
  ok_content : content_ok s;
  ok_votes : votes_ok s;
  ok_domains : domains_ok s;
  ok_ports : ports_ok s;
  ok_ips : ips_ok s }.

(** Each part looks at its own tables. *)
Lemma content_ok_ext s s' : content s = content s' → content_ok s → content_ok s'.
Proof. unfold content, content_ok, row. simpl. by intros [= -> -> -> -> ->]. Qed.
Lemma votes_ok_ext s s' : voting s = voting s' → votes_ok s → votes_ok s'.
Proof. unfold voting, votes_ok. by intros [= -> -> -> ->]. Qed.
Lemma domains_ok_ext s s' : c_domains s = c_domains s' → domains_ok s → domains_ok s'.
Proof. unfold domains_ok. by intros ->. Qed.
Lemma ports_ok_ext s s' : c_ports s = c_ports s' → ports_ok s → ports_ok s'.
Proof. unfold ports_ok, targets_unique, row. simpl. by intros ->. Qed.
Lemma ips_ok_ext s s' : c_ips s = c_ips s' → ips_ok s → ips_ok s'.
Proof. unfold ips_ok. by intros ->. Qed.

Definition view (s : Cloud) :=
  (c_users s, c_keys s, content s, voting s, c_domains s, c_ports s, c_ips s).

Lemma site_ok_ext s s' : view s = view s' → site_ok s → site_ok s'.
Proof.
  intros E [H1 H2 H3 H4 H5 H6 H7]. unfold view in E. repeat (apply pair_equal_spec in E as [E ?]).
  split; eauto using users_ok_ext, keys_ok_ext, content_ok_ext, votes_ok_ext, domains_ok_ext,
    ports_ok_ext, ips_ok_ext.
Qed.

(** The parts whose tables a write leaves alone. *)
Ltac other_parts H :=
  destruct H as [Pusers Pkeys Pcontent Pvotes Pdomains Pports Pips]; split;
  first [exact Pusers | exact Pkeys | exact Pcontent | exact Pvotes | exact Pdomains | exact Pports
        | exact Pips | idtac].

(** ** One write *)

Lemma site_frozen {A} (m : Web Cloud A) : keeps (frozen view) m → keeps (inv_rel site_ok) m.
Proof. apply frozen_inv. apply site_ok_ext. Qed.
Lemma site_commit : keeps (inv_rel site_ok) commit.
Proof. intros [s c o]. by split. Qed.

Lemma site_user k (f : User → User) :
  (∀ U, u_username (f U) = u_username U) → (∀ U, u_password (f U) = u_password U) →
  keeps (inv_rel site_ok) (modify k f).
Proof.
  intros Hn Hp. apply keeps_modify; [apply _|]. intros s c o U HU Hs Hc. cbn [work comm] in *.
  split; [|done]. other_parts Hs. apply users_ok_put with U; auto.
Qed.

Section unique.
Context {A K : Type} `{HasTable Cloud A, EqDecision K} (key : A → K).
#[local] Set Default Proof Using "All".
Lemma unique_modify k (f : A → A) (s : Cloud) x :
  (∀ x, key (f x) = key x) → row s k = Some x → unique key (tbl s) → unique key (tput k (f x) (tbl s)).
Proof. intros Hf Hx. by apply unique_same with x. Qed.
End unique.

Lemma site_ip k (f : IPPool → IPPool) :
  (∀ P, ip_ip (f P) = ip_ip P) → keeps (inv_rel site_ok) (modify k f).
Proof.
  intros Hf. apply keeps_modify; [apply _|]. intros s c o P HP Hs Hc. cbn [work comm] in *.
  split; [|done]. other_parts Hs. by apply (unique_modify ip_ip k f s P).
Qed.
Lemma site_ip_delete k : keeps (inv_rel site_ok) (delete_row IPPool k).
Proof.
  intros [s c o] Hs Hc. cbn [work comm] in *. split; [|done]. other_parts Hs.
  by apply (unique_delete ip_ip (c_ips s)).
Qed.

(** A port is freed, or keeps its number and loses its address. *)
Lemma site_port k (f : PortMapping → PortMapping) :
  (∀ P, pm_gateway_port (f P) = pm_gateway_port P) → (∀ P, pm_ip_id (f P) = None) →
  keeps (inv_rel site_ok) (modify k f).
Proof.
  intros Hf Hn. apply keeps_modify; [apply _|]. intros s c o P HP Hs Hc. cbn [work comm] in *.
  split; [|done]. other_parts Hs. destruct Pports as [Hu Ht].
  split; [by apply (unique_modify pm_gateway_port k f s P)|].
  intros q q' Q Q' ip n. rewrite !row_put. repeat case_decide; [congruence|..].
  - intros [= <-] _. by rewrite Hn.
  - intros _ [= <-] _. by rewrite Hn.
  - apply Ht.
Qed.
Lemma site_domain_delete k : keeps (inv_rel site_ok) (delete_row UserDomain k).
Proof.
  intros [s c o] Hs Hc. cbn [work comm] in *. split; [|done]. other_parts Hs.
  destruct Pdomains as [Hs [N1 N2]]. split; [by apply (tdelete_seq_ok k (c_domains s))|].
  split; simpl.
  - intros j D [_ HD]%lookup_delete_Some. by apply (N1 j).
  - intros j j' D D' [_ HD]%lookup_delete_Some [_ HD']%lookup_delete_Some. by apply N2.
Qed.

Ltac site_step :=
  lazymatch goal with
  | |- keeps _ commit => apply site_commit
  | |- keeps _ (modify (A := User) _ _) => apply site_user; done
  | |- keeps _ (modify (A := IPPool) _ _) => apply site_ip; done
  | |- keeps _ (delete_row IPPool _) => apply site_ip_delete
  | |- keeps _ (modify (A := PortMapping) _ _) => apply site_port; done
  | |- keeps _ (delete_row UserDomain _) => apply site_domain_delete
  | |- keeps _ (emit _) => apply site_frozen, frozen_emit
  | |- keeps _ (modify _ _) => apply site_frozen; solve [frozen_auto]
  | |- keeps _ (put_row _ _) => apply site_frozen; solve [frozen_auto]
  | |- keeps _ (add_row _) => apply site_frozen; solve [frozen_auto]
  | |- keeps _ (delete_row _ _) => apply site_frozen; solve [frozen_auto]
  | |- keeps _ _ => keeps_step
  end.
Ltac site_auto := repeat first [site_step | solve [eauto 2 with ly]].

(** ** Parts that need no look at what they write *)

Lemma site_control e : keeps (inv_rel site_ok) (LifeControl_post e).
Proof.
  apply site_frozen. open_control. repeat first [apply frozen_run_job; done | frozen_step | keeps_step].
Qed.
Lemma site_attr e : keeps (inv_rel site_ok) (AttrSet_post e).
Proof. apply site_frozen. unfold AttrSet_post, authenticated, attr_one, set_isprivate. frozen_auto. Qed.
Lemma site_delete e : keeps (inv_rel site_ok) (InstanceDelete_post e).
Proof. open_delete. site_auto. Qed.

Lemma site_notify o d : keeps (inv_rel site_ok) (notify_user o d).
Proof. unfold notify_user. site_auto. Qed.
#[local] Hint Resolve site_notify : ly.
Lemma site_message p e : keeps (inv_rel site_ok) (message_handler p e).
Proof. destruct p; cbn [message_handler]; open_message. all: site_auto. Qed.

Lemma site_attrs attr value ids : ∀ code, keeps (inv_rel site_ok) (attrs_loop attr value ids code).
Proof. induction ids as [|x l IH]; intros code; cbn [attrs_loop]; site_auto; apply IH. Qed.
Lemma site_shots a files : keeps (inv_rel site_ok) (add_screenshots a files).
Proof. induction files as [|[[x y] b] l IH]; cbn [add_screenshots]; site_auto; apply IH. Qed.
#[local] Hint Resolve site_attrs site_shots : ly.
Lemma site_app p e : keeps (inv_rel site_ok) (app_handler p e).
Proof. destruct p; cbn [app_handler]; open_app. all: site_auto. Qed.
Lemma site_node p e : keeps (inv_rel site_ok) (node_handler p e).
Proof. destruct p; cbn [node_handler]; open_node. all: site_auto. Qed.

(** ** The pages of /myun *)

Lemma port_step_ok e s s' : port_step e s s' → site_ok s → site_ok s'.
Proof.
  intros Hstep Hs. pose proof (port_step_unique e s s' Hstep) as Ht.
  destruct Hstep as [|u i ip IP n g G p P pid pf _ _ _ _ _ _ _ HP|u i ip IP p P _ _ _ _ HP]; [done|..];
    other_parts Hs; destruct Pports as [Hu Pports]; (split; [|by apply Ht]);
    by apply (unique_same pm_gateway_port (c_ports s) p P).
Qed.

Lemma domain_change_seq e s t : domain_change e s t → seq_ok (c_domains s) → seq_ok t.
Proof.
  destruct 1 as [|u i name pid pf|u i I d D name _ HD|u i I d D]; intros Hs; [done|..].
  - by apply tinsert_seq_ok.
  - apply tput_seq_ok; [by eexists|done].
  - by apply tdelete_seq_ok.
Qed.

(** The domain pages touch nothing else the invariant looks at. *)
Lemma domain_pages_others p e :
  keeps (frozen (λ s, (c_users s, c_keys s, content s, voting s, c_ports s, c_ips s))) (domain_handler p e).
Proof. destruct p; cbn [domain_handler]; open_myun. all: frozen_auto. Qed.

Lemma domain_pages_ok p e s : site_ok s → site_ok (request (domain_handler p e) s).1.
Proof.
  intros [H1 H2 H3 H4 [Hs Hn] H6 H7]. pose proof (domain_handler_change p e s) as Hc.
  pose proof (request_frozen _ _ s (domain_pages_others p e)) as E.
  repeat (apply pair_equal_spec in E as [E ?]). symmetry in E.
  split; eauto using users_ok_ext, keys_ok_ext, content_ok_ext, votes_ok_ext, ports_ok_ext, ips_ok_ext.
  split; [by eapply domain_change_seq|by eapply domain_change_names].
Qed.

Lemma myun_ok path h e s : (path, h) ∈ handlers → site_ok s → site_ok (request (h e) s).1.
Proof.
  intros Hin Hs. unfold handlers in Hin.
  repeat (apply elem_of_cons in Hin as [[= -> ->]|Hin]); [..|by apply not_elem_of_nil in Hin].
  13: exact (domain_pages_ok AddDomain (me_rq e) s Hs).
  13: exact (domain_pages_ok EditDomain (me_rq e) s Hs).
  13: exact (domain_pages_ok DeleteDomain (me_rq e) s Hs).
  13: exact (port_step_ok _ _ _ (port_handler_step AddPort (me_rq e) (me_ipt e) s) Hs).
  13: exact (port_step_ok _ _ _ (port_handler_step DeletePort (me_rq e) (me_ipt e) s) Hs).
  all: apply request_inv; [|done].
  all: open_myun.
  all: site_auto.
Qed.

(** ** Parts with an invariant of their own *)

Lemma site_by_parts s s' :
  site_ok s → (users_ok s → users_ok s') → (keys_ok s → keys_ok s') → (content_ok s → content_ok s') →
  (votes_ok s → votes_ok s') →
  (c_domains s', c_ports s', c_ips s') = (c_domains s, c_ports s, c_ips s) → site_ok s'.
Proof.
  intros [] Hu Hk Hc Hv E. repeat (apply pair_equal_spec in E as [E ?]).
  split; eauto using domains_ok_ext, ports_ok_ext, ips_ok_ext.
Qed.

Section accounts.
Context {ShaI : Sha512} {CodecI : SessionCodec} {DatesI : Dates}.
#[local] Set Default Proof Using "All".

Lemma account_others p e :
  keeps (frozen (λ s, (content s, voting s, (c_domains s, c_ports s, c_ips s)))) (account_handler p e).
Proof.
  destruct p; cbn [account_handler]; open_account;
    unfold add_authkey, init_account, add_profile, save_session, redirect_next, set_default.
  all: frozen_auto.
Qed.
Lemma account_ok p e s :
  has_char dollar (salt_of p) = false → site_ok s → site_ok (request (account_handler p e) s).1.
Proof.
  intros Hsalt Hs. pose proof (request_frozen _ _ s (account_others p e)) as E.
  apply pair_equal_spec in E as [[Ec Ev]%pair_equal_spec E]. symmetry in Ec, Ev.
  apply site_by_parts with s; [done| | | | |done].
  - intros Hu. apply request_inv; [by apply users_handler|done].
  - apply keys_handler.
  - by apply content_ok_ext.
  - by apply votes_ok_ext.
Qed.

(** The rows of a table that only changed owners. *)
Lemma tmap_seq_ok {A} (f : A → A) (t : table A) : seq_ok t → seq_ok (tmap f t).
Proof. intros H i Hi. simpl in *. by rewrite lookup_fmap, H. Qed.

Lemma orphaned_keys u (s s' : Cloud) :
  c_keys s' = tmap (left_alone k_user_id leave_key u) (c_keys s) → keys_ok s → keys_ok s'.
Proof.
  intros E [Hq Hk]. split; [rewrite E; by apply tmap_seq_ok|].
  assert (∀ j (J : PublicKey), k_user_id J ≠ NULL → row s' j = Some J ↔ row s j = Some J ∧ k_user_id J ≠ u) as Hr.
  { intros j J HJ. change (row s' j) with (rows (c_keys s') !! j). rewrite E. simpl.
    rewrite lookup_fmap, fmap_Some. change (rows (c_keys s) !! j) with (row (A := PublicKey) s j). split.
    - intros (I & HI & ->). unfold left_alone in *. destruct (Z.eqb_spec (k_user_id I) u); [done|by split].
    - intros [HI Hu]. exists J. split; [done|]. unfold left_alone. by rewrite (proj2 (Z.eqb_neq _ _)). }
  intros j J HJ Hn. apply Hr in HJ as [HJ Hu]; [|done]. destruct (Hk j J HJ Hn) as (d & (D & HD & HDu) & Hd).
  exists d. split; [exists D; split; [apply Hr; [congruence|split; [done|congruence]]|done]|].
  intros x X HX HXu. apply Hd; [|done]. apply Hr in HX as [? _]; [done|congruence].
Qed.

Lemma orphaned_domains u (s s' : Cloud) :
  c_domains s' = tmap (left_alone d_user_id leave_domain u) (c_domains s) → domains_ok s → domains_ok s'.
Proof.
  intros E [Hq [Hw Hd]]. unfold domains_ok. rewrite E. split; [by apply tmap_seq_ok|].
  assert (∀ k D, rows (tmap (left_alone d_user_id leave_domain u) (c_domains s)) !! k = Some D →
    ∃ D0, rows (c_domains s) !! k = Some D0 ∧ d_domain D = d_domain D0) as Hr.
  { intros k D. simpl. rewrite lookup_fmap, fmap_Some. intros (D0 & H0 & ->). exists D0. split; [done|].
    unfold left_alone. by case_match. }
  split.
  - intros k D (D0 & H0 & ->)%Hr. by eapply Hw.
  - intros k k' D D' (D0 & H0 & E0)%Hr (D1 & H1 & E1)%Hr. rewrite E0, E1. by eapply Hd.
Qed.

Lemma user_delete_ok e attached s : site_ok s → site_ok (request (UserDelete_get e attached) s).1.
Proof.
  intros Hs. destruct (UserDelete_result e attached s) as [->|(a & u & U & _ & _ & Hn & HU & ->)]; [done|].
  assert (view (drop_profile u s) = view s) as Ev.
  { unfold drop_profile. by destruct (profile_of s u) as [[pid p]|]. }
  assert (site_ok (drop_profile u s)) as H1 by by apply (site_ok_ext s).
  destruct (referenced _ _ _); [done|]. set (s1 := drop_profile u s) in *. clearbody s1. clear Hs Ev HU.
  destruct (deleted_tables u s1) as (EU & _ & _ & _ & EK & ED).
  destruct H1 as [Pusers ?????? ]. split.
  - destruct Pusers as (Hq & Hp & Hd).
    assert (∀ i (V : User), row (deleted u s1) i = Some V → row s1 i = Some V) as Hr.
    { intros i V. change (row (deleted u s1) i) with (rows (c_users (deleted u s1)) !! i).
      rewrite EU. simpl. by intros [_ ?]%lookup_delete_Some. }
    split_and!; [rewrite EU; by apply tdelete_seq_ok|eauto|].
    intros i j V V' HV HV'. apply (Hd i j V V'); by apply Hr.
  - by eapply orphaned_keys.
  - by apply (content_ok_ext s1).
  - by apply (votes_ok_ext s1).
  - by eapply orphaned_domains.
  - by apply (ports_ok_ext s1).
  - by apply (ips_ok_ext s1).
Qed.

Definition deletes (p : admin_request) : bool := match p with AUserDelete _ => true | _ => false end.

Lemma admin_others p e : deletes p = false →
  keeps (frozen (λ s, (c_keys s, content s, voting s, (c_domains s, c_ports s, c_ips s)))) (admin_handler p e).
Proof.
  destruct p; try discriminate; intros _; cbn [admin_handler];
    unfold UserAdd_post, ResetPass_admin, GroupEdit_user, ResourceAdd_post, ResourceDelete_get,
      ResourceEdit_admin, ResourceEdit_prepare,
      ResourceSimpleAdd_post, AllUserResourceAdd_post, GroupMerge_post, GroupManagement_add,
      GroupManagement_edit, GroupManagement_delete, admin_user, named_user, managed_group,
      add_resources, add_resource, resource_mail_notice, sendmsg, init_account, add_profile,
      redirect_next, need_permission, no, get_text.
  all: frozen_auto.
Qed.
Lemma admin_users p e :
  deletes p = false →
  has_char dollar (admin_salt p) = false → keeps (inv_rel users_ok) (admin_handler p e).
Proof.
  intros Hdel Hsalt. destruct p; try discriminate; clear Hdel; cbn [admin_handler admin_salt] in *.
  1: { unfold UserAdd_post, need_permission. destruct (cur e); [|users_auto].
    apply keeps_bind; [apply _|apply keeps_ask; apply _|]. intros [|]; [|users_auto].
    destruct (create_user_form e) as [[name pw]|]; [|users_auto]. apply users_ask. intros w.
    destruct (user_by_name _ _) eqn:E; [apply users_at_keeps; users_auto|].
    apply users_at_add; [by apply enc_password_ok|done|]. intros u.
    users_auto; auto using users_init_account, users_add_profile. }
  all: unfold ResetPass_admin, GroupEdit_user, ResourceAdd_post, ResourceDelete_get,
      ResourceEdit_admin, ResourceEdit_prepare,
      ResourceSimpleAdd_post, AllUserResourceAdd_post, GroupMerge_post, GroupManagement_add,
      GroupManagement_edit, GroupManagement_delete, admin_user, named_user, managed_group,
      add_resources, add_resource, resource_mail_notice, sendmsg, redirect_next, need_permission, no, get_text.
  all: users_auto.
  apply users_modify; [done|]. intros U. right. by apply enc_password_ok.
Qed.
Lemma admin_ok p e s :
  has_char dollar (admin_salt p) = false → site_ok s → site_ok (request (admin_handler p e) s).1.
Proof.
  intros Hsalt Hs. destruct (deletes p) eqn:Hdel; [destruct p; try discriminate; by apply user_delete_ok|].
  pose proof (request_frozen _ _ s (admin_others p e Hdel)) as E.
  apply pair_equal_spec in E as [[[Ek Ec]%pair_equal_spec Ev]%pair_equal_spec E]. symmetry in Ek, Ec, Ev.
  apply site_by_parts with s; [done| | | | |done].
  - intros Hu. apply request_inv; [by apply admin_users|done].
  - by apply keys_ok_ext.
  - by apply content_ok_ext.
  - by apply votes_ok_ext.
Qed.
End accounts.

Lemma frozen_tag_loop {X} (f : Cloud → X) old dotag names taglist :
  (∀ (t : table ForumTopicTag) s, f (set_tbl t s) = f s) →
  keeps (frozen f) (tag_loop old dotag names taglist).
Proof.
  intros Hf. revert dotag taglist. induction names as [|n l IH]; intros dotag taglist; cbn [tag_loop];
    repeat first [apply IH | apply frozen_modify, Hf | apply frozen_add, Hf | apply frozen_delete, Hf
      | frozen_step | keeps_step].
Qed.
Lemma forum_others p e :
  keeps (frozen (λ s, (c_users s, c_keys s, content s, (c_domains s, c_ports s, c_ips s)))) (forum_handler p e).
Proof.
  destruct p; cbn [forum_handler]; open_forum.
  all: repeat first [apply frozen_tag_loop; reflexivity | frozen_step | keeps_step].
Qed.
Lemma forum_ok p e s : site_ok s → site_ok (request (forum_handler p e) s).1.
Proof.
  intros Hs. pose proof (request_frozen _ _ s (forum_others p e)) as E.
  apply pair_equal_spec in E as [[[Eu Ek]%pair_equal_spec Ec]%pair_equal_spec E]. symmetry in Eu, Ek, Ec.
  apply site_by_parts with s; [done| | | |apply votes_handler|done].
  - by apply users_ok_ext.
  - by apply keys_ok_ext.
  - by apply content_ok_ext.
Qed.

(** ** The administration of the site and of networks *)

Section admin.
Context {TextI : SiteText} {IPyI : IPy}.
#[local] Set Default Proof Using "All".

Lemma content_others p e :
  keeps (frozen (λ s, (c_users s, c_keys s, voting s, (c_domains s, c_ports s, c_ips s)))) (site_handler p e).
Proof.
  destruct p; cbn [site_handler]; open_site;
    unfold set_config, set_lyconfig, load_config, upsert, delete_if, redirect_next, need_permission, no, get_text.
  all: frozen_auto.
Qed.
Lemma content_pages_ok p e s : site_ok s → site_ok (request (site_handler p e) s).1.
Proof.
  intros Hs. pose proof (request_frozen _ _ s (content_others p e)) as E.
  apply pair_equal_spec in E as [[[Eu Ek]%pair_equal_spec Ev]%pair_equal_spec E]. symmetry in Eu, Ek, Ev.
  apply site_by_parts with s; [done| | |apply content_handler| |done].
  - by apply users_ok_ext.
  - by apply keys_ok_ext.
  - by apply votes_ok_ext.
Qed.

(** The loops that add ports and addresses add what is not there. *)
Lemma site_port_loop g exclude start end_ :
  keeps (inv_rel site_ok) (port_loop (Z.to_nat (end_ - start)) g exclude start end_).
Proof.
  intros [s c o] Hs Hc. cbn [work comm] in *. rewrite port_loop_run by lia. cbn [snd work comm].
  split; [|done]. other_parts Hs. destruct Pports as [[Hq Hd] Ht].
  destruct (add_fresh_spec pm_gateway_port (candidate_ports exclude g start end_) (c_ports s) Hq Hd)
    as (Hq' & Hd' & _ & _ & Hnew).
  split; [by split|]. intros q q' Q Q' ip n HQ HQ' Hi Hi' Hn Hn'.
  assert (∀ q Q, rows (add_fresh pm_gateway_port (candidate_ports exclude g start end_) (c_ports s)) !! q
    = Some Q → pm_ip_id Q = Some ip → row s q = Some Q) as Hold.
  { intros k K HK Hip. destruct (Hnew k K HK) as [?|[Hin _]]; [done|].
    by apply list_elem_of_fmap in Hin as (x & -> & _). }
  eapply Ht; eauto.
Qed.
Lemma site_ip_loop now n exclude start end_ base size :
  keeps (inv_rel site_ok) (ip_loop now n exclude start end_ (seqZ base size)).
Proof.
  intros [s c o] Hs Hc. cbn [work comm] in *. rewrite seqZ_nat, ip_loop_run. cbn [snd work comm].
  split; [|done]. other_parts Hs. destruct Pips as [Hq Hd].
  destruct (add_fresh_spec ip_ip (candidate_ips now n exclude start end_ (seqZ base (Z.of_nat (Z.to_nat size))))
    (c_ips s) Hq Hd) as (Hq' & Hd' & _). by split.
Qed.
#[local] Hint Resolve site_port_loop site_ip_loop : ly.

Lemma gateway_ok e : keeps (inv_rel site_ok) (GatewayConfig_post e).
Proof. unfold GatewayConfig_post, add_to_portmapping, need_permission, get_text. site_auto. Qed.
Lemma network_ok e : keeps (inv_rel site_ok) (NetworkConfig_post e).
Proof. unfold NetworkConfig_post, add_to_ippool, need_permission, get_text. site_auto. Qed.
Lemma default_network_ok now : keeps (inv_rel site_ok) (_ ← add_default_network now; mret tt).
Proof. unfold add_default_network, add_to_ippool. site_auto. Qed.
End admin.

Lemma network_delete_ok e : keeps (inv_rel site_ok) (NetworkDelete_get e).
Proof. unfold NetworkDelete_get, delete_ip, need_permission, get_text. site_auto. Qed.
Lemma instances_ok e post : keeps (inv_rel site_ok) (InstanceManagement e post).
Proof.
  unfold InstanceManagement, change_owner_post, get_control_all, need_permission, get_text. site_auto.
Qed.

(** ** Mail, login by QQ and the JSON interface *)

(** A program that writes the site's content, and of the other tables none. *)
Lemma site_content {A} (m : Web Cloud A) :
  keeps (frozen (λ s, (c_users s, c_keys s, voting s, (c_domains s, c_ports s, c_ips s)))) m →
  keeps (inv_rel content_ok) m → keeps (inv_rel site_ok) m.
Proof.
  intros Hf Hk w Hw Hc. destruct (Hk w (ok_content _ Hw) (ok_content _ Hc)) as [C1 C2].
  assert (∀ s s', (c_users s', c_keys s', voting s', (c_domains s', c_ports s', c_ips s')) =
    (c_users s, c_keys s, voting s, (c_domains s, c_ports s, c_ips s)) →
    content_ok s' → site_ok s → site_ok s') as Hext.
  { intros s s' E HC Hs.
    apply pair_equal_spec in E as [[[Eu Ek]%pair_equal_spec Ev]%pair_equal_spec E]. symmetry in Eu, Ek, Ev.
    apply site_by_parts with s; eauto using users_ok_ext, keys_ok_ext, votes_ok_ext. }
  destruct (Hf w) as [E1 [E2|E2]]; split; eauto.
Qed.

Lemma site_total k v : keeps (inv_rel site_ok) (modify k (λ x : SiteConfig, x <| sc_value := v |>)).
Proof.
  apply site_content; [frozen_auto|]. apply keeps_modify; [apply _|]. intros s c o x Hx Hs Hc.
  cbn [work comm] in *. split; [|done]. destruct Hs as (H1 & H2 & H3 & H4 & H5 & H6).
  split_and!; [by apply (unique_modify sc_key k (λ x, x <| sc_value := v |>) s x)|done..].
Qed.
Lemma site_set_config key v : keeps (inv_rel site_ok) (set_config key v).
Proof.
  apply site_content; [unfold set_config, upsert; frozen_auto|apply content_config].
Qed.
#[local] Hint Resolve site_set_config : ly.

Ltac mail_auto :=
  repeat first [apply site_total | apply site_set_config | site_step | solve [eauto 2 with ly]].

Lemma site_mail_total : keeps (inv_rel site_ok) mail_total.
Proof. unfold mail_total. mail_auto. Qed.
Lemma site_next_mail k : keeps (inv_rel site_ok) (next_mail k).
Proof. unfold next_mail. mail_auto. Qed.
#[local] Hint Resolve site_mail_total site_next_mail : ly.
Lemma site_mail_users t d : keeps (inv_rel site_ok) (mailto_user_list t d).
Proof. unfold mailto_user_list, mailto_user. site_auto. Qed.
Lemma site_mail_address t d : keeps (inv_rel site_ok) (mailto_address t d).
Proof. unfold mailto_address. site_auto. Qed.

Lemma frozen_mail_users {X} (f : Cloud → X) ids : keeps (frozen f) (mail_users ids).
Proof.
  induction ids as [|x l IH]; cbn [mail_users]; unfold get_text; repeat first [apply IH|frozen_step|keeps_step].
Qed.
Lemma site_mail e : keeps (inv_rel site_ok) (_ ← MailTo_post e; mret tt).
Proof.
  apply site_frozen. unfold MailTo_post, redirect_next, need_permission.
  repeat first [apply frozen_mail_users|frozen_step|keeps_step].
Qed.

Section interface.
Context {ShaI : Sha512} {CodecI : SessionCodec}.
#[local] Set Default Proof Using "All".
Lemma site_qq `{!SiteText} parse_qs e q : keeps (inv_rel site_ok) (QQLogin_get parse_qs e q).
Proof.
  unfold QQLogin_get, on_user_info, qq_on_user_info, qq_on_auth, add_authkey, save_session. site_auto.
Qed.
Lemma site_api_login e key : keeps (inv_rel site_ok) (Login_api e key).
Proof. unfold Login_api, save_session. site_auto. Qed.
Lemma site_api_instance e : keeps (inv_rel site_ok) (InstanceBaseinfo_post e).
Proof. unfold InstanceBaseinfo_post, api_authenticated. site_auto. Qed.
End interface.

(** ** Setting up *)

Section setup.
Context {ShaI : Sha512} (stored : json → string).
#[local] Set Default Proof Using "All".

Definition set_up_tables (s : Cloud) :=
  (c_keys s, voting s, (c_domains s, c_ports s, c_ips s)).

Lemma frozen_committed {A X} (f : Cloud → X) (h : Cloud → A) : keeps (frozen f) (ask_committed h).
Proof. intros w. reflexivity. Qed.

Ltac open_setup :=
  unfold update_language, update_user, update_site_config, update_storage, Setup.add_all,
    add_all_commit, add_missing, check_profile, add_member, add_grant.
Ltac setup_auto := repeat first [frozen_step | apply frozen_committed | keeps_step].

Lemma setup_others now salt : keeps (frozen set_up_tables) (default_value stored now salt).
Proof. unfold default_value. open_setup. setup_auto. Qed.

Ltac bind_step :=
  lazymatch goal with |- keeps _ (mbind _ _) => apply keeps_bind; [apply _| |intros []] end.

Lemma setup_content now salt : keeps (inv_rel content_ok) (default_value stored now salt).
Proof.
  unfold default_value. repeat bind_step.
  all: try (apply content_frozen; open_setup; setup_auto; fail).
  unfold update_site_config, add_all_commit. apply keeps_for; [apply _|intros x].
  apply keeps_bind; [apply _| |intros [|]; [apply content_commit|apply keeps_ret; apply _]].
  intros [s c o] Hs Hc. cbn [work comm] in *. rewrite (add_missing_run sc_key). cbn [snd work comm].
  split; [|done]. destruct Hs as ([Hq Hd] & H2 & H3 & H4 & H5 & H6).
  destruct (add_fresh_spec sc_key [x] (c_siteconfig s) Hq Hd) as (? & ? & _). by split_and!.
Qed.

Lemma setup_users now salt :
  (∀ n, has_char dollar (salt n) = false) → keeps (inv_rel users_ok) (default_value stored now salt).
Proof.
  intros Hsalt. unfold default_value, update_user. repeat bind_step.
  all: try (apply users_frozen; open_setup; setup_auto; fail).
  - repeat bind_step.
    all: try (apply users_frozen; open_setup; setup_auto; fail).
    unfold Setup.add_all, Setup.users, default_user. cbn [fmap list_fmap for_each foldr]. repeat bind_step.
    all: try (apply users_frozen; setup_auto; fail).
    unfold add_missing. apply users_ask. intros w.
    destruct (find_key _ _ _) eqn:E; [apply users_at_keeps; users_auto|].
    apply users_at_add; [by apply enc_password_ok|exact E|intros u; users_auto].
  - unfold add_member. users_auto.
Qed.

Lemma setup_ok now salt s :
  (∀ n, has_char dollar (salt n) = false) → site_ok s →
  site_ok (request (default_value stored now salt) s).1.
Proof.
  intros Hsalt Hs. pose proof (request_frozen _ _ s (setup_others now salt)) as E.
  apply pair_equal_spec in E as [[Ek Ev]%pair_equal_spec E]. symmetry in Ek, Ev.
  apply site_by_parts with s; [done| | | | |done].
  - intros Hu. apply request_inv; [by apply setup_users|done].
  - by apply keys_ok_ext.
  - intros Hc. apply request_inv; [by apply setup_content|done].
  - by apply votes_ok_ext.
Qed.
End setup.

(** ** What the site can reach *)

Section reach.
Context {ShaI : Sha512} {CodecI : SessionCodec} {DatesI : Dates} {TextI : SiteText} {IPyI : IPy}.
Context (stored : json → string).
#[local] Set Default Proof Using "All".

(** The daemons of the platform write what they find out about instances, jobs and nodes,
    and readers count visits: nothing the invariant looks at. *)
Inductive site_step : Cloud → Cloud → Prop :=
  | step_setup now salt s :
      (∀ n, has_char dollar (salt n) = false) →
      site_step s (request (default_value stored now salt) s).1
  | step_network now s : site_step s (request (add_default_network now) s).1
  | step_request o m s : serves o m → site_step s (request m s).1
  | step_platform s s' : view s' = view s → site_step s s'.

Inductive reachable : Cloud → Prop :=
  | reach_empty : reachable empty_cloud
  | reach_step s s' : reachable s → site_step s s' → reachable s'.

Lemma empty_ok : site_ok empty_cloud.
Proof.
  assert (∀ {A} (i : Z) (x : A), rows empty_table !! i = Some x → False) as Hn.
  { intros A i x. unfold empty_table. simpl. by rewrite lookup_empty. }
  assert (∀ {A}, seq_ok (@empty_table A)) as Hs by (intros A i _; apply lookup_empty).
  assert (∀ {A K} `{EqDecision K} (key : A → K), unique key empty_table) as Hu.
  { intros A K HK key. split; [apply Hs|]. intros i j x y Hx. by apply Hn in Hx. }
  split.
  - split_and!; [apply Hs|intros i U HU; by apply Hn in HU|intros i j U V HU; by apply Hn in HU].
  - split; [apply Hs|intros k K HK; by apply Hn in HK].
  - split_and!; [apply Hu..|]. intros k A HA. by apply Hn in HA.
  - split; (split_and!; [apply Hs|apply Hs|intros t x Hx; by apply Hn in Hx|intros i v Hv; by apply Hn in Hv
      |intros i j v w Hv; by apply Hn in Hv]).
  - split; [apply Hs|]. split; [intros k D HD; by apply Hn in HD|intros k k' D D' HD; by apply Hn in HD].
  - split; [apply Hu|]. intros q q' Q Q' ip n HQ. by apply Hn in HQ.
  - apply Hu.
Qed.

Lemma serves_ok o m s : serves o m → site_ok s → site_ok (request m s).1.
Proof.
  intros Hm Hs. destruct Hm.
  all: try (apply request_inv; [|exact Hs]; auto using site_control, site_attr, site_delete, site_message,
    site_app, site_node, gateway_ok, network_ok, network_delete_ok, instances_ok, site_mail, site_qq,
    site_api_login, site_api_instance, site_mail_users, site_mail_address; fail).
  - by eapply myun_ok.
  - by apply account_ok.
  - by apply forum_ok.
  - by apply admin_ok.
  - by apply content_pages_ok.
Qed.

Lemma site_step_ok s s' : site_step s s' → site_ok s → site_ok s'.
Proof.
  destruct 1 as [now salt s Hsalt|now s|o m s Hm|s s' E]; intros Hs.
  - by apply setup_ok.
  - change (site_ok (request (add_default_network now) s).1).
    assert (request (_ ← add_default_network now; mret tt) s = request (add_default_network now) s) as <-.
    { unfold request, mbind, Web_bind. by destruct (add_default_network now (start s)) as [[a|x] w]. }
    apply request_inv; [apply default_network_ok|done].
  - by eapply serves_ok.
  - by apply (site_ok_ext s).
Qed.

(** C4: the invariants of all parts hold in every database the site can reach, by
    whatever requests of whatever users to whatever parts, updates and set-ups in any order:
    user names are distinct and passwords salted, every user with keys has exactly one
    default key, configurations, entries and articles keep their keys, the shown votes are
    the recorded ones, domain names are well formed and distinct, no two ports have one
    number or one target, and no address is there twice. *)
Theorem reachable_ok s : reachable s → site_ok s.
Proof. induction 1 as [|s s' _ IH Hstep]; [apply empty_ok|by eapply site_step_ok]. Qed.
End reach.

(** Set up, with the default network, and a new group made by the administrator. *)
Definition group_req : req :=
  mkReq 100 (Some 1) {["name" := "staff"]}%string true true.
Definition running_site : Cloud :=
  let s := (request (default_value example_stored 0 (λ _, "5f3a"%string)) empty_cloud).1 in
  let s := (request (add_default_network (IPyI := example_ipy) 0) s).1 in
  (request (admin_handler (DatesI := λ _, None) (AGroupAdd []) group_req) s).1.

Example running_groups : (λ G, g_name G.2) <$> all_rows Group running_site = ["admin"; "user"; "staff"]%string.
Proof. vm_compute. reflexivity. Qed.

#[local] Instance reach_text : SiteText :=
  {| dumps _ := "{}"%string; loads _ := None; markdown t := t |}.

Lemma reachable_ok_witness : site_ok running_site.
Proof.
  apply (reachable_ok (DatesI := λ _, None) (IPyI := example_ipy) example_stored).
  unfold running_site. cbv zeta.
  eapply reach_step; [eapply reach_step; [eapply reach_step; [apply reach_empty|]|]|].
  3: { apply (step_request (DatesI := λ _, None) (IPyI := example_ipy) example_stored (Some 1)).
       by apply (serve_users (DatesI := λ _, None) (IPyI := example_ipy) (AGroupAdd []) group_req). }
  2: apply (step_network (IPyI := example_ipy)).
  apply (step_setup (IPyI := example_ipy) example_stored 0 (λ _, "5f3a"%string)). intros n. reflexivity.
Defined.
