(* ===== verification/LycStream.v ===== *)
(** The message stream of the cloud controller
    (src/lyweb/lib/lyc/handler.py): [MSGStream] reads and writes messages of an
    eight-byte header and a JSON body on a blocking socket, whose incoming side
    is the list of what the next calls of [recv] will meet. The JSON codec is an
    interface, [Codec]. *)
From Stdlib Require Import Ascii String.
From S2P Require Import Prelude PyBytes Table Cloud.
#[local] Open Scope Z_scope.

(** ** The incoming side of a blocking socket *)

(** Bytes the peer sent (an empty chunk is its orderly close), or an exception
    [recv] raises. After the last event [recv] waits. *)
Inductive lyc_event := Arrive (d : bytes) | Fault.

Inductive recv_out := Got (d : bytes) | RecvRaise | RecvWaits.

(** [sock.recv(n)] gives at most [n] bytes, the rest of a chunk stays. *)
Definition recv (n : nat) (rx : list lyc_event) : recv_out * list lyc_event :=
  match rx with
  | [] => (RecvWaits, [])
  | Fault :: rx' => (RecvRaise, rx')
  | Arrive c :: rx' =>
      (Got (take n c), if decide (drop n c = []) then rx' else Arrive (drop n c) :: rx')
  end.

(** What [_read_from_stream] ends with: the bytes, [None], or no end as long as
    the peer sends nothing. *)
Inductive read_res := Data (d : bytes) | NoData | ReadWaits.

(** The loop of [_read_from_stream]; [None] means that [fuel] ran out. *)
Fixpoint read_loop (fuel left : nat) (acc : bytes) (rx : list lyc_event) :
    option (read_res * list lyc_event) :=
  match fuel with
  | O => None
  | Datatypes.S fuel' =>
      let buffer_len := if (2048 <? left)%nat then 2048%nat else left in
      match recv buffer_len rx with
      | (RecvWaits, rx') => Some (ReadWaits, rx')
      | (RecvRaise, rx') => Some (NoData, rx')
      | (Got data, rx') =>
          let datalen := length data in
          if (datalen =? 0)%nat then Some (NoData, rx') else
          let acc' := acc ++ data in
          if (left =? datalen)%nat then Some (Data acc', rx')
          else if (left <? datalen)%nat then Some (NoData, rx')
          else read_loop fuel' (left - datalen) acc' rx'
      end
  end.

(** Each turn of the loop takes at least one byte. *)
Definition _read_from_stream (len : nat) (rx : list lyc_event) : read_res * list lyc_event :=
  default (NoData, rx) (read_loop (Datatypes.S len) len [] rx).

(** ** Messages *)

Definition headlen : nat := 8.
Definition bodymax : Z := 10 * 1024 * 1024.
Definition request_msg := 1.
Definition response_msg := 2.

(** [struct.unpack('h', b)] on two bytes *)
Definition i16_val (b : bytes) : Z :=
  let v := little_endian_to_Z 8 b in if v <? 2 ^ 15 then v else v - 2 ^ 16.

Record MSGFormat := mkMSG { m_type : Z; m_length : Z; m_body : json }.

(** [read_msg] returns a message or [None], raises, or waits. *)
Inductive read_out := Msg (m : MSGFormat) | NoMsg | ReadRaise (exn : string) | MsgWaits.

(** [json.dumps] and [json.loads], [None] for an exception: reading back what was
    written gives the value, and no value is written as the empty text. *)
Class Codec := {
  dumps : json → option bytes;
  loads : bytes → option json;
  loads_dumps v b : dumps v = Some b → loads b = Some v;
  dumps_nonempty v b : dumps v = Some b → b ≠ [];
}.

Section stream.
Context `{Codec}.

(** [MSGFormat._load_json]: what cannot be decoded is [None], like a decoded
    [null]. *)
Definition _load_json (data : bytes) : json :=
  if decide (data = []) then JNull else default JNull (loads data).

Definition read_msg (rx : list lyc_event) : read_out * list lyc_event :=
  match _read_from_stream headlen rx with
  | (NoData, rx1) => (NoMsg, rx1)
  | (ReadWaits, rx1) => (MsgWaits, rx1)
  | (Data [], rx1) => (NoMsg, rx1)
  | (Data data, rx1) =>
      let start := nth 0 data 0 in
      let type := i16_val (slice 2 4 data) in
      let len := i32_val (drop 4 data) in
      if negb (start =? 1) then (NoMsg, rx1)
      else if bodymax <? len then (ReadRaise "NameError", rx1)
      else if 0 <? len then
        match _read_from_stream (Z.to_nat len) rx1 with
        | (ReadWaits, rx2) => (MsgWaits, rx2)
        | (NoData, rx2) | (Data [], rx2) => (NoMsg, rx2)
        | (Data body, rx2) => (Msg (mkMSG type len (_load_json body)), rx2)
        end
      else (ReadRaise "UnboundLocalError", rx1)
  end.

(** [sock.send] accepts a prefix of the buffer, or raises. *)
Inductive tx_event := SendAccept (n : nat) | SendRaise.

Inductive send_out := Sent (ok : bool) (wire : bytes) | SendExn (exn : string).

(** The members a message carries besides ['msg'], each only when it is truthy. *)
Definition msg_body (msg : json) (key : string) (call call_me : option Z) : json :=
  let extra (k : string) (v : option Z) : list (string * json) :=
    match v with Some n => if n =? 0 then [] else [(k, JNum n)] | None => [] end in
  JObj ([("msg"%string, msg); ("key"%string, JStr key)] ++
        extra "call"%string call ++ extra "call_me"%string call_me).

(** [struct.pack('bbhi', 01, 02, 03, bodylen)]: native order, no padding. *)
Definition pack_head (bodylen : Z) : option bytes :=
  l ← pack_i bodylen; Some ([1; 2; 3; 0] ++ l).

Definition send_msg (tx : tx_event) (msg : json) (key : option string)
    (call call_me : option Z) : send_out :=
  match key with
  | None | Some EmptyString => Sent false []
  | Some key =>
      match dumps (msg_body msg key call call_me) with
      | None => SendExn "TypeError"
      | Some body =>
          match pack_head (Z.of_nat (length body)) with
          | None => SendExn "struct.error"
          | Some head =>
              match tx with
              | SendAccept n => Sent true (take n (head ++ body))
              | SendRaise => Sent false []
              end
          end
      end
  end.

(** ** The read loop *)

Definition arrive (cs : list bytes) : list lyc_event := Arrive <$> cs.
Definition solid (cs : list bytes) : Prop := Forall (λ c, c ≠ []) cs.

(** How many bytes one turn takes from a chunk. *)
Lemma read_loop_turn fuel left acc (c : bytes) rx :
  (0 < left)%nat → c ≠ [] →
  let n := Nat.min (Nat.min 2048 left) (length c) in
  (0 < n ≤ left)%nat ∧
  read_loop (Datatypes.S fuel) left acc (Arrive c :: rx) =
    (let rx' := if decide (drop n c = []) then rx else Arrive (drop n c) :: rx in
     if (left =? n)%nat then Some (Data (acc ++ take n c), rx')
     else read_loop fuel (left - n) (acc ++ take n c) rx').
Proof.
  intros Hl Hc n. assert (0 < length c)%nat by (destruct c; simpl; [done|lia]).
  split; [lia|]. cbn [read_loop recv].
  assert ((if (2048 <? left)%nat then 2048%nat else left) = Nat.min 2048 left) as ->
    by (destruct (Nat.ltb_spec 2048 left); lia).
  set (m := Nat.min 2048 left) in *.
  assert (take m c = take n c) as Et.
  { unfold n. destruct (Nat.min_spec m (length c)) as [[_ ->]|[? ->]]; [done|].
    by rewrite !take_ge by lia. }
  assert (drop m c = drop n c) as ->.
  { unfold n. destruct (Nat.min_spec m (length c)) as [[_ ->]|[? ->]]; [done|].
    by rewrite !drop_ge by lia. }
  rewrite Et, length_take, (Nat.min_l n) by lia.
  rewrite (proj2 (Nat.eqb_neq n 0)) by lia.
  destruct (Nat.eqb_spec left n); [done|].
  by rewrite (proj2 (Nat.ltb_ge left n)) by lia.
Qed.

(** As many bytes as are asked for are there: the loop returns exactly them. *)
Lemma read_loop_full fuel : ∀ left acc cs rx,
  solid cs → (0 < left ≤ length (concat cs))%nat → (left < fuel)%nat →
  ∃ cs', read_loop fuel left acc (arrive cs ++ rx) =
           Some (Data (acc ++ take left (concat cs)), arrive cs' ++ rx) ∧
         concat cs' = drop left (concat cs) ∧ solid cs'.
Proof.
  induction fuel as [|fuel IH]; intros left acc cs rx Hne Hlen Hf; [lia|].
  destruct cs as [|c cs]; [simpl in Hlen; lia|].
  apply Forall_cons_1 in Hne as [Hc Hcs].
  destruct (read_loop_turn fuel left acc c (arrive cs ++ rx)) as [Hn E]; [lia|done|].
  change (arrive (c :: cs) ++ rx) with (Arrive c :: (arrive cs ++ rx)). rewrite E. clear E.
  set (n := Nat.min _ _) in *. cbv zeta.
  set (cs1 := if decide (drop n c = []) then cs else drop n c :: cs).
  assert ((if decide (drop n c = []) then arrive cs ++ rx
           else Arrive (drop n c) :: arrive cs ++ rx) = arrive cs1 ++ rx) as ->
    by (unfold cs1; by case_decide).
  assert (solid cs1) as H1 by (unfold cs1; case_decide; [done|by constructor]).
  assert (concat cs1 = drop n (concat (c :: cs))) as C1.
  { unfold cs1. rewrite concat_cons, drop_app_le by lia. case_decide as D; [|done].
    by rewrite D. }
  assert (take n (concat (c :: cs)) = take n c) as T1
    by (rewrite concat_cons, take_app_le by lia; done).
  clearbody n. destruct (Nat.eqb_spec left n) as [->|].
  - exists cs1. by rewrite T1.
  - destruct (IH (left - n)%nat (acc ++ take n c) cs1 rx H1) as (cs' & E & C & D);
      [rewrite C1, length_drop; lia|lia|].
    exists cs'. rewrite E, C, C1. split_and!; [|rewrite drop_drop; f_equal; lia|done].
    do 3 f_equal. rewrite <- (app_assoc acc), <- T1. f_equal.
    rewrite take_take_drop. f_equal. lia.
Qed.

(** The loop ends within its fuel, whatever arrives. *)
Lemma read_loop_total fuel : ∀ left acc rx,
  (left < fuel)%nat → is_Some (read_loop fuel left acc rx).
Proof.
  induction fuel as [|fuel IH]; intros left acc rx Hf; [lia|].
  cbn [read_loop]. destruct (recv _ rx) as [[d| |] rx']; [|done..].
  destruct (Nat.eqb_spec (length d) 0); [done|].
  destruct (Nat.eqb_spec left (length d)); [done|].
  destruct (Nat.ltb_spec left (length d)); [done|].
  apply IH. lia.
Qed.

Lemma read_loop_more fuel : ∀ fuel' left acc rx r,
  read_loop fuel left acc rx = Some r → (fuel ≤ fuel')%nat →
  read_loop fuel' left acc rx = Some r.
Proof.
  induction fuel as [|fuel IH]; intros [|fuel'] left acc rx r E Hle; [done..|lia|].
  revert E. cbn [read_loop]. repeat case_match; try done;
    intros E; eapply IH; [done|lia|done|lia].
Qed.

Lemma read_from_stream_full n cs :
  solid cs → (0 < n ≤ length (concat cs))%nat →
  ∃ cs', _read_from_stream n (arrive cs) = (Data (take n (concat cs)), arrive cs') ∧
         concat cs' = drop n (concat cs) ∧ solid cs'.
Proof.
  intros Hc Hn.
  destruct (read_loop_full (Datatypes.S n) n [] cs [] Hc Hn) as (cs' & E & C & D); [lia|].
  exists cs'. unfold _read_from_stream. rewrite !app_nil_r in E. by rewrite E.
Qed.

(** The loop of [_read_from_stream] ends: for [len] bytes it takes at most
    [len + 1] turns, whatever the socket delivers, closes, raises or withholds,
    and the number of turns that are allowed beyond that changes nothing. *)
Theorem read_from_stream_terminates len rx fuel :
  (len < fuel)%nat → read_loop fuel len [] rx = Some (_read_from_stream len rx).
Proof.
  intros Hf. destruct (read_loop_total (Datatypes.S len) len [] rx) as [r E]; [lia|].
  unfold _read_from_stream. rewrite E. by apply (read_loop_more _ _ _ _ _ _ E).
Qed.

Lemma read_from_stream_terminates_witness :
  read_loop 10 3 [] [Arrive [1; 2]; Fault] = Some (NoData, []).
Proof.
  apply (read_from_stream_terminates 3 [Arrive [1; 2]; Fault] 10). lia.
Defined.

(** ** Frames *)

Definition frame (len : Z) (body : bytes) : bytes :=
  [1; 2; 3; 0] ++ u32 (len mod 2 ^ 32) ++ body.

Definition sendable (body : bytes) : Prop := 0 < Z.of_nat (length body) ≤ bodymax.

Lemma pack_head_Some n :
  0 ≤ n < 2 ^ 31 → pack_head n = Some ([1; 2; 3; 0] ++ u32 (n mod 2 ^ 32)).
Proof.
  intros Hn. unfold pack_head, pack_i.
  rewrite (proj2 (Z.leb_le _ _)), (proj2 (Z.ltb_lt _ _)) by lia. done.
Qed.

Lemma frame_length len body : length (frame len body) = (8 + length body)%nat.
Proof. unfold frame. rewrite !length_app, u32_length. done. Qed.

(** What [read_msg] makes of a header with the length [len]. *)
Lemma read_msg_header (cs : list bytes) len rest :
  solid cs → concat cs = frame len rest → - 2 ^ 31 ≤ len < 2 ^ 31 →
  ∃ cs', concat cs' = rest ∧ solid cs' ∧
    read_msg (arrive cs) =
      if bodymax <? len then (ReadRaise "NameError", arrive cs')
      else if 0 <? len then
        match _read_from_stream (Z.to_nat len) (arrive cs') with
        | (ReadWaits, rx2) => (MsgWaits, rx2)
        | (NoData, rx2) | (Data [], rx2) => (NoMsg, rx2)
        | (Data body, rx2) => (Msg (mkMSG 3 len (_load_json body)), rx2)
        end
      else (ReadRaise "UnboundLocalError", arrive cs').
Proof.
  intros Hs Hc Hl. pose proof (frame_length len rest) as Hlen.
  destruct (read_from_stream_full headlen cs Hs) as (cs' & E & C & D);
    [rewrite Hc, Hlen; unfold headlen; lia|].
  exists cs'. split_and!; [|done|].
  { rewrite C, Hc. unfold frame, headlen. rewrite app_assoc.
    by rewrite drop_app_exact by (rewrite length_app, u32_length; done). }
  assert (pack_i len = Some (u32 (len mod 2 ^ 32))) as P.
  { unfold pack_i. by rewrite (proj2 (Z.leb_le _ _)), (proj2 (Z.ltb_lt _ _)) by lia. }
  destruct (i32_val_pack _ _ P) as [V L].
  unfold read_msg. rewrite E, Hc. unfold frame, headlen.
  rewrite app_assoc, take_app_exact by (rewrite length_app, u32_length; done).
  change (drop 4 ([1; 2; 3; 0] ++ u32 (len mod 2 ^ 32))) with (u32 (len mod 2 ^ 32)).
  cbn [app nth slice]. cbv zeta.
  change (i16_val (slice 2 4 (1 :: 2 :: 3 :: 0 :: u32 (len mod 2 ^ 32)))) with 3.
  change (drop 4 (1 :: 2 :: 3 :: 0 :: u32 (len mod 2 ^ 32))) with (u32 (len mod 2 ^ 32)).
  by rewrite V.
Qed.

(** One whole message at the head of the stream, however it is cut. *)
Lemma read_msg_frame (cs : list bytes) body rest :
  solid cs → sendable body →
  concat cs = frame (Z.of_nat (length body)) (body ++ rest) →
  ∃ cs', read_msg (arrive cs) =
           (Msg (mkMSG 3 (Z.of_nat (length body)) (default JNull (loads body))), arrive cs') ∧
         concat cs' = rest ∧ solid cs'.
Proof.
  intros Hs [H0 Hmax] Hc. unfold bodymax in Hmax.
  destruct (read_msg_header cs _ _ Hs Hc) as (cs1 & C1 & S1 & E); [lia|].
  rewrite (proj2 (Z.ltb_ge bodymax _)) in E by (unfold bodymax; lia).
  rewrite (proj2 (Z.ltb_lt 0 _)) in E by lia. rewrite Nat2Z.id in E.
  destruct (read_from_stream_full (length body) cs1 S1) as (cs2 & E2 & C2 & S2);
    [rewrite C1, length_app; lia|].
  rewrite C1 in E2, C2. rewrite take_app_length in E2. rewrite drop_app_length in C2.
  exists cs2. split_and!; [|done..]. rewrite E, E2. unfold _load_json.
  destruct body; [simpl in H0; lia|]. done.
Qed.

(** What [send_msg] puts on a socket that takes the whole buffer. *)
Lemma send_msg_frame msg key call call_me body n :
  key ≠ EmptyString →
  dumps (msg_body msg key call call_me) = Some body → sendable body →
  (8 + length body ≤ n)%nat →
  send_msg (SendAccept n) msg (Some key) call call_me =
    Sent true (frame (Z.of_nat (length body)) body).
Proof.
  intros Hk Hd [H0 Hm] Hn. unfold bodymax in Hm. unfold send_msg.
  destruct key as [|c key]; [done|]. rewrite Hd, pack_head_Some by lia.
  rewrite <- app_assoc. fold (frame (Z.of_nat (length body)) body).
  by rewrite take_ge by (rewrite frame_length; lia).
Qed.

(** A length out of range is an exception of [read_msg] itself, an unbound
    name in the message of the log or an unbound [body], and the header is gone
    from the stream. *)
Lemma read_msg_bad_length cs len rest :
  solid cs → concat cs = frame len rest → - 2 ^ 31 ≤ len < 2 ^ 31 →
  len ≤ 0 ∨ bodymax < len →
  ∃ exn cs', read_msg (arrive cs) = (ReadRaise exn, arrive cs') ∧ concat cs' = rest.
Proof.
  intros Hs Hc Hl Hbad.
  destruct (read_msg_header cs len rest Hs Hc Hl) as (cs' & C & _ & E).
  destruct (Z.ltb_spec bodymax len); [by eexists _, cs'|].
  rewrite (proj2 (Z.ltb_ge 0 len)) in E by lia. by eexists _, cs'.
Qed.

(** A socket that takes only a part of the buffer is no failure for the sender:
    the result is [True], and the reader waits for the rest. *)
Lemma send_msg_partial msg key body n :
  key ≠ EmptyString →
  dumps (msg_body msg key None None) = Some body → sendable body → (0 < n < 8)%nat →
  ∃ wire, send_msg (SendAccept n) msg (Some key) None None = Sent true wire ∧
    read_msg (arrive [wire]) = (MsgWaits, []).
Proof.
  intros Hk Hd [H0 Hm] Hn. unfold bodymax in Hm. unfold send_msg.
  destruct key as [|c key]; [done|]. rewrite Hd, pack_head_Some by lia.
  eexists. split; [done|]. set (w := take n _).
  assert (length w = n) as Hw.
  { unfold w. rewrite length_take, !length_app, u32_length. simpl. lia. }
  clearbody w. unfold read_msg, _read_from_stream, headlen.
  destruct (read_loop_turn 8 8 [] w []) as [Hk' E]; [lia|by destruct w; simpl in *; [lia|]|].
  change (arrive [w]) with [Arrive w]. rewrite E, Hw. clear E.
  rewrite (Nat.min_r _ n), drop_ge by lia. rewrite decide_True by done.
  rewrite (proj2 (Nat.eqb_neq 8 n)) by lia. done.
Qed.

(** ** The channel two programs share *)

(** A connection, one direction of it: the bodies given to [send_msg], the
    chunks on the way, the bodies [read_msg] handed on. *)
Record link := mkLink { sent : list json; fly : list bytes; received : list json }.

(** A message is written, the network cuts and joins chunks, a message is read.
    A message enters only if its text is within [bodymax] and the socket takes
    the whole of it. *)
Inductive link_step : link → link → Prop :=
  | link_send sn cs rv msg key call call_me body n :
      key ≠ EmptyString →
      dumps (msg_body msg key call call_me) = Some body → sendable body →
      (8 + length body ≤ n)%nat →
      ∀ wire, send_msg (SendAccept n) msg (Some key) call call_me = Sent true wire →
      link_step (mkLink sn cs rv)
        (mkLink (sn ++ [msg_body msg key call call_me]) (cs ++ [wire]) rv)
  | link_cut sn cs rv cs' :
      concat cs' = concat cs → solid cs' →
      link_step (mkLink sn cs rv) (mkLink sn cs' rv)
  | link_read sn cs rv m cs' :
      read_msg (arrive cs) = (Msg m, arrive cs') →
      link_step (mkLink sn cs rv) (mkLink sn cs' (rv ++ [m_body m])).

(** The abstract channel is a queue: [queue] are the messages on the way. *)
Definition carries (l : link) (queue : list json) : Prop :=
  sent l = received l ++ queue ∧ solid (fly l) ∧
  ∃ bodies, Forall2 (λ v b, loads b = Some v ∧ sendable b) queue bodies ∧
    concat (fly l) = concat ((λ b, frame (Z.of_nat (length b)) b) <$> bodies).

Lemma arrive_inj cs cs' : arrive cs = arrive cs' → cs = cs'.
Proof.
  revert cs'. induction cs as [|c cs IH]; intros [|c' cs'] E; simplify_eq/=; [done|].
  f_equal. by apply IH.
Qed.

(** Reading from a link that carries something gives the first message. *)
Lemma carries_read sn cs rv v queue :
  carries (mkLink sn cs rv) (v :: queue) →
  ∃ m cs', read_msg (arrive cs) = (Msg m, arrive cs') ∧ m_body m = v ∧
    carries (mkLink sn cs' (rv ++ [v])) queue.
Proof.
  intros (Es & Hs & bodies & Hb & Hc). cbn [sent fly received] in *.
  destruct bodies as [|b bodies]; [by apply Forall2_cons_nil_inv in Hb|].
  apply Forall2_cons in Hb as [[Hl Hb] Hbs]. rewrite fmap_cons, concat_cons in Hc.
  destruct (read_msg_frame cs b _ Hs Hb Hc) as (cs' & E & C & D).
  exists (mkMSG 3 (Z.of_nat (length b)) v), cs'. rewrite E, Hl. split_and!; [done..|].
  split; [cbn [sent received]; by rewrite Es, <- app_assoc|].
  split; [done|]. by exists bodies.
Qed.

Lemma carries_step l l' queue :
  link_step l l' → carries l queue → ∃ queue', carries l' queue'.
Proof.
  intros Hst Hq.
  destruct Hst as [sn cs rv msg key call cm body n Hk Hd Hb Hn wire Hw
                  |sn cs rv cs' Hc Hs|sn cs rv m cs' Hr].
  - destruct Hq as (Es & Hs & bodies & HF & Hcat). cbn [sent fly received] in *.
    rewrite (send_msg_frame _ _ _ _ body) in Hw by done. injection Hw as <-.
    exists (queue ++ [msg_body msg key call cm]). split_and!; cbn [sent fly received].
    + by rewrite Es, app_assoc.
    + apply Forall_app. split; [done|]. repeat constructor. done.
    + exists (bodies ++ [body]). split.
      * apply Forall2_app; [done|]. repeat constructor; [by apply loads_dumps|apply Hb..].
      * rewrite fmap_app, !concat_app, Hcat. done.
  - destruct Hq as (Es & _ & bodies & HF & Hcat). exists queue.
    split; [done|]. split; [done|]. exists bodies. cbn [fly]. by rewrite Hc.
  - destruct queue as [|v queue].
    + destruct Hq as (_ & Hs & bodies & HF & Hcat). cbn [fly] in *.
      apply Forall2_nil_inv_l in HF as ->. simpl in Hcat.
      destruct cs as [|c cs]; [done|]. apply Forall_cons_1 in Hs as [Hc _].
      by destruct c.
    + destruct (carries_read _ _ _ _ _ Hq) as (m' & cs1 & E & <- & Hq').
      rewrite Hr in E. injection E as -> ->%arrive_inj. by exists queue.
Qed.

(** C21: the message stream implements a queue: whatever is sent over a
    connection and however the network cuts it, what has been received is a
    prefix of what was sent, in order; the next [read_msg] hands on the first
    message that is still on the way, whole, and waits exactly when there is
    none. *)
Theorem link_refines_queue l :
  rtc link_step (mkLink [] [] []) l →
  ∃ queue, sent l = received l ++ queue ∧
    match queue with
    | [] => read_msg (arrive (fly l)) = (MsgWaits, [])
    | v :: _ => ∃ m cs', read_msg (arrive (fly l)) = (Msg m, arrive cs') ∧ m_body m = v
    end.
Proof.
  intros Hr.
  assert (∃ queue, carries l queue) as [queue Hq].
  { revert Hr. apply (rtc_ind_r (λ l, ∃ queue, carries l queue)).
    - exists []. split_and!; [done|constructor|]. exists []. split; [constructor|done].
    - intros l1 l2 _ Hst [q Hq]. by eapply carries_step. }
  exists queue. split; [apply Hq|]. destruct queue as [|v queue].
  - destruct Hq as (_ & Hs & bodies & HF & Hcat).
    apply Forall2_nil_inv_l in HF as ->. simpl in Hcat.
    destruct (fly l) as [|c cs]; [done|].
    apply Forall_cons_1 in Hs as [Hc _]. by destruct c.
  - destruct l as [sn cs rv].
    destruct (carries_read _ _ _ _ _ Hq) as (m & cs' & E & ? & _). by exists m, cs'.
Qed.
End stream.

(** ** A codec *)

(** Letters, digits, [.], [/] and [_] stand for themselves in JSON text. *)
Definition plain (c : ascii) : bool :=
  let n := Z.of_nat (nat_of_ascii c) in
  (46 <=? n) && (n <=? 57) || (65 <=? n) && (n <=? 90) || (97 <=? n) && (n <=? 122) ||
  (n =? 95).

(** [{"msg": null, "key": "] and ["}] *)
Definition key_prefix : bytes :=
  [123; 34; 109; 115; 103; 34; 58; 32; 110; 117; 108; 108; 44; 32;
   34; 107; 101; 121; 34; 58; 32; 34].
Definition key_suffix : bytes := [34; 125].

(** The codec restricted to messages that carry a plain key and nothing else:
    the text is the one [json.dumps] prints. *)
Definition key_dumps (v : json) : option bytes :=
  match v with
  | JObj [(a, JNull); (b, JStr k)] =>
      if decide (a = "msg" ∧ b = "key")%string then
        if forallb plain (list_ascii_of_string k)
        then Some (key_prefix ++ text k ++ key_suffix) else None
      else None
  | _ => None
  end.

Definition key_loads (b : bytes) : option json :=
  let k := take (length b - 24) (drop 22 b) in
  if decide (b = key_prefix ++ k ++ key_suffix)
  then Some (JObj [("msg"%string, JNull); ("key"%string, JStr (of_text k))]) else None.

Lemma key_loads_text t :
  key_loads (key_prefix ++ t ++ key_suffix) =
    Some (JObj [("msg"%string, JNull); ("key"%string, JStr (of_text t))]).
Proof.
  unfold key_loads.
  assert (take (length (key_prefix ++ t ++ key_suffix) - 24)
            (drop 22 (key_prefix ++ t ++ key_suffix)) = t) as ->.
  { rewrite drop_app_exact by done. rewrite take_app_exact; [done|].
    rewrite !length_app. simpl. lia. }
  by rewrite decide_True.
Qed.

Lemma key_loads_dumps v b : key_dumps v = Some b → key_loads b = Some v.
Proof.
  unfold key_dumps. intros E. repeat (case_match; try done).
  destruct_and!. subst. apply (inj Some) in E as <-. by rewrite key_loads_text, of_text_text.
Qed.

#[local] Instance key_codec : Codec := {|
  dumps := key_dumps; loads := key_loads; loads_dumps := key_loads_dumps;
  dumps_nonempty v b :=
    ltac:(unfold key_dumps; intros; repeat (case_match; try done); simplify_eq; done) |}.

Definition hello : json := msg_body JNull "test.api" None None.
Definition hello_text : bytes := key_prefix ++ text "test.api" ++ key_suffix.

(** One message cut into two chunks; the second message still on the way. *)
Lemma link_refines_queue_witness :
  let f := frame (Z.of_nat (length hello_text)) hello_text in
  let l := mkLink [hello; hello] [f] [hello] in
  rtc link_step (mkLink [] [] []) l ∧
  ∃ queue, sent l = received l ++ queue ∧
    match queue with
    | [] => read_msg (arrive (fly l)) = (MsgWaits, [])
    | v :: _ => ∃ m cs', read_msg (arrive (fly l)) = (Msg m, arrive cs') ∧ m_body m = v
    end.
Proof.
  intros f l.
  assert (rtc link_step (mkLink [] [] []) l) as R.
  { apply rtc_l with (mkLink [hello] [f] []).
    { apply (link_send [] [] [] JNull "test.api" None None hello_text 40);
        [done|vm_compute; reflexivity|split; by vm_compute|vm_compute; lia|by vm_compute]. }
    apply rtc_l with (mkLink [hello; hello] [f; f] []).
    { apply (link_send [hello] [f] [] JNull "test.api" None None hello_text 40);
        [done|vm_compute; reflexivity|split; by vm_compute|vm_compute; lia|by vm_compute]. }
    apply rtc_l with (mkLink [hello; hello] [take 5 f; drop 5 f ++ f] []).
    { apply link_cut; [by vm_compute|by repeat constructor]. }
    apply rtc_once.
    apply (link_read [hello; hello] [take 5 f; drop 5 f ++ f] []
             (mkMSG 3 (Z.of_nat (length hello_text)) hello) [f]). by vm_compute. }
  split; [done|]. apply (link_refines_queue l R).
Defined.
