(* ===== verification/LycLoop.v ===== *)
(** The event loop of the cloud controller (src/lyweb/lib/lyc/ioloop.py): the
    heap of timeouts, the handlers bound to descriptors, one turn of
    [IOLoop.start], and [PeriodicCallback]. Times are milliseconds. What a
    callback or a handler does to the loop is a parameter; an exception it
    raises is caught by the loop, so the parameter gives the state it leaves. *)
From stdpp Require Import gmap sorting.
From S2P Require Import Prelude Table.
#[local] Open Scope Z_scope.

Definition READ := 1.
Definition WRITE := 4.
Definition ERROR := 8 + 16.

(** [PeriodicCallback]: [timeout] is the handle of its pending timeout. *)
Record Periodic (C : Type) := mkPeriodic {
  pc_callback : C; pc_callback_time : Z; pc_running : bool;
  pc_next_timeout : Z; pc_timeout : option nat }.
Arguments mkPeriodic {C} _ _ _ _ _.
Arguments pc_callback {C} _.
Arguments pc_callback_time {C} _.
Arguments pc_running {C} _.
Arguments pc_next_timeout {C} _.
Arguments pc_timeout {C} _.

(** The callback of a timeout: the bound method [_run] of a periodic callback, or
    another callable. *)
Inductive callable (C : Type) := Call (c : C) | RunPeriodic (p : Z).
Arguments Call {C} _.
Arguments RunPeriodic {C} _.

(** A [_Timeout] object; [oid] is its identity. *)
Record Timeout (C : Type) := mkTimeout { oid : nat; deadline : Z; target : callable C }.
Arguments mkTimeout {C} _ _ _.
Arguments oid {C} _.
Arguments deadline {C} _.
Arguments target {C} _.

(** [cancelled] are the timeouts whose [callback] was set to [None], [ran] the
    ones whose callback was called, [registered] what [epoll] watches, [clock]
    what [time.time()] gives. *)
Record IOLoop (C H : Type) := mkLoop {
  timeouts : list (Timeout C); cancelled : gset nat; next_oid : nat;
  handlers : gmap Z H; registered : gmap Z Z;
  periodics : gmap Z (Periodic C); clock : Z; ran : list nat }.
Arguments mkLoop {C H} _ _ _ _ _ _ _ _.
Arguments timeouts {C H} _.
Arguments cancelled {C H} _.
Arguments next_oid {C H} _.
Arguments handlers {C H} _.
Arguments registered {C H} _.
Arguments periodics {C H} _.
Arguments clock {C H} _.
Arguments ran {C H} _.

(** [PeriodicCallback._schedule_next]: the loop that skips the deadlines that are
    over; [None] means that [fuel] ran out. *)
Fixpoint catch_up (fuel : nat) (period current next : Z) : option Z :=
  match fuel with
  | O => None
  | Datatypes.S fuel' =>
      if next <=? current then catch_up fuel' period current (next + period)
      else Some next
  end.

Section loop.
Context {C H : Type}.
(** The address of an object, the tie-breaker of equal deadlines. *)
Context (addr : nat → Z).
(** What the callables and handlers outside this file do to the loop. *)
Context (run_C : C → IOLoop C H → IOLoop C H).
Context (run_H : H → Z → Z → IOLoop C H → IOLoop C H).

Implicit Types (L : IOLoop C H) (t : Timeout C).

(** ** Timeouts *)

(** [_Timeout.__lt__] *)
Definition timeout_lt t t' : bool :=
  (deadline t <? deadline t') ||
  ((deadline t =? deadline t') && (addr (oid t) <? addr (oid t'))).

(** [heapq.heappush], the heap as the list of its elements in the order
    [heapq.heappop] gives them. *)
Fixpoint heappush t (h : list (Timeout C)) : list (Timeout C) :=
  match h with
  | [] => [t]
  | x :: h' => if timeout_lt t x then t :: h else x :: heappush t h'
  end.

Definition set_timeouts (h : list (Timeout C)) L : IOLoop C H :=
  mkLoop h (cancelled L) (next_oid L) (handlers L) (registered L) (periodics L)
    (clock L) (ran L).
Definition set_periodic (p : Z) (x : Periodic C) L : IOLoop C H :=
  mkLoop (timeouts L) (cancelled L) (next_oid L) (handlers L) (registered L)
    (<[p := x]> (periodics L)) (clock L) (ran L).
Definition log_run (o : nat) L : IOLoop C H :=
  mkLoop (timeouts L) (cancelled L) (next_oid L) (handlers L) (registered L)
    (periodics L) (clock L) (ran L ++ [o]).

Definition add_timeout (d : Z) (c : callable C) L : nat * IOLoop C H :=
  (next_oid L,
   mkLoop (heappush (mkTimeout (next_oid L) d c) (timeouts L)) (cancelled L)
     (Datatypes.S (next_oid L)) (handlers L) (registered L) (periodics L) (clock L) (ran L)).

Definition remove_timeout (o : nat) L : IOLoop C H :=
  mkLoop (timeouts L) ({[o]} ∪ cancelled L) (next_oid L) (handlers L) (registered L)
    (periodics L) (clock L) (ran L).

(** ** Periodic callbacks *)

(** The turns the loop of [_schedule_next] needs when it ends. *)
Definition catch_up_fuel (period current next : Z) : nat :=
  Datatypes.S (Datatypes.S (Z.to_nat ((current - next) / period))).

(** [None] when the loop of [_schedule_next] does not end. *)
Definition _schedule_next (p : Z) L : option (IOLoop C H) :=
  match periodics L !! p with
  | None => Some L
  | Some x =>
      if pc_running x then
        let fuel := catch_up_fuel (pc_callback_time x) (clock L) (pc_next_timeout x) in
        next ← catch_up fuel (pc_callback_time x) (clock L) (pc_next_timeout x);
        let '(o, L1) := add_timeout next (RunPeriodic p) L in
        Some (set_periodic p (mkPeriodic (pc_callback x) (pc_callback_time x) true
                                next (Some o)) L1)
      else Some L
  end.

Definition pc_start (p : Z) L : option (IOLoop C H) :=
  match periodics L !! p with
  | None => Some L
  | Some x =>
      _schedule_next p
        (set_periodic p (mkPeriodic (pc_callback x) (pc_callback_time x) true
                           (clock L) (pc_timeout x)) L)
  end.

Definition pc_stop (p : Z) L : IOLoop C H :=
  match periodics L !! p with
  | None => L
  | Some x =>
      let stopped o := mkPeriodic (pc_callback x) (pc_callback_time x) false
                         (pc_next_timeout x) o in
      match pc_timeout x with
      | None => set_periodic p (stopped None) L
      | Some o => set_periodic p (stopped None) (remove_timeout o L)
      end
  end.

(** [PeriodicCallback._run]: the callback, its exceptions logged, then the next
    deadline. *)
Definition _run (p : Z) L : option (IOLoop C H) :=
  match periodics L !! p with
  | None => Some L
  | Some x =>
      if pc_running x then _schedule_next p (run_C (pc_callback x) L) else Some L
  end.

Definition _run_callback (c : callable C) L : option (IOLoop C H) :=
  match c with
  | Call c => Some (run_C c L)
  | RunPeriodic p => _run p L
  end.

(** ** One turn of [start] *)

Definition max_poll := 3600 * 1000.

(** The [while self._timeouts] loop: the [poll_timeout] it leaves. [None] means
    that [fuel] ran out, or that a callback did not return. *)
Fixpoint run_due (fuel : nat) (now : Z) L : option (Z * IOLoop C H) :=
  match fuel with
  | O => None
  | Datatypes.S fuel' =>
      match timeouts L with
      | [] => Some (max_poll, L)
      | t :: h =>
          if decide (oid t ∈ cancelled L) then run_due fuel' now (set_timeouts h L)
          else if deadline t <=? now then
            L' ← _run_callback (target t) (log_run (oid t) (set_timeouts h L));
            run_due fuel' now L'
          else Some (Z.min (deadline t - now) max_poll, L)
      end
  end.

(** A descriptor without a handler is a [KeyError], which is logged. *)
Definition dispatch L (ev : Z * Z) : IOLoop C H :=
  match handlers L !! ev.1 with
  | Some h => run_H h ev.1 ev.2 L
  | None => L
  end.

Definition turn (fuel : nat) (events : list (Z * Z)) L : option (Z * IOLoop C H) :=
  '(poll_timeout, L') ← run_due fuel (clock L) L;
  Some (poll_timeout, fold_left dispatch events L').

(** ** Handlers *)

Definition set_handlers (h : gmap Z H) (r : gmap Z Z) L : IOLoop C H :=
  mkLoop (timeouts L) (cancelled L) (next_oid L) h r (periodics L) (clock L) (ran L).

(** [epoll.unregister] of a descriptor that is not registered raises [IOError],
    which is caught. *)
Definition remove_handler (fd : Z) L : IOLoop C H :=
  set_handlers (delete fd (handlers L)) (delete fd (registered L)) L.

(** [epoll.register] of a registered descriptor raises [IOError], [None]. *)
Definition add_handler (fd : Z) (h : H) (evt : Z) L : option (IOLoop C H) :=
  let L1 := match handlers L !! fd with Some _ => remove_handler fd L | None => L end in
  match registered L1 !! fd with
  | Some _ => None
  | None => Some (set_handlers (<[fd := h]> (handlers L1))
                    (<[fd := Z.lor evt ERROR]> (registered L1)) L1)
  end.

(** [epoll.modify] of an unknown descriptor raises [IOError], [None]. *)
Definition update_handler (fd evt : Z) L : option (IOLoop C H) :=
  match registered L !! fd with
  | Some _ => Some (set_handlers (handlers L) (<[fd := evt]> (registered L)) L)
  | None => None
  end.

(** ** The loop of [_schedule_next] *)

Lemma catch_up_ends period current : 0 < period → ∀ fuel next,
  (catch_up_fuel period current next ≤ fuel)%nat →
  ∃ k v, catch_up fuel period current next = Some v ∧ 0 ≤ k ∧ v = next + k * period ∧
    current < v ∧ (k = 0 ∨ v - period ≤ current).
Proof.
  intros Hp fuel. induction fuel as [|fuel IH]; intros next Hf; [unfold catch_up_fuel in *; lia|].
  cbn [catch_up]. destruct (Z.leb_spec next current) as [Hle|Hlt].
  - assert ((current - (next + period)) / period = (current - next) / period - 1) as E.
    { replace (current - (next + period)) with (current - next + (-1) * period) by lia.
      rewrite Z.div_add by lia. lia. }
    assert (0 ≤ (current - next) / period) by (apply Z.div_pos; lia).
    destruct (decide (current < next + period)) as [Hd|Hd].
    + destruct fuel as [|fuel]; [unfold catch_up_fuel in *; lia|].
      cbn [catch_up]. rewrite (proj2 (Z.leb_gt _ _)) by lia.
      exists 1, (next + period). split_and!; [done|lia..].
    + assert (1 ≤ (current - next) / period) by (apply Z.div_le_lower_bound; lia).
      destruct (IH (next + period)) as (k & v & -> & ? & -> & ? & ?);
        [unfold catch_up_fuel in *; rewrite E; lia|].
      exists (k + 1), (next + period + k * period). split_and!; [done|lia..].
  - exists 0, next. split_and!; [done|lia..].
Qed.

Lemma catch_up_hangs period current fuel : ∀ next,
  period ≤ 0 → next ≤ current → catch_up fuel period current next = None.
Proof.
  induction fuel as [|fuel IH]; intros next Hp Hn; [done|]. cbn [catch_up].
  rewrite (proj2 (Z.leb_le _ _)) by lia. apply IH; lia.
Qed.

(** ** What callbacks leave of the heap *)

Definition heap_ok L : Prop := StronglySorted (λ t t', deadline t ≤ deadline t') (timeouts L).
Definition periods_ok L : Prop := map_Forall (λ _ x, 0 < pc_callback_time x) (periodics L).

(** From [L] to [L'] time went on, timeouts were cancelled and timeouts after
    [now] were added. *)
Record later (now : Z) L L' : Prop := {
  later_clock : clock L ≤ clock L';
  later_cancelled : cancelled L ⊆ cancelled L';
  later_ran : ran L' = ran L;
  later_heap : ∃ new, timeouts L' ≡ₚ timeouts L ++ new ∧ Forall (λ t, now < deadline t) new;
  later_sorted : heap_ok L → heap_ok L';
  later_periods : periods_ok L → periods_ok L';
}.

#[export] Instance later_preorder now : PreOrder (later now).
Proof.
  clear addr run_C run_H.
  split.
  - intros L. split; try done. exists []. by rewrite app_nil_r.
  - intros L1 L2 L3 [? ? R1 (n1 & P1 & F1) ? ?] [? ? R2 (n2 & P2 & F2) ? ?].
    split; [lia|set_solver|congruence| |auto..].
    exists (n1 ++ n2). split; [|by apply Forall_app].
    by rewrite P2, P1, app_assoc.
Qed.

Lemma heappush_perm t h : heappush t h ≡ₚ t :: h.
Proof.
  induction h as [|x h IH]; [done|]. simpl. case_match; [done|].
  rewrite IH. apply Permutation_swap.
Qed.

Lemma heappush_sorted t h :
  StronglySorted (λ t t', deadline t ≤ deadline t') h →
  StronglySorted (λ t t', deadline t ≤ deadline t') (heappush t h).
Proof.
  induction 1 as [|x h Hs IH Hx]; simpl; [by repeat constructor|].
  unfold timeout_lt. destruct (Z.ltb_spec (deadline t) (deadline x)) as [Hlt|Hge]; simpl.
  - constructor; [by constructor|]. constructor; [lia|].
    eapply Forall_impl; [apply Hx|]. simpl. intros y ?. lia.
  - case_match; bool_prop.
    + constructor; [by constructor|]. constructor; [lia|].
      eapply Forall_impl; [apply Hx|]. simpl. intros y ?. lia.
    + constructor; [done|]. rewrite heappush_perm. constructor; [lia|done].
Qed.

Lemma add_timeout_later now d c L : now < d → later now L (add_timeout d c L).2.
Proof.
  intros Hd. split; try done; [|intros; by apply heappush_sorted].
  exists [mkTimeout (next_oid L) d c]. split; [|by repeat constructor].
  simpl. rewrite heappush_perm. apply Permutation_cons_append.
Qed.

Lemma remove_timeout_later now o L : later now L (remove_timeout o L).
Proof.
  split; try done; [apply union_subseteq_r|]. exists []. by rewrite app_nil_r.
Qed.

Lemma set_periodic_later now p x L :
  0 < pc_callback_time x → later now L (set_periodic p x L).
Proof.
  intros Hx. split; try done; [exists []; by rewrite app_nil_r|].
  intros HP. by apply map_Forall_insert_2.
Qed.

(** With a positive period the next deadline of a periodic callback is found, and
    it is after the clock. *)
Lemma schedule_next_later now p L :
  periods_ok L → now ≤ clock L →
  ∃ L', _schedule_next p L = Some L' ∧ later now L L'.
Proof.
  intros HP Hn. unfold _schedule_next.
  destruct (periodics L !! p) as [x|] eqn:E; [|by exists L].
  destruct (pc_running x); [|by exists L].
  pose proof (HP _ _ E) as Hx. simpl in Hx.
  destruct (catch_up_ends (pc_callback_time x) (clock L) Hx _ (pc_next_timeout x) (le_n _))
    as (k & v & -> & _ & _ & Hv & _). cbn [mbind option_bind].
  eexists. split; [done|]. etrans; [apply (add_timeout_later now v (RunPeriodic p)); lia|].
  by apply set_periodic_later.
Qed.

(** ** The pass over the timeouts *)

Definition due (now : Z) t : Prop := deadline t ≤ now.
#[local] Instance due_dec now t : Decision (due now t) := decide (deadline t ≤ now).

(** Callables outside this file add timeouts only for later. *)
Definition polite (now : Z) : Prop :=
  ∀ c L, now ≤ clock L → later now L (run_C c L).

Lemma run_callback_later now c L :
  polite now → periods_ok L → now ≤ clock L →
  ∃ L', _run_callback c L = Some L' ∧ later now L L'.
Proof.
  intros HC HP Hn. destruct c as [c|p]; simpl; [eexists; by split; [|apply HC]|].
  unfold _run. destruct (periodics L !! p) as [x|]; [|by exists L].
  destruct (pc_running x); [|by exists L].
  pose proof (HC (pc_callback x) L Hn) as HL.
  destruct (schedule_next_later now p (run_C (pc_callback x) L)) as (L' & E & HL').
  - by apply HL.
  - destruct HL. lia.
  - exists L'. split; [done|]. by etrans.
Qed.

(** The part of the heap that is due under [later]. *)
Lemma later_due now L L' :
  later now L L' → filter (due now) (timeouts L') ≡ₚ filter (due now) (timeouts L).
Proof.
  intros [_ _ _ (new & HP & HF) _ _]. rewrite HP, filter_app.
  assert (filter (due now) new = []) as ->; [|by rewrite app_nil_r].
  apply filter_nil_iff. eapply Forall_impl; [apply HF|]. unfold due. simpl. lia.
Qed.

Lemma heap_ok_tail t h L : timeouts L = t :: h → heap_ok L → heap_ok (set_timeouts h L).
Proof. unfold heap_ok. simpl. intros -> HS. by apply StronglySorted_inv in HS as [? _]. Qed.

Lemma heap_ok_head t h L now :
  timeouts L = t :: h → heap_ok L → now < deadline t → Forall (λ t, now < deadline t) (t :: h).
Proof.
  unfold heap_ok. intros -> HS Ht. apply StronglySorted_inv in HS as [_ HF].
  constructor; [done|]. eapply Forall_impl; [apply HF|]. simpl. lia.
Qed.

(** What a pass leaves: nothing due in the heap, and a positive time to wait. *)
Definition pass_over (now : Z) (poll : Z) L : Prop :=
  heap_ok L ∧ Forall (λ t, now < deadline t) (timeouts L) ∧ 0 < poll ≤ max_poll.

(** Nothing is due: only cancelled timeouts are dropped. *)
Lemma run_due_nothing now h : ∀ L,
  timeouts L = h → heap_ok L → Forall (λ t, now < deadline t) h →
  ∃ poll L', (∀ fuel, (length h < fuel)%nat →
      run_due fuel now L = Some (poll, L')) ∧
    pass_over now poll L' ∧ ran L' = ran L ∧ cancelled L' = cancelled L.
Proof.
  induction h as [|t h IH]; intros L E HS HF.
  - exists max_poll, L. split; [intros [|fuel] ?; [lia|]; simpl; by rewrite E|].
    split; [|done]. split; [done|]. by rewrite E.
  - apply Forall_cons in HF as [Ht HF].
    destruct (decide (oid t ∈ cancelled L)) as [Hc|Hc].
    + destruct (IH (set_timeouts h L)) as (poll & L' & Hrun & HO & HR & HC); [done| |done|].
      { by apply (heap_ok_tail t). }
      exists poll, L'. split; [|done]. intros [|fuel] Hf; [simpl in Hf; lia|].
      simpl. rewrite E, decide_True by done. apply Hrun. simpl in Hf. lia.
    + exists (Z.min (deadline t - now) max_poll), L. split.
      * intros [|fuel] Hf; [simpl in Hf; lia|]. simpl.
        by rewrite E, decide_False, (proj2 (Z.leb_gt _ _)) by (done || lia).
      * split; [|done]. split; [done|]. rewrite E.
        split; [by constructor|]. unfold max_poll in *. lia.
Qed.

(** The pass, for [n] timeouts that are due. *)
Lemma run_due_pass now n : polite now → ∀ L,
  length (filter (due now) (timeouts L)) = n →
  heap_ok L → periods_ok L → now ≤ clock L →
  ∃ N poll L' r, (∀ fuel, (N ≤ fuel)%nat → run_due fuel now L = Some (poll, L')) ∧
    pass_over now poll L' ∧ cancelled L ⊆ cancelled L' ∧
    ran L' = ran L ++ r ∧
    (∀ o, o ∈ r → ∃ t, t ∈ filter (due now) (timeouts L) ∧ oid t = o) ∧
    (∀ t, t ∈ filter (due now) (timeouts L) → oid t ∈ r ∨ oid t ∈ cancelled L').
Proof.
  intros HC. induction n as [|n IH]; intros L Hn HS HP Hk.
  - apply nil_length_inv in Hn. rewrite Hn.
    destruct (run_due_nothing now _ L eq_refl HS) as (poll & L' & Hrun & HO & HR & HX).
    { apply filter_nil_iff in Hn. eapply Forall_impl; [apply Hn|]. unfold due. simpl. lia. }
    exists (Datatypes.S (length (timeouts L))), poll, L', []. rewrite app_nil_r.
    split_and!; [intros; apply Hrun; lia|done|by rewrite HX|done|..];
      intros o Ho; by apply elem_of_nil in Ho.
  - destruct (timeouts L) as [|t h] eqn:E; [done|].
    assert (due now t) as Ht.
    { destruct (decide (due now t)) as [|Hd]; [done|]. exfalso. unfold due in Hd.
      assert (filter (due now) (t :: h) = []) as Hnil; [|by rewrite Hnil in Hn].
      apply filter_nil_iff. eapply Forall_impl; [apply (heap_ok_head t h L now E HS); lia|].
      unfold due. simpl. lia. }
    rewrite filter_cons_True in Hn |- * by done. injection Hn as Hn.
    pose proof (heap_ok_tail t h L E HS) as HS1.
    destruct (decide (oid t ∈ cancelled L)) as [Hcn|Hcn].
    + destruct (IH (set_timeouts h L) Hn HS1 HP Hk)
        as (N & poll & L' & r & Hrun & HO & HX & HR & Hin & Hall).
      exists (Datatypes.S N), poll, L', r. split_and!; [|done..| |].
      * intros [|fuel] Hf; [lia|]. simpl. rewrite E, decide_True by done. apply Hrun. lia.
      * intros o (t' & ? & ?)%Hin. exists t'. by split; [right|].
      * intros t' [->|Ht']%elem_of_cons; [right; by apply HX|by apply Hall].
    + set (L1 := log_run (oid t) (set_timeouts h L)).
      destruct (run_callback_later now (target t) L1 HC HP Hk) as (L2 & E2 & HL).
      pose proof (later_due now L1 L2 HL) as HD. change (timeouts L1) with h in HD.
      destruct (IH L2) as (N & poll & L' & r & Hrun & HO & HX & HR & Hin & Hall);
        [by rewrite HD|by apply HL|by apply HL|destruct HL; simpl in *; lia|].
      exists (Datatypes.S N), poll, L', (oid t :: r). split_and!; [|done|..].
      * intros [|fuel] Hf; [lia|]. simpl.
        rewrite E, decide_False, (proj2 (Z.leb_le _ _)) by (done || apply Ht).
        fold L1. rewrite E2. apply Hrun. lia.
      * destruct HL as [_ Hcl _ _ _ _]. simpl in Hcl. set_solver.
      * rewrite HR. destruct HL as [_ _ -> _ _ _]. simpl. by rewrite <- app_assoc.
      * intros o [->|Ho]%elem_of_cons; [exists t; by split; [left|]|].
        apply Hin in Ho as (t' & Ht' & <-). exists t'. split; [right|done].
        by rewrite HD in Ht'.
      * intros t' [->|Ht']%elem_of_cons; [left; by left|].
        rewrite <- HD in Ht'. destruct (Hall t' Ht'); [left; by right|by right].
Qed.

(** ** Properties *)

(** C39: the loop of [_schedule_next] ends exactly when the period is positive or
    the next deadline is still ahead; with a positive period, the deadline it
    finds is the first of the sequence [next], [next + period], ... that is after
    the clock. *)
Theorem schedule_next_ends period current next :
  ((∃ fuel, is_Some (catch_up fuel period current next)) ↔ 0 < period ∨ current < next) ∧
  (0 < period → ∃ k, 0 ≤ k ∧
     catch_up (catch_up_fuel period current next) period current next =
       Some (next + k * period) ∧
     current < next + k * period ∧ ∀ j, 0 ≤ j < k → next + j * period ≤ current).
Proof.
  split; [split|].
  - intros [fuel [v E]]. destruct (decide (0 < period ∨ current < next)); [done|].
    by rewrite catch_up_hangs in E by lia.
  - intros [Hp|Hl].
    + destruct (catch_up_ends period current Hp _ next (le_n _)) as (k & v & E & _).
      eexists. by eexists.
    + exists 1%nat. cbn [catch_up]. by rewrite (proj2 (Z.leb_gt _ _)) by lia.
  - intros Hp. destruct (catch_up_ends period current Hp _ next (le_n _))
      as (k & v & E & Hk & -> & Hv & Hlast).
    exists k. split_and!; [done..|]. intros j Hj. nia.
Qed.

Lemma schedule_next_ends_witness :
  (∃ k, 0 ≤ k ∧ catch_up (catch_up_fuel 20 1000 905) 20 1000 905 = Some (905 + k * 20) ∧
     1000 < 905 + k * 20 ∧ ∀ j, 0 ≤ j < k → 905 + j * 20 ≤ 1000).
Proof. apply (schedule_next_ends 20 1000 905). lia. Defined.

(** C22: when callbacks add timeouts only for later, as a [PeriodicCallback] with
    a positive period does, the pass over the timeouts ends, and every timeout
    that is due is run in it unless it was cancelled; nothing else is run,
    nothing due is left, and the wait that follows is positive. *)
Theorem due_timeouts_run L :
  heap_ok L → periods_ok L → polite (clock L) →
  ∃ N poll L' r,
    (∀ fuel, (N ≤ fuel)%nat → run_due fuel (clock L) L = Some (poll, L')) ∧
    ran L' = ran L ++ r ∧
    (∀ t, t ∈ timeouts L → deadline t ≤ clock L → oid t ∈ r ∨ oid t ∈ cancelled L') ∧
    (∀ o, o ∈ r → ∃ t, t ∈ timeouts L ∧ deadline t ≤ clock L ∧ oid t = o) ∧
    Forall (λ t, clock L < deadline t) (timeouts L') ∧ 0 < poll ≤ max_poll.
Proof.
  intros HS HP HC.
  destruct (run_due_pass (clock L) _ HC L eq_refl HS HP (Z.le_refl _))
    as (N & poll & L' & r & Hrun & (_ & Hleft & Hpoll) & _ & HR & Hin & Hall).
  exists N, poll, L', r. split_and!; [done..| | |done|lia|lia].
  - intros t Ht Hd. apply Hall, list_elem_of_filter. by split.
  - intros o (t & [Hd Ht]%list_elem_of_filter & <-)%Hin. by exists t.
Qed.

(** ** Handlers *)

(** [epoll] watches exactly the descriptors that have a handler. *)
Definition handlers_ok L : Prop := dom (handlers L) = dom (registered L).

Lemma add_handler_ok fd h evt L :
  handlers_ok L →
  ∃ L', add_handler fd h evt L = Some L' ∧ handlers_ok L' ∧
    handlers L' = <[fd := h]> (handlers L) ∧
    registered L' = <[fd := Z.lor evt ERROR]> (registered L).
Proof.
  unfold handlers_ok, add_handler. intros HD.
  destruct (handlers L !! fd) as [h0|] eqn:E; simpl.
  - rewrite lookup_delete_eq, !insert_delete_eq. eexists. split; [done|]. simpl.
    by rewrite !dom_insert_L, HD.
  - assert (registered L !! fd = None) as ->
      by (apply not_elem_of_dom; rewrite <- HD; by apply not_elem_of_dom).
    eexists. split; [done|]. simpl. by rewrite !dom_insert_L, HD.
Qed.

Lemma remove_handler_ok fd L : handlers_ok L → handlers_ok (remove_handler fd L).
Proof. unfold handlers_ok. simpl. intros HD. by rewrite !dom_delete_L, HD. Qed.

Lemma update_handler_ok fd evt L L' :
  handlers_ok L → update_handler fd evt L = Some L' → handlers_ok L'.
Proof.
  unfold handlers_ok, update_handler. intros HD. case_match eqn:E; [|done].
  intros [= <-]. simpl. rewrite HD, dom_insert_lookup_L by done. done.
Qed.
End loop.

(** ** A loop with a periodic callback and a callback that cancels a timeout *)

Section example.
Definition cancels (c : bool) (L : IOLoop bool Z) : IOLoop bool Z :=
  if c then remove_timeout 2 L else L.

Definition example_loop : IOLoop bool Z :=
  mkLoop [mkTimeout 0 5 (Call true); mkTimeout 1 7 (RunPeriodic 0);
          mkTimeout 2 8 (Call false); mkTimeout 3 20 (Call false)]
    ∅ 4 ∅ ∅ {[ 0 := mkPeriodic false 4 true 7 (Some 1%nat) ]} 10 [].

Lemma due_timeouts_run_witness :
  ∃ N poll L' r,
    (∀ fuel, (N ≤ fuel)%nat →
       run_due Z.of_nat cancels fuel 10 example_loop = Some (poll, L')) ∧
    ran L' = [] ++ r ∧
    (∀ t, t ∈ timeouts example_loop → deadline t ≤ 10 →
       oid t ∈ r ∨ oid t ∈ cancelled L') ∧
    (∀ o, o ∈ r → ∃ t, t ∈ timeouts example_loop ∧ deadline t ≤ 10 ∧ oid t = o) ∧
    Forall (λ t, 10 < deadline t) (timeouts L') ∧ 0 < poll ≤ max_poll.
Proof.
  apply (due_timeouts_run Z.of_nat cancels example_loop).
  - repeat constructor; done.
  - apply map_Forall_singleton. simpl. lia.
  - intros [] L _; [apply remove_timeout_later|done].
Defined.
End example.

(** The pass runs the first two timeouts, and the periodic callback is due again
    at 11. *)
Lemma example_pass :
  (λ '(poll, L), (poll, ran L, (λ t, (oid t, deadline t)) <$> timeouts L)) <$>
    run_due Z.of_nat cancels 10 10 example_loop =
  Some (1, [0; 1]%nat, [(4%nat, 11); (3%nat, 20)]).
Proof. by vm_compute. Qed.
