(* ===== verification/ClcServer.v ===== *)
(** The server of the controller as a whole (src/lyweb/tool/clc/clcapp.py, the class
    TCPStreamHandler of src/lyweb/lib/lyc/handler.py, the accepting handler of
    src/lyweb/lib/lyc/netutil.py): the event loop ([LycLoop]) passes the events of sockets to
    the handlers bound to them, these read messages ([LycStream]) and serve them ([MailTo]).

    The sockets of the server are blocking: a read that waits is the end of every progress,
    [None] here. When more bytes have come the read goes on; as it depends on the bytes only,
    this is the same as to start it again. What TLS keeps in its own buffer is not modelled,
    nor the threads that mail to users. *)
From Stdlib Require Import Ascii String.
From S2P Require Import Prelude PyBytes Password Table Cloud Account LycLoop LycStream MailTo.
#[local] Open Scope Z_scope.

(** ** State *)

(** What is bound to a descriptor: the accepting function, or an object of one of the two
    stream handlers, whose socket has this descriptor. *)
Inductive handler := AcceptHandler | StreamHandler (node : bool).

(** An accepted connection; [peer] names it, also after it is closed. *)
Record conn := mkConn { peer : nat; rx : list lyc_event }.
#[export] Instance eta_conn : Eta conn := λ c, mkConn (peer c) (rx c).

(** The TLS handshake of a connection that waits to be accepted. *)
Inductive handshake := Agreed | PeerGone | Failed | Waits.

(** [pending] are the events of this turn that are not passed on yet; [received] the
    messages read so far, [tasks] the mail requests begun, [answers] what was sent, each with
    its peer. *)
Record server := mkServer {
  loop : IOLoop unit handler; conns : gmap Z conn; backlog : list handshake;
  nodes : list (Z * string); next_peer : nat; pending : list (Z * Z);
  got : list (nat * json); tasks : list (nat * task); answers : list (nat * (string * bool)) }.
#[export] Instance eta_server : Eta server :=
  λ s, mkServer (loop s) (conns s) (backlog s) (nodes s) (next_peer s) (pending s)
         (got s) (tasks s) (answers s).

Section server.
Context {sha : Sha512} {codec : Codec}.
Context (listen_fd : Z) (alloc : gset Z → Z).   (* the descriptor the kernel gives next *)

(** [time.sleep(t)] *)
Definition sleep (t : Z) (L : IOLoop unit handler) : IOLoop unit handler :=
  mkLoop (timeouts L) (cancelled L) (next_oid L) (handlers L) (registered L) (periodics L)
    (clock L + t) (ran L).

(** ** A connection *)

(** [TCPStreamHandler._handle_close]: a descriptor 0 counts as none. Closing the socket takes
    it out of what [epoll] watches. *)
Definition _handle_close (fd : Z) (s : server) : server :=
  let L := if fd =? 0 then loop s else remove_handler fd (loop s) in
  s <| loop := set_handlers (handlers L) (delete fd (registered L)) L |>
    <| conns ::= delete fd |>.

(** The object [MailTo.receive] serves a message with. *)
Definition reader_of (node : bool) : reader := if node then NodeStream else NewClient.

(** [data_received] of the two classes; an exception is logged by the loop. The registration
    of a node binds another handler to the descriptor. *)
Definition serve (salt : string) (node_id : Z) (fd : Z) (node : bool) (c : conn) (data : json)
    (s : server) : server :=
  let s := s <| got ::= λ l, l ++ [(peer c, data)] |>
             <| loop ::= sleep (if node then 0 else 1000) |> in
  match receive salt node_id data (mkClc (reader_of node) (nodes s) []) with
  | inl _ => s
  | inr (c', t) =>
      let s := s <| nodes := cl_nodes c' |>
                 <| answers ::= λ l, l ++ ((λ a, (peer c, a)) <$> cl_sent c') |>
                 <| tasks ::= λ l, l ++ (match t with NoTask => [] | _ => [(peer c, t)] end) |> in
      match cl_reader c' with
      | Closed => _handle_close fd s
      | NodeStream =>
          match add_handler fd (StreamHandler true) READ (remove_handler fd (loop s)) with
          | Some L => s <| loop := L |>
          | None => s <| loop ::= remove_handler fd |>
          end
      | NewClient => s
      end
  end.

(** [TCPStreamHandler._handle_read] *)
Definition _handle_read (salt : string) (node_id : Z) (fd : Z) (node : bool) (c : conn)
    (s : server) : option server :=
  match read_msg (rx c) with
  | (MsgWaits, _) => None
  | (res, rx') =>
      let s := s <| conns ::= <[fd := mkConn (peer c) rx']> |> in
      Some match res with
           | Msg m => serve salt node_id fd node c (m_body m) s
           | NoMsg => _handle_close fd s
           | _ => s
           end
  end.

(** [TCPStreamHandler.__call__] *)
Definition call (salt : string) (node_id : Z) (fd evt : Z) (node : bool) (s : server) : option server :=
  match conns s !! fd with
  | None => Some s
  | Some c =>
      if negb (Z.land evt READ =? 0) then _handle_read salt node_id fd node c s
      else if negb (Z.land evt WRITE =? 0) then Some s
      else Some (_handle_close fd s)
  end.

(** ** New connections *)

Definition descriptors (s : server) : gset Z := {[listen_fd]} ∪ dom (conns s).

(** [Application.handle_stream]: [None] waits for the peer; [false] is an exception. *)
Definition handle_stream (h : handshake) (s : server) : option (bool * server) :=
  match h with
  | Waits => None
  | PeerGone => Some (true, s)
  | Failed => Some (false, s)
  | Agreed =>
      let fd := alloc (descriptors s) in
      match add_handler fd (StreamHandler false) READ (loop s) with
      | Some L => Some (true, s <| loop := L |> <| conns ::= <[fd := mkConn (next_peer s) []]> |>
                                <| next_peer ::= Datatypes.S |>)
      | None => Some (false, s)
      end
  end.

(** [accept_handler]: until no connection waits. An exception leaves the others waiting. *)
Fixpoint accept_all (hs : list handshake) (s : server) : option server :=
  match hs with
  | [] => Some (s <| backlog := [] |>)
  | h :: hs =>
      '(go, s) ← handle_stream h s;
      if go : bool then accept_all hs s else Some (s <| backlog := hs |>)
  end.

(** ** The loop *)

(** One event of a turn; [None] waits. *)
Definition dispatch (salt : string) (node_id : Z) (ev : Z * Z) (s : server) : option server :=
  match handlers (loop s) !! ev.1 with
  | None => Some s
  | Some AcceptHandler => accept_all (backlog s) s
  | Some (StreamHandler node) => call salt node_id ev.1 ev.2 node s
  end.

(** The network brings connections and bytes; the loop asks for events when it has passed on
    all it had. *)
Inductive step : server → server → Prop :=
  | step_connect h s : step s (s <| backlog ::= λ l, l ++ [h] |>)
  | step_arrive fd c ev s :
      conns s !! fd = Some c →
      step s (s <| conns ::= <[fd := mkConn (peer c) (rx c ++ [ev])]> |>)
  | step_poll evs s :
      pending s = [] → Forall (λ ev, is_Some (registered (loop s) !! ev.1)) evs →
      step s (s <| pending := evs |>)
  | step_event salt node_id ev evs s s' :
      has_salt_ok salt → pending s = ev :: evs →
      dispatch salt node_id ev (s <| pending := evs |>) = Some s' → step s s'.

(** [Application.listen], [IOLoop.start] *)
Definition started : server :=
  mkServer (mkLoop [] ∅ 0 {[listen_fd := AcceptHandler]} {[listen_fd := Z.lor READ ERROR]} ∅ 0 [])
    ∅ [] [] 0 [] [] [] [].

(** ** What always holds *)

(** A message that registers a node. *)
Definition registers (data : json) : Prop :=
  ∃ m password salt, data = JObj m ∧ jget "key" m = Some (JStr "/node/register") ∧
    (x ← jget "msg" m; member "password" x) = Some (JStr password) ∧
    _encrypt_password salt password = _encrypt_password salt "fffaaa".

(** A message that begins the task. *)
Definition asks_for (data : json) (t : task) : Prop :=
  ∃ m, data = JObj m ∧
    (jget "key" m = Some (JStr "mailto.userlist") ∧ t = UserList data ∨
     jget "key" m = Some (JStr "mailto.address") ∧ t = Address data).

Record server_ok (s : server) : Prop := {
  ok_watched : dom (registered (loop s)) = dom (handlers (loop s));
  ok_accepts : handlers (loop s) !! listen_fd = Some AcceptHandler;
  ok_accept fd : handlers (loop s) !! fd = Some AcceptHandler → fd = listen_fd;
  ok_bound fd : is_Some (conns s !! fd) ↔ ∃ node, handlers (loop s) !! fd = Some (StreamHandler node);
  ok_zero : conns s !! 0 = None;
  ok_peer fd c : conns s !! fd = Some c → (peer c < next_peer s)%nat;
  ok_peers fd fd' c c' : conns s !! fd = Some c → conns s !! fd' = Some c' → peer c = peer c' → fd = fd';
  ok_node fd c : handlers (loop s) !! fd = Some (StreamHandler true) → conns s !! fd = Some c →
    ∃ data, (peer c, data) ∈ got s ∧ registers data;
  ok_nodes : nodes s ≠ [] → ∃ p data, (p, data) ∈ got s ∧ registers data;
  ok_tasks p t : (p, t) ∈ tasks s → ∃ data, (p, data) ∈ got s ∧ asks_for data t;
}.

Lemma add_removed fd h (L : IOLoop unit handler) :
  add_handler fd h READ (remove_handler fd L) =
    Some (set_handlers (<[fd := h]> (handlers L)) (<[fd := Z.lor READ ERROR]> (registered L)) L).
Proof.
  unfold add_handler, remove_handler. cbn. rewrite !lookup_delete_eq. cbn.
  rewrite lookup_delete_eq. by rewrite !insert_delete_eq.
Qed.

Lemma add_fresh fd h (L : IOLoop unit handler) :
  handlers L !! fd = None → registered L !! fd = None →
  add_handler fd h READ L =
    Some (set_handlers (<[fd := h]> (handlers L)) (<[fd := Z.lor READ ERROR]> (registered L)) L).
Proof. intros Hh Hr. unfold add_handler. by rewrite Hh, Hr. Qed.
(** What a message makes of a new connection; a registered node gets nothing served. *)
Lemma receive_cases salt node_id data node l c' t :
  has_salt_ok salt → receive salt node_id data (mkClc (reader_of node) l []) = inr (c', t) →
  node = false ∧
  (cl_reader c' = NewClient ∧ cl_nodes c' = l ∧ (t = NoTask ∨ asks_for data t) ∨
   cl_reader c' = Closed ∧ cl_nodes c' = l ∧ t = NoTask ∨
   cl_reader c' = NodeStream ∧ registers data ∧ t = NoTask).
Proof.
  intros Hs Hr. destruct node; [done|]. split; [done|]. revert Hr.
  unfold receive. cbn [cl_reader reader_of]. unfold data_received.
  destruct data as [|b|z|x|k|m]; try done.
  destruct (jget "key" m) as [[| | |key| |]|] eqn:Ek; try done;
    try (intros [= <- <-]; right; by left).
  destruct (String.eqb_spec key "/node/register") as [->|].
  - unfold register_node. cbn [member]. destruct (jget "msg" m) as [[| | | | |d]|] eqn:Em; try done.
    destruct (jget "password" d) as [[| | |password| |]|] eqn:Ep; try done.
    rewrite check_own_password by done.
    destruct (String.eqb_spec (_encrypt_password salt "fffaaa") (_encrypt_password salt password)) as [E|];
      intros [= <- <-]; right; [right|by left].
    split_and!; [done| |done]. exists m, password, salt. by rewrite Em.
  - destruct (String.eqb_spec key "mailto.userlist") as [->|];
      [intros [= <- <-]; left; split_and!; [done..|]; right; exists m; auto|].
    destruct (String.eqb_spec key "mailto.address") as [->|];
      [intros [= <- <-]; left; split_and!; [done..|]; right; exists m; auto|].
    destruct (String.eqb key "test.api"); intros [= <- <-]; [left|right; left]; by auto.
Qed.
End server.

Section reach.
Set Default Proof Using "All".
Context {sha : Sha512} {codec : Codec} (listen_fd : Z) (alloc : gset Z → Z).
(** The kernel gives a descriptor that is not in use; 0 is the standard input. *)
Context (alloc_fresh : ∀ X, alloc X ∉ X) (alloc_pos : ∀ X, alloc X ≠ 0) (listen_pos : listen_fd ≠ 0).
#[local] Abbreviation ok s := (server_ok listen_fd s).

Lemma started_ok : ok (started listen_fd).
Proof.
  split; unfold started; cbn; try done.
  - by rewrite !dom_singleton_L.
  - by rewrite lookup_singleton_eq.
  - intros fd Hh. by apply lookup_singleton_Some in Hh as [<- _].
  - intros fd. rewrite lookup_empty. split; [by intros []|].
    intros [node Hh]. by apply lookup_singleton_Some in Hh as [_ ?].
  - by intros p t ?%elem_of_nil.
Qed.

Lemma stream_not_listen s fd node :
  ok s → handlers (loop s) !! fd = Some (StreamHandler node) → fd ≠ listen_fd.
Proof. intros Hs Hh ->. by rewrite (ok_accepts _ _ Hs) in Hh. Qed.

Lemma conn_stream s fd c : ok s → conns s !! fd = Some c →
  fd ≠ listen_fd ∧ fd ≠ 0 ∧ ∃ node, handlers (loop s) !! fd = Some (StreamHandler node).
Proof.
  intros Hs Hc. destruct (proj1 (ok_bound _ _ Hs fd)) as [node Hn]; [by eexists|].
  split_and!; [by eapply stream_not_listen| |by eexists]. intros ->. by rewrite (ok_zero _ _ Hs) in Hc.
Qed.

Lemma close_ok fd s : ok s → fd ≠ listen_fd → fd ≠ 0 → ok (_handle_close fd s).
Proof.
  intros Hs Hl H0. unfold _handle_close. rewrite (proj2 (Z.eqb_neq fd 0)) by done.
  destruct Hs. split; cbn; try done.
  - rewrite delete_delete_eq, !dom_delete_L. by f_equal.
  - by rewrite lookup_delete_ne.
  - intros fd'. rewrite lookup_delete_Some. intros [_ ?]. auto.
  - intros fd'. destruct (decide (fd' = fd)) as [->|].
    + rewrite !lookup_delete_eq. split; [by intros []|by intros [? ?]].
    + by rewrite !lookup_delete_ne by done.
  - by rewrite lookup_delete_ne.
  - intros fd' c [_ ?]%lookup_delete_Some. eauto.
  - intros fd1 fd2 c1 c2 [_ ?]%lookup_delete_Some [_ ?]%lookup_delete_Some. eauto.
  - intros fd' c [_ ?]%lookup_delete_Some [_ ?]%lookup_delete_Some. eauto.
Qed.

(** Only the peer of a connection and the handlers matter, not the bytes and the time. *)
Lemma rx_ok fd c r s : ok s → conns s !! fd = Some c →
  ok (s <| conns ::= <[fd := mkConn (peer c) r]> |>).
Proof.
  intros Hs Hc. destruct Hs. split; cbn; try done.
  - intros fd'. rewrite <- ok_bound0. destruct (decide (fd' = fd)) as [->|].
    + rewrite lookup_insert_eq, Hc. by split; eauto.
    + by rewrite lookup_insert_ne.
  - rewrite lookup_insert_ne; [done|]. intros ->. by rewrite ok_zero0 in Hc.
  - intros fd' c' [[-> <-]|[? ?]]%lookup_insert_Some; cbn; eauto.
  - intros fd1 fd2 c1 c2 [[-> <-]|[? ?]]%lookup_insert_Some [[-> <-]|[? ?]]%lookup_insert_Some; cbn; eauto.
  - intros fd' c' Hh [[-> <-]|[? ?]]%lookup_insert_Some; cbn; eauto.
Qed.

Lemma got_ok p data s : ok s → ok (s <| got ::= λ l, l ++ [(p, data)] |>).
Proof.
  intros []. split; cbn; try done.
  - intros fd c Hh Hc. destruct (ok_node0 fd c Hh Hc) as (d & ? & ?). exists d. rewrite elem_of_app. eauto.
  - intros Hn. destruct (ok_nodes0 Hn) as (q & d & ? & ?). exists q, d. rewrite elem_of_app. eauto.
  - intros q t Ht. destruct (ok_tasks0 q t Ht) as (d & ? & ?). exists d. rewrite elem_of_app. eauto.
Qed.

Lemma sleep_ok t s : ok s → ok (s <| loop ::= sleep t |>).
Proof. intros []. by split. Qed.


(** The message was kept, so its effects are justified. *)
Lemma effects_ok p data l a ts s : ok s → (p, data) ∈ got s →
  (l ≠ nodes s → registers data) → (∀ t, t ∈ ts → asks_for data t) →
  ok (s <| nodes := l |> <| answers ::= a |> <| tasks ::= λ k, k ++ ((λ t, (p, t)) <$> ts) |>).
Proof.
  intros Hs Hg Hl Ht. destruct Hs. split; cbn; try done.
  - intros Hn. destruct (decide (l = nodes s)) as [->|]; eauto.
  - intros q t [?|(t' & [= <- <-] & ?)%list_elem_of_fmap]%elem_of_app; eauto.
Qed.

Lemma node_ok fd s : ok s → fd ≠ listen_fd → is_Some (conns s !! fd) →
  (∀ c, conns s !! fd = Some c → ∃ data, (peer c, data) ∈ got s ∧ registers data) →
  ok (s <| loop := set_handlers (<[fd := StreamHandler true]> (handlers (loop s)))
             (<[fd := Z.lor READ ERROR]> (registered (loop s))) (loop s) |>).
Proof.
  intros Hs Hl Hc Hr. destruct Hs. split; cbn; try done.
  - by rewrite !dom_insert_L, ok_watched0.
  - by rewrite lookup_insert_ne.
  - intros fd' [[_ ?]|[_ ?]]%lookup_insert_Some; eauto. done.
  - intros fd'. destruct (decide (fd' = fd)) as [->|]; [rewrite lookup_insert_eq|rewrite lookup_insert_ne by done; done].
    split; eauto.
  - intros fd' c [[<- _]|[_ ?]]%lookup_insert_Some; eauto.
Qed.

(** What a message does, on a connection that was read from. *)
Lemma serve_ok salt node_id fd node c r data s :
  has_salt_ok salt → ok s → conns s !! fd = Some c → handlers (loop s) !! fd = Some (StreamHandler node) →
  ok (serve salt node_id fd node (mkConn (peer c) r) data s).
Proof.
  intros Hsalt Hs Hc Hh. destruct (conn_stream s fd c Hs Hc) as (Hl & H0 & _).
  assert (∀ l a s, ok s → (peer c, data) ∈ got s → (l ≠ nodes s → registers data) →
      ok (s <| nodes := l |> <| answers ::= a |> <| tasks ::= λ k, k ++ [] |>)) as Hno.
  { intros l a s0 ? ? ?. apply (effects_ok (peer c) data l a []); [done..|]. by intros ? ?%elem_of_nil. }
  unfold serve. set (s1 := (_ <| got ::= _ |>) <| loop ::= _ |>).
  assert (ok s1) as H1 by (by apply sleep_ok, got_ok).
  assert ((peer c, data) ∈ got s1) as Hg by (apply elem_of_app; right; by apply list_elem_of_singleton).
  cbn [peer]. change (nodes s) with (nodes s1).
  destruct (receive salt node_id data (mkClc (reader_of node) (nodes s1) [])) as [x|[c' t]] eqn:E; [done|].
  apply receive_cases in E as [-> [(Er & En & Ht)|[(Er & En & ->)|(Er & Hr & ->)]]]; [..|done]; rewrite Er.
  - destruct Ht as [->|Ht]; [by apply Hno|].
    assert (t ≠ NoTask) by (destruct Ht as (? & _ & [[_ ->]|[_ ->]]); done).
    destruct t; [done|..]; apply (effects_ok (peer c) data _ _ [_]); try done;
      by intros ? ->%list_elem_of_singleton.
  - apply close_ok; [by apply Hno|done..].
  - rewrite add_removed. apply node_ok; [|done|by eexists|].
    + by apply Hno.
    + intros c1. cbn. intros Hc1. assert (c1 = c) as -> by congruence. eauto.
Qed.

Lemma call_ok salt node_id fd evt node s s' :
  has_salt_ok salt → ok s → handlers (loop s) !! fd = Some (StreamHandler node) →
  call salt node_id fd evt node s = Some s' → ok s'.
Proof.
  intros Hsalt Hs Hh. unfold call. destruct (conns s !! fd) as [c|] eqn:Hc; [|by intros [= <-]].
  destruct (conn_stream s fd c Hs Hc) as (Hl & H0 & _).
  destruct (negb _).
  - unfold _handle_read. destruct (read_msg (rx c)) as [res rx'] eqn:E.
    pose proof (rx_ok fd c rx' s Hs Hc) as Hs'. destruct c as [p r]. cbn [peer] in *.
    destruct res; [| |by intros [= <-]|done]; intros [= <-]; [|by apply close_ok].
    apply (serve_ok _ _ _ _ (mkConn p rx') r); [done..| |done]. cbn. apply lookup_insert_eq.
  - destruct (negb _); intros [= <-]; [done|by apply close_ok].
Qed.

Lemma fresh_ok fd s : ok s → fd ∉ descriptors listen_fd s → fd ≠ 0 →
  ok (s <| loop := set_handlers (<[fd := StreamHandler false]> (handlers (loop s)))
             (<[fd := Z.lor READ ERROR]> (registered (loop s))) (loop s) |>
        <| conns ::= <[fd := mkConn (next_peer s) []]> |> <| next_peer ::= Datatypes.S |>).
Proof.
  intros Hs Hf H0. assert (fd ≠ listen_fd ∧ conns s !! fd = None) as [Hl Hn].
  { unfold descriptors in Hf. split; [set_solver|]. apply not_elem_of_dom. set_solver. }
  destruct Hs. split; cbn; try done.
  - by rewrite !dom_insert_L, ok_watched0.
  - by rewrite lookup_insert_ne.
  - intros fd' [[_ ?]|[_ ?]]%lookup_insert_Some; eauto. done.
  - intros fd'. destruct (decide (fd' = fd)) as [->|]; [rewrite !lookup_insert_eq|by rewrite !lookup_insert_ne].
    split; eauto.
  - by rewrite lookup_insert_ne.
  - intros fd' c [[_ <-]|[_ Hc]]%lookup_insert_Some; cbn; [lia|]. apply ok_peer0 in Hc. lia.
  - intros fd1 fd2 c1 c2 [[<- <-]|[_ Hc1]]%lookup_insert_Some [[<- <-]|[_ Hc2]]%lookup_insert_Some; cbn; eauto;
      intros E; [apply ok_peer0 in Hc2|apply ok_peer0 in Hc1]; lia.
  - intros fd' c [[_ ?]|[? ?]]%lookup_insert_Some [[? _]|[? ?]]%lookup_insert_Some; [done..|congruence|eauto].
Qed.

Lemma unused s : ok s → let fd := alloc (descriptors listen_fd s) in
  handlers (loop s) !! fd = None ∧ registered (loop s) !! fd = None.
Proof.
  intros Hs fd. pose proof (alloc_fresh (descriptors listen_fd s)) as Hf. fold fd in Hf.
  assert (handlers (loop s) !! fd = None) as E.
  { destruct (handlers (loop s) !! fd) as [[|node]|] eqn:E; [| |done]; exfalso; apply Hf; unfold descriptors.
    - apply (ok_accept _ _ Hs) in E as ->. set_solver.
    - assert (is_Some (conns s !! fd)) as Hc by (apply (ok_bound _ _ Hs); eauto).
      apply elem_of_dom in Hc. set_solver. }
  split; [done|]. apply not_elem_of_dom. rewrite (ok_watched _ _ Hs). by apply not_elem_of_dom.
Qed.

Lemma stream_ok h s go s' : ok s → handle_stream listen_fd alloc h s = Some (go, s') → ok s'.
Proof.
  intros Hs. destruct h; cbn [handle_stream]; [|by intros [= _ <-]..|done].
  destruct (unused s Hs) as [H1 H2]. rewrite add_fresh by done.
  intros [= _ <-]. apply fresh_ok; auto.
Qed.

Lemma backlog_ok l s : ok s → ok (s <| backlog := l |>).
Proof. intros []. by split. Qed.

Lemma accept_ok hs : ∀ s s', ok s → accept_all listen_fd alloc hs s = Some s' → ok s'.
Proof.
  induction hs as [|h hs IH]; intros s s' Hs; cbn [accept_all]; [intros [= <-]; by apply backlog_ok|].
  destruct (handle_stream listen_fd alloc h s) as [[go s1]|] eqn:E; [|done].
  apply (stream_ok _ _ _ _ Hs) in E. cbn. destruct go; [by apply IH|].
  intros [= <-]. by apply backlog_ok.
Qed.

Lemma server_step_ok s s' : ok s → step listen_fd alloc s s' → ok s'.
Proof.
  intros Hs Hstep. destruct Hstep as [h s|fd c ev s Hc|evs s _ _|salt node_id ev evs s s' Hsalt Hp Hd].
  - by apply backlog_ok.
  - by apply rx_ok.
  - destruct Hs. by split.
  - assert (ok (s <| pending := evs |>)) as Hs1 by (destruct Hs; by split).
    revert Hd. unfold dispatch. destruct (handlers _ !! ev.1) as [[|node]|] eqn:Hh.
    + by apply accept_ok.
    + by apply (call_ok salt node_id ev.1 ev.2 node).
    + by intros [= <-].
Qed.

(** C25: whatever connects and whatever it sends, in any order and cut in any way: the loop
    watches exactly the accepting socket and the open connections, each with a handler of its
    own; a connection is treated as that of a node only if a registration with the password
    came over it, nodes are only known by such registrations, and mail is only sent as a
    message over a connection asks for it. *)
Theorem server_reachable s : rtc (step listen_fd alloc) (started listen_fd) s → ok s.
Proof.
  intros Hr. eapply rtc_ind_r; [apply started_ok| |exact Hr]. intros s1 s2 _ Hs H1. by apply (server_step_ok s1).
Qed.

(** ** Connections are apart, but for the time they take *)

(** An event of a connection leaves all other descriptors as they are. *)
Lemma call_frame salt node_id fd evt node s s' :
  call salt node_id fd evt node s = Some s' →
  ∀ fd', fd' ≠ fd → conns s' !! fd' = conns s !! fd' ∧
    handlers (loop s') !! fd' = handlers (loop s) !! fd' ∧
    registered (loop s') !! fd' = registered (loop s) !! fd'.
Proof using Type.
  intros Hc fd' Hne. revert Hc. unfold call.
  assert (∀ s : server, conns (_handle_close fd s) !! fd' = conns s !! fd' ∧
    handlers (loop (_handle_close fd s)) !! fd' = handlers (loop s) !! fd' ∧
    registered (loop (_handle_close fd s)) !! fd' = registered (loop s) !! fd') as Hclose.
  { intros s0. unfold _handle_close. cbn. destruct (fd =? 0); cbn; by rewrite !lookup_delete_ne. }
  destruct (conns s !! fd) as [c|]; [|by intros [= <-]].
  destruct (negb _); [|destruct (negb _); intros [= <-]; by auto].
  unfold _handle_read. destruct (read_msg (rx c)) as [[m| |x|] rx']; try done; intros [= <-].
  - unfold serve. destruct (receive _ _ _ _) as [x|[c' t]]; [cbn; by rewrite lookup_insert_ne|].
    destruct (cl_reader c'); [cbn; by rewrite lookup_insert_ne| |].
    + rewrite add_removed. cbn. by rewrite !lookup_insert_ne.
    + edestruct Hclose as (-> & -> & ->). cbn. by rewrite lookup_insert_ne.
  - edestruct Hclose as (-> & -> & ->). cbn. by rewrite lookup_insert_ne.
  - cbn. by rewrite lookup_insert_ne.
Qed.

(** The part of a header waits. *)
Lemma half_header_waits (cs : list bytes) :
  solid cs → (length (concat cs) < headlen)%nat → read_msg (arrive cs) = (MsgWaits, []).
Proof using Type.
  intros Hs Hl. unfold read_msg, _read_from_stream.
  assert (∀ fuel left acc cs, solid cs → (length (concat cs) < left)%nat → (left < fuel)%nat →
    read_loop fuel left acc (arrive cs) = Some (ReadWaits, [])) as Hwait.
  { clear. induction fuel as [|fuel IH]; intros left acc cs Hs Hl Hf; [lia|].
    destruct cs as [|c cs]; [done|]. rewrite concat_cons, length_app in Hl.
    apply Forall_cons_1 in Hs as [Hc Hs].
    destruct (read_loop_turn fuel left acc c (arrive cs)) as [Hn E]; [lia|done|].
    change (arrive (c :: cs)) with (Arrive c :: arrive cs). rewrite E. cbv zeta.
    set (n := Nat.min _ _) in *.
    rewrite (proj2 (Nat.eqb_neq left n)) by lia.
    destruct (decide (drop n c = [])) as [_|Hd]; [apply IH; [done|lia..]|].
    change (Arrive (drop n c) :: arrive cs) with (arrive (drop n c :: cs)).
    apply IH; [by constructor| |lia]. rewrite concat_cons, length_app, length_drop. lia. }
  rewrite Hwait by (done || unfold headlen in *; lia). done.
Qed.

(** Steps in which a connection gets no bytes. *)
Definition silent (fd : Z) (s s' : server) : Prop :=
  step listen_fd alloc s s' ∧ conns s' !! fd = conns s !! fd.

(** What the server has done. *)
Definition done_so_far (s : server) :=
  (handlers (loop s), got s, tasks s, answers s, nodes s, pending s, clock (loop s), next_peer s).

(** One connection stops the whole server: from the moment the loop passes on the event of
    a connection that sent a part of a header, nothing is read, served, accepted or closed,
    whatever the others do, as long as this one is silent. *)
Theorem slow_client_stops_all s fd node p cs evs s' :
  pending s = (fd, READ) :: evs → handlers (loop s) !! fd = Some (StreamHandler node) →
  conns s !! fd = Some (mkConn p (arrive cs)) → solid cs → (length (concat cs) < headlen)%nat →
  rtc (silent fd) s s' → done_so_far s' = done_so_far s.
Proof using Type.
  intros Hp Hh Hc Hs Hl Hr. enough (done_so_far s' = done_so_far s ∧ conns s' !! fd = conns s !! fd) by tauto.
  eapply (rtc_ind_r (λ t, done_so_far t = done_so_far s ∧ conns t !! fd = conns s !! fd)); [done| |exact Hr].
  intros s1 s2 _ [Hstep Hk] [H1 H2]. split; [|by rewrite Hk]. rewrite <- H1.
  unfold done_so_far in H1. injection H1 as Eh _ _ _ _ Ep _ _.
  destruct Hstep as [h s1|fd1 c ev s1 Hc1|evs1 s1 E1 _|salt node_id ev evs1 s1 s2 Hsalt E1 Hd]; [done..| |].
  - rewrite Ep, Hp in E1. done.
  - exfalso. rewrite Ep, Hp in E1. injection E1 as <- <-. revert Hd.
    unfold dispatch. cbn [fst snd]. rewrite <- Eh in Hh. cbn. rewrite Hh. unfold call. cbn [conns].
    cbn. rewrite H2, Hc. change (negb (Z.land READ READ =? 0)) with true. cbn iota.
    unfold _handle_read. cbn [rx]. by rewrite half_header_waits.
Qed.

(** A whole message on a new connection is served, however it is cut: read from the stream
    up to its last byte, noted, and what [data_received] makes of it. *)
Theorem message_served salt node_id fd p cs body rest s :
  conns s !! fd = Some (mkConn p (arrive cs)) → handlers (loop s) !! fd = Some (StreamHandler false) →
  solid cs → sendable body → concat cs = frame (Z.of_nat (length body)) (body ++ rest) →
  ∃ cs', concat cs' = rest ∧ solid cs' ∧
    dispatch listen_fd alloc salt node_id (fd, READ) s =
      Some (serve salt node_id fd false (mkConn p (arrive cs)) (default JNull (loads body))
              (s <| conns ::= <[fd := mkConn p (arrive cs')]> |>)).
Proof using Type.
  intros Hc Hh Hs Hb Hw. destruct (read_msg_frame cs body rest Hs Hb Hw) as (cs' & E & Hr & Hs').
  exists cs'. split_and!; [done..|]. unfold dispatch. cbn [fst snd]. rewrite Hh. unfold call. rewrite Hc.
  change (negb (Z.land READ READ =? 0)) with true. cbn iota. unfold _handle_read. cbn [rx peer].
  by rewrite E.
Qed.
End reach.

(** ** Concrete runs *)

#[local] Existing Instance key_codec.

(** A kernel that gives numbers upwards. *)
Definition next_fd (X : gset Z) : Z := 1 + foldr Z.max 3 (elements X).

Lemma next_fd_above X : ∀ fd, fd ∈ X → fd < next_fd X.
Proof.
  intros fd Hf. apply elem_of_elements in Hf. unfold next_fd. induction (elements X) as [|x l IH]; [by apply elem_of_nil in Hf|].
  cbn [foldr]. apply elem_of_cons in Hf as [->|Hf]; [lia|]. specialize (IH Hf). lia.
Qed.

Lemma next_fd_fresh X : next_fd X ∉ X.
Proof. intros H. apply next_fd_above in H. lia. Qed.

Lemma next_fd_pos X : next_fd X ≠ 0.
Proof.
  unfold next_fd. assert (3 ≤ foldr Z.max 3 (elements X)); [|lia].
  induction (elements X); cbn [foldr]; lia.
Qed.

Definition mail_msg : json := msg_body JNull "mailto.address" None None.
Definition mail_text : bytes := key_prefix ++ text "mailto.address" ++ key_suffix.
Definition mail_frame : bytes := frame (Z.of_nat (length mail_text)) mail_text.

(** Two peers are accepted; the event of the listening socket, then bytes and an event. *)
Definition opened : server :=
  default (started 3) (dispatch 3 next_fd "5f3a" 7 (3, READ)
    ((started 3) <| backlog := [Agreed; Agreed] |>)).
Definition with_bytes (fd : Z) (cs : list bytes) (s : server) : server :=
  s <| conns ::= alter (λ c, mkConn (peer c) (rx c ++ arrive cs)) fd |>.

(** Anybody can send mails: the first message of a peer, cut in two, that has shown no
    password. *)
Example anybody_mails :
  let s := with_bytes 4 [take 5 mail_frame; drop 5 mail_frame] opened in
  tasks <$> dispatch 3 next_fd "5f3a" 7 (4, READ) s = Some [(0%nat, Address mail_msg)].
Proof. by vm_compute. Qed.

(** A connection that was closed leaves its node in the list. *)
Example node_stays :
  let s := (opened <| nodes := [(7, "testnode03"%string)] |>) in
  nodes (_handle_close 4 s) = [(7, "testnode03"%string)] ∧ conns (_handle_close 4 s) !! 4 = None.
Proof. split; by vm_compute. Qed.

(** The steps of one peer that mails. *)
Definition demo1 : server := (started 3) <| backlog ::= λ l, l ++ [Agreed] |>.
Definition demo2 : server := demo1 <| pending := [(3, READ)] |>.
Definition demo3 : server :=
  default demo2 (dispatch 3 next_fd "5f3a" 7 (3, READ) (demo2 <| pending := [] |>)).
Definition demo4 : server := demo3 <| conns ::= <[4 := mkConn 0 ([] ++ [Arrive mail_frame])]> |>.
Definition demo5 : server := demo4 <| pending := [(4, READ)] |>.
Definition demo6 : server :=
  default demo5 (dispatch 3 next_fd "5f3a" 7 (4, READ) (demo5 <| pending := [] |>)).

Lemma demo_run : rtc (step 3 next_fd) (started 3) demo6.
Proof.
  apply rtc_l with demo1; [apply step_connect|].
  apply rtc_l with demo2; [apply step_poll; [done|]; constructor; [|done]; by eexists; vm_compute|].
  apply rtc_l with demo3; [apply (step_event 3 next_fd "5f3a" 7 (3, READ) []); by vm_compute|].
  apply rtc_l with demo4; [apply (step_arrive 3 next_fd 4 (mkConn 0 []) (Arrive mail_frame)); by vm_compute|].
  apply rtc_l with demo5; [apply step_poll; [done|]; constructor; [|done]; by eexists; vm_compute|].
  apply rtc_once, (step_event 3 next_fd "5f3a" 7 (4, READ) []); by vm_compute.
Qed.

Lemma server_reachable_witness :
  tasks demo6 = [(0%nat, Address mail_msg)] ∧ server_ok 3 demo6.
Proof.
  split; [by vm_compute|].
  apply (server_reachable 3 next_fd next_fd_fresh next_fd_pos ltac:(done) demo6), demo_run.
Defined.

(** Two peers; the first sent five bytes, the second a whole message. *)
Definition stopped : server :=
  with_bytes 5 [mail_frame] (with_bytes 4 [take 5 mail_frame] opened)
    <| pending := [(4, READ); (5, READ)] |>.
Definition stopped_later : server := stopped <| backlog ::= λ l, l ++ [Agreed] |>.

Lemma slow_client_stops_all_witness :
  done_so_far stopped_later = done_so_far stopped ∧ tasks stopped_later = [].
Proof.
  split; [|by vm_compute].
  apply (slow_client_stops_all 3 next_fd stopped 4 false 0
           [take 5 mail_frame] [(5, READ)] stopped_later).
  - done.
  - by vm_compute.
  - by vm_compute.
  - by repeat constructor.
  - vm_compute. lia.
  - apply rtc_once. split; [apply step_connect|done].
Defined.
