(* ===== verification/OsmWire.v ===== *)
(** The packet layer of the osmanager agent
    (src/osmanager/bin/pyosm/lyutil.py, lydef.py): [socksend] and [sockrecv]
    over a socket whose incoming side is the list of what successive
    [select]/[recv] calls will see. *)
From S2P Require Import Prelude PyBytes.

(** ** Packet types and states (lydef.py) *)

Definition PKT_TYPE_JOIN_REQUEST := 101.
Definition PKT_TYPE_TEST_ECHO_REQUEST := 901.
Definition PKT_TYPE_TEST_ECHO_REPLY := 902.
Definition PKT_TYPE_CLC_OSM_QUERY_REQUEST := 20033.
Definition PKT_TYPE_CLC_OSM_QUERY_REPLY := 20034.
Definition PKT_TYPE_OSM_REGISTER_REQUEST := 40001.
Definition PKT_TYPE_OSM_REGISTER_REPLY := 40002.
Definition PKT_TYPE_OSM_REPORT := 40003.
Definition PKT_TYPE_OSM_AUTH_REQUEST := 40011.
Definition PKT_TYPE_OSM_AUTH_REPLY := 40012.

Definition LY_S_REGISTERING_DONE_SUCCESS := 1021.
Definition LY_S_APP_RUNNING := 2000.
Definition LY_S_APP_UNKNOWN := 2128.

Definition OSM_STATUS_INIT := 2.
Definition OSM_STATUS_UNREGISTERED := 7.
Definition OSM_STATUS_REGISTERED := 9.

Definition LUOYUN_AUTH_DATA_LEN : nat := 40.

(** ** The incoming side of a socket *)

(** What one [select] followed by [recv] meets: bytes ready (an empty chunk
    is the peer's orderly close), the select timeout, or an exception. After
    the last event nothing arrives any more. *)
Inductive rx_event :=
  | Chunk (d : bytes)
  | SelTimeout
  | SockError.

(** How a [while True] receive loop ends. *)
Inductive rx_result :=
  | RxDone (data : bytes)       (** [len(data)] reached the target *)
  | RxClosed (data : bytes)     (** [len(d) == 0] *)
  | RxTimeout (data : bytes)    (** [select] timed out *)
  | RxError.                    (** an exception was caught *)

(** The receive loop, [recv(target - len(data))] until [target] bytes are
    there. A chunk longer than what is asked for leaves its rest in the
    socket. *)
Fixpoint recv_loop (target : nat) (data : bytes) (evs : list rx_event) :
    rx_result * list rx_event :=
  match evs with
  | [] => (RxTimeout data, [])
  | SelTimeout :: evs' => (RxTimeout data, evs')
  | SockError :: evs' => (RxError, evs')
  | Chunk c :: evs' =>
      let d := take (target - length data) c in
      let rest := drop (target - length data) c in
      if decide (d = []) then (RxClosed data, evs') else
      let data' := data ++ d in
      let evs'' := if decide (rest = []) then evs' else Chunk rest :: evs' in
      if decide (length data' = target) then (RxDone data', evs'')
      else recv_loop target data' evs'
  end.

Definition headlen : nat := 8.   (* struct.calcsize("=LL") *)

(** [sockrecv(sock, length)]: the result code, the data, and what is left in
    the socket. *)
Definition sockrecv (len : nat) (evs : list rx_event) :
    (Z * option bytes) * list rx_event :=
  match recv_loop headlen [] evs with
  | (RxClosed _, evs1) => ((0, None), evs1)
  | (RxTimeout _, evs1) => ((-1, None), evs1)
  | (RxError, evs1) => ((0, None), evs1)
  | (RxDone data, evs1) =>
      let datalen := u32_val (drop 4 data) in
      if decide (datalen = 0 ∨ (len ≤ headlen)%nat)
      then ((0, Some data), evs1) else
      let pktlen := Z.to_nat (Z.min (Z.of_nat headlen + datalen) (Z.of_nat len)) in
      match recv_loop pktlen data evs1 with
      | (RxClosed d, evs2) => ((0, Some d), evs2)
      | (RxTimeout d, evs2) => ((-1, Some d), evs2)
      | (RxError, evs2) => ((0, None), evs2)
      | (RxDone d, evs2) => ((Z.of_nat pktlen, Some d), evs2)
      end
  end.

(** ** The outgoing side *)

(** [sock.send] accepts a prefix of the buffer, or raises. *)
Inductive tx_event := SendAccept (n : nat) | SendRaise.

(** [struct.pack("=LL%ds" % l, type, l, data)] *)
Definition mk_packet (type : Z) (data : bytes) : option bytes :=
  t ← pack_L type;
  l ← pack_L (Z.of_nat (length data));
  Some (t ++ l ++ data).

(** [socksend]: the return code and the bytes put on the wire; [None] is the
    [struct.error] of the [pack] outside the [try]. *)
Definition socksend (tx : tx_event) (type : Z) (data : bytes) :
    option (Z * bytes) :=
  mreq ← mk_packet type data;
  match tx with
  | SendAccept n => Some (0, take n mreq)
  | SendRaise => Some (-1, [])
  end.

(** ** Packets and the receive loop *)

Definition valid_packet (type : Z) (data : bytes) : Prop :=
  0 ≤ type < 2 ^ 32 ∧ 0 < Z.of_nat (length data) < 2 ^ 32.

Definition packet (type : Z) (data : bytes) : bytes :=
  u32 type ++ u32 (Z.of_nat (length data)) ++ data.

Lemma mk_packet_Some type data :
  0 ≤ type < 2 ^ 32 → Z.of_nat (length data) < 2 ^ 32 →
  mk_packet type data = Some (packet type data).
Proof.
  intros Ht Hl. unfold mk_packet. rewrite (pack_L_Some type) by done.
  cbn [mbind option_bind]. rewrite pack_L_Some by lia. done.
Qed.

Lemma packet_length type data : length (packet type data) = (8 + length data)%nat.
Proof. unfold packet. rewrite !length_app, !u32_length. lia. Qed.

Definition chunks (cs : list bytes) : list rx_event := Chunk <$> cs.

Lemma recv_loop_done cs : ∀ (data : bytes) (target : nat) evs,
  Forall (λ c, c ≠ []) cs →
  (length data < target ≤ length data + length (concat cs))%nat →
  ∃ cs', recv_loop target data (chunks cs ++ evs) =
           (RxDone (take target (data ++ concat cs)), chunks cs' ++ evs) ∧
         concat cs' = drop target (data ++ concat cs) ∧
         Forall (λ c, c ≠ []) cs'.
Proof.
  induction cs as [|c cs IH]; intros data target evs Hne Hlen.
  { simpl in Hlen. lia. }
  apply Forall_cons_1 in Hne as [Hc Hcs].
  simpl in Hlen |- *. rewrite length_app in Hlen.
  assert (0 < length c)%nat by (destruct c; simpl; [done|lia]).
  assert (take (target - length data) c ≠ []) as Hd.
  { intros E. apply (f_equal length) in E. rewrite length_take in E. simpl in E. lia. }
  rewrite decide_False by done.
  rewrite !(take_app_ge data), !(drop_app_ge data) by lia.
  destruct (decide (target - length data ≤ length c)%nat) as [Hle|Hgt].
  - rewrite decide_True by (rewrite length_app, length_take; lia).
    rewrite !(take_app_le c), !(drop_app_le c) by lia.
    destruct (decide (drop (target - length data) c = [])) as [E|E].
    + exists cs. rewrite E. done.
    + exists (drop (target - length data) c :: cs). split_and!; [done..|].
      by constructor.
  - rewrite !(take_ge c) by lia.
    rewrite decide_False by (rewrite length_app; lia).
    destruct (IH (data ++ c) target evs Hcs) as (cs' & HE & Hcat & Hn);
      [rewrite length_app; lia|].
    exists cs'. rewrite HE. rewrite <- !app_assoc in *.
    rewrite Hcat, !(take_app_ge data), !(drop_app_ge data) by lia. done.
Qed.

(** The length word of a packet header. *)
Lemma packet_header type data rest :
  0 ≤ type → Z.of_nat (length data) < 2 ^ 32 →
  u32_val (drop 4 (take 8 (packet type data ++ rest))) = Z.of_nat (length data).
Proof.
  intros Ht Hl. unfold packet. rewrite <- app_assoc, skipn_firstn_comm.
  rewrite drop_app_exact by apply u32_length. rewrite <- app_assoc.
  rewrite take_app_exact by apply u32_length. apply u32_val_u32. lia.
Qed.

(** The whole of [sockrecv] on a stream of ready chunks that starts with a
    packet whose length word is [dl]. *)
Lemma sockrecv_chunks cs evs (len : nat) dl :
  Forall (λ c, c ≠ []) cs →
  (8 < len)%nat →
  (8 ≤ length (concat cs))%nat →
  u32_val (drop 4 (take 8 (concat cs))) = Z.of_nat dl →
  dl ≠ 0%nat →
  (Nat.min (8 + dl) len ≤ length (concat cs))%nat →
  ∃ cs', sockrecv len (chunks cs ++ evs) =
           ((Z.of_nat (Nat.min (8 + dl) len),
             Some (take (Nat.min (8 + dl) len) (concat cs))), chunks cs' ++ evs) ∧
         concat cs' = drop (Nat.min (8 + dl) len) (concat cs) ∧
         Forall (λ c, c ≠ []) cs'.
Proof.
  intros Hne Hlen H8 Hdl Hdl0 Hfull. unfold sockrecv, headlen.
  destruct (recv_loop_done cs [] 8 evs Hne) as (cs1 & HE & Hcat & Hne1);
    [simpl; lia|].
  rewrite HE. simpl (_ ++ _) in *. rewrite Hdl.
  rewrite decide_False by lia.
  assert (Z.to_nat (Z.min (Z.of_nat 8 + Z.of_nat dl) (Z.of_nat len)) =
          Nat.min (8 + dl) len) as -> by lia.
  destruct (recv_loop_done cs1 (take 8 (concat cs)) (Nat.min (8 + dl) len) evs
              Hne1) as (cs2 & HE2 & Hcat2 & Hne2).
  { rewrite Hcat, length_take, length_drop. lia. }
  rewrite HE2, Hcat, take_drop in *. eauto.
Qed.

(** One whole packet at the head of the stream, however it is cut. *)
Lemma sockrecv_packet type data rest cs :
  0 ≤ type < 2 ^ 32 →
  (0 < length data ≤ 1016)%nat →
  Forall (λ c, c ≠ []) cs → concat cs = packet type data ++ rest →
  ∃ cs', sockrecv 1024 (chunks cs) =
           ((8 + Z.of_nat (length data), Some (packet type data)), chunks cs') ∧
         concat cs' = rest ∧ Forall (λ c, c ≠ []) cs'.
Proof.
  intros Ht Hl Hne Hcat. pose proof (packet_length type data) as Hpl.
  destruct (sockrecv_chunks cs [] 1024 (length data)) as (cs' & HE & HC & Hne');
    rewrite ?Hcat, ?length_app, ?packet_header; try done; try lia.
  rewrite app_nil_r in HE. exists cs'. rewrite HE, HC, Hcat.
  rewrite app_nil_r, Nat.min_l by lia.
  rewrite take_app_exact, drop_app_exact by done.
  split_and!; [|done..]. repeat f_equal; lia.
Qed.

(** ** Properties *)

(** C38: framing round trip: however the bytes written by [socksend] are cut
    into chunks on the way, and whatever follows them, [sockrecv] returns
    exactly the packet and leaves exactly the bytes that follow it, for every
    payload of 1 to 1016 bytes. *)
Theorem sockrecv_socksend type data rest cs code wire n :
  0 ≤ type < 2 ^ 32 →
  (0 < length data ≤ 1016)%nat →
  (length data + 8 ≤ n)%nat →
  socksend (SendAccept n) type data = Some (code, wire) →
  Forall (λ c, c ≠ []) cs → concat cs = wire ++ rest →
  code = 0 ∧
  ∃ cs', sockrecv 1024 (chunks cs) =
           ((8 + Z.of_nat (length data), Some wire), chunks cs') ∧
         concat cs' = rest.
Proof.
  intros Ht Hl Hn Hs Hne Hcat. unfold socksend in Hs.
  rewrite mk_packet_Some in Hs by lia. cbn [mbind option_bind] in Hs.
  simplify_eq. split; [done|].
  pose proof (packet_length type data) as Hpl.
  rewrite (take_ge (packet type data)) in * by lia.
  destruct (sockrecv_packet type data rest cs) as (cs' & HE & HC & _); eauto.
Qed.

Lemma sockrecv_socksend_witness :
  ∃ cs', sockrecv 1024 (chunks [[99; 156; 0]; [0; 2; 0; 0; 0; 7]; [9; 5]]) =
           ((10, Some [99; 156; 0; 0; 2; 0; 0; 0; 7; 9]), chunks cs') ∧
         concat cs' = [5].
Proof.
  apply (sockrecv_socksend 40035 [7; 9] [5] [[99; 156; 0]; [0; 2; 0; 0; 0; 7]; [9; 5]]
           0 [99; 156; 0; 0; 2; 0; 0; 0; 7; 9] 10);
    [lia|simpl; lia|simpl; lia|reflexivity|repeat constructor; done|reflexivity].
Defined.

(** A receive timeout in the middle of a packet header loses the header
    bytes already taken from the socket: the result is [(-1, None)] and what
    the next call sees starts in the middle of the packet. *)
Theorem sockrecv_partial_header_lost (p q : bytes) evs :
  (0 < length p < 8)%nat →
  sockrecv 1024 (Chunk p :: SelTimeout :: Chunk q :: evs) =
    ((-1, None), Chunk q :: evs).
Proof.
  intros Hp. unfold sockrecv, headlen. simpl.
  rewrite (take_ge p) by lia.
  rewrite decide_False by (destruct p; simpl in *; [lia|done]).
  rewrite decide_False by lia. done.
Qed.

Lemma sockrecv_partial_header_lost_witness :
  sockrecv 1024 [Chunk [75; 156]; SelTimeout; Chunk [0; 0; 1; 0; 0; 0; 7]] =
    ((-1, None), [Chunk [0; 0; 1; 0; 0; 0; 7]]).
Proof.
  apply (sockrecv_partial_header_lost [75; 156] [0; 0; 1; 0; 0; 0; 7] []).
  simpl. lia.
Defined.

(** A packet longer than the 1024-byte limit is cut: [sockrecv] reports
    1024 bytes and the rest of the payload stays in the socket, where the next
    call takes it for a header. *)
Theorem sockrecv_oversize_cut type data cs :
  0 ≤ type < 2 ^ 32 → (1016 < length data)%nat →
  Z.of_nat (length data) < 2 ^ 32 →
  Forall (λ c, c ≠ []) cs → concat cs = packet type data →
  ∃ cs', sockrecv 1024 (chunks cs) =
           ((1024, Some (take 1024 (packet type data))), chunks cs') ∧
         concat cs' = drop 1016 data.
Proof.
  intros Ht Hd Hlt Hne Hcat. pose proof (packet_length type data) as Hpl.
  destruct (sockrecv_chunks cs [] 1024 (length data)) as (cs' & HE & HC & _);
    rewrite ?Hcat, ?Hpl; try done; try lia.
  { rewrite <- (app_nil_r (packet type data)). apply packet_header; lia. }
  rewrite app_nil_r in HE. exists cs'. rewrite HE, HC, Hcat.
  rewrite app_nil_r, Nat.min_r by lia. split; [done|].
  unfold packet. rewrite app_assoc, drop_app_ge by
    (rewrite length_app, !u32_length; lia).
  by rewrite length_app, !u32_length.
Qed.

Lemma sockrecv_oversize_cut_witness :
  ∃ cs', sockrecv 1024 (chunks [packet 901 (replicate 1020 7)]) =
           ((1024, Some (take 1024 (packet 901 (replicate 1020 7)))), chunks cs') ∧
         concat cs' = drop 1016 (replicate 1020 7).
Proof.
  apply (sockrecv_oversize_cut 901 (replicate 1020 7) [packet 901 (replicate 1020 7)]);
    [lia|rewrite length_replicate; lia|rewrite length_replicate; lia
    |by repeat constructor|by rewrite concat_cons, app_nil_r].
Defined.
