(* ===== verification/OsmAgent.v ===== *)
(** The osmanager agent of a virtual machine
    (src/osmanager/bin/pyosm/lyconf.py, lyconn.py, lyproc.py): configuration
    file, multicast discovery, the mutual authentication and registration
    handshake with the cloud controller, and the dispatch of its requests. *)
From Stdlib Require Import Ascii String.
From S2P Require Import Prelude PyText PyBytes Rc4 OsmWire.
#[local] Open Scope Z_scope.

(** ** Text as bytes *)

Definition ords (s : string) : bytes :=
  (λ c, Z.of_nat (nat_of_ascii c)) <$> list_ascii_of_string s.

Definition chrs (b : bytes) : string :=
  string_of_list_ascii ((λ z, ascii_of_nat (Z.to_nat z)) <$> b).

(** ** The configuration (lyconf.Config, a class used as a global record) *)

Record Config := mkConfig {
  tag : Z; clc_ip : string; clc_port : Z;
  clc_mcast_ip : string; clc_mcast_port : Z;
  key : string; json : string; local_ip : string; status : Z }.

Definition default_Config : Config :=
  mkConfig 0 "" 0 "" 0 "" "" "" OSM_STATUS_INIT.

Definition set_clc (ip : string) (port : Z) (c : Config) : Config :=
  mkConfig (tag c) ip port (clc_mcast_ip c) (clc_mcast_port c) (key c) (json c)
    (local_ip c) (status c).
Definition set_local_ip (ip : string) (c : Config) : Config :=
  mkConfig (tag c) (clc_ip c) (clc_port c) (clc_mcast_ip c) (clc_mcast_port c)
    (key c) (json c) ip (status c).
Definition set_status (st : Z) (c : Config) : Config :=
  mkConfig (tag c) (clc_ip c) (clc_port c) (clc_mcast_ip c) (clc_mcast_port c)
    (key c) (json c) (local_ip c) st.

(** One line of the file; [None] is the ValueError of a line without [=] or of
    a number that does not parse. *)
Definition conf_line (c : Config) (l : string) : option Config :=
  let l := strip l in
  if decide (l = ""%string) then Some c else
  '(k, v) ← split1 "=" l;
  if decide (k = "CLC_IP"%string) then Some (set_clc v (clc_port c) c)
  else if decide (k = "CLC_PORT"%string) then
    n ← py_int v; Some (set_clc (clc_ip c) n c)
  else if decide (k = "CLC_MCAST_IP"%string) then
    Some (mkConfig (tag c) (clc_ip c) (clc_port c) v (clc_mcast_port c)
            (key c) (json c) (local_ip c) (status c))
  else if decide (k = "CLC_MCAST_PORT"%string) then
    n ← py_int v;
    Some (mkConfig (tag c) (clc_ip c) (clc_port c) (clc_mcast_ip c) n
            (key c) (json c) (local_ip c) (status c))
  else if decide (k = "TAG"%string) then
    n ← py_int v;
    Some (mkConfig n (clc_ip c) (clc_port c) (clc_mcast_ip c) (clc_mcast_port c)
            (key c) (json c) (local_ip c) (status c))
  else if decide (k = "KEY"%string) then
    Some (mkConfig (tag c) (clc_ip c) (clc_port c) (clc_mcast_ip c)
            (clc_mcast_port c) v (json c) (local_ip c) (status c))
  else if decide (k = "JSON"%string) then
    Some (mkConfig (tag c) (clc_ip c) (clc_port c) (clc_mcast_ip c)
            (clc_mcast_port c) (key c) v (local_ip c) (status c))
  else Some c.

(** [Config(confpath)]: an unreadable file ends the program, a malformed line
    raises. *)
Inductive conf_result := ConfOk (c : Config) | ConfExit | ConfValueError.

Definition Config_init (file : option (list string)) (c : Config) : conf_result :=
  match file with
  | None => ConfExit
  | Some ls =>
      match foldl (λ oc l, c ← oc; conf_line c l) (Some c) ls with
      | Some c' => ConfOk c'
      | None => ConfValueError
      end
  end.

(** ** Requests of the controller (lyproc.py) *)

Inductive proc_result := ProcReturn (code : option Z) | ProcRaise (exn : string).

(** [lyconf] is not imported by the module, so building the reply raises. *)
Definition procOSMQuery (datalen : Z) (data : bytes) : proc_result :=
  if decide (datalen ≠ 4 ∨ length data ≠ 4%nat) then ProcReturn (Some 1)
  else ProcRaise "NameError: lyconf".

Definition process (pkt : bytes) : proc_result :=
  if (length (take 8 pkt) <? 8)%nat then ProcRaise "struct.error" else
  let type := u32_val (take 4 pkt) in
  let datalen := u32_val (slice 4 8 pkt) in
  if type =? PKT_TYPE_TEST_ECHO_REQUEST then ProcRaise "AttributeError: socksend"
  else if type =? PKT_TYPE_CLC_OSM_QUERY_REQUEST then procOSMQuery datalen (drop 8 pkt)
  else ProcReturn None.

(** ** Multicast discovery (lyconn.getclcparm) *)

(** What [sock.recv(1024)] gives, with the clock read after it; the 15 second
    socket timeout is an error. *)
Inductive mcast_event := McPacket (now : Z) (pkt : bytes) | McError.

Inductive disc_result := DiscReturn (code : Z) (c : Config) | DiscRaise.

Fixpoint mcast_loop (start : Z) (evs : list mcast_event) (c : Config) : disc_result :=
  match evs with
  | [] | McError :: _ => DiscReturn 1 c
  | McPacket now pkt :: evs' =>
      if (length pkt <? 8)%nat then DiscReturn 1 c
      else if negb (u32_val (take 4 pkt) =? PKT_TYPE_JOIN_REQUEST) then
        if now - start >? 60 then DiscReturn 1 c else mcast_loop start evs' c
      else match split_on " " (chrs (drop 8 pkt)) with
           | [join; ip; port] =>
               if decide (join = "join"%string) then
                 if decide (ip = ""%string ∨ port = ""%string) then DiscReturn 1 c
                 else match py_int port with
                      | Some n => DiscReturn 0 (set_clc ip n c)
                      | None => DiscRaise
                      end
               else mcast_loop start evs' c
           | _ => DiscRaise
           end
  end.

Definition getclcparm (setup_ok : bool) (start : Z) (evs : list mcast_event)
    (c : Config) : disc_result :=
  if setup_ok then mcast_loop start evs c else DiscReturn 1 c.

(** ** The registration handshake (lyconn.regclc) *)

(** A connection: what will be received, how sends will end, what was sent. *)
Record conn := mkConn { rx : list rx_event; txs : list tx_event; sent : list bytes }.

(** Code inside the [try]: [None] is a [return None] or an exception, which the
    [finally] clause treats alike. *)
Definition Agent (A : Type) : Type := conn → option A * conn.

#[export] Instance Agent_ret : MRet Agent := λ A a c, (Some a, c).
#[export] Instance Agent_bind : MBind Agent := λ A B f m c,
  match m c with
  | (Some a, c') => f a c'
  | (None, c') => (None, c')
  end.
Definition fail {A} : Agent A := λ c, (None, c).
Definition lift {A} (o : option A) : Agent A := λ c, (o, c).
Definition check (P : Prop) `{Decision P} : Agent unit :=
  if decide P then mret tt else fail.

Definition do_send (type : Z) (data : bytes) : Agent unit := λ c,
  let t := match txs c with [] => SendRaise | t :: _ => t end in
  match socksend t type data with
  | Some (_, w) => (Some tt, mkConn (rx c) (drop 1 (txs c)) (sent c ++ [w]))
  | None => (None, c)
  end.

Definition do_recv : Agent (Z * option bytes) := λ c,
  let '(r, evs) := sockrecv 1024 (rx c) in (Some r, mkConn evs (txs c) (sent c)).

(** [result == -1 or len(response) != recvsize], then [result == 0]; a [None]
    response makes [len] raise. *)
Definition recv_sized (recvsize : nat) : Agent bytes :=
  '(result, response) ← do_recv;
  _ ← check (result ≠ -1);
  r ← lift response;
  _ ← check (length r = recvsize);
  _ ← check (result ≠ 0);
  mret r.

Definition auth_size : nat := 8 + 4 + LUOYUN_AUTH_DATA_LEN.

(** [for i in range(len(myuuid), LUOYUN_AUTH_DATA_LEN): myuuid += '\x00'] *)
Definition pad_uuid (u : bytes) : bytes :=
  u ++ replicate (LUOYUN_AUTH_DATA_LEN - length u) 0.

Definition pack_auth (tg : Z) (s : bytes) : option bytes :=
  t ← pack_i tg; Some (t ++ pack_s LUOYUN_AUTH_DATA_LEN s).

(** The controller proves that it knows the key: it must return our plaintext. *)
Definition verify_clc (c : Config) (myuuid challenge : bytes) : Agent unit :=
  data ← lift (pack_auth (tag c) challenge);
  _ ← do_send PKT_TYPE_OSM_AUTH_REQUEST data;
  r ← recv_sized auth_size;
  _ ← check (u32_val (take 4 r) = PKT_TYPE_OSM_AUTH_REPLY);
  _ ← check (i32_val (slice 8 12 r) = tag c);
  check (drop 12 r = myuuid).

(** We prove that we know the key: the controller's challenge is deciphered. *)
Definition answer_clc (c : Config) : Agent unit :=
  r ← recv_sized auth_size;
  _ ← check (u32_val (take 4 r) = PKT_TYPE_OSM_AUTH_REQUEST);
  answer ← lift (encode (ords (key c)) (drop 12 r));
  data ← lift (pack_auth (tag c) answer);
  do_send PKT_TYPE_OSM_AUTH_REPLY data.

Definition register (c : Config) : Agent unit :=
  _ ← do_send PKT_TYPE_OSM_REGISTER_REQUEST
        (ords (str_of_Z (tag c) +:+ " " +:+ str_of_Z OSM_STATUS_UNREGISTERED
               +:+ " " +:+ local_ip c));
  '(result, response) ← do_recv;
  _ ← check (result ≠ -1);
  _ ← check (result ≠ 0);
  r ← lift response;
  _ ← check (length r = 12%nat);
  _ ← check (u32_val (take 4 r) = PKT_TYPE_OSM_REGISTER_REPLY);
  check (i32_val (drop 8 r) = LY_S_REGISTERING_DONE_SUCCESS).

Definition handshake (c : Config) (myuuid challenge : bytes) : Agent unit :=
  _ ← verify_clc c myuuid challenge;
  _ ← answer_clc c;
  register c.

(** The result of [regclc]: an exception, [None], or the connected socket. *)
Inductive reg_result := RegRaise | RegNone | RegSock.

(** [uuid] is [None] when [uuidgen] fails, [peer] is [None] when connecting
    fails and otherwise the local address and the connection. The [finally]
    clause looks only at [Config.status]. *)
Definition regclc (uuid : option bytes) (peer : option (string * conn)) (c : Config) :
    reg_result * Config * option conn :=
  match uuid with
  | None => (RegNone, c, None)
  | Some u =>
      let myuuid := pad_uuid u in
      match encode (ords (key c)) myuuid with
      | None => (RegRaise, c, None)
      | Some challenge =>
          match peer with
          | None => (RegNone, c, None)
          | Some (ip, cn) =>
              let c1 := set_local_ip (if decide (ip = ""%string) then "empty"%string else ip) c in
              let '(o, cn') := handshake c1 myuuid challenge cn in
              let c2 := match o with
                        | Some _ => set_status OSM_STATUS_REGISTERED c1
                        | None => c1
                        end in
              if decide (status c2 ≠ OSM_STATUS_REGISTERED)
              then (RegNone, c2, Some cn') else (RegSock, c2, Some cn')
          end
      end
  end.

(** ** Connecting (lyconn.connclc) *)

Record attempt := mkAttempt { a_uuid : option bytes; a_peer : option (string * conn) }.

Definition has_clc (c : Config) : bool :=
  negb (bool_decide (clc_ip c = ""%string)) && negb (clc_port c =? 0).

Definition connclc (first second : attempt) (setup_ok : bool) (start : Z)
    (mcast : list mcast_event) (c : Config) : reg_result * Config * option conn :=
  let '(r1, c1, s1) :=
    if has_clc c then regclc (a_uuid first) (a_peer first) c
    else (RegNone, c, None) in
  match r1 with
  | RegRaise | RegSock => (r1, c1, s1)
  | RegNone =>
      match getclcparm setup_ok start mcast c1 with
      | DiscRaise => (RegRaise, c1, None)
      | DiscReturn _ c2 =>
          if decide (clc_ip c = clc_ip c2 ∧ clc_port c = clc_port c2)
          then (RegNone, c2, None)
          else if has_clc c2 then regclc (a_uuid second) (a_peer second) c2
          else (RegNone, c2, None)
      end
  end.

(** ** Running the handshake *)

Lemma bind_Some {A B} (m : Agent A) (f : A → Agent B) c b c' :
  (m ≫= f) c = (Some b, c') →
  ∃ a c1, m c = (Some a, c1) ∧ f a c1 = (Some b, c').
Proof.
  unfold mbind, Agent_bind. destruct (m c) as [[a|] c1] eqn:E; [|done]. eauto.
Qed.

Lemma check_Some (P : Prop) `{Decision P} c u c' :
  check P c = (Some u, c') → P ∧ c' = c.
Proof. unfold check, fail, mret, Agent_ret. case_decide; intros; by simplify_eq. Qed.

Lemma lift_Some {A} (o : option A) c a c' :
  lift o c = (Some a, c') → o = Some a ∧ c' = c.
Proof. by intros [= -> ->]. Qed.

Lemma do_send_Some ty data c u c' :
  do_send ty data c = (Some u, c') → rx c' = rx c.
Proof. unfold do_send. repeat case_match; intros; by simplify_eq. Qed.

Lemma recv_sized_Some n c r c' :
  recv_sized n c = (Some r, c') →
  ∃ code, sockrecv 1024 (rx c) = ((code, Some r), rx c') ∧ length r = n ∧
          code ≠ -1 ∧ code ≠ 0.
Proof.
  unfold recv_sized.
  intros ([code o] & c1 & Hr & H)%bind_Some. unfold do_recv in Hr.
  destruct (sockrecv 1024 (rx c)) as [r0 evs] eqn:E.
  injection Hr as -> <-.
  apply bind_Some in H as (u1 & c2 & [Hm ->]%check_Some & H).
  apply bind_Some in H as (r1 & c3 & [-> ->]%lift_Some & H).
  apply bind_Some in H as (u2 & c4 & [Hl ->]%check_Some & H).
  apply bind_Some in H as (u3 & c5 & [Hz ->]%check_Some & H).
  injection H as -> <-. simpl. eauto.
Qed.

(** What a peer must have sent for [verify_clc] to succeed. *)
Definition clc_proof (tg : Z) (myuuid r : bytes) : Prop :=
  length r = auth_size ∧ u32_val (take 4 r) = PKT_TYPE_OSM_AUTH_REPLY ∧
  i32_val (slice 8 12 r) = tg ∧ drop 12 r = myuuid.

Lemma verify_clc_Some c myuuid ch cn u cn' :
  verify_clc c myuuid ch cn = (Some u, cn') →
  ∃ code r, sockrecv 1024 (rx cn) = ((code, Some r), rx cn') ∧
            clc_proof (tag c) myuuid r.
Proof.
  unfold verify_clc.
  intros (d & c1 & [Hd ->]%lift_Some & H)%bind_Some.
  apply bind_Some in H as (u1 & c2 & Hs%do_send_Some & H).
  apply bind_Some in H as (r & c3 & (code & HE & Hlen & _)%recv_sized_Some & H).
  apply bind_Some in H as (u2 & c4 & [Ht ->]%check_Some & H).
  apply bind_Some in H as (u3 & c5 & [Hg ->]%check_Some & H).
  apply check_Some in H. destruct H as [Hp ->].
  exists code, r. rewrite <- Hs. done.
Qed.

Lemma handshake_Some c myuuid ch cn u cn' :
  handshake c myuuid ch cn = (Some u, cn') →
  ∃ code r evs, sockrecv 1024 (rx cn) = ((code, Some r), evs) ∧
            clc_proof (tag c) myuuid r.
Proof.
  intros (u1 & c1 & H & _)%bind_Some.
  destruct (verify_clc_Some _ _ _ _ _ _ H) as (? & ? & ?). eauto.
Qed.

Lemma encode_length k d out : encode k d = Some out → length out = length d ∧ k ≠ [].
Proof.
  intros H. destruct k as [|x k]; [by vm_compute in H|].
  destruct (encode_ok (x :: k) d) as (o & HE & Hl & _); [done|].
  rewrite H in HE. by simplify_eq.
Qed.

(** The steps of an exchange in which every send is accepted whole. *)

Lemma do_send_ok ty data cs tx tl out :
  0 ≤ ty < 2 ^ 32 → (length data ≤ 1016)%nat → (1024 ≤ tx)%nat →
  do_send ty data (mkConn cs (SendAccept tx :: tl) out) =
    (Some tt, mkConn cs tl (out ++ [packet ty data])).
Proof.
  intros Ht Hd Hn. unfold do_send, socksend. cbn [txs rx sent].
  rewrite mk_packet_Some by lia. cbn [mbind option_bind].
  pose proof (packet_length ty data).
  rewrite take_ge by lia. done.
Qed.

Lemma recv_sized_ok n ty data rest cs tl out :
  0 ≤ ty < 2 ^ 32 → (0 < length data ≤ 1016)%nat → n = (8 + length data)%nat →
  Forall (λ c, c ≠ []) cs → concat cs = packet ty data ++ rest →
  ∃ cs', recv_sized n (mkConn (chunks cs) tl out) =
           (Some (packet ty data), mkConn (chunks cs') tl out) ∧
         concat cs' = rest ∧ Forall (λ c, c ≠ []) cs'.
Proof.
  intros Ht Hd -> Hne Hcat.
  destruct (sockrecv_packet ty data rest cs) as (cs' & HE & HC & Hne'); [done..|].
  exists cs'. split_and!; [|done..].
  unfold recv_sized, mbind, Agent_bind, do_recv. cbn [rx txs sent].
  rewrite HE. unfold check, lift, fail.
  rewrite !decide_True by (rewrite ?packet_length; lia). done.
Qed.

Lemma pad_uuid_length u : (length u ≤ 40)%nat → length (pad_uuid u) = 40%nat.
Proof.
  intros. unfold pad_uuid, LUOYUN_AUTH_DATA_LEN.
  rewrite length_app, length_replicate. lia.
Qed.

Lemma pad_uuid_not_nil u : length (pad_uuid u) ≠ 0%nat.
Proof.
  unfold pad_uuid, LUOYUN_AUTH_DATA_LEN. rewrite length_app, length_replicate. lia.
Qed.

(** The fields of a tagged authentication packet. *)
Lemma auth_packet_fields ty t tg (d : bytes) :
  0 ≤ ty < 2 ^ 32 → pack_i tg = Some t → length d = 40%nat →
  take 4 (packet ty (t ++ d)) = u32 ty ∧
  i32_val (slice 8 12 (packet ty (t ++ d))) = tg ∧
  drop 12 (packet ty (t ++ d)) = d ∧ length (t ++ d) = 44%nat.
Proof.
  intros Hty Ht Hd. destruct (i32_val_pack _ _ Ht) as [Hv Hl].
  unfold packet, slice. rewrite app_assoc, !length_app, Hl, Hd.
  split_and!; [|..|done].
  - rewrite <- app_assoc. by apply take_app_exact, u32_length.
  - rewrite drop_app_exact by (rewrite length_app, !u32_length; done).
    by rewrite take_app_exact.
  - rewrite app_assoc. apply drop_app_exact.
    rewrite !length_app, !u32_length, Hl. done.
Qed.

(** The controller's side of the exchange, for an agent with tag bytes [t]:
    our plaintext back, its own challenge, and the registration accepted. *)
Definition clc_stream (t myuuid ch : bytes) : bytes :=
  packet PKT_TYPE_OSM_AUTH_REPLY (t ++ myuuid) ++
  packet PKT_TYPE_OSM_AUTH_REQUEST (t ++ ch) ++
  packet PKT_TYPE_OSM_REGISTER_REPLY (u32 LY_S_REGISTERING_DONE_SUCCESS).

Definition register_text (c : Config) : bytes :=
  ords (str_of_Z (tag c) +:+ " " +:+ str_of_Z OSM_STATUS_UNREGISTERED
        +:+ " " +:+ local_ip c).

Section honest.
#[local] Set Default Proof Using "All".
Context (c : Config) (t myuuid challenge ch answer : bytes).
Hypothesis Htag : pack_i (tag c) = Some t.
Hypothesis Huuid : length myuuid = 40%nat.
Hypothesis Hchal : length challenge = 40%nat.
Hypothesis Hch : length ch = 40%nat.
Hypothesis Hans : encode (ords (key c)) ch = Some answer.
Hypothesis Hlen : length answer = 40%nat.

Lemma pack_auth_ok s : length s = 40%nat → pack_auth (tag c) s = Some (t ++ s).
Proof.
  intros. unfold pack_auth. rewrite Htag. cbn [mbind option_bind].
  by rewrite pack_s_id.
Qed.

Lemma verify_clc_ok rest cs n tl out :
  (1024 ≤ n)%nat → Forall (λ x, x ≠ []) cs →
  concat cs = packet PKT_TYPE_OSM_AUTH_REPLY (t ++ myuuid) ++ rest →
  ∃ cs', verify_clc c myuuid challenge
           (mkConn (chunks cs) (SendAccept n :: tl) out) =
         (Some tt, mkConn (chunks cs') tl
            (out ++ [packet PKT_TYPE_OSM_AUTH_REQUEST (t ++ challenge)])) ∧
         concat cs' = rest ∧ Forall (λ x, x ≠ []) cs'.
Proof.
  intros Hn Hne Hcat.
  destruct (auth_packet_fields PKT_TYPE_OSM_AUTH_REPLY t _ myuuid ltac:(done) Htag Huuid)
    as (F1 & F2 & F3 & F4).
  destruct (auth_packet_fields PKT_TYPE_OSM_AUTH_REQUEST t _ challenge ltac:(done) Htag Hchal)
    as (_ & _ & _ & F5).
  destruct (recv_sized_ok auth_size PKT_TYPE_OSM_AUTH_REPLY (t ++ myuuid) rest cs tl
    (out ++ [packet PKT_TYPE_OSM_AUTH_REQUEST (t ++ challenge)]))
    as (cs' & HE & HC & Hne'); [done|lia|rewrite F4; done|done|done|].
  exists cs'. split_and!; [|done..].
  unfold verify_clc, lift. rewrite pack_auth_ok by done.
  unfold mbind, Agent_bind. rewrite do_send_ok by (done || lia). rewrite HE.
  unfold check. rewrite F1, F2, F3. rewrite !decide_True by done. done.
Qed.

Lemma answer_clc_ok rest cs n tl out :
  (1024 ≤ n)%nat → Forall (λ x, x ≠ []) cs →
  concat cs = packet PKT_TYPE_OSM_AUTH_REQUEST (t ++ ch) ++ rest →
  ∃ cs', answer_clc c (mkConn (chunks cs) (SendAccept n :: tl) out) =
         (Some tt, mkConn (chunks cs') tl
            (out ++ [packet PKT_TYPE_OSM_AUTH_REPLY (t ++ answer)])) ∧
         concat cs' = rest ∧ Forall (λ x, x ≠ []) cs'.
Proof.
  intros Hn Hne Hcat.
  destruct (auth_packet_fields PKT_TYPE_OSM_AUTH_REQUEST t _ ch ltac:(done) Htag Hch)
    as (F1 & F2 & F3 & F4).
  destruct (auth_packet_fields PKT_TYPE_OSM_AUTH_REPLY t _ answer ltac:(done) Htag Hlen)
    as (_ & _ & _ & F5).
  destruct (recv_sized_ok auth_size PKT_TYPE_OSM_AUTH_REQUEST (t ++ ch) rest cs
    (SendAccept n :: tl) out)
    as (cs' & HE & HC & Hne'); [done|lia|rewrite F4; done|done|done|].
  exists cs'. split_and!; [|done..].
  unfold answer_clc, lift, mbind, Agent_bind. rewrite HE.
  unfold check. rewrite F1, F3. rewrite decide_True by done.
  unfold mret, Agent_ret. rewrite Hans, pack_auth_ok by done.
  by rewrite do_send_ok by (done || lia).
Qed.

Lemma register_ok rest cs n tl out :
  (1024 ≤ n)%nat → Forall (λ x, x ≠ []) cs →
  (length (register_text c) ≤ 1016)%nat →
  concat cs = packet PKT_TYPE_OSM_REGISTER_REPLY (u32 LY_S_REGISTERING_DONE_SUCCESS)
              ++ rest →
  ∃ cs', register c (mkConn (chunks cs) (SendAccept n :: tl) out) =
         (Some tt, mkConn (chunks cs') tl
            (out ++ [packet PKT_TYPE_OSM_REGISTER_REQUEST (register_text c)])) ∧
         concat cs' = rest.
Proof.
  intros Hn Hne Hr Hcat.
  destruct (sockrecv_packet PKT_TYPE_OSM_REGISTER_REPLY
    (u32 LY_S_REGISTERING_DONE_SUCCESS) rest cs) as (cs' & HE & HC & _);
    [done|rewrite u32_length; lia|done|done|].
  exists cs'. split; [|done].
  unfold register, mbind, Agent_bind, do_recv, lift. fold (register_text c).
  rewrite do_send_ok by (done || lia). cbn [rx txs sent]. rewrite HE.
  unfold check. rewrite !decide_True by done. done.
Qed.

Lemma handshake_ok cs n1 n2 n3 tl out :
  (1024 ≤ n1)%nat → (1024 ≤ n2)%nat → (1024 ≤ n3)%nat →
  Forall (λ x, x ≠ []) cs → (length (register_text c) ≤ 1016)%nat →
  concat cs = clc_stream t myuuid ch →
  ∃ rest, handshake c myuuid challenge (mkConn (chunks cs)
            (SendAccept n1 :: SendAccept n2 :: SendAccept n3 :: tl) out) =
    (Some tt, mkConn rest tl (out ++
      [packet PKT_TYPE_OSM_AUTH_REQUEST (t ++ challenge);
       packet PKT_TYPE_OSM_AUTH_REPLY (t ++ answer);
       packet PKT_TYPE_OSM_REGISTER_REQUEST (register_text c)])).
Proof.
  intros H1 H2 H3 Hne Hr Hcat. unfold clc_stream in Hcat.
  destruct (verify_clc_ok _ cs n1 (SendAccept n2 :: SendAccept n3 :: tl) out
    H1 Hne Hcat) as (cs1 & E1 & C1 & Ne1).
  destruct (answer_clc_ok _ cs1 n2 (SendAccept n3 :: tl)
    (out ++ [packet PKT_TYPE_OSM_AUTH_REQUEST (t ++ challenge)]) H2 Ne1 C1)
    as (cs2 & E2 & C2 & Ne2).
  destruct (register_ok [] cs2 n3 tl
    ((out ++ [packet PKT_TYPE_OSM_AUTH_REQUEST (t ++ challenge)]) ++
     [packet PKT_TYPE_OSM_AUTH_REPLY (t ++ answer)]) H3 Ne2 Hr)
    as (cs3 & E3 & _); [by rewrite app_nil_r|].
  eexists. unfold handshake, mbind, Agent_bind. rewrite E1, E2, E3.
  by rewrite <- !app_assoc.
Qed.
End honest.

(** ** Properties *)

(** C36: mutual authentication: an agent that is not yet registered comes out of
    [regclc] with a socket only if the peer's first packet was an
    authentication reply that carries the agent's tag and the agent's own
    plaintext challenge (which was only sent enciphered); the agent's status is
    then registered. *)
Theorem regclc_authenticates u ip cn c r c' o :
  status c ≠ OSM_STATUS_REGISTERED →
  regclc (Some u) (Some (ip, cn)) c = (r, c', o) → r = RegSock →
  status c' = OSM_STATUS_REGISTERED ∧
  ∃ code p evs, sockrecv 1024 (rx cn) = ((code, Some p), evs) ∧
                clc_proof (tag c) (pad_uuid u) p.
Proof.
  intros Hst H ->. unfold regclc in H.
  destruct (encode (ords (key c)) (pad_uuid u)) as [ch|]; [|done].
  destruct (handshake _ _ _ cn) as [[v|] cn'] eqn:E.
  - apply handshake_Some in E as (code & p & evs & HE & Hp).
    case_decide; simplify_eq. split; [done|]. eauto.
  - rewrite decide_True in H by done. done.
Qed.

(** Completeness of the handshake: whatever the chunks in which a
    controller that knows the key delivers its three packets, [regclc] returns
    the registered socket, and what it sent are the enciphered challenge, the
    deciphered answer to the controller's challenge and the registration
    line, in this order. *)
Theorem regclc_complete u ip c t ch answer challenge cs n1 n2 n3 :
  (length u ≤ 40)%nat → pack_i (tag c) = Some t →
  length ch = 40%nat →
  encode (ords (key c)) (pad_uuid u) = Some challenge →
  encode (ords (key c)) ch = Some answer →
  ip ≠ ""%string →
  (length (register_text (set_local_ip ip c)) ≤ 1016)%nat →
  (1024 ≤ n1)%nat → (1024 ≤ n2)%nat → (1024 ≤ n3)%nat →
  Forall (λ x, x ≠ []) cs → concat cs = clc_stream t (pad_uuid u) ch →
  ∃ rest, regclc (Some u) (Some (ip, mkConn (chunks cs)
              [SendAccept n1; SendAccept n2; SendAccept n3] [])) c =
    (RegSock, set_status OSM_STATUS_REGISTERED (set_local_ip ip c),
     Some (mkConn rest []
       [packet PKT_TYPE_OSM_AUTH_REQUEST (t ++ challenge);
        packet PKT_TYPE_OSM_AUTH_REPLY (t ++ answer);
        packet PKT_TYPE_OSM_REGISTER_REQUEST (register_text (set_local_ip ip c))])).
Proof.
  intros Hu Ht Hch He Ha Hip Hr H1 H2 H3 Hne Hcat.
  pose proof (pad_uuid_length u Hu) as Hpl.
  destruct (encode_length _ _ _ He) as [Hcl _]. rewrite Hpl in Hcl.
  destruct (encode_length _ _ _ Ha) as [Hal _]. rewrite Hch in Hal.
  destruct (handshake_ok (set_local_ip ip c) t (pad_uuid u) challenge ch answer
    Ht Hpl Hcl Hch Ha Hal cs n1 n2 n3 [] []
    H1 H2 H3 Hne Hr Hcat) as (rest & HE).
  exists rest. unfold regclc. rewrite He, (decide_False (P := ip = ""%string)) by done.
  rewrite HE. by rewrite decide_False by (simpl; tauto).
Qed.

(** The status is never cleared, so authentication protects the first
    connection only: an agent that was registered once gets the new socket back
    from [regclc] whatever the new peer sends, nothing at all included. *)
Theorem regclc_reconnect_unauthenticated u ip cn c :
  status c = OSM_STATUS_REGISTERED → key c ≠ ""%string →
  ∃ c' cn', regclc (Some u) (Some (ip, cn)) c = (RegSock, c', Some cn').
Proof.
  intros Hst Hk. unfold regclc.
  destruct (encode_ok (ords (key c)) (pad_uuid u)) as (ch & -> & _).
  { unfold ords. by destruct (key c). }
  destruct (handshake _ _ _ cn) as [[v|] cn'];
    rewrite decide_False by (simpl; rewrite ?Hst; tauto); eauto.
Qed.

Definition demo_Config : Config :=
  mkConfig 10 "10.0.0.1" 1369 "228.0.0.1" 1371 "k3y" "" "" OSM_STATUS_INIT.
Definition demo_uuid : bytes := ords "015e33a8-787d-457e-b84d-c2a101a816e0".
Definition demo_stream : bytes := clc_stream (u32 10) (pad_uuid demo_uuid) (replicate 40 7).
Definition demo_conn : conn :=
  mkConn (chunks [take 30 demo_stream; drop 30 demo_stream])
    [SendAccept 1024; SendAccept 1024; SendAccept 1024] [].

Lemma regclc_complete_witness :
  ∃ rest, regclc (Some demo_uuid) (Some ("10.0.0.7"%string, demo_conn)) demo_Config =
    (RegSock, set_status OSM_STATUS_REGISTERED (set_local_ip "10.0.0.7" demo_Config),
     Some (mkConn rest []
       [packet PKT_TYPE_OSM_AUTH_REQUEST (u32 10 ++
          default [] (encode (ords "k3y") (pad_uuid demo_uuid)));
        packet PKT_TYPE_OSM_AUTH_REPLY (u32 10 ++
          default [] (encode (ords "k3y") (replicate 40 7)));
        packet PKT_TYPE_OSM_REGISTER_REQUEST (ords "10 7 10.0.0.7")])).
Proof.
  apply (regclc_complete demo_uuid "10.0.0.7" demo_Config (u32 10) (replicate 40 7)
    (default [] (encode (ords "k3y") (replicate 40 7)))
    (default [] (encode (ords "k3y") (pad_uuid demo_uuid)))
    [take 30 demo_stream; drop 30 demo_stream] 1024 1024 1024);
    try reflexivity; try done; try (vm_compute; lia).
  by repeat constructor.
Defined.

Lemma regclc_authenticates_witness :
  ∃ r c' o, regclc (Some demo_uuid) (Some ("10.0.0.7"%string, demo_conn)) demo_Config
              = (r, c', o) ∧
  status c' = OSM_STATUS_REGISTERED ∧
  ∃ code p evs, sockrecv 1024 (rx demo_conn) = ((code, Some p), evs) ∧
                clc_proof 10 (pad_uuid demo_uuid) p.
Proof.
  do 3 eexists. split; [vm_compute; reflexivity|].
  eapply (regclc_authenticates demo_uuid "10.0.0.7" demo_conn demo_Config);
    [discriminate|vm_compute; reflexivity|reflexivity].
Defined.

Lemma regclc_reconnect_unauthenticated_witness :
  ∃ c' cn', regclc (Some demo_uuid) (Some ("10.0.0.7"%string, mkConn [] [] []))
              (set_status OSM_STATUS_REGISTERED demo_Config) = (RegSock, c', Some cn').
Proof.
  apply (regclc_reconnect_unauthenticated demo_uuid "10.0.0.7" (mkConn [] [] [])
    (set_status OSM_STATUS_REGISTERED demo_Config)); [reflexivity|discriminate].
Defined.

(** No request of the controller is ever answered: for every packet
    [process] either raises (an echo request, a state query with its four-byte
    argument, a short packet) or returns without a reply. *)
Theorem process_never_replies pkt :
  (length pkt < 8)%nat ∧ process pkt = ProcRaise "struct.error" ∨
  (8 ≤ length pkt)%nat ∧
  (u32_val (take 4 pkt) = PKT_TYPE_TEST_ECHO_REQUEST ∧
     process pkt = ProcRaise "AttributeError: socksend" ∨
   u32_val (take 4 pkt) = PKT_TYPE_CLC_OSM_QUERY_REQUEST ∧
     u32_val (slice 4 8 pkt) = 4 ∧ length pkt = 12%nat ∧
     process pkt = ProcRaise "NameError: lyconf" ∨
   process pkt = ProcReturn (Some 1) ∨ process pkt = ProcReturn None).
Proof.
  unfold process. rewrite length_take.
  case_match eqn:E; [left; split; [|done]; apply Nat.ltb_lt in E; lia|right].
  apply Nat.ltb_ge in E. split; [lia|].
  case_match eqn:E1; [left; by bool_prop|].
  case_match eqn:E2; [|right; right; by right]. bool_prop.
  unfold procOSMQuery. case_decide as Hd; [right; right; by left|].
  right; left. rewrite length_drop in Hd. split_and!; [done|lia|lia|done].
Qed.
