(* ===== verification/OsmApp.v ===== *)
(** The application monitor and the main loop of the osmanager agent
    (src/osmanager/bin/pyosm/lyapp.py, lyosm.py): running the [status] script,
    reporting its exit value to the controller, reconnecting. *)
From Stdlib Require Import Ascii String.
From S2P Require Import Prelude PyText PyBytes Rc4 OsmWire OsmAgent.
#[local] Open Scope Z_scope.

(** ** The status script (lyapp.py) *)

(** The module's two globals; a pending process is named by its pid. *)
Record app := mkApp { APP_Status : Z; APP_Pending : gmap string Z }.

Definition app_init : app := mkApp (-1) ∅.

(** What the operating system answers during one [runcmd]: whether the script
    may be executed, the pid [Popen] gives, and the result of [poll] (negative
    for a process killed by a signal, [None] while it runs). *)
Record cmd_env := mkEnv { executable : bool; new_pid : Z; poll : option Z }.

(** [runcmd]: the polled status and the process, or the KeyError of
    [del APP_Pending['status']]. *)
Definition runcmd (cmdname : string) (e : cmd_env) (st : app) :
    option ((option Z * option Z) * app) :=
  let pend :=
    if decide (is_Some (APP_Pending st !! cmdname)) then APP_Pending st
    else if executable e then <[cmdname := new_pid e]> (APP_Pending st)
    else APP_Pending st in
  match pend !! cmdname with
  | Some p =>
      match poll e with
      | None => Some ((None, Some p), mkApp (APP_Status st) pend)
      | Some s =>
          match pend !! "status"%string with
          | None => None
          | Some _ =>
              Some ((Some s, Some p), mkApp (APP_Status st) (delete "status"%string pend))
          end
      end
  | None => Some ((Some (-1), None), mkApp (APP_Status st) pend)
  end.

(** The status code reported for an exit value. *)
Definition status_code (s : Z) : Z :=
  if s <? 0 then LY_S_APP_UNKNOWN
  else if s >? 0 then s + LY_S_APP_RUNNING
  else LY_S_APP_RUNNING.

(** [run(sock, notify)]: the return value, the bytes put on the wire (when a
    send was tried) and the new globals. *)
Definition run (e : cmd_env) (sock : option tx_event) (notify : bool) (st : app) :
    option (Z * option bytes * app) :=
  '((s, _), st) ← runcmd "status" e st;
  match s with
  | None => Some (0, None, st)
  | Some s =>
      let s := status_code s in
      if negb (s =? APP_Status st) || notify then
        let st' := mkApp s (APP_Pending st) in
        match sock with
        | None => Some (1, None, st')
        | Some tx =>
            d ← pack_i s;
            '(code, wire) ← socksend tx PKT_TYPE_OSM_REPORT d;
            Some (if code <? 0 then -1 else 1, Some wire, st')
        end
      else Some (1, None, st)
  end.

(** ** The main loop (lyosm.main) *)

Record loop := mkLoop {
  cfg : Config; sock : option conn; notify : bool; appstatus : Z;
  timenow : Z; the_app : app }.

Definition loop_init (c : Config) (now : Z) : loop :=
  mkLoop c None false (-1) now app_init.

Definition timeout : Z := 3600.

(** What one iteration meets outside the program. *)
Record step_env := mkStepEnv {
  e_first : attempt; e_second : attempt; e_mcast_ok : bool; e_start : Z;
  e_mcast : list mcast_event; e_now : Z; e_cmd : cmd_env }.

(** The first half: connect, or receive and process one packet. [None] is an
    exception, which ends the program. *)
Definition net_step (e : step_env) (l : loop) : option loop :=
  match sock l with
  | None =>
      match connclc (e_first e) (e_second e) (e_mcast_ok e) (e_start e)
              (e_mcast e) (cfg l) with
      | (RegRaise, _, _) => None
      | (RegNone, c, _) =>
          Some (mkLoop c None (notify l) (appstatus l) (timenow l) (the_app l))
      | (RegSock, c, s) =>
          Some (mkLoop c s true (appstatus l) (timenow l) (the_app l))
      end
  | Some cn =>
      let '((result, response), evs) := sockrecv 1024 (rx cn) in
      let cn' := mkConn evs (txs cn) (sent cn) in
      if result =? 0 then
        Some (mkLoop (cfg l) None (notify l) (appstatus l) (timenow l) (the_app l))
      else
        let l' := mkLoop (cfg l) (Some cn') (notify l) (appstatus l) (timenow l)
                    (the_app l) in
        if result >? 0 then
          match process (default [] response) with
          | ProcRaise _ => None
          | ProcReturn _ => Some l'
          end
        else Some l'
  end.

(** The second half: run the status script when it is due. *)
Definition app_step (e : step_env) (l : loop) : option loop :=
  if (e_now e - timenow l >=? timeout) || (appstatus l =? 0) || notify l then
    let tx := (λ cn, match txs cn with [] => SendRaise | t :: _ => t end) <$> sock l in
    '(ret, wire, st) ← run (e_cmd e) tx (notify l) (the_app l);
    let sock' := match wire with
                 | None => sock l
                 | Some w => (λ cn, mkConn (rx cn) (drop 1 (txs cn)) (sent cn ++ [w]))
                               <$> sock l
                 end in
    Some (mkLoop (cfg l) sock' (if (ret >? 0) && notify l then false else notify l)
            ret (e_now e) st)
  else Some l.

Definition main_step (e : step_env) (l : loop) : option loop :=
  l ← net_step e l; app_step e l.

Definition main_run (es : list step_env) (l : loop) : option loop :=
  foldl (λ ol e, l ← ol; main_step e l) (Some l) es.

(** ** Lemmas *)

(** The only process ever pending is the status script, so polling a finished
    one always finds its key. *)
Lemma runcmd_status e st :
  ∃ pend s p, runcmd "status" e st = Some ((s, p), mkApp (APP_Status st) pend) ∧
    (p = None → s = Some (-1)) ∧ (is_Some p → s = poll e).
Proof.
  unfold runcmd.
  set (pend := if decide (is_Some (APP_Pending st !! "status"%string))
               then APP_Pending st else _).
  destruct (pend !! "status"%string) as [p|] eqn:E; [|do 3 eexists; split_and!; try done; by intros [? ?]].
  destruct (poll e) as [s|] eqn:Ep; do 3 eexists; split_and!; eauto; done.
Qed.

Lemma pack_status s : s < 2 ^ 31 - 2000 → ∃ d, pack_i (status_code s) = Some d.
Proof.
  intros Hs. unfold pack_i, status_code, LY_S_APP_UNKNOWN, LY_S_APP_RUNNING.
  destruct (s <? 0) eqn:E1; [by eexists|].
  destruct (s >? 0) eqn:E2; [|by eexists]. rewrite Z.gtb_ltb in E2. bool_prop.
  rewrite (proj2 (andb_true_iff _ _)); [by eexists|].
  rewrite Z.leb_le, Z.ltb_lt. lia.
Qed.

(** The bytes a send of a status report left on the wire: [sock.send] takes a part of the
    twelve bytes, which [socksend] does not look at; at least [k] of them, or all. *)
Definition is_report (k : nat) (w : bytes) : Prop :=
  ∃ s d, pack_i (status_code s) = Some d ∧ w `prefix_of` packet PKT_TYPE_OSM_REPORT d ∧
    (k `min` length (packet PKT_TYPE_OSM_REPORT d) ≤ length w)%nat.

(** A send that does not raise takes at least [k] bytes, when there are as many. *)
Definition takes (k : nat) (t : tx_event) : Prop :=
  match t with SendAccept n => (k ≤ n)%nat | SendRaise => True end.

Lemma socksend_report k tx s d code wire :
  takes k tx → pack_i (status_code s) = Some d →
  socksend tx PKT_TYPE_OSM_REPORT d = Some (code, wire) → 0 ≤ code → is_report k wire.
Proof.
  intros Hk Hd H Hc. pose proof (i32_val_pack _ _ Hd) as [_ Hl].
  unfold socksend in H. rewrite mk_packet_Some in H by (done || lia).
  cbn [mbind option_bind] in H.
  destruct tx as [n|]; simplify_eq; [|lia]. exists s, d. cbn in Hk. split_and!; [done| |].
  - exists (drop n (packet PKT_TYPE_OSM_REPORT d)). by rewrite take_drop.
  - rewrite length_take. lia.
Qed.

(** A run that counts as successful while there is a socket and a report is
    wanted has sent one. *)
Lemma run_notify k e tx st ret wire st' :
  takes k tx → run e (Some tx) true st = Some (ret, wire, st') → 0 < ret →
  ∃ w, wire = Some w ∧ is_report k w.
Proof.
  intros Hk. unfold run. destruct (runcmd_status e st) as (pend & s & p & -> & _ & _).
  cbn [mbind option_bind]. intros H Hr. destruct s as [s|]; [|simplify_eq; lia].
  rewrite orb_true_r in H.
  destruct (pack_i (status_code s)) as [d|] eqn:Ed; [|done].
  cbn [mbind option_bind] in H.
  destruct (socksend tx PKT_TYPE_OSM_REPORT d) as [[code w]|] eqn:Es; [|done].
  cbn [mbind option_bind] in H. simplify_eq. exists w. split; [done|].
  eapply socksend_report; [done..|]. break_match_in Hr; bool_prop; lia.
Qed.

(** ** What a handshake leaves of the sends to come *)

Definition keeps_txs {A} (m : Agent A) : Prop := ∀ c, txs (m c).2 `suffix_of` txs c.

Lemma keeps_txs_bind {A B} (m : Agent A) (f : A → Agent B) :
  keeps_txs m → (∀ a, keeps_txs (f a)) → keeps_txs (m ≫= f).
Proof.
  intros Hm Hf c. unfold mbind, Agent_bind. specialize (Hm c).
  destruct (m c) as [[a|] c1]; [|done]. cbn in Hm. etrans; [apply Hf|done].
Qed.
Lemma keeps_txs_ret {A} (a : A) : keeps_txs (mret a).
Proof. by intros c. Qed.
Lemma keeps_txs_lift {A} (o : option A) : keeps_txs (lift o).
Proof. by intros c. Qed.
Lemma keeps_txs_check (P : Prop) `{Decision P} : keeps_txs (check P).
Proof. unfold check. intros c. by case_decide. Qed.
Lemma keeps_txs_send ty d : keeps_txs (do_send ty d).
Proof.
  intros c. unfold do_send. destruct (socksend _ _ _) as [[x w]|]; [|done].
  exists (take 1 (txs c)). cbn [snd txs]. by rewrite take_drop.
Qed.
Lemma keeps_txs_recv : keeps_txs do_recv.
Proof. intros c. unfold do_recv. by destruct (sockrecv 1024 (rx c)) as [r evs]. Qed.
#[local] Hint Resolve keeps_txs_ret keeps_txs_lift keeps_txs_check keeps_txs_send keeps_txs_recv : core.

Lemma handshake_txs c u ch : keeps_txs (handshake c u ch).
Proof.
  unfold handshake, verify_clc, answer_clc, register, recv_sized.
  repeat first [apply keeps_txs_bind; [auto|intros ?] | progress auto | case_match].
Qed.

Lemma regclc_takes k u ip cn c r c' cn' :
  Forall (takes k) (txs cn) → regclc u (Some (ip, cn)) c = (r, c', Some cn') →
  Forall (takes k) (txs cn').
Proof.
  intros Hk H. unfold regclc in H. destruct u as [u|]; [|done]. destruct (encode _ _) as [ch|]; [|done].
  match type of H with context [handshake ?a ?b ?d ?e] =>
    pose proof (handshake_txs a b d e) as Hs; destruct (handshake a b d e) as [o cn1] end.
  cbn in Hs. destruct Hs as [l Hl]. rewrite Hl in Hk. apply Forall_app in Hk as [_ Hk].
  by case_decide; simplify_eq.
Qed.

(** ** The report invariant *)

(** The connections the agent gets behave as [takes] says. *)
Definition env_takes (k : nat) (e : step_env) : Prop :=
  ∀ ip cn, a_peer (e_first e) = Some (ip, cn) ∨ a_peer (e_second e) = Some (ip, cn) → Forall (takes k) (txs cn).

(** A connected agent either still owes the controller a report or has put
    one on this very connection. *)
Definition report_inv (k : nat) (l : loop) : Prop :=
  ∀ cn, sock l = Some cn → Forall (takes k) (txs cn) ∧
    (notify l = false → ∃ w, w ∈ sent cn ∧ is_report k w).

Lemma regclc_sock u p c r c' o :
  regclc u p c = (r, c', o) → r = RegSock → is_Some o.
Proof.
  unfold regclc. intros H ->. repeat case_match; simplify_eq; eauto.
Qed.

Lemma regclc_peer u p c c' cn : regclc u p c = (RegSock, c', Some cn) → is_Some p.
Proof. unfold regclc. intros H. repeat case_match; simplify_eq; eauto. Qed.

Lemma connclc_takes k e c c' cn :
  env_takes k e →
  connclc (e_first e) (e_second e) (e_mcast_ok e) (e_start e) (e_mcast e) c = (RegSock, c', Some cn) →
  Forall (takes k) (txs cn).
Proof.
  intros He.
  assert (∀ a c c' cn, a_peer a = a_peer (e_first e) ∨ a_peer a = a_peer (e_second e) →
    regclc (a_uuid a) (a_peer a) c = (RegSock, c', Some cn) → Forall (takes k) (txs cn)) as Hreg.
  { intros a c0 c1 cn1 Ha H. destruct (regclc_peer _ _ _ _ _ H) as [[ip p] Hp]. rewrite Hp in H, Ha.
    eapply regclc_takes; [|exact H]. apply (He ip). destruct Ha as [<-|<-]; auto. }
  unfold connclc. destruct (has_clc c).
  - destruct (regclc _ _ c) as [[r1 c1] s1] eqn:E. destruct r1; [done| |].
    + destruct (getclcparm _ _ _ _); [|done]. case_decide; [done|]. destruct (has_clc _); [|done].
      apply Hreg. auto.
    + intros [= -> ->]. eapply (Hreg (e_first e)); eauto.
  - destruct (getclcparm _ _ _ _); [|done]. case_decide; [done|]. destruct (has_clc _); [|done].
    apply Hreg. auto.
Qed.

Lemma net_step_inv k e l l' :
  env_takes k e → net_step e l = Some l' → report_inv k l → report_inv k l'.
Proof.
  unfold net_step, report_inv. intros He H Hi.
  destruct (sock l) as [cn|] eqn:Es; cbn [sock notify] in *.
  - destruct (sockrecv 1024 (rx cn)) as [[result resp] evs].
    destruct (result =? 0); [by simplify_eq|].
    assert (l' = mkLoop (cfg l) (Some (mkConn evs (txs cn) (sent cn))) (notify l)
              (appstatus l) (timenow l) (the_app l)) as ->.
    { repeat case_match; by simplify_eq. }
    intros cn' [= <-]. by apply (Hi cn).
  - destruct (connclc _ _ _ _ _ _) as [[r c] s] eqn:E.
    destruct r; simplify_eq; cbn [sock notify]; [done|]. intros cn ->. split; [|done].
    by eapply connclc_takes.
Qed.

Lemma app_step_inv k e l l' : app_step e l = Some l' → report_inv k l → report_inv k l'.
Proof.
  unfold app_step, report_inv. intros H Hi.
  destruct (_ || _ || _); [|by simplify_eq].
  destruct (run _ _ _ _) as [[[ret wire] st]|] eqn:Er; [|done].
  cbn [mbind option_bind] in H. simplify_eq. cbn [sock notify].
  intros cn Hcn. destruct (sock l) as [cn0|] eqn:Es; [|by destruct wire].
  destruct (Hi cn0 eq_refl) as [Ht Hr].
  assert (Forall (takes k) (txs cn)) as Ht'.
  { destruct wire; simplify_eq/=; [|done]. rewrite <- (take_drop 1 (txs cn0)) in Ht.
    by apply Forall_app in Ht as [_ Ht]. }
  split; [exact Ht'|]. intros Hn. destruct (notify l) eqn:En.
  - rewrite andb_true_r in Hn. destruct (ret >? 0) eqn:Eg; [|done].
    rewrite Z.gtb_ltb in Eg. bool_prop.
    assert (takes k (match txs cn0 with [] => SendRaise | t :: _ => t end)) as Hk
      by (destruct (txs cn0); [done|by apply Forall_cons in Ht as [Ht _]]).
    destruct (run_notify k _ _ _ _ _ _ Hk Er Eg) as (w & -> & Hw).
    simplify_eq/=. exists w. split; [set_solver|done].
  - destruct Hr as (w & Hw & Hr); [done|]. exists w. split; [|done].
    destruct wire; simplify_eq/=; set_solver.
Qed.

Lemma main_step_inv k e l l' :
  env_takes k e → main_step e l = Some l' → report_inv k l → report_inv k l'.
Proof.
  unfold main_step. intros He H Hi.
  destruct (net_step e l) as [l1|] eqn:E; [|done].
  eapply app_step_inv; [done|]. by eapply net_step_inv.
Qed.

(** A fold of steps that may end the program keeps what each step keeps. *)
Lemma foldl_step_inv {E S} (step : E → S → option S) (Q : E → Prop) (P : S → Prop) es s s' :
  (∀ e s s', Q e → step e s = Some s' → P s → P s') → Forall Q es →
  foldl (λ o e, s ← o; step e s) (Some s) es = Some s' → P s → P s'.
Proof.
  intros Hstep HQ. revert s. induction HQ as [|e es He _ IH]; intros s; cbn; [by intros [= ->]|].
  destruct (step e s) as [s1|] eqn:Es.
  - intros H HP. apply (IH s1 H). by eapply Hstep.
  - intros H. exfalso. clear -H. induction es; simpl in *; [done|auto].
Qed.

(** ** Properties *)

(** C37: no connection is left without its status report: when a send that does not raise
    takes at least [k] bytes of the buffer (a blocking [sock.send] takes one at least; with
    [k] twelve it takes the whole report), then in every state the main loop reaches, a
    connected agent whose [notify] flag is down has put at least [k] bytes of a status
    report on the current connection. A send that fails puts nothing there: the flag stays
    up. *)
Theorem main_run_reports k c now es l cn :
  (0 < k)%nat → Forall (env_takes k) es →
  main_run es (loop_init c now) = Some l →
  sock l = Some cn → notify l = false → ∃ w, w ∈ sent cn ∧ w ≠ [] ∧ is_report k w.
Proof.
  intros Hk He H Hs Hn.
  destruct (foldl_step_inv main_step (env_takes k) (report_inv k) _ _ _ (main_step_inv k) He H) with cn
    as [_ Hr]; [by intros ?|done|].
  destruct (Hr Hn) as (w & Hw & Hrep). exists w. split_and!; [done| |done].
  intros ->. destruct Hrep as (s & d & _ & _ & Hl). rewrite packet_length in Hl. cbn in Hl. lia.
Qed.

Definition demo_step : step_env :=
  mkStepEnv (mkAttempt (Some demo_uuid) (Some ("10.0.0.7"%string,
      mkConn (rx demo_conn) (txs demo_conn ++ [SendAccept 1024]) [])))
    (mkAttempt None None) false 0 [] 10 (mkEnv true 77 (Some 3)).

Lemma demo_takes : env_takes 12 demo_step.
Proof.
  intros ip cn [H|H]; [|done]. cbn in H. injection H as <- <-. repeat constructor; vm_compute; lia.
Qed.

Lemma main_run_reports_witness :
  ∃ l cn, main_run [demo_step] (loop_init demo_Config 0) = Some l ∧
          sock l = Some cn ∧ notify l = false ∧ ∃ w, w ∈ sent cn ∧ w ≠ [] ∧ is_report 12 w.
Proof.
  do 2 eexists. split_and!; [vm_compute; reflexivity..|].
  eapply (main_run_reports 12 demo_Config 0 [demo_step]);
    [lia|constructor; [exact demo_takes|constructor]|vm_compute; reflexivity|reflexivity|reflexivity].
Defined.

(** The last send fails: [notify] stays up and the next step sends the report. *)
Example report_again :
  let e := mkStepEnv (mkAttempt (Some demo_uuid) (Some ("10.0.0.7"%string,
      mkConn (rx demo_conn) (txs demo_conn ++ [SendRaise; SendAccept 12]) [])))
    (mkAttempt None None) false 0 [] 10 (mkEnv true 77 (Some 3)) in
  (λ l, (notify l, from_option (λ cn, last (sent cn)) None (sock l))) <$>
     main_run [e] (loop_init demo_Config 0) = Some (true, Some []) ∧
  (λ l, (notify l, from_option (λ cn, length <$> last (sent cn)) None (sock l))) <$>
     main_run [e; e] (loop_init demo_Config 0) = Some (false, Some 12%nat).
Proof. split; vm_compute; reflexivity. Qed.

(** A report whose sending fails is not retried: [run] records the new
    status before it knows that the controller has it, so the next runs with
    the same status send nothing until [notify] is raised again. *)
Theorem run_failed_send_forgotten e st ret wire st' e' tx s :
  run e (Some SendRaise) false st = Some (ret, wire, st') → ret = -1 →
  poll e = Some s → executable e = true →
  poll e' = Some s → executable e' = true →
  APP_Status st' = status_code s ∧
  ∃ st'', run e' (Some tx) false st' = Some (1, None, st'').
Proof.
  assert (∀ e, poll e = Some s → executable e = true → ∀ st, ∃ pend p,
    runcmd "status" e st = Some ((Some s, Some p), mkApp (APP_Status st) pend)) as Hrun.
  { intros e0 Hp He st0. unfold runcmd. rewrite Hp, He. case_decide as Hd.
    - destruct Hd as [p Hp']. rewrite Hp'. eauto.
    - rewrite lookup_insert_eq. eauto. }
  intros H -> Hp He Hp' He'. unfold run in H.
  destruct (Hrun e Hp He st) as (pend & p & HE). rewrite HE in H.
  cbn [mbind option_bind APP_Status] in H. rewrite orb_false_r in H.
  destruct (negb _); [|done].
  destruct (pack_i _) as [d|]; [|done]. cbn [mbind option_bind] in H.
  destruct (socksend _ _ _) as [[code w]|]; [|done].
  cbn [mbind option_bind APP_Pending] in H. simplify_eq. split; [done|].
  unfold run. destruct (Hrun e' Hp' He' (mkApp (status_code s) pend)) as (pend' & p' & ->).
  cbn [mbind option_bind APP_Status]. rewrite Z.eqb_refl. simpl. eauto.
Qed.

Lemma run_failed_send_forgotten_witness :
  APP_Status (mkApp 2003 ∅) = status_code 3 ∧
  ∃ st'', run (mkEnv true 78 (Some 3)) (Some (SendAccept 100)) false (mkApp 2003 ∅)
          = Some (1, None, st'').
Proof.
  apply (run_failed_send_forgotten (mkEnv true 77 (Some 3)) app_init (-1) (Some []) _
    (mkEnv true 78 (Some 3)) (SendAccept 100) 3); vm_compute; reflexivity.
Defined.

(** The documented range of exit values is 0..127; larger ones collide with the
    codes that mean unknown, stopped and failed. *)
Example status_code_collides :
  status_code 128 = status_code (-9) ∧ status_code 129 = 2129 ∧ status_code 130 = 2130.
Proof. repeat split. Qed.
