(* ===== verification/GuestConf.v ===== *)
(** The first program of a virtual machine (src/osmanager/bin/pyosc/osconfig.py): it reads the
    configuration the controller left on a disk and sets the addresses, the password and the
    key of root, and the name servers.

    A guest has files with contents and times, directories, and the commands run so far. What
    a command prints and whether it fails is an argument, a function of the commands before
    it; the JSON decoder and the text of a list or an object in a format are others. Text is
    ASCII. *)
From Stdlib Require Import Ascii String.
From S2P Require Import Prelude PyText PyPath Table Session Cloud.
#[local] Open Scope Z_scope.

(** ** The machine *)

Record file := mkFile { content : string; mtime : Z }.

Record guest := mkGuest {
  files : gmap string file; dirs : gset string; cmds : list string; printed : list string;
  clock : Z }.
#[export] Instance eta_guest : Eta guest :=
  λ g, mkGuest (files g) (dirs g) (cmds g) (printed g) (clock g).

Inductive exn := IOError | OSError | SystemExit | OtherError (name : string).
#[export] Instance exn_eq : EqDecision exn.
Proof. solve_decision. Defined.

Definition G (A : Type) : Type := guest → (exn + A) * guest.
#[export] Instance G_ret : MRet G := λ A a g, (inr a, g).
#[export] Instance G_bind : MBind G := λ A B f m g,
  match m g with
  | (inr a, g') => f a g'
  | (inl x, g') => (inl x, g')
  end.

Definition throw {A} (x : exn) : G A := λ g, (inl x, g).
Definition gets {A} (f : guest → A) : G A := λ g, (inr (f g), g).
Definition print (t : string) : G unit := λ g, (inr tt, g <| printed ::= λ l, l ++ [t] |>).

(** [try: m except x if c x: h] *)
Definition catch {A} (c : exn → bool) (m h : G A) : G A := λ g,
  match m g with
  | (inl x, g') => if c x then h g' else (inl x, g')
  | r => r
  end.
Definition is_IOError (x : exn) : bool := bool_decide (x = IOError).
Definition is_OSError (x : exn) : bool := bool_decide (x = OSError).

(** The directory of a path. *)
Definition parent (p : string) : string :=
  let d := join_on slash (removelast (split_on slash p)) in
  if bool_decide (d = ""%string) then "/"%string else d.

Definition exists_ (p : string) (g : guest) : bool :=
  bool_decide (is_Some (files g !! p)) || bool_decide (p ∈ dirs g).

Definition read (p : string) : G string := λ g,
  match files g !! p with
  | Some f => (inr (content f), g)
  | None => (inl IOError, g)
  end.

(** [open(p, 'w')], the text, [close()] *)
Definition write (p t : string) : G unit := λ g,
  if bool_decide (parent p ∈ dirs g) && negb (bool_decide (p ∈ dirs g))
  then (inr tt, g <| files ::= <[p := mkFile t (clock g)]> |>)
  else (inl IOError, g).

Definition mkdir (p : string) : G unit := λ g,
  if bool_decide (parent p ∈ dirs g) && negb (exists_ p g)
  then (inr tt, g <| dirs ::= union {[p]} |>)
  else (inl OSError, g).

Definition rename (src dst : string) : G unit := λ g,
  match files g !! src with
  | Some f =>
      if bool_decide (parent dst ∈ dirs g) && negb (bool_decide (dst ∈ dirs g))
      then (inr tt, g <| files ::= λ m, <[dst := f]> (delete src m) |>)
      else (inl OSError, g)
  | None => (inl OSError, g)
  end.

(** [filecmp.cmp]: files of one size and one time are taken for equal unread. *)
Definition same_file (a b : file) : bool :=
  Nat.eqb (String.length (content a)) (String.length (content b)) && (mtime a =? mtime b) ||
  String.eqb (content a) (content b).
Definition cmp (p q : string) : G bool := λ g,
  match files g !! p, files g !! q with
  | Some a, Some b => (inr (same_file a b), g)
  | _, _ => (inl OSError, g)
  end.

(** [f.readlines()] *)
Definition newline : ascii := "010"%char.
Fixpoint readlines (s : string) : list string :=
  match s with
  | EmptyString => []
  | String c t =>
      if Ascii.eqb c newline then String c EmptyString :: readlines t
      else match readlines t with
           | [] => [String c EmptyString]
           | l :: ls => String c l :: ls
           end
  end.

Definition concat_all (l : list string) : string := foldr String.append EmptyString l.

Definition PROGRAM_NAME : string := "osconfig".
Definition datadir : string := "/root/.luoyun".
Definition error (what : string) : G unit := print (PROGRAM_NAME +:+ " Error: " +:+ what)%string.

(** [if not os.path.exists(p): os.mkdir(p)] *)
Definition ensure_dir (p : string) : G unit :=
  ex ← gets (exists_ p); if ex : bool then mret tt else mkdir p.

(** ** The password of root *)

Definition nul : ascii := "000"%char.

(** The loop over the lines: an exception, the early return, or the new lines. *)
Fixpoint shadow_lines (h : json) (ls : list string) : exn + option (list string) :=
  match ls with
  | [] => inr (Some [])
  | l :: ls =>
      let keep (x : string) := match shadow_lines h ls with
        | inr (Some w) => inr (Some (x :: w))
        | r => r
        end in
      match split_on ":" l with
      | e0 :: es =>
          if bool_decide (e0 = "root"%string) then
            match es, h with
            | [], _ => inl (OtherError "IndexError")
            | e1 :: es, JStr t =>
                if bool_decide (e1 = t) then inr None
                else keep (join_on ":" (e0 :: t :: es))
            | _, _ => inl (OtherError "TypeError")
            end
          else match l with
               | String c _ => if Ascii.eqb c nul then shadow_lines h ls else keep l
               | EmptyString => inl (OtherError "IndexError")
               end
      | [] => inl (OtherError "IndexError")
      end
  end.

Definition shadow_src : string := "/root/.luoyun/shadow".
Definition shadow_target : string := "/etc/shadow".

Definition passwdconfig (passwd_hash : json) : G unit :=
  if negb (json_true passwd_hash) then
    print (PROGRAM_NAME +:+ ": skip configuring root password")%string
  else
    catch (λ _, true) (
      t ← read shadow_target;
      match shadow_lines passwd_hash (readlines t) with
      | inl x => throw x
      | inr None => mret tt
      | inr (Some w) => write shadow_src (concat_all w);; rename shadow_src shadow_target
      end)
      (error shadow_target).

(** ** The key of root *)

Definition key_src : string := "/root/.luoyun/authorized_keys".
Definition key_target : string := "/root/.ssh/authorized_keys".

(** [f.write(v)] between [open] and [close]: only text can be written. *)
Definition write_json (p : string) (v : json) : G unit :=
  match v with
  | JStr t => write p t
  | _ => write p "";; throw (OtherError "TypeError")
  end.

(** The file replaces the target unless that is the same. *)
Definition install (src target : string) : G unit :=
  ex ← gets (exists_ target);
  same ← (if ex : bool then cmp src target else mret false);
  if same : bool then mret tt else rename src target.

Definition sshkeyconfig (public_key : json) : G unit :=
  if negb (json_true public_key) then
    print (PROGRAM_NAME +:+ ": skip configuring root ssh key")%string
  else
    catch is_IOError (
      ensure_dir "/root/.ssh";;
      write_json key_src public_key;;
      install key_src key_target)
      (error key_target).

(** ** Name servers *)

Definition resolv_src : string := "/root/.luoyun/resolv.conf".
Definition resolv_target : string := "/etc/resolv.conf".

Definition nameserver_line (w : string) : string :=
  ("nameserver " +:+ w +:+ String newline EmptyString)%string.

Definition nameserverconfig (nameserver : json) : G unit :=
  if negb (json_true nameserver) then mret tt else
  catch is_IOError (
    match nameserver with
    | JStr t =>
        write resolv_src (concat_all (nameserver_line <$> words t));;
        install resolv_src resolv_target
    | _ => write resolv_src "";; throw (OtherError "AttributeError: split")
    end)
    (error resolv_target).

(** ** Network interfaces *)

Section guest.
Context (popen : list string → string → string * bool)  (* what it prints, whether it fails *)
        (repr : json → string) (loads : string → option json).

Definition run_cmd (c : string) : G (string * bool) := λ g,
  (inr (popen (cmds g) c), g <| cmds ::= λ l, l ++ [c] |>).

(** [%s] *)
Definition fmt (v : json) : string :=
  match v with
  | JNull => "None" | JBool true => "True" | JBool false => "False"
  | JNum n => str_of_Z n | JStr t => t
  | JList _ | JObj _ => repr v
  end.

Definition is_up (out : string) : bool :=
  existsb (λ l, bool_decide (head (words (strip l)) = Some "UP"%string)) (readlines out).

Definition print_output (out : string) : G unit := if bool_decide (out = ""%string) then mret tt else print out.

Definition if_cmd (netinf : string) : string := ("/sbin/ifconfig " +:+ netinf +:+ " 2>&1")%string.
Definition down_cmd (netinf : string) : string := ("/sbin/ifdown " +:+ netinf +:+ " 2>&1")%string.
Definition up_cmd (netinf : string) (ip netmask : json) : string :=
  ("/sbin/ifconfig " +:+ netinf +:+ " " +:+ fmt ip +:+ " netmask " +:+ fmt netmask +:+ " 2>&1")%string.
Definition route_cmd (gateway : json) : string :=
  ("/sbin/route add -net default gw " +:+ fmt gateway +:+ " eth0 2>&1")%string.

(** The interface is taken down when it is up; [false] ends the function. *)
Definition take_down (netinf : string) : G bool :=
  '(out, failed) ← run_cmd (if_cmd netinf);
  if negb failed && is_up out then
    '(out, failed) ← run_cmd (down_cmd netinf);
    if failed : bool then
      error ("failed bringing down " +:+ netinf)%string;; print_output out;; mret false
    else mret true
  else mret true.

(** A failure of [route] other than a route that is there meets an unbound name in the
    message, so the outer handler prints its own. *)
Definition add_route (gateway : json) : G unit :=
  '(out, failed) ← run_cmd (route_cmd gateway);
  if (failed : bool) && negb (bool_decide (substring 0 22 out = "SIOCADDRT: File exists"%string))
  then throw (OtherError "NameError: r") else mret tt.

Definition netconfig (netinf : string) (mac ip netmask gateway : json) : G unit :=
  catch (λ _, true) (
    if negb (json_true ip) then mret tt else
    if negb (String.eqb netinf "eth0" || String.eqb netinf "eth1") then
      print (PROGRAM_NAME +:+ " only supports eth0 and eth1")%string
    else match netmask, String.eqb netinf "eth1", gateway with
    | JNull, _, _ | _, true, JNull => error ("missing config info for  " +:+ netinf)%string
    | _, _, _ =>
        go ← take_down netinf;
        if negb go then mret tt else
        '(out, failed) ← run_cmd (up_cmd netinf ip netmask);
        if failed : bool then
          error ("failed bringing up " +:+ netinf)%string;; print_output out
        else if String.eqb netinf "eth0" then add_route gateway else mret tt
    end)
    (error netinf).

(** ** The program *)

(** The text after the first [JSON=]. *)
Fixpoint json_line (ls : list string) : string :=
  match ls with
  | [] => EmptyString
  | l :: ls => if bool_decide (substring 0 5 l = "JSON="%string)
               then substring 5 (String.length l - 5) l else json_line ls
  end.

(** [d.get(k)] *)
Definition member (k : string) (v : json) : G json :=
  match v with
  | JObj l => mret (default JNull (jget k l))
  | _ => throw (OtherError "AttributeError: get")
  end.

(** [j['network'][i]], behind the test of its truth *)
Definition nic (network : json) (i : nat) : G json :=
  match network with
  | JList l => match l !! i with Some v => mret v | None => throw (OtherError "IndexError") end
  | JStr t => mret (JStr (substring i 1 t))
  | JObj _ => throw (OtherError "KeyError")
  | _ => throw (OtherError "TypeError")
  end.

(** [len(v)] *)
Definition len (v : json) : G nat :=
  match v with
  | JList l => mret (length l)
  | JObj l => mret (length l)
  | JStr t => mret (String.length t)
  | _ => throw (OtherError "TypeError")
  end.

Definition configure (netinf : string) (v : json) : G unit :=
  mac ← member "mac" v; ip ← member "ip" v;
  netmask ← member "netmask" v; gateway ← member "gateway" v;
  netconfig netinf mac ip netmask gateway.

Definition default_network : G unit :=
  '(out, failed) ← run_cmd "/sbin/ifup eth0 2>&1";
  print_output out;;
  if failed : bool then error "failed bringing up eth0" else mret tt.

Definition apply_config (j : json) : G unit :=
  network ← member "network" j;
  (if json_true network then
     n ← len network;
     v ← nic network 0; configure "eth0" v;;
     if (1 <? n)%nat then v ← nic network 1; configure "eth1" v else mret tt
   else default_network);;
  public_key ← member "public_key" j; sshkeyconfig public_key;;
  passwd_hash ← member "passwd_hash" j; passwdconfig passwd_hash;;
  nameservers ← member "nameservers" j; nameserverconfig nameservers.

Definition main (confpath : string) : G unit :=
  ex ← gets (exists_ confpath);
  if negb ex then
    print (PROGRAM_NAME +:+ ": config file " +:+ confpath +:+ " not exist")%string;; throw SystemExit
  else
  catch is_OSError (ensure_dir datadir)
    (print "OS Error: mkdir";; throw SystemExit);;
  t ← catch is_IOError (read confpath)
        (print ("IOError: processing " +:+ confpath)%string;; throw SystemExit);
  let jsonstr := json_line (readlines t) in
  if bool_decide (jsonstr = ""%string) then
    print (PROGRAM_NAME +:+ ": no json config")%string;; throw SystemExit
  else match loads jsonstr with
       | None => throw (OtherError "ValueError")
       | Some j => apply_config j
       end.
End guest.

(** ** Lines of a file *)

Definition ended (l : string) : Prop :=
  ∃ b, has_char newline b = false ∧ l = (b +:+ String newline EmptyString)%string.

(** Every line but the last ends in a newline, and no line has another one. *)
Fixpoint lines_ok (ls : list string) : Prop :=
  match ls with
  | [] => True
  | l :: ls => ended l ∧ lines_ok ls ∨ ls = [] ∧ l ≠ ""%string ∧ has_char newline l = false
  end.

Lemma readlines_ok s : lines_ok (readlines s).
Proof.
  induction s as [|c t IH]; cbn [readlines]; [done|].
  destruct (Ascii.eqb_spec c newline) as [->|Hc].
  - left. split; [by exists ""%string|done].
  - apply Ascii.eqb_neq in Hc. destruct (readlines t) as [|l ls].
    + right. split_and!; [done..|]. simpl. by rewrite Hc.
    + destruct IH as [[(b & Hb & ->) Hls]|(-> & _ & Hl)].
      * left. split; [|done]. exists (String c b). split; [simpl; by rewrite Hc|done].
      * right. split_and!; [done..|]. simpl in *. by rewrite Hc.
Qed.

Lemma readlines_none s : s ≠ ""%string → has_char newline s = false → readlines s = [s].
Proof.
  induction s as [|c t IH]; [done|]. intros _ [Hc Ht]%orb_false_iff. cbn [readlines]. rewrite Hc.
  destruct t as [|d t]; [done|]. by rewrite IH.
Qed.

Lemma readlines_ended l s : ended l → readlines (l +:+ s) = l :: readlines s.
Proof.
  intros (b & Hb & ->). induction b as [|c b IH].
  - reflexivity.
  - simpl in Hb. apply orb_false_iff in Hb as [Hc Hb].
    change (((String c b +:+ String newline EmptyString) +:+ s)%string)
      with (String c ((b +:+ String newline EmptyString) +:+ s))%string.
    cbn [readlines]. by rewrite Hc, (IH Hb).
Qed.

Lemma readlines_concat ls : lines_ok ls → readlines (concat_all ls) = ls.
Proof.
  induction ls as [|l ls IH]; [done|]. intros [[Hl Hls]|(-> & Hl & Hn)].
  - change (concat_all (l :: ls)) with (l +:+ concat_all ls)%string. by rewrite readlines_ended, IH.
  - change (concat_all [l]) with (l +:+ "")%string. rewrite string_app_nil_r. by apply readlines_none.
Qed.

Lemma ended_field w t : ended (w +:+ String ":" t) ↔ has_char newline w = false ∧ ended t.
Proof.
  split.
  - intros (b & Hb & E). revert b Hb E. induction w as [|c w IH]; intros [|d b] Hb E;
      try discriminate; injection E as <- E; cbn [has_char] in Hb.
    + split; [done|]. exists b. apply orb_false_iff in Hb as [_ Hb]. by split.
    + by destruct w.
    + apply orb_false_iff in Hb as [Hd Hb]. destruct (IH b Hb E) as [Hw Ht].
      split; [simpl; by rewrite Hd|done].
  - intros [Hw (b & Hb & ->)]. exists (w +:+ String ":" b)%string. split.
    + rewrite has_char_app, Hw. simpl. by rewrite Hb.
    + rewrite <- string_app_assoc. reflexivity.
Qed.

Lemma none_field w t :
  has_char newline (w +:+ String ":" t) = has_char newline w || has_char newline t.
Proof. by rewrite has_char_app. Qed.

(** ** The shadow file *)

Definition name_of (l : string) : option string := head (split_on ":" l).
Definition is_root (l : string) : bool := bool_decide (name_of l = Some "root"%string).
Definition nul_line (l : string) : bool :=
  match l with String c _ => Ascii.eqb c nul | EmptyString => false end.

(** What the file holds as the password of a user: the second field of the user's first line. *)
Fixpoint hash_in (user : string) (ls : list string) : option string :=
  match ls with
  | [] => None
  | l :: ls => if bool_decide (name_of l = Some user) then split_on ":" l !! 1%nat else hash_in user ls
  end.
Definition hash_of (user text : string) : option string := hash_in user (readlines text).

(** Lines of root have the fields of a shadow file, and there is one at most. *)
Definition shadow_ok (text : string) : Prop :=
  Forall (λ l, is_root l = true → (3 ≤ length (split_on ":" l))%nat) (readlines text) ∧
  (length (filter (λ l, is_root l = true) (readlines text)) ≤ 1)%nat.

Definition set_hash (h l : string) : string :=
  if is_root l then
    match split_on ":" l with
    | e0 :: _ :: es => join_on ":" (e0 :: h :: es)
    | _ => l
    end
  else l.

Lemma is_root_split l e0 es :
  split_on ":" l = e0 :: es → is_root l = bool_decide (e0 = "root"%string).
Proof. unfold is_root, name_of. intros ->. apply bool_decide_ext. simpl. split; congruence. Qed.

Lemma set_hash_split h l e0 e1 es :
  split_on ":" l = e0 :: e1 :: es →
  set_hash h l = if bool_decide (e0 = "root"%string) then join_on ":" (e0 :: h :: es) else l.
Proof. intros E. unfold set_hash. by rewrite (is_root_split _ _ _ E), E. Qed.

Lemma set_hash_other h l : is_root l = false → set_hash h l = l.
Proof. unfold set_hash. by intros ->. Qed.

Lemma root_not_nul l es : split_on ":" l = "root"%string :: es → nul_line l = false.
Proof.
  destruct l as [|c l]; [done|]. cbn [split_on nul_line].
  destruct (Ascii.eqb c ":"); [done|]. by destruct (split_on ":" l); intros [= -> _ _].
Qed.

Lemma shadow_lines_spec h ls :
  Forall (λ l, l ≠ ""%string) ls →
  Forall (λ l, is_root l = true → (3 ≤ length (split_on ":" l))%nat) ls →
  shadow_lines (JStr h) ls =
    inr (if existsb (λ l, is_root l && bool_decide (split_on ":" l !! 1%nat = Some h)) ls then None
         else Some (set_hash h <$> filter (λ l, nul_line l = false) ls)).
Proof.
  induction 1 as [|l ls Hl Hls IH]; intros Hf; [done|]. apply Forall_cons_1 in Hf as [Hw Hf].
  specialize (IH Hf). cbn [shadow_lines existsb]. rewrite filter_cons.
  destruct (split_on ":" l) as [|e0 es] eqn:Es; [by destruct (split_on_nonempty ":" l)|].
  pose proof (is_root_split _ _ _ Es) as Hr. rewrite Hr in *.
  destruct (bool_decide (e0 = "root"%string)) eqn:Er.
  - destruct es as [|e1 es]; [simpl in Hw; specialize (Hw eq_refl); lia|].
    change ((e0 :: e1 :: es) !! 1%nat) with (Some e1).
    rewrite (bool_decide_ext (Some e1 = Some h) (e1 = h)) by (split; congruence).
    destruct (bool_decide (e1 = h)) eqn:E1; [done|]. cbn [andb orb]. rewrite IH.
    rewrite decide_True by (bool_prop; subst; by eapply root_not_nul). cbn [fmap list_fmap].
    rewrite (set_hash_split _ _ _ _ _ Es), Er. by destruct (existsb _ _).
  - cbn [andb orb]. destruct l as [|c l]; [done|]. cbn [nul_line].
    rewrite IH. destruct (Ascii.eqb c nul).
    + by rewrite decide_False.
    + rewrite decide_True by done. cbn [fmap list_fmap]. rewrite set_hash_other by done.
      by destruct (existsb _ _).
Qed.

(** ** What the new lines hold *)

Lemma hash_in_filter user ls :
  nul_line user = false → 
  hash_in user (filter (λ l, nul_line l = false) ls) = hash_in user ls.
Proof.
  intros Hu. induction ls as [|l ls IH]; [done|]. rewrite filter_cons. cbn [hash_in].
  destruct (nul_line l) eqn:Hl; [|rewrite decide_True by done; cbn [hash_in]; by rewrite IH].
  rewrite decide_False by done. rewrite bool_decide_false; [done|].
  unfold name_of. destruct l as [|c l]; [done|]. cbn [split_on nul_line] in *.
  apply Ascii.eqb_eq in Hl as ->. destruct (Ascii.eqb nul ":") eqn:E; [done|].
  by destruct (split_on ":" l); intros [= <-].
Qed.

Lemma split_fields l e0 e1 es h :
  split_on ":" l = e0 :: e1 :: es → has_char ":" h = false →
  split_on ":" (join_on ":" (e0 :: h :: es)) = e0 :: h :: es.
Proof.
  intros E Hh. apply split_join; [done|]. pose proof (split_on_words ":" l) as Hw. rewrite E in Hw.
  apply Forall_cons_1 in Hw as [H0 Hw]. apply Forall_cons_1 in Hw as [_ Hw]. by repeat constructor.
Qed.

Lemma name_set_hash h l :
  has_char ":" h = false → name_of (set_hash h l) = name_of l.
Proof.
  intros Hh. destruct (split_on ":" l) as [|e0 [|e1 es]] eqn:E;
    [by destruct (split_on_nonempty ":" l)| |].
  - unfold set_hash. rewrite E. by destruct (is_root l).
  - rewrite (set_hash_split _ _ _ _ _ E). case_bool_decide; [|done].
    unfold name_of. by rewrite (split_fields _ _ _ _ _ E), E.
Qed.

Lemma hash_in_set h user ls :
  has_char ":" h = false → Forall (λ l, is_root l = true → (3 ≤ length (split_on ":" l))%nat) ls →
  hash_in user (set_hash h <$> ls) =
    if bool_decide (user = "root"%string) then const h <$> find (λ l, is_root l) ls else hash_in user ls.
Proof.
  intros Hh. induction 1 as [|l ls Hl _ IH]; [by case_bool_decide|].
  cbn [fmap list_fmap hash_in find]. rewrite name_set_hash, IH by done.
  destruct (is_root l) eqn:Hr.
  - specialize (Hl eq_refl). unfold is_root in Hr. apply bool_decide_eq_true in Hr.
    rewrite Hr. rewrite (bool_decide_ext (Some "root"%string = Some user) (user = "root"%string))
      by (split; congruence).
    case_bool_decide as Hu; [|done].
    unfold name_of in Hr. destruct (split_on ":" l) as [|e0 [|e1 es]] eqn:E; simpl in Hl; [lia..|].
    injection Hr as ->. rewrite (set_hash_split _ _ _ _ _ E), bool_decide_true by done.
    by rewrite (split_fields _ _ _ _ _ E).
  - rewrite set_hash_other by done. unfold is_root in Hr. apply bool_decide_eq_false in Hr.
    case_bool_decide as Hn; [|done]. rewrite bool_decide_false; [done|]. congruence.
Qed.

Lemma join_split sep s : join_on sep (split_on sep s) = s.
Proof.
  induction s as [|c s IH]; [done|]. cbn [split_on]. destruct (Ascii.eqb_spec c sep) as [->|Hc].
  - destruct (split_on sep s) as [|w l] eqn:E; [by destruct (split_on_nonempty sep s)|].
    change (join_on sep (""%string :: w :: l)) with (String sep (join_on sep (w :: l))). by rewrite IH.
  - destruct (split_on sep s) as [|w l] eqn:E; [by destruct (split_on_nonempty sep s)|].
    destruct l; rewrite <- IH; done.
Qed.

(** The new line ends as the old one did. *)
Lemma set_hash_line h l :
  has_char newline h = false → (is_root l = true → (3 ≤ length (split_on ":" l))%nat) →
  (ended l → ended (set_hash h l)) ∧
  (has_char newline l = false → has_char newline (set_hash h l) = false) ∧
  (l ≠ ""%string → set_hash h l ≠ ""%string).
Proof.
  intros Hh Hf. destruct (is_root l) eqn:Hr; [|by rewrite set_hash_other].
  specialize (Hf eq_refl). pose proof (join_split ":" l) as Hl.
  destruct (split_on ":" l) as [|e0 [|e1 [|e2 es]]] eqn:E; simpl in Hf; [lia..|].
  rewrite (set_hash_split _ _ _ _ _ E). rewrite (is_root_split _ _ _ E) in Hr. rewrite Hr.
  set (t := join_on ":" (e2 :: es)).
  assert (∀ x, join_on ":" (e0 :: x :: e2 :: es) = (e0 +:+ String ":" (x +:+ String ":" t))%string) as Ej
    by done.
  rewrite Ej in *. rewrite <- Hl at 1 2 3. rewrite !ended_field, !none_field, Hh. split_and!.
  - tauto.
  - intros [-> [_ ->]%orb_false_iff]%orb_false_iff. done.
  - by destruct e0.
Qed.

Lemma set_hash_lines h ls :
  has_char newline h = false →
  Forall (λ l, is_root l = true → (3 ≤ length (split_on ":" l))%nat) ls →
  lines_ok ls → lines_ok (set_hash h <$> filter (λ l, nul_line l = false) ls).
Proof.
  intros Hh. induction 1 as [|l ls Hl _ IH]; [done|]. intros Hok. rewrite filter_cons.
  destruct (set_hash_line h l Hh Hl) as (H1 & H2 & H3).
  destruct Hok as [[He Hok]|(-> & Hne & Hn)].
  - specialize (IH Hok). case_decide; [|done]. left. split; [by apply H1|done].
  - case_decide; [|done]. right. split_and!; [done|by apply H3|by apply H2].
Qed.

Lemma readlines_nonempty s : Forall (λ l, l ≠ ""%string) (readlines s).
Proof.
  induction s as [|c t IH]; cbn [readlines]; [by constructor|]. destruct (Ascii.eqb c newline); [by constructor|].
  destruct (readlines t); [by repeat constructor|]. apply Forall_cons_1 in IH as [_ IH]. by constructor.
Qed.

Lemma hash_in_root ls l :
  l ∈ ls → is_root l = true → (length (filter (λ l, is_root l = true) ls) ≤ 1)%nat →
  hash_in "root" ls = split_on ":" l !! 1%nat.
Proof.
  induction ls as [|k ls IH]; intros Hl Hr Hn; [by apply elem_of_nil in Hl|]. cbn [hash_in].
  rewrite filter_cons in Hn. change (bool_decide (name_of k = Some "root"%string)) with (is_root k).
  destruct (is_root k) eqn:Hk; [rewrite decide_True in Hn by done|rewrite decide_False in Hn by done].
  - apply elem_of_cons in Hl as [->|Hl]; [done|]. exfalso. simpl in Hn.
    assert (l ∈ filter (λ l, is_root l = true) ls) as Hin by by apply list_elem_of_filter.
    destruct (filter _ ls); [by apply elem_of_nil in Hin|]. simpl in Hn. lia.
  - apply elem_of_cons in Hl as [->|Hl]; [congruence|]. by apply IH.
Qed.

Lemma find_root h ls :
  Forall (λ l, is_root l = true → (3 ≤ length (split_on ":" l))%nat) ls →
  const h <$> find (λ l, is_root l) ls = (const h : string → string) <$> hash_in "root" ls.
Proof.
  induction 1 as [|l ls Hl _ IH]; [done|]. cbn [find hash_in].
  change (bool_decide (name_of l = Some "root"%string)) with (is_root l).
  destruct (is_root l); [|done]. specialize (Hl eq_refl).
  destruct (split_on ":" l) as [|e0 [|e1 es]]; simpl in Hl; [lia..|done].
Qed.

(** ** Properties *)

(** The text of a file, if there is one. *)
Definition text_at (p : string) (g : guest) : option string := content <$> files g !! p.

(** C23: setting the password of root: the program ends with the given hash as the second
    field of root's line (if root has one), every other user of the file keeps the password
    it had, and no other file is touched but the temporary one. *)
Theorem passwdconfig_spec g h text :
  text_at shadow_target g = Some text → shadow_ok text →
  h ≠ ""%string → has_char ":" h = false → has_char newline h = false →
  datadir ∈ dirs g → "/etc"%string ∈ dirs g → shadow_src ∉ dirs g → shadow_target ∉ dirs g →
  let '(r, g') := passwdconfig (JStr h) g in
  r = inr tt ∧ printed g' = printed g ∧ cmds g' = cmds g ∧
  (∀ p, p ≠ shadow_src → p ≠ shadow_target → files g' !! p = files g !! p) ∧
  ∃ text', text_at shadow_target g' = Some text' ∧
    hash_of "root" text' = (const h <$> hash_of "root" text) ∧
    ∀ user, user ≠ "root"%string → nul_line user = false → hash_of user text' = hash_of user text.
Proof.
  intros Ht [Hf Huniq] Hne Hc Hn Hd He Hsrc Htgt. unfold passwdconfig, json_true.
  rewrite (proj2 (String.eqb_neq h "")) by done. cbn [negb]. unfold catch, mbind, G_bind, read.
  unfold text_at in Ht. apply fmap_Some in Ht as (f & Hfile & ->). rewrite Hfile.
  rewrite (shadow_lines_spec h _ (readlines_nonempty _) Hf).
  destruct (existsb _ _) eqn:Ex.
  - cbn. split_and!; [done..|]. exists (content f). split; [unfold text_at; by rewrite Hfile|].
    split; [|done]. apply existsb_exists in Ex as (l & Hl & Hlr). bool_prop.
    unfold hash_of. rewrite (hash_in_root _ l) by (done || by apply list_elem_of_In). by rewrite H0.
  - set (ls := set_hash h <$> filter (λ l, nul_line l = false) (readlines (content f))).
    pose proof (set_hash_lines h (readlines (content f)) Hn Hf (readlines_ok _)) as Hls. fold ls in Hls.
    unfold write, rename. change (parent shadow_src) with datadir. change (parent shadow_target) with "/etc"%string.
    rewrite (bool_decide_true (datadir ∈ dirs g)), (bool_decide_false (shadow_src ∈ dirs g)) by done.
    cbn [andb negb]. cbn [files dirs upd]. rewrite lookup_insert_eq.
    rewrite (bool_decide_true ("/etc"%string ∈ dirs g)), (bool_decide_false (shadow_target ∈ dirs g)) by done.
    cbn [andb negb]. split_and!; [done..| |].
    + intros p H1 H2. cbn. by rewrite lookup_insert_ne, lookup_delete_ne, lookup_insert_ne by done.
    + exists (concat_all ls). split; [unfold text_at; cbn; by rewrite lookup_insert_eq|].
      unfold hash_of. rewrite readlines_concat by done. unfold ls.
      assert (Forall (λ l, is_root l = true → (3 ≤ length (split_on ":" l))%nat)
        (filter (λ l, nul_line l = false) (readlines (content f)))) as Hf'.
      { rewrite Forall_forall in *. intros l [_ Hl]%list_elem_of_filter. by apply Hf. }
      split.
      * rewrite hash_in_set by done. rewrite bool_decide_true, find_root by done.
        by rewrite hash_in_filter.
      * intros user Hu Hnul. rewrite hash_in_set by done. rewrite bool_decide_false by done.
        by apply hash_in_filter.
Qed.

Lemma rename_run src dst g a :
  files g !! src = Some a → parent dst ∈ dirs g → dst ∉ dirs g →
  rename src dst g = (inr tt, (g <| files ::= λ m, <[dst := a]> (delete src m) |>)).
Proof.
  intros Ha Hp Hd. unfold rename. rewrite Ha.
  by rewrite (bool_decide_true (parent dst ∈ dirs g)), (bool_decide_false (dst ∈ dirs g)) by done.
Qed.

(** Installing a file: unless the target is the same already, it is the new file, and the
    temporary one is gone; the target then has the new text - if it was not written in the
    same tick of the clock with the same length, which [filecmp] takes for equal. *)
Lemma install_spec src target g a :
  files g !! src = Some a → src ≠ target → parent target ∈ dirs g → target ∉ dirs g →
  (∀ b, files g !! target = Some b → mtime b ≠ mtime a) →
  ∃ g', install src target g = (inr tt, g') ∧ text_at target g' = Some (content a) ∧
    printed g' = printed g ∧ cmds g' = cmds g ∧ dirs g' = dirs g ∧
    ∀ p, p ≠ src → p ≠ target → files g' !! p = files g !! p.
Proof.
  intros Ha Hne Hp Hd Hb. pose proof (rename_run src target g a Ha Hp Hd) as Hren.
  assert (∃ g', rename src target g = (inr tt, g') ∧ text_at target g' = Some (content a) ∧
    printed g' = printed g ∧ cmds g' = cmds g ∧ dirs g' = dirs g ∧
    ∀ p, p ≠ src → p ≠ target → files g' !! p = files g !! p) as Hok.
  { eexists. split; [exact Hren|]. unfold text_at. cbn. rewrite lookup_insert_eq.
    split_and!; [done..|]. intros p H1 H2. by rewrite lookup_insert_ne, lookup_delete_ne. }
  unfold install, mbind, G_bind, gets, exists_, cmp.
  rewrite (bool_decide_false (target ∈ dirs g)), orb_false_r by done.
  destruct (files g !! target) as [b|] eqn:Eb; [rewrite bool_decide_true by (by eexists)|
    by rewrite bool_decide_false by (by intros [])].
  rewrite Ha, Eb. unfold same_file.
  rewrite (proj2 (Z.eqb_neq (mtime a) (mtime b))) by (intros E; by apply (Hb b)).
  rewrite andb_false_r. cbn [orb]. destruct (String.eqb_spec (content a) (content b)) as [E|E]; [|done].
  exists g. split_and!; [done| |done..]. unfold text_at. rewrite Eb. simpl. by rewrite E.
Qed.

Lemma bind_inr {A B} (m : G A) (f : A → G B) g a g' : m g = (inr a, g') → (m ≫= f) g = f a g'.
Proof. unfold mbind, G_bind. by intros ->. Qed.

Lemma ensure_dir_run p q g :
  parent p = q → q ∈ dirs g → files g !! p = None →
  ∃ g', ensure_dir p g = (inr tt, g') ∧ files g' = files g ∧ printed g' = printed g ∧
    cmds g' = cmds g ∧ clock g' = clock g ∧ p ∈ dirs g' ∧ ∀ d, d ∈ dirs g' ↔ d ∈ dirs g ∨ d = p.
Proof.
  intros <- Hq Hp. unfold ensure_dir, mbind, G_bind, gets, exists_.
  rewrite Hp, (bool_decide_false (is_Some None)) by (by intros []). cbn [orb].
  case_bool_decide as Hx.
  - eexists. split_and!; [done..|]. intros d. split; [by left|by intros [?| ->]].
  - unfold mkdir, exists_. rewrite Hp, (bool_decide_false (is_Some None)) by (by intros []).
    rewrite (bool_decide_true (parent p ∈ dirs g)), (bool_decide_false (p ∈ dirs g)) by done. cbn.
    eexists. split_and!; [done..|cbn; set_solver|cbn; set_solver].
Qed.

(** Setting the key of root: the program returns with the given text as the only contents of
    the file of keys, and no other file is touched but the temporary one. *)
Theorem sshkeyconfig_spec g t :
  t ≠ ""%string → datadir ∈ dirs g → "/root"%string ∈ dirs g →
  files g !! "/root/.ssh"%string = None → key_src ∉ dirs g → key_target ∉ dirs g →
  (∀ b, files g !! key_target = Some b → mtime b ≠ clock g) →
  ∃ g', sshkeyconfig (JStr t) g = (inr tt, g') ∧ text_at key_target g' = Some t ∧
    printed g' = printed g ∧ cmds g' = cmds g ∧
    ∀ p, p ≠ key_src → p ≠ key_target → files g' !! p = files g !! p.
Proof.
  intros Ht Hd Hr Hssh Hsrc Htgt Hb. unfold sshkeyconfig, json_true.
  rewrite (proj2 (String.eqb_neq t "")) by done. cbn [negb].
  destruct (ensure_dir_run "/root/.ssh" "/root" g) as (g1 & E & Ef & Ep & Ec & Ek & Hin & H2); [done..|].
  unfold catch. rewrite (bind_inr _ _ _ _ _ E). cbn [write_json].
  assert (datadir ∈ dirs g1 ∧ key_src ∉ dirs g1 ∧ key_target ∉ dirs g1) as (D1 & D2 & D3).
  { split_and!; [by apply H2; left|intros [?|?]%H2; done|intros [?|?]%H2; done]. }
  assert (write key_src t g1 = (inr tt, (g1 <| files ::= <[key_src := mkFile t (clock g1)]> |>))) as Ew.
  { unfold write. change (parent key_src) with datadir.
    by rewrite bool_decide_true, bool_decide_false by done. }
  rewrite (bind_inr _ _ _ _ _ Ew).
  destruct (install_spec key_src key_target (g1 <| files ::= <[key_src := mkFile t (clock g1)]> |>)
    (mkFile t (clock g1))) as (g' & Ei & Et & ? & ? & _ & Hp); [cbn; apply lookup_insert_eq|done|done|done| |].
  { intros b. cbn. rewrite lookup_insert_ne, Ef, Ek by done. apply Hb. }
  exists g'. rewrite Ei. split_and!; [done|done|cbn in *; congruence|cbn in *; congruence|].
  intros p H3 H4. rewrite Hp by done. cbn. by rewrite lookup_insert_ne, Ef.
Qed.

(** ** What the whole program touches *)

Definition written : list string :=
  [shadow_src; shadow_target; key_src; key_target; resolv_src; resolv_target].

(** The other files are as they were. *)
Definition others_kept (g g' : guest) : Prop := ∀ p, p ∉ written → files g' !! p = files g !! p.
#[export] Instance others_kept_preorder : PreOrder others_kept.
Proof. split; [by intros g p|]. intros g1 g2 g3 H1 H2 p Hp. by rewrite H2, H1. Qed.

Definition stays {A} (m : G A) : Prop := ∀ g, others_kept g (m g).2.

Lemma stays_ret {A} (a : A) : stays (mret a).
Proof. intros g. reflexivity. Qed.
Lemma stays_throw {A} x : stays (throw (A := A) x).
Proof. intros g. reflexivity. Qed.
Lemma stays_gets {A} (f : guest → A) : stays (gets f).
Proof. intros g. reflexivity. Qed.
Lemma stays_print t : stays (print t).
Proof. intros g p Hp. done. Qed.
Lemma stays_bind {A B} (m : G A) (f : A → G B) : stays m → (∀ a, stays (f a)) → stays (m ≫= f).
Proof.
  intros Hm Hf g. specialize (Hm g). unfold mbind, G_bind.
  destruct (m g) as [[x|a] g']; [done|]. etrans; [exact Hm|apply Hf].
Qed.
Lemma stays_catch {A} c (m h : G A) : stays m → stays h → stays (catch c m h).
Proof.
  intros Hm Hh g. specialize (Hm g). unfold catch. destruct (m g) as [[x|a] g']; [|done].
  destruct (c x); [|done]. etrans; [exact Hm|apply Hh].
Qed.
Lemma stays_read p : stays (read p).
Proof. intros g. unfold read. by destruct (files g !! p). Qed.
Lemma stays_cmp p q : stays (cmp p q).
Proof. intros g. unfold cmp. by repeat case_match. Qed.
Lemma stays_mkdir p : stays (mkdir p).
Proof. intros g. unfold mkdir. by case_match. Qed.
Lemma stays_write p t : p ∈ written → stays (write p t).
Proof.
  intros Hp g q Hq. unfold write. case_match; [|done]. cbn. rewrite lookup_insert_ne; [done|]. set_solver.
Qed.
Lemma stays_rename p q : p ∈ written → q ∈ written → stays (rename p q).
Proof.
  intros Hp Hq g r Hr. unfold rename. destruct (files g !! p); [|done]. case_match; [|done]. cbn.
  rewrite lookup_insert_ne, lookup_delete_ne; [done|set_solver..].
Qed.

Ltac stays_step :=
  lazymatch goal with
  | |- stays (mret _) => apply stays_ret
  | |- stays (throw _) => apply stays_throw
  | |- stays (gets _) => apply stays_gets
  | |- stays (print _) => apply stays_print
  | |- stays (error _) => apply stays_print
  | |- stays (_ ≫= _) => apply stays_bind; [|intros ?]
  | |- stays (catch _ _ _) => apply stays_catch
  | |- stays (read _) => apply stays_read
  | |- stays (cmp _ _) => apply stays_cmp
  | |- stays (mkdir _) => apply stays_mkdir
  | |- stays (write _ _) => apply stays_write; vm_compute; set_solver
  | |- stays (rename _ _) => apply stays_rename; vm_compute; set_solver
  | |- stays (run_cmd _ _) => intros ? ? ?; reflexivity
  | |- stays (match ?x with _ => _ end) => destruct x
  | |- stays (let _ := _ in _) => cbv zeta
  end.
Ltac stays_auto := repeat stays_step.

Lemma stays_password h : stays (passwdconfig h).
Proof. unfold passwdconfig. stays_auto. Qed.
Lemma stays_key k : stays (sshkeyconfig k).
Proof. unfold sshkeyconfig, install, ensure_dir, write_json. stays_auto. Qed.
Lemma stays_nameserver n : stays (nameserverconfig n).
Proof. unfold nameserverconfig, install. stays_auto. Qed.

Section program.
Context (popen : list string → string → string * bool) (repr : json → string)
        (loads : string → option json).

Lemma stays_net netinf mac ip netmask gateway : stays (netconfig popen repr netinf mac ip netmask gateway).
Proof. unfold netconfig, take_down, add_route, print_output. stays_auto. Qed.

(** Whatever the configuration holds and whatever the commands do, the program writes
    the password file, the keys of root and the name servers, each by way of a temporary
    file, and no other file; also when it ends with an exception. *)
Theorem main_touches confpath g p :
  p ∉ written → files (main popen repr loads confpath g).2 !! p = files g !! p.
Proof.
  revert g p. change (stays (main popen repr loads confpath)).
  unfold main, ensure_dir, apply_config, configure, default_network, nic, len, member, print_output.
  repeat first [apply stays_net|apply stays_password|apply stays_key|apply stays_nameserver|stays_step].
Qed.
End program.

(** ** Examples *)

Definition nl : string := String newline EmptyString.
Definition shadow_demo : string :=
  ("root:*:15000:0:99999:7:::" +:+ nl +:+ "bin:x:15000:0:99999:7:::" +:+ nl)%string.
Definition conf_demo : string := "/LuoYun/conf/luoyun.conf".

Definition guest_demo : guest :=
  mkGuest (list_to_map [(shadow_target, mkFile shadow_demo 5);
                        (conf_demo, mkFile ("TAG=1" +:+ nl +:+ "JSON={...}" +:+ nl)%string 5);
                        (key_target, mkFile "ssh-rsa AAAA" 7)]%string)
    (list_to_set ["/root"; "/etc"; "/root/.ssh"; "/LuoYun/conf"]%string) [] [] 7.

Definition json_demo : json :=
  JObj [("network", JList [JObj [("ip", JStr "10.0.0.5"); ("netmask", JStr "255.255.255.0")]]);
        ("public_key", JStr "ssh-rsa BBBB"); ("passwd_hash", JStr "$6$ab$cd");
        ("nameservers", JStr "8.8.8.8 8.8.4.4")]%string.

(** Every command succeeds; [ifconfig] shows an interface that is up. *)
Definition up_popen (_ : list string) (_ : string) : string * bool :=
  (("eth0" +:+ nl +:+ "  UP BROADCAST" +:+ nl)%string, false).

Definition run_demo : (exn + unit) * guest :=
  main up_popen (λ _, "[]"%string) (λ _, Some json_demo) conf_demo guest_demo.

(** The password and the name servers are set. The interface gets its address - and a route
    to a gateway called None: the program asks for the gateway of eth1 and sets that of eth0. *)
Example run_sets :
  run_demo.1 = inr tt ∧ hash_of "root" (default "" (text_at shadow_target run_demo.2)) = Some "$6$ab$cd"%string ∧
  text_at resolv_target run_demo.2 =
    Some ("nameserver 8.8.8.8" +:+ nl +:+ "nameserver 8.8.4.4" +:+ nl)%string ∧
  cmds run_demo.2 =
    ["/sbin/ifconfig eth0 2>&1"; "/sbin/ifdown eth0 2>&1";
     "/sbin/ifconfig eth0 10.0.0.5 netmask 255.255.255.0 2>&1";
     "/sbin/route add -net default gw None eth0 2>&1"]%string.
Proof. by vm_compute. Qed.

(** The file of keys was written in the same tick with a text of the same length: the new key
    is taken for the old one. *)
Example same_tick_keeps_key : text_at key_target run_demo.2 = Some "ssh-rsa AAAA"%string.
Proof. by vm_compute. Qed.

(** A second interface without a gateway is refused, although none is used. *)
Example eth1_wants_gateway :
  let r := netconfig up_popen (λ _, ""%string) "eth1" JNull (JStr "10.1.0.5") (JStr "255.0.0.0") JNull guest_demo in
  printed r.2 = ["osconfig Error: missing config info for  eth1"%string] ∧ cmds r.2 = [].
Proof. by vm_compute. Qed.

(** A failed [route] for another reason than an old route: the message is not the one meant. *)
Example route_fails :
  let r := add_route (λ _ _, ("SIOCADDRT: Network is unreachable"%string, true)) (λ _, ""%string)
             (JStr "10.9.9.9") guest_demo in
  r.1 = inl (OtherError "NameError: r").
Proof. by vm_compute. Qed.

Lemma passwdconfig_spec_witness :
  let g := guest_demo <| dirs ::= union {[datadir]} |> in
  let '(r, g') := passwdconfig (JStr "$6$ab$cd") g in
  r = inr tt ∧ printed g' = printed g ∧ cmds g' = cmds g ∧
  (∀ p, p ≠ shadow_src → p ≠ shadow_target → files g' !! p = files g !! p) ∧
  ∃ text', text_at shadow_target g' = Some text' ∧
    hash_of "root" text' = (const "$6$ab$cd"%string <$> hash_of "root" shadow_demo) ∧
    ∀ user, user ≠ "root"%string → nul_line user = false → hash_of user text' = hash_of user shadow_demo.
Proof.
  apply (passwdconfig_spec (guest_demo <| dirs ::= union {[datadir]} |>) "$6$ab$cd" shadow_demo);
    try (apply (bool_decide_unpack _); vm_compute; exact Logic.I); done.
Defined.

Lemma sshkeyconfig_spec_witness :
  let g := guest_demo <| dirs ::= union {[datadir]} |> <| clock := 8 |> in
  ∃ g', sshkeyconfig (JStr "ssh-rsa BBBB") g = (inr tt, g') ∧
    text_at key_target g' = Some "ssh-rsa BBBB"%string ∧
    printed g' = printed g ∧ cmds g' = cmds g ∧
    ∀ p, p ≠ key_src → p ≠ key_target → files g' !! p = files g !! p.
Proof.
  apply (sshkeyconfig_spec (guest_demo <| dirs ::= union {[datadir]} |> <| clock := 8 |>));
    try (apply (bool_decide_unpack _); vm_compute; exact Logic.I); try done.
  intros b. assert (files (guest_demo <| dirs ::= union {[datadir]} |> <| clock := 8 |>) !! key_target =
    Some (mkFile "ssh-rsa AAAA" 7)) as -> by (vm_compute; reflexivity). by intros [= <-].
Defined.

Lemma main_touches_witness :
  files run_demo.2 !! conf_demo = Some (mkFile ("TAG=1" +:+ nl +:+ "JSON={...}" +:+ nl)%string 5).
Proof.
  unfold run_demo. rewrite (main_touches up_popen _ _ conf_demo guest_demo conf_demo).
  - vm_compute. reflexivity.
  - apply (bool_decide_unpack _). vm_compute. exact Logic.I.
Defined.
