(* ===== verification/GuestWeb.v ===== *)
(** The web server of a virtual machine (src/osmanager/bin/pyweb/lyweb.py, luoyuninfo.py): it
    serves one of two directories, [withcookie] to who presents the cookie of the cloud and
    [nocookie] to others, and replaces names in the pages by what the machine knows of itself.
    The class is SimpleHTTPRequestHandler of Python 2 with its own [translate_path]. *)
From Stdlib Require Import Ascii String.
From S2P Require Import Prelude PyText PyPath Table Session Cloud GuestConf.
#[local] Open Scope Z_scope.

(** ** From an address to a file *)

Section server.
Context (luoyun_cookie : string) (luoyun_domain : option string) (cwd : string).

(** The request presents the cookie. *)
Definition has_cookie (query : string) : bool :=
  negb (bool_decide (luoyun_cookie = ""%string)) &&
  bool_decide (first_value "cookie" (parse_qs query) = Some luoyun_cookie).

(** The loop over the words; [splitdrive] and [split] leave a word without a slash as it is. *)
Definition add_word (path word : string) : string :=
  if bool_decide (word = dot) || bool_decide (word = dotdot) then path else path_join path word.

Definition path_words (path : string) : list string :=
  filter (λ w, w ≠ ""%string) (split_on slash (normpath (unquote path))).

Definition file_of (path : string) : string := foldl add_word cwd (path_words path).

(** [None] is the ValueError of [urlparse]. *)
Definition translate_path (path : string) : option string :=
  '(p, q) ← urlparse path;
  Some (file_of ((if has_cookie q then "/withcookie" else "/nocookie") +:+ p)%string).

(** ** What the machine knows of itself *)

(** [s.strip(':')] *)
Fixpoint lstrip_char (c : ascii) (s : string) : string :=
  match s with
  | String d t => if Ascii.eqb d c then lstrip_char c t else s
  | EmptyString => EmptyString
  end.
Definition strip_char (c : ascii) (s : string) : string :=
  str_rev (lstrip_char c (str_rev (lstrip_char c s))).

(** The address in the output of [ifconfig]; the error is an IndexError. *)
Fixpoint inet_addr (ls : list string) : string + option string :=
  match ls with
  | [] => inr None
  | l :: ls =>
      match split_on ":" (strip l) with
      | w :: ws =>
          if bool_decide (w = "inet addr"%string) then
            match ws with
            | v :: _ => inr (head (split_on " " v))
            | [] => inl "IndexError"%string
            end
          else inet_addr ls
      | [] => inr None
      end
  end.

Record machine := mkMachine {
  ifconfig : string * bool;           (* output, failure *)
  version : option string;            (* /LuoYun/build/VERSION *)
  hour : Z; minute : Z }.

(** [%02d] *)
Definition two_digits (n : Z) : string :=
  if (0 <=? n) && (n <=? 9) then ("0" +:+ str_of_Z n)%string else str_of_Z n.

(** A missing file raises IOError, which the handler of OSError does not catch. *)
Definition get_sysinfo (m : machine) : string + list (string * string) :=
  match (if bool_decide (luoyun_domain = None) || bool_decide (luoyun_domain = Some ""%string) then
           if (ifconfig m).2 then inr luoyun_domain
           else match inet_addr (split_on newline (ifconfig m).1) with
                | inr None => inr luoyun_domain
                | r => r
                end
         else inr luoyun_domain) with
  | inl x => inl x
  | inr hostname =>
      match version m with
      | None => inl "IOError"%string
      | Some t =>
          match readlines t with
          | l0 :: l1 :: _ =>
              match words l0, words l1 with
              | _ :: v1 :: _, app :: v2 :: _ =>
                  match hostname with
                  | None => inl "AttributeError: encode"%string
                  | Some h => inr [("hostname", h); ("version1", v1);
                      ("application", strip_char ":" app); ("version2", v2);
                      ("curtime", two_digits (hour m) +:+ ":" +:+ two_digits (minute m))]%string
                  end
              | _, _ => inl "IndexError"%string
              end
          | _ => inl "IndexError"%string
          end
      end
  end.

(** ** A request *)

(** The directory of the server; the page of a directory without an index is an argument. *)
Record www := mkWww { wfiles : gmap string string; wdirs : gset string; listing : string → string }.

(** What goes to the client: the length in the header, and the body. *)
Inductive reply := Moved (location : string) | NotFound | Page (content_length : Z) (body : string).

Definition page_length (t : string) : Z := Z.of_nat (String.length t).

(** [SimpleHTTPRequestHandler.send_head]: a reply without a body, or the length sent and the
    text of the open file. *)
Definition send_head (w : www) (path : string) : option (reply + Z * string) :=
  file ← translate_path path;
  let open_file (f : string) := match wfiles w !! f with
    | Some t => inr (page_length t, t)
    | None => inl NotFound
    end in
  Some (if bool_decide (file ∈ wdirs w) then
          if negb (ends_with slash path) then inl (Moved (path +:+ "/")) else
          let index := path_join file "index.html" in
          let index' := path_join file "index.htm" in
          if bool_decide (is_Some (wfiles w !! index)) || bool_decide (index ∈ wdirs w)
          then open_file index
          else if bool_decide (is_Some (wfiles w !! index')) || bool_decide (index' ∈ wdirs w)
          then open_file index'
          else inr (page_length (listing w file), listing w file)
        else open_file file)%string.

(** [do_GET]; the error is the exception that ends the handler. *)
Definition do_GET (w : www) (m : machine) (path : string) : string + reply :=
  match send_head w path with
  | None => inl "ValueError"%string
  | Some (inl r) => inr r
  | Some (inr (n, t)) =>
      match get_sysinfo m with
      | inl x => inl x
      | inr d => inr (Page n (safe_substitute d t))
      end
  end.
End server.

(** ** The settings of the server *)

(** The text of a member, the JSON null for a missing one. *)
Definition web_settings (loads : string → option json) (conf : string) :
    string + (json * json) :=
  let jsonstr := json_line (readlines conf) in
  if bool_decide (jsonstr = ""%string) then inr (JStr "", JNull) else
  match loads jsonstr with
  | None => inl "ValueError"%string
  | Some j =>
      if negb (json_true j) then inr (JStr "", JNull) else
      match j with
      | JObj l =>
          let cookie := default (JStr "") (jget "cookie" l) in
          match jget "domain" l with
          | None => inr (cookie, JNull)
          | Some (JObj d) => inr (cookie, default JNull (jget "name" d))
          | Some _ => inl "AttributeError: has_key"%string
          end
      | _ => inl "AttributeError: has_key"%string
      end
  end.

(** ** Where files are looked for *)

(** Under a directory: its path and plain components. *)
Definition under (dir p : string) : Prop :=
  ∃ ws, Forall plain ws ∧ p = foldl path_join dir ws.

Lemma plain_words ws : Forall plain ws → filter (λ w, w ≠ ""%string) ws = ws.
Proof.
  induction 1 as [|w ws (Hw & _) _ IH]; [done|]. by rewrite filter_cons, decide_True, IH.
Qed.

Lemma split_join_words ws :
  Forall plain ws → filter (λ w, w ≠ ""%string) (split_on slash (join_on slash ws)) = ws.
Proof.
  intros H. destruct ws as [|w ws]; [done|]. rewrite split_join; [by apply plain_words|done|].
  eapply Forall_impl; [exact H|]. by intros x (_ & _ & _ & ?).
Qed.

(** The words of an absolute path are its normal components. *)
Lemma path_words_abs c d p :
  has_char percent (String c d) = false → c ≠ slash →
  path_words (String slash (String c d +:+ p)) =
    normal_comps true [] (split_on slash (String c d +:+ unquote p)).
Proof.
  intros Hd Hc. unfold path_words.
  change (String slash (String c d +:+ p))%string with ((String slash (String c d)) +:+ p)%string.
  rewrite unquote_app by (cbn [has_char] in *; by rewrite Hd).
  change ((String slash (String c d) +:+ unquote p)%string)
    with (String slash (String c (d +:+ unquote p))).
  change ((String c d +:+ unquote p)%string) with (String c (d +:+ unquote p)).
  set (t := (d +:+ unquote p)%string). unfold normpath. rewrite bool_decide_false by done.
  assert (leading_slashes (String slash (String c t)) = 1%nat) as ->.
  { cbn [leading_slashes]. apply Ascii.eqb_neq in Hc. rewrite Hc. by destruct t. }
  cbn [Nat.eqb negb slashes]. 
  change (split_on slash (String slash (String c t))) with (""%string :: split_on slash (String c t)).
  change (normal_comps true [] (""%string :: split_on slash (String c t)))
    with (normal_comps true [] (split_on slash (String c t))).
  pose proof (normal_comps_plain [] (split_on slash (String c t)) ltac:(constructor) (split_on_words _ _)) as Hp.
  set (ws := normal_comps true [] (split_on slash (String c t))) in *.
  change ((String slash EmptyString +:+ join_on slash ws)%string) with (String slash (join_on slash ws)).
  rewrite bool_decide_false by done.
  change (split_on slash (String slash (join_on slash ws))) with (""%string :: split_on slash (join_on slash ws)).
  rewrite filter_cons, decide_False by (intros H; by apply H). by apply split_join_words.
Qed.

Section where_.
Context (cookie cwd : string).

Lemma add_plain ws : ∀ dir, Forall plain ws → foldl add_word dir ws = foldl path_join dir ws.
Proof.
  induction ws as [|w ws IH]; intros dir H; [done|]. apply Forall_cons_1 in H as [(_ & H1 & H2 & _) H].
  cbn [foldl]. unfold add_word at 2. rewrite !bool_decide_false by done. by apply IH.
Qed.

Lemma file_of_abs c d p :
  has_char percent (String c d) = false → c ≠ slash →
  file_of cwd (String slash (String c d +:+ p)) =
    foldl path_join cwd (normal_comps true [] (split_on slash (String c d +:+ unquote p))).
Proof.
  intros Hd Hc. unfold file_of. rewrite path_words_abs by done. apply add_plain.
  apply normal_comps_plain; [constructor|apply split_on_words].
Qed.

(** Without [..] the loop only drops empty components and dots. *)
Lemma normal_comps_down abs comps : ∀ acc, dotdot ∉ comps →
  normal_comps abs acc comps = rev acc ++ filter (λ c, c ≠ ""%string ∧ c ≠ dot) comps.
Proof.
  induction comps as [|c comps IH]; intros acc H; cbn [normal_comps]; [by rewrite app_nil_r|].
  apply not_elem_of_cons in H as [H1 H]. rewrite filter_cons, (IH acc) by done.
  destruct (decide (c = ""%string)) as [->|Hc]; [rewrite decide_False by (by intros []); done|].
  destruct (decide (c = dot)) as [->|Hd]; [rewrite decide_False by (by intros []); done|].
  rewrite decide_True, !bool_decide_false by done. cbn [orb negb]. rewrite IH by done.
  simpl. by rewrite <- app_assoc.
Qed.

Definition realm (query : string) : string :=
  if has_cookie cookie query then "withcookie" else "nocookie".

Lemma translate_eq url :
  translate_path cookie cwd url =
  match urlparse url with
  | Some (p, q) => Some (foldl path_join cwd (normal_comps true [] (split_on slash (realm q +:+ unquote p))))
  | None => None
  end.
Proof.
  unfold translate_path, realm. destruct (urlparse url) as [[p q]|]; [|done]. cbn [mbind option_bind].
  f_equal. destruct (has_cookie cookie q).
  - by apply (file_of_abs "w" "ithcookie" p).
  - by apply (file_of_abs "n" "ocookie" p).
Qed.

(** C24: a request is answered from the directory of the server, whatever the address - also
    with dots and escaped characters in it. If the path has no component [..], also an escaped
    one, and is empty or begins with a slash, the file is in the part for those with the
    cookie exactly if the request presents it. *)
Theorem translate_path_inside url p q file :
  urlparse url = Some (p, q) → translate_path cookie cwd url = Some file →
  under cwd file ∧
  (dotdot ∉ split_on slash (unquote p) →
   unquote p = ""%string ∨ (∃ t, unquote p = String slash t) →
   under (path_join cwd (realm q)) file).
Proof.
  intros Hu Hf. rewrite translate_eq, Hu in Hf. injection Hf as <-. split.
  - eexists. split; [|done]. apply normal_comps_plain; [constructor|apply split_on_words].
  - intros Hdd Hp. assert (has_char slash (realm q) = false ∧ realm q ≠ ""%string ∧ realm q ≠ dot ∧ realm q ≠ dotdot)
      as (H1 & H2 & H3 & H4) by (unfold realm; by destruct (has_cookie cookie q)).
    destruct Hp as [->|[t Ht]].
    + exists []. split; [constructor|]. rewrite string_app_nil_r, split_on_plain by done.
      by rewrite (normal_comps_id true [realm q] []) by (constructor; [by split_and!|constructor]).
    + rewrite Ht in *. rewrite split_on_app by done.
      change (split_on slash (String slash t)) with (""%string :: split_on slash t) in Hdd.
      apply not_elem_of_cons in Hdd as [_ Hdd]. cbn [normal_comps].
      rewrite !(bool_decide_false (realm q = _)) by done. cbn [orb negb]. rewrite normal_comps_down by done.
      eexists. split; [|reflexivity]. pose proof (split_on_words slash t) as Hw.
      rewrite Forall_forall in *. intros w [[? ?] Hin]%list_elem_of_filter.
      split_and!; [done|done|intros ->; done|by apply Hw].
Qed.

(** ** The parts are not apart *)

(** A path that goes up from the one part gets to the other. *)
Lemma file_of_up p : file_of cwd ("/nocookie/../withcookie" +:+ p) = file_of cwd ("/withcookie" +:+ p).
Proof.
  change (file_of cwd (String slash (String "n" "ocookie/../withcookie" +:+ p)) =
    file_of cwd (String slash (String "w" "ithcookie" +:+ p))).
  by rewrite (file_of_abs "n" "ocookie/../withcookie" p), (file_of_abs "w" "ithcookie" p) by done.
Qed.

Lemma split1_none c s : has_char c s = false → split1 c s = None.
Proof. induction s as [|d s IH]; cbn [has_char split1]; [done|]. intros [-> Hs]%orb_false_iff. by rewrite IH. Qed.

Lemma before_none c d s : has_char c s = false → has_char c (before d s) = false.
Proof.
  unfold before. induction s as [|x s IH]; cbn [has_char split1]; [done|]. intros [Hx Hs]%orb_false_iff.
  destruct (Ascii.eqb x d); [done|]. specialize (IH Hs). destruct (split1 d s) as [[a b]|]; cbn in *;
    by rewrite Hx.
Qed.

Lemma before_cut c s : has_char c (before c s) = false.
Proof.
  unfold before. induction s as [|x s IH]; cbn [split1]; [done|].
  destruct (Ascii.eqb x c) eqn:E; [done|]. destruct (split1 c s) as [[a b]|]; cbn in *; by rewrite E.
Qed.

Lemma cut_params_none c s : has_char c s = false → has_char c (cut_params s) = false.
Proof.
  induction s as [|x s IH]; cbn [has_char cut_params]; [done|]. intros [Hx Hs]%orb_false_iff.
  destruct (_ && _); [done|]. cbn [has_char]. by rewrite Hx, IH.
Qed.

Lemma cut_params_id s : has_char ";" s = false → cut_params s = s.
Proof.
  induction s as [|x s IH]; cbn [has_char cut_params]; [done|]. intros [Hx Hs]%orb_false_iff.
  by rewrite Hx, IH.
Qed.

(** A path from an address has no question mark and no number sign. *)
Lemma urlparse_path url p q : urlparse url = Some (p, q) → has_char "?" p = false ∧ has_char "#" p = false.
Proof.
  unfold urlparse. destruct (split_scheme url) as [scheme u]. destruct (match u with EmptyString => _ | _ => _ end) as [n v].
  destruct (negb _); [done|]. intros [= <- _].
  assert (has_char "?" (before "?" (before "#" v)) = false) as H1 by apply before_cut.
  assert (has_char "#" (before "?" (before "#" v)) = false) as H2 by apply before_none, before_cut.
  destruct (uses_params scheme); [by split; apply cut_params_none|done].
Qed.

Lemma urlparse_plain t :
  has_char "?" t = false → has_char "#" t = false → has_char ";" t = false →
  (∀ u, t ≠ String slash u) → urlparse (String slash t) = Some (String slash t, ""%string).
Proof.
  intros H1 H2 H3 H4. unfold urlparse.
  assert (split_scheme (String slash t) = (""%string, String slash t)) as ->.
  { unfold split_scheme. cbn [split1]. change (Ascii.eqb slash ":") with false. cbn iota.
    destruct (split1 ":" t) as [[a b]|]; cbn [mbind option_bind]; [|done].
    rewrite !bool_decide_false by done. unfold all_chars. cbn [list_ascii_of_string forallb].
    by change (scheme_char slash) with false. }
  assert (match t with String b rest => if Ascii.eqb slash slash && Ascii.eqb b slash then split_netloc rest
    else (""%string, String slash t) | EmptyString => (""%string, String slash t) end = (""%string, String slash t)) as ->.
  { destruct t as [|b rest]; [done|]. destruct (Ascii.eqb_spec b slash) as [->|]; [by destruct (H4 rest)|done]. }
  cbn [has_char Bool.eqb negb]. unfold before, after.
  rewrite (split1_none "#" (String slash t)) by (cbn [has_char]; by rewrite H2).
  cbn [from_option]. rewrite (split1_none "?" (String slash t)) by (cbn [has_char]; by rewrite H1).
  cbn [from_option]. change (uses_params "") with true. cbn iota. by rewrite cut_params_id by (cbn [has_char]; by rewrite H3).
Qed.

(** The cookie keeps nothing from anybody: what an address with the cookie gives, an address
    without it gives too - the same path below [/../withcookie]. *)
Theorem cookie_bypassed url p q :
  urlparse url = Some (p, q) → has_cookie cookie q = true → has_char ";" p = false →
  translate_path cookie cwd ("/../withcookie" +:+ p) = translate_path cookie cwd url.
Proof.
  intros Hu Hc Hs. destruct (urlparse_path url p q Hu) as [H1 H2].
  change ("/../withcookie" +:+ p)%string with (String slash ("../withcookie" +:+ p)).
  unfold translate_path. rewrite urlparse_plain; [|by rewrite has_char_app..|by intros u].
  rewrite Hu. cbn [mbind option_bind]. rewrite Hc.
  assert (has_cookie cookie "" = false) as -> by (unfold has_cookie; by rewrite andb_false_r).
  apply (f_equal Some), file_of_up.
Qed.
End where_.

Lemma translate_path_inside_witness :
  translate_path "c" "/www" "/a/%2e%2e/../../../etc/passwd" = Some "/www/etc/passwd"%string ∧
  under "/www" "/www/etc/passwd" ∧
  translate_path "c" "/www" "/pages/a.html?cookie=c" = Some "/www/withcookie/pages/a.html"%string ∧
  under "/www/withcookie" "/www/withcookie/pages/a.html".
Proof.
  split; [by vm_compute|]. split; [|split; [by vm_compute|]].
  - refine (proj1 (translate_path_inside "c" "/www" "/a/%2e%2e/../../../etc/passwd"
      "/a/%2e%2e/../../../etc/passwd" "" _ _ _)); by vm_compute.
  - refine (proj2 (translate_path_inside "c" "/www" "/pages/a.html?cookie=c" "/pages/a.html" "cookie=c"
      "/www/withcookie/pages/a.html" _ _) _ _); [by vm_compute..| |].
    + vm_compute. intros H. repeat (apply elem_of_cons in H as [H|H]; [discriminate|]).
      by apply elem_of_nil in H.
    + right. by exists "pages/a.html"%string.
Defined.

(** An address without the cookie that gets the page meant for those with it. *)
Example bypass :
  translate_path "c" "/www" "/../withcookie/index.html" = Some "/www/withcookie/index.html"%string.
Proof. by vm_compute. Qed.

Definition demo_www : www :=
  mkWww {["/www/nocookie/index.html"%string := "host $hostname, $x"%string]} {["/www/nocookie"%string]}
    (λ _, "").
Definition demo_machine : machine := mkMachine (""%string, true) (Some ("LuoYun 1.2" +:+ String newline ("Wiki: 3.4" +:+ String newline ""))%string) 9 5.

(** The length sent is that of the page as it lies on the disk, not of the page sent. *)
Example length_of_the_file :
  do_GET "c" (Some "vm.example"%string) "/www" demo_www demo_machine "/" =
  inr (Page 18 "host vm.example, $x") ∧ page_length "host vm.example, $x" = 19.
Proof. split; by vm_compute. Qed.

(** Without the VERSION file no page is sent at all; without a name and an address neither. *)
Example no_version :
  do_GET "c" (Some "vm"%string) "/www" demo_www (mkMachine (""%string, true) None 9 5) "/" = inl "IOError"%string ∧
  do_GET "c" None "/www" demo_www demo_machine "/" = inl "AttributeError: encode"%string.
Proof. split; by vm_compute. Qed.
