(* ===== verification/WinAgent.v ===== *)
(** The agent of a virtual machine with Windows (src/win-osmanager/LuoYun/bin/pyosm): the
    modules lyauth, lydef, lyproc, lyapp and lyutil are those of the agent of osmanager but for
    the separator of a path and the source of the identifier; lyconf, lyconn and lyosm have no
    discovery by multicast, and lyip sets the addresses of the machine. The modules that are
    the same are taken from [Rc4], [OsmWire], [OsmAgent] and [OsmApp]; the main loop is
    translated from its own file and compared with that of the other agent. *)
From Stdlib Require Import Ascii String.
From S2P Require Import Prelude PyText PyPath PyBytes Table Session Cloud Rc4 OsmWire OsmAgent OsmApp GuestConf.
#[local] Open Scope Z_scope.

(** ** The configuration (lyconf.py) *)

(** The class has no multicast attributes, and its [json] stays empty: the fields of
    [Config] for them keep what they have. *)
Definition conf_line_win (c : Config) (l : string) : option Config :=
  let l := strip l in
  if decide (l = ""%string) then Some c else
  '(k, v) ← split1 "=" l;
  if decide (k = "CLC_IP"%string) then Some (set_clc v (clc_port c) c)
  else if decide (k = "CLC_PORT"%string) then
    n ← py_int v; Some (set_clc (clc_ip c) n c)
  else if decide (k = "TAG"%string) then
    n ← py_int v;
    Some (mkConfig n (clc_ip c) (clc_port c) (clc_mcast_ip c) (clc_mcast_port c)
            (key c) (json c) (local_ip c) (status c))
  else if decide (k = "KEY"%string) then
    Some (mkConfig (tag c) (clc_ip c) (clc_port c) (clc_mcast_ip c)
            (clc_mcast_port c) v (json c) (local_ip c) (status c))
  else Some c.

Definition Config_win (file : option (list string)) (c : Config) : conf_result :=
  match file with
  | None => ConfExit
  | Some ls =>
      match foldl (λ oc l, c ← oc; conf_line_win c l) (Some c) ls with
      | Some c' => ConfOk c'
      | None => ConfValueError
      end
  end.

(** ** Registration (lyconn.py, lyutil.myuuid) *)

(** The local address is asked for by the name of the machine, outside of every [try]; [None]
    is the error of an unknown name. *)
Definition regclc_win (uuid : option bytes) (host_ip : option string) (peer : option conn)
    (c : Config) : reg_result * Config * option conn :=
  match peer, host_ip with
  | None, _ => regclc uuid None c
  | Some cn, Some ip => regclc uuid (Some (ip, cn)) c
  | Some cn, None => match uuid with None => (RegNone, c, None) | Some _ => (RegRaise, c, None) end
  end.

Definition connclc_win (uuid : option bytes) (host_ip : option string) (peer : option conn)
    (c : Config) : reg_result * Config * option conn :=
  if has_clc c then
    match regclc_win uuid host_ip peer c with
    | (RegNone, c', _) => (RegNone, c', None)
    | r => r
    end
  else (RegNone, c, None).

(** ** The main loop (lyosm.py) *)

Record win_env := mkWinEnv {
  w_uuid : option bytes; w_host_ip : option string; w_peer : option conn;
  w_now : Z; w_cmd : cmd_env }.

(** The first half of an iteration: connect, or receive and process one packet. *)
Definition net_step_win (e : win_env) (l : loop) : option loop :=
  match sock l with
  | None =>
      match connclc_win (w_uuid e) (w_host_ip e) (w_peer e) (cfg l) with
      | (RegRaise, _, _) => None
      | (RegNone, c, _) =>
          Some (mkLoop c None (notify l) (appstatus l) (timenow l) (the_app l))
      | (RegSock, c, s) =>
          Some (mkLoop c s true (appstatus l) (timenow l) (the_app l))
      end
  | Some osmsock =>
      match sockrecv 1024 (rx osmsock) with
      | ((0, _), _) => Some (mkLoop (cfg l) None (notify l) (appstatus l) (timenow l) (the_app l))
      | ((Zpos _, response), evs) =>
          match process (default [] response) with
          | ProcRaise _ => None
          | ProcReturn _ =>
              Some (mkLoop (cfg l) (Some (mkConn evs (txs osmsock) (sent osmsock))) (notify l)
                      (appstatus l) (timenow l) (the_app l))
          end
      | ((Zneg _, _), evs) =>
          Some (mkLoop (cfg l) (Some (mkConn evs (txs osmsock) (sent osmsock))) (notify l)
                  (appstatus l) (timenow l) (the_app l))
      end
  end.

Definition timeout_win : Z := 3600.

(** The second half: the scripts, when they are due. *)
Definition app_step_win (e : win_env) (l : loop) : option loop :=
  if negb ((timeout_win <=? w_now e - timenow l) || (appstatus l =? 0) || notify l) then Some l else
  match sock l with
  | None =>
      '(status, _, st) ← run (w_cmd e) None (notify l) (the_app l);
      Some (mkLoop (cfg l) None (notify l && negb (0 <? status)) status (w_now e) st)
  | Some osmsock =>
      '(status, wire, st) ← run (w_cmd e) (Some (default SendRaise (head (txs osmsock)))) (notify l) (the_app l);
      Some (mkLoop (cfg l)
        (Some (match wire with
               | Some w => mkConn (rx osmsock) (tail (txs osmsock)) (sent osmsock ++ [w])
               | None => osmsock
               end))
        (notify l && negb (0 <? status)) status (w_now e) st)
  end.

Definition main_step_win (e : win_env) (l : loop) : option loop :=
  l ← net_step_win e l; app_step_win e l.

Definition main_run_win (es : list win_env) (l : loop) : option loop :=
  foldl (λ ol e, l ← ol; main_step_win e l) (Some l) es.

(** ** The addresses of the machine (lyip.py) *)

Section addresses.
Context (loads : string → option Cloud.json).

(** The name of the connection, in the bytes of GB 2312; other text is ASCII. *)
Definition LocalConnection : string := chrs [177; 190; 181; 216; 193; 172; 189; 211].

Definition quote : string := String (ascii_of_nat 34) EmptyString.

Definition static_cmd (ip netmask gateway : string) : string :=
  ("netsh interface ip set address " +:+ quote +:+ LocalConnection +:+ quote +:+ " static " +:+ ip
   +:+ " " +:+ netmask +:+ " " +:+ gateway +:+ " 1")%string.
Definition dns_cmd (nameserver : string) : string :=
  ("netsh interface ip set dns " +:+ LocalConnection +:+ " static " +:+ nameserver)%string.
Definition dhcp_cmd : string :=
  ("netsh interface ip set address " +:+ LocalConnection +:+ " dhcp")%string.

(** [v[k]] *)
Definition item (k : string) (v : Cloud.json) : string + Cloud.json :=
  match v with
  | JObj l => match jget k l with Some x => inr x | None => inl "KeyError"%string end
  | _ => inl "TypeError"%string
  end.

(** [v[0]] *)
Definition item0 (v : Cloud.json) : string + Cloud.json :=
  match v with
  | JList (x :: _) => inr x
  | JStr (String a _) => inr (JStr (String a EmptyString))
  | JList [] | JStr EmptyString => inl "IndexError"%string
  | JObj _ => inl "KeyError"%string
  | _ => inl "TypeError"%string
  end.

(** [v.encode('gb2312')] *)
Definition encoded (v : Cloud.json) : string + string :=
  match v with JStr t => inr t | _ => inl "AttributeError: encode"%string end.

Definition and_then {A B} (x : string + A) (f : A → string + B) : string + B :=
  match x with inl m => inl m | inr a => f a end.

(** The commands for the text of a line, or the exception. *)
Definition network_cmds (j : string) : string + list string :=
  match loads j with
  | None => inl "ValueError"%string
  | Some (JObj c) =>
      match jget "network" c with
      | Some network =>
          and_then (and_then (item "nameservers" (JObj c)) encoded) (λ nameserver,
          let field k := and_then (and_then (item0 network) (item k)) encoded in
          and_then (field "ip"%string) (λ ip,
          and_then (field "netmask"%string) (λ netmask,
          and_then (field "gateway"%string) (λ gateway,
          inr [static_cmd ip netmask gateway; dns_cmd nameserver]))))
      | None => inr [dhcp_cmd]
      end
  | Some _ => inl "AttributeError: has_key"%string
  end.

Definition rstrip (s : string) : string := str_rev (lstrip (str_rev s)).

(** What a line asks for: the text behind [JSON=]. *)
Definition json_text (l : string) : string :=
  let l := rstrip l in
  if bool_decide (substring 0 5 l = "JSON="%string) then substring 5 (String.length l - 5) l
  else EmptyString.

(** The commands that are run, in order, and the exception that ends the program. *)
Fixpoint run_lines (ls : list string) : list string * option string :=
  match ls with
  | [] => ([], None)
  | l :: ls =>
      let j := json_text l in
      if bool_decide (j = ""%string) then run_lines ls else
      match network_cmds j with
      | inl x => ([], Some x)
      | inr cmds => (cmds ++ (run_lines ls).1, (run_lines ls).2)
      end
  end.

Definition GetIp (file : option (list string)) : list string * option string :=
  match file with
  | None => ([], Some "SystemExit"%string)
  | Some ls => run_lines ls
  end.

(** ** Properties of the addresses *)

Lemma run_lines_app l1 l2 :
  run_lines (l1 ++ l2) =
  match run_lines l1 with
  | (cmds, Some x) => (cmds, Some x)
  | (cmds, None) => (cmds ++ (run_lines l2).1, (run_lines l2).2)
  end.
Proof.
  induction l1 as [|l l1 IH]; cbn [run_lines Datatypes.app]; [by destruct (run_lines l2)|].
  destruct (bool_decide _); [done|]. destruct (network_cmds _) as [x|cmds]; [done|].
  rewrite IH. destruct (run_lines l1) as [c [x|]]; cbn [fst snd]; [done|]. by rewrite app_assoc.
Qed.

Lemma run_lines_quiet ls : Forall (λ l, json_text l = ""%string) ls → run_lines ls = ([], None).
Proof. induction 1 as [|l ls Hl _ IH]; [done|]. cbn [run_lines]. by rewrite Hl, bool_decide_true. Qed.

(** A file with one line of settings: the machine gets exactly the address, mask, gateway and
    name server of the first network there, or asks for an address when none is given. *)
Theorem GetIp_spec before l after c :
  Forall (λ l, json_text l = ""%string) (before ++ after) → json_text l ≠ ""%string →
  loads (json_text l) = Some (JObj c) →
  (jget "network" c = None → GetIp (Some (before ++ l :: after)) = ([dhcp_cmd], None)) ∧
  (∀ nic nics ip netmask gateway ns, jget "network" c = Some (JList (JObj nic :: nics)) →
     jget "ip" nic = Some (JStr ip) → jget "netmask" nic = Some (JStr netmask) →
     jget "gateway" nic = Some (JStr gateway) → jget "nameservers" c = Some (JStr ns) →
     GetIp (Some (before ++ l :: after)) = ([static_cmd ip netmask gateway; dns_cmd ns], None)).
Proof.
  intros [Hb Ha]%Forall_app Hl Hc.
  assert (∀ cmds, network_cmds (json_text l) = inr cmds →
    GetIp (Some (before ++ l :: after)) = (cmds, None)) as H.
  { intros cmds Hn. cbn [GetIp]. rewrite run_lines_app, (run_lines_quiet before Hb). cbn [run_lines].
    rewrite bool_decide_false, Hn, (run_lines_quiet after Ha) by done. cbn. by rewrite app_nil_r. }
  split.
  - intros Hn. apply H. unfold network_cmds. by rewrite Hc, Hn.
  - intros nic nics ip netmask gateway ns Hn Hi Hm Hg Hs. apply H. unfold network_cmds.
    rewrite Hc, Hn. cbn. by rewrite Hs, Hi, Hm, Hg.
Qed.
End addresses.

(** ** The same agent, without discovery *)

Definition conf_key (l : string) : option string := fst <$> split1 "=" (strip l).

Lemma conf_line_win_same c l :
  conf_key l ∉ [Some "CLC_MCAST_IP"%string; Some "CLC_MCAST_PORT"%string; Some "JSON"%string] →
  conf_line_win c l = conf_line c l.
Proof.
  unfold conf_key, conf_line_win, conf_line. intros H. case_decide; [done|].
  destruct (split1 "=" (strip l)) as [[k v]|]; [|done]. cbn in H. cbn [mbind option_bind].
  do 2 (case_decide; [done|]).
  rewrite (decide_False (P := k = "CLC_MCAST_IP"%string)) by (intros ->; apply H; set_solver).
  rewrite (decide_False (P := k = "CLC_MCAST_PORT"%string)) by (intros ->; apply H; set_solver).
  do 2 (case_decide; [done|]).
  rewrite (decide_False (P := k = "JSON"%string)) by (intros ->; apply H; set_solver). done.
Qed.

Lemma regclc_same_clc u p c :
  clc_ip (regclc u p c).1.2 = clc_ip c ∧ clc_port (regclc u p c).1.2 = clc_port c.
Proof. unfold regclc. repeat case_match; simplify_eq/=; done. Qed.

(** When the machine knows its own name, connecting is that of the other agent on a host where
    the multicast group cannot be joined. *)
Lemma connclc_win_same u ip p second start evs c :
  connclc_win u (Some ip) p c =
  connclc (mkAttempt u ((λ cn, (ip, cn)) <$> p)) second false start evs c.
Proof.
  unfold connclc_win, connclc. cbn [a_uuid a_peer].
  assert (regclc_win u (Some ip) p c = regclc u ((λ cn, (ip, cn)) <$> p) c) as -> by by destruct p.
  pose proof (regclc_same_clc u ((λ cn, (ip, cn)) <$> p) c) as [H1 H2].
  destruct (has_clc c); [|cbn; by rewrite decide_True].
  destruct (regclc _ _ _) as [[r c'] s]. cbn in H1, H2. destruct r; [done| |done].
  cbn. by rewrite decide_True.
Qed.

(** What the other agent would meet: no group to join. *)
Definition as_linux (e : win_env) : step_env :=
  mkStepEnv (mkAttempt (w_uuid e) (cn ← w_peer e; ip ← w_host_ip e; Some (ip, cn)))
    (mkAttempt None None) false 0 [] (w_now e) (w_cmd e).

Lemma app_step_win_same e l : app_step_win e l = app_step (as_linux e) l.
Proof.
  unfold app_step_win, app_step, timeout_win, timeout. cbn [as_linux e_now e_cmd].
  rewrite Z.geb_leb. destruct ((_ <=? _) || _ || _); [|done]. cbn [negb].
  destruct (sock l) as [cn|]; cbn [fmap option_fmap option_map].
  - assert (default SendRaise (head (txs cn)) = match txs cn with [] => SendRaise | t :: _ => t end) as ->
      by by destruct (txs cn).
    destruct (run _ _ _ _) as [[[ret wire] st]|]; [|done]. cbn [mbind option_bind].
    rewrite Z.gtb_ltb. assert (tail (txs cn) = drop 1 (txs cn)) as -> by by destruct (txs cn).
    by destruct wire, (0 <? ret), (notify l).
  - destruct (run _ _ _ _) as [[[ret wire] st]|]; [|done]. cbn [mbind option_bind].
    rewrite Z.gtb_ltb. by destruct wire, (0 <? ret), (notify l).
Qed.

Lemma net_step_win_same e ip l : w_host_ip e = Some ip → net_step_win e l = net_step (as_linux e) l.
Proof.
  intros Hip. unfold net_step_win, net_step. destruct (sock l) as [cn|].
  - destruct (sockrecv 1024 (rx cn)) as [[[|p|p] response] evs]; [done| |done].
    cbn. by destruct (process _).
  - rewrite Hip, (connclc_win_same _ _ _ (mkAttempt None None) 0 []). unfold as_linux. cbn. rewrite Hip.
    by destruct (w_peer e).
Qed.

(** The error of an unknown name. *)
Lemma net_step_win_nameless e l cn u :
  w_host_ip e = None → sock l = None → has_clc (cfg l) = true → w_peer e = Some cn → w_uuid e = Some u →
  net_step_win e l = None.
Proof.
  intros Hip Hs Hc Hp Hu. unfold net_step_win, connclc_win, regclc_win. by rewrite Hs, Hc, Hp, Hip, Hu.
Qed.

Lemma net_step_win_inv k e l l' :
  (∀ cn, w_peer e = Some cn → Forall (takes k) (txs cn)) →
  net_step_win e l = Some l' → report_inv k l → report_inv k l'.
Proof.
  intros He H Hi. destruct (w_host_ip e) as [ip|] eqn:Hip.
  - rewrite (net_step_win_same e ip l Hip) in H. eapply net_step_inv; [|exact H|done].
    intros ip' cn [Hp|Hp]; [|done]. cbn in Hp. rewrite Hip in Hp.
    destruct (w_peer e); [|done]. simplify_eq/=. by apply He.
  - destruct (sock l) as [cn|] eqn:Es.
    + unfold net_step_win in H. rewrite Es in H. intros cn' Hcn.
      destruct (Hi cn Es) as [Ht Hr].
      destruct (sockrecv 1024 (rx cn)) as [[[|p|p] response] evs]; [by simplify_eq| |];
        repeat case_match; simplify_eq/=; done.
    + unfold net_step_win, connclc_win, regclc_win in H. rewrite Es, Hip in H.
      assert (sock l' = None) as Hn; [|intros cn; by rewrite Hn].
      destruct (has_clc _); [|by injection H as <-].
      destruct (w_peer e); [by destruct (w_uuid e); [|injection H as <-]|].
      unfold regclc in H. destruct (w_uuid e); [|by injection H as <-]. destruct (encode _ _); [by injection H as <-|done].
Qed.

(** The agent for Windows is the other agent without discovery: a run in which the machine
    knows its own name is a run of the other agent's loop on a host that cannot join the
    group; connecting without knowing the name ends the program; and in every run a
    connected agent that owes no report has put one on this very connection, as
    [main_run_reports] says of the other. *)
Theorem win_main_refines k c now es :
  ((∀ e, e ∈ es → is_Some (w_host_ip e)) →
   ∀ l, main_run_win es l = main_run (as_linux <$> es) l) ∧
  (∀ e l cn u, w_host_ip e = None → sock l = None → has_clc (cfg l) = true →
     w_peer e = Some cn → w_uuid e = Some u → main_step_win e l = None) ∧
  ((∀ e cn, e ∈ es → w_peer e = Some cn → Forall (takes k) (txs cn)) →
   ∀ l cn, main_run_win es (loop_init c now) = Some l →
     sock l = Some cn → notify l = false → ∃ w, w ∈ sent cn ∧ is_report k w).
Proof.
  split_and!.
  - intros Hes l. unfold main_run_win, main_run. generalize (Some l : option loop).
    induction es as [|e es IH]; intros o; [done|]. cbn. rewrite <- IH by (intros; apply Hes; by right).
    f_equal. destruct o as [l0|]; [|done]. cbn. destruct (Hes e) as [ip Hip]; [by left|].
    unfold main_step_win, main_step. rewrite (net_step_win_same e ip) by done.
    destruct (net_step _ _); [|done]. cbn. apply app_step_win_same.
  - intros e l cn u Hip Hs Hc Hp Hu. unfold main_step_win. by rewrite (net_step_win_nameless e l cn u).
  - intros He l cn H Hs Hn.
    assert (Forall (λ e, ∀ cn, w_peer e = Some cn → Forall (takes k) (txs cn)) es) as HF.
    { apply Forall_forall. intros e Hin cn' Hp. by apply (He e). }
    apply (foldl_step_inv main_step_win (λ e, ∀ cn, w_peer e = Some cn → Forall (takes k) (txs cn))
      (report_inv k)) in H; [by apply H| |done|by intros ?].
    intros e l0 l1 He' H' Hi. unfold main_step_win in H'.
    destruct (net_step_win e l0) as [l2|] eqn:E; [|done]. cbn in H'. rewrite app_step_win_same in H'.
    eapply app_step_inv; [exact H'|]. by eapply net_step_win_inv.
Qed.

(** ** Concrete runs *)

Definition win_demo : win_env :=
  mkWinEnv (Some demo_uuid) (Some "10.0.0.7"%string)
    (Some (mkConn (rx demo_conn) (txs demo_conn ++ [SendAccept 1024]) [])) 10 (mkEnv true 77 (Some 3)).

Example win_registers :
  match main_run_win [win_demo] (loop_init demo_Config 0) with
  | Some l => notify l = false ∧ from_option (λ cn, length (sent cn)) 0%nat (sock l) = 4%nat
  | None => False
  end.
Proof. by vm_compute. Qed.

(** A machine whose name has no address ends its agent with the first connection. *)
Example unknown_name :
  main_run_win [mkWinEnv (Some demo_uuid) None (w_peer win_demo) 10 (w_cmd win_demo)]
    (loop_init demo_Config 0) = None.
Proof. by vm_compute. Qed.

Definition win_loads (t : string) : option Cloud.json :=
  if bool_decide (t = "{}"%string) then Some (JObj []) else None.

Example asks_for_an_address :
  GetIp win_loads (Some ["TAG=3"; "JSON={}"]%string) = ([dhcp_cmd], None) ∧
  GetIp win_loads (Some ["JSON={"; "JSON={}"]%string) = ([], Some "ValueError"%string).
Proof. by vm_compute. Qed.
