(* ===== verification/WinWeb.v ===== *)
(** The web server of a virtual machine with Windows
    (src/win-osmanager/LuoYun/bin/pyweb/lyweb.py). It takes only the first component of an
    address, and joins it with backslashes before [posixpath.normpath], which knows none.
    [os.path] is [ntpath], as of the last Python 2.7, on ASCII strings. *)
From Stdlib Require Import Ascii String.
From S2P Require Import Prelude PyText PyPath Table Session Cloud GuestConf GuestWeb.
#[local] Open Scope Z_scope.

(** ** [ntpath] *)

Definition backslash : ascii := ascii_of_nat 92.
Definition colon : ascii := ":"%char.
Definition is_sep (c : ascii) : bool := Ascii.eqb c slash || Ascii.eqb c backslash.

Definition starts_sep (s : string) : bool := match s with String c _ => is_sep c | _ => false end.
Fixpoint ends_sep (s : string) : bool :=
  match s with
  | EmptyString => false
  | String c EmptyString => is_sep c
  | String _ s => ends_sep s
  end.

(** What precedes the first separator, and the text from it on. *)
Fixpoint to_sep (s : string) : string * string :=
  match s with
  | String c t => if is_sep c then (EmptyString, s) else (String c (to_sep t).1, (to_sep t).2)
  | EmptyString => (EmptyString, EmptyString)
  end.

(** [splitdrive]: [\\host\share] or a letter with its colon, and the rest. *)
Definition splitdrive (p : string) : string * string :=
  match p with
  | String a (String b t) =>
      if is_sep a && is_sep b && negb (starts_sep t) then
        let '(host, r) := to_sep t in
        match r with
        | EmptyString => (EmptyString, p)
        | String c r' =>
            if starts_sep r' then (EmptyString, p)
            else let '(share, rest) := to_sep r' in
                 (String a (String b (host +:+ String c share)), rest)
        end
      else if Ascii.eqb b colon then (String a (String b EmptyString), t) else (EmptyString, p)
  | _ => (EmptyString, p)
  end%string.

(** What follows the last separator. *)
Fixpoint base (s : string) : string :=
  match s with
  | EmptyString => EmptyString
  | String c t => if has_char slash t || has_char backslash t then base t
                  else if is_sep c then t else s
  end.

(** [os.path.split(p)[1]] *)
Definition split_tail (p : string) : string := base (splitdrive p).2.

(** [os.path.join(a, b)] *)
Definition nt_join (a b : string) : string :=
  let '(ad, ap) := splitdrive a in
  let '(bd, bp) := splitdrive b in
  let '(d, p) :=
    if starts_sep bp then
      (if negb (bool_decide (bd = ""%string)) || bool_decide (ad = ""%string) then bd else ad, bp)
    else if negb (bool_decide (bd = ""%string)) && negb (bool_decide (lower bd = lower ad)) then (bd, bp)
    else
      let ap := if negb (bool_decide (ap = ""%string)) && negb (ends_sep ap)
                then (ap +:+ String backslash "")%string else ap in
      (if bool_decide (bd = ""%string) then ad else bd, (ap +:+ bp)%string) in
  if negb (bool_decide (p = ""%string)) && negb (starts_sep p) &&
     negb (bool_decide (d = ""%string)) && negb (ends_with colon d)
  then (d +:+ String backslash p)%string else (d +:+ p)%string.

(** ** From an address to a file *)

Section server.
Context (luoyun_cookie cwd : string).

Definition add_word_win (path word : string) : string :=
  let word := split_tail (splitdrive word).2 in
  if bool_decide (word = dot) || bool_decide (word = dotdot) then path else nt_join path word.

Definition path_words_win (path : string) : list string :=
  filter (λ w, w ≠ ""%string) (split_on backslash (normpath (unquote path))).

Definition realm_path (query first : string) : string :=
  (String backslash (realm luoyun_cookie query) +:+ String backslash first)%string.

(** The errors are those of [urlparse] and of a path without a slash. *)
Definition translate_path_win (path : string) : string + string :=
  match urlparse path with
  | None => inl "ValueError"%string
  | Some (p, q) =>
      match split_on slash p !! 1%nat with
      | None => inl "IndexError"%string
      | Some first => inr (foldl add_word_win cwd (path_words_win (realm_path q first)))
      end
  end.

(** ** A request *)

(** The files of the machine: the text of a file that can be opened, and what is a directory. *)
Context (open_ : string → option string) (isdir : string → bool) (listing : string → string).

Definition exists_win (p : string) : bool := isdir p || bool_decide (is_Some (open_ p)).

Definition send_file (f : string) : GuestWeb.reply + Z * string :=
  match open_ f with
  | Some t => inr (page_length t, t)
  | None => inl NotFound
  end.

(** [SimpleHTTPRequestHandler.send_head] *)
Definition send_head_win (path : string) : string + (GuestWeb.reply + Z * string) :=
  match translate_path_win path with
  | inl x => inl x
  | inr file => inr (
      if isdir file then
        if negb (ends_with slash path) then inl (Moved (path +:+ "/")) else
        let index := nt_join file "index.html" in
        let index' := nt_join file "index.htm" in
        if exists_win index then send_file index
        else if exists_win index' then send_file index'
        else inr (page_length (listing file), listing file)
      else send_file file)%string
  end.

(** [do_GET]: the page as it is. *)
Definition do_GET_win (path : string) : string + GuestWeb.reply :=
  match send_head_win path with
  | inl x => inl x
  | inr (inl r) => inr r
  | inr (inr (n, t)) => inr (Page n t)
  end.

(** Unlike with the other server, the length sent is that of the page. *)
Lemma length_is_right path n t : do_GET_win path = inr (Page n t) → n = page_length t.
Proof.
  unfold do_GET_win, send_head_win, send_file. intros H. repeat case_match; by simplify_eq.
Qed.
End server.

(** ** Where files are looked for *)

(** No separator and no drive: a name in a directory, or nothing. *)
Definition plain_win (w : string) : Prop :=
  has_char slash w = false ∧ has_char backslash w = false ∧ has_char colon w = false ∧
  w ≠ dot ∧ w ≠ dotdot.

Definition under_win (dir p : string) : Prop :=
  ∃ ws, Forall plain_win ws ∧ p = foldl nt_join dir ws.

Lemma base_no_sep s : has_char slash (base s) = false ∧ has_char backslash (base s) = false.
Proof.
  induction s as [|c t IH]; [done|]. cbn [base].
  destruct (has_char slash t) eqn:E1, (has_char backslash t) eqn:E2; cbn [orb]; try exact IH.
  unfold is_sep. destruct (Ascii.eqb c slash) eqn:E3, (Ascii.eqb c backslash) eqn:E4; cbn [orb];
    try done; cbn [has_char]; by rewrite E3, E4, E1, E2.
Qed.

Lemma base_keeps c s : has_char c s = false → has_char c (base s) = false.
Proof.
  induction s as [|d t IH]; [done|]. cbn [base has_char]. intros H. destruct (orb_false_elim _ _ H) as [Hd Ht].
  destruct (has_char slash t || has_char backslash t); [by apply IH|]. destruct (is_sep d); [exact Ht|exact H].
Qed.

Lemma to_sep_keeps c s : has_char c s = false → has_char c (to_sep s).2 = false.
Proof.
  induction s as [|d t IH]; [done|]. cbn [to_sep has_char]. intros H. destruct (orb_false_elim _ _ H) as [Hd Ht].
  destruct (is_sep d); [exact H|]. by apply IH.
Qed.

Lemma splitdrive_keeps c p : has_char c p = false → has_char c (splitdrive p).2 = false.
Proof.
  intros H. destruct p as [|a [|b t]]; [done|done|]. unfold splitdrive.
  pose proof H as H'. cbn [has_char] in H'. apply orb_false_iff in H' as [_ H'].
  apply orb_false_iff in H' as [_ Ht]. pose proof (to_sep_keeps c t Ht) as Hr.
  destruct (_ && _ && _).
  - destruct (to_sep t) as [host [|x r']]; [exact H|]. cbn [snd] in Hr. destruct (starts_sep r'); [exact H|].
    cbn [has_char] in Hr. apply orb_false_iff in Hr as [_ Hr]. pose proof (to_sep_keeps c r' Hr) as Hs.
    destruct (to_sep r') as [share rest]. exact Hs.
  - by destruct (Ascii.eqb b colon).
Qed.

Lemma has_char_join c sep l :
  c ≠ sep → Forall (λ w, has_char c w = false) l → has_char c (join_on sep l) = false.
Proof.
  intros Hc H. induction H as [|w l Hw H IH]; [done|]. destruct l as [|v l]; [done|].
  change (join_on sep (w :: v :: l)) with (w +:+ String sep (join_on sep (v :: l)))%string.
  rewrite has_char_app, Hw. cbn [has_char orb]. destruct (Ascii.eqb_spec sep c) as [->|]; [done|]. exact IH.
Qed.

Lemma has_char_split c sep s :
  has_char c s = false → Forall (λ w, has_char c w = false) (split_on sep s).
Proof.
  induction s as [|d t IH]; cbn [split_on has_char]; [by constructor|].
  intros [Hd Ht]%orb_false_iff. specialize (IH Ht). destruct (Ascii.eqb d sep); [by constructor|].
  destruct (split_on sep t) as [|w l].
  - constructor; [|done]. cbn [has_char]. by rewrite Hd.
  - apply Forall_cons_1 in IH as [Hw IH]. constructor; [|done]. cbn [has_char]. by rewrite Hd.
Qed.

Lemma normal_comps_forall (P : string → Prop) abs comps : ∀ acc,
  Forall P acc → Forall P comps → Forall P (normal_comps abs acc comps).
Proof.
  induction comps as [|c comps IH]; intros acc Ha Hc; cbn [normal_comps]; [by apply Forall_rev|].
  apply Forall_cons_1 in Hc as [H1 H2]. repeat case_match; apply IH; auto. by apply Forall_tail.
Qed.

Lemma normpath_keeps c p :
  c ≠ slash → c ≠ "."%char → has_char c p = false → has_char c (normpath p) = false.
Proof.
  intros Hs Hd H. unfold normpath. assert (has_char c dot = false) as Hdot.
  { cbn [has_char dot]. rewrite orb_false_r. by destruct (Ascii.eqb_spec "." c) as [<-|]. }
  destruct (bool_decide (p = _)); [done|]. destruct (bool_decide _); [done|].
  rewrite has_char_app. apply orb_false_iff. split.
  - induction (leading_slashes p) as [|n IH]; [done|]. cbn [slashes has_char]. rewrite IH, orb_false_r.
    by destruct (Ascii.eqb_spec slash c) as [<-|].
  - apply has_char_join; [done|]. apply normal_comps_forall; [constructor|by apply has_char_split].
Qed.

Section inside.
Context (cookie cwd : string).

Lemma add_words ws : ∀ dir, Forall (λ w, has_char colon w = false) ws →
  under_win dir (foldl add_word_win dir ws).
Proof.
  induction ws as [|w ws IH]; intros dir H; [by exists []|].
  apply Forall_cons_1 in H as [Hw H]. cbn [foldl]. unfold add_word_win at 2.
  set (t := split_tail (splitdrive w).2).
  assert (plain_win t ∨ t = dot ∨ t = dotdot) as Ht.
  { unfold plain_win, t, split_tail. pose proof (base_no_sep (splitdrive (splitdrive w).2).2) as [H1 H2].
    pose proof (base_keeps colon _ (splitdrive_keeps colon _ (splitdrive_keeps colon _ Hw))) as H3.
    destruct (decide (base (splitdrive (splitdrive w).2).2 = dot)); [by right; left|].
    destruct (decide (base (splitdrive (splitdrive w).2).2 = dotdot)); [by right; right|]. by left. }
  destruct (_ || _) eqn:E; [by apply IH|]. bool_prop.
  destruct Ht as [Ht|[Ht|Ht]]; [|done|done].
  destruct (IH (nt_join dir t) H) as (vs & Hvs & ->). exists (t :: vs). split; [by constructor|done].
Qed.

(** A file is looked for below the directory of the server, in a chain of plain names, for
    every address whose first component has no colon, also no escaped one. *)
Theorem win_path_inside url p q first file :
  urlparse url = Some (p, q) → split_on slash p !! 1%nat = Some first →
  has_char colon (unquote first) = false →
  translate_path_win cookie cwd url = inr file → under_win cwd file.
Proof.
  intros Hu Hf Hc. unfold translate_path_win. rewrite Hu, Hf. intros [= <-]. apply add_words.
  assert (has_char colon (normpath (unquote (realm_path cookie q first))) = false) as Hn.
  { apply normpath_keeps; [done|done|]. unfold realm_path.
    assert (has_char percent (String backslash (realm cookie q)) = false ∧
            has_char colon (String backslash (realm cookie q)) = false) as [H1 H2]
      by (unfold realm; by destruct (has_cookie cookie q)).
    rewrite unquote_app by done. rewrite has_char_app, H2. cbn [orb].
    change (String backslash first) with ((String backslash EmptyString) +:+ first)%string.
    rewrite unquote_app by done. rewrite has_char_app. by rewrite Hc. }
  pose proof (has_char_split colon backslash _ Hn) as Hw. unfold path_words_win.
  rewrite Forall_forall in *. intros w [_ Hin]%list_elem_of_filter. by apply Hw.
Qed.
End inside.

(** ** Concrete runs *)

(** Only the first component counts, and an escaped slash goes up: without the cookie the
    pages of those with the cookie are served. *)
Example win_paths :
  translate_path_win "c" "C:\www" "/a.html?cookie=c" = inr "C:\www\withcookie\a.html"%string ∧
  translate_path_win "c" "C:\www" "/pages/a.html" = inr "C:\www\nocookie\pages"%string ∧
  translate_path_win "c" "C:\www" "/x%2f..%2fwithcookie%5ca.html" = inr "C:\www\withcookie\a.html"%string ∧
  translate_path_win "c" "C:\www" "*" = inl "IndexError"%string.
Proof. by vm_compute. Qed.

(** Two drives are taken off a component, a third stays: the file is outside. *)
Example win_other_drive : translate_path_win "c" "C:\www" "/c:d:e:secret" = inr "e:secret"%string.
Proof. by vm_compute. Qed.

Lemma win_path_inside_witness : under_win "C:\www" "C:\www\withcookie\a.html".
Proof.
  by apply (win_path_inside "c" "C:\www" "/x%2f..%2fwithcookie%5ca.html" "/x%2f..%2fwithcookie%5ca.html"
    "" "x%2f..%2fwithcookie%5ca.html").
Defined.
